(* ===== verification/_CoqProject ===== *)
-Q . S2P
Prelude.v
Ram.v
CString.v
Format.v
PageAlloc.v
Pmm.v
Vmm.v
Vma.v
Elf.v
Heap.v
HeapList.v
HeapPlace.v
HeapSpec.v
HeapFree.v
KernelHeap.v
PortIO.v
Rtc.v
Interrupts.v
Gdt.v
Pci.v
Vnode.v
HeapEnv.v
Vfs.v
Ramfs.v
Ustar.v
Devfs.v
Printf.v
Log.v
Reports.v
Config.v
VfsMacros.v
Keyboard.v
Scheduler.v
ProcSpace.v
Syscall.v
System.v
SyscallLog.v
Panic.v
Entry.v
Boot.v
Stdout.v
BootFiles.v
