(* ===== verification/Prelude.v ===== *)
(** * shadowOS: a verification of the kernel's core

    shadowOS is a small x86-64 kernel in C ([kernel/src]): it takes the machine
    from the Limine boot loader, sets up physical and virtual memory, unpacks a
    USTAR archive into a RAM file system, adds a device file system with the
    standard output, loads an [init] program and schedules user processes, which
    call the kernel through [int $0x80].  This library is a shallow embedding of
    that code: each C function is a definition of the same name, state is passed
    explicitly, and the theorems are about those definitions.

    ** How the code is modelled

    A C integer is a [Z] with the conversion of its type written out ([u8] to
    [s64] below).  A routine that can stop, wait for ever, or leave what C
    defines is a function in the monad [kernel] of this file: [Ret], [Halt] (a
    failed [assert], [hcf], [hlt]), [Spin] (a spinlock that is held), [Fault]
    (NULL, freed memory, an index outside an array) or [NoFuel].

    Memory is seen at two levels.  The allocators, the page tables, the regions
    and the string routines work on bytes: [mem] of [Ram] maps addresses to
    bytes, and structs are words at offsets.  The file systems and the scheduler
    work on a heap of C objects, a finite map from addresses to structs that are
    shared by every pointer to them ([Vnode], [Scheduler]); freeing removes an
    object, and touching it afterwards is a [Fault].

    Loops over linked structures and strings take a budget of steps, [fuel].
    [NoFuel] is a value of the model only.  A theorem about such a loop states a
    budget that is enough (the length of the string, the number of entries of a
    directory, the number of pages) and gives the result for every larger one.

    Components meet in type classes that state what one promises to the other:
    [PageAlloc] with [PageAllocLaws] (the page allocator, as the page tables,
    the regions and the loader use it; [Pmm] proves the laws), [BlockSource] with
    [BlockSourceLaws] (blocks of pages, as the kernel heap uses them),
    [KernelEnv] with [KernelEnvLaws] (the heap and the clock, as the file systems
    use them; [HeapEnv] proves the laws from those of the heap) and [ProcMem]
    (address spaces, as the scheduler uses them; [ProcSpace] is the instance made
    of the page allocator, the page tables, the regions and the loader).  Devices are ports, [PortIO];
    what a chip does with what is written to it is a class of its own, taken
    from its data sheet: [CmosLaws], [PicLaws], [Ps2Laws] and [PciLaws].  Each has
    an instance, a small chip, on which the theorems are run.

    ** The files

    - [Prelude]: machine integers, the monad, its notation and its automation.
    - [Ram]: bytes, little-endian words, and [memcpy], [memset], [memmove],
      [memcmp] of [lib/memory.c]; [memmove] is right whatever the overlap.
    - [CString]: the string routines of [lib/memory.c].  [strtok] yields the
      tokens, [strtol] computes the value or the nearest bound, [strcmp] ends and
      decides equality and order; the bytes [strncpy] writes, one too many.
    - [Format]: [lib/nanoprintf.h] as [lib/printf.c] configures it.  Formats end,
      the conversion buffer is large enough, digits can be read back, fields
      have the width asked for, the text stays in the caller's buffer, and a
      format whose arguments fit its conversions is never undefined.
    - [PageAlloc], [Pmm]: [mm/pmm.c].  Initialisation from the memory map, with
      and without room for the page array; over every interleaving of requests,
      releases and writes of the clients the free pages and the pages in use
      partition the pool; a released page is the next one handed out; the
      defects of [pmm_vmm_cleanup] and of the secondary cache.
    - [Vmm]: [mm/vmm.c].  The abstract state of a pagemap is the entry of each
      virtual page; map, unmap, the section loops of [vmm_init] and
      [vmm_new_pagemap] change exactly the entries they should; running out of
      pages is not noticed.
    - [Vma]: [mm/vma.c].  The first allocation of a context maps fresh distinct
      frames; the second overlaps it; freeing the first frees the root region.
    - [Elf]: [proc/data/elf.c].  A process reads the bytes of its segments at
      their addresses, with the rights the file asks for; what is not a 64-bit
      executable is refused; segments that do not start at a page boundary are
      shifted.
    - [Heap]: [mm/liballoc], the allocator behind [kmalloc].  [HeapList] relates
      the headers in memory to lists of blocks and allocations, [HeapPlace]
      is the placement of an allocation, [HeapSpec] is [kmalloc], [HeapFree] is
      [kfree], and [KernelHeap] states the contract: the abstract state is a finite
      map from pointers to sizes; allocations never overlap, and the bytes of
      one are never touched by calls about another; [krealloc] and [kcalloc];
      freeing twice; sizes beyond 32 bits.
    - [PortIO]: ports.  [Rtc]: [dev/time/rtc.c], the timestamp macros of [rtc.h]
      and [vfs.h].  The time read from the chip, and the calendar round trip.
    - [Interrupts]: the tables of [sys/intr.c], [sys/pic.c] and [pit_init].  Gates,
      handlers, and which lines are open.  [Gdt]: [sys/gdt.c].  The descriptors as
      the processor decodes them.  [Pci]: [sys/pci.c].  The scan reports the
      functions that answer, and only those.
    - [Vnode], [Vfs]: [dev/vfs.h], [dev/vfs.c].  [tree_ok] relates the heap to an
      abstract tree; path resolution and creation refine that tree; permissions;
      what deletion does to siblings.
    - [HeapEnv]: the file systems' environment, made of the kernel heap and the
      clock: the objects of the file systems do not overlap.
    - [Ramfs]: [fs/ramfs.c], with the loader of the USTAR archive.  Creation adds
      one child; what is written can be read back; where a write overflows.
    - [Ustar]: what the loader makes of an archive.  The abstract state is a finite
      map from paths to nodes; loading adds the entries of the archive to it.
    - [Devfs]: [fs/devfs.c] and the device of [dev/stdout.c].
    - [Printf]: [lib/printf.c].  [kprintf] prints all of a text or nothing and
      the ring holds the last mebibyte of the log; [printf] reaches the console;
      the bounds of the [snprintf] family; a printed number is read back by
      [strtol].
    - [Log]: [lib/log.h] and [lib/assert.h].  What a line of the log looks like on
      the console and in the ring, and that a failed [assert] logs and halts.
    - [Reports]: what the allocators print, [liballoc_dump] and [trace_size].  The
      dump lists every block and every allocation of the heap.
    - [Config]: [GET_KERNEL_CONFIG_VALUE] of [post.c].  The value found is the text
      between the key's equals sign and the end of its line.
    - [VfsMacros]: the macros of [dev/vfs.h].  [VFS_READ] returns the contents of
      a file as a string; the last component of a path.
    - [Keyboard]: [dev/input/ps2.c], [dev/input/keyboard.c] and the order in which
      [kmain] and [post_main] set up interrupts.  The controller's initialisation
      ends; a key reaches the device file; after start-up exactly the lines of
      the timer and the keyboard are open, with their handlers.
    - [Scheduler]: [proc/scheduler.c].  [sched_ok] is the state between two
      ticks; ticks are round robin and lose no registers; spawning keeps the
      invariant; descriptors; what exit leaves behind.
    - [ProcSpace]: what [scheduler_spawn] builds in memory.  The address space of a
      new process, page by page: its stack, its process block, and the pages of
      the kernel it shares.
    - [Syscall]: [sys/syscall.c] and [syscall_handler] of [sys/intr.c].  Calls
      from the registers of the interrupt to the serial port or the file and
      back, the error returns, and the arguments nobody checks.
    - [System]: the kernel's whole state, with the components as parts of it, and
      each component's routines as routines on the whole.
    - [SyscallLog]: [syscall_handler] with the lines it prints.  The log of each call
      and of its failure, and that the rest is what [Syscall] says.
    - [Panic]: [kpanic] and [capture_regs] of [sys/intr.c].  The report of an
      exception, register by register, after which the processor halts.
    - [Entry]: [sys/intr.S] and the dispatch of [sys/intr.c].  An interpreter of the
      stubs' instructions; an interrupt saves and restores every register; a round
      of timer interrupts gives every process the processor once; the timer is
      still served after a panic, and resumes the next process.
    - [Boot]: [main.c] and [post.c].  What [kmain] refuses, the configuration
      [post_main] cannot do without, and the log saved to the file system.
    - [Stdout]: the screen.  The functions of [dev/stdout.c] on the whole machine,
      which refine those of [Devfs]; [vfs_debug_print].
    - [BootFiles]: the file system at start-up.  After [setup_files] the root file
      system is the boot archive; the init program is the one that
      [/etc/user.conf] names, or the default.

    ** Budgets

    [kmalloc] takes three steps for each allocation in use and two more, which
    covers a scan from the best bet and one from the root; the loader one step
    for each program header and each page; a format one step for each byte; a
    64-bit number has at most 64 digits; polling loops take the bound of
    [Ps2Laws] on the controller's delay; a walk over the mounts or a directory
    one step for each of its entries, and a timestamp one for each year.  The
    archive takes more than a hundred steps, the length of a name in it, and one
    for each entry; the dump of the heap one for each block and for each
    allocation of the fullest.

    ** What is not modelled

    The terminal library and the boot loader, whose code is not in the repository,
    are arguments; inline assembly other than the interrupt stubs is stood for by
    the outcomes and [PortIO]; the TLB, caches and several processors are left
    out.  [Halt] is a processor in [hlt] or in the loop of [hcf], which executes
    [sti]: [Entry] shows the interrupts served after it.  The lines
    a component logs while it is being set up are not in that component's model;
    [Boot] has those of [kmain] and [post_main], [Reports] those at the end of
    [pmm_init], and [SyscallLog] those of the system calls.  [outw], [inw] and the
    wrapper [syscall] of [sys/syscall.h] have no callers in the kernel.  No
    theorem runs all of [kmain]: the steps have theorems of their own, and
    [BootFiles] follows the files from the archive on.

    The kernel's memory appears in three parts, the objects of the file systems,
    the bytes the terminal and the log work on, and physical memory; a buffer is
    written to the part its reader uses.  The bytes of a process's buffers are kept
    apart from the kernel heap, so a process that passes a kernel address is not
    covered.  The laws of [BlockSource] are those of a source that works:
    [vma_alloc], which the wrappers call, breaks them on the second block ([Vma]). *)

From stdpp Require Import base gmap list strings.
From Stdlib Require Import ZArith Lia.

#[global] Open Scope Z_scope.

(** ** Machine integers

    The kernel is built for x86-64: [uint64_t], [uintptr_t], [size_t] and
    [unsigned long] are 64 bits wide, [unsigned int] is 32, [int] is a
    32-bit two's complement integer.  An integer of the model is a [Z]; the
    functions below are C's conversions to each type. *)

Definition u8 (x : Z) : Z := x mod 2 ^ 8.
Definition u16 (x : Z) : Z := x mod 2 ^ 16.
Definition u32 (x : Z) : Z := x mod 2 ^ 32.
Definition u64 (x : Z) : Z := x mod 2 ^ 64.
Definition s32 (x : Z) : Z := (x + 2 ^ 31) mod 2 ^ 32 - 2 ^ 31.
Definition s64 (x : Z) : Z := (x + 2 ^ 63) mod 2 ^ 64 - 2 ^ 63.

(** [config.h] *)
Definition PAGE_SIZE : Z := 4096.
Definition VMA_START : Z := PAGE_SIZE.
Definition BIT (x : Z) : Z := u32 (Z.shiftl 1 x).

(** The rounding macros of [mm/pmm.h], on [uint64_t] operands. *)
Definition DIV_ROUND_UP (x y : Z) : Z := u64 (u64 x + u64 (u64 y - 1)) / u64 y.
Definition ALIGN_UP (x y : Z) : Z := u64 (DIV_ROUND_UP x y * u64 y).
Definition ALIGN_DOWN (x y : Z) : Z := u64 (u64 x / u64 y * u64 y).

(** ** Results of kernel code

    A kernel routine returns a value with the state it leaves ([Ret]); stops
    the processor, which is what [hcf], [hlt] and a failed [assert] do
    ([Halt]); waits for ever for a spinlock that is held ([Spin]); or steps
    outside what C defines ([Fault]: a NULL or freed object, an index outside
    an array).  [NoFuel] is a value of the model only: it marks a loop whose
    step budget was too small, and each routine with a budget has a theorem
    that a stated budget is enough. *)

Inductive outcome (S A : Type) : Type :=
| Ret (a : A) (s : S)
| Halt (s : S)
| Spin
| Fault
| NoFuel.
Arguments Ret {S A} a s.
Arguments Halt {S A} s.
Arguments Spin {S A}.
Arguments Fault {S A}.
Arguments NoFuel {S A}.

Definition kernel (S A : Type) : Type := S → outcome S A.

Definition kret {S A} (a : A) : kernel S A := λ s, Ret a s.

Definition kbind {S A B} (c : kernel S A) (k : A → kernel S B) : kernel S B :=
  λ s, match c s with
       | Ret a s' => k a s'
       | Halt s' => Halt s'
       | Spin => Spin
       | Fault => Fault
       | NoFuel => NoFuel
       end.

Definition khalt {S A} : kernel S A := λ s, Halt s.
Definition kfault {S A} : kernel S A := λ _, Fault.
Definition kspin {S A} : kernel S A := λ _, Spin.
Definition knofuel {S A} : kernel S A := λ _, NoFuel.
Definition kget {S A} (f : S → A) : kernel S A := λ s, Ret (f s) s.
Definition kmod {S} (f : S → S) : kernel S unit := λ s, Ret tt (f s).

(** [assert(b)] of [lib/assert.h]: log, then [hlt()]. *)
Definition kassert {S} (b : bool) : kernel S unit :=
  if b then kret tt else khalt.

(** A routine of one component in a state that has the component's as a part. *)
Definition zoom {S X A} (view : S → X) (update : X → S → S) (c : kernel X A) : kernel S A :=
  λ s, match c (view s) with
       | Ret a x => Ret a (update x s)
       | Halt x => Halt (update x s)
       | Spin => Spin
       | Fault => Fault
       | NoFuel => NoFuel
       end.

(** A value that C code dereferences: undefined when absent. *)
Definition kopt {S A} (o : option A) : kernel S A :=
  match o with Some a => kret a | None => kfault end.

(** [for] over the values a counter takes. *)
Fixpoint kfor {S} (l : list Z) (body : Z → kernel S unit) : kernel S unit :=
  match l with
  | [] => kret tt
  | i :: l => kbind (body i) (λ _, kfor l body)
  end.

Declare Scope kernel_scope.
Delimit Scope kernel_scope with kernel.
Notation "'let*' x ':=' c 'in' k" := (kbind c (λ x, k))
  (at level 10, x pattern, c at level 100, k at level 200,
   format "'let*'  x  ':='  c  'in' '//' k") : kernel_scope.
Notation "c ';;;' k" := (kbind c (λ _, k))
  (at level 199, right associativity) : kernel_scope.
#[global] Open Scope kernel_scope.

(** ** Automation *)

Create HintDb kernel.
#[export] Hint Unfold kret kbind khalt kfault kspin knofuel kget kmod : kernel.

(** Case analysis on every integer comparison of the goal and context. *)
Ltac zcases :=
  repeat match goal with
  | |- context [?a =? ?b] => destruct (Z.eqb_spec a b)
  | |- context [?a <? ?b] => destruct (Z.ltb_spec a b)
  | |- context [?a <=? ?b] => destruct (Z.leb_spec a b)
  | H : context [?a =? ?b] |- _ => destruct (Z.eqb_spec a b)
  | H : context [?a <? ?b] |- _ => destruct (Z.ltb_spec a b)
  | H : context [?a <=? ?b] |- _ => destruct (Z.leb_spec a b)
  end.

(** Unfold the monad in the goal. *)
Ltac krun := unfold kbind, kret, khalt, kfault, kspin, knofuel, kget, kmod; simpl.

(** ** Lemmas on machine integers *)

Lemma u64_small x : 0 ≤ x < 2 ^ 64 → u64 x = x.
Proof. intros. by apply Z.mod_small. Qed.

Lemma u64_range x : 0 ≤ u64 x < 2 ^ 64.
Proof. apply Z.mod_pos_bound. lia. Qed.

Lemma u32_small x : 0 ≤ x < 2 ^ 32 → u32 x = x.
Proof. intros. by apply Z.mod_small. Qed.

Lemma u32_range x : 0 ≤ u32 x < 2 ^ 32.
Proof. apply Z.mod_pos_bound. lia. Qed.

Lemma u16_small x : 0 ≤ x < 2 ^ 16 → u16 x = x.
Proof. intros. by apply Z.mod_small. Qed.

Lemma u16_range x : 0 ≤ u16 x < 2 ^ 16.
Proof. apply Z.mod_pos_bound. lia. Qed.

Lemma u8_small x : 0 ≤ x < 2 ^ 8 → u8 x = x.
Proof. intros. by apply Z.mod_small. Qed.

Lemma u8_range x : 0 ≤ u8 x < 2 ^ 8.
Proof. apply Z.mod_pos_bound. lia. Qed.

Lemma s32_small x : - 2 ^ 31 ≤ x < 2 ^ 31 → s32 x = x.
Proof. intros. unfold s32. rewrite Z.mod_small; lia. Qed.

Lemma s64_small x : - 2 ^ 63 ≤ x < 2 ^ 63 → s64 x = x.
Proof. intros. unfold s64. rewrite Z.mod_small; lia. Qed.

#[export] Hint Resolve u64_range u32_range u16_range u8_range : kernel.

(** The rounding macros do what their names say while the sum stays below
    2^64. *)
Lemma DIV_ROUND_UP_spec x y :
  0 ≤ x → 0 < y < 2 ^ 64 → x + y - 1 < 2 ^ 64 → DIV_ROUND_UP x y = (x + y - 1) / y.
Proof.
  intros. unfold DIV_ROUND_UP.
  rewrite (u64_small x), (u64_small y), (u64_small (y - 1)), u64_small by lia.
  f_equal. lia.
Qed.

Lemma ALIGN_UP_spec x y :
  0 ≤ x → 0 < y < 2 ^ 64 → x + y - 1 < 2 ^ 64 → ALIGN_UP x y = (x + y - 1) / y * y.
Proof.
  intros. unfold ALIGN_UP. rewrite DIV_ROUND_UP_spec, (u64_small y) by lia.
  apply u64_small.
  pose proof (Z.mul_div_le (x + y - 1) y). pose proof (Z.div_pos (x + y - 1) y). nia.
Qed.

Lemma ALIGN_DOWN_spec x y :
  0 ≤ x < 2 ^ 64 → 0 < y < 2 ^ 64 → ALIGN_DOWN x y = x / y * y.
Proof.
  intros. unfold ALIGN_DOWN. rewrite (u64_small x), (u64_small y) by lia.
  apply u64_small.
  pose proof (Z.mul_div_le x y). pose proof (Z.div_pos x y). nia.
Qed.

Lemma ALIGN_UP_aligned x y :
  0 ≤ x → 0 < y < 2 ^ 64 → x + y - 1 < 2 ^ 64 → x mod y = 0 → ALIGN_UP x y = x.
Proof.
  intros ??? Hm. rewrite ALIGN_UP_spec by lia.
  apply Z.mod_divide in Hm as [k ->]; [|lia].
  replace (k * y + y - 1) with (y - 1 + k * y) by lia.
  rewrite Z.div_add, (Z.div_small (y - 1)) by lia. lia.
Qed.

(** ** Lemmas on the monad *)

Lemma kbind_ret {S A B} (a : A) (k : A → kernel S B) s : kbind (kret a) k s = k a s.
Proof. done. Qed.

Lemma kbind_run {S A B} (c : kernel S A) (k : A → kernel S B) s a s' :
  c s = Ret a s' → kbind c k s = k a s'.
Proof. unfold kbind. by intros ->. Qed.

Lemma kbind_assoc {S A B C} (c : kernel S A) (k : A → kernel S B) (k' : B → kernel S C) s :
  kbind (kbind c k) k' s = kbind c (λ a, kbind (k a) k') s.
Proof. unfold kbind. by destruct (c s). Qed.

Lemma kbind_inv {S A B} (c : kernel S A) (k : A → kernel S B) s b s' :
  kbind c k s = Ret b s' → ∃ a s1, c s = Ret a s1 ∧ k a s1 = Ret b s'.
Proof. unfold kbind. destruct (c s); naive_solver. Qed.

Lemma zoom_run {S X A} (view : S → X) (update : X → S → S) (c : kernel X A) s a x :
  c (view s) = Ret a x → zoom view update c s = Ret a (update x s).
Proof. unfold zoom. by intros ->. Qed.

(** A run on a concrete state: its value, and the state it leaves. *)
Definition ret_value {S A} (o : outcome S A) : option A := match o with Ret a _ => Some a | _ => None end.
Definition ret_state {S A} (d : S) (o : outcome S A) : S := match o with Ret _ s => s | _ => d end.

Lemma ret_run {S A} (d : S) (o : outcome S A) a : ret_value o = Some a → o = Ret a (ret_state d o).
Proof. destruct o; cbn; by intros [= ->]. Qed.

Lemma Ret_inj {S A} (a b : A) (s t : S) : Ret a s = Ret b t → a = b ∧ s = t.
Proof. by intros [= -> ->]. Qed.

Lemma kfor_inv {S} (P : list Z → S → Prop) (body : Z → kernel S unit) l s :
  P [] s →
  (∀ l1 i l2 s, l = l1 ++ i :: l2 → P l1 s → ∃ s', body i s = Ret tt s' ∧ P (l1 ++ [i]) s') →
  ∃ s', kfor l body s = Ret tt s' ∧ P l s'.
Proof.
  intros H0 Hstep. assert (∀ l2 l1 s, l = l1 ++ l2 → P l1 s → ∃ s', kfor l2 body s = Ret tt s' ∧ P l s') as Hgo;
    [|by apply (Hgo l [])].
  intros l2. induction l2 as [|i l2 IH]; intros l1 s1 Hl H1; cbn [kfor].
  - exists s1. rewrite app_nil_r in Hl. by subst.
  - destruct (Hstep l1 i l2 s1 Hl H1) as (s2 & Hrun & H2). rewrite (kbind_run _ _ _ _ _ Hrun).
    apply (IH (l1 ++ [i])); [by rewrite <- app_assoc|done].
Qed.

(** The same over a range of numbers, with the count of rounds. *)
Lemma kfor_range {S} (P : Z → S → Prop) (body : Z → kernel S unit) lo n s :
  0 ≤ n → P 0 s →
  (∀ i s, 0 ≤ i < n → P i s → ∃ s', body (lo + i) s = Ret tt s' ∧ P (i + 1) s') →
  ∃ s', kfor (seqZ lo n) body s = Ret tt s' ∧ P n s'.
Proof.
  intros Hn H0 Hstep. destruct (kfor_inv (λ l, P (Z.of_nat (length l))) body (seqZ lo n) s) as (s' & Hrun & HP).
  - done.
  - intros l1 i l2 s1 Hl HP. assert (seqZ lo n !! length l1 = Some i) as E by (rewrite Hl, lookup_app_r, Nat.sub_diag by lia; done).
    apply lookup_seqZ in E. destruct (Hstep (Z.of_nat (length l1)) s1 ltac:(lia) HP) as (s2 & Hb & HP2).
    exists s2. destruct E as [-> _]. split; [done|]. rewrite length_app. by replace (Z.of_nat _) with (Z.of_nat (length l1) + 1) by (simpl; lia).
  - exists s'. rewrite length_seqZ, Z2Nat.id in HP by lia. done.
Qed.
