(* ===== verification/Ram.v ===== *)
(** * Byte-addressed memory and the [mem*] routines of [lib/memory.c]

    Memory is a finite map from addresses to bytes, zero where it has no
    entry.  [load64]/[store64] are little-endian accesses of the processor;
    [memcpy], [memset], [memmove] and [memcmp] are the loops of
    [lib/memory.c].  The routines return the new memory; the pointer each C
    function returns is its first argument. *)

From stdpp Require Import base gmap list.
From Stdlib Require Import ZArith Lia.
From S2P Require Import Prelude.
#[local] Open Scope Z_scope.

Abbreviation mem := (gmap Z Z).

Definition load8 (m : mem) (a : Z) : Z := default 0 (m !! a) mod 256.
Definition store8 (m : mem) (a v : Z) : mem := <[a := v mod 256]> m.

Fixpoint load_le (n : nat) (m : mem) (a : Z) : Z :=
  match n with
  | O => 0
  | S n' => load8 m a + 256 * load_le n' m (a + 1)
  end.

Fixpoint store_le (n : nat) (m : mem) (a v : Z) : mem :=
  match n with
  | O => m
  | S n' => store_le n' (store8 m a v) (a + 1) (v / 256)
  end.

Definition load16 : mem → Z → Z := load_le 2.
Definition load32 : mem → Z → Z := load_le 4.
Definition load64 : mem → Z → Z := load_le 8.
Definition store64 : mem → Z → Z → mem := store_le 8.

(** [while (n--) *d++ = *s++;] *)
Fixpoint memcpy_loop (n : nat) (m : mem) (d s : Z) : mem :=
  match n with
  | O => m
  | S n' => memcpy_loop n' (store8 m d (load8 m s)) (d + 1) (s + 1)
  end.

Definition memcpy (m : mem) (dest src n : Z) : mem :=
  memcpy_loop (Z.to_nat n) m dest src.

Fixpoint memset_loop (n : nat) (m : mem) (p c : Z) : mem :=
  match n with
  | O => m
  | S n' => memset_loop n' (store8 m p c) (p + 1) c
  end.

Definition memset (m : mem) (s c n : Z) : mem :=
  memset_loop (Z.to_nat n) m s c.

(** [while (n--) *(--d) = *(--s);] *)
Fixpoint memmove_down (n : nat) (m : mem) (d s : Z) : mem :=
  match n with
  | O => m
  | S n' => memmove_down n' (store8 m (d - 1) (load8 m (s - 1))) (d - 1) (s - 1)
  end.

Definition memmove (m : mem) (dest src n : Z) : mem :=
  if dest <? src then memcpy_loop (Z.to_nat n) m dest src
  else memmove_down (Z.to_nat n) m (dest + n) (src + n).

Fixpoint memcmp_loop (n : nat) (m : mem) (p1 p2 : Z) : Z :=
  match n with
  | O => 0
  | S n' =>
      if negb (load8 m p1 =? load8 m p2)
      then if load8 m p1 <? load8 m p2 then -1 else 1
      else memcmp_loop n' m (p1 + 1) (p2 + 1)
  end.

Definition memcmp (m : mem) (s1 s2 n : Z) : Z :=
  memcmp_loop (Z.to_nat n) m s1 s2.

(** The [n] bytes of memory from [p] on. *)
Definition bytes_at (m : mem) (p : Z) (n : nat) : list Z :=
  (λ i : nat, load8 m (p + Z.of_nat i)) <$> seq 0 n.

(** ** Bytes *)

Lemma bytes_at_length m p n : length (bytes_at m p n) = n.
Proof. unfold bytes_at. by rewrite length_fmap, length_seq. Qed.

Lemma bytes_at_lookup m p n i : (i < n)%nat → bytes_at m p n !! i = Some (load8 m (p + Z.of_nat i)).
Proof. intros. unfold bytes_at. by rewrite list_lookup_fmap, lookup_seq_lt by lia. Qed.

Lemma load8_range m a : 0 ≤ load8 m a < 256.
Proof. apply Z.mod_pos_bound. lia. Qed.

Lemma load8_store8_eq m a v : load8 (store8 m a v) a = v mod 256.
Proof. unfold load8, store8. rewrite lookup_insert_eq. simpl. apply Z.mod_mod. lia. Qed.

Lemma load8_store8_ne m a b v : a ≠ b → load8 (store8 m a v) b = load8 m b.
Proof. intros. unfold load8, store8. by rewrite lookup_insert_ne. Qed.

Lemma load8_store8 m a b v :
  load8 (store8 m a v) b = if b =? a then v mod 256 else load8 m b.
Proof.
  destruct (Z.eqb_spec b a) as [->|].
  - apply load8_store8_eq.
  - by apply load8_store8_ne.
Qed.

#[export] Hint Resolve load8_range : kernel.

(** ** Words *)

Lemma load_le_range n m a : 0 ≤ load_le n m a < 256 ^ Z.of_nat n.
Proof.
  revert a. induction n as [|n IH]; intros a; [simpl; lia|].
  cbn [load_le]. rewrite Nat2Z.inj_succ, Z.pow_succ_r by lia.
  pose proof (load8_range m a). specialize (IH (a + 1)). lia.
Qed.

Lemma load_le_ext n m1 m2 a :
  (∀ b, a ≤ b < a + Z.of_nat n → load8 m1 b = load8 m2 b) →
  load_le n m1 a = load_le n m2 a.
Proof.
  revert a. induction n as [|n IH]; intros a Hb; [done|].
  cbn [load_le]. rewrite (Hb a) by lia. rewrite (IH (a + 1)); [done|].
  intros b Hr. apply Hb. lia.
Qed.

Lemma load8_store_le_out n m a v b :
  b < a ∨ a + Z.of_nat n ≤ b → load8 (store_le n m a v) b = load8 m b.
Proof.
  revert m a v. induction n as [|n IH]; intros m a v Hb; [done|].
  cbn [store_le]. rewrite IH by lia. apply load8_store8_ne. lia.
Qed.

Lemma load_store_le_eq n m a v : load_le n (store_le n m a v) a = v mod 256 ^ Z.of_nat n.
Proof.
  revert m a v. induction n as [|n IH]; intros m a v; [symmetry; apply Z.mod_1_r|].
  cbn [load_le store_le]. rewrite load8_store_le_out by lia.
  rewrite load8_store8_eq, IH, Nat2Z.inj_succ, Z.pow_succ_r by lia.
  rewrite Z.rem_mul_r by lia. done.
Qed.

Lemma load_store_le_ne n k m a b v :
  b + Z.of_nat k ≤ a ∨ a + Z.of_nat n ≤ b →
  load_le k (store_le n m a v) b = load_le k m b.
Proof. intros. apply load_le_ext. intros. apply load8_store_le_out. lia. Qed.

(** A word copied from [s] to [d]. *)
Lemma load8_copy_le n m m' d s a :
  load8 (store_le n m' d (load_le n m s)) a =
  if (d <=? a) && (a <? d + Z.of_nat n) then load8 m (s + (a - d)) else load8 m' a.
Proof.
  revert m' d s. induction n as [|n IH]; intros m' d s; cbn [load_le store_le].
  { zcases; simpl; try done; lia. }
  pose proof (load8_range m s) as Hr.
  replace ((load8 m s + 256 * load_le n m (s + 1)) / 256) with (load_le n m (s + 1))
    by (rewrite (Z.mul_comm 256), Z.div_add, Z.div_small by lia; lia).
  rewrite IH, load8_store8. replace ((load8 m s + 256 * load_le n m (s + 1)) mod 256) with (load8 m s)
    by (rewrite (Z.mul_comm 256), Z.mod_add, Z.mod_small by lia; lia).
  zcases; simpl; try done; try lia; try (f_equal; lia).
Qed.

(** Storing what is there changes no byte. *)
Lemma load8_store_same n m a b : load8 (store_le n m a (load_le n m a)) b = load8 m b.
Proof.
  rewrite load8_copy_le. zcases; simpl; try done. f_equal. lia.
Qed.

Lemma load64_range m a : 0 ≤ load64 m a < 2 ^ 64.
Proof. apply (load_le_range 8). Qed.

Lemma load64_store64_eq m a v : load64 (store64 m a v) a = u64 v.
Proof. apply (load_store_le_eq 8). Qed.

Lemma load64_store64_ne m a b v :
  b + 8 ≤ a ∨ a + 8 ≤ b → load64 (store64 m a v) b = load64 m b.
Proof. intros. apply (load_store_le_ne 8 8). lia. Qed.

Lemma load64_ext m1 m2 a :
  (∀ b, a ≤ b < a + 8 → load8 m1 b = load8 m2 b) → load64 m1 a = load64 m2 a.
Proof. apply (load_le_ext 8). Qed.

Lemma load_le_shift n m1 m2 a b :
  (∀ i, 0 ≤ i < Z.of_nat n → load8 m1 (a + i) = load8 m2 (b + i)) →
  load_le n m1 a = load_le n m2 b.
Proof.
  revert a b. induction n as [|n IH]; intros a b H; [done|]. cbn [load_le].
  rewrite (IH (a + 1) (b + 1)).
  - specialize (H 0). rewrite !Z.add_0_r in H. rewrite H by lia. done.
  - intros i Hi. rewrite <- !Z.add_assoc. apply H. lia.
Qed.

Lemma load64_shift m1 m2 a b :
  (∀ i, 0 ≤ i < 8 → load8 m1 (a + i) = load8 m2 (b + i)) → load64 m1 a = load64 m2 b.
Proof. apply (load_le_shift 8). Qed.

Lemma load8_store64_out m a v b :
  b < a ∨ a + 8 ≤ b → load8 (store64 m a v) b = load8 m b.
Proof. apply (load8_store_le_out 8). Qed.

#[export] Hint Resolve load64_range : kernel.

(** ** The [mem*] loops, byte by byte *)

Lemma load8_memset m p c n a :
  0 ≤ n →
  load8 (memset m p c n) a = if (p <=? a) && (a <? p + n) then c mod 256 else load8 m a.
Proof.
  intros Hn. unfold memset. rewrite <- (Z2Nat.id n) at 2 by lia.
  generalize (Z.to_nat n) as k. clear n Hn. intros k. revert m p.
  induction k as [|k IH]; intros m p; cbn [memset_loop].
  - zcases; simpl; try done; lia.
  - rewrite IH, load8_store8. zcases; simpl; try done; lia.
Qed.

Lemma load8_memset_in m p c n a :
  p ≤ a < p + n → load8 (memset m p c n) a = c mod 256.
Proof. intros. rewrite load8_memset by lia. zcases; simpl; try done; lia. Qed.

Lemma load8_memset_out m p c n a :
  0 ≤ n → a < p ∨ p + n ≤ a → load8 (memset m p c n) a = load8 m a.
Proof. intros. rewrite load8_memset by lia. zcases; simpl; try done; lia. Qed.

Lemma load_le_zero n m a :
  (∀ b, a ≤ b < a + Z.of_nat n → load8 m b = 0) → load_le n m a = 0.
Proof.
  revert a. induction n as [|n IH]; intros a Hb; [done|].
  cbn [load_le]. rewrite Hb, IH by (try (intros; apply Hb); lia). done.
Qed.

Lemma load64_memset0_in m p n a :
  p ≤ a → a + 8 ≤ p + n → load64 (memset m p 0 n) a = 0.
Proof.
  intros. apply (load_le_zero 8). intros b Hb. rewrite load8_memset_in; [done|lia].
Qed.

Lemma load64_memset_out m p c n a :
  0 ≤ n → a + 8 ≤ p ∨ p + n ≤ a → load64 (memset m p c n) a = load64 m a.
Proof. intros. apply load64_ext. intros. apply load8_memset_out; lia. Qed.

(** Copying upwards is right when the destination does not lie inside the
    part of the source still to be read. *)
Lemma load8_memcpy_loop k m d s a :
  d ≤ s ∨ s + Z.of_nat k ≤ d →
  load8 (memcpy_loop k m d s) a =
  if (d <=? a) && (a <? d + Z.of_nat k) then load8 m (s + (a - d)) else load8 m a.
Proof.
  revert m d s. induction k as [|k IH]; intros m d s Hds; cbn [memcpy_loop].
  - zcases; simpl; try done; lia.
  - rewrite IH by lia. rewrite !load8_store8.
    assert (load8 m s mod 256 = load8 m s) as ->
      by (apply Z.mod_small; apply load8_range).
    zcases; simpl; try done; try lia; try (f_equal; lia).
Qed.

Lemma load8_memcpy m d s n a :
  0 ≤ n → d ≤ s ∨ s + n ≤ d →
  load8 (memcpy m d s n) a =
  if (d <=? a) && (a <? d + n) then load8 m (s + (a - d)) else load8 m a.
Proof. intros. unfold memcpy. rewrite load8_memcpy_loop by lia. by rewrite Z2Nat.id by lia. Qed.

Lemma load8_memcpy_in m d s n a :
  d ≤ s ∨ s + n ≤ d → d ≤ a < d + n → load8 (memcpy m d s n) a = load8 m (s + (a - d)).
Proof. intros. rewrite load8_memcpy by lia. zcases; simpl; try done; lia. Qed.

Lemma load8_memcpy_out m d s n a :
  0 ≤ n → a < d ∨ d + n ≤ a → load8 (memcpy m d s n) a = load8 m a.
Proof.
  intros Hn Ha. unfold memcpy. rewrite <- (Z2Nat.id n) in Ha by lia.
  generalize dependent (Z.to_nat n). intros k. revert m d s.
  induction k as [|k IH]; intros m d s Ha; cbn [memcpy_loop]; [done|].
  rewrite IH by lia. apply load8_store8_ne. lia.
Qed.

Lemma load8_memmove_down k m d s a :
  s ≤ d →
  load8 (memmove_down k m d s) a =
  if (d - Z.of_nat k <=? a) && (a <? d) then load8 m (s + (a - d)) else load8 m a.
Proof.
  revert m d s. induction k as [|k IH]; intros m d s Hds; cbn [memmove_down].
  - zcases; simpl; try done; lia.
  - rewrite IH by lia. rewrite !load8_store8.
    assert (load8 m (s - 1) mod 256 = load8 m (s - 1)) as ->
      by (apply Z.mod_small; apply load8_range).
    zcases; simpl; try done; try lia; try (f_equal; lia).
Qed.

(** ** Properties *)

(** [memmove] copies [n] bytes whatever the overlap of the two blocks:
    afterwards the destination holds what the source held before the call,
    and no other byte of memory has changed. *)
Theorem memmove_spec m dest src n a (Hn : 0 ≤ n) :
  load8 (memmove m dest src n) a =
  if (dest <=? a) && (a <? dest + n) then load8 m (src + (a - dest)) else load8 m a.
Proof.
  unfold memmove. destruct (Z.ltb_spec dest src).
  - rewrite load8_memcpy_loop by lia. by rewrite Z2Nat.id by lia.
  - rewrite load8_memmove_down by lia. rewrite Z2Nat.id by lia.
    zcases; simpl; try done; try lia; f_equal; lia.
Qed.

Lemma memmove_spec_witness :
  load8 (memmove (<[10 := 1]> (<[11 := 2]> (<[12 := 3]> ∅))) 11 10 3) 13 = 3.
Proof. rewrite (memmove_spec _ 11 10 3 13); [reflexivity | lia]. Defined.
