(* ===== verification/CString.v ===== *)
(** * The string routines of [lib/memory.c]

    Strings are NUL-terminated bytes in the memory of [Ram].  A loop that runs
    until a NUL byte takes a step budget [fuel] and returns [None] when the
    budget is used up; the lemmas give the budget that is enough for a string
    of a known length.  [cstr m p l] says that the string at [p] is [l]. *)

From stdpp Require Import base gmap list strings.
From Stdlib Require Import ZArith Lia Ascii.
From S2P Require Import Prelude Ram.
#[local] Open Scope Z_scope.

Definition LONG_MAX : Z := 2 ^ 63 - 1.
Definition LONG_MIN : Z := - 2 ^ 63.

(** ** Scanning and copying *)

(** [while ( *p) p++;] *)
Fixpoint find_nul (fuel : nat) (m : mem) (p : Z) : option Z :=
  match fuel with
  | O => None
  | S f => if load8 m p =? 0 then Some p else find_nul f m (p + 1)
  end.

Definition strlen (fuel : nat) (m : mem) (s : Z) : option Z :=
  p ← find_nul fuel m s; Some (p - s).

(** [while (( *d++ = *src++));] *)
Fixpoint strcpy_loop (fuel : nat) (m : mem) (d s : Z) : option mem :=
  match fuel with
  | O => None
  | S f =>
      let m' := store8 m d (load8 m s) in
      if load8 m s =? 0 then Some m' else strcpy_loop f m' (d + 1) (s + 1)
  end.

Definition strcpy (fuel : nat) (m : mem) (dest src : Z) : option mem :=
  strcpy_loop fuel m dest src.

(** [while (n && ( *d++ = *src++)) n--;]: the pointer and the count the loop
    ends with. *)
Fixpoint strncpy_copy (k : nat) (m : mem) (d s : Z) : mem * Z * nat :=
  match k with
  | O => (m, d, O)
  | S k' =>
      let m' := store8 m d (load8 m s) in
      if load8 m s =? 0 then (m', d + 1, k) else strncpy_copy k' m' (d + 1) (s + 1)
  end.

Definition strncpy (m : mem) (dest src n : Z) : mem :=
  let '(m', d, k) := strncpy_copy (Z.to_nat n) m dest src in
  memset_loop k m' d 0.

Definition strcat (fuel : nat) (m : mem) (dest src : Z) : option mem :=
  d ← find_nul fuel m dest; strcpy_loop fuel m d src.

(** [while (n-- && ( *d++ = *src++));] *)
Fixpoint strncat_copy (k : nat) (m : mem) (d s : Z) : mem * Z :=
  match k with
  | O => (m, d)
  | S k' =>
      let m' := store8 m d (load8 m s) in
      if load8 m s =? 0 then (m', d + 1) else strncat_copy k' m' (d + 1) (s + 1)
  end.

Definition strncat (fuel : nat) (m : mem) (dest src n : Z) : option mem :=
  d ← find_nul fuel m dest;
  let '(m', d') := strncat_copy (Z.to_nat n) m d src in
  Some (store8 m' d' 0).

(** ** Comparing and searching *)

Fixpoint strcmp (fuel : nat) (m : mem) (s1 s2 : Z) : option Z :=
  match fuel with
  | O => None
  | S f =>
      if negb (load8 m s1 =? 0) && (load8 m s1 =? load8 m s2)
      then strcmp f m (s1 + 1) (s2 + 1)
      else Some (load8 m s1 - load8 m s2)
  end.

Fixpoint strncmp_loop (k : nat) (m : mem) (s1 s2 : Z) : Z :=
  match k with
  | O => 0
  | S k' =>
      if negb (load8 m s1 =? 0) && (load8 m s1 =? load8 m s2)
      then strncmp_loop k' m (s1 + 1) (s2 + 1)
      else load8 m s1 - load8 m s2
  end.

Definition strncmp (m : mem) (s1 s2 n : Z) : Z := strncmp_loop (Z.to_nat n) m s1 s2.

Fixpoint strchr (fuel : nat) (m : mem) (s c : Z) : option Z :=
  match fuel with
  | O => None
  | S f =>
      if load8 m s =? 0 then Some 0
      else if load8 m s =? u8 c then Some s
      else strchr f m (s + 1) c
  end.

Fixpoint strrchr_loop (fuel : nat) (m : mem) (s c last : Z) : option Z :=
  match fuel with
  | O => None
  | S f =>
      if load8 m s =? 0 then Some last
      else strrchr_loop f m (s + 1) c (if load8 m s =? u8 c then s else last)
  end.

Definition strrchr (fuel : nat) (m : mem) (s c : Z) : option Z :=
  strrchr_loop fuel m s c 0.

(** The inner [for (p = set; *p; p++) if ( *s == *p) ...] of [strspn],
    [strcspn] and [strpbrk]: whether the byte [c] occurs in the string [set]. *)
Fixpoint char_in (fuel : nat) (m : mem) (c p : Z) : option bool :=
  match fuel with
  | O => None
  | S f =>
      if load8 m p =? 0 then Some false
      else if c =? load8 m p then Some true
      else char_in f m c (p + 1)
  end.

Fixpoint strcspn_loop (fuel : nat) (inner : nat) (m : mem) (s reject count : Z) : option Z :=
  match fuel with
  | O => None
  | S f =>
      if load8 m s =? 0 then Some count
      else b ← char_in inner m (load8 m s) reject;
           if (b : bool) then Some count else strcspn_loop f inner m (s + 1) reject (count + 1)
  end.

Definition strcspn (fuel : nat) (m : mem) (s reject : Z) : option Z :=
  strcspn_loop fuel fuel m s reject 0.

Fixpoint strspn_loop (fuel : nat) (inner : nat) (m : mem) (s accept count : Z) : option Z :=
  match fuel with
  | O => None
  | S f =>
      if load8 m s =? 0 then Some count
      else b ← char_in inner m (load8 m s) accept;
           if (b : bool) then strspn_loop f inner m (s + 1) accept (count + 1) else Some count
  end.

Definition strspn (fuel : nat) (m : mem) (s accept : Z) : option Z :=
  strspn_loop fuel fuel m s accept 0.

Fixpoint strpbrk_loop (fuel : nat) (inner : nat) (m : mem) (s accept : Z) : option Z :=
  match fuel with
  | O => None
  | S f =>
      if load8 m s =? 0 then Some 0
      else b ← char_in inner m (load8 m s) accept;
           if (b : bool) then Some s else strpbrk_loop f inner m (s + 1) accept
  end.

Definition strpbrk (fuel : nat) (m : mem) (s accept : Z) : option Z :=
  strpbrk_loop fuel fuel m s accept.

(** [while ( *h && *n && ( *h == *n))]: whether the needle ends first. *)
Fixpoint prefix_here (fuel : nat) (m : mem) (h n : Z) : option bool :=
  match fuel with
  | O => None
  | S f =>
      if negb (load8 m h =? 0) && negb (load8 m n =? 0) && (load8 m h =? load8 m n)
      then prefix_here f m (h + 1) (n + 1)
      else Some (load8 m n =? 0)
  end.

Fixpoint strstr_loop (fuel : nat) (inner : nat) (m : mem) (haystack needle : Z) : option Z :=
  match fuel with
  | O => None
  | S f =>
      if load8 m haystack =? 0 then Some 0
      else b ← prefix_here inner m haystack needle;
           if (b : bool) then Some haystack else strstr_loop f inner m (haystack + 1) needle
  end.

Definition strstr (fuel : nat) (m : mem) (haystack needle : Z) : option Z :=
  if load8 m needle =? 0 then Some haystack else strstr_loop fuel fuel m haystack needle.

(** ** Tokens

    [strtok] keeps the rest of the string in a static variable [last]; the
    result is the token, the memory and the new [last]. *)

Definition strtok (fuel : nat) (m : mem) (last str delim : Z) : option (Z * mem * Z) :=
  let str := if str =? 0 then last else str in
  if str =? 0 then Some (0, m, last) else
  skip ← strspn fuel m str delim;
  let str := str + skip in
  if load8 m str =? 0 then Some (0, m, last) else
  len ← strcspn fuel m str delim;
  let e := str + len in
  if load8 m e =? 0 then Some (str, m, e) else Some (str, store8 m e 0, e + 1).

Definition strtok_r (fuel : nat) (m : mem) (str delim saveptr : Z) : option (Z * mem * Z) :=
  let str := if str =? 0 then saveptr else str in
  if str =? 0 then Some (0, m, saveptr) else
  skip ← strspn fuel m str delim;
  let str := str + skip in
  if load8 m str =? 0 then Some (0, m, str) else
  token_end ← strpbrk fuel m str delim;
  if token_end =? 0
  then n ← strlen fuel m str; Some (str, m, str + n)
  else Some (str, store8 m token_end 0, token_end + 1).

(** ** Duplicating

    [kmalloc] is the allocator: from the memory and a size it returns the
    block, 0 for NULL, and the memory after the call. *)

Section dup.
  Context (kmalloc : mem → Z → Z * mem).

Definition strdup (fuel : nat) (m : mem) (s : Z) : option (Z * mem) :=
  len ← strlen fuel m s;
  let '(copy, m') := kmalloc m (u64 (len + 1)) in
  if copy =? 0 then Some (copy, m')
  else m'' ← strcpy fuel m' copy s; Some (copy, m'').

Definition strndup (fuel : nat) (m : mem) (s n : Z) : option (Z * mem) :=
  len ← strlen fuel m s;
  let len := if n <? len then n else len in
  let '(copy, m') := kmalloc m (u64 (len + 1)) in
  if copy =? 0 then Some (copy, m')
  else Some (copy, store8 (strncpy m' copy s len) (copy + len) 0).
End dup.

(** ** Numbers *)

Definition is_space (c : Z) : bool :=
  (c =? 32) || (c =? 9) || (c =? 10) || (c =? 13) || (c =? 12) || (c =? 11).

Fixpoint skip_spaces (fuel : nat) (m : mem) (s : Z) : option Z :=
  match fuel with
  | O => None
  | S f => if is_space (load8 m s) then skip_spaces f m (s + 1) else Some s
  end.

(** The value of a digit character, letters of either case from 10 on. *)
Definition digit_of (c : Z) : option Z :=
  if (48 <=? c) && (c <=? 57) then Some (c - 48)
  else if (97 <=? c) && (c <=? 122) then Some (c - 97 + 10)
  else if (65 <=? c) && (c <=? 90) then Some (c - 65 + 10)
  else None.

(** The accumulation loop; the result is the number and the end pointer. *)
Fixpoint strtol_digits (fuel : nat) (m : mem) (s base sign result : Z) : option (Z * Z) :=
  match fuel with
  | O => None
  | S f =>
      if load8 m s =? 0 then Some (result * sign, s)
      else match digit_of (load8 m s) with
           | None => Some (result * sign, s)
           | Some digit =>
               if base <=? digit then Some (result * sign, s)
               else if (LONG_MAX / base <? result)
                       || ((result =? LONG_MAX / base) && (LONG_MAX mod base <? digit))
               then Some (if sign =? 1 then LONG_MAX else LONG_MIN, s)
               else strtol_digits f m (s + 1) base sign (result * base + digit)
           end
  end.

Definition is_x (c : Z) : bool := (c =? 120) || (c =? 88).

Definition strtol (fuel : nat) (m : mem) (str base : Z) : option (Z * Z) :=
  s ← skip_spaces fuel m str;
  let '(sign, s) :=
    if load8 m s =? 45 then (-1, s + 1)
    else if load8 m s =? 43 then (1, s + 1) else (1, s) in
  let '(base, s) :=
    if base =? 0 then
      if load8 m s =? 48 then
        if is_x (load8 m (s + 1)) then (16, s + 2) else (8, s + 1)
      else (10, s)
    else if (base =? 16) && (load8 m s =? 48) && is_x (load8 m (s + 1)) then (16, s + 2)
    else (base, s) in
  strtol_digits fuel m s base sign 0.

(** ** Strings in memory *)

(** [l] is the string at [p]: its bytes, none of them NUL, then a NUL. *)
Fixpoint cstr (m : mem) (p : Z) (l : list Z) : Prop :=
  match l with
  | [] => load8 m p = 0
  | c :: l' => load8 m p = c ∧ c ≠ 0 ∧ cstr m (p + 1) l'
  end.

(** Lexicographic order of byte strings, the order [strcmp] reports. *)
Fixpoint bytes_lt (l1 l2 : list Z) : bool :=
  match l1, l2 with
  | _, [] => false
  | [], _ :: _ => true
  | a :: l1', b :: l2' => (a <? b) || ((a =? b) && bytes_lt l1' l2')
  end.

Definition zlen {A} (l : list A) : Z := Z.of_nat (length l).

Lemma zlen_cons {A} (x : A) l : zlen (x :: l) = zlen l + 1.
Proof. unfold zlen. simpl. lia. Qed.

Lemma zlen_app {A} (l k : list A) : zlen (l ++ k) = zlen l + zlen k.
Proof. unfold zlen. rewrite length_app. lia. Qed.

Lemma zlen_nonneg {A} (l : list A) : 0 ≤ zlen l.
Proof. unfold zlen. lia. Qed.
#[export] Hint Resolve zlen_nonneg : kernel.

Lemma cstr_byte m p l : cstr m p l → ∀ i c, l !! i = Some c → load8 m (p + Z.of_nat i) = c.
Proof.
  revert p. induction l as [|c l IH]; intros p; [done|]. intros (Hc & _ & Hl) i c'.
  destruct i as [|i]; simpl; intros Hi; simplify_eq.
  - f_equal. lia.
  - rewrite <- (IH _ Hl i c' Hi). f_equal. lia.
Qed.

Lemma cstr_nonzero m p l : cstr m p l → Forall (λ c, c ≠ 0 ∧ 0 ≤ c < 256) l.
Proof.
  revert p. induction l as [|c l IH]; intros p; constructor.
  - destruct H as (<- & ? & ?). pose proof (load8_range m p). done.
  - destruct H as (_ & _ & ?). eauto.
Qed.

Lemma cstr_ext m m' p l :
  (∀ a, p ≤ a ≤ p + zlen l → load8 m' a = load8 m a) → cstr m p l → cstr m' p l.
Proof.
  revert p. induction l as [|c l IH]; intros p Ha; simpl.
  - rewrite Ha; [done|]. unfold zlen. simpl. lia.
  - rewrite zlen_cons in Ha. pose proof (zlen_nonneg l).
    intros (Hc & Hn & Hl). rewrite Ha by lia. repeat split; try done.
    apply IH; [|done]. intros a ?. apply Ha. lia.
Qed.

Lemma cstr_inj m p l1 l2 : cstr m p l1 → cstr m p l2 → l1 = l2.
Proof.
  revert p l2. induction l1 as [|c l1 IH]; intros p [|d l2]; simpl.
  - done.
  - intros ? (? & ? & _). congruence.
  - intros (? & ? & _) ?. congruence.
  - intros (? & ? & H1) (? & ? & H2). f_equal; [congruence | eauto].
Qed.

Lemma cstr_app m p l k : cstr m p (l ++ k) → cstr m (p + zlen l) k.
Proof.
  revert p. induction l as [|c l IH]; intros p; simpl.
  - unfold zlen. simpl. by rewrite Z.add_0_r.
  - intros (_ & _ & H). apply IH in H. rewrite zlen_cons.
    by replace (p + (zlen l + 1)) with (p + 1 + zlen l) by lia.
Qed.

Lemma cstr_head m p l : cstr m p l → load8 m p = default 0 (head l).
Proof. destruct l; simpl; [done|]. by intros (? & _). Qed.

Lemma cstr_split m p l k :
  cstr m p (l ++ k) → Forall (λ c, c ≠ 0) l ∧ cstr (store8 m (p + zlen l) 0) p l.
Proof.
  revert p. induction l as [|c l IH]; intros p; simpl.
  - intros _. split; [done|]. unfold zlen. simpl. rewrite Z.add_0_r. apply load8_store8_eq.
  - intros (Hc & Hn & H). apply IH in H as (HF & Hl). split; [by constructor|].
    rewrite zlen_cons. pose proof (zlen_nonneg l).
    rewrite load8_store8_ne by lia. repeat split; try done.
    by replace (p + (zlen l + 1)) with (p + 1 + zlen l) by lia.
Qed.

Lemma find_nul_ok fuel m p l :
  cstr m p l → (length l < fuel)%nat → find_nul fuel m p = Some (p + zlen l).
Proof.
  revert fuel p. induction l as [|c l IH]; intros [|f] p Hl Hf; simpl in *; try lia.
  - rewrite Hl. simpl. unfold zlen. simpl. f_equal. lia.
  - destruct Hl as (Hc & Hn & Hl). rewrite Hc. destruct (Z.eqb_spec c 0); [done|].
    rewrite (IH f (p + 1)), zlen_cons by (done || lia). f_equal. lia.
Qed.

Lemma strlen_ok fuel m p l :
  cstr m p l → (length l < fuel)%nat → strlen fuel m p = Some (zlen l).
Proof. intros. unfold strlen. rewrite (find_nul_ok _ _ _ l) by done. simpl. f_equal. lia. Qed.

(** [strcmp]'s result for two strings. *)
Fixpoint strcmp_list (l1 l2 : list Z) : Z :=
  match l1, l2 with
  | [], _ => - default 0 (head l2)
  | a :: _, [] => a
  | a :: l1', b :: l2' => if a =? b then strcmp_list l1' l2' else a - b
  end.

Lemma strcmp_ok fuel m p1 p2 l1 l2 :
  cstr m p1 l1 → cstr m p2 l2 → (length l1 < fuel)%nat →
  strcmp fuel m p1 p2 = Some (strcmp_list l1 l2).
Proof.
  revert fuel p1 p2 l2. induction l1 as [|c l1 IH]; intros [|f] p1 p2 l2 H1 H2 Hf;
    simpl in *; try lia.
  - rewrite H1. simpl. rewrite (cstr_head _ _ _ H2). f_equal; lia.
  - destruct H1 as (Hc & Hn & H1). rewrite Hc.
    destruct (Z.eqb_spec c 0); [done|]. simpl.
    destruct l2 as [|d l2]; simpl in H2.
    + rewrite H2. destruct (Z.eqb_spec c 0); [done|]. f_equal; lia.
    + destruct H2 as (Hd & Hn2 & H2). rewrite Hd.
      destruct (Z.eqb_spec c d) as [->|]; [|done]. apply IH; [done..|lia].
Qed.

Lemma strcmp_list_zero l1 l2 :
  Forall (λ c, c ≠ 0 ∧ 0 ≤ c < 256) l1 → Forall (λ c, c ≠ 0 ∧ 0 ≤ c < 256) l2 →
  strcmp_list l1 l2 = 0 ↔ l1 = l2.
Proof.
  intros H1. revert l2. induction H1 as [|a l1 Ha H1 IH]; intros l2 H2; destruct H2 as [|b l2 Hb H2];
    simpl; try (split; [lia | discriminate]); try done.
  destruct (Z.eqb_spec a b) as [->|].
  - rewrite (IH l2 H2). split; [by intros -> | by intros [=]].
  - split; [lia | congruence].
Qed.

Lemma strcmp_list_neg l1 l2 :
  Forall (λ c, c ≠ 0 ∧ 0 ≤ c < 256) l1 → Forall (λ c, c ≠ 0 ∧ 0 ≤ c < 256) l2 →
  (strcmp_list l1 l2 <? 0) = bytes_lt l1 l2.
Proof.
  intros H1. revert l2. induction H1 as [|a l1 Ha H1 IH]; intros l2 H2;
    destruct H2 as [|b l2 Hb H2]; simpl; try lia.
  destruct (Z.eqb_spec a b) as [->|].
  - by rewrite Z.ltb_irrefl, IH by done.
  - rewrite andb_false_l, orb_false_r. lia.
Qed.

(** ** Copies *)

Lemma strcpy_loop_bytes fuel m d s l :
  cstr m s l → (length l < fuel)%nat → d + zlen l < s ∨ s + zlen l < d →
  ∃ m', strcpy_loop fuel m d s = Some m' ∧
    ∀ a, load8 m' a = if (d <=? a) && (a <=? d + zlen l) then load8 m (s + (a - d)) else load8 m a.
Proof.
  revert fuel m d s. induction l as [|c l IH]; intros [|f] m d s Hl Hf Hd; simpl in *; try lia.
  - rewrite Hl. simpl. eexists. split; [done|]. intros a. rewrite load8_store8.
    unfold zlen in *. simpl in *. zcases; simpl; subst; try done; try lia.
    by replace (s + (d - d)) with s by lia.
  - destruct Hl as (Hc & Hn & Hl). rewrite Hc. destruct (Z.eqb_spec c 0); [done|].
    rewrite zlen_cons in *. pose proof (zlen_nonneg l).
    destruct (IH f (store8 m d c) (d + 1) (s + 1)) as (m' & Hm' & Hb).
    { apply (cstr_ext m); [|done]. intros a ?. apply load8_store8_ne. lia. }
    { lia. } { lia. }
    exists m'. split; [done|]. intros a. rewrite Hb, !load8_store8.
    assert (c mod 256 = c) as -> by (rewrite <- Hc; apply Z.mod_small, load8_range).
    zcases; simpl; subst; try done; try lia; try (f_equal; lia).
Qed.

(** What [strncpy] writes when the source string is shorter than [n]: the
    string, its NUL, and then [n - len] further zero bytes. *)
Lemma strncpy_copy_short k m d s l :
  cstr m s l → (length l < k)%nat → d + Z.of_nat k < s ∨ s + zlen l < d →
  ∃ m', strncpy_copy k m d s = (m', d + zlen l + 1, (k - length l)%nat) ∧
    ∀ a, load8 m' a = if (d <=? a) && (a <=? d + zlen l) then load8 m (s + (a - d)) else load8 m a.
Proof.
  revert k m d s. induction l as [|c l IH]; intros [|k] m d s Hl Hf Hd; simpl in *; try lia.
  - rewrite Hl. simpl. eexists. split.
    { unfold zlen. simpl. f_equal. f_equal. lia. }
    intros a. rewrite load8_store8.
    unfold zlen in *. simpl in *. zcases; simpl; subst; try done; try lia.
    by replace (s + (d - d)) with s by lia.
  - destruct Hl as (Hc & Hn & Hl). rewrite Hc. destruct (Z.eqb_spec c 0); [done|].
    rewrite zlen_cons in *. pose proof (zlen_nonneg l).
    destruct (IH k (store8 m d c) (d + 1) (s + 1)) as (m' & Hm' & Hb).
    { apply (cstr_ext m); [|done]. intros a ?. apply load8_store8_ne. unfold zlen in *. lia. }
    { lia. } { unfold zlen in *. lia. }
    exists m'. split.
    { rewrite Hm'. f_equal. f_equal. lia. }
    intros a. rewrite Hb, !load8_store8.
    assert (c mod 256 = c) as -> by (rewrite <- Hc; apply Z.mod_small, load8_range).
    zcases; simpl; subst; try done; try lia; try (f_equal; lia); unfold zlen in *; lia.
Qed.

(** ** Sets of bytes and tokens *)

Lemma char_in_ok fuel m c p l :
  cstr m p l → (length l < fuel)%nat → char_in fuel m c p = Some (bool_decide (c ∈ l)).
Proof.
  revert fuel p. induction l as [|d l IH]; intros [|f] p Hl Hf; simpl in *; try lia.
  - by rewrite Hl.
  - destruct Hl as (Hd & Hn & Hl). rewrite Hd.
    destruct (Z.eqb_spec d 0); [done|]. destruct (Z.eqb_spec c d) as [->|].
    + rewrite bool_decide_eq_true_2; [done | by left].
    + rewrite (IH f (p + 1)) by (done || lia). f_equal.
      apply bool_decide_ext. rewrite elem_of_cons. tauto.
Qed.

Lemma strspn_loop_ok fuel inner m p dp ds pre l n :
  cstr m p (pre ++ l) → cstr m dp ds → (length ds < inner)%nat →
  (length pre < fuel)%nat → Forall (λ c, c ∈ ds) pre →
  match l with [] => True | c :: _ => c ∉ ds end →
  strspn_loop fuel inner m p dp n = Some (n + zlen pre).
Proof.
  revert fuel p n. induction pre as [|c pre IH]; intros [|f] p n Hp Hd Hi Hf Hpre Hl;
    simpl in *; try lia.
  - unfold zlen. simpl. rewrite Z.add_0_r. destruct l as [|c l]; simpl in *.
    + by rewrite Hp.
    + destruct Hp as (-> & Hn & _). destruct (Z.eqb_spec c 0); [done|].
      rewrite (char_in_ok _ _ _ _ ds) by done. simpl.
      by rewrite bool_decide_eq_false_2.
  - destruct Hp as (-> & Hn & Hp). destruct (Z.eqb_spec c 0); [done|].
    inv Hpre. rewrite (char_in_ok _ _ _ _ ds) by done. simpl.
    rewrite bool_decide_eq_true_2 by done.
    rewrite IH, zlen_cons by (done || lia). f_equal. lia.
Qed.

Lemma strcspn_loop_ok fuel inner m p dp ds tok l n :
  cstr m p (tok ++ l) → cstr m dp ds → (length ds < inner)%nat →
  (length tok < fuel)%nat → Forall (λ c, c ∉ ds) tok →
  match l with [] => True | c :: _ => c ∈ ds end →
  strcspn_loop fuel inner m p dp n = Some (n + zlen tok).
Proof.
  revert fuel p n. induction tok as [|c tok IH]; intros [|f] p n Hp Hd Hi Hf Htok Hl;
    simpl in *; try lia.
  - unfold zlen. simpl. rewrite Z.add_0_r. destruct l as [|c l]; simpl in *.
    + by rewrite Hp.
    + destruct Hp as (-> & Hn & _). destruct (Z.eqb_spec c 0); [done|].
      rewrite (char_in_ok _ _ _ _ ds) by done. simpl.
      by rewrite bool_decide_eq_true_2.
  - destruct Hp as (-> & Hn & Hp). destruct (Z.eqb_spec c 0); [done|].
    inv Htok. rewrite (char_in_ok _ _ _ _ ds) by done. simpl.
    rewrite bool_decide_eq_false_2 by done.
    rewrite IH, zlen_cons by (done || lia). f_equal. lia.
Qed.

(** The maximal runs of [l] without a byte of [ds]; [cur] is the run being
    read, reversed. *)
Fixpoint tokens_from (ds l cur : list Z) : list (list Z) :=
  match l with
  | [] => match cur with [] => [] | _ => [reverse cur] end
  | c :: l' =>
      if bool_decide (c ∈ ds) then
        match cur with
        | [] => tokens_from ds l' []
        | _ => reverse cur :: tokens_from ds l' []
        end
      else tokens_from ds l' (c :: cur)
  end.

Definition tokens (ds l : list Z) : list (list Z) := tokens_from ds l [].

Lemma tokens_from_skip ds pre l :
  Forall (λ c, c ∈ ds) pre → tokens ds (pre ++ l) = tokens ds l.
Proof.
  unfold tokens. induction 1 as [|c pre Hc Hpre IH]; [done|].
  simpl. by rewrite bool_decide_eq_true_2.
Qed.

Lemma tokens_from_run ds tok l cur :
  Forall (λ c, c ∉ ds) tok → tokens_from ds (tok ++ l) cur = tokens_from ds l (reverse tok ++ cur).
Proof.
  intros Htok. revert cur. induction Htok as [|c tok Hc Htok IH]; intros cur; [done|].
  simpl. rewrite bool_decide_eq_false_2 by done.
  by rewrite IH, reverse_cons, <- app_assoc.
Qed.

Lemma tokens_cons ds pre tok l :
  Forall (λ c, c ∈ ds) pre → Forall (λ c, c ∉ ds) tok → tok ≠ [] →
  match l with [] => True | c :: _ => c ∈ ds end →
  tokens ds (pre ++ tok ++ l) = tok :: tokens ds (tail l).
Proof.
  intros Hpre Htok Hne Hl. rewrite tokens_from_skip by done.
  unfold tokens. rewrite tokens_from_run, app_nil_r by done.
  assert (reverse tok ≠ []) as Hr.
  { intros E. apply Hne. rewrite <- (reverse_involutive tok), E. done. }
  destruct l as [|c l]; simpl.
  - destruct (reverse tok) eqn:E; [done|]. by rewrite <- E, reverse_involutive.
  - rewrite bool_decide_eq_true_2 by done.
    destruct (reverse tok) eqn:E; [done|]. by rewrite <- E, reverse_involutive.
Qed.

(** Every string is delimiters, then a run of other bytes, then a rest that is
    empty or starts with a delimiter. *)
Lemma split_prefix (P : Z → Prop) `{!∀ c, Decision (P c)} (l : list Z) :
  ∃ pre post, l = pre ++ post ∧ Forall P pre ∧ match post with [] => True | c :: _ => ¬ P c end.
Proof.
  induction l as [|c l (pre & post & -> & Hpre & Hpost)].
  - by exists [], [].
  - destruct (decide (P c)).
    + exists (c :: pre), post. repeat split; [by constructor | done].
    + by exists [], (c :: pre ++ post).
Qed.

(** One call of [strtok] on the string [pre ++ tok ++ l]. *)
Lemma strtok_token fuel m last0 str q dp ds pre tok l :
  (if str =? 0 then last0 else str) = q → q ≠ 0 →
  cstr m q (pre ++ tok ++ l) → cstr m dp ds →
  (length ds < fuel)%nat → (length (pre ++ tok) < fuel)%nat →
  Forall (λ c, c ∈ ds) pre → Forall (λ c, c ∉ ds) tok → tok ≠ [] →
  match l with [] => True | c :: _ => c ∈ ds end →
  ∃ m' last', strtok fuel m last0 str dp = Some (q + zlen pre, m', last') ∧
    cstr m' (q + zlen pre) tok ∧ cstr m' last' (tail l) ∧
    q + zlen pre + zlen tok ≤ last' ≤ q + zlen pre + zlen tok + zlen l ∧
    (last' + zlen (tail l) ≤ q + zlen (pre ++ tok ++ l)) ∧
    (∀ a, a ≠ q + zlen pre + zlen tok → load8 m' a = load8 m a).
Proof.
  intros Hq Hq0 Hl Hd Hf1 Hf2 Hpre Htok Hne Hhead. rewrite length_app in Hf2.
  unfold strtok. rewrite Hq. destruct (Z.eqb_spec q 0); [done|].
  unfold strspn.
  assert (match tok ++ l with [] => True | c :: _ => c ∉ ds end) as Hh
    by (destruct tok; [done | by inv Htok]).
  rewrite (strspn_loop_ok _ _ _ _ _ ds pre (tok ++ l)) by (try done; lia).
  simpl. rewrite ?Z.add_0_l. pose proof (cstr_app _ _ _ _ Hl) as Ht.
  assert (load8 m (q + zlen pre) ≠ 0) as Hnz.
  { destruct tok; [done|]. simpl in Ht. by destruct Ht as (-> & ? & _). }
  destruct (Z.eqb_spec (load8 m (q + zlen pre)) 0); [done|].
  unfold strcspn. rewrite (strcspn_loop_ok _ _ _ _ _ ds tok l) by (try done; lia).
  simpl. pose proof (cstr_app _ _ _ _ Ht) as Hr. rewrite ?Z.add_0_l, !zlen_app.
  pose proof (zlen_nonneg l). pose proof (zlen_nonneg tok).
  destruct l as [|c l]; simpl in Hr.
  - rewrite Hr. simpl. exists m, (q + zlen pre + zlen tok). rewrite app_nil_r in Ht.
    repeat split; try done; unfold zlen in *; simpl; try lia.
  - destruct Hr as (Hc & Hn & Hr). rewrite Hc. destruct (Z.eqb_spec c 0); [done|].
    rewrite zlen_cons in *. pose proof (zlen_nonneg l). eexists _, _. split; [done|]. simpl.
    destruct (cstr_split _ _ _ _ Ht) as (_ & Hs).
    repeat split; try done; try lia.
    + apply (cstr_ext m); [|done]. intros. apply load8_store8_ne. lia.
    + intros. by apply load8_store8_ne.
Qed.

(** A call of [strtok] on a string of delimiters only. *)
Lemma strtok_none fuel m last0 str q dp ds pre :
  (if str =? 0 then last0 else str) = q → q ≠ 0 →
  cstr m q pre → cstr m dp ds →
  (length ds < fuel)%nat → (length pre < fuel)%nat → Forall (λ c, c ∈ ds) pre →
  strtok fuel m last0 str dp = Some (0, m, last0).
Proof.
  intros Hq Hq0 Hl Hd Hf1 Hf2 Hpre.
  unfold strtok. rewrite Hq. destruct (Z.eqb_spec q 0); [done|].
  unfold strspn. rewrite <- (app_nil_r pre) in Hl.
  rewrite (strspn_loop_ok _ _ _ _ _ ds pre []) by (try done; lia).
  simpl. rewrite ?Z.add_0_l. apply cstr_app in Hl. simpl in Hl. by rewrite Hl.
Qed.

(** The loop that splits a string with [strtok(str, delim)] and then
    [strtok(NULL, delim)] until NULL, collecting the tokens: the shape of the
    loops of [fs/ramfs.c] and of [post.c]. *)
Fixpoint read_cstr (fuel : nat) (m : mem) (p : Z) : option (list Z) :=
  match fuel with
  | O => None
  | S f => if load8 m p =? 0 then Some []
           else l ← read_cstr f m (p + 1); Some (load8 m p :: l)
  end.

Fixpoint strtok_all (rounds fuel : nat) (m : mem) (last str delim : Z) : option (list (list Z)) :=
  match rounds with
  | O => None
  | S k =>
      '(tok, m', last') ← strtok fuel m last str delim;
      if tok =? 0 then Some []
      else t ← read_cstr fuel m' tok;
           ts ← strtok_all k fuel m' last' 0 delim;
           Some (t :: ts)
  end.

Lemma read_cstr_ok fuel m p l :
  cstr m p l → (length l < fuel)%nat → read_cstr fuel m p = Some l.
Proof.
  revert fuel p. induction l as [|c l IH]; intros [|f] p Hl Hf; simpl in *; try lia.
  - by rewrite Hl.
  - destruct Hl as (-> & Hn & Hl). destruct (Z.eqb_spec c 0); [done|].
    by rewrite IH by (done || lia).
Qed.

Lemma strtok_all_ok rounds fuel m last0 str q dp ds l :
  (if str =? 0 then last0 else str) = q → 0 < q →
  cstr m q l → cstr m dp ds → dp + zlen ds < q ∨ q + zlen l < dp →
  (length ds < fuel)%nat → (length l < fuel)%nat → (length l < rounds)%nat →
  strtok_all rounds fuel m last0 str dp = Some (tokens ds l).
Proof.
  revert m last0 str q l. induction rounds as [|k IH];
    intros m last0 str q l Hq Hpos Hl Hd Hsep Hf1 Hf2 Hr; [lia|].
  destruct (split_prefix (λ c, c ∈ ds) l) as (pre & post & -> & Hpre & Hpost).
  destruct (split_prefix (λ c, c ∉ ds) post) as (tok & r & -> & Htok & Hr').
  cbn [strtok_all]. destruct tok as [|t tok].
  { assert (r = []) as -> by (destruct r; [done | exfalso; simpl in *; tauto]).
    rewrite !app_nil_r in *.
    rewrite (strtok_none _ _ _ _ q _ ds pre) by (done || lia).
    simpl. rewrite <- (app_nil_r pre), tokens_from_skip by done. done. }
  assert (match r with [] => True | c :: _ => c ∈ ds end) as Hrd.
  { destruct r; [done|]. by apply dec_stable. }
  rewrite !length_app in *. simpl in Hf2, Hr.
  destruct (strtok_token fuel m last0 str q dp ds pre (t :: tok) r)
    as (m' & last' & -> & Ht & Hlast & Hb1 & Hb2 & Hm); try done.
  { lia. } { rewrite length_app. simpl. lia. }
  rewrite !zlen_app in *. pose proof (zlen_nonneg pre). pose proof (zlen_nonneg (t :: tok)).
  pose proof (zlen_nonneg r). pose proof (zlen_nonneg ds).
  simpl. destruct (Z.eqb_spec (q + zlen pre) 0); [lia|].
  rewrite (read_cstr_ok _ _ _ (t :: tok)) by (done || (simpl; lia)). simpl.
  rewrite (IH m' last' 0 last' (tail r)); try done.
  - change (t :: tok ++ r) with ((t :: tok) ++ r). by rewrite tokens_cons.
  - lia.
  - apply (cstr_ext m); [|done]. intros a Ha. apply Hm. lia.
  - pose proof (zlen_nonneg (tail r)). lia.
  - destruct r; simpl in *; lia.
  - destruct r; simpl in *; lia.
Qed.

(** ** Numbers *)

(** The digits of a number in base [base] from [s] on, most significant first,
    up to the first byte that is not one. *)
Fixpoint digits_at (m : mem) (s base : Z) (ds : list Z) : Prop :=
  match ds with
  | [] => load8 m s = 0 ∨ digit_of (load8 m s) = None ∨
          (∃ d, digit_of (load8 m s) = Some d ∧ base ≤ d)
  | d :: ds' => load8 m s ≠ 0 ∧ digit_of (load8 m s) = Some d ∧ d < base ∧
                digits_at m (s + 1) base ds'
  end.

Definition digits_value (base acc : Z) (ds : list Z) : Z :=
  foldl (λ a d, a * base + d) acc ds.

(** [v] with a sign, cut at the ends of [long]. *)
Definition strtol_value (sign v : Z) : Z :=
  if v <=? LONG_MAX then v * sign else if sign =? 1 then LONG_MAX else LONG_MIN.

Lemma digit_of_nonneg c d : digit_of c = Some d → 0 ≤ d.
Proof. unfold digit_of. zcases; simpl; intros; simplify_eq; lia. Qed.

Lemma digits_value_mono m s base acc ds :
  2 ≤ base → 0 ≤ acc → digits_at m s base ds → acc ≤ digits_value base acc ds.
Proof.
  intros Hb. revert s acc. induction ds as [|d ds IH]; intros s acc Ha; simpl; [lia|].
  intros (_ & Hd & _ & Hds). apply digit_of_nonneg in Hd.
  apply (IH (s + 1) (acc * base + d)) in Hds; nia.
Qed.

Lemma strtol_digits_ok fuel m s base sign acc ds :
  2 ≤ base → 0 ≤ acc ≤ LONG_MAX → digits_at m s base ds → (length ds < fuel)%nat →
  ∃ e, strtol_digits fuel m s base sign acc =
       Some (strtol_value sign (digits_value base acc ds), e).
Proof.
  intros Hb. revert fuel s acc. induction ds as [|d ds IH]; intros [|f] s acc Ha Hds Hf;
    simpl in Hf; try lia; cbn [strtol_digits].
  - simpl in *. unfold strtol_value. destruct (Z.leb_spec acc LONG_MAX); [|lia].
    destruct Hds as [->|[->|(d & -> & Hd)]]; simpl; [eauto|destruct (_ =? _); eauto|].
    destruct (_ =? _); [eauto|]. destruct (Z.leb_spec base d); [eauto|lia].
  - simpl in Hds. destruct Hds as (Hn & Hdig & Hd & Hds).
    destruct (Z.eqb_spec (load8 m s) 0); [done|]. rewrite Hdig.
    destruct (Z.leb_spec base d); [lia|]. pose proof (digit_of_nonneg _ _ Hdig).
    pose proof (Z.div_mod LONG_MAX base ltac:(lia)) as Hdiv.
    pose proof (Z.mod_pos_bound LONG_MAX base ltac:(lia)) as Hmod.
    simpl. destruct (Z.ltb_spec (LONG_MAX / base) acc) as [H1|H1]; cycle 1;
      [destruct (Z.eqb_spec acc (LONG_MAX / base)) as [H2|H2];
       [destruct (Z.ltb_spec (LONG_MAX mod base) d) as [H3|H3]|]|]; simpl.
    1, 4: eexists; f_equal; f_equal; unfold strtol_value;
       assert (acc * base + d > LONG_MAX) by nia;
       pose proof (digits_value_mono m (s + 1) base (acc * base + d) ds Hb ltac:(nia) Hds);
       destruct (Z.leb_spec (digits_value base (acc * base + d) ds) LONG_MAX); [lia|done].
    all: apply IH; [nia|done|lia].
Qed.

Lemma skip_spaces_ok fuel m p k :
  (∀ i, 0 ≤ i < Z.of_nat k → is_space (load8 m (p + i)) = true) →
  is_space (load8 m (p + Z.of_nat k)) = false → (k < fuel)%nat →
  skip_spaces fuel m p = Some (p + Z.of_nat k).
Proof.
  revert fuel p. induction k as [|k IH]; intros [|f] p Hs He Hf; try lia; cbn [skip_spaces].
  - rewrite Z.add_0_r in *. by rewrite He.
  - pose proof (Hs 0 ltac:(lia)) as H0. rewrite Z.add_0_r in H0. rewrite H0.
    rewrite IH; [f_equal; lia | | | lia].
    + intros i Hi. rewrite <- Z.add_assoc. apply Hs. lia.
    + rewrite <- He. do 2 f_equal. lia.
Qed.

(** ** Properties *)

(** [strcmp] on two strings terminates with a budget of one step more than
    the first string has bytes, returns 0 exactly for equal strings, and a
    negative number exactly when the first comes before the second in the
    lexicographic order of bytes. *)
Theorem strcmp_spec fuel m p1 p2 l1 l2
  (H1 : cstr m p1 l1) (H2 : cstr m p2 l2) (Hf : (length l1 < fuel)%nat) :
  ∃ r, strcmp fuel m p1 p2 = Some r ∧
       (r = 0 ↔ l1 = l2) ∧ (r <? 0) = bytes_lt l1 l2.
Proof.
  exists (strcmp_list l1 l2).
  pose proof (cstr_nonzero _ _ _ H1). pose proof (cstr_nonzero _ _ _ H2).
  split_and!; [by apply strcmp_ok | by apply strcmp_list_zero | by apply strcmp_list_neg].
Qed.

Lemma strcmp_spec_witness :
  ∃ r, strcmp 10 (<[100 := 97]> (<[200 := 97]> (<[201 := 98]> ∅))) 100 200 = Some r ∧
       (r = 0 ↔ [97] = [97; 98]) ∧ (r <? 0) = bytes_lt [97] [97; 98].
Proof. apply strcmp_spec; [by vm_compute | by vm_compute | simpl; lia]. Defined.

(** [strncpy] of a string shorter than [n] copies the string and its NUL
    and then writes [n - length] more zero bytes, one too many: the byte at
    [dest + n], which C gives no leave to touch, is set to 0. *)
Theorem strncpy_short_spec m dest src n l a
  (Hl : cstr m src l) (Hn : zlen l < n) (Hsep : dest + n < src ∨ src + zlen l < dest) :
  load8 (strncpy m dest src n) a =
  if (dest <=? a) && (a <=? dest + zlen l) then load8 m (src + (a - dest))
  else if (dest + zlen l <? a) && (a <=? dest + n) then 0 else load8 m a.
Proof.
  unfold strncpy. pose proof (zlen_nonneg l).
  destruct (strncpy_copy_short (Z.to_nat n) m dest src l) as (m' & -> & Hb);
    [done | unfold zlen in *; lia | lia |].
  replace (memset_loop (Z.to_nat n - length l) m' (dest + zlen l + 1) 0)
    with (memset m' (dest + zlen l + 1) 0 (n - zlen l))
    by (unfold memset; f_equal; unfold zlen; lia).
  rewrite load8_memset, Hb by lia. zcases; simpl; try done; lia.
Qed.

Lemma strncpy_short_spec_witness :
  let m := <[100 := 97]> (<[9 := 7]> ∅) in
  load8 m 9 = 7 ∧ load8 (strncpy m 5 100 4) 9 = 0.
Proof.
  intros m. split; [reflexivity|].
  rewrite (strncpy_short_spec m 5 100 4 [97] 9);
    [reflexivity | by vm_compute | by vm_compute | left; by vm_compute].
Defined.

(** Splitting a string with [strtok(str, delim)] and then
    [strtok(NULL, delim)] until NULL yields, in order, exactly the maximal
    runs of bytes that are not delimiters. *)
Theorem strtok_tokens rounds fuel m last0 str dp ds l
  (Hpos : 0 < str) (Hl : cstr m str l) (Hd : cstr m dp ds)
  (Hsep : dp + zlen ds < str ∨ str + zlen l < dp)
  (Hf1 : (length ds < fuel)%nat) (Hf2 : (length l < fuel)%nat)
  (Hr : (length l < rounds)%nat) :
  strtok_all rounds fuel m last0 str dp = Some (tokens ds l).
Proof.
  apply (strtok_all_ok _ _ _ _ _ str); try done.
  by destruct (Z.eqb_spec str 0); [lia|].
Qed.

Lemma strtok_tokens_witness :
  let m := <[9 := 47]> (<[100 := 47]> (<[101 := 97]> (<[102 := 47]> (<[103 := 98]> ∅)))) in
  strtok_all 10 10 m 0 100 9 = Some [[97]; [98]].
Proof.
  intros m. rewrite (strtok_tokens 10 10 m 0 100 9 [47] [47; 97; 47; 98]);
    [reflexivity | lia | by vm_compute | by vm_compute | left; by vm_compute | simpl; lia..].
Defined.

(** The number that [strtol] reads. *)
Lemma strtol_run fuel m p k base sign q ds
  (Hb : 2 ≤ base ≤ 36) (Hb16 : base ≠ 16)
  (Hsp : ∀ i, 0 ≤ i < Z.of_nat k → is_space (load8 m (p + i)) = true)
  (Hq : (load8 m (p + Z.of_nat k) = 45 ∧ sign = -1 ∧ q = p + Z.of_nat k + 1) ∨
        (load8 m (p + Z.of_nat k) = 43 ∧ sign = 1 ∧ q = p + Z.of_nat k + 1) ∨
        (is_space (load8 m (p + Z.of_nat k)) = false ∧ load8 m (p + Z.of_nat k) ≠ 45 ∧
         load8 m (p + Z.of_nat k) ≠ 43 ∧ sign = 1 ∧ q = p + Z.of_nat k))
  (Hds : digits_at m q base ds) (Hf : (k + length ds < fuel)%nat) :
  ∃ e, strtol fuel m p base = Some (strtol_value sign (digits_value base 0 ds), e).
Proof.
  unfold strtol. rewrite (skip_spaces_ok _ _ _ k); [|done| |lia]; cycle 1.
  { destruct Hq as [(-> & _)|[(-> & _)|(? & _)]]; done. }
  simpl. assert ((base =? 0) = false) as -> by lia.
  assert ((base =? 16) = false) as -> by lia. simpl.
  assert (0 ≤ 0 ≤ LONG_MAX) by (unfold LONG_MAX; lia).
  destruct Hq as [(-> & -> & ->)|[(-> & -> & ->)|(_ & ? & ? & -> & ->)]]; simpl.
  1, 2: apply strtol_digits_ok; (done || lia).
  destruct (Z.eqb_spec (load8 m (p + Z.of_nat k)) 45); [done|].
  destruct (Z.eqb_spec (load8 m (p + Z.of_nat k)) 43); [done|].
  apply strtol_digits_ok; (done || lia).
Qed.

(** [strtol] with an explicit base (other than 16, whose [0x] prefix is
    optional) skips leading white space, takes an optional sign, and returns
    the number the digits write in that base, cut to [LONG_MAX] or
    [LONG_MIN] when it does not fit in a [long]. *)
Theorem strtol_spec fuel m p k base sign q ds
  (Hb : 2 ≤ base ≤ 36) (Hb16 : base ≠ 16)
  (Hsp : ∀ i, 0 ≤ i < Z.of_nat k → is_space (load8 m (p + i)) = true)
  (Hq : (load8 m (p + Z.of_nat k) = 45 ∧ sign = -1 ∧ q = p + Z.of_nat k + 1) ∨
        (load8 m (p + Z.of_nat k) = 43 ∧ sign = 1 ∧ q = p + Z.of_nat k + 1) ∨
        (is_space (load8 m (p + Z.of_nat k)) = false ∧ load8 m (p + Z.of_nat k) ≠ 45 ∧
         load8 m (p + Z.of_nat k) ≠ 43 ∧ sign = 1 ∧ q = p + Z.of_nat k))
  (Hds : digits_at m q base ds) (Hf : (k + length ds < fuel)%nat) :
  ∃ e, strtol fuel m p base = Some (strtol_value sign (digits_value base 0 ds), e).
Proof. exact (strtol_run fuel m p k base sign q ds Hb Hb16 Hsp Hq Hds Hf). Qed.

(** [" -17"] in base 8. *)
Lemma strtol_spec_witness :
  let m := <[50 := 32]> (<[51 := 45]> (<[52 := 49]> (<[53 := 55]> ∅))) in
  ∃ e, strtol 20 m 50 8 = Some (-15, e).
Proof.
  intros m. apply (strtol_spec 20 m 50 1 8 (-1) 52 [1; 7]); [lia | lia | | | | simpl; lia].
  - intros i Hi. assert (i = 0) as -> by lia. reflexivity.
  - left. repeat split; reflexivity.
  - vm_compute. split; [discriminate|]. repeat split; try discriminate. left. done.
Defined.

(** ** String literals *)

(** The bytes of a string literal. *)
Definition str (s : string) : list Z := (λ c, Z.of_N (N_of_ascii c)) <$> String.list_ascii_of_string s.

(** Storing a string of bytes in memory. *)
Fixpoint store_bytes (m : mem) (p : Z) (l : list Z) : mem :=
  match l with [] => m | c :: l => store_bytes (store8 m p c) (p + 1) l end.

Lemma load8_store_bytes m p l a :
  load8 (store_bytes m p l) a =
  if decide (p ≤ a < p + Z.of_nat (length l)) then default 0 (l !! Z.to_nat (a - p)) mod 256 else load8 m a.
Proof.
  revert m p. induction l as [|c l IH]; intros m p; cbn [store_bytes length].
  - rewrite decide_False by (cbn; lia). done.
  - rewrite IH, load8_store8. destruct (decide (p + 1 ≤ a < p + 1 + Z.of_nat (length l))).
    + rewrite decide_True by lia. replace (Z.to_nat (a - p)) with (S (Z.to_nat (a - (p + 1)))) by lia. done.
    + destruct (decide (p ≤ a < p + Z.of_nat (S (length l)))).
      * assert (p = a) as -> by lia. by rewrite Z.eqb_refl, Z.sub_diag.
      * by rewrite (proj2 (Z.eqb_neq a p)) by lia.
Qed.

Lemma bytes_at_stored m p l :
  Forall (λ c, 0 ≤ c < 256) l → bytes_at (store_bytes m p l) p (length l) = l.
Proof.
  intros Hl. apply list_eq. intros i. unfold bytes_at. rewrite list_lookup_fmap.
  destruct (decide (i < length l)%nat) as [Hi|Hi].
  - rewrite lookup_seq_lt by lia. cbn. rewrite load8_store_bytes, decide_True by lia.
    replace (Z.to_nat (p + Z.of_nat i - p)) with i by lia.
    destruct (lookup_lt_is_Some_2 l i Hi) as [c Hc]. rewrite Hc. cbn.
    rewrite Z.mod_small; [done|]. by apply (Forall_lookup_1 _ _ _ _ Hl Hc).
  - rewrite !lookup_ge_None_2; [done|lia|rewrite length_seq; lia].
Qed.

(** Bytes and a NUL make a string. *)
Lemma cstr_intro m p l :
  Forall (λ c, c ≠ 0) l → (∀ i c, l !! i = Some c → load8 m (p + Z.of_nat i) = c) → load8 m (p + zlen l) = 0 → cstr m p l.
Proof.
  intros Hl. revert p. induction Hl as [|c l Hc0 Hl IH]; intros p Hb Hz.
  - cbn in Hz |- *. by rewrite Z.add_0_r in Hz.
  - cbn [cstr]. split; [|split; [done|]].
    + rewrite <- (Z.add_0_r p). exact (Hb O c eq_refl).
    + apply IH.
      * intros i d Hi. rewrite <- (Hb (S i) d Hi). f_equal. lia.
      * rewrite <- Hz, zlen_cons. f_equal. lia.
Qed.
