(* ===== verification/Format.v ===== *)
(** * Formatted output

    [lib/nanoprintf.h] as [lib/printf.c] configures it: field widths, precisions
    and the large length modifiers on, floating point, binary and write-back
    conversions off.  A format is the list of its bytes; the variable arguments
    are a list of words and strings.  What C leaves undefined, an argument of the
    wrong kind or an [int] that overflows, is [None].

    [npf_vpprintf] is the list of the bytes passed to the output function;
    [npf_vsnprintf] stores them in memory. *)

From stdpp Require Import base gmap list.
From Stdlib Require Import ZArith Lia.
From S2P Require Import Prelude Ram CString.
#[local] Open Scope Z_scope.

Inductive npf_fmt_spec_opt := OPT_NONE | OPT_LITERAL | OPT_STAR.
Inductive npf_length_modifier :=
  LEN_MOD_NONE | LEN_MOD_SHORT | LEN_MOD_LONG_DOUBLE | LEN_MOD_CHAR | LEN_MOD_LONG | LEN_MOD_LARGE_LONG_LONG |
  LEN_MOD_LARGE_INTMAX | LEN_MOD_LARGE_SIZET | LEN_MOD_LARGE_PTRDIFFT.
Inductive npf_conversion :=
  CONV_PERCENT | CONV_CHAR | CONV_STRING | CONV_SIGNED_INT | CONV_OCTAL | CONV_HEX_INT | CONV_UNSIGNED_INT | CONV_POINTER.

#[export] Instance npf_fmt_spec_opt_eq_dec : EqDecision npf_fmt_spec_opt.
Proof. solve_decision. Defined.
#[export] Instance npf_conversion_eq_dec : EqDecision npf_conversion.
Proof. solve_decision. Defined.

Record npf_format_spec := Spec {
  prepend : Z;
  alt_form : bool;
  field_width_opt : npf_fmt_spec_opt;
  field_width : Z;
  left_justified : bool;
  leading_zero_pad : bool;
  prec_opt : npf_fmt_spec_opt;
  prec : Z;
  length_modifier : npf_length_modifier;
  conv_spec : npf_conversion;
  case_adjust : Z;
}.

(** A variable argument: a word, or a pointer to a string. *)
Inductive va := VWord (x : Z) | VString (l : list Z).

(** The byte at [cur]; 0 at the end of the string. *)
Definition peek (l : list Z) : Z := default 0 (head l).

(** ** [npf_parse_format_spec] *)

(** The flags, from the byte after [%]: [-], [0], [+], space and [#]. *)
Fixpoint parse_flags (l : list Z) (lj zp alt : bool) (pre : Z) : bool * bool * bool * Z * list Z :=
  match l with
  | c :: r =>
      if c =? 45 then parse_flags r true false alt pre else
      if c =? 48 then parse_flags r lj (negb lj) alt pre else
      if c =? 43 then parse_flags r lj zp alt 43 else
      if c =? 32 then parse_flags r lj zp alt (if pre =? 0 then 32 else pre) else
      if c =? 35 then parse_flags r lj zp true pre else (lj, zp, alt, pre, l)
  | [] => (lj, zp, alt, pre, [])
  end.

Definition is_digit (c : Z) : bool := (48 <=? c) && (c <=? 57).

(** [while (isdigit( *cur)) n = n * 10 + ( *cur++ - '0');] on an [int]. *)
Fixpoint parse_number (l : list Z) (n : Z) : option (Z * list Z) :=
  match l with
  | c :: r =>
      if is_digit c then
        let n := n * 10 + (c - 48) in
        if n <? 2 ^ 31 then parse_number r n else None
      else Some (n, l)
  | [] => Some (n, [])
  end.

Definition parse_width (l : list Z) : option (npf_fmt_spec_opt * Z * list Z) :=
  if peek l =? 42 then Some (OPT_STAR, 0, tail l) else
  '(n, r) ← parse_number l 0;
  Some (if is_digit (peek l) then OPT_LITERAL else OPT_NONE, n, r).

Definition parse_prec (l : list Z) : option (npf_fmt_spec_opt * Z * list Z) :=
  if peek l =? 46 then
    let l := tail l in
    if peek l =? 42 then Some (OPT_STAR, 0, tail l) else
    let '(opt, l) := if peek l =? 45 then (OPT_NONE, tail l) else (OPT_LITERAL, l) in
    '(n, r) ← parse_number l 0;
    Some (opt, n, r)
  else Some (OPT_NONE, 0, l).

Definition parse_length (l : list Z) : npf_length_modifier * list Z :=
  let r := tail l in
  if peek l =? 104 then (if peek r =? 104 then (LEN_MOD_CHAR, tail r) else (LEN_MOD_SHORT, r)) else
  if peek l =? 108 then (if peek r =? 108 then (LEN_MOD_LARGE_LONG_LONG, tail r) else (LEN_MOD_LONG, r)) else
  if peek l =? 106 then (LEN_MOD_LARGE_INTMAX, r) else
  if peek l =? 122 then (LEN_MOD_LARGE_SIZET, r) else
  if peek l =? 116 then (LEN_MOD_LARGE_PTRDIFFT, r) else (LEN_MOD_NONE, l).

(** The conversion character, and the case of its digits. *)
Definition parse_conv (c : Z) : option (npf_conversion * Z) :=
  if c =? 37 then Some (CONV_PERCENT, 32) else
  if c =? 99 then Some (CONV_CHAR, 32) else
  if c =? 115 then Some (CONV_STRING, 32) else
  if (c =? 105) || (c =? 100) then Some (CONV_SIGNED_INT, 32) else
  if c =? 111 then Some (CONV_OCTAL, 32) else
  if c =? 117 then Some (CONV_UNSIGNED_INT, 32) else
  if c =? 88 then Some (CONV_HEX_INT, 0) else
  if c =? 120 then Some (CONV_HEX_INT, 32) else
  if c =? 112 then Some (CONV_POINTER, 32) else None.

(** [Some None]: not a format specifier ([npf_parse_format_spec] returns 0);
    [Some (Some (fs, rest))]: the specifier and what follows it.  [l] starts
    after the [%]. *)
Definition npf_parse_format_spec (l : list Z) : option (option (npf_format_spec * list Z)) :=
  let '(lj, zp, alt, pre, l) := parse_flags l false false false 0 in
  '(wopt, width, l) ← parse_width l;
  '(popt, p, l) ← parse_prec l;
  let '(len, l) := parse_length l in
  match parse_conv (peek l) with
  | None => Some None
  | Some (conv, case) =>
      let popt' := match conv with CONV_PERCENT | CONV_CHAR | CONV_POINTER => OPT_NONE | _ => popt end in
      let zero' :=
        match conv with
        | CONV_STRING => false
        | CONV_SIGNED_INT | CONV_OCTAL | CONV_HEX_INT | CONV_UNSIGNED_INT =>
            zp && bool_decide (popt = OPT_NONE)
        | _ => zp
        end in
      Some (Some (Spec pre alt wopt width lj zero' popt' p len conv case, tail l))
  end.

(** ** Digits *)

(** [npf_itoa_rev] and [npf_utoa_rev]: the digits, the last one first.  A 64-bit
    number has at most 64 of them in any base.  The quotients of [i] keep its
    sign. *)
Fixpoint npf_itoa_rev (fuel : nat) (i : Z) : list Z :=
  match fuel with
  | O => []
  | S f =>
      let sign := if 0 <=? i then 1 else -1 in
      let d := 48 + sign * Z.rem i 10 in
      d :: (if Z.quot i 10 =? 0 then [] else npf_itoa_rev f (Z.quot i 10))
  end.

Definition digit_char (case_adj d : Z) : Z := if d <? 10 then 48 + d else 65 + case_adj + (d - 10).

Fixpoint npf_utoa_rev (fuel : nat) (i base case_adj : Z) : list Z :=
  match fuel with
  | O => []
  | S f =>
      digit_char case_adj (i mod base) ::
      (if i / base =? 0 then [] else npf_utoa_rev f (i / base) base case_adj)
  end.

Definition npf_max (x y : Z) : Z := if y <? x then x else y.

(** ** [npf_vpprintf] *)

Definition s16 (x : Z) : Z := (x + 2 ^ 15) mod 2 ^ 16 - 2 ^ 15.
Definition c8 (x : Z) : Z := (x + 2 ^ 7) mod 2 ^ 8 - 2 ^ 7.

Definition va_word (args : list va) : option (Z * list va) :=
  match args with VWord x :: r => Some (x, r) | _ => None end.
Definition va_string (args : list va) : option (list Z * list va) :=
  match args with VString l :: r => Some (l, r) | _ => None end.

(** [NPF_EXTRACT] for the signed and the unsigned conversions. *)
Definition extract_signed (m : npf_length_modifier) (x : Z) : Z :=
  match m with
  | LEN_MOD_NONE | LEN_MOD_LONG_DOUBLE => s32 x
  | LEN_MOD_SHORT => s16 (s32 x)
  | LEN_MOD_CHAR => c8 (s32 x)
  | _ => s64 x
  end.
Definition extract_unsigned (m : npf_length_modifier) (x : Z) : Z :=
  match m with
  | LEN_MOD_NONE | LEN_MOD_LONG_DOUBLE => u32 x
  | LEN_MOD_SHORT => u16 (u32 x)
  | LEN_MOD_CHAR => u8 (u32 x)
  | _ => u64 x
  end.

Definition set_field_width (w : Z) (lj : bool) (fs : npf_format_spec) : npf_format_spec :=
  Spec (prepend fs) (alt_form fs) OPT_LITERAL w lj (leading_zero_pad fs) (prec_opt fs) (prec fs)
    (length_modifier fs) (conv_spec fs) (case_adjust fs).
Definition set_prec (opt : npf_fmt_spec_opt) (p : Z) (fs : npf_format_spec) : npf_format_spec :=
  Spec (prepend fs) (alt_form fs) (field_width_opt fs) (field_width fs) (left_justified fs) (leading_zero_pad fs) opt p
    (length_modifier fs) (conv_spec fs) (case_adjust fs).

(** The star arguments. *)
Definition star_args (fs : npf_format_spec) (args : list va) : option (npf_format_spec * list va) :=
  '(fs, args) ← (if decide (field_width_opt fs = OPT_STAR) then
      '(x, args) ← va_word args;
      let w := s32 x in
      if w =? - 2 ^ 31 then None else
      Some (if w <? 0 then set_field_width (- w) true fs else set_field_width w (left_justified fs) fs, args)
    else Some (fs, args));
  if decide (prec_opt fs = OPT_STAR) then
    '(x, args) ← va_word args;
    let p := s32 x in
    Some (set_prec (if 0 <=? p then OPT_LITERAL else OPT_NONE) p fs, args)
  else Some (fs, args).

(** What a conversion leaves: the text [cbuf] (its last character first, except
    for a string), the sign, the letter of [0x] or 0, whether the value was 0,
    and the precision. *)
Record converted := Converted { cbuf : list Z; sign_c : Z; need_0x : Z; zero : bool; cprec : Z }.

Definition no_digits (fs : npf_format_spec) (val : Z) : bool :=
  (val =? 0) && bool_decide (prec_opt fs = OPT_LITERAL) && (prec fs =? 0).

Definition npf_convert (fs : npf_format_spec) (args : list va) : option (converted * list va) :=
  match conv_spec fs with
  | CONV_PERCENT => Some (Converted [37] 0 0 false (prec fs), args)
  | CONV_CHAR => '(x, args) ← va_word args; Some (Converted [u8 (s32 x)] 0 0 false (prec fs), args)
  | CONV_STRING =>
      '(l, args) ← va_string args;
      let n := if decide (prec_opt fs = OPT_NONE) then length l else Z.to_nat (prec fs) in
      Some (Converted (take n l) 0 0 false (prec fs), args)
  | CONV_SIGNED_INT =>
      '(x, args) ← va_word args;
      let val := extract_signed (length_modifier fs) x in
      let sign_c := if val <? 0 then 45 else prepend fs in
      let text := if no_digits fs val then [] else npf_itoa_rev 64 val in
      Some (Converted text sign_c 0 (val =? 0) (prec fs), args)
  | CONV_OCTAL | CONV_HEX_INT | CONV_UNSIGNED_INT =>
      '(x, args) ← va_word args;
      let val := extract_unsigned (length_modifier fs) x in
      let octal := bool_decide (conv_spec fs = CONV_OCTAL) in
      let hex := bool_decide (conv_spec fs = CONV_HEX_INT) in
      let p := if no_digits fs val && octal && alt_form fs then 1 else prec fs in
      let base := if octal then 8 else if hex then 16 else 10 in
      let text := if no_digits fs val then [] else npf_utoa_rev 64 val base (case_adjust fs) in
      let text := if negb (val =? 0) && alt_form fs && octal then text ++ [48] else text in
      let need_0x := if negb (val =? 0) && alt_form fs && hex then 88 + case_adjust fs else 0 in
      Some (Converted text 0 need_0x (val =? 0) p, args)
  | CONV_POINTER =>
      '(x, args) ← va_word args;
      Some (Converted (npf_utoa_rev 64 (u64 x) 16 32) 0 120 false (prec fs), args)
  end.

(** The character that fills the field: 0 for none. *)
Definition pad_char (fs : npf_format_spec) (c : converted) : Z :=
  if decide (field_width_opt fs = OPT_LITERAL) then
    if leading_zero_pad fs then
      match conv_spec fs with
      | CONV_STRING | CONV_CHAR | CONV_PERCENT => 0
      | _ => if bool_decide (prec_opt fs = OPT_LITERAL) && (cprec c =? 0) && zero c then 32 else 48
      end
    else 32
  else 0.

Definition rep (n c : Z) : list Z := replicate (Z.to_nat n) c.
Definition opt_char (c : Z) : list Z := if c =? 0 then [] else [c].
Definition prefix_0x (c : Z) : list Z := if c =? 0 then [] else [48; c].

(** One conversion, as the bytes put out. *)
Definition npf_emit (fs : npf_format_spec) (c : converted) : list Z :=
  let is_string := bool_decide (conv_spec fs = CONV_STRING) in
  let pad_c := pad_char fs c in
  let cbuf_len := Z.of_nat (length (cbuf c)) in
  let prec_pad := if is_string then 0 else npf_max 0 (cprec c - cbuf_len) in
  let field_pad := field_width fs - cbuf_len - (if sign_c c =? 0 then 0 else 1) in
  let field_pad := if need_0x c =? 0 then field_pad else field_pad - 2 in
  let field_pad := npf_max 0 (field_pad - prec_pad) in
  let right := negb (left_justified fs) && negb (pad_c =? 0) in
  let front :=
    if right then
      if pad_c =? 48 then opt_char (sign_c c) ++ prefix_0x (need_0x c) ++ rep field_pad pad_c
      else rep field_pad pad_c ++ prefix_0x (need_0x c)
    else prefix_0x (need_0x c) in
  let sign := if right && (pad_c =? 48) then [] else opt_char (sign_c c) in
  let payload := if is_string then cbuf c else sign ++ rep prec_pad 48 ++ reverse (cbuf c) in
  let back := if left_justified fs && negb (pad_c =? 0) then rep field_pad pad_c else [] in
  front ++ payload ++ back.

(** The [int] subtractions of the padding do not overflow. *)
Definition fits_int (x : Z) : bool := (- 2 ^ 31 <=? x) && (x <? 2 ^ 31).

Definition pads_defined (fs : npf_format_spec) (c : converted) : bool :=
  let is_string := bool_decide (conv_spec fs = CONV_STRING) in
  let cbuf_len := Z.of_nat (length (cbuf c)) in
  let prec_pad := if is_string then 0 else npf_max 0 (cprec c - cbuf_len) in
  fits_int cbuf_len && (is_string || fits_int (cprec c - cbuf_len)) &&
  fits_int (field_width fs - cbuf_len - (if sign_c c =? 0 then 0 else 1) - (if need_0x c =? 0 then 0 else 2) - prec_pad).

Fixpoint vpprintf_loop (fuel : nat) (format : list Z) (args : list va) : option (list Z) :=
  match format with
  | [] => Some []
  | c :: r =>
      match fuel with
      | O => None
      | S f =>
          if negb (c =? 37) then rest ← vpprintf_loop f r args; Some (c :: rest) else
          spec ← npf_parse_format_spec r;
          match spec with
          | None => rest ← vpprintf_loop f r args; Some (c :: rest)
          | Some (fs, r) =>
              '(fs, args) ← star_args fs args;
              '(conv, args) ← npf_convert fs args;
              if negb (pads_defined fs conv) then None else
              rest ← vpprintf_loop f r args;
              Some (npf_emit fs conv ++ rest)
          end
      end
  end.

(** Every step reads a byte of the format. *)
Definition npf_vpprintf (format : list Z) (args : list va) : option (list Z) :=
  vpprintf_loop (length format) format args.

(** [npf_bufputc] for each byte: the bytes that fit are stored. *)
Fixpoint bufputc_all (m : mem) (dst len cur : Z) (l : list Z) : mem * Z :=
  match l with
  | [] => (m, cur)
  | c :: l => if cur <? len then bufputc_all (store8 m (dst + cur) c) dst len (cur + 1) l else bufputc_all m dst len cur l
  end.

(** The return value, the number of bytes the text needs, and the memory.  The
    number is an [int]. *)
Definition npf_vsnprintf (m : mem) (buffer bufsz : Z) (format : list Z) (args : list va) : option (Z * mem) :=
  out ← npf_vpprintf format args;
  let n := Z.of_nat (length out) in
  if negb (n <? 2 ^ 31) then None else
  let m := if buffer =? 0 then m else fst (bufputc_all m buffer bufsz 0 (out ++ [0])) in
  let m := if negb (buffer =? 0) && negb (bufsz =? 0) then store8 m (buffer + (bufsz - 1)) 0 else m in
  Some (n, m).

(** ** Parsing reads forward *)

Lemma parse_flags_length l lj zp alt pre : (length (parse_flags l lj zp alt pre).2 ≤ length l)%nat.
Proof.
  revert lj zp alt pre. induction l as [|c r IH]; intros; cbn [parse_flags]; [done|].
  repeat (destruct (_ =? _); [eapply Nat.le_trans; [apply IH|simpl; lia]|]). done.
Qed.

Lemma parse_number_length l n k r : parse_number l n = Some (k, r) → (length r ≤ length l)%nat.
Proof.
  revert n. induction l as [|c l IH]; intros n; cbn [parse_number]; [by intros [= _ <-]|].
  destruct (is_digit c); [|by intros [= _ <-]]. destruct (_ <? _); [|done]. intros E%IH. simpl. lia.
Qed.

Lemma tail_length {A} (l : list A) : (length (tail l) ≤ length l)%nat.
Proof. destruct l; simpl; lia. Qed.

Lemma parse_width_length l o n r : parse_width l = Some (o, n, r) → (length r ≤ length l)%nat.
Proof.
  unfold parse_width. destruct (_ =? _); [intros [= _ _ <-]; apply tail_length|].
  destruct (parse_number l 0) as [[k r']|] eqn:E; simpl; [|done]. intros [= _ _ <-]. by eapply parse_number_length.
Qed.

Lemma parse_prec_length l o n r : parse_prec l = Some (o, n, r) → (length r ≤ length l)%nat.
Proof.
  unfold parse_prec. pose proof (tail_length l) as H1. pose proof (tail_length (tail l)) as H2.
  destruct (peek l =? 46); [|by intros [= _ _ <-]]. destruct (peek (tail l) =? 42); [intros [= _ _ <-]; lia|].
  destruct (peek (tail l) =? 45); simpl;
    (destruct (parse_number _ 0) as [[k r']|] eqn:E; simpl; [|done]); intros [= _ _ <-]; apply parse_number_length in E; lia.
Qed.

Lemma parse_length_length l : (length (parse_length l).2 ≤ length l)%nat.
Proof.
  unfold parse_length. pose proof (tail_length l) as H1. pose proof (tail_length (tail l)) as H2.
  repeat (destruct (_ =? _); simpl; try lia).
Qed.

Lemma npf_parse_length l fs r : npf_parse_format_spec l = Some (Some (fs, r)) → (length r ≤ length l)%nat.
Proof.
  unfold npf_parse_format_spec. pose proof (parse_flags_length l false false false 0) as H1.
  destruct (parse_flags l false false false 0) as [[[[lj zp] alt] pre] l1]. simpl in H1.
  destruct (parse_width l1) as [[[wopt width] l2]|] eqn:E2; simpl; [|done]. apply parse_width_length in E2.
  destruct (parse_prec l2) as [[[popt p] l3]|] eqn:E3; simpl; [|done]. apply parse_prec_length in E3.
  pose proof (parse_length_length l3) as H4. destruct (parse_length l3) as [len l4]. simpl in H4.
  destruct (parse_conv (peek l4)) as [[conv case]|]; [|done]. intros [= _ <-]. pose proof (tail_length l4). lia.
Qed.

Lemma vpprintf_fuel (fuel : nat) format args :
  (length format ≤ fuel)%nat → vpprintf_loop fuel format args = npf_vpprintf format args.
Proof.
  unfold npf_vpprintf. remember (length format) as n eqn:En.
  assert (∀ n fuel fuel' format args, (length format ≤ n)%nat → (length format ≤ fuel)%nat → (length format ≤ fuel')%nat →
    vpprintf_loop fuel format args = vpprintf_loop fuel' format args) as Hgo.
  { clear. induction n as [|n IH]; intros fuel fuel' [|c r] args Hn H1 H2; simpl in *; try lia; try (by destruct fuel, fuel').
    destruct fuel as [|fuel], fuel' as [|fuel']; simpl in *; try lia.
    destruct (negb _); [rewrite (IH fuel fuel' r) by lia; done|].
    destruct (npf_parse_format_spec r) as [[[fs r']|]|] eqn:E; simpl; [|by rewrite (IH fuel fuel' r) by lia|done].
    apply npf_parse_length in E. destruct (star_args fs args) as [[fs1 args1]|]; simpl; [|done].
    destruct (npf_convert fs1 args1) as [[cv args2]|]; simpl; [|done].
    destruct (negb _); [done|]. by rewrite (IH fuel fuel' r') by lia. }
  intros Hf. apply (Hgo n); lia.
Qed.

(** ** Digits *)

Definition digit_value (case_adj c : Z) : Z := if c <? 58 then c - 48 else c - 65 - case_adj + 10.

(** The number that digits stand for, the last one first. *)
Fixpoint rev_value (base case_adj : Z) (l : list Z) : Z :=
  match l with [] => 0 | c :: l => digit_value case_adj c + base * rev_value base case_adj l end.

Lemma digit_value_char case_adj d : 0 ≤ case_adj → 0 ≤ d → digit_value case_adj (digit_char case_adj d) = d.
Proof. intros. unfold digit_value, digit_char. destruct (Z.ltb_spec d 10); zcases; lia. Qed.

Lemma utoa_value (fuel : nat) i base case_adj :
  2 ≤ base → 0 ≤ case_adj → 0 ≤ i < base ^ Z.of_nat fuel → (0 < fuel)%nat →
  rev_value base case_adj (npf_utoa_rev fuel i base case_adj) = i.
Proof.
  revert i. induction fuel as [|fuel IH]; intros i Hb Hc Hi Hf; [lia|]. cbn [npf_utoa_rev rev_value].
  pose proof (Z.mod_pos_bound i base ltac:(lia)). pose proof (Z.div_mod i base ltac:(lia)).
  rewrite digit_value_char by lia. rewrite Nat2Z.inj_succ, Z.pow_succ_r in Hi by lia.
  destruct (Z.eqb_spec (i / base) 0) as [E|E]; [simpl; nia|].
  assert (0 < i / base) by (pose proof (Z.div_pos i base); lia).
  assert (0 < fuel)%nat by (destruct fuel; [simpl in Hi; rewrite Z.div_small in E; lia|lia]).
  rewrite IH; [lia|done|done| |done]. split; [lia|]. apply Z.div_lt_upper_bound; lia.
Qed.

Lemma utoa_length (fuel : nat) (k : nat) i base case_adj :
  2 ≤ base → 0 ≤ i < base ^ Z.of_nat k → (0 < k)%nat → (length (npf_utoa_rev fuel i base case_adj) ≤ k)%nat.
Proof.
  revert k i. induction fuel as [|fuel IH]; intros k i Hb Hi Hk; cbn [npf_utoa_rev]; [simpl; lia|].
  destruct (Z.eqb_spec (i / base) 0) as [E|E]; [simpl; lia|]. destruct k as [|k]; [lia|].
  rewrite Nat2Z.inj_succ, Z.pow_succ_r in Hi by lia. pose proof (Z.div_mod i base ltac:(lia)).
  pose proof (Z.mod_pos_bound i base ltac:(lia)). assert (0 < i / base) by (pose proof (Z.div_pos i base); lia).
  assert (0 < k)%nat by (destruct k; [simpl in Hi; rewrite Z.div_small in E; lia|lia]).
  simpl. apply le_n_S, IH; [done| |done]. split; [lia|]. apply Z.div_lt_upper_bound; lia.
Qed.

(** A signed number has the digits of its absolute value. *)
Lemma itoa_utoa (fuel : nat) i : npf_itoa_rev fuel i = npf_utoa_rev fuel (Z.abs i) 10 32.
Proof.
  revert i. induction fuel as [|fuel IH]; intros i; [done|]. cbn [npf_itoa_rev npf_utoa_rev].
  assert (Z.quot i 10 = Z.sgn i * (Z.abs i / 10) ∧ (if 0 <=? i then 1 else -1) * Z.rem i 10 = Z.abs i mod 10) as [Hq Hr].
  { destruct (Z.leb_spec 0 i).
    - rewrite Z.quot_div_nonneg, Z.rem_mod_nonneg, Z.abs_eq by lia. split; [destruct (decide (i = 0)) as [->|]; [done|rewrite Z.sgn_pos; lia]|lia].
    - rewrite Z.abs_neq, Z.sgn_neg by lia. remember (- i) as j eqn:Ej. assert (i = - j) as -> by lia.
      rewrite Z.quot_opp_l, Z.rem_opp_l, Z.quot_div_nonneg, Z.rem_mod_nonneg by lia. lia. }
  rewrite Hr. unfold digit_char. rewrite (proj2 (Z.ltb_lt _ _)) by (apply Z.mod_pos_bound; lia). f_equal.
  assert (Z.quot i 10 =? 0 = (Z.abs i / 10 =? 0)) as ->.
  { rewrite Hq. destruct (decide (i = 0)) as [->|]; [done|]. pose proof (Z.sgn_null_iff i). zcases; try done; nia. }
  destruct (Z.eqb_spec (Z.abs i / 10) 0); [done|]. rewrite IH. f_equal. rewrite Hq, Z.abs_mul.
  pose proof (Z.div_pos (Z.abs i) 10). rewrite (Z.abs_eq (Z.abs i / 10)) by lia.
  destruct (decide (i = 0)) as [->|]; [done|]. assert (Z.abs (Z.sgn i) = 1) as -> by (destruct i; done || lia). lia.
Qed.

(** ** Storing in a buffer *)

Lemma bufputc_all_bytes l m dst len cur a :
  0 ≤ cur ≤ len →
  load8 (fst (bufputc_all m dst len cur l)) a =
  if (dst + cur <=? a) && (a <? dst + Z.min len (cur + Z.of_nat (length l)))
  then default 0 (l !! Z.to_nat (a - dst - cur)) mod 256 else load8 m a.
Proof.
  revert m cur. induction l as [|c l IH]; intros m cur Hcur; cbn [bufputc_all].
  - simpl. zcases; simpl; try done; lia.
  - cbn [length]. destruct (Z.ltb_spec cur len).
    + rewrite IH, load8_store8 by lia.
      destruct (Z.eqb_spec a (dst + cur)) as [->|Hne].
      * replace (dst + cur - dst - cur) with 0 by lia. zcases; simpl; try done; try lia.
      * zcases; simpl; try done; try lia.
        replace (Z.to_nat (a - dst - cur)) with (S (Z.to_nat (a - dst - (cur + 1)))) by lia. done.
    + assert (cur = len) as -> by lia. rewrite IH by lia. zcases; simpl; try done; lia.
Qed.

(** ** Properties *)

(** The bytes that [npf_vsnprintf] leaves in memory. *)
Lemma npf_vsnprintf_run m buffer bufsz format args out
    (Hout : npf_vpprintf format args = Some out) (Hint : Z.of_nat (length out) < 2 ^ 31)
    (Hbuf : 0 < buffer) (Hsz : 0 ≤ bufsz) :
  ∃ m', npf_vsnprintf m buffer bufsz format args = Some (Z.of_nat (length out), m') ∧
    (∀ a, a < buffer ∨ buffer + bufsz ≤ a → load8 m' a = load8 m a) ∧
    (0 < bufsz →
      (∀ i, 0 ≤ i < Z.min (Z.of_nat (length out)) (bufsz - 1) → load8 m' (buffer + i) = default 0 (out !! Z.to_nat i) mod 256) ∧
      load8 m' (buffer + Z.min (Z.of_nat (length out)) (bufsz - 1)) = 0).
Proof.
  unfold npf_vsnprintf. rewrite Hout. cbn [mbind option_bind].
  rewrite (proj2 (Z.ltb_lt _ _)) by lia. rewrite (proj2 (Z.eqb_neq buffer 0)) by lia. cbn [negb andb].
  eexists. split; [reflexivity|]. set (n := Z.of_nat (length out)). set (m1 := fst _).
  assert (∀ a, load8 m1 a = if (buffer <=? a) && (a <? buffer + Z.min bufsz (n + 1))
    then default 0 ((out ++ [0]) !! Z.to_nat (a - buffer)) mod 256 else load8 m a) as Hm1.
  { intros a. unfold m1. rewrite bufputc_all_bytes by lia. rewrite length_app, Nat2Z.inj_add. simpl.
    replace (a - buffer - 0) with (a - buffer) by lia. rewrite Z.add_0_r. done. }
  assert (∀ i, 0 ≤ i < n → (out ++ [0]) !! Z.to_nat i = out !! Z.to_nat i) as Hl by (intros; apply lookup_app_l; lia).
  assert ((out ++ [0]) !! Z.to_nat n = Some 0) as Hn by (unfold n; rewrite Nat2Z.id, lookup_app_r, Nat.sub_diag by lia; done).
  split.
  - intros a Ha. assert (load8 m1 a = load8 m a) as E by (rewrite Hm1; zcases; simpl; try done; lia).
    destruct (Z.eqb_spec bufsz 0); [done|]. cbn [negb]. rewrite load8_store8, E. zcases; (done || lia).
  - intros Hpos. rewrite (proj2 (Z.eqb_neq bufsz 0)) by lia. cbn [negb]. split.
    + intros i Hi. rewrite load8_store8, Hm1. replace (buffer + i - buffer) with i by lia. rewrite Hl by lia.
      zcases; simpl; try done; lia.
    + rewrite load8_store8, Hm1. destruct (Z.eqb_spec (buffer + Z.min n (bufsz - 1)) (buffer + (bufsz - 1))); [done|].
      rewrite Z.min_l by lia. replace (buffer + n - buffer) with n by lia. rewrite Hn. zcases; simpl; try done; lia.
Qed.

(** [npf_vsnprintf] stays in its buffer.  It returns the length of the whole
    text; it changes no byte outside the [bufsz] bytes it was given; when there
    are any, they hold the text, cut after [bufsz - 1] bytes, and a NUL after
    it. *)
Theorem npf_vsnprintf_spec m buffer bufsz format args out
    (Hout : npf_vpprintf format args = Some out) (Hint : Z.of_nat (length out) < 2 ^ 31)
    (Hbuf : 0 < buffer) (Hsz : 0 ≤ bufsz) :
  ∃ m', npf_vsnprintf m buffer bufsz format args = Some (Z.of_nat (length out), m') ∧
    (∀ a, a < buffer ∨ buffer + bufsz ≤ a → load8 m' a = load8 m a) ∧
    (0 < bufsz →
      (∀ i, 0 ≤ i < Z.min (Z.of_nat (length out)) (bufsz - 1) → load8 m' (buffer + i) = default 0 (out !! Z.to_nat i) mod 256) ∧
      load8 m' (buffer + Z.min (Z.of_nat (length out)) (bufsz - 1)) = 0).
Proof. exact (npf_vsnprintf_run m buffer bufsz format args out Hout Hint Hbuf Hsz). Qed.

(** Text is copied: the bytes of a format before its first [%] come out as they
    are, and the rest is formatted as if it stood alone. *)
Theorem format_text text format args (Htext : Forall (λ c, c ≠ 37) text) :
  npf_vpprintf (text ++ format) args = (app text) <$> npf_vpprintf format args.
Proof.
  induction Htext as [|c l Hc Hl IH]; simpl; [by destruct (npf_vpprintf format args)|].
  change (npf_vpprintf (c :: l ++ format) args) with (vpprintf_loop (S (length (l ++ format))) (c :: l ++ format) args).
  cbn [vpprintf_loop]. rewrite (proj2 (Z.eqb_neq c 37)) by done. cbn [negb].
  rewrite vpprintf_fuel, IH by lia. by destruct (npf_vpprintf format args).
Qed.

(** A conversion puts out its text, and the rest of the format goes on with the
    arguments that are left. *)
Lemma format_conversion format rest fs args c args' :
  npf_parse_format_spec format = Some (Some (fs, rest)) → field_width_opt fs ≠ OPT_STAR → prec_opt fs ≠ OPT_STAR →
  npf_convert fs args = Some (c, args') → pads_defined fs c = true →
  npf_vpprintf (37 :: format) args = app (npf_emit fs c) <$> npf_vpprintf rest args'.
Proof.
  intros Hp Hw Hpr Hc Hd. unfold npf_vpprintf at 1. cbn [length vpprintf_loop]. change (negb (37 =? 37)) with false. cbv iota.
  rewrite Hp. cbn [mbind option_bind]. unfold star_args. rewrite decide_False by done. cbn [mbind option_bind]. rewrite decide_False by done. cbn [mbind option_bind].
  rewrite Hc. cbn [mbind option_bind]. rewrite Hd. cbn [negb]. rewrite vpprintf_fuel by (by eapply npf_parse_length).
  by destruct (npf_vpprintf rest args').
Qed.

(** ** The conversion buffer *)

Lemma extract_unsigned_range mod_ x : 0 ≤ extract_unsigned mod_ x < 2 ^ 64.
Proof.
  pose proof (u64_range x). pose proof (u32_range x). pose proof (u16_range (u32 x)). pose proof (u8_range (u32 x)).
  destruct mod_; cbn [extract_unsigned]; lia.
Qed.

Lemma extract_signed_range mod_ x : - 2 ^ 63 ≤ extract_signed mod_ x < 2 ^ 63.
Proof.
  destruct mod_; cbn [extract_signed]; unfold s16, c8, s32, s64;
    match goal with |- context [?a mod ?b - _] => pose proof (Z.mod_pos_bound a b ltac:(lia)); lia end.
Qed.

(** 64 bits are at most 22 digits in base 8 or above. *)
Lemma utoa_22 x base cs : 0 ≤ x < 2 ^ 64 → 8 ≤ base → (length (npf_utoa_rev 64 x base cs) ≤ 22)%nat.
Proof.
  intros Hx Hb. apply utoa_length; [lia| |lia]. split; [lia|].
  apply (Z.lt_le_trans _ (8 ^ Z.of_nat 22)); [change (8 ^ Z.of_nat 22) with (2 ^ 66); lia|]. apply Z.pow_le_mono_l. lia.
Qed.

Lemma itoa_22 x : - 2 ^ 63 ≤ x < 2 ^ 63 → (length (npf_itoa_rev 64 x) ≤ 22)%nat.
Proof. intros. rewrite itoa_utoa. apply utoa_22; lia. Qed.

Lemma unsigned_text_22 (b : bool) x base cs :
  0 ≤ x < 2 ^ 64 → 8 ≤ base → (length (if b then [] else npf_utoa_rev 64 x base cs) ≤ 22)%nat.
Proof. intros. destruct b; [apply Nat.le_0_l|by apply utoa_22]. Qed.

Lemma octal_23 (b : bool) (text : list Z) : (length text ≤ 22)%nat → (length (if b then text ++ [48%Z] else text) ≤ 23)%nat.
Proof. intros. destruct b; rewrite ?length_app; simpl; lia. Qed.

Lemma va_word_inv {A} args (k : Z * list va → option A) r :
  (va_word args ≫= k) = Some r → ∃ x rest, args = VWord x :: rest ∧ k (x, rest) = Some r.
Proof. destruct args as [|[x|l] rest]; try done. intros E. by exists x, rest. Qed.

Lemma cbuf_length fs args c rest :
  npf_convert fs args = Some (c, rest) → conv_spec fs ≠ CONV_STRING → (length (cbuf c) ≤ 23)%nat.
Proof.
  intros Hconv Hnum.   unfold npf_convert in Hconv. destruct (conv_spec fs) eqn:Ec; [| |done|..].
  1: { injection Hconv as <- _. cbn [cbuf length]. lia. }
  all: apply va_word_inv in Hconv as (x & r & _ & Hconv); apply Some_inj, (f_equal fst) in Hconv; cbn [fst] in Hconv;
    rewrite <- Hconv; cbn [cbuf].
  - simpl. lia.
  - destruct (no_digits _ _); [simpl; lia|]. pose proof (itoa_22 _ (extract_signed_range (length_modifier fs) x)). lia.
  - apply octal_23, unsigned_text_22; [apply extract_unsigned_range|done].
  - apply octal_23, unsigned_text_22; [apply extract_unsigned_range|done].
  - apply octal_23, unsigned_text_22; [apply extract_unsigned_range|done].
  - pose proof (utoa_22 (u64 x) 16 32 (u64_range x) ltac:(lia)). lia.
Qed.

(** The conversion buffer is large enough: no conversion of a number, a
    character or a pointer produces more than the 23 bytes that
    [npf_vpprintf] sets aside for it. *)
Theorem conversion_buffer fs args c rest
    (Hconv : npf_convert fs args = Some (c, rest)) (Hnum : conv_spec fs ≠ CONV_STRING) :
  (length (cbuf c) ≤ 23)%nat.
Proof. by eapply cbuf_length. Qed.

(** ** What a conversion writes *)

Lemma rev_value_snoc_zero base cs l : rev_value base cs (l ++ [48]) = rev_value base cs l.
Proof. induction l as [|c l IH]; simpl; [unfold digit_value; simpl; lia|]. by rewrite IH. Qed.

Lemma utoa_64 x base cs : 2 ≤ base → 0 ≤ cs → 0 ≤ x < 2 ^ 64 → rev_value base cs (npf_utoa_rev 64 x base cs) = x.
Proof.
  intros Hb Hc Hx. apply utoa_value; [done|done| |lia]. split; [lia|].
  apply (Z.lt_le_trans _ (2 ^ 64)); [lia|]. apply Z.pow_le_mono_l. lia.
Qed.

Lemma itoa_64 x : - 2 ^ 63 ≤ x < 2 ^ 63 → rev_value 10 32 (npf_itoa_rev 64 x) = Z.abs x.
Proof. intros. rewrite itoa_utoa. apply utoa_64; lia. Qed.

Lemma no_digits_zero fs x : no_digits fs x = true → x = 0.
Proof. unfold no_digits. destruct (Z.eqb_spec x 0); [done|]. done. Qed.

(** The digits of an unsigned conversion, with or without the octal 0. *)
Lemma unsigned_value fs (b : bool) x base :
  2 ≤ base → 0 ≤ case_adjust fs → 0 ≤ x < 2 ^ 64 →
  rev_value base (case_adjust fs)
    (let text := if no_digits fs x then [] else npf_utoa_rev 64 x base (case_adjust fs) in if b then text ++ [48] else text) = x.
Proof.
  intros Hb Hc Hx. cbv zeta.
  assert (rev_value base (case_adjust fs) (if no_digits fs x then [] else npf_utoa_rev 64 x base (case_adjust fs)) = x) as E.
  { destruct (no_digits fs x) eqn:En; [apply no_digits_zero in En as ->; reflexivity|by apply utoa_64]. }
  destruct b; rewrite ?rev_value_snoc_zero; exact E.
Qed.

(** The base of a conversion of numbers. *)
Definition conv_base (fs : npf_format_spec) : Z :=
  match conv_spec fs with CONV_OCTAL => 8 | CONV_HEX_INT | CONV_POINTER => 16 | _ => 10 end.

(** The number that a conversion prints. *)
Definition conv_value (fs : npf_format_spec) (x : Z) : Z :=
  match conv_spec fs with
  | CONV_SIGNED_INT => extract_signed (length_modifier fs) x
  | CONV_POINTER => u64 x
  | _ => extract_unsigned (length_modifier fs) x
  end.

(** The digits of a number can be read back: whatever the flags, the digits
    that a conversion leaves, read in its base and with its sign, are the
    argument cut to the width the length modifier gives it. *)
Theorem conversion_value fs x args
    (Hnum : conv_spec fs ∉ [CONV_PERCENT; CONV_CHAR; CONV_STRING])
    (Hpre : prepend fs ≠ 45) (Hcase : conv_spec fs ≠ CONV_HEX_INT → case_adjust fs = 32) (Hadj : 0 ≤ case_adjust fs) :
  ∃ c, npf_convert fs (VWord x :: args) = Some (c, args) ∧
    (if sign_c c =? 45 then -1 else 1) * rev_value (conv_base fs) (case_adjust fs) (cbuf c) = conv_value fs x.
Proof.
  pose proof (extract_unsigned_range (length_modifier fs) x) as Hu. pose proof (extract_signed_range (length_modifier fs) x) as Hs.
  unfold npf_convert, conv_base, conv_value.
  destruct (conv_spec fs) eqn:Ec; [exfalso; apply Hnum; set_solver..| | | | |];
    cbn [va_word mbind option_bind]; (eexists; split; [reflexivity|]); cbn [cbuf sign_c].
  - rewrite Hcase by done. set (v := extract_signed _ x) in *. clearbody v.
    assert (rev_value 10 32 (if no_digits fs v then [] else npf_itoa_rev 64 v) = Z.abs v) as ->.
    { destruct (no_digits fs v) eqn:En; [apply no_digits_zero in En as ->; reflexivity|by apply itoa_64]. }
    destruct (Z.ltb_spec v 0); [simpl; lia|]. rewrite (proj2 (Z.eqb_neq (prepend fs) 45)) by done. lia.
  - rewrite (unsigned_value fs _ _ 8) by lia. simpl. lia.
  - rewrite (unsigned_value fs _ _ 16) by lia. simpl. lia.
  - rewrite (unsigned_value fs _ _ 10) by lia. simpl. lia.
  - rewrite Hcase by done. pose proof (u64_range x). rewrite utoa_64 by lia. simpl. lia.
Qed.

Lemma emit_length fs args c rest
    (Hconv : npf_convert fs args = Some (c, rest)) (Hw : 0 ≤ field_width fs) :
  let len := Z.of_nat (length (cbuf c)) in
  let content := (if sign_c c =? 0 then 0 else 1) + (if need_0x c =? 0 then 0 else 2) +
                 (if decide (conv_spec fs = CONV_STRING) then len else Z.max (cprec c) len) in
  Z.of_nat (length (npf_emit fs c)) = if pad_char fs c =? 0 then content else Z.max (field_width fs) content.
Proof.
  assert (conv_spec fs = CONV_STRING → sign_c c = 0 ∧ need_0x c = 0) as Hstr.
  { intros E. unfold npf_convert in Hconv. rewrite E in Hconv. destruct args as [|[x|l] r]; try done.
    injection Hconv as <- _. done. }
  clear Hconv. intros len content. unfold npf_emit, content.
  assert (∀ n ch, Z.of_nat (length (rep n ch)) = Z.max 0 n) as Hrep by (intros; unfold rep; rewrite length_replicate; lia).
  assert (∀ x y, npf_max x y = Z.max x y) as Hmax by (intros; unfold npf_max; zcases; lia).
  rewrite !Hmax. unfold opt_char, prefix_0x. fold len.
  destruct (decide (conv_spec fs = CONV_STRING)) as [Es|Es];
    [destruct (Hstr Es) as [E1 E2]; rewrite E1, E2, bool_decide_true by done; cbn [Z.eqb]|rewrite bool_decide_false by done];
    clear Hstr content.
  - destruct (left_justified fs), (Z.eqb_spec (pad_char fs c) 0) as [Ep|Ep]; cbn [negb andb];
      try destruct (pad_char fs c =? 48); rewrite !length_app, ?Nat2Z.inj_add, ?Hrep; cbn [length]; fold len; lia.
  - destruct (sign_c c =? 0), (need_0x c =? 0), (left_justified fs), (Z.eqb_spec (pad_char fs c) 0) as [Ep|Ep]; cbn [negb andb];
      try destruct (pad_char fs c =? 48);
      rewrite !length_app, ?Nat2Z.inj_add, ?Hrep, ?length_reverse; cbn [length]; fold len; lia.
Qed.

(** A field is as wide as it was asked to be: one conversion puts out the
    sign, the [0x], and the larger of the precision and the digits, and with a
    pad character it is filled up to the field width, never cut. *)
Theorem field_width_spec fs args c rest
    (Hconv : npf_convert fs args = Some (c, rest)) (Hw : 0 ≤ field_width fs) :
  let len := Z.of_nat (length (cbuf c)) in
  let content := (if sign_c c =? 0 then 0 else 1) + (if need_0x c =? 0 then 0 else 2) +
                 (if decide (conv_spec fs = CONV_STRING) then len else Z.max (cprec c) len) in
  Z.of_nat (length (npf_emit fs c)) = if pad_char fs c =? 0 then content else Z.max (field_width fs) content.
Proof. exact (emit_length fs args c rest Hconv Hw). Qed.

(** ** Formats that are defined whatever the arguments *)

(** The kind of an argument: a word, or a string of at most [n] bytes. *)
Inductive akind := AWord | AString (n : Z).

Definition has_kind (v : va) (k : akind) : Prop :=
  match v, k with
  | VWord _, AWord => True
  | VString l, AString n => zlen l ≤ n
  | _, _ => False
  end.

(** The most bytes one conversion puts out, and the kinds of the arguments left;
    [None] when it takes its width or precision from an argument, or an argument
    of another kind. *)
Definition conv_bound (fs : npf_format_spec) (ks : list akind) : option (Z * list akind) :=
  if decide (field_width_opt fs = OPT_STAR) then None else
  if decide (prec_opt fs = OPT_STAR) then None else
  if negb ((0 <=? field_width fs) && (field_width fs <=? 65536) && (0 <=? prec fs) && (prec fs <=? 65536)) then None else
  match conv_spec fs, ks with
  | CONV_PERCENT, ks => Some (field_width fs + prec fs + 32, ks)
  | CONV_STRING, AString n :: ks => if n <=? 65536 then Some (field_width fs + Z.max 0 n + 3, ks) else None
  | CONV_STRING, _ => None
  | _, AWord :: ks => Some (field_width fs + prec fs + 32, ks)
  | _, _ => None
  end.

(** A bound on the text a format makes from arguments of given kinds, when it is
    defined for all of them. *)
Fixpoint format_bound (fuel : nat) (format : list Z) (ks : list akind) : option Z :=
  match format with
  | [] => Some 0
  | c :: r =>
      match fuel with
      | O => None
      | S f =>
          if negb (c =? 37) then b ← format_bound f r ks; Some (b + 1) else
          spec ← npf_parse_format_spec r;
          match spec with
          | None => b ← format_bound f r ks; Some (b + 1)
          | Some (fs, r) => '(n, ks) ← conv_bound fs ks; b ← format_bound f r ks; Some (n + b)
          end
      end
  end.

Lemma star_args_literal fs args :
  field_width_opt fs ≠ OPT_STAR → prec_opt fs ≠ OPT_STAR → star_args fs args = Some (fs, args).
Proof.
  intros Hw Hp. unfold star_args. rewrite decide_False by done. cbn [mbind option_bind]. by rewrite decide_False.
Qed.

Lemma npf_convert_defined fs args ks n ks' :
  Forall2 has_kind args ks → conv_bound fs ks = Some (n, ks') →
  ∃ c args', npf_convert fs args = Some (c, args') ∧ Forall2 has_kind args' ks' ∧ pads_defined fs c = true ∧
    zlen (npf_emit fs c) ≤ n.
Proof.
  intros Hk Hb. unfold conv_bound in Hb. repeat (destruct (decide _); [done|]).
  destruct (_ && _) eqn:Eb; cbn [negb] in Hb; [|done]. apply andb_prop in Eb as [[[B1 B2]%andb_prop B3]%andb_prop B4].
  apply Z.leb_le in B1, B2, B3, B4.
  assert (∃ c args', npf_convert fs args = Some (c, args') ∧ Forall2 has_kind args' ks' ∧
    (if decide (conv_spec fs = CONV_STRING) then zlen (cbuf c) ≤ 65536 ∧ field_width fs + zlen (cbuf c) + 3 ≤ n
     else zlen (cbuf c) ≤ 23 ∧ n = field_width fs + prec fs + 32) ∧ cprec c ≤ prec fs + 1 ∧ 0 ≤ cprec c) as (c & args' & Hc & Hk' & Hlen & Hcp & Hcp0).
  { destruct (decide (conv_spec fs = CONV_STRING)) as [Es|Es].
    - rewrite Es in Hb. destruct Hk as [|[x|l] [|m] args ks Hv Hk]; try done. simpl in Hv.
      destruct (Z.leb_spec m 65536); [|done]. injection Hb as <- <-. unfold npf_convert. rewrite Es. cbn [va_string mbind option_bind].
      eexists _, _. split; [reflexivity|]. split; [done|]. cbn [cbuf cprec]. unfold zlen in *. rewrite length_take. lia.
    - assert (∃ c args', npf_convert fs args = Some (c, args') ∧ Forall2 has_kind args' ks' ∧ n = field_width fs + prec fs + 32 ∧
        cprec c ≤ prec fs + 1 ∧ 0 ≤ cprec c) as (c & args' & Hc & Hk' & Hn & Hcp).
      { unfold npf_convert. destruct (conv_spec fs) eqn:Ec; [|destruct Hk as [|[x|l] [|m] args ks Hv Hk]; try done..];
          injection Hb as <- <-; cbn [va_word mbind option_bind]; (eexists _, _; split; [reflexivity|]; split; [done|]; cbn [cprec]);
          try (destruct (_ && _)); lia. }
      exists c, args'. split; [done|]. split; [done|]. split; [|lia]. split; [|done].
      pose proof (cbuf_length fs args c args' Hc Es). unfold zlen. lia. }
  exists c, args'. split; [done|]. split; [done|]. pose proof (emit_length fs args c args' Hc B1) as Hem. cbv zeta in Hem. unfold zlen in *.
  split.
  - unfold pads_defined, fits_int, npf_max. destruct (decide (conv_spec fs = CONV_STRING)) as [Es|Es];
      [rewrite bool_decide_true by done|rewrite bool_decide_false by done]; cbn [orb];
      repeat (rewrite andb_true_iff); repeat split; try (apply Z.leb_le || apply Z.ltb_lt); zcases; lia.
  - rewrite Hem. destruct (decide (conv_spec fs = CONV_STRING)); zcases; lia.
Qed.

Lemma format_total (fuel : nat) format args ks b :
  Forall2 has_kind args ks → format_bound fuel format ks = Some b →
  ∃ out, vpprintf_loop fuel format args = Some out ∧ zlen out ≤ b.
Proof.
  revert format args ks b. induction fuel as [|fuel IH]; intros [|c r] args ks b Hk Hb; try done;
    try (injection Hb as <-; by exists []).
  cbn [format_bound] in Hb. cbn [vpprintf_loop].
  assert (∀ b', format_bound fuel r ks = Some b' → b' + 1 = b →
    ∃ out, (rest ← vpprintf_loop fuel r args; Some (c :: rest)) = Some out ∧ zlen out ≤ b) as Hcopy.
  { intros b' Hb' <-. destruct (IH r args ks b' Hk Hb') as (out & -> & Hl). eexists. split; [reflexivity|]. unfold zlen in *. simpl. lia. }
  destruct (negb _).
  { destruct (format_bound fuel r ks) as [b'|] eqn:E; [|done]. injection Hb as Hb. by apply (Hcopy b'). }
  destruct (npf_parse_format_spec r) as [[[fs r']|]|] eqn:Ep; cbn [mbind option_bind] in Hb |- *; [| |done].
  - destruct (conv_bound fs ks) as [[n ks']|] eqn:Ec; [|done]. cbn [mbind option_bind] in Hb.
    destruct (format_bound fuel r' ks') as [b'|] eqn:E; [|done]. injection Hb as <-.
    rewrite star_args_literal; [|intros Es; unfold conv_bound in Ec; rewrite decide_True in Ec by done; done|
      intros Es; unfold conv_bound in Ec; destruct (decide _); [done|]; rewrite decide_True in Ec by done; done].
    cbn [mbind option_bind]. destruct (npf_convert_defined fs args ks n ks' Hk Ec) as (cv & args' & -> & Hk' & Hpads & Hl).
    cbn [mbind option_bind]. rewrite Hpads. cbn [negb]. destruct (IH r' args' ks' b' Hk' E) as (out & -> & Hl'). eexists. split; [reflexivity|].
    unfold zlen in *. rewrite length_app. lia.
  - destruct (format_bound fuel r ks) as [b'|] eqn:E; [|done]. injection Hb as Hb. by apply (Hcopy b').
Qed.


(** ** Concrete formats *)

(** ["[%-5s] 0x%.8llX"] with ["info"] and a number. *)
Definition demo_format : list Z := [91; 37; 45; 53; 115; 93; 32; 48; 120; 37; 46; 56; 108; 108; 88].
Definition demo_args : list va := [VString [105; 110; 102; 111]; VWord 0xBEEF].
Definition demo_text : list Z := [91; 105; 110; 102; 111; 32; 93; 32; 48; 120; 48; 48; 48; 48; 66; 69; 69; 70].

Lemma demo_format_text : npf_vpprintf demo_format demo_args = Some demo_text.
Proof. vm_compute. reflexivity. Qed.


(** Into a buffer of eight bytes. *)
Lemma npf_vsnprintf_spec_witness :
  ∃ m', npf_vsnprintf ∅ 100 8 demo_format demo_args = Some (18, m') ∧ load8 m' 106 = 93 ∧ load8 m' 107 = 0.
Proof.
  destruct (npf_vsnprintf_spec ∅ 100 8 demo_format demo_args demo_text) as (m' & E & _ & H);
    [exact demo_format_text|vm_compute; reflexivity|lia|lia|].
  destruct (H ltac:(lia)) as [H1 H2]. exists m'. split; [exact E|]. split; [exact (H1 6 ltac:(vm_compute; split; congruence))|exact H2].
Defined.

Lemma format_text_witness : npf_vpprintf ([72; 105] ++ [37; 100]) [VWord 7] = Some [72; 105; 55].
Proof. rewrite (format_text [72; 105] [37; 100] [VWord 7]); [vm_compute; reflexivity|]. repeat constructor; discriminate. Defined.

(** [%#lo] of the largest number: all 23 bytes are used. *)
Definition demo_spec : npf_format_spec := Spec 0 true OPT_NONE 0 false false OPT_NONE 0 LEN_MOD_LONG CONV_OCTAL 32.

Lemma conversion_buffer_witness :
  ∃ c, npf_convert demo_spec [VWord (2 ^ 64 - 1)] = Some (c, []) ∧ (length (cbuf c) ≤ 23)%nat ∧ length (cbuf c) = 23%nat.
Proof.
  eexists. split; [vm_compute; reflexivity|]. split; [|reflexivity].
  apply (conversion_buffer demo_spec [VWord (2 ^ 64 - 1)] _ []); [vm_compute; reflexivity|discriminate].
Defined.

Lemma conversion_value_witness :
  ∃ c, npf_convert demo_spec [VWord (-1)] = Some (c, []) ∧ rev_value 8 32 (cbuf c) = 2 ^ 64 - 1.
Proof.
  destruct (conversion_value demo_spec (-1) []) as (c & E & H);
    [set_solver|discriminate|reflexivity|cbn; lia|].
  exists c. split; [exact E|]. assert (sign_c c = 0) as Hs by (vm_compute in E; by injection E as <-).
  rewrite Hs in H. cbn [Z.eqb] in H. change (conv_base demo_spec) with 8 in H. change (case_adjust demo_spec) with 32 in H.
  change (conv_value demo_spec (-1)) with (u64 (-1)) in H. change (u64 (-1)) with (2 ^ 64 - 1) in H. lia.
Defined.

(** [%08d] of -42 is eight characters. *)
Lemma field_width_spec_witness :
  let fs := Spec 0 false OPT_LITERAL 8 false true OPT_NONE 0 LEN_MOD_NONE CONV_SIGNED_INT 32 in
  ∃ c, npf_convert fs [VWord (-42)] = Some (c, []) ∧ Z.of_nat (length (npf_emit fs c)) = 8.
Proof.
  intros fs. eexists. split; [vm_compute; reflexivity|].
  exact (field_width_spec fs [VWord (-42)] _ [] ltac:(vm_compute; reflexivity) ltac:(cbn; lia)).
Defined.
