(* ===== verification/PageAlloc.v ===== *)
(** * The interface of the physical page allocator

    [mm/vmm.c], [mm/vma.c] and [proc/data/elf.c] get memory by
    [pmm_request_page] and give it back by [pmm_release_page]; they touch the
    pages through the higher-half direct map.  [PageAlloc] names the two
    operations and the memory they share with their clients; [PageAllocLaws]
    is what the clients may rely on.  [Pmm] discharges it. *)

From stdpp Require Import base gmap list.
From Stdlib Require Import ZArith Lia.
From S2P Require Import Prelude Ram.
#[local] Open Scope Z_scope.

(** [mm/pmm.h]: the direct map adds a constant offset to a physical address. *)
Definition HIGHER_HALF (hhdm_offset ptr : Z) : Z := u64 (ptr + hhdm_offset).
Definition PHYSICAL (hhdm_offset ptr : Z) : Z := u64 (ptr - hhdm_offset).

(** A page frame: aligned, not the frame 0, inside the 52-bit physical address
    space and inside what the direct map reaches. *)
Definition page_ok (hhdm_offset p : Z) : Prop :=
  p mod PAGE_SIZE = 0 ∧ 0 < p ∧ p + PAGE_SIZE ≤ 2 ^ 52 ∧ hhdm_offset + p + PAGE_SIZE ≤ 2 ^ 64.

(** The address [a] is a byte of the frame [p] in the direct map. *)
Definition page_byte (hhdm_offset p a : Z) : Prop :=
  hhdm_offset + p ≤ a < hhdm_offset + p + PAGE_SIZE.

Class PageAlloc (S : Type) := {
  pa_ram : S → mem;
  pa_with_ram : S → mem → S;
  pmm_request : S → Z * S;
  pmm_release : S → Z → S;
}.

Class PageAllocLaws (hhdm_offset : Z) (S : Type) `{PageAlloc S} := {
  (** the allocator's own invariant, its free pages (next one first), the
      pages it manages, and the bytes of memory it keeps for itself *)
  pa_inv : S → Prop;
  pa_free : S → list Z;
  pa_pool : S → Z → Prop;
  pa_own : S → Z → Prop;

  pa_hhdm : 0 ≤ hhdm_offset;
  pa_pool_ok s p : pa_inv s → pa_pool s p → page_ok hhdm_offset p;
  pa_pool_own s p a : pa_inv s → pa_pool s p → page_byte hhdm_offset p a → ¬ pa_own s a;
  pa_free_pool s p : pa_inv s → p ∈ pa_free s → pa_pool s p;
  pa_free_NoDup s : pa_inv s → NoDup (pa_free s);

  pa_ram_with_ram s m : pa_ram (pa_with_ram s m) = m;
  pa_pool_with_ram s m p : pa_pool (pa_with_ram s m) p ↔ pa_pool s p;
  pa_own_with_ram s m a : pa_own (pa_with_ram s m) a ↔ pa_own s a;
  pa_with_ram_inv s m :
    pa_inv s → (∀ a, pa_own s a → load8 m a = load8 (pa_ram s) a) →
    pa_inv (pa_with_ram s m) ∧ pa_free (pa_with_ram s m) = pa_free s;

  pa_request_empty s : pa_inv s → pa_free s = [] → pmm_request s = (0, s);
  pa_request_page s p ps :
    pa_inv s → pa_free s = p :: ps →
    ∃ s', pmm_request s = (p, s') ∧ pa_inv s' ∧ pa_free s' = ps ∧
      (∀ q, pa_pool s' q ↔ pa_pool s q) ∧ (∀ a, pa_own s' a ↔ pa_own s a) ∧
      (∀ a, page_byte hhdm_offset p a → load8 (pa_ram s') a = 0) ∧
      (∀ a, ¬ page_byte hhdm_offset p a → load8 (pa_ram s') a = load8 (pa_ram s) a);
  pa_release_page s p :
    pa_inv s → pa_pool s p → p ∉ pa_free s →
    pa_inv (pmm_release s p) ∧ pa_free (pmm_release s p) = p :: pa_free s ∧
    (∀ q, pa_pool (pmm_release s p) q ↔ pa_pool s q) ∧
    (∀ a, pa_own (pmm_release s p) a ↔ pa_own s a) ∧
    (∀ a, ¬ pa_own s a → load8 (pa_ram (pmm_release s p)) a = load8 (pa_ram s) a);
}.

(** ** Addresses of the direct map *)

Lemma HIGHER_HALF_page hhdm p : 0 ≤ hhdm → page_ok hhdm p → HIGHER_HALF hhdm p = hhdm + p.
Proof. intros ? (? & ? & ? & ?). unfold HIGHER_HALF, PAGE_SIZE in *. rewrite u64_small; lia. Qed.

Lemma PHYSICAL_HIGHER_HALF hhdm p :
  0 ≤ p < 2 ^ 64 → PHYSICAL hhdm (HIGHER_HALF hhdm p) = p.
Proof.
  intros. unfold PHYSICAL, HIGHER_HALF, u64.
  rewrite Zminus_mod_idemp_l. rewrite Z.mod_small; lia.
Qed.

Lemma page_byte_inj hhdm p q a :
  p mod PAGE_SIZE = 0 → q mod PAGE_SIZE = 0 →
  page_byte hhdm p a → page_byte hhdm q a → p = q.
Proof.
  unfold page_byte, PAGE_SIZE. intros Hp Hq ??.
  apply Z.mod_divide in Hp as [i ->]; [|lia]. apply Z.mod_divide in Hq as [j ->]; [|lia]. lia.
Qed.

Lemma page_byte_dec hhdm p a : Decision (page_byte hhdm p a).
Proof. unfold page_byte. apply _. Defined.
#[export] Existing Instance page_byte_dec.
