(* ===== verification/Pmm.v ===== *)
(** * The physical page allocator, [mm/pmm.c]

    The free pages are a stack of 64-bit addresses kept in memory, in an array
    carved out of the first usable region that is large enough.  A direct-mapped
    cache of 128 recently seen pages (and a secondary cache of 64, which
    nothing ever fills) short-cuts the validity check of an address against
    the boot loader's memory map. *)

From stdpp Require Import base gmap list.
From Stdlib Require Import ZArith Lia.
From S2P Require Import Prelude Ram PageAlloc.
#[local] Open Scope Z_scope.

Definition CACHE_SIZE : Z := 128.
Definition SECONDARY_CACHE_SIZE : Z := 64.

Record page_cache_entry := CacheEntry {
  page_addr : Z;
  is_valid : bool;
  access_count : Z;
}.

(** The kinds of memory [pmm.c] tells apart in a Limine memory map. *)
Inductive memmap_type :=
| LIMINE_MEMMAP_USABLE
| LIMINE_MEMMAP_BOOTLOADER_RECLAIMABLE
| LIMINE_MEMMAP_OTHER.

Record memmap_entry := MemmapEntry {
  base : Z;
  len : Z;
  type : memmap_type;
}.

(** [struct pmm_stack] *)
Record pmm_stack := PmmStack {
  pages : Z;
  idx : Z;
  max : Z;
}.

(** The static variables of [pmm.c]. *)
Record page_caches := PageCaches {
  valid_page_cache : list page_cache_entry;
  cache_head : Z;
  secondary_cache : list page_cache_entry;
}.

Record pmm := Pmm {
  ram : mem;
  stack : pmm_stack;
  caches : page_caches;
  reclaimed : bool;
  memmap : list memmap_entry;
}.

#[export] Instance memmap_type_eq_dec : EqDecision memmap_type.
Proof. solve_decision. Defined.

Definition is_usable (e : memmap_entry) : bool :=
  bool_decide (type e = LIMINE_MEMMAP_USABLE).
Definition is_reclaimable (e : memmap_entry) : bool :=
  bool_decide (type e = LIMINE_MEMMAP_BOOTLOADER_RECLAIMABLE).

Definition set_ram (s : pmm) (m : mem) : pmm :=
  Pmm m (stack s) (caches s) (reclaimed s) (memmap s).
Definition set_stack (s : pmm) (k : pmm_stack) : pmm :=
  Pmm (ram s) k (caches s) (reclaimed s) (memmap s).
Definition set_caches (s : pmm) (c : page_caches) : pmm :=
  Pmm (ram s) (stack s) c (reclaimed s) (memmap s).

(** The zero-initialised variables. *)
Definition empty_entry : page_cache_entry := CacheEntry 0 false 0.
Definition pmm_boot (m : mem) : pmm :=
  Pmm m (PmmStack 0 0 0)
    (PageCaches (replicate (Z.to_nat CACHE_SIZE) empty_entry) 0
                (replicate (Z.to_nat SECONDARY_CACHE_SIZE) empty_entry))
    false [].

Definition hash_page (addr : Z) : Z :=
  let prime1 := 0x9e3779b97f4a7c15 in
  let prime2 := 0x7f4a7c159e3779b9 in
  let hash := addr in
  let hash := u64 (Z.lxor hash (Z.shiftr hash 30) * prime1) in
  let hash := u64 (Z.lxor hash (Z.shiftr hash 27) * prime2) in
  let hash := Z.lxor hash (Z.shiftr hash 31) in
  hash mod CACHE_SIZE.

Section pmm.
(** [hhdm_offset] is set by [kmain] from the boot loader's answer.  [beyond] is
    what a read past the end of [secondary_cache] finds: [hash_page] ranges
    over 128 slots and the array has 64. *)
Context (hhdm_offset : Z) (beyond : Z → page_cache_entry).

Definition primary_at (c : page_caches) (i : Z) : page_cache_entry :=
  default empty_entry (valid_page_cache c !! Z.to_nat i).

Definition secondary_at (c : page_caches) (i : Z) : page_cache_entry :=
  match secondary_cache c !! Z.to_nat i with Some e => e | None => beyond i end.

Definition set_primary (c : page_caches) (i : Z) (e : page_cache_entry) : page_caches :=
  PageCaches (<[Z.to_nat i := e]> (valid_page_cache c)) (cache_head c) (secondary_cache c).

Definition cache_hit (e : page_cache_entry) (addr : Z) : bool :=
  is_valid e && (page_addr e =? addr).

Definition is_in_secondary_cache (c : page_caches) (addr : Z) : bool :=
  cache_hit (secondary_at c (hash_page addr)) addr.

Definition update_cache_access (c : page_caches) (addr : Z) : page_caches :=
  let cache_idx := hash_page addr in
  let e := primary_at c cache_idx in
  if cache_hit e addr
  then set_primary c cache_idx (CacheEntry (page_addr e) (is_valid e) (u64 (access_count e + 1)))
  else if is_in_secondary_cache c addr
  then match list_find (λ e, page_addr e = addr) (secondary_cache c) with
       | None => c
       | Some (i, e) =>
           PageCaches
             (<[Z.to_nat cache_idx := CacheEntry (page_addr e) (is_valid e) 1]> (valid_page_cache c))
             (cache_head c)
             (<[i := CacheEntry (page_addr e) false (access_count e)]> (secondary_cache c))
       end
  else c.

(** The address lies in an entry the allocator may hand out. *)
Definition entry_covers (recl : bool) (addr : Z) (e : memmap_entry) : bool :=
  (is_usable e || (is_reclaimable e && recl)) &&
  (base e <=? addr) && (addr <? u64 (base e + len e)).

Definition is_page_valid (s : pmm) (addr : Z) : bool * pmm :=
  let e := primary_at (caches s) (hash_page addr) in
  if cache_hit e addr
  then (true, set_caches s (update_cache_access (caches s) addr))
  else if existsb (entry_covers (reclaimed s) addr) (memmap s)
  then (true, set_caches s (update_cache_access (caches s) addr))
  else (false, s).

(** [stack.pages[stack.idx++] = page] *)
Definition push_page (s : pmm) (page : Z) : pmm :=
  let k := stack s in
  Pmm (store64 (ram s) (pages k + 8 * idx k) page)
      (PmmStack (pages k) (u64 (idx k + 1)) (max k))
      (caches s) (reclaimed s) (memmap s).

(** The same through a NULL array is undefined. *)
Definition kpush (page : Z) : kernel pmm unit :=
  λ s, if pages (stack s) =? 0 then Fault else Ret tt (push_page s page).

Definition pmm_release_page (s : pmm) (page : Z) : pmm :=
  if page =? 0 then s else
  let '(ok, s1) := is_page_valid s page in
  if negb ok then s1 else
  if max (stack s1) <=? idx (stack s1) then s1 else
  let c := set_primary (caches s1) (hash_page page) (CacheEntry page true 0) in
  let c := PageCaches (valid_page_cache c) (u64 (cache_head c + 1) mod CACHE_SIZE) (secondary_cache c) in
  push_page (set_caches s1 c) page.

Definition pmm_request_page (s : pmm) : Z * pmm :=
  if idx (stack s) =? 0 then (0, s) else
  if u64 (idx (stack s) - 1) =? u64 (-1) then (0, s) else
  let k := stack s in
  let i := u64 (idx k - 1) in
  let addr := load64 (ram s) (pages k + 8 * i) in
  let s1 := set_stack s (PmmStack (pages k) i (max k)) in
  let '(ok, s2) := is_page_valid s1 addr in
  if negb ok then (0, s2) else
  let higher_half_addr := HIGHER_HALF hhdm_offset addr in
  if higher_half_addr =? 0 then (0, s2) else
  (ALIGN_UP addr PAGE_SIZE, set_ram s2 (memset (ram s2) higher_half_addr 0 PAGE_SIZE)).

Definition pmm_get_free_memory (s : pmm) : Z := u64 (idx (stack s) * PAGE_SIZE).
Definition pmm_get_total_memory (s : pmm) : Z := u64 (max (stack s) * PAGE_SIZE).

(** ** Initialisation *)

(** [for (j = 0; j < entry->length; j += PAGE_SIZE) body(entry->base + j)] *)
Fixpoint for_pages (fuel : nat) (e : memmap_entry) (j : Z) (body : Z → kernel pmm unit) :
    kernel pmm unit :=
  if len e <=? j then kret tt else
  match fuel with
  | O => knofuel
  | S f => body (u64 (base e + j));;; for_pages f e (u64 (j + PAGE_SIZE)) body
  end.

Definition region_fuel (e : memmap_entry) : nat := Z.to_nat (len e / PAGE_SIZE + 1).

(** A loop over the entries of the memory map of one kind. *)
Fixpoint for_entries (p : memmap_entry → bool) (mm : list memmap_entry)
    (body : Z → kernel pmm unit) : kernel pmm unit :=
  match mm with
  | [] => kret tt
  | e :: mm' =>
      (if p e then for_pages (region_fuel e) e 0 body else kret tt);;;
      for_entries p mm' body
  end.

Definition count_free_pages (mm : list memmap_entry) : Z :=
  foldl (λ n e, if is_usable e then u64 (n + DIV_ROUND_UP (len e) PAGE_SIZE) else n) 0 mm.

(** The size in bytes of the array of free pages, in whole pages. *)
Definition stack_array_size (mm : list memmap_entry) : Z :=
  ALIGN_UP (u64 (count_free_pages mm * 8)) PAGE_SIZE.

Definition has_room (array_size : Z) (e : memmap_entry) : bool :=
  (array_size <=? len e) && is_usable e.

(** The entry without its first [array_size] bytes. *)
Definition carve (array_size : Z) (e : memmap_entry) : memmap_entry :=
  MemmapEntry (u64 (base e + array_size)) (u64 (len e - array_size)) (type e).

(** [for (j = 0; j < CACHE_SIZE && cached_count < free_pages; ++j)]: the slots
    below both bounds are set, the others keep what they held. *)
Definition fill_cache (c : page_caches) (first free_pages : Z) : page_caches :=
  PageCaches
    (imap (λ j e, if Z.of_nat j <? free_pages
                  then CacheEntry (u64 (first + Z.of_nat j * PAGE_SIZE)) true 0 else e)
          (valid_page_cache c))
    (cache_head c) (secondary_cache c).

(** The second loop of [pmm_init]: the array goes to the first usable entry
    with room, which shrinks. *)
Fixpoint place_array (array_size free_pages : Z) (mm : list memmap_entry) (s : pmm) :
    list memmap_entry * pmm :=
  match mm with
  | [] => ([], s)
  | e :: mm' =>
      if has_room array_size e then
        let e' := carve array_size e in
        (e' :: mm',
         Pmm (ram s)
             (PmmStack (HIGHER_HALF hhdm_offset (base e)) (idx (stack s)) (max (stack s)))
             (fill_cache (caches s) (base e') free_pages) (reclaimed s) (memmap s))
      else let '(mm'', s') := place_array array_size free_pages mm' s in (e :: mm'', s')
  end.

Definition pmm_init (mm : option (list memmap_entry)) : kernel pmm unit :=
  match mm with
  | None => khalt
  | Some mm =>
      let free_pages := count_free_pages mm in
      let array_size := stack_array_size mm in
      λ s0,
      let '(mm', s1) := place_array array_size free_pages mm s0 in
      (kmod (λ s, Pmm (ram s) (stack s) (caches s) (reclaimed s) mm');;;
       for_entries is_usable mm' kpush;;;
       kmod (λ s, Pmm (ram s) (PmmStack (pages (stack s)) (idx (stack s)) (idx (stack s)))
                      (caches s) false (memmap s))) s1
  end.

Definition pmm_vmm_cleanup (mm : list memmap_entry) : kernel pmm unit :=
  kmod (λ s, Pmm (ram s) (stack s) (caches s) true (memmap s));;;
  for_entries is_reclaimable mm
    (λ page, kpush page;;; kmod (λ s, pmm_release_page s page));;;
  kmod (λ s, set_stack s (PmmStack (pages (stack s)) (idx (stack s)) (idx (stack s)))).

End pmm.

(** [mm/pmm.h]: sizes for the log, rounded to the nearest unit. *)
Definition BYTES_TO_KB (bytes : Z) : Z := bytes / 1024 + (if 512 <=? bytes mod 1024 then 1 else 0).
Definition BYTES_TO_MB (bytes : Z) : Z :=
  BYTES_TO_KB bytes / 1024 + (if 512 <=? BYTES_TO_KB bytes mod 1024 then 1 else 0).

(** ** The pages of a memory map *)

Definition region_pages (e : memmap_entry) : list Z :=
  (λ i : nat, base e + PAGE_SIZE * Z.of_nat i) <$> seq 0 (Z.to_nat (len e / PAGE_SIZE)).

Fixpoint pages_of (p : memmap_entry → bool) (mm : list memmap_entry) : list Z :=
  match mm with
  | [] => []
  | e :: mm' => (if p e then region_pages e else []) ++ pages_of p mm'
  end.

Abbreviation usable_pages := (pages_of is_usable).

(** What the Limine protocol says of usable (and reclaimable) entries: base and
    length are multiples of 4096, the page at 0 is never among them; and what
    the kernel needs of the direct map, that it reaches them. *)
Definition entry_ok (hhdm : Z) (e : memmap_entry) : Prop :=
  base e mod PAGE_SIZE = 0 ∧ len e mod PAGE_SIZE = 0 ∧ PAGE_SIZE ≤ base e ∧ 0 ≤ len e ∧
  base e + len e ≤ 2 ^ 52 ∧ hhdm + base e + len e < 2 ^ 64.

(** Usable entries are well formed and do not overlap, and there are fewer than
    2^40 pages (52-bit physical addresses). *)
Definition memmap_ok (hhdm : Z) (mm : list memmap_entry) : Prop :=
  Forall (λ e, is_usable e = true → entry_ok hhdm e) mm ∧
  NoDup (usable_pages mm) ∧ Z.of_nat (length (usable_pages mm)) < 2 ^ 40.

Lemma elem_of_region_pages e p :
  p ∈ region_pages e ↔ ∃ i, 0 ≤ i < len e / PAGE_SIZE ∧ p = base e + PAGE_SIZE * i.
Proof.
  unfold region_pages. rewrite list_elem_of_fmap. setoid_rewrite elem_of_seq. split.
  - intros (i & -> & Hi). exists (Z.of_nat i). split; [lia|done].
  - intros (i & Hi & ->). exists (Z.to_nat i). rewrite Z2Nat.id by lia. split; [done|lia].
Qed.

Lemma elem_of_pages_of p mm a :
  a ∈ pages_of p mm ↔ ∃ e, e ∈ mm ∧ p e = true ∧ a ∈ region_pages e.
Proof.
  induction mm as [|e mm IH]; simpl.
  - split; [by intros ?%elem_of_nil | intros (e & ?%elem_of_nil & _); done].
  - rewrite elem_of_app, IH. setoid_rewrite elem_of_cons. split.
    + intros [H|(e' & ? & ? & ?)].
      * destruct (p e) eqn:E; [by exists e; eauto | by apply elem_of_nil in H].
      * by exists e'; eauto.
    + intros (e' & [->|?] & Hp & Ha); [left; by rewrite Hp | right; eauto].
Qed.

Lemma region_page_bounds hhdm e p :
  entry_ok hhdm e → p ∈ region_pages e →
  page_ok hhdm p ∧ base e ≤ p ∧ p + PAGE_SIZE ≤ base e + len e.
Proof.
  intros (Hb & Hl & Hb0 & Hl0 & H52 & H64) (i & Hi & ->)%elem_of_region_pages.
  unfold PAGE_SIZE in *.
  apply Z.mod_divide in Hb as [k Hk]; [|lia]. apply Z.mod_divide in Hl as [n Hn]; [|lia].
  rewrite Hn, Z.div_mul in Hi by lia.
  unfold page_ok, PAGE_SIZE. split_and!; try lia.
  rewrite Hk. replace (k * 4096 + 4096 * i) with ((k + i) * 4096) by lia.
  apply Z.mod_mul. lia.
Qed.

Lemma usable_page_ok hhdm mm p : memmap_ok hhdm mm → p ∈ usable_pages mm → page_ok hhdm p.
Proof.
  intros (HF & _ & _) (e & He & Hu & Hp)%elem_of_pages_of.
  rewrite Forall_forall in HF. eapply region_page_bounds; eauto.
Qed.

Lemma usable_page_covered hhdm mm recl p :
  memmap_ok hhdm mm → p ∈ usable_pages mm → existsb (entry_covers recl p) mm = true.
Proof.
  intros (HF & _ & _) (e & He & Hu & Hp)%elem_of_pages_of.
  rewrite Forall_forall in HF. specialize (HF e He Hu).
  destruct (region_page_bounds _ _ _ HF Hp) as (_ & H1 & H2).
  apply existsb_exists. exists e. split; [by apply list_elem_of_In|].
  destruct HF as (_ & _ & ? & ? & ? & ?). unfold entry_covers, PAGE_SIZE in *.
  rewrite Hu, u64_small by lia. simpl. lia.
Qed.

(** ** The loops *)

(** Run [body] on each page in turn. *)
Definition kiter (body : Z → kernel pmm unit) (l : list Z) : kernel pmm unit :=
  foldr (λ p c, body p;;; c) (kret tt) l.

Lemma kiter_app body l1 l2 s :
  kiter body (l1 ++ l2) s = (kiter body l1;;; kiter body l2) s.
Proof.
  revert s. induction l1 as [|p l1 IH]; intros s; [done|]. simpl. unfold kbind in *.
  destruct (body p s); done.
Qed.

Lemma for_pages_S f e j body :
  for_pages (S f) e j body =
  if len e <=? j then kret tt
  else (body (u64 (base e + j));;; for_pages f e (u64 (j + PAGE_SIZE)) body).
Proof. done. Qed.

Lemma for_pages_kiter hhdm e body k n s :
  entry_ok hhdm e → 0 ≤ k → len e = PAGE_SIZE * (k + Z.of_nat n) →
  for_pages (S n) e (PAGE_SIZE * k) body s =
  kiter body ((λ i : nat, base e + PAGE_SIZE * (k + Z.of_nat i)) <$> seq 0 n) s.
Proof.
  intros He. destruct (He) as (_ & _ & Hb & _ & H52 & _). unfold PAGE_SIZE in *.
  revert k s. induction n as [|n IH]; intros k s Hk Hl; rewrite for_pages_S; unfold PAGE_SIZE.
  - destruct (Z.leb_spec (len e) (4096 * k)); [done|lia].
  - destruct (Z.leb_spec (len e) (4096 * k)); [lia|].
    cbn [seq]. rewrite fmap_cons. simpl kiter. unfold kbind at 1 2.
    rewrite Z.add_0_r, (u64_small (base e + _)), u64_small by lia.
    destruct (body _ s) as [[] s'| | | |]; try done.
    replace (4096 * k + 4096) with (4096 * (k + 1)) by lia.
    rewrite IH by lia. rewrite <- fmap_S_seq, <- list_fmap_compose.
    f_equal. apply list_fmap_ext. intros i j _. simpl. lia.
Qed.

Lemma for_entries_kiter hhdm p mm body s :
  Forall (λ e, p e = true → entry_ok hhdm e) mm →
  for_entries p mm body s = kiter body (pages_of p mm) s.
Proof.
  intros HF. revert s. induction HF as [|e mm He HF IH]; intros s; [done|].
  cbn [for_entries pages_of]. rewrite kiter_app. destruct (p e) eqn:Hp; [|apply IH].
  unfold kbind. specialize (He eq_refl). destruct (He) as (_ & Hm & _ & Hl & _ & _).
  apply Z.mod_divide in Hm as [n Hn]; [|by unfold PAGE_SIZE].
  assert (len e / PAGE_SIZE = n) as Hd by (rewrite Hn; by apply Z.div_mul).
  unfold region_fuel. rewrite Hd. unfold PAGE_SIZE in Hn.
  replace (Z.to_nat (n + 1)) with (S (Z.to_nat n)) by lia.
  rewrite (for_pages_kiter hhdm e body 0 (Z.to_nat n)); [|done|lia|unfold PAGE_SIZE; lia].
  unfold region_pages. rewrite Hd.
  erewrite (list_fmap_ext _ (λ i : nat, base e + PAGE_SIZE * Z.of_nat i)); [|by intros; f_equal; f_equal; lia].
  by destruct (kiter _ _ s).
Qed.

(** The first [n] words of the array at [p]. *)
Definition stack_list (m : mem) (p : Z) (n : nat) : list Z :=
  (λ i : nat, load64 m (p + 8 * Z.of_nat i)) <$> seq 0 n.

Lemma stack_list_S m p n :
  stack_list m p (S n) = stack_list m p n ++ [load64 m (p + 8 * Z.of_nat n)].
Proof. unfold stack_list. by rewrite seq_S, fmap_app. Qed.

Lemma stack_list_length m p n : length (stack_list m p n) = n.
Proof. unfold stack_list. by rewrite length_fmap, length_seq. Qed.

Lemma stack_list_ext m m' p n :
  (∀ a, p ≤ a < p + 8 * Z.of_nat n → load8 m' a = load8 m a) →
  stack_list m' p n = stack_list m p n.
Proof.
  intros Ha. apply list_fmap_ext. intros i x Hx. apply lookup_seq in Hx as [-> Hx].
  apply load64_ext. intros. apply Ha. lia.
Qed.

Lemma stack_list_push m p n v :
  0 ≤ v < 2 ^ 64 →
  stack_list (store64 m (p + 8 * Z.of_nat n) v) p (S n) = stack_list m p n ++ [v].
Proof.
  intros Hv. rewrite stack_list_S, load64_store64_eq, u64_small by done. f_equal.
  apply stack_list_ext. intros. apply load8_store64_out. lia.
Qed.

(** ** The invariant *)

(** The stack, bottom first. *)
Definition free_stack (s : pmm) : list Z :=
  stack_list (ram s) (pages (stack s)) (Z.to_nat (idx (stack s))).

(** The bytes of the array of free pages. *)
Definition array_byte (s : pmm) (a : Z) : Prop :=
  pages (stack s) ≤ a < pages (stack s) + 8 * max (stack s).

Record pmm_inv (hhdm : Z) (s : pmm) : Prop := {
  inv_hhdm : 0 ≤ hhdm;
  inv_memmap : memmap_ok hhdm (memmap s);
  inv_primary : length (valid_page_cache (caches s)) = Z.to_nat CACHE_SIZE;
  inv_secondary : length (secondary_cache (caches s)) = Z.to_nat SECONDARY_CACHE_SIZE;
  inv_array : 0 < pages (stack s);
  inv_idx : 0 ≤ idx (stack s) ≤ max (stack s);
  inv_max : max (stack s) = Z.of_nat (length (usable_pages (memmap s)));
  inv_free_NoDup : NoDup (free_stack s);
  inv_free_usable : ∀ p, p ∈ free_stack s → p ∈ usable_pages (memmap s);
  inv_disjoint : ∀ p a, p ∈ usable_pages (memmap s) → page_byte hhdm p a → ¬ array_byte s a;
}.

Lemma set_primary_length c i e :
  length (valid_page_cache (set_primary c i e)) = length (valid_page_cache c).
Proof. apply length_insert. Qed.

Section proofs.
Context (hhdm_offset : Z) (beyond : Z → page_cache_entry).
Abbreviation request := (pmm_request_page hhdm_offset beyond).
Abbreviation release := (pmm_release_page beyond).

Lemma update_cache_access_length c addr :
  length (valid_page_cache (update_cache_access beyond c addr)) = length (valid_page_cache c) ∧
  length (secondary_cache (update_cache_access beyond c addr)) = length (secondary_cache c).
Proof.
  unfold update_cache_access. destruct (cache_hit _ _); simpl; [by rewrite length_insert|].
  destruct (is_in_secondary_cache _ _ _); [|done].
  destruct (list_find _ _) as [[i e]|]; [|done]. simpl. by rewrite !length_insert.
Qed.

(** Only the caches change, and a page of a usable entry is valid. *)
Lemma is_page_valid_caches s addr :
  ∃ c, (is_page_valid beyond s addr).2 = set_caches s c ∧
    length (valid_page_cache c) = length (valid_page_cache (caches s)) ∧
    length (secondary_cache c) = length (secondary_cache (caches s)).
Proof.
  pose proof (update_cache_access_length (caches s) addr) as [H1 H2].
  unfold is_page_valid.
  destruct (cache_hit _ _); [simpl; eauto|]. destruct (existsb _ _); simpl; [eauto|].
  exists (caches s). by destruct s.
Qed.

Lemma is_page_valid_usable s addr :
  memmap_ok hhdm_offset (memmap s) → addr ∈ usable_pages (memmap s) →
  (is_page_valid beyond s addr).1 = true.
Proof.
  intros Hm Ha. unfold is_page_valid.
  destruct (cache_hit _ _); [done|]. by rewrite (usable_page_covered hhdm_offset).
Qed.

(** Replacing the caches by others of the same size, and memory outside the
    array, keeps the invariant. *)
Lemma pmm_inv_set_caches s c :
  length (valid_page_cache c) = length (valid_page_cache (caches s)) →
  length (secondary_cache c) = length (secondary_cache (caches s)) →
  pmm_inv hhdm_offset s → pmm_inv hhdm_offset (set_caches s c).
Proof. intros Hc1 Hc2 []. by constructor; simpl; try congruence. Qed.

Lemma pmm_inv_set_ram s m :
  pmm_inv hhdm_offset s → (∀ a, array_byte s a → load8 m a = load8 (ram s) a) →
  pmm_inv hhdm_offset (set_ram s m) ∧ free_stack (set_ram s m) = free_stack s.
Proof.
  intros [] Ha.
  assert (free_stack (set_ram s m) = free_stack s) as E.
  { apply stack_list_ext. intros a Hr. apply Ha. unfold array_byte. simpl in *. lia. }
  split; [|done]. by constructor; simpl; try rewrite E.
Qed.

(** ** Requesting a page *)

Lemma request_empty s : idx (stack s) = 0 → request s = (0, s).
Proof. intros H. unfold pmm_request_page. by rewrite H. Qed.

Lemma free_stack_pop s :
  0 < idx (stack s) →
  free_stack s =
  stack_list (ram s) (pages (stack s)) (Z.to_nat (idx (stack s) - 1)) ++
  [load64 (ram s) (pages (stack s) + 8 * (idx (stack s) - 1))].
Proof.
  intros Hi. unfold free_stack.
  replace (Z.to_nat (idx (stack s))) with (S (Z.to_nat (idx (stack s) - 1))) by lia.
  rewrite stack_list_S. by rewrite Z2Nat.id by lia.
Qed.

Lemma max_small s : pmm_inv hhdm_offset s → max (stack s) < 2 ^ 40.
Proof. intros []. destruct inv_memmap0 as (_ & _ & ?). lia. Qed.

Lemma request_top s l p :
  pmm_inv hhdm_offset s → free_stack s = l ++ [p] →
  ∃ c, request s =
    (p, Pmm (memset (ram s) (hhdm_offset + p) 0 PAGE_SIZE)
            (PmmStack (pages (stack s)) (idx (stack s) - 1) (max (stack s)))
            c (reclaimed s) (memmap s)) ∧
    length (valid_page_cache c) = length (valid_page_cache (caches s)) ∧
    length (secondary_cache c) = length (secondary_cache (caches s)).
Proof.
  intros Hinv Hl. pose proof (max_small s Hinv) as Hmax. destruct Hinv.
  assert (0 < idx (stack s)) as Hi.
  { apply (f_equal length) in Hl. unfold free_stack in Hl.
    rewrite stack_list_length, length_app in Hl. simpl in Hl. lia. }
  pose proof (free_stack_pop s Hi) as Hpop. rewrite Hpop in Hl.
  apply app_inj_tail in Hl as [Hl Hp].
  assert (p ∈ usable_pages (memmap s)) as Hu.
  { apply inv_free_usable0. rewrite Hpop, <- Hp. apply elem_of_app. right. by left. }
  pose proof (usable_page_ok _ _ _ inv_memmap0 Hu) as Hpok.
  destruct (Hpok) as (Hal & Hp0 & H52 & H64). unfold PAGE_SIZE in *.
  unfold pmm_request_page.
  destruct (Z.eqb_spec (idx (stack s)) 0); [lia|].
  rewrite !(u64_small (idx (stack s) - 1)), Hp by lia.
  destruct (Z.eqb_spec (idx (stack s) - 1) (u64 (-1))) as [E|_].
  { unfold u64 in E. change ((-1) mod 2 ^ 64) with (2 ^ 64 - 1) in E. lia. }
  set (s1 := set_stack s _).
  destruct (is_page_valid_caches s1 p) as (c & Hc & Hc1 & Hc2).
  pose proof (is_page_valid_usable s1 p inv_memmap0 Hu) as Hv.
  destruct (is_page_valid beyond s1 p) as [ok s2]. simpl in Hv, Hc. subst ok s2. simpl.
  rewrite HIGHER_HALF_page by (done || lia).
  destruct (Z.eqb_spec (hhdm_offset + p) 0); [lia|].
  rewrite ALIGN_UP_aligned by (done || (unfold PAGE_SIZE; lia)).
  exists c. done.
Qed.

(** A request takes the top page, fills it with zeros, and keeps the
    invariant. *)
Lemma request_inv s l p :
  pmm_inv hhdm_offset s → free_stack s = l ++ [p] →
  ∃ s', request s = (p, s') ∧ pmm_inv hhdm_offset s' ∧ free_stack s' = l ∧
    memmap s' = memmap s ∧ pages (stack s') = pages (stack s) ∧ max (stack s') = max (stack s) ∧
    ram s' = memset (ram s) (hhdm_offset + p) 0 PAGE_SIZE.
Proof.
  intros Hinv Hl. destruct (request_top s l p Hinv Hl) as (c & -> & Hc1 & Hc2).
  destruct Hinv.
  assert (0 < idx (stack s)) as Hi.
  { apply (f_equal length) in Hl. unfold free_stack in Hl.
    rewrite stack_list_length, length_app in Hl. simpl in Hl. lia. }
  pose proof (free_stack_pop s Hi) as Hpop. rewrite Hl in Hpop.
  apply app_inj_tail in Hpop as [Hpop _].
  assert (p ∈ usable_pages (memmap s)) as Hu.
  { apply inv_free_usable0. rewrite Hl. apply elem_of_app. right. by left. }
  assert (∀ a, array_byte s a → ¬ page_byte hhdm_offset p a) as Hd
    by (intros a Ha Hb; by apply (inv_disjoint0 p a)).
  eexists. split; [done|]. simpl.
  assert (stack_list (memset (ram s) (hhdm_offset + p) 0 PAGE_SIZE) (pages (stack s))
            (Z.to_nat (idx (stack s) - 1)) = l) as Hfree.
  { rewrite Hpop. apply stack_list_ext. intros a Ha.
    apply load8_memset_out; [by unfold PAGE_SIZE|].
    specialize (Hd a). unfold array_byte, page_byte in Hd. lia. }
  split; [|unfold free_stack; simpl; rewrite Hfree; split_and!; reflexivity].
  rewrite Hl in inv_free_NoDup0, inv_free_usable0.
  constructor; simpl; try done; try congruence; try lia.
  - unfold free_stack. simpl. rewrite Hfree. by apply NoDup_app in inv_free_NoDup0 as [? _].
  - unfold free_stack. simpl. rewrite Hfree. intros q Hq. apply inv_free_usable0.
    apply elem_of_app. by left.
Qed.

(** ** Releasing a page *)

Lemma free_stack_push s p :
  0 ≤ idx (stack s) < 2 ^ 63 → 0 ≤ p < 2 ^ 64 → free_stack (push_page s p) = free_stack s ++ [p].
Proof.
  intros Hi Hp. unfold free_stack, push_page. simpl. rewrite u64_small by lia.
  replace (Z.to_nat (idx (stack s) + 1)) with (S (Z.to_nat (idx (stack s)))) by lia.
  rewrite <- (Z2Nat.id (idx (stack s))) at 1 by lia. by apply stack_list_push.
Qed.

(** A page that is not free leaves room in the array. *)
Lemma free_room s p :
  pmm_inv hhdm_offset s → p ∈ usable_pages (memmap s) → p ∉ free_stack s →
  idx (stack s) < max (stack s).
Proof.
  intros [] Hp Hn. rewrite inv_max0.
  assert (length (p :: free_stack s) ≤ length (usable_pages (memmap s)))%nat as H.
  { apply submseteq_length, NoDup_submseteq; [by constructor|].
    intros q [->|Hq]%elem_of_cons; auto. }
  simpl in H. unfold free_stack in H. rewrite stack_list_length in H. lia.
Qed.

Lemma release_inv s p :
  pmm_inv hhdm_offset s → p ∈ usable_pages (memmap s) → p ∉ free_stack s →
  pmm_inv hhdm_offset (release s p) ∧ free_stack (release s p) = free_stack s ++ [p] ∧
  memmap (release s p) = memmap s ∧
  pages (stack (release s p)) = pages (stack s) ∧ max (stack (release s p)) = max (stack s) ∧
  (∀ a, ¬ array_byte s a → load8 (ram (release s p)) a = load8 (ram s) a).
Proof.
  intros Hinv Hu Hn. pose proof (free_room s p Hinv Hu Hn) as Hroom.
  pose proof (max_small s Hinv) as Hmax.
  pose proof (usable_page_ok _ _ _ (inv_memmap _ _ Hinv) Hu) as Hpok.
  destruct Hpok as (Hal & Hp0 & H52 & H64). unfold PAGE_SIZE in *.
  unfold pmm_release_page. destruct (Z.eqb_spec p 0); [lia|].
  destruct (is_page_valid_caches s p) as (c & Hc & Hc1 & Hc2).
  pose proof (is_page_valid_usable s p (inv_memmap _ _ Hinv) Hu) as Hv.
  destruct (is_page_valid beyond s p) as [ok s1]. simpl in Hv, Hc. subst ok s1. simpl.
  destruct (Z.leb_spec (max (stack s)) (idx (stack s))); [lia|].
  set (c' := PageCaches _ _ _).
  assert (pmm_inv hhdm_offset (set_caches s c')) as Hinv'.
  { apply pmm_inv_set_caches; [|done|done].
    simpl. by rewrite length_insert. }
  change (set_caches (set_caches s c) c') with (set_caches s c').
  assert (free_stack (push_page (set_caches s c') p) = free_stack s ++ [p]) as Hpush.
  { destruct Hinv. apply (free_stack_push (set_caches s c') p); simpl; lia. }
  split; [|split; [exact Hpush|split_and!; try done]].
  - destruct Hinv'. constructor; try done.
    + simpl in *. rewrite u64_small by lia. lia.
    + rewrite Hpush. apply NoDup_app. split_and!; [done| |by apply NoDup_singleton].
      by intros x Hx ->%list_elem_of_singleton.
    + rewrite Hpush. intros q [Hq|Hq]%elem_of_app; [auto|].
      by apply list_elem_of_singleton in Hq as ->.
  - intros a Ha. simpl. apply load8_store64_out. destruct Hinv.
    unfold array_byte in Ha. lia.
Qed.
End proofs.

(** ** Initialisation *)

Lemma region_pages_length e :
  0 ≤ len e → Z.of_nat (length (region_pages e)) = len e / PAGE_SIZE.
Proof.
  intros. unfold region_pages. rewrite length_fmap, length_seq.
  apply Z2Nat.id, Z.div_pos; [done | by unfold PAGE_SIZE].
Qed.

Lemma pages_of_app p mm1 mm2 : pages_of p (mm1 ++ mm2) = pages_of p mm1 ++ pages_of p mm2.
Proof. induction mm1 as [|e mm1 IH]; [done|]. simpl. by rewrite IH, app_assoc. Qed.

Lemma count_free_pages_ok hhdm mm :
  Forall (λ e, is_usable e = true → entry_ok hhdm e) mm →
  Z.of_nat (length (usable_pages mm)) < 2 ^ 40 →
  count_free_pages mm = Z.of_nat (length (usable_pages mm)).
Proof.
  intros HF Hlen. unfold count_free_pages.
  assert (∀ n, 0 ≤ n → n + Z.of_nat (length (usable_pages mm)) < 2 ^ 40 →
    foldl (λ n e, if is_usable e then u64 (n + DIV_ROUND_UP (len e) PAGE_SIZE) else n) n mm =
    n + Z.of_nat (length (usable_pages mm))) as H; [|by rewrite H by lia].
  clear Hlen. induction HF as [|e mm He HF IH]; intros n Hn Hlen; simpl; [lia|].
  simpl in Hlen. rewrite length_app in Hlen. rewrite length_app, Nat2Z.inj_add.
  destruct (is_usable e) eqn:Hu; [|simpl in *; rewrite IH by lia; lia].
  destruct (He eq_refl) as (_ & Hm & Hb & Hl & H52 & _). unfold PAGE_SIZE in *.
  apply Z.mod_divide in Hm as [k Hk]; [|lia].
  pose proof (region_pages_length e Hl) as Hr. unfold PAGE_SIZE in Hr.
  assert (DIV_ROUND_UP (len e) 4096 = len e / 4096) as ->.
  { rewrite DIV_ROUND_UP_spec, Hk, Z.div_mul by lia.
    replace (k * 4096 + 4096 - 1) with (4095 + k * 4096) by lia.
    rewrite Z.div_add by lia. done. }
  rewrite <- Hr, u64_small, IH by lia. lia.
Qed.

Lemma stack_array_size_ok hhdm mm :
  memmap_ok hhdm mm →
  ∃ K, stack_array_size mm = PAGE_SIZE * K ∧ 0 ≤ K < 2 ^ 32 ∧
       8 * Z.of_nat (length (usable_pages mm)) ≤ stack_array_size mm.
Proof.
  intros (HF & _ & Hlen). unfold stack_array_size.
  rewrite (count_free_pages_ok hhdm) by done. unfold PAGE_SIZE.
  set (n := Z.of_nat _) in *. assert (0 ≤ n) by lia.
  rewrite (u64_small (n * 8)), ALIGN_UP_spec by lia.
  exists ((n * 8 + 4096 - 1) / 4096).
  pose proof (Z.div_mod (n * 8 + 4096 - 1) 4096 ltac:(lia)).
  pose proof (Z.mod_pos_bound (n * 8 + 4096 - 1) 4096 ltac:(lia)). lia.
Qed.

(** The pages the array takes. *)
Definition array_pages (e : memmap_entry) (K : Z) : list Z :=
  region_pages (MemmapEntry (base e) (PAGE_SIZE * K) (type e)).

Lemma carve_pages hhdm e K :
  entry_ok hhdm e → 0 ≤ K → PAGE_SIZE * K ≤ len e →
  entry_ok hhdm (carve (PAGE_SIZE * K) e) ∧
  region_pages e = array_pages e K ++ region_pages (carve (PAGE_SIZE * K) e).
Proof.
  intros (Hb & Hl & Hb0 & Hl0 & H52 & H64) HK HKl.
  unfold entry_ok, array_pages, region_pages, carve, PAGE_SIZE in *. simpl.
  apply Z.mod_divide in Hb as [b Hb]; [|lia]. apply Z.mod_divide in Hl as [n Hn]; [|lia].
  rewrite !u64_small by lia. split.
  - split_and!; try lia; apply Z.mod_divide; try lia; [exists (b + K)|exists (n - K)]; lia.
  - rewrite (Z.mul_comm 4096 K), Z.div_mul by lia.
    rewrite Hn, Z.div_mul, <- Z.mul_sub_distr_r, Z.div_mul by lia.
    replace (Z.to_nat n) with (Z.to_nat K + Z.to_nat (n - K))%nat by lia.
    rewrite seq_app, fmap_app. f_equal. simpl.
    rewrite <- (Nat.add_0_r (Z.to_nat K)) at 1. rewrite <- fmap_add_seq, <- list_fmap_compose.
    apply list_fmap_ext. intros i x _. simpl. lia.
Qed.

Lemma place_array_spec hhdm A n mm s :
  existsb (has_room A) mm = true →
  ∃ mm1 e mm2, mm = mm1 ++ e :: mm2 ∧ has_room A e = true ∧
    place_array hhdm A n mm s =
      (mm1 ++ carve A e :: mm2,
       Pmm (ram s) (PmmStack (HIGHER_HALF hhdm (base e)) (idx (stack s)) (max (stack s)))
           (fill_cache (caches s) (base (carve A e)) n) (reclaimed s) (memmap s)).
Proof.
  induction mm as [|e mm IH]; [done|]. cbn [existsb place_array].
  destruct (has_room A e) eqn:Hr.
  - intros _. by exists [], e, mm.
  - simpl. intros (mm1 & e' & mm2 & -> & ? & ->)%IH. by exists (e :: mm1), e', mm2.
Qed.

(** What pushing a list of pages does to the stack. *)
Lemma kiter_kpush l s :
  pages (stack s) ≠ 0 → 0 ≤ idx (stack s) →
  idx (stack s) + Z.of_nat (length l) < 2 ^ 63 → Forall (λ p, 0 ≤ p < 2 ^ 64) l →
  ∃ m, kiter kpush l s =
    Ret tt (Pmm m (PmmStack (pages (stack s)) (idx (stack s) + Z.of_nat (length l)) (max (stack s)))
                (caches s) (reclaimed s) (memmap s)) ∧
    stack_list m (pages (stack s)) (Z.to_nat (idx (stack s) + Z.of_nat (length l))) =
    free_stack s ++ l.
Proof.
  revert s. induction l as [|p l IH]; intros s Hp Hi Hlen HF.
  - exists (ram s). simpl. rewrite Z.add_0_r, app_nil_r. split; [by destruct s as [? [] ? ? ?]|done].
  - inv HF. simpl in Hlen. change (kiter kpush (p :: l)) with (kpush p;;; kiter kpush l).
    unfold kbind, kpush at 1.
    destruct (Z.eqb_spec (pages (stack s)) 0); [done|].
    destruct (IH (push_page s p)) as (m & Hm & Hl); simpl; try done;
      rewrite ?u64_small by lia; try lia.
    exists m. simpl. rewrite Hm. simpl in Hl. rewrite u64_small in * by lia.
    rewrite free_stack_push, <- app_assoc in Hl by lia. simpl in *.
    replace (idx (stack s) + Z.of_nat (S (length l)))
      with (idx (stack s) + 1 + Z.of_nat (length l)) by lia.
    by rewrite (u64_small (idx (stack s) + 1)) by lia.
Qed.

(** The memory map after the array was taken out of it. *)
Lemma carved_memmap_ok hhdm mm1 e mm2 K :
  memmap_ok hhdm (mm1 ++ e :: mm2) → is_usable e = true → 0 ≤ K → PAGE_SIZE * K ≤ len e →
  let mm' := mm1 ++ carve (PAGE_SIZE * K) e :: mm2 in
  entry_ok hhdm e ∧ memmap_ok hhdm mm' ∧
  (∀ p, p ∈ usable_pages mm' → p ∉ array_pages e K) ∧
  usable_pages (mm1 ++ e :: mm2) ≡ₚ array_pages e K ++ usable_pages mm'.
Proof.
  intros (HF & Hnd & Hlen) Hu HK HKl.
  apply Forall_app in HF as [HF1 HF2]. inv HF2. specialize (H1 Hu).
  destruct (carve_pages hhdm e K) as [Hok Hpg]; try done.
  assert (is_usable (carve (PAGE_SIZE * K) e) = true) as Hu' by done.
  assert (usable_pages (mm1 ++ e :: mm2) ≡ₚ
          array_pages e K ++ usable_pages (mm1 ++ carve (PAGE_SIZE * K) e :: mm2)) as Hperm.
  { rewrite !pages_of_app. simpl. rewrite Hu', Hu, Hpg, <- !app_assoc.
    rewrite !(app_assoc (usable_pages mm1)). rewrite (Permutation_app_comm (usable_pages mm1)).
    by rewrite <- !app_assoc. }
  rewrite Hperm in Hnd. apply NoDup_app in Hnd as (_ & Hdis & Hnd').
  split_and!; try done.
  - split_and!; [|done|].
    + apply Forall_app. split; [done|]. by constructor.
    + rewrite Hperm, length_app in Hlen. lia.
  - intros p Hp Ha. by apply (Hdis p).
Qed.

(** The array lies in the pages taken for it. *)
Lemma array_byte_page hhdm e K a :
  entry_ok hhdm e → 0 ≤ K → hhdm + base e ≤ a < hhdm + base e + PAGE_SIZE * K →
  ∃ p, p ∈ array_pages e K ∧ p mod PAGE_SIZE = 0 ∧ page_byte hhdm p a.
Proof.
  intros (Hb & _) HK Ha. unfold PAGE_SIZE in *.
  set (o := a - (hhdm + base e)). exists (base e + 4096 * (o / 4096)).
  pose proof (Z.div_mod o 4096 ltac:(lia)). pose proof (Z.mod_pos_bound o 4096 ltac:(lia)).
  split_and!.
  - apply elem_of_region_pages. exists (o / 4096). unfold PAGE_SIZE. simpl.
    rewrite (Z.mul_comm 4096 K), Z.div_mul by lia. split; [|done]. lia.
  - rewrite Z.mul_comm, Z.mod_add by lia. done.
  - unfold page_byte, PAGE_SIZE. lia.
Qed.

Lemma fill_cache_length c a n :
  length (valid_page_cache (fill_cache c a n)) = length (valid_page_cache c).
Proof. apply length_imap. Qed.

(** The state [pmm_init] leaves, given where the array was placed. *)
Lemma pmm_init_ready hhdm mm1 e mm2 K c m :
  let mm := mm1 ++ e :: mm2 in
  let mm' := mm1 ++ carve (PAGE_SIZE * K) e :: mm2 in
  0 ≤ hhdm → memmap_ok hhdm mm → is_usable e = true → 0 ≤ K → PAGE_SIZE * K ≤ len e →
  8 * Z.of_nat (length (usable_pages mm)) ≤ PAGE_SIZE * K →
  length (valid_page_cache c) = Z.to_nat CACHE_SIZE →
  length (secondary_cache c) = Z.to_nat SECONDARY_CACHE_SIZE →
  stack_list m (hhdm + base e) (length (usable_pages mm')) = usable_pages mm' →
  let n := Z.of_nat (length (usable_pages mm')) in
  pmm_inv hhdm (Pmm m (PmmStack (hhdm + base e) n n) c false mm').
Proof.
  intros mm mm' Hh Hmm Hu HK HKl H8 Hc1 Hc2 Hst n.
  destruct (carved_memmap_ok hhdm mm1 e mm2 K) as (He & Hmm' & Hdis & Hperm); try done.
  apply Permutation_length in Hperm. rewrite length_app in Hperm.
  change (mm1 ++ carve (PAGE_SIZE * K) e :: mm2) with mm' in Hmm', Hdis, Hperm.
  change (mm1 ++ e :: mm2) with mm in Hperm.
  constructor; simpl; try done.
  - destruct He as (_ & _ & ? & _). unfold PAGE_SIZE in *. lia.
  - lia.
  - unfold free_stack. simpl. unfold n. rewrite Nat2Z.id, Hst. by apply Hmm'.
  - unfold free_stack. simpl. unfold n. by rewrite Nat2Z.id, Hst.
  - intros p a Hp Hpb Hab. unfold array_byte in Hab. simpl in Hab.
    destruct (array_byte_page hhdm e K a) as (q & Hq & Hqm & Hqb); [done..|lia|].
    apply (Hdis p Hp). replace p with q; [done|].
    eapply page_byte_inj; try done. by eapply usable_page_ok.
Qed.

Lemma usable_pages_range hhdm mm :
  memmap_ok hhdm mm → Forall (λ p, 0 ≤ p < 2 ^ 64) (usable_pages mm).
Proof.
  intros Hmm. apply Forall_forall. intros p Hp.
  destruct (usable_page_ok hhdm mm p Hmm Hp) as (_ & ? & ? & _). unfold PAGE_SIZE in *. lia.
Qed.

Lemma pmm_init_spec_aux hhdm m mm :
  0 ≤ hhdm → memmap_ok hhdm mm → existsb (has_room (stack_array_size mm)) mm = true →
  ∃ s', pmm_init hhdm (Some mm) (pmm_boot m) = Ret tt s' ∧ pmm_inv hhdm s' ∧
    free_stack s' = usable_pages (memmap s') ∧
    (∀ p, p ∈ usable_pages (memmap s') → p ∈ usable_pages mm) ∧
    Z.of_nat (length (usable_pages mm)) =
      stack_array_size mm / PAGE_SIZE + Z.of_nat (length (free_stack s')).
Proof.
  intros Hh Hmm Hroom. destruct (stack_array_size_ok hhdm mm Hmm) as (K & HA & HK & H8).
  unfold pmm_init.
  destruct (place_array_spec hhdm (stack_array_size mm) (count_free_pages mm) mm (pmm_boot m) Hroom)
    as (mm1 & e & mm2 & Hsplit & Hr & ->).
  unfold has_room in Hr. apply andb_true_iff in Hr as [Hlen Hu]. rewrite HA in *.
  destruct (carved_memmap_ok hhdm mm1 e mm2 K) as (He & Hmm' & Hdis & Hperm);
    [by rewrite <- Hsplit | done | lia | lia |].
  assert (HIGHER_HALF hhdm (base e) = hhdm + base e) as ->.
  { destruct He as (_ & _ & ? & ? & _ & ?). unfold HIGHER_HALF, PAGE_SIZE in *.
    rewrite u64_small; lia. }
  assert (0 < hhdm + base e) as Hpos.
  { destruct He as (_ & _ & ? & _). unfold PAGE_SIZE in *. lia. }
  set (mm' := mm1 ++ carve (PAGE_SIZE * K) e :: mm2) in *.
  set (s1 := Pmm _ _ _ _ _).
  set (s2 := Pmm (ram s1) (stack s1) (caches s1) (reclaimed s1) mm').
  unfold kmod, kbind at 1. fold s2.
  unfold kbind at 1. rewrite (for_entries_kiter hhdm) by (by destruct Hmm').
  destruct (kiter_kpush (usable_pages mm') s2) as (m' & Hk & Hst).
  { simpl. lia. } { done. } { destruct Hmm' as (_ & _ & ?). simpl. lia. }
  { by eapply usable_pages_range. }
  change (idx (stack s2)) with 0 in *. change (pages (stack s2)) with (hhdm + base e) in *.
  rewrite Hk. rewrite Z.add_0_l, Nat2Z.id in *.
  eexists. split; [reflexivity|]. simpl.
  assert (free_stack s2 = []) as Hempty by done. rewrite Hempty in Hst.
  split_and!.
  - apply pmm_init_ready; try done; try lia; [by rewrite <- Hsplit| by rewrite <- Hsplit].
  - unfold free_stack. simpl. by rewrite Nat2Z.id.
  - intros p Hp. rewrite Hsplit, Hperm. apply elem_of_app. by right.
  - apply Permutation_length in Hperm. rewrite length_app in Hperm. rewrite Hsplit, Hperm.
    rewrite Nat2Z.inj_add. unfold array_pages. rewrite region_pages_length by (simpl; unfold PAGE_SIZE in *; lia).
    unfold free_stack. simpl. by rewrite Nat2Z.id, Hst.
Qed.

(** ** Clients

    A run of the allocator and its clients: [owned] is the list of pages that
    were handed out and not yet given back.  A client writes only to pages it
    owns and gives back only pages it owns. *)

Section clients.
Context (hhdm_offset : Z) (beyond : Z → page_cache_entry).

Inductive client_step : pmm * list Z → pmm * list Z → Prop :=
| client_request s owned p s' :
    pmm_request_page hhdm_offset beyond s = (p, s') → p ≠ 0 →
    client_step (s, owned) (s', p :: owned)
| client_request_fails s owned s' :
    pmm_request_page hhdm_offset beyond s = (0, s') →
    client_step (s, owned) (s', owned)
| client_release s owned1 p owned2 :
    client_step (s, owned1 ++ p :: owned2) (pmm_release_page beyond s p, owned1 ++ owned2)
| client_write s owned m :
    (∀ a, (∀ p, p ∈ owned → ¬ page_byte hhdm_offset p a) → load8 m a = load8 (ram s) a) →
    client_step (s, owned) (set_ram s m, owned).

(** Free and owned pages are exactly the pages of the memory map, each once. *)
Definition conserved (st : pmm * list Z) : Prop :=
  pmm_inv hhdm_offset st.1 ∧ free_stack st.1 ++ st.2 ≡ₚ usable_pages (memmap st.1).

Lemma conserved_NoDup st : conserved st → NoDup (free_stack st.1 ++ st.2).
Proof. intros (Hinv & Hperm). rewrite Hperm. by destruct Hinv as [_ (_ & ? & _)]. Qed.

Lemma conserved_step st st' : conserved st → client_step st st' → conserved st'.
Proof.
  intros Hc Hstep. pose proof (conserved_NoDup _ Hc) as Hnd. destruct Hc as (Hinv & Hperm).
  destruct Hstep as [s o p s' Hr Hp|s o s' Hr|s o1 p o2|s o m Hm]; simpl in *.
  - destruct (decide (idx (stack s) = 0)) as [E|E].
    { rewrite request_empty in Hr by done. by simplify_eq. }
    assert (0 < idx (stack s)) as Hi by (destruct Hinv; lia).
    destruct (request_inv hhdm_offset beyond s _ _ Hinv (free_stack_pop s Hi))
      as (s1 & Hs1 & Hinv1 & Hf1 & Hmm1 & _).
    rewrite (free_stack_pop s Hi) in Hperm. rewrite Hs1 in Hr. simplify_eq.
    split; [done|]. simpl. rewrite Hmm1, Hf1. by rewrite <- app_assoc in Hperm.
  - destruct (decide (idx (stack s) = 0)) as [E|E].
    { rewrite request_empty in Hr by done. by simplify_eq. }
    assert (0 < idx (stack s)) as Hi by (destruct Hinv; lia).
    destruct (request_top hhdm_offset beyond s _ _ Hinv (free_stack_pop s Hi)) as (c & Hs1 & _).
    rewrite Hs1 in Hr. destruct Hinv. exfalso.
    assert (load64 (ram s) (pages (stack s) + 8 * (idx (stack s) - 1)) ∈ usable_pages (memmap s)) as Hu.
    { apply inv_free_usable0. rewrite (free_stack_pop s Hi). apply elem_of_app. right. by left. }
    destruct (usable_page_ok _ _ _ inv_memmap0 Hu) as (_ & Hpos & _).
    simplify_eq. lia.
  - assert (p ∈ usable_pages (memmap s)) as Hu.
    { rewrite <- Hperm. apply elem_of_app. right. apply elem_of_app. right. by left. }
    assert (p ∉ free_stack s) as Hn.
    { apply NoDup_app in Hnd as (_ & Hd & _). intros Hin. apply (Hd p Hin).
      apply elem_of_app. right. by left. }
    destruct (release_inv hhdm_offset beyond s p Hinv Hu Hn) as (Hinv' & Hf & Hmm & _).
    split; [done|]. simpl. rewrite Hf, Hmm, <- Hperm, <- !app_assoc. simpl.
    apply Permutation_app_head. by rewrite Permutation_middle.
  - destruct (pmm_inv_set_ram hhdm_offset s m Hinv) as (Hinv' & Hf).
    { intros a Ha. apply Hm. intros p Hp Hb. destruct Hinv. apply (inv_disjoint0 p a); [|done..].
      rewrite <- Hperm. apply elem_of_app. by right. }
    split; [done|]. simpl. by rewrite Hf.
Qed.
End clients.

(** ** [Pmm] implements the interface *)


#[export] Instance pmm_alloc (hhdm : Z) (beyond : Z → page_cache_entry) : PageAlloc pmm := {
  pa_ram := ram;
  pa_with_ram := set_ram;
  pmm_request := pmm_request_page hhdm beyond;
  pmm_release := pmm_release_page beyond;
}.

Lemma free_stack_nil s : 0 ≤ idx (stack s) → free_stack s = [] → idx (stack s) = 0.
Proof.
  intros Hi H. apply (f_equal length) in H. unfold free_stack in H.
  rewrite stack_list_length in H. simpl in H. lia.
Qed.

#[export, program] Instance pmm_alloc_laws (hhdm : Z) (beyond : Z → page_cache_entry)
    (Hh : 0 ≤ hhdm) : @PageAllocLaws hhdm pmm (pmm_alloc hhdm beyond) := {
  pa_inv := pmm_inv hhdm;
  pa_free := λ s, reverse (free_stack s);
  pa_pool := λ s p, p ∈ usable_pages (memmap s);
  pa_own := array_byte;
}.
Next Obligation. done. Qed.
Next Obligation. intros hhdm beyond Hh s p []. by apply usable_page_ok. Qed.
Next Obligation. intros hhdm beyond Hh s p a []. eauto. Qed.
Next Obligation. intros hhdm beyond Hh s p []. rewrite elem_of_reverse. auto. Qed.
Next Obligation. intros hhdm beyond Hh s []. by rewrite reverse_Permutation. Qed.
Next Obligation. done. Qed.
Next Obligation. done. Qed.
Next Obligation. done. Qed.
Next Obligation.
  intros hhdm beyond Hh s m Hinv Ha. simpl in *.
  destruct (pmm_inv_set_ram hhdm s m Hinv Ha) as (? & Hf).
  split; [done | by rewrite Hf].
Qed.
Next Obligation.
  intros hhdm beyond Hh s Hinv Hf. simpl. apply request_empty, free_stack_nil; [destruct Hinv; lia|].
  rewrite <- (reverse_involutive (free_stack s)), Hf. done.
Qed.
Next Obligation.
  intros hhdm beyond Hh s p ps Hinv Hf. simpl in *.
  assert (free_stack s = reverse ps ++ [p]) as Hl.
  { by rewrite <- (reverse_involutive (free_stack s)), Hf, reverse_cons. }
  destruct (request_inv hhdm beyond s _ p Hinv Hl) as (s' & Hr & Hinv' & Hf' & Hmm & Hp & Hx & Hram).
  exists s'. split; [done|]. split; [done|]. rewrite Hf', reverse_involutive, Hmm, Hram.
  unfold array_byte. rewrite Hp, Hx.
  split; [reflexivity|]. split; [by intros|]. split; [by intros|]. split.
  - intros a Ha. rewrite load8_memset_in; [reflexivity|exact Ha].
  - intros a Ha. apply load8_memset_out; [by unfold PAGE_SIZE|]. unfold page_byte in Ha. lia.
Qed.
Next Obligation.
  intros hhdm beyond Hh s p Hinv Hu Hn. simpl in *. rewrite elem_of_reverse in Hn.
  destruct (release_inv hhdm beyond s p Hinv Hu Hn) as (? & -> & -> & Hp & Hx & Ha).
  unfold array_byte. rewrite Hp, Hx, reverse_snoc. done.
Qed.

(** ** Properties *)

Lemma hash_page_range addr : 0 ≤ hash_page addr < CACHE_SIZE.
Proof. apply Z.mod_pos_bound. by unfold CACHE_SIZE. Qed.

(** A memory map with two usable regions and one the boot loader gives back,
    and the state after [pmm_init], for the witnesses. *)
Definition demo_memmap : list memmap_entry :=
  [MemmapEntry 0x1000 0x4000 LIMINE_MEMMAP_USABLE;
   MemmapEntry 0x10000 0x1000 LIMINE_MEMMAP_BOOTLOADER_RECLAIMABLE;
   MemmapEntry 0x20000 0x1000 LIMINE_MEMMAP_USABLE].
Definition demo_hhdm : Z := 0xffff800000000000.
Definition demo_beyond : Z → page_cache_entry := λ _, empty_entry.
Definition demo_pmm : pmm :=
  match pmm_init demo_hhdm (Some demo_memmap) (pmm_boot ∅) with
  | Ret _ s => s
  | _ => pmm_boot ∅
  end.

Lemma demo_memmap_ok : memmap_ok demo_hhdm demo_memmap.
Proof.
  split_and!; [|apply (bool_decide_unpack _); by vm_compute|by vm_compute].
  repeat constructor; intros; try discriminate; by vm_compute.
Qed.

Lemma demo_pmm_init : pmm_init demo_hhdm (Some demo_memmap) (pmm_boot ∅) = Ret tt demo_pmm.
Proof. by vm_compute. Qed.

(** C23: On a memory map as Limine documents it with a usable region large
    enough for the array of free pages, [pmm_init] succeeds; the free stack
    then holds each page of the remaining usable memory once, never a byte of
    the array itself, and the pages taken away are those of the array. *)
Theorem pmm_init_spec hhdm m mm
  (Hh : 0 ≤ hhdm) (Hmm : memmap_ok hhdm mm)
  (Hroom : existsb (has_room (stack_array_size mm)) mm = true) :
  ∃ s', pmm_init hhdm (Some mm) (pmm_boot m) = Ret tt s' ∧ pmm_inv hhdm s' ∧
    free_stack s' = usable_pages (memmap s') ∧
    (∀ p, p ∈ usable_pages (memmap s') → p ∈ usable_pages mm) ∧
    Z.of_nat (length (usable_pages mm)) =
      stack_array_size mm / PAGE_SIZE + Z.of_nat (length (free_stack s')).
Proof. by apply pmm_init_spec_aux. Qed.

Lemma pmm_init_spec_witness :
  ∃ s', pmm_init demo_hhdm (Some demo_memmap) (pmm_boot ∅) = Ret tt s' ∧
        pmm_inv demo_hhdm s' ∧ free_stack s' = usable_pages (memmap s').
Proof.
  destruct (pmm_init_spec demo_hhdm ∅ demo_memmap) as (s' & H1 & H2 & H3 & _);
    [by vm_compute | apply demo_memmap_ok | by vm_compute |].
  exact (ex_intro _ s' (conj H1 (conj H2 H3))).
Defined.

Lemma demo_pmm_inv : pmm_inv demo_hhdm demo_pmm ∧ free_stack demo_pmm = usable_pages (memmap demo_pmm).
Proof.
  destruct (pmm_init_spec_aux demo_hhdm ∅ demo_memmap) as (s' & H1 & H2 & H3 & _);
    [by vm_compute | apply demo_memmap_ok | by vm_compute |].
  rewrite demo_pmm_init in H1. apply Ret_inj in H1 as [_ ->]. exact (conj H2 H3).
Qed.

(** Without a region large enough the array pointer stays NULL, and
    [pmm_init] writes through it as soon as there is one page to push. *)
Theorem pmm_init_no_room hhdm m mm
  (Hmm : memmap_ok hhdm mm) (Hpage : usable_pages mm ≠ [])
  (Hroom : existsb (has_room (stack_array_size mm)) mm = false) :
  pmm_init hhdm (Some mm) (pmm_boot m) = Fault.
Proof.
  unfold pmm_init. set (A := stack_array_size mm) in *. set (n := count_free_pages mm).
  assert (place_array hhdm A n mm (pmm_boot m) = (mm, pmm_boot m)) as ->.
  { clearbody A n. clear Hmm Hpage. induction mm as [|e mm IH]; [done|].
    cbn [place_array existsb] in *. apply orb_false_iff in Hroom as [-> Hr]. by rewrite IH. }
  unfold kmod, kbind at 1. unfold kbind at 1.
  rewrite (for_entries_kiter hhdm) by (by destruct Hmm).
  by destruct (usable_pages mm).
Qed.

(** One usable page cannot hold the array for the two pages of another
    region that is itself too short. *)
Lemma pmm_init_no_room_witness :
  pmm_init 0 (Some [MemmapEntry 0x1000 0x800000 LIMINE_MEMMAP_OTHER]) (pmm_boot ∅) ≠ Fault ∧
  (let mm := (λ i : nat, MemmapEntry (0x1000 + 0x2000 * Z.of_nat i) 0x1000 LIMINE_MEMMAP_USABLE)
             <$> seq 0 513 in
   pmm_init 0 (Some mm) (pmm_boot ∅) = Fault).
Proof.
  split; [by vm_compute|]. intros mm. apply pmm_init_no_room; [|by vm_compute|by vm_compute].
  split_and!; [|apply (bool_decide_unpack _); by vm_compute|by vm_compute].
  apply Forall_forall. intros e (i & -> & Hi)%list_elem_of_fmap _.
  apply elem_of_seq in Hi. unfold entry_ok, PAGE_SIZE. simpl.
  split_and!; try lia; [|done].
  rewrite <- (Z.mod_add _ (- (2 * Z.of_nat i)) 4096) by lia.
  by replace (4096 + 8192 * Z.of_nat i + - (2 * Z.of_nat i) * 4096) with 4096 by lia.
Defined.

(** C2: However requests, releases and writes of the clients interleave, as
    long as each client writes to and gives back only pages it was handed,
    free and owned pages together stay exactly the pages of the memory map,
    each once: no page is handed out twice and none is lost. *)
Theorem pages_conserved hhdm beyond st st'
  (Hinit : conserved hhdm st) (Hrun : rtc (client_step hhdm beyond) st st') :
  conserved hhdm st' ∧ NoDup (free_stack st'.1 ++ st'.2).
Proof.
  assert (conserved hhdm st') as Hc.
  { induction Hrun as [|st1 st2 st3 Hs _ IH]; [done|]. eauto using conserved_step. }
  eauto using conserved_NoDup.
Qed.

Lemma demo_request : ∃ s1,
  pmm_request_page demo_hhdm demo_beyond demo_pmm = (0x20000, s1) ∧ pmm_inv demo_hhdm s1 ∧
  free_stack s1 = [0x2000; 0x3000; 0x4000] ∧ memmap s1 = memmap demo_pmm.
Proof.
  destruct (request_inv demo_hhdm demo_beyond demo_pmm [0x2000; 0x3000; 0x4000] 0x20000)
    as (s & Hs & Hinv & Hf & Hmm & _); [apply demo_pmm_inv | by vm_compute |].
  exact (ex_intro _ s (conj Hs (conj Hinv (conj Hf Hmm)))).
Qed.

Lemma pages_conserved_witness : ∃ s1,
  pmm_request_page demo_hhdm demo_beyond demo_pmm = (0x20000, s1) ∧
  conserved demo_hhdm (s1, [0x20000]).
Proof.
  destruct demo_request as (s1 & Hs & _). exists s1. split; [exact Hs|].
  refine (proj1 (pages_conserved demo_hhdm demo_beyond (demo_pmm, []) (s1, [0x20000]) _ _)).
  - refine (conj (proj1 demo_pmm_inv) _). cbn [fst snd]. rewrite app_nil_r.
    rewrite (proj2 demo_pmm_inv). reflexivity.
  - apply rtc_once. apply client_request; [exact Hs | discriminate].
Defined.

(** A page that is given back is the one the next request returns, filled
    with zeros, and everything else is as before the two calls: the free
    stack, and every byte outside the page and the array. *)
Theorem release_request_round_trip hhdm beyond s p
  (Hinv : pmm_inv hhdm s) (Hu : p ∈ usable_pages (memmap s)) (Hn : p ∉ free_stack s) :
  ∃ s', pmm_request_page hhdm beyond (pmm_release_page beyond s p) = (p, s') ∧
    pmm_inv hhdm s' ∧ free_stack s' = free_stack s ∧
    (∀ a, page_byte hhdm p a → load8 (ram s') a = 0) ∧
    (∀ a, ¬ page_byte hhdm p a → ¬ array_byte s a → load8 (ram s') a = load8 (ram s) a).
Proof.
  destruct (release_inv hhdm beyond s p Hinv Hu Hn) as (Hinv1 & Hf1 & Hmm1 & Hp1 & Hx1 & Ha1).
  destruct (request_inv hhdm beyond _ _ _ Hinv1 Hf1)
    as (s' & Hr & Hinv' & Hf' & _ & _ & _ & Hram).
  exists s'. split; [exact Hr|]. split; [exact Hinv'|]. split; [exact Hf'|].
  rewrite Hram. split.
  - intros a Ha. rewrite load8_memset_in; [reflexivity|exact Ha].
  - intros a Ha Hb. rewrite load8_memset_out; [exact (Ha1 a Hb)|by unfold PAGE_SIZE|].
    unfold page_byte in Ha. lia.
Qed.

Lemma release_request_round_trip_witness : ∃ s1 s',
  pmm_request_page demo_hhdm demo_beyond (pmm_release_page demo_beyond s1 0x20000) = (0x20000, s') ∧
  free_stack s1 = [0x2000; 0x3000; 0x4000] ∧ free_stack s' = [0x2000; 0x3000; 0x4000].
Proof.
  destruct demo_request as (s & Hs & Hinv & Hf & Hmm).
  destruct (release_request_round_trip demo_hhdm demo_beyond s 0x20000) as (s' & H1 & _ & H2 & _).
  - exact Hinv.
  - rewrite Hmm. apply (bool_decide_unpack _). by vm_compute.
  - rewrite Hf. apply (bool_decide_unpack _). by vm_compute.
  - rewrite Hf in H2. exact (ex_intro _ s (ex_intro _ s' (conj H1 (conj Hf H2)))).
Defined.

(** [pmm_vmm_cleanup] pushes a reclaimed page itself and then releases the
    same page.  As soon as at least two pages are in use the release has room
    to push it again, so the page is on the free stack twice and two later
    requests return the same page. *)
Theorem pmm_vmm_cleanup_duplicates hhdm beyond s e
  (He : entry_ok hhdm e) (Hrec : is_reclaimable e = true) (Hlen : len e = PAGE_SIZE)
  (Hmm : memmap s = [e]) (Hp : pages (stack s) ≠ 0)
  (Hi : 0 ≤ idx (stack s)) (Hroom : idx (stack s) + 1 < max (stack s))
  (Hmax : max (stack s) < 2 ^ 60) :
  ∃ s', pmm_vmm_cleanup beyond (memmap s) s = Ret tt s' ∧
        free_stack s' = free_stack s ++ [base e; base e].
Proof.
  destruct (He) as (Hb & _ & Hb0 & _ & H52 & H64).
  unfold pmm_vmm_cleanup, kmod. unfold kbind at 1 2.
  rewrite (for_entries_kiter hhdm) by (rewrite Hmm; by apply Forall_singleton).
  assert (pages_of is_reclaimable (memmap s) = [base e]) as ->.
  { rewrite Hmm. simpl. rewrite Hrec. unfold region_pages. rewrite Hlen.
    change (Z.to_nat (PAGE_SIZE / PAGE_SIZE)) with 1%nat. simpl. by rewrite Z.mul_0_r, Z.add_0_r. }
  set (s1 := Pmm _ _ _ true _). simpl kiter.
  unfold kbind, kpush, kret. simpl. destruct (Z.eqb_spec (pages (stack s)) 0); [done|].
  set (s2 := push_page s1 (base e)).
  assert (idx (stack s2) = idx (stack s) + 1) as Hi2 by (simpl; rewrite u64_small; lia).
  assert (free_stack s2 = free_stack s ++ [base e]) as Hf2.
  { unfold PAGE_SIZE in *. apply (free_stack_push s1 (base e)); simpl; lia. }
  assert ((is_page_valid beyond s2 (base e)).1 = true) as Hv.
  { unfold is_page_valid. destruct (cache_hit _ _); [done|].
    assert (existsb (entry_covers (reclaimed s2) (base e)) (memmap s2) = true) as ->; [|done].
    simpl. rewrite Hmm. simpl. unfold entry_covers, PAGE_SIZE in *.
    rewrite Hrec, Hlen, u64_small by lia. destruct (is_usable e); simpl; lia. }
  destruct (is_page_valid_caches beyond s2 (base e)) as (c & Hc & _ & _).
  unfold pmm_release_page. unfold PAGE_SIZE in *. destruct (Z.eqb_spec (base e) 0); [lia|].
  destruct (is_page_valid beyond s2 (base e)) as [ok s3]. simpl in Hv, Hc. subst ok s3.
  simpl negb. cbn iota.
  change (stack (set_caches s2 c)) with (stack s2). rewrite Hi2.
  change (max (stack s2)) with (max (stack s)).
  destruct (Z.leb_spec (max (stack s)) (idx (stack s) + 1)); [lia|].
  eexists. split; [reflexivity|].
  set (s4 := set_caches _ _).
  change (free_stack (push_page s4 (base e)) = free_stack s ++ [base e; base e]).
  rewrite free_stack_push; [|change (idx (stack s4)) with (idx (stack s2)); lia|lia].
  change (free_stack s4) with (free_stack s2). by rewrite Hf2, <- app_assoc.
Qed.

Lemma pmm_vmm_cleanup_duplicates_witness :
  let e := MemmapEntry 0x10000 0x1000 LIMINE_MEMMAP_BOOTLOADER_RECLAIMABLE in
  let s := Pmm ∅ (PmmStack 0x8000 0 2) (caches (pmm_boot ∅)) false [e] in
  ∃ s', pmm_vmm_cleanup demo_beyond [e] s = Ret tt s' ∧ free_stack s' = [0x10000; 0x10000].
Proof.
  intros e s.
  apply (pmm_vmm_cleanup_duplicates 0 demo_beyond s e); by vm_compute.
Defined.

(** The hash of a page ranges over 128 slots, so [is_in_secondary_cache]
    reads its 64-entry array out of bounds: for the page 0x2000 the verdict is
    whatever the memory after the array says. *)
Theorem secondary_cache_out_of_bounds c
  (Hlen : length (secondary_cache c) = Z.to_nat SECONDARY_CACHE_SIZE) :
  (∀ addr, 0 ≤ hash_page addr < CACHE_SIZE) ∧
  SECONDARY_CACHE_SIZE ≤ hash_page 0x2000 ∧
  secondary_cache c !! Z.to_nat (hash_page 0x2000) = None ∧
  is_in_secondary_cache (λ _, CacheEntry 0x2000 true 0) c 0x2000 = true ∧
  is_in_secondary_cache (λ _, CacheEntry 0x2000 false 0) c 0x2000 = false.
Proof.
  assert (hash_page 0x2000 = 66) as Hh by by vm_compute.
  assert (secondary_cache c !! Z.to_nat (hash_page 0x2000) = None) as Hn.
  { apply lookup_ge_None. rewrite Hlen, Hh. vm_compute. lia. }
  split; [apply hash_page_range|]. split; [by rewrite Hh|]. split; [done|].
  unfold is_in_secondary_cache, secondary_at. rewrite Hn. split; reflexivity.
Qed.

Lemma secondary_cache_out_of_bounds_witness :
  secondary_cache (caches (pmm_boot ∅)) !! Z.to_nat (hash_page 0x2000) = None.
Proof. apply (secondary_cache_out_of_bounds (caches (pmm_boot ∅))). by vm_compute. Defined.
