(* ===== verification/Vmm.v ===== *)
(** * Page tables, [mm/vmm.c]

    A pagemap is a tree of 4096-byte tables of 512 entries, four levels deep,
    reached through the direct map.  The operations are written over any page
    allocator ([PageAlloc]); the tables live in the memory it shares with its
    clients. *)

From stdpp Require Import base gmap list.
From Stdlib Require Import ZArith Lia.
From S2P Require Import Prelude Ram PageAlloc Pmm.
#[local] Open Scope Z_scope.

Definition VMM_PRESENT : Z := Z.shiftl 1 0.
Definition VMM_WRITE : Z := Z.shiftl 1 1.
Definition VMM_USER : Z := Z.shiftl 1 2.
Definition VMM_NX : Z := Z.shiftl 1 63.

(** The address bits of an entry. *)
Definition ADDR_MASK : Z := 0x000FFFFFFFFFF000.

(** [(virt & (uint64_t)0x1ff << k) >> k] *)
Definition pml_idx (k virt : Z) : Z := Z.shiftr (Z.land virt (Z.shiftl 0x1ff k)) k.

Abbreviation pml1_idx := (pml_idx 12).
Abbreviation pml2_idx := (pml_idx 21).
Abbreviation pml3_idx := (pml_idx 30).
Abbreviation pml4_idx := (pml_idx 39).

(** [entry & 1] *)
Definition present (e : Z) : bool := negb (Z.land e 1 =? 0).

(** Entry [i] of the table at the virtual address [table]. *)
Definition entry_at (m : mem) (table i : Z) : Z := load64 m (table + 8 * i).

(** The linker's symbols and the boot loader's answers [vmm_init] reads. *)
Record layout := Layout {
  limine_requests_start : Z; limine_requests_end : Z;
  text_start : Z; text_end : Z;
  rodata_start : Z; rodata_end : Z;
  data_start : Z; data_end : Z;
  printk_buff_start : Z; printk_buff_end : Z;
  kernel_phys_base : Z; kernel_virt_base : Z;
}.

Section vmm.
Context (hhdm_offset : Z) {S : Type} `{PageAlloc S}.

(** The kernel's page-table globals beside the allocator: [kernel_pagemap], the
    register cr3, and [kernel_stack_top] of [main.c]. *)
Record vmm := Vmm {
  alloc : S;
  kernel_pagemap : Z;
  cr3 : Z;
  kernel_stack_top : Z;
}.

Definition set_alloc (g : vmm) (s : S) : vmm :=
  Vmm s (kernel_pagemap g) (cr3 g) (kernel_stack_top g).

Definition next_table (e : Z) : Z := HIGHER_HALF hhdm_offset (Z.land e ADDR_MASK).

Definition virt_to_phys (s : S) (pagemap virt : Z) : Z :=
  let m := pa_ram s in
  if negb (present (entry_at m pagemap (pml4_idx virt))) then 0 else
  let pml3_table := next_table (entry_at m pagemap (pml4_idx virt)) in
  if negb (present (entry_at m pml3_table (pml3_idx virt))) then 0 else
  let pml2_table := next_table (entry_at m pml3_table (pml3_idx virt)) in
  if negb (present (entry_at m pml2_table (pml2_idx virt))) then 0 else
  let pml1_table := next_table (entry_at m pml2_table (pml2_idx virt)) in
  Z.land (entry_at m pml1_table (pml1_idx virt)) ADDR_MASK.

(** [table[i] = v] *)
Definition set_entry (s : S) (table i v : Z) : S :=
  pa_with_ram s (store64 (pa_ram s) (table + 8 * i) v).

(** [if (!(table[i] & 1)) table[i] = (uint64_t)pmm_request_page() | 0b111;] and
    the address of the table the entry points to. *)
Definition ensure_table (s : S) (table i : Z) : S * Z :=
  let s :=
    if negb (present (entry_at (pa_ram s) table i))
    then let '(page, s1) := pmm_request s in set_entry s1 table i (Z.lor page 7)
    else s in
  (s, next_table (entry_at (pa_ram s) table i)).

Definition vmm_map (s : S) (pagemap virt phys flags : Z) : S :=
  let '(s, pml3_table) := ensure_table s pagemap (pml4_idx virt) in
  let '(s, pml2_table) := ensure_table s pml3_table (pml3_idx virt) in
  let '(s, pml1_table) := ensure_table s pml2_table (pml2_idx virt) in
  set_entry s pml1_table (pml1_idx virt) (Z.lor phys flags).

Definition vmm_unmap (s : S) (pagemap virt : Z) : S :=
  let m := pa_ram s in
  if negb (present (entry_at m pagemap (pml4_idx virt)))
  then set_entry s pagemap (pml4_idx virt) 0 else
  let pml3_table := next_table (entry_at m pagemap (pml4_idx virt)) in
  if negb (present (entry_at m pml3_table (pml3_idx virt)))
  then set_entry s pml3_table (pml3_idx virt) 0 else
  let pml2_table := next_table (entry_at m pml3_table (pml3_idx virt)) in
  if negb (present (entry_at m pml2_table (pml2_idx virt)))
  then set_entry s pml2_table (pml2_idx virt) 0 else
  let pml1_table := next_table (entry_at m pml2_table (pml2_idx virt)) in
  set_entry s pml1_table (pml1_idx virt) 0.

Definition vmm_new_pagemap (g : vmm) : Z * vmm :=
  let '(page, s) := pmm_request (alloc g) in
  let pagemap := HIGHER_HALF hhdm_offset page in
  if pagemap =? 0 then (0, set_alloc g s) else
  let s := pa_with_ram s (memset (pa_ram s) pagemap 0 PAGE_SIZE) in
  let s := if negb (kernel_pagemap g =? 0)
           then pa_with_ram s (memcpy (pa_ram s) (pagemap + 8 * 256)
                                      (kernel_pagemap g + 8 * 256) (256 * 8))
           else s in
  (pagemap, set_alloc g s).

Definition vmm_destroy_pagemap (s : S) (pagemap : Z) : S :=
  pmm_release s (PHYSICAL hhdm_offset pagemap).

Definition vmm_switch_pagemap (g : vmm) (new_pagemap : Z) : vmm :=
  Vmm (alloc g) (kernel_pagemap g) (PHYSICAL hhdm_offset new_pagemap) (kernel_stack_top g).

(** [for (x = start; x < end; x += PAGE_SIZE) vmm_map(pagemap, virt(x), phys(x), flags);] *)
Fixpoint map_loop (fuel : nat) (s : S) (pagemap x end_ : Z) (virt phys : Z → Z) (flags : Z) :
    outcome S unit :=
  if end_ <=? x then Ret tt s else
  match fuel with
  | O => NoFuel
  | Datatypes.S f =>
      map_loop f (vmm_map s pagemap (virt x) (phys x) flags) pagemap
               (u64 (x + PAGE_SIZE)) end_ virt phys flags
  end.

(** The loops of [vmm_init] over the kernel's sections. *)
Definition map_section (fuel : nat) (l : layout) (pagemap start end_ flags : Z) : kernel S unit :=
  λ s, map_loop fuel s pagemap (ALIGN_DOWN start PAGE_SIZE) (ALIGN_UP end_ PAGE_SIZE)
         (λ x, x) (λ x, u64 (x - kernel_virt_base l + kernel_phys_base l)) flags.

Definition vmm_init (fuel : nat) (l : layout) : kernel vmm unit := λ g,
  let '(page, s) := pmm_request (alloc g) in
  let kpm := HIGHER_HALF hhdm_offset page in
  if kpm =? 0 then Halt (Vmm s kpm (cr3 g) (kernel_stack_top g)) else
  let s := pa_with_ram s (memset (pa_ram s) kpm 0 PAGE_SIZE) in
  let stack_top := ALIGN_UP (kernel_stack_top g) PAGE_SIZE in
  match (map_section fuel l kpm (limine_requests_start l) (limine_requests_end l)
           (Z.lor VMM_PRESENT VMM_WRITE);;;
         (λ s, map_loop fuel s kpm (u64 (stack_top - 65535)) stack_top
                 (λ x, x) (λ x, u64 (x - hhdm_offset))
                 (Z.lor (Z.lor VMM_PRESENT VMM_WRITE) VMM_NX));;;
         map_section fuel l kpm (text_start l) (text_end l) VMM_PRESENT;;;
         map_section fuel l kpm (rodata_start l) (rodata_end l) (Z.lor VMM_PRESENT VMM_NX);;;
         map_section fuel l kpm (data_start l) (data_end l)
           (Z.lor (Z.lor VMM_PRESENT VMM_WRITE) VMM_NX);;;
         map_section fuel l kpm (printk_buff_start l) (printk_buff_end l)
           (Z.lor VMM_PRESENT VMM_WRITE);;;
         (λ s, map_loop fuel s kpm 0 0x100000000
                 (λ x, HIGHER_HALF hhdm_offset x) (λ x, x)
                 (Z.lor VMM_PRESENT VMM_WRITE))) s
  with
  | Ret _ s => Ret tt (vmm_switch_pagemap (Vmm s kpm (cr3 g) stack_top) kpm)
  | Halt s => Halt (Vmm s kpm (cr3 g) stack_top)
  | Spin => Spin
  | Fault => Fault
  | NoFuel => NoFuel
  end.
End vmm.
Arguments Vmm {S} _ _ _ _.
Arguments alloc {S} _.
Arguments kernel_pagemap {S} _.
Arguments cr3 {S} _.
Arguments kernel_stack_top {S} _.

(** ** Bits of an entry *)

Lemma pml_idx_div k v : 0 ≤ k → pml_idx k v = v / 2 ^ k mod 512.
Proof.
  intros Hk. unfold pml_idx. rewrite Z.shiftr_land, Z.shiftr_shiftl_l, Z.sub_diag by lia.
  rewrite Z.shiftl_0_r. change 0x1ff with (Z.ones 9).
  rewrite Z.land_ones, Z.shiftr_div_pow2 by lia. done.
Qed.

Lemma pml_idx_range k v : 0 ≤ k → 0 ≤ pml_idx k v < 512.
Proof. intros. rewrite pml_idx_div by done. apply Z.mod_pos_bound. lia. Qed.

Lemma land_ADDR_MASK_aligned p : p mod 4096 = 0 → 0 ≤ p < 2 ^ 52 → Z.land p ADDR_MASK = p.
Proof.
  intros Hp Hr. apply Z.mod_divide in Hp as [q ->]; [|lia].
  change ADDR_MASK with (Z.shiftl (Z.ones 40) 12).
  replace (q * 4096) with (Z.shiftl q 12) by (rewrite Z.shiftl_mul_pow2 by lia; done).
  rewrite <- Z.shiftl_land, Z.land_ones, Z.mod_small by lia. done.
Qed.

Lemma land_ADDR_MASK_lor p f :
  p mod 4096 = 0 → 0 ≤ p < 2 ^ 52 → Z.land f ADDR_MASK = 0 →
  Z.land (Z.lor p f) ADDR_MASK = p.
Proof.
  intros. rewrite Z.land_lor_distr_l, land_ADDR_MASK_aligned by done. rewrite H1. apply Z.lor_0_r.
Qed.

Lemma present_lor7 p : present (Z.lor p 7) = true.
Proof.
  unfold present. apply negb_true_iff, Z.eqb_neq. intros E.
  apply (f_equal (λ z, Z.testbit z 0)) in E.
  rewrite Z.land_spec, Z.lor_spec in E. simpl in E. rewrite orb_true_r in E. done.
Qed.

Lemma lor_range a b n : 0 ≤ n → 0 ≤ a < 2 ^ n → 0 ≤ b < 2 ^ n → 0 ≤ Z.lor a b < 2 ^ n.
Proof.
  intros Hn Ha Hb. assert (Z.lor a b mod 2 ^ n = Z.lor a b) as E.
  { rewrite <- Z.land_ones, Z.land_lor_distr_l, !Z.land_ones by done.
    by rewrite !Z.mod_small. }
  rewrite <- E. apply Z.mod_pos_bound. lia.
Qed.

(** ** The tree of tables

    A frame number stands for the table in it.  [owner] gives each table frame
    the path of indices that leads to it from the root, so that two different
    paths cannot meet in one table. *)

Section tree.
Context (hhdm_offset : Z) {S : Type} `{LAWS : PageAllocLaws hhdm_offset S}.

(** Entry [i] of the table in frame [f]. *)
Definition tbl (m : mem) (f i : Z) : Z := entry_at m (hhdm_offset + f) i.

(** The frame reached from [f] along a path. *)
Fixpoint walk (m : mem) (f : Z) (path : list Z) : option Z :=
  match path with
  | [] => Some f
  | i :: path' =>
      if present (tbl m f i) then walk m (Z.land (tbl m f i) ADDR_MASK) path' else None
  end.

(** The last-level entry for a path of three indices and a fourth; 0 when a
    level is missing. *)
Definition leaf (m : mem) (root : Z) (path : list Z) (i1 : Z) : Z :=
  match walk m root path with Some f => tbl m f i1 | None => 0 end.

Definition path_of (virt : Z) : list Z := [pml4_idx virt; pml3_idx virt; pml2_idx virt].

(** The abstract state of a pagemap: the entry of each virtual page. *)
Definition page_entry (s : S) (root virt : Z) : Z :=
  leaf (pa_ram s) root (path_of virt) (pml1_idx virt).

Record pt_wf (owner : gmap Z (list Z)) (s : S) (root : Z) : Prop := {
  wf_inv : pa_inv s;
  wf_root : owner !! root = Some [];
  wf_frame f π : owner !! f = Some π → pa_pool s f ∧ (f ∉ pa_free s) ∧ (length π ≤ 3)%nat;
  wf_link f π i : owner !! f = Some π → (length π < 3)%nat → 0 ≤ i < 512 →
    present (tbl (pa_ram s) f i) = true →
    owner !! Z.land (tbl (pa_ram s) f i) ADDR_MASK = Some (π ++ [i]);
}.

(** Two addresses in the same page of the 48-bit virtual address space. *)
Definition same_page (v v' : Z) : Prop :=
  path_of v = path_of v' ∧ pml1_idx v = pml1_idx v'.

#[export] Instance same_page_dec v v' : Decision (same_page v v').
Proof. unfold same_page. apply _. Defined.

Lemma wf_page_ok owner s root f π : pt_wf owner s root → owner !! f = Some π → page_ok hhdm_offset f.
Proof. intros Hwf Hf. eapply pa_pool_ok; [apply Hwf|]. by eapply wf_frame. Qed.

Lemma entry_addr_page f i : 0 ≤ i < 512 → ∀ a,
  hhdm_offset + f + 8 * i ≤ a < hhdm_offset + f + 8 * i + 8 → page_byte hhdm_offset f a.
Proof. intros ? a ?. unfold page_byte, PAGE_SIZE. lia. Qed.

(** Writing an entry changes that entry only. *)
Lemma tbl_store_eq m f i v :
  0 ≤ v < 2 ^ 64 → tbl (store64 m (hhdm_offset + f + 8 * i) v) f i = v.
Proof. intros. unfold tbl, entry_at. by rewrite load64_store64_eq, u64_small. Qed.

Lemma tbl_store_ne m f i g j v :
  f mod PAGE_SIZE = 0 → g mod PAGE_SIZE = 0 → 0 ≤ i < 512 → 0 ≤ j < 512 → (f, i) ≠ (g, j) →
  tbl (store64 m (hhdm_offset + f + 8 * i) v) g j = tbl m g j.
Proof.
  unfold PAGE_SIZE. intros Hf Hg Hi Hj Hne. apply load64_store64_ne.
  apply Z.mod_divide in Hf as [k ->]; [|lia]. apply Z.mod_divide in Hg as [n ->]; [|lia].
  destruct (decide (k = n)) as [->|]; [|lia].
  assert (i ≠ j) by congruence. lia.
Qed.

Lemma tbl_ext m m' f i :
  0 ≤ i < 512 → (∀ a, page_byte hhdm_offset f a → load8 m' a = load8 m a) → tbl m' f i = tbl m f i.
Proof. intros Hi Ha. apply load64_ext. intros b Hb. apply Ha. by eapply entry_addr_page. Qed.

Lemma tbl_zero m f i :
  0 ≤ i < 512 → (∀ a, page_byte hhdm_offset f a → load8 m a = 0) → tbl m f i = 0.
Proof. intros Hi Ha. apply (load_le_zero 8). intros b Hb. apply Ha. by eapply entry_addr_page. Qed.

(** A walk inside a well-formed tree ends in the frame its path owns. *)
Lemma walk_owner owner s root f π p g :
  pt_wf owner s root → owner !! f = Some π → (length π + length p ≤ 3)%nat →
  Forall (λ i, 0 ≤ i < 512) p → walk (pa_ram s) f p = Some g → owner !! g = Some (π ++ p).
Proof.
  intros Hwf. revert f π. induction p as [|i p IH]; intros f π Hf Hlen HF Hw; simpl in *.
  - simplify_eq. by rewrite app_nil_r.
  - inv HF. destruct (present _) eqn:Hp; [|done].
    eapply (IH _ (π ++ [i])) in Hw; try done.
    + by rewrite <- app_assoc in Hw.
    + eapply wf_link; try done. lia.
    + rewrite length_app. simpl. lia.
Qed.

(** A write to entry [i] of the table owned by [π] is not seen by walks that do
    not start with [π ++ [i]]. *)
Lemma walk_store owner s root m' f π i v g ρ p :
  pt_wf owner s root → owner !! f = Some π → 0 ≤ i < 512 →
  m' = store64 (pa_ram s) (hhdm_offset + f + 8 * i) v →
  owner !! g = Some ρ → (length ρ + length p ≤ 3)%nat → Forall (λ i, 0 ≤ i < 512) p →
  ¬ (π ++ [i]) `prefix_of` (ρ ++ p) →
  walk m' g p = walk (pa_ram s) g p.
Proof.
  intros Hwf Hf Hi ->. revert g ρ. induction p as [|j p IH]; intros g ρ Hg Hlen HF Hpre; [done|].
  inv HF. simpl in *.
  assert ((f, i) ≠ (g, j)) as Hne.
  { intros [= -> ->]. assert (π = ρ) as -> by congruence. apply Hpre.
    exists p. by rewrite <- app_assoc. }
  rewrite tbl_store_ne; [|eapply wf_page_ok; eauto..|done|done|done].
  destruct (present _) eqn:Hp; [|done].
  eapply (IH _ (ρ ++ [j])); try done.
  - eapply wf_link; try done. lia.
  - rewrite length_app. simpl. lia.
  - by rewrite <- app_assoc.
Qed.

(** ** Writing an entry *)

(** The state after [table[i] = v] for a table of the tree. *)
Lemma set_entry_inv owner s root f π i v :
  pt_wf owner s root → owner !! f = Some π → 0 ≤ i < 512 →
  let s' := set_entry s (hhdm_offset + f) i v in
  pa_inv s' ∧ pa_free s' = pa_free s ∧ (∀ p, pa_pool s' p ↔ pa_pool s p) ∧
  (∀ a, pa_own s' a ↔ pa_own s a) ∧
  pa_ram s' = store64 (pa_ram s) (hhdm_offset + f + 8 * i) v.
Proof.
  intros Hwf Hf Hi s'. unfold s', set_entry.
  destruct (pa_with_ram_inv s (store64 (pa_ram s) (hhdm_offset + f + 8 * i) v)) as (? & ?).
  - apply Hwf.
  - intros a Ha. apply load8_store64_out.
    assert (¬ page_byte hhdm_offset f a) as Hn.
    { intros Hb. eapply pa_pool_own; [apply Hwf| |done|done]. by eapply wf_frame. }
    unfold page_byte, PAGE_SIZE in Hn. lia.
  - split_and!; try done.
    + intros p. apply pa_pool_with_ram.
    + intros a. apply pa_own_with_ram.
    + apply pa_ram_with_ram.
Qed.

(** Rewriting an entry whose path is complete (a last-level entry) keeps the
    tree and changes one page. *)
Lemma set_leaf_wf owner s root f path i v :
  pt_wf owner s root → owner !! f = Some path → length path = 3%nat → 0 ≤ i < 512 →
  pt_wf owner (set_entry s (hhdm_offset + f) i v) root.
Proof.
  intros Hwf Hf Hlen Hi.
  destruct (set_entry_inv owner s root f path i v) as (Hinv & Hfree & Hpool & _ & Hram); try done.
  constructor; [done | apply Hwf | |].
  - intros g ρ Hg. rewrite Hfree, Hpool. by eapply wf_frame.
  - intros g ρ j Hg Hl Hj. rewrite Hram.
    rewrite tbl_store_ne; [|eapply wf_page_ok; eauto..|done|done|].
    + by apply (wf_link owner s root Hwf).
    + intros [= -> ->]. assert (path = ρ) as -> by congruence. lia.
Qed.

Lemma set_leaf_leaf owner s root f path i v path' j :
  pt_wf owner s root → walk (pa_ram s) root path = Some f → length path = 3%nat →
  length path' = 3%nat → Forall (λ i, 0 ≤ i < 512) path → Forall (λ i, 0 ≤ i < 512) path' →
  0 ≤ i < 512 → 0 ≤ j < 512 → 0 ≤ v < 2 ^ 64 →
  leaf (pa_ram (set_entry s (hhdm_offset + f) i v)) root path' j =
  if decide (path' = path ∧ j = i) then v else leaf (pa_ram s) root path' j.
Proof.
  intros Hwf Hw Hl Hl' HF HF' Hi Hj Hv.
  assert (owner !! f = Some path) as Hf.
  { eapply (walk_owner owner s root root []); eauto; [apply Hwf | simpl; lia]. }
  destruct (set_entry_inv owner s root f path i v) as (_ & _ & _ & _ & Hram); try done.
  unfold leaf. rewrite (walk_store owner s root _ f path i v root []);
    [|done|done|done|done|apply Hwf|simpl; lia|done|].
  2:{ intros [k Hk]. apply (f_equal length) in Hk. rewrite !length_app in Hk. simpl in Hk. lia. }
  destruct (walk (pa_ram s) root path') as [g|] eqn:Hg.
  - assert (owner !! g = Some path') as Hgo.
    { eapply (walk_owner owner s root root []); eauto; [apply Hwf | simpl; lia]. }
    rewrite Hram. case_decide as Hd.
    + destruct Hd as [-> ->]. assert (g = f) as -> by congruence. by apply tbl_store_eq.
    + apply tbl_store_ne; [eapply wf_page_ok; eauto..|done|done|].
      intros [= -> ->]. apply Hd. split; [congruence|done].
  - case_decide as Hd; [|done]. destruct Hd as [-> _]. congruence.
Qed.

(** ** Adding a table *)

Lemma walk_app m f p q : walk m f (p ++ q) = walk m f p ≫= λ g, walk m g q.
Proof.
  revert f. induction p as [|i p IH]; intros f; [done|]. simpl.
  destruct (present _); [apply IH | done].
Qed.

(** Memory that agrees on the table frames gives the same walks and entries. *)
Lemma walk_ext owner s root m' g ρ p :
  pt_wf owner s root →
  (∀ h π a, owner !! h = Some π → page_byte hhdm_offset h a → load8 m' a = load8 (pa_ram s) a) →
  owner !! g = Some ρ → (length ρ + length p ≤ 3)%nat → Forall (λ i, 0 ≤ i < 512) p →
  walk m' g p = walk (pa_ram s) g p.
Proof.
  intros Hwf Ha. revert g ρ. induction p as [|i p IH]; intros g ρ Hg Hlen HF; [done|].
  inv HF. simpl in *. rewrite (tbl_ext (pa_ram s) m' g i) by eauto.
  destruct (present _) eqn:Hp; [|done]. apply (IH _ (ρ ++ [i])); [|rewrite length_app; simpl; lia|done].
  eapply wf_link; eauto. lia.
Qed.

Lemma leaf_ext owner s root m' path j :
  pt_wf owner s root →
  (∀ h π a, owner !! h = Some π → page_byte hhdm_offset h a → load8 m' a = load8 (pa_ram s) a) →
  length path = 3%nat → Forall (λ i, 0 ≤ i < 512) path → 0 ≤ j < 512 →
  leaf m' root path j = leaf (pa_ram s) root path j.
Proof.
  intros Hwf Ha Hl HF Hj. unfold leaf.
  rewrite (walk_ext owner s root m' root []); [|done|done|apply Hwf|simpl; lia|done].
  destruct (walk _ _ _) as [g|] eqn:Hg; [|done].
  apply tbl_ext; [done|]. intros a. apply (Ha g path).
  eapply (walk_owner owner s root root []); eauto; [apply Hwf | simpl; lia].
Qed.

(** A requested page is not part of the tree, which does not notice. *)
Lemma request_wf owner s root p ps :
  pt_wf owner s root → pa_free s = p :: ps →
  ∃ s', pmm_request s = (p, s') ∧ pt_wf owner s' root ∧ pa_free s' = ps ∧
    (∀ q, pa_pool s' q ↔ pa_pool s q) ∧ page_ok hhdm_offset p ∧ pa_pool s' p ∧ (p ∉ ps) ∧
    owner !! p = None ∧
    (∀ h π a, owner !! h = Some π → page_byte hhdm_offset h a →
       load8 (pa_ram s') a = load8 (pa_ram s) a) ∧
    (∀ j, 0 ≤ j < 512 → tbl (pa_ram s') p j = 0) ∧
    (∀ a, ¬ page_byte hhdm_offset p a → load8 (pa_ram s') a = load8 (pa_ram s) a).
Proof.
  intros Hwf Hfree. pose proof (wf_inv _ _ _ Hwf) as Hinv.
  destruct (pa_request_page s p ps Hinv Hfree) as (s' & Hr & Hinv' & Hf' & Hpool & _ & Hz & Ho).
  assert (p ∈ pa_free s) as Hin by (rewrite Hfree; by left).
  pose proof (pa_free_pool s p Hinv Hin) as Hpp.
  pose proof (pa_pool_ok s p Hinv Hpp) as Hok.
  pose proof (pa_free_NoDup s Hinv) as Hnd. rewrite Hfree in Hnd.
  apply NoDup_cons in Hnd as [Hnps _].
  assert (owner !! p = None) as Hop.
  { destruct (owner !! p) as [π|] eqn:E; [|done].
    exfalso. by destruct (wf_frame _ _ _ Hwf p π E) as (_ & ? & _). }
  assert (∀ h π a, owner !! h = Some π → page_byte hhdm_offset h a →
    load8 (pa_ram s') a = load8 (pa_ram s) a) as Hsame.
  { intros h π a Hh Ha. apply Ho. intros Hpa.
    assert (h = p) as ->; [|congruence].
    eapply page_byte_inj; [eapply wf_page_ok; eauto|apply Hok|done..]. }
  exists s'. split_and!; try done.
  - constructor; [done | apply Hwf | |].
    + intros h π Hh. destruct (wf_frame _ _ _ Hwf h π Hh) as (? & Hn & ?).
      rewrite Hpool, Hf'. split_and!; try done. intros ?. apply Hn. rewrite Hfree. by right.
    + intros h π j Hh Hl Hj. rewrite (tbl_ext (pa_ram s)) by eauto. by apply (wf_link _ _ _ Hwf).
  - by apply Hpool.
  - intros j Hj. apply tbl_zero; eauto.
Qed.

(** Hooking an empty table into a missing entry. *)
Lemma link_wf owner s root f π i p :
  pt_wf owner s root → owner !! f = Some π → (length π < 3)%nat → 0 ≤ i < 512 →
  page_ok hhdm_offset p → pa_pool s p → p ∉ pa_free s → owner !! p = None →
  (∀ j, 0 ≤ j < 512 → tbl (pa_ram s) p j = 0) →
  pt_wf (<[p := π ++ [i]]> owner) (set_entry s (hhdm_offset + f) i (Z.lor p 7)) root.
Proof.
  intros Hwf Hf Hlen Hi Hok Hpool Hfree Hop Hz.
  destruct (set_entry_inv owner s root f π i (Z.lor p 7)) as (Hinv & Hfr & Hpl & _ & Hram); try done.
  assert (0 ≤ Z.lor p 7 < 2 ^ 64) as Hv.
  { destruct Hok as (_ & ? & ? & _). unfold PAGE_SIZE in *. apply lor_range; lia. }
  assert (p ≠ f) as Hpf by congruence.
  constructor; [done | | |].
  - rewrite lookup_insert_ne; [apply Hwf|]. intros ->. by rewrite (wf_root _ _ _ Hwf) in Hop.
  - intros h ρ [(<- & <-)|(? & Hh)]%lookup_insert_Some.
    + rewrite Hpl, Hfr, length_app. simpl. split_and!; try done. lia.
    + rewrite Hpl, Hfr. by eapply wf_frame.
  - intros h ρ j Hh Hl Hj. rewrite Hram.
    destruct (decide ((h, j) = (f, i))) as [[= -> ->]|Hne].
    + rewrite lookup_insert_ne in Hh by done. assert (ρ = π) as -> by congruence.
      rewrite tbl_store_eq by done. intros _.
      rewrite land_ADDR_MASK_lor; [by rewrite lookup_insert_eq|apply Hok| |done].
      destruct Hok as (_ & ? & ? & _). unfold PAGE_SIZE in *. lia.
    + destruct (decide (h = p)) as [->|Hhp].
      * rewrite tbl_store_ne; [|eapply wf_page_ok; eauto|apply Hok|done..].
        by rewrite Hz by done.
      * rewrite lookup_insert_ne in Hh by done.
        rewrite tbl_store_ne; [|eapply wf_page_ok; eauto..|done|done|done].
        intros Hp. rewrite lookup_insert_ne; [by apply (wf_link _ _ _ Hwf)|].
        intros ->. rewrite (wf_link _ _ _ Hwf h ρ j) in Hop by done. done.
Qed.

Lemma link_walk owner s root f π i p :
  pt_wf owner s root → walk (pa_ram s) root π = Some f → Forall (λ i, 0 ≤ i < 512) π →
  (length π < 3)%nat → 0 ≤ i < 512 → page_ok hhdm_offset p →
  walk (pa_ram (set_entry s (hhdm_offset + f) i (Z.lor p 7))) root (π ++ [i]) = Some p.
Proof.
  intros Hwf Hw HF Hlen Hi Hok.
  assert (owner !! f = Some π) as Hf.
  { eapply (walk_owner owner s root root []); eauto; [apply Hwf | simpl; lia]. }
  destruct (set_entry_inv owner s root f π i (Z.lor p 7)) as (_ & _ & _ & _ & Hram); try done.
  rewrite walk_app. rewrite (walk_store owner s root _ f π i (Z.lor p 7) root []);
    [|done|done|done|done|apply Hwf|simpl; lia|done|].
  2:{ intros [k Hk]. apply (f_equal length) in Hk. rewrite !length_app in Hk. simpl in Hk. lia. }
  rewrite Hw. simpl. rewrite Hram.
  destruct Hok as (? & ? & ? & _). unfold PAGE_SIZE in *.
  rewrite tbl_store_eq by (apply lor_range; lia).
  rewrite present_lor7, land_ADDR_MASK_lor; [done..|lia|done].
Qed.

Lemma link_leaf owner s root f π i p path j :
  pt_wf owner s root → walk (pa_ram s) root π = Some f → Forall (λ i, 0 ≤ i < 512) π →
  (length π < 3)%nat → 0 ≤ i < 512 → present (tbl (pa_ram s) f i) = false →
  page_ok hhdm_offset p → owner !! p = None → (∀ j, 0 ≤ j < 512 → tbl (pa_ram s) p j = 0) →
  length path = 3%nat → Forall (λ i, 0 ≤ i < 512) path → 0 ≤ j < 512 →
  leaf (pa_ram (set_entry s (hhdm_offset + f) i (Z.lor p 7))) root path j =
  leaf (pa_ram s) root path j.
Proof.
  intros Hwf Hw HF Hlen Hi Hnp Hok Hop Hz Hl HFp Hj.
  assert (owner !! f = Some π) as Hf.
  { eapply (walk_owner owner s root root []); eauto; [apply Hwf | simpl; lia]. }
  pose proof (link_walk owner s root f π i p Hwf Hw HF Hlen Hi Hok) as Hlw.
  destruct (set_entry_inv owner s root f π i (Z.lor p 7)) as (_ & _ & _ & _ & Hram); try done.
  assert (∀ k, 0 ≤ k < 512 → tbl (pa_ram (set_entry s (hhdm_offset + f) i (Z.lor p 7))) p k = 0) as Hz'.
  { intros k Hk. rewrite Hram, tbl_store_ne; [by apply Hz|eapply wf_page_ok; eauto|apply Hok|done|done|].
    intros [= -> _]. congruence. }
  unfold leaf. destruct (decide ((π ++ [i]) `prefix_of` path)) as [[rest ->]|Hpre].
  - rewrite !walk_app, Hw, Hlw in *. simpl. rewrite Hnp. simpl.
    destruct rest as [|r rest]; [by apply Hz'|].
    simpl. rewrite Hz'; [done|]. apply Forall_app in HFp as [_ HFr]. by inv HFr.
  - rewrite (walk_store owner s root _ f π i (Z.lor p 7) root []);
      [|done|done|done|done|apply Hwf|simpl; lia|done|done].
    destruct (walk (pa_ram s) root path) as [g|] eqn:Hg; [|done].
    assert (owner !! g = Some path) as Hgo.
    { eapply (walk_owner owner s root root []); eauto; [apply Hwf | simpl; lia]. }
    rewrite Hram. apply tbl_store_ne; [eapply wf_page_ok; eauto..|done|done|].
    intros [= -> ->]. assert (π = path) as -> by congruence. lia.
Qed.

(** [s'] is [s] with at most [n] pages taken for new tables: no page of the
    address space and no byte outside the tables has changed. *)
Record grown (root : Z) (n : nat) (owner : gmap Z (list Z)) (s : S)
    (owner' : gmap Z (list Z)) (s' : S) : Prop := {
  grown_wf : pt_wf owner' s' root;
  grown_owner : owner ⊆ owner';
  grown_used : ∃ used, pa_free s = used ++ pa_free s' ∧ (length used ≤ n)%nat;
  grown_pool : ∀ p, pa_pool s' p ↔ pa_pool s p;
  grown_leaf : ∀ path j, length path = 3%nat → Forall (λ i, 0 ≤ i < 512) path → 0 ≤ j < 512 →
    leaf (pa_ram s') root path j = leaf (pa_ram s) root path j;
  grown_bytes : ∀ a, (∀ h, h ∈ dom owner' → ¬ page_byte hhdm_offset h a) →
    load8 (pa_ram s') a = load8 (pa_ram s) a;
  grown_new : ∀ h, h ∈ dom owner' → h ∈ dom owner ∨ h ∈ pa_free s;
}.

Lemma grown_trans root n1 n2 o1 s1 o2 s2 o3 s3 :
  grown root n1 o1 s1 o2 s2 → grown root n2 o2 s2 o3 s3 → grown root (n1 + n2) o1 s1 o3 s3.
Proof.
  intros [W1 O1 (u1 & U1 & L1) P1 F1 B1 N1] [W2 O2 (u2 & U2 & L2) P2 F2 B2 N2].
  constructor; [done | by etrans | | | | |].
  - exists (u1 ++ u2). rewrite length_app, <- app_assoc, <- U2. split; [done|lia].
  - intros p. by rewrite P2.
  - intros. by rewrite F2, F1.
  - intros a Ha. rewrite B2, B1; try done. intros h Hh. apply Ha. by apply (subseteq_dom _ _ O2).
  - intros h [Hh|Hh]%N2; [by apply N1|]. right. rewrite U1. apply elem_of_app. by right.
Qed.

Lemma ensure_table_spec owner s root f π i :
  pt_wf owner s root → walk (pa_ram s) root π = Some f → Forall (λ i, 0 ≤ i < 512) π →
  (length π < 3)%nat → 0 ≤ i < 512 → pa_free s ≠ [] →
  ∃ s' owner' g, ensure_table hhdm_offset s (hhdm_offset + f) i = (s', hhdm_offset + g) ∧
    grown root 1 owner s owner' s' ∧ walk (pa_ram s') root (π ++ [i]) = Some g.
Proof.
  intros Hwf Hw HF Hlen Hi Hne.
  assert (owner !! f = Some π) as Hf.
  { eapply (walk_owner owner s root root []); eauto; [apply Hwf | simpl; lia]. }
  unfold ensure_table, next_table.
  change (entry_at (pa_ram s) (hhdm_offset + f) i) with (tbl (pa_ram s) f i).
  destruct (present (tbl (pa_ram s) f i)) eqn:Hp; cbn [negb].
  - change (entry_at (pa_ram s) (hhdm_offset + f) i) with (tbl (pa_ram s) f i).
    pose proof (wf_link owner s root Hwf f π i Hf Hlen Hi Hp) as Hg.
    exists s, owner, (Z.land (tbl (pa_ram s) f i) ADDR_MASK).
    rewrite HIGHER_HALF_page; [|apply pa_hhdm|by eapply wf_page_ok].
    split_and!; [done| |rewrite walk_app, Hw; simpl; by rewrite Hp].
    constructor; try done; [exists []; split; [done|simpl; lia]|by left].
  - destruct (pa_free s) as [|p ps] eqn:Hfree; [done|].
    destruct (request_wf owner s root p ps Hwf Hfree)
      as (s1 & -> & Hwf1 & Hf1 & Hpl1 & Hok & Hpp & Hnp & Hop & Hsame & Hz & Hout).
    assert (walk (pa_ram s1) root π = Some f) as Hw1.
    { rewrite (walk_ext owner s root (pa_ram s1) root []); [done|done|done|apply Hwf|simpl; lia|done]. }
    assert (present (tbl (pa_ram s1) f i) = false) as Hp1 by (by rewrite (tbl_ext (pa_ram s)) by eauto).
    destruct (set_entry_inv owner s1 root f π i (Z.lor p 7)) as (_ & Hfr & Hpl & _ & Hram); try done.
    assert (0 ≤ Z.lor p 7 < 2 ^ 64) as Hv.
    { destruct Hok as (_ & ? & ? & _). unfold PAGE_SIZE in *. apply lor_range; lia. }
    exists (set_entry s1 (hhdm_offset + f) i (Z.lor p 7)), (<[p := π ++ [i]]> owner), p.
    change (entry_at ?m (hhdm_offset + f) i) with (tbl m f i).
    rewrite Hram, tbl_store_eq, <- Hram, land_ADDR_MASK_lor, HIGHER_HALF_page; try done;
      [|apply pa_hhdm|apply Hok|destruct Hok as (_ & ? & ? & _); unfold PAGE_SIZE in *; lia].
    split_and!; [done| |by eapply link_walk].
    constructor.
    + apply link_wf; try done. by rewrite Hf1.
    + by apply insert_subseteq.
    + exists [p]. rewrite Hfree, Hfr, Hf1. split; [done|simpl; lia].
    + intros q. by rewrite Hpl.
    + intros path j Hl HFp Hj. erewrite link_leaf by done. by eapply leaf_ext.
    + intros a Ha. rewrite Hram, load8_store64_out; [apply Hout, Ha, (elem_of_dom_2 _ _ (π ++ [i])), lookup_insert_eq|].
      assert (¬ page_byte hhdm_offset f a) as Hn.
      { apply Ha. apply elem_of_dom. exists π. by rewrite lookup_insert_ne by congruence. }
      unfold page_byte, PAGE_SIZE in Hn. lia.
    + intros h Hh. rewrite dom_insert in Hh. rewrite Hfree. set_solver.
Qed.

Lemma path_of_range v : Forall (λ i, 0 ≤ i < 512) (path_of v).
Proof. repeat constructor; by apply pml_idx_range. Qed.

(** What one step of building the path needs of the free pages. *)
Lemma grown_free root n owner s owner' s' k :
  grown root n owner s owner' s' → (n + k ≤ length (pa_free s))%nat → (k ≤ length (pa_free s'))%nat.
Proof. intros [_ _ (u & -> & Hu) _ _ _ _]. rewrite length_app. lia. Qed.

Lemma free_nonempty s k : (Datatypes.S k ≤ length (pa_free s))%nat → pa_free s ≠ [].
Proof. intros Hk E. rewrite E in Hk. simpl in Hk. lia. Qed.

(** [vmm_map]: the tables it adds, then the entry it writes. *)
Lemma vmm_map_steps owner s root virt phys flags :
  pt_wf owner s root → (3 ≤ length (pa_free s))%nat →
  ∃ s3 owner' f1, grown root 3 owner s owner' s3 ∧
    walk (pa_ram s3) root (path_of virt) = Some f1 ∧
    vmm_map hhdm_offset s (hhdm_offset + root) virt phys flags =
    set_entry s3 (hhdm_offset + f1) (pml1_idx virt) (Z.lor phys flags).
Proof.
  intros Hwf Hfree. unfold vmm_map.
  destruct (ensure_table_spec owner s root root [] (pml4_idx virt))
    as (s1 & o1 & g1 & -> & G1 & W1); try done;
    [simpl; lia|by apply pml_idx_range|by apply (free_nonempty _ 2)|].
  simpl in W1. pose proof (grown_free _ _ _ _ _ _ 2 G1 Hfree) as L1.
  destruct (ensure_table_spec o1 s1 root g1 [pml4_idx virt] (pml3_idx virt))
    as (s2 & o2 & g2 & -> & G2 & W2); try done;
    [apply G1|apply Forall_singleton; by apply pml_idx_range|simpl; lia|by apply pml_idx_range
    |by apply (free_nonempty _ 1)|].
  simpl in W2. pose proof (grown_free _ _ _ _ _ _ 1 G2 L1) as L2.
  destruct (ensure_table_spec o2 s2 root g2 [pml4_idx virt; pml3_idx virt] (pml2_idx virt))
    as (s3 & o3 & g3 & -> & G3 & W3); try done;
    [apply G2|repeat constructor; by apply pml_idx_range|simpl; lia|by apply pml_idx_range
    |by apply (free_nonempty _ 0)|].
  exists s3, o3, g3. split_and!; [|exact W3|done].
  change 3%nat with (1 + 1 + 1)%nat. eauto using grown_trans.
Qed.

(** Mapping a page: the tree stays well formed, at most three pages are used,
    one page of the address space changes, and no byte outside the tables. *)
Lemma vmm_map_grown owner s root virt phys flags :
  pt_wf owner s root → (3 ≤ length (pa_free s))%nat → 0 ≤ Z.lor phys flags < 2 ^ 64 →
  let s' := vmm_map hhdm_offset s (hhdm_offset + root) virt phys flags in
  ∃ owner', pt_wf owner' s' root ∧ owner ⊆ owner' ∧
    (∃ used, pa_free s = used ++ pa_free s' ∧ (length used ≤ 3)%nat) ∧
    (∀ p, pa_pool s' p ↔ pa_pool s p) ∧
    (∀ v, page_entry s' root v =
       if decide (same_page v virt) then Z.lor phys flags else page_entry s root v) ∧
    (∀ a, (∀ h, h ∈ dom owner' → ¬ page_byte hhdm_offset h a) →
       load8 (pa_ram s') a = load8 (pa_ram s) a) ∧
    (∀ h, h ∈ dom owner' → h ∈ dom owner ∨ h ∈ pa_free s).
Proof.
  intros Hwf Hfree Hv s'.
  destruct (vmm_map_steps owner s root virt phys flags Hwf Hfree) as (s3 & o & f1 & G & W & E).
  unfold s'. rewrite E. clear s' E. pose proof (grown_wf _ _ _ _ _ _ G) as Hwf3.
  assert (o !! f1 = Some (path_of virt)) as Hf1.
  { apply (walk_owner o s3 root root [] (path_of virt)); [done|apply Hwf3|simpl; lia|apply path_of_range|done]. }
  destruct (set_entry_inv o s3 root f1 (path_of virt) (pml1_idx virt) (Z.lor phys flags))
    as (_ & Hfr & Hpl & _ & Hram); [done|done|by apply pml_idx_range|].
  exists o. split_and!.
  - by apply (set_leaf_wf _ _ _ _ (path_of virt)); [..|apply pml_idx_range].
  - apply G.
  - rewrite Hfr. apply G.
  - intros p. rewrite Hpl. apply G.
  - intros v. unfold page_entry.
    rewrite (set_leaf_leaf o s3 root f1 (path_of virt)); try done;
      [|apply path_of_range..|by apply pml_idx_range|by apply pml_idx_range].
    case_decide as H1; case_decide as H2; [done|by destruct H2|by destruct H1|].
    apply (grown_leaf _ _ _ _ _ _ G); [done|apply path_of_range|by apply pml_idx_range].
  - intros a Ha. rewrite Hram, load8_store64_out; [by apply (grown_bytes _ _ _ _ _ _ G)|].
    assert (¬ page_byte hhdm_offset f1 a) as Hn by (apply Ha, (elem_of_dom_2 _ _ _ Hf1)).
    pose proof (pml_idx_range 12 virt ltac:(lia)). unfold page_byte, PAGE_SIZE in Hn. lia.
  - apply G.
Qed.

(** ** Looking up and unmapping *)

Lemma entry_tbl m f i : entry_at m (hhdm_offset + f) i = tbl m f i.
Proof. done. Qed.

(** The C code's walk computes the model's: each table pointer is the frame it
    names, in the direct map. *)
Lemma next_table_frame owner s root f π i :
  pt_wf owner s root → owner !! f = Some π → (length π < 3)%nat → 0 ≤ i < 512 →
  present (tbl (pa_ram s) f i) = true →
  next_table hhdm_offset (tbl (pa_ram s) f i) =
  hhdm_offset + Z.land (tbl (pa_ram s) f i) ADDR_MASK.
Proof.
  intros Hwf Hf Hl Hi Hp. unfold next_table.
  apply HIGHER_HALF_page; [apply pa_hhdm|]. eapply wf_page_ok; [done|]. by eapply wf_link.
Qed.

(** The cases of a three-level walk: it stops at a missing entry of a table of
    the tree, or reaches a last-level table. *)
Lemma walk_cases owner s root virt :
  pt_wf owner s root →
  let m := pa_ram s in
  let e4 := tbl m root (pml4_idx virt) in
  let f3 := Z.land e4 ADDR_MASK in
  let e3 := tbl m f3 (pml3_idx virt) in
  let f2 := Z.land e3 ADDR_MASK in
  let e2 := tbl m f2 (pml2_idx virt) in
  let f1 := Z.land e2 ADDR_MASK in
  (present e4 = false ∧ walk m root (path_of virt) = None) ∨
  (present e4 = true ∧ owner !! f3 = Some [pml4_idx virt] ∧
   ((present e3 = false ∧ walk m root (path_of virt) = None) ∨
    (present e3 = true ∧ owner !! f2 = Some [pml4_idx virt; pml3_idx virt] ∧
     ((present e2 = false ∧ walk m root (path_of virt) = None) ∨
      (present e2 = true ∧ owner !! f1 = Some (path_of virt) ∧
       walk m root (path_of virt) = Some f1))))).
Proof.
  intros Hwf m e4 f3 e3 f2 e2 f1. unfold path_of. simpl. fold m e4.
  destruct (present e4) eqn:H4; [|by left]. right.
  assert (owner !! f3 = Some [pml4_idx virt]) as O3.
  { apply (wf_link _ _ _ Hwf root []); [apply Hwf|simpl; lia|by apply pml_idx_range|done]. }
  do 2 (split; [done|]). fold f3 e3. destruct (present e3) eqn:H3; [|by left]. right.
  assert (owner !! f2 = Some [pml4_idx virt; pml3_idx virt]) as O2.
  { apply (wf_link _ _ _ Hwf f3 [pml4_idx virt]); [done|simpl; lia|by apply pml_idx_range|done]. }
  do 2 (split; [done|]). fold f2 e2. destruct (present e2) eqn:H2; [|by left]. right.
  split_and!; [done| |done].
  apply (wf_link _ _ _ Hwf f2 [pml4_idx virt; pml3_idx virt]);
    [done|simpl; lia|by apply pml_idx_range|done].
Qed.

Lemma virt_to_phys_entry owner s root virt :
  pt_wf owner s root →
  virt_to_phys hhdm_offset s (hhdm_offset + root) virt = Z.land (page_entry s root virt) ADDR_MASK.
Proof.
  intros Hwf. unfold virt_to_phys, page_entry, leaf. rewrite !entry_tbl.
  destruct (walk_cases owner s root virt Hwf) as [(H4 & ->)|(H4 & O3 & H32)];
    rewrite H4; cbn [negb]; [done|].
  rewrite (next_table_frame owner s root root []) by
    (done || apply Hwf || (simpl; lia) || by apply pml_idx_range).
  rewrite !entry_tbl. destruct H32 as [(H3 & ->)|(H3 & O2 & H21)]; rewrite H3; cbn [negb]; [done|].
  rewrite (next_table_frame owner s root _ [pml4_idx virt]) by
    (done || (simpl; lia) || by apply pml_idx_range).
  rewrite !entry_tbl. destruct H21 as [(H2 & ->)|(H2 & O1 & ->)]; rewrite H2; cbn [negb]; [done|].
  rewrite (next_table_frame owner s root _ [pml4_idx virt; pml3_idx virt]) by
    (done || (simpl; lia) || by apply pml_idx_range).
  done.
Qed.

(** Clearing an entry that is not present anyway. *)
Lemma clear_missing owner s root f π i :
  pt_wf owner s root → owner !! f = Some π → (length π < 3)%nat → 0 ≤ i < 512 →
  present (tbl (pa_ram s) f i) = false →
  let s' := set_entry s (hhdm_offset + f) i 0 in
  pt_wf owner s' root ∧ pa_free s' = pa_free s ∧
  (∀ path j, length path = 3%nat → Forall (λ i, 0 ≤ i < 512) path → 0 ≤ j < 512 →
     leaf (pa_ram s') root path j = leaf (pa_ram s) root path j).
Proof.
  intros Hwf Hf Hlen Hi Hp s'.
  destruct (set_entry_inv owner s root f π i 0) as (Hinv & Hfr & Hpl & _ & Hram); try done.
  assert (∀ g ρ j, owner !! g = Some ρ → 0 ≤ j < 512 → (f, i) ≠ (g, j) →
    tbl (pa_ram s') g j = tbl (pa_ram s) g j) as Hne.
  { intros g ρ j Hg Hj ?. unfold s'. rewrite Hram.
    apply tbl_store_ne; try done; eapply wf_page_ok; eauto. }
  assert (tbl (pa_ram s') f i = 0) as Hz by (unfold s'; rewrite Hram; by apply tbl_store_eq).
  assert (∀ p g ρ, owner !! g = Some ρ → (length ρ + length p ≤ 3)%nat →
    Forall (λ i, 0 ≤ i < 512) p → walk (pa_ram s') g p = walk (pa_ram s) g p) as Hwalk.
  { induction p as [|j p IH]; intros g ρ Hg Hl HF; [done|]. inv HF. simpl in *.
    destruct (decide ((f, i) = (g, j))) as [[= -> ->]|]; [by rewrite Hz, Hp|].
    rewrite (Hne g ρ j) by done. destruct (present (tbl (pa_ram s) g j)) eqn:E; [|done].
    apply (IH _ (ρ ++ [j])); [|rewrite length_app; simpl; lia|done]. eapply wf_link; eauto. lia. }
  split_and!; [|done|].
  - constructor; [done|apply Hwf| |].
    + intros g ρ Hg. unfold s'. rewrite Hpl, Hfr. by eapply wf_frame.
    + intros g ρ j Hg Hl Hj. destruct (decide ((f, i) = (g, j))) as [[= -> ->]|]; [by rewrite Hz|].
      rewrite (Hne g ρ j) by done. by apply (wf_link _ _ _ Hwf).
  - intros path j Hl HF Hj. unfold leaf. rewrite (Hwalk path root []);
      [|apply Hwf|simpl; lia|done].
    destruct (walk _ _ _) as [g|] eqn:Hg; [|done].
    assert (owner !! g = Some path) as Hgo.
    { apply (walk_owner owner s root root [] path); [done|apply Hwf|simpl; lia|done|done]. }
    apply (Hne g path); try done. intros [= -> ->]. assert (π = path) by congruence. subst. lia.
Qed.

(** Unmapping a page: the entry is 0, every other page keeps its entry, no page
    is allocated or freed. *)
Lemma vmm_unmap_wf owner s root virt :
  pt_wf owner s root →
  let s' := vmm_unmap hhdm_offset s (hhdm_offset + root) virt in
  pt_wf owner s' root ∧ pa_free s' = pa_free s ∧
  (∀ v, page_entry s' root v = if decide (same_page v virt) then 0 else page_entry s root v).
Proof.
  intros Hwf s'.
  assert (∀ f π i, owner !! f = Some π → (length π < 3)%nat → 0 ≤ i < 512 →
    present (tbl (pa_ram s) f i) = false → walk (pa_ram s) root (path_of virt) = None →
    let s1 := set_entry s (hhdm_offset + f) i 0 in
    pt_wf owner s1 root ∧ pa_free s1 = pa_free s ∧
    (∀ v, page_entry s1 root v = if decide (same_page v virt) then 0 else page_entry s root v)) as Hmiss.
  { intros f π i Hf Hl Hi Hp Hw s1. destruct (clear_missing owner s root f π i) as (? & ? & Hleaf); try done.
    split_and!; [done|done|]. intros v. unfold page_entry.
    rewrite Hleaf; [|done|apply path_of_range|by apply pml_idx_range].
    case_decide as Hd; [|done]. destruct Hd as [E _]. unfold leaf. by rewrite E, Hw. }
  unfold s', vmm_unmap. rewrite !entry_tbl.
  destruct (walk_cases owner s root virt Hwf) as [(H4 & HN)|(H4 & O3 & H32)]; rewrite H4; cbn [negb].
  { apply (Hmiss root []); [apply Hwf|simpl; lia|by apply pml_idx_range|done..]. }
  rewrite (next_table_frame owner s root root []) by
    (done || apply Hwf || (simpl; lia) || by apply pml_idx_range).
  rewrite !entry_tbl. destruct H32 as [(H3 & HN)|(H3 & O2 & H21)]; rewrite H3; cbn [negb].
  { apply (Hmiss _ [pml4_idx virt]); [done|simpl; lia|by apply pml_idx_range|done..]. }
  rewrite (next_table_frame owner s root _ [pml4_idx virt]) by
    (done || (simpl; lia) || by apply pml_idx_range).
  rewrite !entry_tbl. destruct H21 as [(H2 & HN)|(H2 & O1 & HW)]; rewrite H2; cbn [negb].
  { apply (Hmiss _ [pml4_idx virt; pml3_idx virt]); [done|simpl; lia|by apply pml_idx_range|done..]. }
  rewrite (next_table_frame owner s root _ [pml4_idx virt; pml3_idx virt]) by
    (done || (simpl; lia) || by apply pml_idx_range).
  split_and!.
  - by apply (set_leaf_wf _ _ _ _ (path_of virt)); [..|apply pml_idx_range].
  - by destruct (set_entry_inv owner s root _ _ (pml1_idx virt) 0 Hwf O1) as (_ & ? & _);
      [apply pml_idx_range|].
  - intros v. unfold page_entry.
    rewrite (set_leaf_leaf owner s root _ (path_of virt)); try done;
      (apply path_of_range || by apply pml_idx_range).
Qed.

(** Two addresses use the same entry when they agree on the 36 bits of the page
    number the four indices are cut from. *)
Lemma same_page_iff v v' :
  same_page v v' ↔ (v / 4096) mod 2 ^ 36 = (v' / 4096) mod 2 ^ 36.
Proof.
  unfold same_page, path_of.
  rewrite !pml_idx_div by lia.
  assert (∀ x k j, 0 ≤ j → k = 2 ^ (12 + j) → x / k = x / 4096 / 2 ^ j) as Hk.
  { intros x k j ? ->. rewrite Z.pow_add_r by lia. change (2 ^ 12) with 4096.
    rewrite Z.div_div; lia. }
  rewrite (Hk v (2 ^ 39) 27), (Hk v (2 ^ 30) 18), (Hk v (2 ^ 21) 9), (Hk v (2 ^ 12) 0),
    (Hk v' (2 ^ 39) 27), (Hk v' (2 ^ 30) 18), (Hk v' (2 ^ 21) 9), (Hk v' (2 ^ 12) 0)
    by (reflexivity || lia).
  generalize (v / 4096) (v' / 4096). intros a b. clear.
  change (2 ^ 27) with 134217728. change (2 ^ 18) with 262144.
  change (2 ^ 9) with 512. change (2 ^ 0) with 1. change (2 ^ 36) with 68719476736.
  rewrite !Z.div_1_r. split.
  - intros [[= H4 H3 H2] H1]. Z.to_euclidean_division_equations. lia.
  - intros E. split; [f_equal; [|f_equal; [|f_equal]]|]; Z.to_euclidean_division_equations; lia.
Qed.

(** ** Loops of [vmm_map] *)

(** The range of pages [x], [x + PAGE_SIZE], ..., [n] of them. *)
Definition in_range (virt : Z → Z) (x : Z) (n : nat) (v : Z) : Prop :=
  ∃ k, (k < n)%nat ∧ same_page v (virt (x + Z.of_nat k * PAGE_SIZE)).

(** The state after mapping [n] pages: each page of the range has its entry, the
    rest of the address space is as before. *)
Record mapped_range (root x : Z) (n : nat) (virt phys : Z → Z) (flags : Z)
    (owner : gmap Z (list Z)) (s : S) (owner' : gmap Z (list Z)) (s' : S) : Prop := {
  mr_wf : pt_wf owner' s' root;
  mr_owner : owner ⊆ owner';
  mr_used : ∃ used, pa_free s = used ++ pa_free s' ∧ (length used ≤ 3 * n)%nat;
  mr_in : ∀ k, (k < n)%nat →
    page_entry s' root (virt (x + Z.of_nat k * PAGE_SIZE)) =
    Z.lor (phys (x + Z.of_nat k * PAGE_SIZE)) flags;
  mr_out : ∀ v, ¬ in_range virt x n v → page_entry s' root v = page_entry s root v;
  mr_bytes : ∀ a, (∀ h, h ∈ dom owner' → ¬ page_byte hhdm_offset h a) →
    load8 (pa_ram s') a = load8 (pa_ram s) a;
}.

Lemma map_loop_range owner s root x (n : nat) virt phys flags (fuel : nat) :
  pt_wf owner s root → 0 ≤ x → x + Z.of_nat n * PAGE_SIZE < 2 ^ 64 →
  (3 * n ≤ length (pa_free s))%nat → (n ≤ fuel)%nat →
  (∀ k, (k < n)%nat → 0 ≤ Z.lor (phys (x + Z.of_nat k * PAGE_SIZE)) flags < 2 ^ 64) →
  (∀ j k, (j < k < n)%nat →
     ¬ same_page (virt (x + Z.of_nat j * PAGE_SIZE)) (virt (x + Z.of_nat k * PAGE_SIZE))) →
  ∃ owner' s', map_loop hhdm_offset fuel s (hhdm_offset + root) x (x + Z.of_nat n * PAGE_SIZE)
                 virt phys flags = Ret tt s' ∧
    mapped_range root x n virt phys flags owner s owner' s'.
Proof.
  revert owner s x fuel. induction n as [|n IH];
    intros owner s x fuel Hwf Hx Hend Hfree Hfuel Hv Hinj.
  { exists owner, s. rewrite Z.add_0_r. split.
    - destruct fuel; simpl; by rewrite Z.leb_refl.
    - constructor; try done; [by exists []|intros; lia]. }
  destruct fuel as [|fuel]; [lia|]. cbn [map_loop].
  assert (∀ k, x + PAGE_SIZE + Z.of_nat k * PAGE_SIZE = x + Z.of_nat (Datatypes.S k) * PAGE_SIZE) as Hstep
    by (intros; unfold PAGE_SIZE; lia).
  rewrite <- Hstep in *. rewrite (proj2 (Z.leb_gt _ _)) by (unfold PAGE_SIZE; lia).
  rewrite u64_small by (unfold PAGE_SIZE in *; lia).
  assert (x + Z.of_nat 0 * PAGE_SIZE = x) as H0 by lia.
  destruct (vmm_map_grown owner s root (virt x) (phys x) flags)
    as (o1 & Hwf1 & Ho1 & (u1 & Hu1 & Hl1) & _ & Hp1 & Hb1 & _); [done|lia|by rewrite <- H0; apply Hv; lia|].
  set (s1 := vmm_map hhdm_offset s _ _ _ _) in *.
  destruct (IH o1 s1 (x + PAGE_SIZE) fuel) as (o2 & s2 & Hrun & [W O (u2 & U2 & L2) I Out B]);
    try done; [unfold PAGE_SIZE; lia|rewrite Hu1, length_app in Hfree; lia|lia| | |].
  { intros k Hk. rewrite Hstep. apply Hv. lia. }
  { intros j k Hjk. rewrite !Hstep. apply Hinj. lia. }
  exists o2, s2. split; [done|]. constructor; [done|by etrans| | | |].
  - exists (u1 ++ u2). rewrite Hu1, U2, app_assoc, length_app. split; [done|lia].
  - intros [|k] Hk; [rewrite H0|rewrite <- Hstep; apply I; lia].
    rewrite Out, Hp1; [by rewrite decide_True|].
    intros (k & Hk' & Hs). rewrite Hstep in Hs. apply (Hinj 0%nat (Datatypes.S k)); [lia|].
    by rewrite H0.
  - intros v Hn. rewrite Out, Hp1.
    + rewrite decide_False; [done|]. intros Hs. apply Hn. exists 0%nat. rewrite H0. split; [lia|done].
    + intros (k & Hk & Hs). apply Hn. exists (Datatypes.S k). rewrite <- Hstep. split; [lia|done].
  - intros a Ha. rewrite B, Hb1; [done| |done]. intros h Hh. apply Ha.
    by apply (subseteq_dom _ _ O).
Qed.

(** ** A new root *)

(** The owner map of a root whose page has just been requested. *)
Lemma fresh_root s p ps :
  pa_inv s → pa_free s = p :: ps →
  ∃ s', pmm_request s = (p, s') ∧ pt_wf {[p := []]} s' p ∧ pa_free s' = ps ∧ page_ok hhdm_offset p ∧
    (∀ v, page_entry s' p v = 0).
Proof.
  intros Hinv Hfree.
  destruct (pa_request_page s p ps Hinv Hfree) as (s' & Hr & Hinv' & Hf' & Hpool & _ & Hz & _).
  assert (pa_pool s p) as Hpp by (apply pa_free_pool; [done|rewrite Hfree; by left]).
  pose proof (pa_free_NoDup s Hinv) as Hnd. rewrite Hfree in Hnd. apply NoDup_cons in Hnd as [Hn _].
  assert (∀ j, 0 ≤ j < 512 → tbl (pa_ram s') p j = 0) as Htz by (intros; by apply tbl_zero).
  exists s'. split_and!; [done| |done|by apply (pa_pool_ok s)|].
  - constructor; [done|by simplify_map_eq| |].
    + intros f π [<- <-]%lookup_singleton_Some. rewrite Hpool, Hf'. split_and!; [done..|simpl; lia].
    + intros f π j [<- <-]%lookup_singleton_Some _ Hj. by rewrite Htz.
  - intros v. unfold page_entry, leaf, path_of. simpl. rewrite Htz by (by apply pml_idx_range). done.
Qed.

(** The tables a new pagemap shares with the kernel's: those below the upper
    half of its root. *)
Definition shared (owner : gmap Z (list Z)) : gmap Z (list Z) :=
  filter (λ fp, 256 ≤ default 0 (head fp.2)) owner.

Lemma shared_lookup owner f π :
  shared owner !! f = Some π ↔
  owner !! f = Some π ∧ 256 ≤ default 0 (head π).
Proof. unfold shared. by rewrite map_lookup_filter_Some. Qed.

(** A state whose memory has the kernel's tree untouched and, in [p], a copy of
    the upper half of its root. *)
Record forked (owner : gmap Z (list Z)) (s : S) (kroot p : Z) (s' : S) : Prop := {
  fk_wf : pt_wf owner s' kroot;
  fk_new : owner !! p = None;
  fk_page : pa_pool s' p ∧ p ∉ pa_free s';
  fk_same : ∀ f π j, owner !! f = Some π → 0 ≤ j < 512 →
    tbl (pa_ram s') f j = tbl (pa_ram s) f j;
  fk_root : ∀ j, 0 ≤ j < 512 →
    tbl (pa_ram s') p j = if j <? 256 then 0 else tbl (pa_ram s) kroot j;
}.

Lemma walk_same owner s root m' g ρ q :
  pt_wf owner s root → owner !! g = Some ρ → (length ρ + length q ≤ 3)%nat →
  Forall (λ i, 0 ≤ i < 512) q →
  (∀ f π j, owner !! f = Some π → 0 ≤ j < 512 → tbl m' f j = tbl (pa_ram s) f j) →
  walk m' g q = walk (pa_ram s) g q.
Proof.
  intros Hwf. revert g ρ. induction q as [|j q IH]; intros g ρ Hg Hl HF Hs; [done|].
  inv HF. simpl in *. rewrite (Hs g ρ j) by done. destruct (present _) eqn:E; [|done].
  apply (IH _ (ρ ++ [j])); try done; [|rewrite length_app; simpl; lia].
  eapply wf_link; eauto. lia.
Qed.

Lemma leaf_same owner s root m' path j :
  pt_wf owner s root → length path = 3%nat → Forall (λ i, 0 ≤ i < 512) path → 0 ≤ j < 512 →
  (∀ f π j, owner !! f = Some π → 0 ≤ j < 512 → tbl m' f j = tbl (pa_ram s) f j) →
  leaf m' root path j = leaf (pa_ram s) root path j.
Proof.
  intros Hwf Hl HF Hj Hs. unfold leaf.
  rewrite (walk_same owner s root m' root []); [|done|apply Hwf|simpl; lia|done|done].
  destruct (walk _ _ _) as [g|] eqn:Hg; [|done]. apply (Hs g path); [|done].
  apply (walk_owner owner s root root [] path); [done|apply Hwf|simpl; lia|done|done].
Qed.

Lemma forked_wf owner s kroot p s' :
  forked owner s kroot p s' → pt_wf (<[p := []]> (shared owner)) s' p.
Proof.
  intros [Wf New [Pool Nf] Same Root]. constructor; [apply Wf|by simplify_map_eq| |].
  - intros f π [[<- <-]|[_ [Hf _]%shared_lookup]]%lookup_insert_Some; [split_and!; [done..|simpl; lia]|].
    by apply (wf_frame _ _ _ Wf).
  - intros f π i [[<- <-]|[Hne [Hf Hh]%shared_lookup]]%lookup_insert_Some Hl Hi Hp.
    + rewrite Root in * by done. destruct (Z.ltb_spec i 256); [done|].
      rewrite <- (Same _ [] i) in * by (done || apply Wf).
      pose proof (wf_link _ _ _ Wf kroot [] i (wf_root _ _ _ Wf) Hl Hi Hp) as Hlink.
      rewrite lookup_insert_ne by congruence. by apply shared_lookup.
    + pose proof (wf_link _ _ _ Wf f π i Hf Hl Hi Hp) as Hlink.
      rewrite lookup_insert_ne by congruence. apply shared_lookup. split; [done|].
      by destruct π.
Qed.

Lemma forked_entry owner s kroot p s' v :
  pt_wf owner s kroot → forked owner s kroot p s' →
  page_entry s' kroot v = page_entry s kroot v ∧
  page_entry s' p v = if pml4_idx v <? 256 then 0 else page_entry s kroot v.
Proof.
  intros Hwf [Wf New [Pool Nf] Same Root].
  assert (page_entry s' kroot v = page_entry s kroot v) as Hk.
  { apply (leaf_same owner s); [done..|apply path_of_range|by apply pml_idx_range|done]. }
  split; [done|]. rewrite <- Hk. unfold page_entry, leaf, path_of. cbn [walk].
  pose proof (pml_idx_range 39 v ltac:(lia)). rewrite Root by done.
  destruct (pml4_idx v <? 256); [done|].
  by rewrite <- (Same _ [] (pml4_idx v)) by (done || apply Wf).
Qed.

(** The bytes [vmm_new_pagemap] leaves: the lower half of the page zero, the
    upper half copied, every other page as it was. *)
Lemma new_pagemap_bytes m p k a :
  page_ok hhdm_offset p → page_ok hhdm_offset k → p ≠ k →
  let m' := memcpy (memset m (hhdm_offset + p) 0 PAGE_SIZE) (hhdm_offset + p + 8 * 256)
                   (hhdm_offset + k + 8 * 256) (256 * 8) in
  load8 m' a =
  if (hhdm_offset + p <=? a) && (a <? hhdm_offset + p + PAGE_SIZE)
  then if a <? hhdm_offset + p + 2048 then 0 else load8 m (hhdm_offset + k + (a - (hhdm_offset + p)))
  else load8 m a.
Proof.
  intros (Hp & _) (Hk & _) Hne. cbv zeta. unfold PAGE_SIZE in *.
  apply Z.mod_divide in Hp as [i ->]; [|lia]. apply Z.mod_divide in Hk as [j ->]; [|lia].
  rewrite load8_memcpy, !load8_memset by lia.
  zcases; simpl; try lia; try done; f_equal; lia.
Qed.

Lemma new_pagemap_tbl m p k j :
  page_ok hhdm_offset p → page_ok hhdm_offset k → p ≠ k → 0 ≤ j < 512 →
  tbl (memcpy (memset m (hhdm_offset + p) 0 PAGE_SIZE) (hhdm_offset + p + 8 * 256)
              (hhdm_offset + k + 8 * 256) (256 * 8)) p j =
  if j <? 256 then 0 else tbl m k j.
Proof.
  intros Hp Hk Hne Hj. unfold tbl, entry_at. destruct (Z.ltb_spec j 256).
  - apply (load_le_zero 8). intros b Hb. rewrite new_pagemap_bytes by done.
    unfold PAGE_SIZE. zcases; simpl; lia.
  - apply load64_shift. intros i Hi. rewrite new_pagemap_bytes by done.
    unfold PAGE_SIZE. zcases; simpl; try lia. f_equal; lia.
Qed.

(** Writing to a page outside the tree. *)
Lemma write_page_wf owner s root p m' :
  pt_wf owner s root → pa_pool s p → owner !! p = None →
  (∀ a, ¬ page_byte hhdm_offset p a → load8 m' a = load8 (pa_ram s) a) →
  let s' := pa_with_ram s m' in
  pt_wf owner s' root ∧ pa_free s' = pa_free s ∧ (∀ q, pa_pool s' q ↔ pa_pool s q) ∧
  (∀ f π j, owner !! f = Some π → 0 ≤ j < 512 → tbl m' f j = tbl (pa_ram s) f j).
Proof.
  intros Hwf Hp Hn Ho s'. pose proof (wf_inv _ _ _ Hwf) as Hinv.
  destruct (pa_with_ram_inv s m' Hinv) as [Hinv' Hf'].
  { intros a Ha. apply Ho. intros Hb. by eapply (pa_pool_own s p a). }
  assert (∀ f π j, owner !! f = Some π → 0 ≤ j < 512 → tbl m' f j = tbl (pa_ram s) f j) as Ht.
  { intros f π j Hf Hj. apply tbl_ext; [done|]. intros a Ha. apply Ho. intros Hb.
    assert (f = p) as ->; [|congruence].
    eapply page_byte_inj; [eapply wf_page_ok; eauto|by eapply (pa_pool_ok s p)|done..]. }
  split_and!; [|done|intros; apply pa_pool_with_ram|done].
  constructor; [done|apply Hwf| |]; unfold s'.
  - intros f π Hf. rewrite pa_pool_with_ram, Hf'. by apply (wf_frame _ _ _ Hwf).
  - intros f π i Hf Hl Hi. rewrite pa_ram_with_ram, (Ht f π i) by done. by apply (wf_link _ _ _ Hwf).
Qed.

Lemma new_pagemap_forked owner g kroot p ps :
  pt_wf owner (alloc g) kroot → kernel_pagemap g = hhdm_offset + kroot →
  pa_free (alloc g) = p :: ps →
  ∃ g', vmm_new_pagemap hhdm_offset g = (hhdm_offset + p, g') ∧
    forked owner (alloc g) kroot p (alloc g') ∧ pa_free (alloc g') = ps ∧
    kernel_pagemap g' = kernel_pagemap g ∧ cr3 g' = cr3 g.
Proof.
  intros Hwf Hk Hfree. unfold vmm_new_pagemap.
  destruct (request_wf owner (alloc g) kroot p ps Hwf Hfree)
    as (s1 & -> & Hwf1 & Hf1 & Hpl1 & Hok & Hpp & Hnp & Hop & Hsame & Hz & Hout).
  pose proof (wf_page_ok _ _ _ _ _ Hwf (wf_root _ _ _ Hwf)) as Hkok.
  assert (p ≠ kroot) as Hpk by (intros ->; rewrite (wf_root _ _ _ Hwf) in Hop; done).
  pose proof pa_hhdm as Hh. rewrite HIGHER_HALF_page, Hk by done.
  rewrite (proj2 (Z.eqb_neq (hhdm_offset + p) 0)) by (destruct Hok; lia).
  rewrite (proj2 (Z.eqb_neq (hhdm_offset + kroot) 0)) by (destruct Hkok; lia). cbn [negb].
  eexists. split; [reflexivity|]. cbn [alloc set_alloc kernel_pagemap cr3]. rewrite pa_ram_with_ram.
  set (m1 := memset (pa_ram s1) _ _ _). set (m2 := memcpy m1 _ _ _).
  assert (∀ a, ¬ page_byte hhdm_offset p a → load8 m1 a = load8 (pa_ram s1) a) as Hm1.
  { intros a Ha. unfold page_byte, PAGE_SIZE in *. apply load8_memset_out; lia. }
  assert (∀ a, ¬ page_byte hhdm_offset p a → load8 m2 a = load8 m1 a) as Hm2.
  { intros a Ha. unfold page_byte, PAGE_SIZE in *. apply load8_memcpy_out; lia. }
  destruct (write_page_wf owner s1 kroot p m1 Hwf1 Hpp Hop Hm1) as (Hwf2 & Hf2 & Hpl2 & Ht2).
  destruct (write_page_wf owner (pa_with_ram s1 m1) kroot p m2 Hwf2) as (Hwf3 & Hf3 & Hpl3 & Ht3);
    [by apply Hpl2|done|by rewrite pa_ram_with_ram|].
  split_and!; [|by rewrite Hf3, Hf2|done|done].
  constructor; [done|done|split; [by apply Hpl3, Hpl2|by rewrite Hf3, Hf2, Hf1]| |];
    rewrite pa_ram_with_ram.
  - intros f π j Hf Hj. rewrite (Ht3 f π j), pa_ram_with_ram, (Ht2 f π j) by done.
    apply tbl_ext; [done|]. eauto.
  - intros j Hj. replace (tbl (pa_ram (alloc g)) kroot j) with (tbl (pa_ram s1) kroot j);
      [by apply new_pagemap_tbl|].
    apply tbl_ext; [done|]. intros a. apply (Hsame kroot []). apply Hwf.
Qed.
End tree.

(** ** Properties *)

Section properties.
Context (hhdm_offset : Z) {S : Type} `{LAWS : PageAllocLaws hhdm_offset S}.

Abbreviation V2P := (virt_to_phys hhdm_offset).

(** C1: On a well-formed page-table tree with three free pages, [vmm_map] makes
    [virt_to_phys] answer [phys] for the page of [virt] and what it answered
    before for every other page; the tree stays well formed, at most three
    pages are taken, and no byte outside the tables changes. *)
Theorem vmm_map_spec owner (s : S) root virt phys flags
  (Hwf : pt_wf hhdm_offset owner s root) (Hfree : (3 ≤ length (pa_free s))%nat)
  (Hphys : phys mod PAGE_SIZE = 0 ∧ 0 ≤ phys < 2 ^ 52)
  (Hflags : 0 ≤ flags < 2 ^ 64 ∧ Z.land flags ADDR_MASK = 0) :
  let s' := vmm_map hhdm_offset s (hhdm_offset + root) virt phys flags in
  (∀ v, V2P s' (hhdm_offset + root) v =
     if decide (same_page v virt) then phys else V2P s (hhdm_offset + root) v) ∧
  (∃ used, pa_free s = used ++ pa_free s' ∧ (length used ≤ 3)%nat) ∧
  (∃ owner', pt_wf hhdm_offset owner' s' root ∧ owner ⊆ owner' ∧
     ∀ a, (∀ h, h ∈ dom owner' → ¬ page_byte hhdm_offset h a) →
       load8 (pa_ram s') a = load8 (pa_ram s) a).
Proof.
  destruct Hphys as [Hm Hp]. destruct Hflags as [Hf Hl]. unfold PAGE_SIZE in Hm.
  destruct (vmm_map_grown hhdm_offset owner s root virt phys flags Hwf Hfree)
    as (o & W & O & U & _ & P & B & _); [apply lor_range; lia|].
  cbv zeta. split_and!; [|exact U|by exists o].
  intros v. rewrite (virt_to_phys_entry _ _ _ _ _ W), P, (virt_to_phys_entry _ _ _ _ _ Hwf).
  case_decide; [|done]. by apply land_ADDR_MASK_lor.
Qed.

(** C25: [vmm_unmap] makes [virt_to_phys] answer 0 for the page of [virt] and
    changes no other page; the tree stays well formed, and no table is freed,
    whatever levels were missing. *)
Theorem vmm_unmap_spec owner (s : S) root virt (Hwf : pt_wf hhdm_offset owner s root) :
  let s' := vmm_unmap hhdm_offset s (hhdm_offset + root) virt in
  (∀ v, V2P s' (hhdm_offset + root) v =
     if decide (same_page v virt) then 0 else V2P s (hhdm_offset + root) v) ∧
  pa_free s' = pa_free s ∧ pt_wf hhdm_offset owner s' root.
Proof.
  destruct (vmm_unmap_wf hhdm_offset owner s root virt Hwf) as (W & F & P).
  cbv zeta. split_and!; [|exact F|exact W].
  intros v. rewrite (virt_to_phys_entry _ _ _ _ _ W), P, (virt_to_phys_entry _ _ _ _ _ Hwf).
  by case_decide.
Qed.

#[export] Instance same_page_equiv : Equivalence same_page.
Proof.
  split; [intros v; by split|intros v w []; by split|].
  intros v w x [E1 E2] [E3 E4]. split; congruence.
Qed.

(** The page of [v], counted from the page [x]. *)
Lemma same_page_base x v : x mod PAGE_SIZE = 0 → same_page v (x + (v - x) / PAGE_SIZE * PAGE_SIZE).
Proof.
  unfold PAGE_SIZE. intros Hx. apply same_page_iff. apply Z.mod_divide in Hx as [q ->]; [|lia].
  f_equal. Z.to_euclidean_division_equations. lia.
Qed.

Lemma same_page_entry s root v v' : same_page v v' → page_entry hhdm_offset s root v = page_entry hhdm_offset s root v'.
Proof. intros [E1 E2]. unfold page_entry. by rewrite E1, E2. Qed.

Lemma same_page_near x i j :
  0 ≤ i < 2 ^ 36 → 0 ≤ j < 2 ^ 36 → x mod PAGE_SIZE = 0 →
  same_page (x + i * PAGE_SIZE) (x + j * PAGE_SIZE) → i = j.
Proof.
  unfold PAGE_SIZE. intros Hi Hj Hx. rewrite same_page_iff.
  apply Z.mod_divide in Hx as [q ->]; [|lia]. rewrite <- !Z.mul_add_distr_r, !Z.div_mul by lia.
  intros E. assert ((i - j) mod 2 ^ 36 = 0) as H0.
  { replace (i - j) with ((q + i) - (q + j)) by lia. rewrite Zminus_mod, E, Z.sub_diag. done. }
  apply Z.mod_divide in H0 as [k Hk]; [|lia]. nia.
Qed.

(** The section loops of [vmm_init]: with three free pages for each page of
    the section, every address of a section of at most 2^47 bytes gets the
    entry of its frame [v - __kernel_virt_base + __kernel_phys_base] with the
    section's flags, the addresses outside the section's pages keep theirs, and
    the loop ends. *)
Theorem map_section_spec owner (s : S) root l start end_ flags (fuel : nat)
  (Hwf : pt_wf hhdm_offset owner s root)
  (Hrange : kernel_virt_base l ≤ start ∧ 0 ≤ kernel_virt_base l ∧ start ≤ end_ ∧
            end_ - start ≤ 2 ^ 47 ∧ end_ + 2 * PAGE_SIZE < 2 ^ 64)
  (Hbase : kernel_virt_base l mod PAGE_SIZE = 0 ∧ 0 ≤ kernel_phys_base l ∧
           end_ - kernel_virt_base l + kernel_phys_base l + PAGE_SIZE < 2 ^ 52)
  (Hflags : 0 ≤ flags < 2 ^ 64)
  (Hfree : 3 * ((end_ - start) / PAGE_SIZE + 2) ≤ Z.of_nat (length (pa_free s)))
  (Hfuel : (end_ - start) / PAGE_SIZE + 2 ≤ Z.of_nat fuel) :
  ∃ s', map_section hhdm_offset fuel l (hhdm_offset + root) start end_ flags s = Ret tt s' ∧
    (∃ owner', pt_wf hhdm_offset owner' s' root ∧ owner ⊆ owner') ∧
    (∀ v, start ≤ v < end_ → page_entry hhdm_offset s' root v =
       Z.lor (v / PAGE_SIZE * PAGE_SIZE - kernel_virt_base l + kernel_phys_base l) flags) ∧
    (∀ v, end_ + PAGE_SIZE ≤ v < start + 2 ^ 47 →
       page_entry hhdm_offset s' root v = page_entry hhdm_offset s root v).
Proof.
  destruct Hrange as (R1 & R2 & R3 & R4 & R5). destruct Hbase as (B1 & B2 & B3).
  unfold map_section, PAGE_SIZE in *.
  rewrite ALIGN_DOWN_spec, ALIGN_UP_spec by lia.
  set (x := start / 4096 * 4096).
  set (n := Z.to_nat ((end_ + 4096 - 1) / 4096 - start / 4096)).
  assert ((end_ + 4096 - 1) / 4096 * 4096 = x + Z.of_nat n * 4096) as Hend.
  { unfold x, n. rewrite Z2Nat.id; [lia|]. Z.to_euclidean_division_equations. lia. }
  assert (Z.of_nat n ≤ (end_ - start) / 4096 + 2) as Hn.
  { unfold n. rewrite Z2Nat.id; Z.to_euclidean_division_equations; lia. }
  assert (x mod 4096 = 0) as Hx by (apply Z_mod_mult).
  assert (kernel_virt_base l ≤ x ≤ start ∧ start < x + 4096) as Hxs
    by (unfold x; Z.to_euclidean_division_equations; lia).
  assert (Z.of_nat n * 4096 ≤ end_ - x + 4096) as Hnlen
    by (enough ((end_ + 4096 - 1) / 4096 * 4096 ≤ end_ + 4096) by lia; Z.to_euclidean_division_equations; lia).
  assert (end_ ≤ x + Z.of_nat n * 4096) as Hcover
    by (rewrite <- Hend; Z.to_euclidean_division_equations; lia).
  rewrite Hend.
  assert (∀ k, (k < n)%nat → 0 ≤ x + Z.of_nat k * 4096 - kernel_virt_base l + kernel_phys_base l < 2 ^ 52) as Hph
    by (intros; lia).
  destruct (map_loop_range hhdm_offset owner s root x n (λ x, x)
    (λ x, u64 (x - kernel_virt_base l + kernel_phys_base l)) flags fuel) as (o & s' & Hrun & [W O U I Out B]);
    try (unfold PAGE_SIZE; lia); try done.
  { intros k Hk. apply lor_range; [lia| |done]. unfold PAGE_SIZE. rewrite u64_small; specialize (Hph k Hk); lia. }
  { intros j k Hjk Hs. apply same_page_near in Hs; [lia|lia|lia|done]. }
  exists s'. split_and!; [exact Hrun|by exists o| |].
  - intros v Hv. set (k := Z.to_nat ((v - x) / 4096)).
    assert (0 ≤ (v - x) / 4096) by (apply Z.div_pos; lia).
    assert (x + Z.of_nat k * 4096 = v / 4096 * 4096) as Hk.
    { unfold k. rewrite Z2Nat.id by lia. unfold x. clear. Z.to_euclidean_division_equations. lia. }
    assert ((k < n)%nat) as Hkn by (pose proof (Z.mul_div_le v 4096); lia).
    rewrite (same_page_entry s' root v (x + Z.of_nat k * 4096)).
    2:{ unfold k. rewrite Z2Nat.id by lia. by apply same_page_base. }
    specialize (I k Hkn). unfold PAGE_SIZE in I. rewrite I, u64_small by (specialize (Hph k Hkn); lia).
    by rewrite Hk.
  - intros v Hv. apply Out. intros (k & Hk & Hs).
    assert (0 ≤ (v - x) / 4096 < 2 ^ 36) by (clear -Hv Hxs R3; Z.to_euclidean_division_equations; lia).
    assert ((v - x) / 4096 = Z.of_nat k) as Hd.
    { apply (same_page_near x); [lia|lia|done|]. rewrite <- Hs. symmetry. by apply same_page_base. }
    clear -Hd Hk Hv Hnlen Hxs. Z.to_euclidean_division_equations. lia.
Qed.

(** A new pagemap shares the kernel's upper half and has nothing mapped in
    the lower half: it is a well-formed tree, one page is taken, the kernel's
    own tree and mappings are unchanged. *)
Theorem vmm_new_pagemap_spec owner (g : vmm) kroot p ps
  (Hwf : pt_wf hhdm_offset owner (alloc g) kroot)
  (Hk : kernel_pagemap g = hhdm_offset + kroot) (Hfree : pa_free (alloc g) = p :: ps) :
  ∃ g', vmm_new_pagemap hhdm_offset g = (hhdm_offset + p, g') ∧
    pa_free (alloc g') = ps ∧ kernel_pagemap g' = kernel_pagemap g ∧
    (∃ owner', pt_wf hhdm_offset owner' (alloc g') p) ∧ pt_wf hhdm_offset owner (alloc g') kroot ∧
    (∀ v, V2P (alloc g') (hhdm_offset + p) v =
       if pml4_idx v <? 256 then 0 else V2P (alloc g) (hhdm_offset + kroot) v) ∧
    (∀ v, V2P (alloc g') (hhdm_offset + kroot) v = V2P (alloc g) (hhdm_offset + kroot) v).
Proof.
  destruct (new_pagemap_forked hhdm_offset owner g kroot p ps Hwf Hk Hfree)
    as (g' & E & F & Hf & Hkp & _).
  pose proof (forked_wf _ _ _ _ _ _ F) as W. pose proof (fk_wf _ _ _ _ _ _ F) as Wk.
  exists g'. split_and!; [exact E|exact Hf|exact Hkp|by eexists|exact Wk| |];
    intros v; rewrite !(virt_to_phys_entry _ _ _ _ _ Hwf);
    destruct (forked_entry hhdm_offset owner (alloc g) kroot p (alloc g') v Hwf F) as [H1 H2].
  - rewrite (virt_to_phys_entry _ _ _ _ _ W), H2. by destruct (_ <? _).
  - by rewrite (virt_to_phys_entry _ _ _ _ _ Wk), H1.
Qed.

(** Running out of pages is not noticed: [pmm_request_page] returns NULL,
    [HIGHER_HALF] turns it into the address of frame 0, which is never NULL, so
    [vmm_new_pagemap] returns that address instead of NULL and clears the lower
    half of frame 0. *)
Theorem vmm_new_pagemap_out_of_memory (g : vmm)
  (Hinv : pa_inv (alloc g)) (Hfree : pa_free (alloc g) = []) (Hh : 0 < hhdm_offset < 2 ^ 64) :
  let '(pagemap, g') := vmm_new_pagemap hhdm_offset g in
  pagemap = hhdm_offset ∧ pagemap ≠ 0 ∧
  ∀ a, hhdm_offset ≤ a < hhdm_offset + 2048 → load8 (pa_ram (alloc g')) a = 0.
Proof.
  unfold vmm_new_pagemap. rewrite pa_request_empty by done.
  unfold HIGHER_HALF. rewrite Z.add_0_l, u64_small by lia.
  rewrite (proj2 (Z.eqb_neq hhdm_offset 0)) by lia.
  split_and!; [done|lia|]. intros a Ha. cbn [alloc set_alloc].
  destruct (negb _); rewrite !pa_ram_with_ram; [rewrite load8_memcpy_out by lia|];
    apply load8_memset_in; unfold PAGE_SIZE; lia.
Qed.

(** The same in [vmm_map]: with no free page, a missing table entry is
    filled with [NULL | 7], a present entry to frame 0, and the walk goes on in
    frame 0 as if it were a page table. *)
Theorem ensure_table_out_of_memory (s : S) table i
  (Hinv : pa_inv s) (Hfree : pa_free s = []) (Hh : 0 < hhdm_offset < 2 ^ 64)
  (Hmiss : present (entry_at (pa_ram s) table i) = false) :
  let '(s', next) := ensure_table hhdm_offset s table i in
  next = hhdm_offset ∧ entry_at (pa_ram s') table i = 7 ∧ pa_ram s' = store64 (pa_ram s) (table + 8 * i) 7.
Proof.
  unfold ensure_table. rewrite Hmiss. cbn [negb]. rewrite pa_request_empty by done.
  unfold set_entry, entry_at. rewrite pa_ram_with_ram. change (Z.lor 0 7) with 7.
  rewrite load64_store64_eq. change (u64 7) with 7.
  split_and!; [|done|done]. unfold next_table, HIGHER_HALF. change (Z.land 7 ADDR_MASK) with 0.
  rewrite Z.add_0_l, u64_small; lia.
Qed.
End properties.

(** *** Witnesses: a machine with fifteen free pages after [pmm_init] *)

Definition vm_memmap : list memmap_entry := [MemmapEntry 0x1000 0x10000 LIMINE_MEMMAP_USABLE].
Definition vm_pmm : pmm :=
  match pmm_init demo_hhdm (Some vm_memmap) (pmm_boot ∅) with Ret _ s => s | _ => pmm_boot ∅ end.

#[local] Instance vm_alloc : PageAlloc pmm := pmm_alloc demo_hhdm demo_beyond.
#[local] Instance vm_laws : PageAllocLaws demo_hhdm pmm := pmm_alloc_laws demo_hhdm demo_beyond ltac:(done).

Lemma vm_pmm_inv : pa_inv vm_pmm ∧
  pa_free vm_pmm = [0x10000; 0xf000; 0xe000; 0xd000; 0xc000; 0xb000; 0xa000; 0x9000; 0x8000; 0x7000;
                    0x6000; 0x5000; 0x4000; 0x3000; 0x2000].
Proof.
  destruct (pmm_init_spec_aux demo_hhdm ∅ vm_memmap) as (s' & H1 & H2 & H3 & _);
    [by vm_compute | | by vm_compute |].
  { split_and!; [|apply (bool_decide_unpack _); by vm_compute|by vm_compute].
    repeat constructor; intros; try discriminate; by vm_compute. }
  assert (pmm_init demo_hhdm (Some vm_memmap) (pmm_boot ∅) = Ret tt vm_pmm) as E by (by vm_compute).
  rewrite E in H1. apply Ret_inj in H1 as [_ <-]. split; [exact H2|].
  change (pa_free vm_pmm) with (reverse (free_stack vm_pmm)). vm_compute. reflexivity.
Qed.

(** The kernel's pagemap in the first page. *)
Lemma vm_root : ∃ s, pt_wf demo_hhdm {[0x10000 := []]} s 0x10000 ∧
  pa_free s = [0xf000; 0xe000; 0xd000; 0xc000; 0xb000; 0xa000; 0x9000; 0x8000; 0x7000;
               0x6000; 0x5000; 0x4000; 0x3000; 0x2000].
Proof.
  destruct vm_pmm_inv as [Hinv Hf].
  destruct (fresh_root demo_hhdm vm_pmm _ _ Hinv Hf) as (s & _ & W & F & _). exact (ex_intro _ s (conj W F)).
Qed.

Lemma vmm_map_spec_witness : ∃ s : pmm,
  virt_to_phys demo_hhdm (vmm_map demo_hhdm s (demo_hhdm + 0x10000) 0x400000 0x123000 7)
    (demo_hhdm + 0x10000) 0x400abc = 0x123000.
Proof.
  destruct vm_root as (s & W & F). exists s.
  destruct (vmm_map_spec demo_hhdm _ s 0x10000 0x400000 0x123000 7 W) as (H & _).
  - rewrite F. apply (Nat.leb_le 3 14). reflexivity.
  - by vm_compute.
  - by vm_compute.
  - rewrite H. by vm_compute.
Defined.

Lemma vmm_unmap_spec_witness : ∃ s : pmm,
  virt_to_phys demo_hhdm (vmm_unmap demo_hhdm s (demo_hhdm + 0x10000) 0x400000)
    (demo_hhdm + 0x10000) 0x400abc = 0.
Proof.
  destruct vm_root as (s & W & F). exists s.
  destruct (vmm_unmap_spec demo_hhdm _ s 0x10000 0x400000 W) as (H & _).
  rewrite H. by vm_compute.
Defined.

Definition vm_layout : layout :=
  Layout 0 0 0xffffffff80000000 0xffffffff80001800 0 0 0 0 0 0 0x100000 0xffffffff80000000.

Lemma map_section_spec_witness : ∃ s s' : pmm,
  map_section demo_hhdm 8 vm_layout (demo_hhdm + 0x10000) 0xffffffff80000000 0xffffffff80001800
    VMM_PRESENT s = Ret tt s' ∧
  page_entry demo_hhdm s' 0x10000 0xffffffff80001234 = 0x101001.
Proof.
  destruct vm_root as (s & W & F). exists s.
  destruct (map_section_spec demo_hhdm _ s 0x10000 vm_layout 0xffffffff80000000 0xffffffff80001800
              VMM_PRESENT 8 W) as (s' & H1 & _ & H2 & _).
  1,2,3: by vm_compute.
  - rewrite F. by vm_compute.
  - by vm_compute.
  - exists s'. split; [exact H1|]. rewrite H2; [reflexivity|lia].
Defined.

Lemma vmm_new_pagemap_spec_witness : ∃ (s : pmm) g',
  vmm_new_pagemap demo_hhdm (Vmm s (demo_hhdm + 0x10000) 0 0) = (demo_hhdm + 0xf000, g') ∧
  virt_to_phys demo_hhdm (alloc g') (demo_hhdm + 0xf000) 0x1000 = 0.
Proof.
  destruct vm_root as (s & W & F). exists s.
  destruct (vmm_new_pagemap_spec demo_hhdm _ (Vmm s (demo_hhdm + 0x10000) 0 0) 0x10000 _ _ W eq_refl F)
    as (g' & H1 & _ & _ & _ & _ & H2 & _).
  exists g'. split; [exact H1|]. rewrite H2. reflexivity.
Defined.

(** A machine whose only usable page holds the allocator's array. *)
Definition tiny_memmap : list memmap_entry := [MemmapEntry 0x1000 0x1000 LIMINE_MEMMAP_USABLE].
Definition tiny_pmm : pmm :=
  match pmm_init demo_hhdm (Some tiny_memmap) (pmm_boot ∅) with Ret _ s => s | _ => pmm_boot ∅ end.

Lemma tiny_pmm_inv : pa_inv tiny_pmm ∧ pa_free tiny_pmm = [].
Proof.
  destruct (pmm_init_spec_aux demo_hhdm ∅ tiny_memmap) as (s' & H1 & H2 & H3 & _);
    [by vm_compute | | by vm_compute |].
  { split_and!; [|apply (bool_decide_unpack _); by vm_compute|by vm_compute].
    repeat constructor; intros; try discriminate; by vm_compute. }
  assert (pmm_init demo_hhdm (Some tiny_memmap) (pmm_boot ∅) = Ret tt tiny_pmm) as E by (by vm_compute).
  rewrite E in H1. apply Ret_inj in H1 as [_ <-]. split; [exact H2|].
  change (reverse (free_stack tiny_pmm) = []). vm_compute. reflexivity.
Qed.

Lemma vmm_new_pagemap_out_of_memory_witness :
  fst (vmm_new_pagemap demo_hhdm (Vmm tiny_pmm 0 0 0)) = demo_hhdm.
Proof.
  pose proof (vmm_new_pagemap_out_of_memory demo_hhdm (Vmm tiny_pmm 0 0 0)
    (proj1 tiny_pmm_inv) (proj2 tiny_pmm_inv) ltac:(done)) as H.
  destruct (vmm_new_pagemap demo_hhdm (Vmm tiny_pmm 0 0 0)) as [q g']. exact (proj1 H).
Defined.

Lemma ensure_table_out_of_memory_witness :
  snd (ensure_table demo_hhdm tiny_pmm (demo_hhdm + 0x5000) 3) = demo_hhdm.
Proof.
  pose proof (ensure_table_out_of_memory demo_hhdm tiny_pmm (demo_hhdm + 0x5000) 3
    (proj1 tiny_pmm_inv) (proj2 tiny_pmm_inv) ltac:(done) ltac:(by vm_compute)) as H.
  destruct (ensure_table demo_hhdm tiny_pmm (demo_hhdm + 0x5000) 3) as [s' n]. exact (proj1 H).
Defined.
