(* ===== verification/Vma.v ===== *)
(** * Virtual memory areas

    [mm/vma.c]: a context has a pagemap and a list of regions; allocating finds
    the end of the list or a gap, and maps fresh pages there.  A context and a
    region each fill the start of a page frame, reached through the direct map;
    the fields are 64-bit words in memory. *)

From stdpp Require Import base gmap list.
From Stdlib Require Import ZArith Lia.
From S2P Require Import Prelude Ram PageAlloc Pmm Vmm.
#[local] Open Scope Z_scope.

(** [vma_region_t] and [vma_context_t] of [mm/vma.h]: the offsets of the fields. *)
Definition REGION_START : Z := 0.
Definition REGION_SIZE : Z := 8.
Definition REGION_FLAGS : Z := 16.
Definition REGION_NEXT : Z := 24.
Definition REGION_PREV : Z := 32.
Definition REGION_SIZEOF : Z := 40.
Definition CTX_PAGEMAP : Z := 0.
Definition CTX_ROOT : Z := 8.
Definition CTX_SIZEOF : Z := 16.

Section vma.
Context (hhdm_offset : Z) {S : Type} `{PageAlloc S}.

(** [p->field] and [p->field = v]; through NULL they are undefined. *)
Definition field (s : S) (p off : Z) : Z := load64 (pa_ram s) (p + off).
Definition kfield (p off : Z) : kernel S Z :=
  if p =? 0 then kfault else kget (λ s, field s p off).
Definition kset_field (p off v : Z) : kernel S unit :=
  if p =? 0 then kfault else kmod (λ s, pa_with_ram s (store64 (pa_ram s) (p + off) v)).

Definition krequest : kernel S Z := λ s, let '(p, s) := pmm_request s in Ret p s.
Definition krelease (p : Z) : kernel S unit := kmod (λ s, pmm_release s p).
Definition kzero (p n : Z) : kernel S unit := kmod (λ s, pa_with_ram s (memset (pa_ram s) p 0 n)).

Definition vma_create_context (pagemap : Z) : kernel S Z :=
  let* page := krequest in
  let ctx := HIGHER_HALF hhdm_offset page in
  if ctx =? 0 then kret 0 else
  kzero ctx CTX_SIZEOF ;;;
  let* page := krequest in
  let root := HIGHER_HALF hhdm_offset page in
  kset_field ctx CTX_ROOT root ;;;
  if root =? 0 then krelease (PHYSICAL hhdm_offset ctx) ;;; kret 0 else
  kset_field ctx CTX_PAGEMAP pagemap ;;;
  kset_field root REGION_START VMA_START ;;;
  kset_field root REGION_SIZE 0 ;;;
  kret ctx.

(** [while (region != NULL)] *)
Fixpoint release_regions (fuel : nat) (region : Z) : kernel S unit :=
  if region =? 0 then kret tt else
  match fuel with
  | O => knofuel
  | Datatypes.S f =>
      let* next := kfield region REGION_NEXT in
      krelease (PHYSICAL hhdm_offset region) ;;;
      release_regions f next
  end.

Definition vma_destroy_context (fuel : nat) (ctx : Z) : kernel S unit :=
  let* root := kfield ctx CTX_ROOT in
  let* pagemap := kfield ctx CTX_PAGEMAP in
  if (root =? 0) || (pagemap =? 0) then kret tt else
  release_regions fuel root ;;;
  krelease (PHYSICAL hhdm_offset ctx).

(** [for (i = 0; i < size; i++)], from [i] on: false when there is no page. *)
Fixpoint map_pages (n : nat) (i ctx region : Z) : kernel S bool :=
  match n with
  | O => kret true
  | Datatypes.S n =>
      let* page := krequest in
      if page =? 0 then kret false else
      let* pagemap := kfield ctx CTX_PAGEMAP in
      let* start := kfield region REGION_START in
      let* flags := kfield region REGION_FLAGS in
      kmod (λ s, vmm_map hhdm_offset s pagemap (u64 (start + i * PAGE_SIZE)) page flags) ;;;
      map_pages n (i + 1) ctx region
  end.

(** The new region after [region]. *)
Definition insert_region (ctx region size flags : Z) : kernel S Z :=
  let* page := krequest in
  let new_region := HIGHER_HALF hhdm_offset page in
  if new_region =? 0 then kret 0 else
  kzero new_region REGION_SIZEOF ;;;
  kset_field new_region REGION_SIZE size ;;;
  kset_field new_region REGION_FLAGS flags ;;;
  let* start := kfield region REGION_START in
  let* rsize := kfield region REGION_SIZE in
  kset_field new_region REGION_START (u64 (start + rsize)) ;;;
  let* next := kfield region REGION_NEXT in
  kset_field new_region REGION_NEXT next ;;;
  kset_field new_region REGION_PREV region ;;;
  kset_field region REGION_NEXT new_region ;;;
  let* ok := map_pages (Z.to_nat size) 0 ctx new_region in
  if negb ok then kret 0 else kfield new_region REGION_START.

(** The code after the loop. *)
Definition append_region (ctx last_region size flags : Z) : kernel S Z :=
  let* page := krequest in
  let new_region := HIGHER_HALF hhdm_offset page in
  if new_region =? 0 then kret 0 else
  kzero new_region REGION_SIZEOF ;;;
  kset_field last_region REGION_NEXT new_region ;;;
  kset_field new_region REGION_PREV last_region ;;;
  let* start := kfield last_region REGION_START in
  let* rsize := kfield last_region REGION_SIZE in
  kset_field new_region REGION_START (u64 (start + rsize)) ;;;
  kset_field new_region REGION_SIZE size ;;;
  kset_field new_region REGION_FLAGS flags ;;;
  kset_field new_region REGION_NEXT 0 ;;;
  let* ok := map_pages (Z.to_nat size) 0 ctx new_region in
  if negb ok then kret 0 else kfield new_region REGION_START.

Fixpoint alloc_loop (fuel : nat) (ctx root region size flags : Z) : kernel S Z :=
  if region =? 0 then append_region ctx root size flags else
  match fuel with
  | O => knofuel
  | Datatypes.S f =>
      let* next := kfield region REGION_NEXT in
      if next =? 0 then insert_region ctx region size flags else
      let* start := kfield region REGION_START in
      let* rsize := kfield region REGION_SIZE in
      let* nstart := kfield next REGION_START in
      if u64 (start + rsize) <? nstart then insert_region ctx region size flags
      else alloc_loop f ctx root next size flags
  end.

Definition vma_alloc (fuel : nat) (ctx size flags : Z) : kernel S Z :=
  if ctx =? 0 then kret 0 else
  let* root := kfield ctx CTX_ROOT in
  if root =? 0 then kret 0 else
  let* pagemap := kfield ctx CTX_PAGEMAP in
  if pagemap =? 0 then kret 0 else
  alloc_loop fuel ctx root root size flags.

(** The region that starts at [ptr]; 0 when there is none. *)
Fixpoint find_region (fuel : nat) (region ptr : Z) : kernel S Z :=
  if region =? 0 then kret 0 else
  match fuel with
  | O => knofuel
  | Datatypes.S f =>
      let* start := kfield region REGION_START in
      if start =? ptr then kret region else
      let* next := kfield region REGION_NEXT in
      find_region f next ptr
  end.

(** [for (i = 0; i < region->size; i++)], from [i] on, [n] rounds: the frame is
    looked up in the kernel's pagemap, the page unmapped in the context's. *)
Fixpoint unmap_pages (n : nat) (i kernel_pagemap ctx region : Z) : kernel S unit :=
  match n with
  | O => kret tt
  | Datatypes.S n =>
      let* start := kfield region REGION_START in
      let virt := u64 (start + i * PAGE_SIZE) in
      let* phys := kget (λ s, virt_to_phys hhdm_offset s kernel_pagemap virt) in
      (if phys =? 0 then kret tt else
       krelease phys ;;;
       let* pagemap := kfield ctx CTX_PAGEMAP in
       kmod (λ s, vmm_unmap hhdm_offset s pagemap virt)) ;;;
      unmap_pages n (i + 1) kernel_pagemap ctx region
  end.

Definition vma_free (fuel : nat) (kernel_pagemap ctx ptr : Z) : kernel S unit :=
  if ctx =? 0 then kret tt else
  let* root := kfield ctx CTX_ROOT in
  let* region := find_region fuel root ptr in
  if region =? 0 then kret tt else
  let* prev := kfield region REGION_PREV in
  let* next := kfield region REGION_NEXT in
  let* size := kfield region REGION_SIZE in
  unmap_pages (Z.to_nat size) 0 kernel_pagemap ctx region ;;;
  (if prev =? 0 then kret tt else kset_field prev REGION_NEXT next) ;;;
  (if next =? 0 then kret tt else kset_field next REGION_PREV prev) ;;;
  let* root := kfield ctx CTX_ROOT in
  (if region =? root then kset_field ctx CTX_ROOT next else kret tt) ;;;
  krelease (PHYSICAL hhdm_offset region).
End vma.

(** ** Mapping the pages of a region *)

Section facts.
Context (hhdm_offset : Z) {S : Type} `{LAWS : PageAllocLaws hhdm_offset S}.
Implicit Types s : S.

Abbreviation HH f := (hhdm_offset + f).

(** A frame that is in use, and not as a page table. *)
Record kept (owner : gmap Z (list Z)) (s : S) (f : Z) : Prop := {
  kept_pool : pa_pool s f;
  kept_used : f ∉ pa_free s;
  kept_owner : owner !! f = None;
}.

Lemma same_page_shift x i j :
  0 ≤ i < 2 ^ 36 → 0 ≤ j < 2 ^ 36 → same_page (x + i * PAGE_SIZE) (x + j * PAGE_SIZE) → i = j.
Proof.
  unfold PAGE_SIZE. intros Hi Hj. rewrite same_page_iff, !Z.div_add by lia. intros Heq.
  assert ((i - j) mod 2 ^ 36 = 0) as H0.
  { replace (i - j) with ((x / 4096 + i) - (x / 4096 + j)) by lia. rewrite Zminus_mod, Heq, Z.sub_diag. done. }
  apply Z.mod_divide in H0 as [k Hk]; [|lia]. nia.
Qed.

Lemma field_ext s s' f off :
  0 ≤ off ≤ 4088 → (∀ a, page_byte hhdm_offset f a → load8 (pa_ram s') a = load8 (pa_ram s) a) →
  field s' (HH f) off = field s (HH f) off.
Proof.
  intros Ho Ha. apply load64_ext. intros b Hb. apply Ha. unfold page_byte, PAGE_SIZE. lia.
Qed.

Lemma kfield_run s f off : page_ok hhdm_offset f → kfield (HH f) off s = Ret (field s (HH f) off) s.
Proof.
  intros (_ & Hf & _). pose proof pa_hhdm. unfold kfield. by rewrite (proj2 (Z.eqb_neq (HH f) 0)) by lia.
Qed.

(** The state after mapping [pages] from the [i]th page after [x] on. *)
Record mapped (owner : gmap Z (list Z)) (s : S) (root x fl i : Z) (pages : list Z)
    (owner' : gmap Z (list Z)) (s' : S) : Prop := {
  mp_wf : pt_wf hhdm_offset owner' s' root;
  mp_used : ∃ used, pa_free s = used ++ pa_free s' ∧ (length used ≤ 4 * length pages)%nat;
  mp_nodup : NoDup pages;
  mp_pages : ∀ p, p ∈ pages → p ∈ pa_free s ∧ p ∉ pa_free s';
  mp_in : ∀ k p, pages !! k = Some p →
    page_entry hhdm_offset s' root (x + (i + Z.of_nat k) * PAGE_SIZE) = Z.lor p fl;
  mp_out : ∀ v, (∀ k, (k < length pages)%nat → ¬ same_page v (x + (i + Z.of_nat k) * PAGE_SIZE)) →
    page_entry hhdm_offset s' root v = page_entry hhdm_offset s root v;
  mp_pool : ∀ p, pa_pool s' p ↔ pa_pool s p;
  mp_new : ∀ h, h ∈ dom owner' → h ∈ dom owner ∨ h ∈ pa_free s;
  mp_bytes : ∀ f a, kept owner s f → page_byte hhdm_offset f a → load8 (pa_ram s') a = load8 (pa_ram s) a;
}.

Lemma mapped_kept owner s root x fl i pages owner' s' f :
  mapped owner s root x fl i pages owner' s' → kept owner s f → kept owner' s' f.
Proof.
  intros [_ (used & Hu & _) _ _ _ _ Hpool Hnew _] [Hp Hf Ho]. constructor.
  - by apply Hpool.
  - intros Hin. apply Hf. rewrite Hu. apply elem_of_app. by right.
  - apply not_elem_of_dom. intros [Hd|Hd]%Hnew; [by apply not_elem_of_dom in Ho|done].
Qed.

(** One page: request it, then map it. *)
Lemma map_page_step owner s root x fl i p ps :
  pt_wf hhdm_offset owner s root → pa_free s = p :: ps → (3 ≤ length ps)%nat → 0 ≤ fl < 2 ^ 64 →
  ∃ s1 owner' , pmm_request s = (p, s1) ∧ page_ok hhdm_offset p ∧
    (∀ f a, kept owner s f → page_byte hhdm_offset f a → load8 (pa_ram s1) a = load8 (pa_ram s) a) ∧
    mapped owner s root x fl i [p] owner' (vmm_map hhdm_offset s1 (HH root) (x + i * PAGE_SIZE) p fl).
Proof.
  intros Hwf Hfree Hlen Hfl.
  destruct (request_wf hhdm_offset owner s root p ps Hwf Hfree)
    as (s1 & Hreq & Hwf1 & Hf1 & Hpl1 & Hok & Hpp & Hnp & Hop & Hsame & Hz & Hout).
  assert (∀ f a, kept owner s f → page_byte hhdm_offset f a → ¬ page_byte hhdm_offset p a) as Hdisj.
  { intros f a [Hfp Hff _] Ha Hpa. apply Hff. rewrite Hfree.
    assert (f = p) as ->; [|by left]. eapply page_byte_inj; [|apply Hok|exact Ha|exact Hpa].
    by apply (pa_pool_ok s f (wf_inv _ _ _ _ Hwf)). }
  destruct (vmm_map_grown hhdm_offset owner s1 root (x + i * PAGE_SIZE) p fl)
    as (o & W & O & (u & Hu & Hul) & Pl & Pe & B & N); [done|by rewrite Hf1| |].
  { destruct Hok as (_ & ? & ? & _). unfold PAGE_SIZE in *. apply lor_range; lia. }
  set (s2 := vmm_map _ _ _ _ _ _) in *. exists s1, o. rewrite Hf1 in Hu, N.
  assert (∀ v, page_entry hhdm_offset s1 root v = page_entry hhdm_offset s root v) as Hentry.
  { intros v. unfold page_entry. eapply leaf_ext; [exact Hwf|exact Hsame|done|apply path_of_range|by apply pml_idx_range]. }
  split_and!; [done|done|by intros f a Hk Ha; apply Hout; eapply Hdisj|]. constructor; [done| | | | | | | |].
  - exists (p :: u). rewrite Hfree, Hu. split; [done|simpl; lia].
  - apply NoDup_singleton.
  - intros q ->%list_elem_of_singleton. rewrite Hfree. split; [by left|]. intros Hin. apply Hnp. rewrite Hu.
    apply elem_of_app. by right.
  - intros [|k] q; [|done]. intros [= <-]. rewrite Z.add_0_r, Pe, decide_True; [done|]. by split.
  - intros v Hv. rewrite Pe, decide_False; [done|]. specialize (Hv 0%nat). rewrite Z.add_0_r in Hv. apply Hv. simpl. lia.
  - intros q. rewrite <- Hpl1. apply Pl.
  - intros h [Hh|Hh]%N; [by left|right]. rewrite Hfree. by right.
  - intros f a Hk Ha. rewrite B; [apply Hout; by eapply Hdisj|]. intros h Hh Hha.
    assert (f = h) as <-.
    { eapply page_byte_inj; [| |exact Ha|exact Hha]; [apply (pa_pool_ok s f (wf_inv _ _ _ _ Hwf)), Hk|].
      apply elem_of_dom in Hh as [π Hπ]. by eapply wf_page_ok. }
    destruct Hk as [_ Hkf Hko]. apply N in Hh as [Hh|Hh]; [by apply not_elem_of_dom in Hko|].
    apply Hkf. rewrite Hfree. by right.
Qed.

Lemma mapped_cons owner s root x fl i p pages o1 s1 o2 s2 :
  mapped owner s root x fl i [p] o1 s1 → mapped o1 s1 root x fl (i + 1) pages o2 s2 →
  0 ≤ i → i + 1 + Z.of_nat (length pages) < 2 ^ 36 →
  mapped owner s root x fl i (p :: pages) o2 s2.
Proof.
  intros M1 M2 Hi Hn. pose proof (λ f, mapped_kept owner s root x fl i [p] o1 s1 f M1) as Hkept.
  destruct M1 as [W1 (u1 & U1 & L1) D1 P1 I1 O1 Pl1 N1 B1], M2 as [W2 (u2 & U2 & L2) D2 P2 I2 O2 Pl2 N2 B2].
  assert (∀ k : nat, i + 1 + Z.of_nat k = i + Z.of_nat (Datatypes.S k)) as Hstep by lia.
  assert (p ∈ pa_free s ∧ p ∉ pa_free s1) as [Hp Hp1] by (apply P1; by left).
  constructor; [done| | | | | | | |].
  - exists (u1 ++ u2). rewrite U1, U2, app_assoc, length_app. simpl in *. split; [done|lia].
  - apply NoDup_cons. split; [|done]. by intros [? _]%P2.
  - intros q [->|[Hq Hq2]%P2]%elem_of_cons.
    + split; [done|]. intros Hin. apply Hp1. rewrite U2. apply elem_of_app. by right.
    + split; [|done]. rewrite U1. apply elem_of_app. by right.
  - intros [|k] q Hq; simpl in Hq.
    + rewrite O2; [by apply I1|]. intros k Hk. rewrite Hstep. intros ?%same_page_shift; lia.
    + rewrite <- Hstep. by apply I2.
  - intros v Hv. rewrite O2, O1; [done| |].
    + intros k Hk. simpl in Hk. apply Hv. simpl. lia.
    + intros k Hk. rewrite Hstep. apply Hv. simpl. lia.
  - intros q. by rewrite Pl2.
  - intros h [Hh|Hh]%N2; [by apply N1|right]. rewrite U1. apply elem_of_app. by right.
  - intros f a Hk Ha. rewrite (B2 f a (Hkept f Hk) Ha). by apply (B1 f).
Qed.

Lemma map_pages_run n i owner s root c r x fl :
  pt_wf hhdm_offset owner s root → kept owner s c → kept owner s r →
  field s (HH c) CTX_PAGEMAP = HH root → field s (HH r) REGION_START = x → field s (HH r) REGION_FLAGS = fl →
  0 ≤ i → i + Z.of_nat n < 2 ^ 36 → x + (i + Z.of_nat n) * PAGE_SIZE < 2 ^ 64 → (4 * n ≤ length (pa_free s))%nat →
  ∃ pages owner' s', map_pages hhdm_offset n i (HH c) (HH r) s = Ret true s' ∧ length pages = n ∧
    mapped owner s root x fl i pages owner' s'.
Proof.
  revert i owner s. induction n as [|n IH]; intros i owner s Hwf Hc Hr Fp Fs Ff Hi Hn Hx Hfree.
  { exists [], owner, s. split_and!; [done|done|]. constructor; try done; [by exists []|constructor|set_solver|by left]. }
  destruct (pa_free s) as [|p ps] eqn:Ef; [simpl in Hfree; lia|]. simpl in Hfree.
  assert (0 ≤ fl < 2 ^ 64) as Hfl by (rewrite <- Ff; apply load64_range).
  assert (0 ≤ x) as Hx0 by (rewrite <- Fs; apply load64_range).
  destruct (map_page_step owner s root x fl i p ps Hwf Ef ltac:(lia) Hfl) as (s1 & o & Hreq & Hok & Hsame & Hm).
  assert (page_ok hhdm_offset c ∧ page_ok hhdm_offset r) as [Okc Okr].
  { split; (apply (pa_pool_ok s _ (wf_inv _ _ _ _ Hwf)); by eapply kept_pool). }
  cbn [map_pages]. rewrite (kbind_run krequest _ s p s1) by (unfold krequest; by rewrite Hreq).
  rewrite (proj2 (Z.eqb_neq p 0)) by (destruct Hok; lia).
  rewrite (kbind_run _ _ _ _ _ (kfield_run s1 c CTX_PAGEMAP Okc)), (kbind_run _ _ _ _ _ (kfield_run s1 r REGION_START Okr)),
    (kbind_run _ _ _ _ _ (kfield_run s1 r REGION_FLAGS Okr)), (kbind_run (kmod _) _ _ tt _ eq_refl).
  rewrite (field_ext s s1 c), (field_ext s s1 r REGION_START), (field_ext s s1 r REGION_FLAGS), Fp, Fs, Ff
    by (done || (intros a; by apply Hsame)).
  rewrite u64_small by (unfold PAGE_SIZE in *; lia). set (s2 := vmm_map _ _ _ _ _ _) in *.
  pose proof (mapped_kept _ _ _ _ _ _ _ _ _ c Hm Hc) as Hc2. pose proof (mapped_kept _ _ _ _ _ _ _ _ _ r Hm Hr) as Hr2.
  destruct (IH (i + 1) o s2) as (pages & o' & s' & Hrun & Hl & Hm'); try done.
  - apply Hm.
  - rewrite (field_ext s s2 c); [done|done|]. intros a. by apply (mp_bytes _ _ _ _ _ _ _ _ _ Hm).
  - rewrite (field_ext s s2 r); [done|done|]. intros a. by apply (mp_bytes _ _ _ _ _ _ _ _ _ Hm).
  - rewrite (field_ext s s2 r); [done|done|]. intros a. by apply (mp_bytes _ _ _ _ _ _ _ _ _ Hm).
  - lia.
  - lia.
  - unfold PAGE_SIZE in *. lia.
  - destruct (mp_used _ _ _ _ _ _ _ _ _ Hm) as (u & Hu & Hul). rewrite Ef in Hu. simpl in Hul.
    apply (f_equal length) in Hu. rewrite length_app in Hu. simpl in Hu. lia.
  - exists (p :: pages), o', s'. split_and!; [done|simpl; lia|]. eapply mapped_cons; try done. lia.
Qed.

(** ** Writing the fields of a region *)

Definition wr s (f off v : Z) : S := pa_with_ram s (store64 (pa_ram s) (HH f + off) v).
Definition zeroed s (f n : Z) : S := pa_with_ram s (memset (pa_ram s) (HH f) 0 n).

Lemma kset_field_run s f off v : page_ok hhdm_offset f → kset_field (HH f) off v s = Ret tt (wr s f off v).
Proof.
  intros (_ & Hf & _). pose proof pa_hhdm. unfold kset_field. by rewrite (proj2 (Z.eqb_neq (HH f) 0)) by lia.
Qed.

(** A field of a struct: an aligned word of the frame. *)
Definition is_field (off : Z) : Prop := 0 ≤ off ≤ 4088 ∧ off mod 8 = 0.

Lemma field_wr s f off v f' off' :
  page_ok hhdm_offset f → page_ok hhdm_offset f' → is_field off → is_field off' →
  field (wr s f off v) (HH f') off' = if decide ((f, off) = (f', off')) then u64 v else field s (HH f') off'.
Proof.
  intros (Hf & _) (Hf' & _) [Ho Hm] [Ho' Hm']. unfold field, wr, PAGE_SIZE in *. rewrite pa_ram_with_ram.
  destruct (decide ((f, off) = (f', off'))) as [[= -> ->]|Hne]; [apply load64_store64_eq|].
  apply load64_store64_ne. apply Z.mod_divide in Hf as [i ->], Hf' as [j ->], Hm as [k ->], Hm' as [l ->]; try done.
  destruct (decide (i = j)) as [->|Hij]; [|lia]. destruct (decide (k = l)) as [->|]; [done|lia].
Qed.

Lemma field_zeroed s f n f' off' :
  page_ok hhdm_offset f → page_ok hhdm_offset f' → 0 ≤ n ≤ 4096 → is_field off' →
  f ≠ f' ∨ off' + 8 ≤ n →
  field (zeroed s f n) (HH f') off' = if decide (f = f') then 0 else field s (HH f') off'.
Proof.
  intros (Hf & _) (Hf' & _) Hn [Ho Hm] Hd. unfold field, zeroed, PAGE_SIZE in *. rewrite pa_ram_with_ram.
  destruct (decide (f = f')) as [->|Hne].
  - destruct Hd as [?|Hd]; [done|]. apply load64_memset0_in; lia.
  - apply load64_memset_out; [lia|]. apply Z.mod_divide in Hf as [i ->], Hf' as [j ->]; try done. lia.
Qed.

(** [s'] differs from [s] only in frames outside the tables. *)
Record touched (owner : gmap Z (list Z)) s (root : Z) s' : Prop := {
  tc_wf : pt_wf hhdm_offset owner s' root;
  tc_free : pa_free s' = pa_free s;
  tc_pool : ∀ q, pa_pool s' q ↔ pa_pool s q;
  tc_entry : ∀ v, page_entry hhdm_offset s' root v = page_entry hhdm_offset s root v;
}.

Lemma touched_trans owner s1 root s2 s3 :
  touched owner s1 root s2 → touched owner s2 root s3 → touched owner s1 root s3.
Proof.
  intros [_ F1 P1 E1] [W2 F2 P2 E2]. constructor; [done|congruence|intros q; by rewrite P2|intros v; by rewrite E2].
Qed.

Lemma touched_kept owner s root s' f : touched owner s root s' → kept owner s f → kept owner s' f.
Proof. intros [_ F P _] [Hp Hf Ho]. constructor; [by apply P|by rewrite F|done]. Qed.

Lemma write_touched owner s root f m' :
  pt_wf hhdm_offset owner s root → kept owner s f →
  (∀ a, ¬ page_byte hhdm_offset f a → load8 m' a = load8 (pa_ram s) a) →
  touched owner s root (pa_with_ram s m').
Proof.
  intros Hwf [Hp Hf Ho] Hm. destruct (write_page_wf hhdm_offset owner s root f m' Hwf Hp Ho Hm) as (W & F & P & T).
  constructor; try done. intros v. unfold page_entry. rewrite pa_ram_with_ram.
  eapply leaf_ext; [exact Hwf| |done|apply path_of_range|by apply pml_idx_range].
  intros h π a Hh Ha. apply Hm. intros Hb. assert (h = f) as ->; [|congruence].
  eapply page_byte_inj; [by eapply wf_page_ok|by apply (pa_pool_ok s f (wf_inv _ _ _ _ Hwf))|done..].
Qed.

Lemma wr_touched owner s root f off v :
  pt_wf hhdm_offset owner s root → kept owner s f → is_field off → touched owner s root (wr s f off v).
Proof.
  intros Hwf Hk [Ho _]. eapply write_touched; [done..|]. intros a Ha. apply load8_store64_out.
  unfold page_byte, PAGE_SIZE in Ha. lia.
Qed.

Lemma zeroed_touched owner s root f n :
  pt_wf hhdm_offset owner s root → kept owner s f → 0 ≤ n ≤ 4096 → touched owner s root (zeroed s f n).
Proof.
  intros Hwf Hk Hn. eapply write_touched; [done..|]. intros a Ha. apply load8_memset_out;
    unfold page_byte, PAGE_SIZE in Ha; lia.
Qed.

Lemma touched_wr owner s root s' f off v :
  touched owner s root s' → kept owner s f → is_field off → touched owner s root (wr s' f off v).
Proof.
  intros T Hf Ho. eapply touched_trans; [done|]. apply wr_touched; [apply T| |done]. by eapply touched_kept.
Qed.

(** The memory after the new region in frame [q] has been filled in and linked
    after the region in frame [r]. *)
Definition linked s (q r size fl x nxt : Z) : S :=
  wr (wr (wr (wr (wr (wr (zeroed s q REGION_SIZEOF) q REGION_SIZE size) q REGION_FLAGS fl) q REGION_START x)
             q REGION_NEXT nxt) q REGION_PREV (HH r)) r REGION_NEXT (HH q).

Lemma linked_touched owner s root q r size fl x nxt :
  pt_wf hhdm_offset owner s root → kept owner s q → kept owner s r →
  touched owner s root (linked s q r size fl x nxt).
Proof.
  intros Hwf Hq Hr. unfold linked. do 6 (apply touched_wr; [|done|done]). by apply zeroed_touched.
Qed.

Lemma linked_field s q r size fl x nxt f off :
  page_ok hhdm_offset q → page_ok hhdm_offset r → page_ok hhdm_offset f → is_field off → q ≠ r →
  f ≠ q → (f, off) ≠ (r, REGION_NEXT) →
  field (linked s q r size fl x nxt) (HH f) off = field s (HH f) off.
Proof.
  intros Oq Or Of Ho Hqr Hfq Hne. unfold linked.
  rewrite field_wr, decide_False by (done || congruence).
  do 5 (rewrite field_wr, decide_False by (done || congruence)).
  rewrite field_zeroed by (done || (by left)). by rewrite decide_False.
Qed.

Lemma linked_new s q r size fl x nxt :
  page_ok hhdm_offset q → page_ok hhdm_offset r → q ≠ r →
  let s' := linked s q r size fl x nxt in
  field s' (HH q) REGION_START = u64 x ∧ field s' (HH q) REGION_SIZE = u64 size ∧
  field s' (HH q) REGION_FLAGS = u64 fl ∧ field s' (HH q) REGION_NEXT = u64 nxt ∧
  field s' (HH q) REGION_PREV = u64 (HH r) ∧ field s' (HH r) REGION_NEXT = u64 (HH q).
Proof.
  intros Oq Or Hqr s'. unfold s', linked.
  split_and!; repeat (rewrite field_wr by done; first [rewrite decide_True by done; reflexivity
                                                      |rewrite decide_False by (congruence || done)]).
Qed.

Lemma wr_bytes s f off v a :
  is_field off → ¬ page_byte hhdm_offset f a → load8 (pa_ram (wr s f off v)) a = load8 (pa_ram s) a.
Proof.
  intros [Ho _] Ha. unfold wr. rewrite pa_ram_with_ram. apply load8_store64_out. unfold page_byte, PAGE_SIZE in Ha. lia.
Qed.

Lemma zeroed_bytes s f n a :
  0 ≤ n ≤ 4096 → ¬ page_byte hhdm_offset f a → load8 (pa_ram (zeroed s f n)) a = load8 (pa_ram s) a.
Proof.
  intros Hn Ha. unfold zeroed. rewrite pa_ram_with_ram. apply load8_memset_out; unfold page_byte, PAGE_SIZE in Ha; lia.
Qed.

Lemma linked_bytes s q r size fl x nxt a :
  ¬ page_byte hhdm_offset q a → ¬ page_byte hhdm_offset r a →
  load8 (pa_ram (linked s q r size fl x nxt)) a = load8 (pa_ram s) a.
Proof. intros Hq Hr. unfold linked. rewrite !wr_bytes by done. by rewrite zeroed_bytes. Qed.

(** Two frames have no byte in common. *)
Lemma frames_apart owner s root f g a :
  pt_wf hhdm_offset owner s root → kept owner s f → page_ok hhdm_offset g → f ≠ g →
  page_byte hhdm_offset f a → ¬ page_byte hhdm_offset g a.
Proof.
  intros Hwf [Hp _ _] [Hg _] Hne Hf Hb. apply Hne. eapply page_byte_inj; [|exact Hg|done..].
  by apply (pa_pool_ok s f (wf_inv _ _ _ _ Hwf)).
Qed.

(** The state after a region of [size] pages has been allocated at [x] behind
    the region in frame [r]: the frame [q] holds the new region, [pages] are
    mapped, nothing else has changed. *)
Record inserted (owner : gmap Z (list Z)) s (root r size fl x nxt q : Z) (pages : list Z)
    (owner' : gmap Z (list Z)) s' : Prop := {
  in_wf : pt_wf hhdm_offset owner' s' root;
  in_length : length pages = Z.to_nat size;
  in_nodup : NoDup (q :: pages);
  in_taken : ∀ p, p ∈ q :: pages → p ∈ pa_free s ∧ p ∉ pa_free s';
  in_pages : ∀ k p, pages !! k = Some p →
    page_entry hhdm_offset s' root (x + Z.of_nat k * PAGE_SIZE) = Z.lor p fl;
  in_rest : ∀ v, (∀ k, (k < length pages)%nat → ¬ same_page v (x + Z.of_nat k * PAGE_SIZE)) →
    page_entry hhdm_offset s' root v = page_entry hhdm_offset s root v;
  in_region : field s' (HH q) REGION_START = x ∧ field s' (HH q) REGION_SIZE = size ∧
    field s' (HH q) REGION_FLAGS = fl ∧ field s' (HH q) REGION_NEXT = nxt ∧
    field s' (HH q) REGION_PREV = HH r ∧ field s' (HH r) REGION_NEXT = HH q;
  in_fields : ∀ f off, kept owner s f → is_field off → (f, off) ≠ (r, REGION_NEXT) →
    field s' (HH f) off = field s (HH f) off;
  in_kept : kept owner' s' q ∧ ∀ f, kept owner s f → kept owner' s' f;
  in_bytes : ∀ f a, kept owner s f → f ≠ r → page_byte hhdm_offset f a → load8 (pa_ram s') a = load8 (pa_ram s) a;
  in_used : (length (pa_free s) ≤ length (pa_free s') + 4 * length pages + 1)%nat;
}.

(** The reads and writes of [insert_region] up to the loop. *)
Lemma insert_region_prologue owner s root c r size fl q ps :
  pt_wf hhdm_offset owner s root → kept owner s r → pa_free s = q :: ps →
  let x := u64 (field s (HH r) REGION_START + field s (HH r) REGION_SIZE) in
  let nxt := field s (HH r) REGION_NEXT in
  ∃ s1, insert_region hhdm_offset c (HH r) size fl s =
      (let* ok := map_pages hhdm_offset (Z.to_nat size) 0 c (HH q) in
       if negb ok then kret 0 else kfield (HH q) REGION_START) (linked s1 q r size fl x nxt) ∧
    pt_wf hhdm_offset owner s1 root ∧ pa_free s1 = ps ∧ kept owner s1 q ∧ page_ok hhdm_offset q ∧ (q ∉ ps) ∧
    (∀ p, pa_pool s1 p ↔ pa_pool s p) ∧
    (∀ v, page_entry hhdm_offset s1 root v = page_entry hhdm_offset s root v) ∧
    (∀ f, kept owner s f → f ≠ q ∧ kept owner s1 f ∧ page_ok hhdm_offset f ∧
       (∀ off, is_field off → field s1 (HH f) off = field s (HH f) off) ∧
       ∀ a, page_byte hhdm_offset f a → load8 (pa_ram s1) a = load8 (pa_ram s) a).
Proof.
  intros Hwf Hr Hfree x nxt.
  destruct (request_wf hhdm_offset owner s root q ps Hwf Hfree)
    as (s1 & Hreq & Hwf1 & Hf1 & Hpl1 & Hok & Hpp & Hnp & Hop & Hsame & Hz & Hout).
  assert (∀ f, kept owner s f → f ≠ q ∧ kept owner s1 f ∧ page_ok hhdm_offset f ∧
       (∀ off, is_field off → field s1 (HH f) off = field s (HH f) off) ∧
       ∀ a, page_byte hhdm_offset f a → load8 (pa_ram s1) a = load8 (pa_ram s) a) as Hkept.
  { intros f [Hp Hf Ho]. pose proof (pa_pool_ok s f (wf_inv _ _ _ _ Hwf) Hp) as Hokf.
    assert (f ≠ q) as Hne by (intros ->; apply Hf; rewrite Hfree; by left).
    assert (∀ a, page_byte hhdm_offset f a → load8 (pa_ram s1) a = load8 (pa_ram s) a) as Hb.
    { intros a Ha. apply Hout. eapply frames_apart; [exact Hwf| |exact Hok|exact Hne|exact Ha]. by constructor. }
    split_and!; try done.
    - constructor; [by apply Hpl1| |done]. rewrite Hf1. intros Hin. apply Hf. rewrite Hfree. by right.
    - intros off [Ho' _]. by apply field_ext. }
  exists s1. split_and!; try done.
  - destruct (Hkept r Hr) as (Hne & _ & Okr & Hfr & _). pose proof pa_hhdm as Hh. unfold insert_region.
    rewrite (kbind_run krequest _ s q s1) by (unfold krequest; by rewrite Hreq). cbv zeta.
    rewrite HIGHER_HALF_page, (proj2 (Z.eqb_neq (HH q) 0)) by (done || (destruct Hok; lia)).
    rewrite (kbind_run (kzero _ _) _ s1 tt (zeroed s1 q REGION_SIZEOF)) by done.
    do 2 rewrite (kbind_run _ _ _ _ _ (kset_field_run _ q _ _ Hok)).
    do 2 rewrite (kbind_run _ _ _ _ _ (kfield_run _ r _ Okr)).
    rewrite (kbind_run _ _ _ _ _ (kset_field_run _ q _ _ Hok)), (kbind_run _ _ _ _ _ (kfield_run _ r _ Okr)).
    do 2 rewrite (kbind_run _ _ _ _ _ (kset_field_run _ q _ _ Hok)).
    rewrite (kbind_run _ _ _ _ _ (kset_field_run _ r _ _ Okr)).
    assert (∀ s' off, is_field off → field s' (HH r) off = field s (HH r) off →
       ∀ o v, is_field o → field (wr s' q o v) (HH r) off = field s (HH r) off) as Hskip.
    { intros s' off Ho He o v Ho'. rewrite field_wr, decide_False by (done || congruence). done. }
    assert (∀ off, is_field off → field (zeroed s1 q REGION_SIZEOF) (HH r) off = field s (HH r) off) as H0.
    { intros off Ho. rewrite field_zeroed, decide_False by (done || (left; congruence) || congruence). by apply Hfr. }
    set (s4 := wr (wr (zeroed s1 q REGION_SIZEOF) q REGION_SIZE size) q REGION_FLAGS fl).
    assert (∀ off, is_field off → field s4 (HH r) off = field s (HH r) off) as H4.
    { intros off Ho. apply Hskip; [done| |done]. apply Hskip; [done|by apply H0|done]. }
    rewrite (H4 REGION_START), (H4 REGION_SIZE) by done. fold x.
    rewrite (Hskip s4 REGION_NEXT ltac:(done) (H4 REGION_NEXT ltac:(done)) REGION_START x ltac:(done)). done.
  - constructor; [done|by rewrite Hf1|done].
  - intros v. unfold page_entry. eapply leaf_ext; [exact Hwf|exact Hsame|done|apply path_of_range|by apply pml_idx_range].
Qed.

Lemma insert_region_run owner s root c r size fl :
  pt_wf hhdm_offset owner s root → kept owner s c → kept owner s r → c ≠ r →
  field s (HH c) CTX_PAGEMAP = HH root → 0 ≤ size < 2 ^ 36 → 0 ≤ fl < 2 ^ 64 →
  let x := u64 (field s (HH r) REGION_START + field s (HH r) REGION_SIZE) in
  x + size * PAGE_SIZE < 2 ^ 64 → 4 * size < Z.of_nat (length (pa_free s)) →
  ∃ q pages owner' s', insert_region hhdm_offset (HH c) (HH r) size fl s = Ret x s' ∧
    inserted owner s root r size fl x (field s (HH r) REGION_NEXT) q pages owner' s'.
Proof.
  intros Hwf Hc Hr Hcr Fp Hsz Hfl x Hx Hlen. destruct (pa_free s) as [|q ps] eqn:Hfree; [simpl in Hlen; lia|].
  destruct (insert_region_prologue owner s root (HH c) r size fl q ps Hwf Hr Hfree)
    as (s1 & Hrun & Hwf1 & Hf1 & Hkq & Okq & Hqn & Hpool & Hent & Hkept).
  fold x in Hrun. set (nxt := field s (HH r) REGION_NEXT) in *. set (s2 := linked s1 q r size fl x nxt) in *.
  destruct (Hkept r Hr) as (Hrq & Hr1 & Okr & Hfr & _). destruct (Hkept c Hc) as (Hcq & Hc1 & Okc & Hfc & _).
  pose proof (linked_touched owner s1 root q r size fl x nxt Hwf1 Hkq Hr1) as T. fold s2 in T.
  pose proof (λ f, touched_kept owner s1 root s2 f T) as Hk2.
  assert (∀ f off, kept owner s f → is_field off → (f, off) ≠ (r, REGION_NEXT) →
    field s2 (HH f) off = field s (HH f) off) as Hfield.
  { intros f off Hf Ho Hne. destruct (Hkept f Hf) as (Hfq & _ & Okf & Hff & _).
    unfold s2. rewrite linked_field by (done || congruence). by apply Hff. }
  pose proof (linked_new s1 q r size fl x nxt Okq Okr ltac:(congruence)) as Hnew. fold s2 in Hnew.
  assert (0 ≤ x < 2 ^ 64) as Hxr by apply u64_range.
  assert (0 ≤ nxt < 2 ^ 64) as Hnr by apply load64_range.
  pose proof pa_hhdm as Hh0.
  assert (0 ≤ HH r < 2 ^ 64 ∧ 0 ≤ HH q < 2 ^ 64) as [Hrr Hqr].
  { destruct Okr as (_ & ? & _ & ?), Okq as (_ & ? & _ & ?). unfold PAGE_SIZE in *. lia. }
  rewrite (u64_small x), (u64_small size), (u64_small fl), (u64_small nxt), (u64_small (HH r)), (u64_small (HH q)) in Hnew by lia.
  destruct Hnew as (N1 & N2 & N3 & N4 & N5 & N6).
  destruct (map_pages_run (Z.to_nat size) 0 owner s2 root c q x fl) as (pages & o' & s' & Hmp & Hpl & Hm);
    try done; try (by apply Hk2); try lia; [apply T| | |].
  { rewrite Hfield; [done|done|done|congruence]. }
  { rewrite (tc_free _ _ _ _ T), Hf1. simpl in Hlen. lia. }
  exists q, pages, o', s'. rewrite Hrun, (kbind_run _ _ _ _ _ Hmp). cbn [negb].
  assert (∀ f off, kept owner s2 f → is_field off → field s' (HH f) off = field s2 (HH f) off) as Hlast.
  { intros f off Hf [Ho _]. apply field_ext; [done|]. intros a. by apply (mp_bytes _ _ _ _ _ _ _ _ _ Hm). }
  rewrite kfield_run, (Hlast q), N1 by (done || by apply Hk2).
  split; [done|]. pose proof (λ f, mapped_kept _ _ _ _ _ _ _ _ _ f Hm) as Hk3.
  destruct Hm as [W (u & Hu & Hul) D P I O Pl Nw B]. rewrite (tc_free _ _ _ _ T), Hf1 in Hu, P.
  constructor; try done.
  - apply NoDup_cons. split; [|done]. by intros [? _]%P.
  - intros p [->|[Hp Hp']%P]%elem_of_cons; rewrite Hfree.
    + split; [by left|]. intros Hin. apply Hqn. rewrite Hu. apply elem_of_app. by right.
    + split; [by right|done].
  - intros v Hv. rewrite O by done. by rewrite (tc_entry _ _ _ _ T), Hent.
  - rewrite !Hlast by (done || by apply Hk2). done.
  - intros f off Hf Ho Hne. rewrite Hlast; [by apply Hfield|by apply Hk2, Hkept|done].
  - split; [by apply Hk3, Hk2|]. intros f Hf. by apply Hk3, Hk2, Hkept.
  - intros f a Hf Hfr' Ha. destruct (Hkept f Hf) as (Hfq & Hf1' & _ & _ & Hb). rewrite (B f a) by (done || by apply Hk2).
    unfold s2. rewrite linked_bytes; [by apply Hb| |]; eapply (frames_apart owner s); done.
  - rewrite Hfree. apply (f_equal length) in Hu. rewrite length_app in Hu. simpl. lia.
Qed.

(** ** Contexts *)

(** A new context in frame [c]: only the empty root region, in frame [r]. *)
Record new_context (owner : gmap Z (list Z)) s (root c r : Z) : Prop := {
  nc_wf : pt_wf hhdm_offset owner s root;
  nc_ctx : kept owner s c;
  nc_root : kept owner s r;
  nc_ne : c ≠ r;
  nc_pagemap : field s (HH c) CTX_PAGEMAP = HH root;
  nc_list : field s (HH c) CTX_ROOT = HH r;
  nc_start : field s (HH r) REGION_START = VMA_START;
  nc_size : field s (HH r) REGION_SIZE = 0;
  nc_next : field s (HH r) REGION_NEXT = 0;
  nc_prev : field s (HH r) REGION_PREV = 0;
}.

(** A context with one allocation of [n] pages, in frame [r1]. *)
Record one_region (owner : gmap Z (list Z)) s (root c r r1 n : Z) : Prop := {
  or_wf : pt_wf hhdm_offset owner s root;
  or_ctx : kept owner s c;
  or_root : kept owner s r;
  or_region : kept owner s r1;
  or_ne : c ≠ r ∧ c ≠ r1 ∧ r ≠ r1;
  or_pagemap : field s (HH c) CTX_PAGEMAP = HH root;
  or_list : field s (HH c) CTX_ROOT = HH r;
  or_first : field s (HH r) REGION_START = VMA_START ∧ field s (HH r) REGION_SIZE = 0 ∧
    field s (HH r) REGION_NEXT = HH r1 ∧ field s (HH r) REGION_PREV = 0;
  or_second : field s (HH r1) REGION_START = VMA_START ∧ field s (HH r1) REGION_SIZE = n ∧
    field s (HH r1) REGION_NEXT = 0;
}.

Lemma kept_page_ok owner s root f : pt_wf hhdm_offset owner s root → kept owner s f → page_ok hhdm_offset f.
Proof. intros Hwf Hf. apply (pa_pool_ok s f (wf_inv _ _ _ _ Hwf)), Hf. Qed.

Lemma HH_nonzero f : page_ok hhdm_offset f → HH f ≠ 0.
Proof. intros (_ & ? & _). pose proof pa_hhdm. lia. Qed.

(** [vma_alloc] up to the search. *)
Lemma vma_alloc_run (fuel : nat) owner s root c r size fl :
  pt_wf hhdm_offset owner s root → kept owner s c → kept owner s r →
  field s (HH c) CTX_PAGEMAP = HH root → field s (HH c) CTX_ROOT = HH r →
  vma_alloc hhdm_offset fuel (HH c) size fl s = alloc_loop hhdm_offset fuel (HH c) (HH r) (HH r) size fl s.
Proof.
  intros Hwf Hc Hr Fp Fr. pose proof (kept_page_ok _ _ _ _ Hwf Hc) as Okc. pose proof (kept_page_ok _ _ _ _ Hwf Hr) as Okr.
  pose proof (wf_page_ok _ _ _ _ _ _ Hwf (wf_root _ _ _ _ Hwf)) as Ok. unfold vma_alloc.
  rewrite (proj2 (Z.eqb_neq _ _) (HH_nonzero c Okc)), (kbind_run _ _ _ _ _ (kfield_run s c CTX_ROOT Okc)), Fr.
  rewrite (proj2 (Z.eqb_neq _ _) (HH_nonzero r Okr)), (kbind_run _ _ _ _ _ (kfield_run s c CTX_PAGEMAP Okc)), Fp.
  by rewrite (proj2 (Z.eqb_neq _ _) (HH_nonzero root Ok)).
Qed.

(** One round of the search that ends at the last region. *)
Lemma alloc_loop_last (fuel : nat) s c r0 r size fl :
  page_ok hhdm_offset r → field s (HH r) REGION_NEXT = 0 →
  alloc_loop hhdm_offset (Datatypes.S fuel) c r0 (HH r) size fl s = insert_region hhdm_offset c (HH r) size fl s.
Proof.
  intros Ok Fn. cbn [alloc_loop]. rewrite (proj2 (Z.eqb_neq _ _) (HH_nonzero r Ok)).
  by rewrite (kbind_run _ _ _ _ _ (kfield_run s r REGION_NEXT Ok)), Fn.
Qed.

(** [vma_create_context] makes a new context from two free pages. *)
Lemma create_context_run owner s root c r ps :
  pt_wf hhdm_offset owner s root → pa_free s = c :: r :: ps →
  ∃ s', vma_create_context hhdm_offset (HH root) s = Ret (HH c) s' ∧ new_context owner s' root c r ∧ pa_free s' = ps ∧
    (∀ v, page_entry hhdm_offset s' root v = page_entry hhdm_offset s root v) ∧
    (∀ f, kept owner s f → f ≠ r ∧ kept owner s' f ∧
       ∀ a, page_byte hhdm_offset f a → load8 (pa_ram s') a = load8 (pa_ram s) a).
Proof.
  intros Hwf Hfree.
  destruct (request_wf hhdm_offset owner s root c _ Hwf Hfree)
    as (s1 & Hreq & Hwf1 & Hf1 & Hpl1 & Okc & Hpc & Hnc & Hoc & Hs1 & Hz1 & Hout1).
  assert (kept owner s1 c) as Hc1 by (constructor; [done|by rewrite Hf1|done]).
  pose proof (zeroed_touched owner s1 root c CTX_SIZEOF Hwf1 Hc1 ltac:(done)) as T1. set (s2 := zeroed s1 c CTX_SIZEOF) in *.
  destruct (request_wf hhdm_offset owner s2 root r ps (tc_wf _ _ _ _ T1)) as
    (s3 & Hreq3 & Hwf3 & Hf3 & Hpl3 & Okr & Hpr & Hnr & Hor & Hs3 & Hz3 & Hout3); [by rewrite (tc_free _ _ _ _ T1)|].
  assert (c ≠ r) as Hcr by (intros ->; apply Hnc; by left).
  assert (kept owner s3 c) as Hc3.
  { constructor; [by apply Hpl3, (tc_pool _ _ _ _ T1)| |done]. rewrite Hf3. intros ?. apply Hnc. by right. }
  assert (kept owner s3 r) as Hr3 by (constructor; [done|by rewrite Hf3|done]).
  assert (0 ≤ HH root < 2 ^ 64 ∧ 0 ≤ HH r < 2 ^ 64) as [Hroot Hrr].
  { pose proof (wf_page_ok _ _ _ _ _ _ Hwf (wf_root _ _ _ _ Hwf)) as (_ & ? & _ & ?). destruct Okr as (_ & ? & _ & ?).
    pose proof pa_hhdm. unfold PAGE_SIZE in *. lia. }
  set (s7 := wr (wr (wr (wr s3 c CTX_ROOT (HH r)) c CTX_PAGEMAP (HH root)) r REGION_START VMA_START) r REGION_SIZE 0).
  assert (touched owner s3 root s7) as T.
  { unfold s7. do 3 (apply touched_wr; [|done|done]). by apply wr_touched. }
  exists s7. split_and!.
  - unfold vma_create_context. rewrite (kbind_run krequest _ s c s1) by (unfold krequest; by rewrite Hreq). cbv zeta.
    pose proof pa_hhdm. rewrite HIGHER_HALF_page, (proj2 (Z.eqb_neq _ _) (HH_nonzero c Okc)) by done.
    rewrite (kbind_run (kzero _ _) _ s1 tt s2) by done.
    rewrite (kbind_run krequest _ s2 r s3) by (unfold krequest; by rewrite Hreq3).
    rewrite HIGHER_HALF_page, (kbind_run _ _ _ _ _ (kset_field_run _ c _ _ Okc)) by done.
    rewrite (proj2 (Z.eqb_neq _ _) (HH_nonzero r Okr)).
    rewrite (kbind_run _ _ _ _ _ (kset_field_run _ c _ _ Okc)), !(kbind_run _ _ _ _ _ (kset_field_run _ r _ _ Okr)). done.
  - assert (∀ off, is_field off → field s3 (HH r) off = 0) as Hzero.
    { intros off [Ho Hm]. unfold field. apply Z.mod_divide in Hm as [j ->]; [|lia].
      rewrite (Z.mul_comm j 8). apply (Hz3 j). lia. }
    constructor; try done; [apply T|by eapply touched_kept..| | | | | |]; unfold s7;
      repeat (rewrite field_wr by done; first [rewrite decide_True by done; rewrite u64_small by done; reflexivity
                                              |rewrite decide_False by (congruence || done)]); by apply Hzero.
  - by rewrite (tc_free _ _ _ _ T).
  - intros v. rewrite (tc_entry _ _ _ _ T).
    transitivity (page_entry hhdm_offset s2 root v).
    + unfold page_entry. eapply leaf_ext; [apply T1|exact Hs3|done|apply path_of_range|by apply pml_idx_range].
    + rewrite (tc_entry _ _ _ _ T1). unfold page_entry.
      eapply leaf_ext; [exact Hwf|exact Hs1|done|apply path_of_range|by apply pml_idx_range].
  - intros f Hf. destruct Hf as [Hp Hnf Ho].
    assert (f ≠ c ∧ f ≠ r) as [Hfc Hfr] by (rewrite Hfree in Hnf; split; intros ->; apply Hnf; [by left|right; by left]).
    split; [done|]. split.
    + eapply touched_kept; [exact T|]. constructor; [by apply Hpl3, (tc_pool _ _ _ _ T1), Hpl1| |done].
      rewrite Hf3. intros Hin. apply Hnf. rewrite Hfree. by do 2 right.
    + intros a Ha. assert (¬ page_byte hhdm_offset c a ∧ ¬ page_byte hhdm_offset r a) as [Hac Har].
      { split; eapply (frames_apart owner s); try done; by constructor. }
      unfold s7. rewrite !wr_bytes, Hout3 by done. unfold s2. rewrite zeroed_bytes by done. by apply Hout1.
Qed.

(** ** Properties *)

Lemma first_alloc (fuel : nat) owner s root c r size fl :
  new_context owner s root c r → (0 < fuel)%nat → 0 ≤ size < 2 ^ 36 →
  0 ≤ fl < 2 ^ 64 ∧ Z.land fl ADDR_MASK = 0 → 4 * size < Z.of_nat (length (pa_free s)) →
  ∃ q pages owner' s', vma_alloc hhdm_offset fuel (HH c) size fl s = Ret VMA_START s' ∧
    length pages = Z.to_nat size ∧ NoDup pages ∧ (∀ p, p ∈ pages → p ∈ pa_free s ∧ p ∉ pa_free s') ∧
    (∀ k p, pages !! k = Some p →
       page_entry hhdm_offset s' root (VMA_START + Z.of_nat k * PAGE_SIZE) = Z.lor p fl ∧
       virt_to_phys hhdm_offset s' (HH root) (VMA_START + Z.of_nat k * PAGE_SIZE) = p) ∧
    (∀ v, (∀ k, (k < length pages)%nat → ¬ same_page v (VMA_START + Z.of_nat k * PAGE_SIZE)) →
       virt_to_phys hhdm_offset s' (HH root) v = virt_to_phys hhdm_offset s (HH root) v) ∧
    one_region owner' s' root c r q size ∧
    (length (pa_free s) ≤ length (pa_free s') + 4 * length pages + 1)%nat ∧
    inserted owner s root r size fl VMA_START 0 q pages owner' s'.
Proof.
  intros Hctx Hfuel Hsize Hflags Hfree.
  destruct Hctx as [Hwf Hc Hr Hcr Fp Fl Fs Fz Fn Fv]. destruct Hflags as [Hfl Hmask].
  pose proof (kept_page_ok _ _ _ _ Hwf Hr) as Okr.
  destruct (insert_region_run owner s root c r size fl Hwf Hc Hr Hcr Fp Hsize Hfl) as (q & pages & o' & s' & Hrun & Hin).
  { rewrite Fs, Fz. change (u64 (VMA_START + 0)) with 4096. unfold PAGE_SIZE. lia. }
  { done. }
  rewrite Fs, Fz, Fn in *. change (u64 (VMA_START + 0)) with VMA_START in *.
  exists q, pages, o', s'. pose proof Hin as Hins. destruct Hin as [W L D T P R (G1 & G2 & G3 & G4 & G5 & G6) F [Kq K] _ U].
  apply NoDup_cons in D as [Dq D].
  split_and!; try done.
  - destruct fuel as [|fuel]; [lia|]. rewrite (vma_alloc_run _ owner s root c r) by done. by rewrite alloc_loop_last.
  - intros p Hp. apply T. by right.
  - intros k p Hk. rewrite (virt_to_phys_entry _ _ _ _ _ W), (P _ _ Hk). split; [done|].
    assert (p ∈ pa_free s) as Hp by (apply T; right; by eapply list_elem_of_lookup_2).
    destruct (pa_pool_ok s p (wf_inv _ _ _ _ Hwf) (pa_free_pool s p (wf_inv _ _ _ _ Hwf) Hp)) as (Hm & ? & ? & _).
    unfold PAGE_SIZE in *. apply land_ADDR_MASK_lor; [done|lia|done].
  - intros v Hv. by rewrite (virt_to_phys_entry _ _ _ _ _ W), (virt_to_phys_entry _ _ _ _ _ Hwf), R.
  - assert (q ∈ pa_free s) as Hq by (apply T; by left).
    assert (∀ f, kept owner s f → f ≠ q) as Hnq by (intros f Hf ->; by destruct Hf).
    constructor; try done; try (by apply K).
    + split_and!; [done|by apply Hnq|by apply Hnq].
    + rewrite F; [done|done|done|congruence].
    + rewrite F; [done|done|done|congruence].
    + split_and!; [rewrite F|rewrite F|exact G6|rewrite F]; try done; by intros [=].
Qed.

(** C26: The first allocation of a context.  With enough free pages, [vma_alloc]
    returns [VMA_START]; from there on, [size] consecutive pages of the
    context's address space are mapped, with the flags asked for, to distinct
    frames that were free and are no longer; every other page of the address
    space is as before; and the context then has one region of that size. *)
Theorem vma_alloc_maps (fuel : nat) owner s root c r size fl
  (Hctx : new_context owner s root c r) (Hfuel : (0 < fuel)%nat) (Hsize : 0 ≤ size < 2 ^ 36)
  (Hflags : 0 ≤ fl < 2 ^ 64 ∧ Z.land fl ADDR_MASK = 0) (Hfree : 4 * size < Z.of_nat (length (pa_free s))) :
  ∃ q pages owner' s', vma_alloc hhdm_offset fuel (HH c) size fl s = Ret VMA_START s' ∧
    length pages = Z.to_nat size ∧ NoDup pages ∧ (∀ p, p ∈ pages → p ∈ pa_free s ∧ p ∉ pa_free s') ∧
    (∀ k p, pages !! k = Some p →
       page_entry hhdm_offset s' root (VMA_START + Z.of_nat k * PAGE_SIZE) = Z.lor p fl ∧
       virt_to_phys hhdm_offset s' (HH root) (VMA_START + Z.of_nat k * PAGE_SIZE) = p) ∧
    (∀ v, (∀ k, (k < length pages)%nat → ¬ same_page v (VMA_START + Z.of_nat k * PAGE_SIZE)) →
       virt_to_phys hhdm_offset s' (HH root) v = virt_to_phys hhdm_offset s (HH root) v) ∧
    one_region owner' s' root c r q size.
Proof.
  destruct (first_alloc fuel owner s root c r size fl Hctx Hfuel Hsize Hflags Hfree)
    as (q & pages & o' & s' & H1 & H2 & H3 & H4 & H5 & H6 & H7 & _).
  by exists q, pages, o', s'.
Qed.

(** The second allocation of a context overlaps the first.  The size of a
    region counts pages, but the next region starts that many bytes after it:
    after an allocation of [n] pages (fewer than 4096), [vma_alloc] returns an
    address inside the first page, and the first page of the first region is
    mapped to another frame, one that was free until then. *)
Theorem vma_second_alloc_overlaps (fuel : nat) owner s root c r r1 n size fl
  (Hctx : one_region owner s root c r r1 n) (Hn : 0 < n < PAGE_SIZE) (Hfuel : (1 < fuel)%nat)
  (Hsize : 0 < size < 2 ^ 36) (Hflags : 0 ≤ fl < 2 ^ 64 ∧ Z.land fl ADDR_MASK = 0)
  (Hfree : 4 * size < Z.of_nat (length (pa_free s))) :
  ∃ p s', vma_alloc hhdm_offset fuel (HH c) size fl s = Ret (VMA_START + n) s' ∧
    same_page (VMA_START + n) VMA_START ∧ p ∈ pa_free s ∧
    virt_to_phys hhdm_offset s' (HH root) VMA_START = p.
Proof.
  destruct Hctx as [Hwf Hc Hr Hr1 (Hcr & Hcr1 & Hrr1) Fp Fl (A1 & A2 & A3 & _) (B1 & B2 & B3)]. destruct Hflags as [Hfl Hmask].
  pose proof (kept_page_ok _ _ _ _ Hwf Hr) as Okr. pose proof (kept_page_ok _ _ _ _ Hwf Hr1) as Okr1.
  assert (u64 (VMA_START + n) = VMA_START + n) as Hu by (apply u64_small; unfold VMA_START, PAGE_SIZE in *; lia).
  destruct (insert_region_run owner s root c r1 size fl Hwf Hc Hr1 Hcr1 Fp ltac:(lia) Hfl)
    as (q & pages & o' & s' & Hrun & Hin); [|done|].
  { rewrite B1, B2, Hu. unfold VMA_START, PAGE_SIZE in *. lia. }
  rewrite B1, B2, Hu in *. destruct Hin as [W L _ T P _ _ _ _ _].
  assert (same_page (VMA_START + n) VMA_START) as Hsp.
  { apply same_page_iff. unfold VMA_START, PAGE_SIZE in *. f_equal. Z.to_euclidean_division_equations. lia. }
  destruct (lookup_lt_is_Some_2 pages 0 ltac:(lia)) as [p Hp0].
  assert (p ∈ pa_free s) as Hp by (apply T; right; by eapply list_elem_of_lookup_2).
  exists p, s'. split_and!; try done.
  - destruct fuel as [|[|fuel]]; [lia|lia|]. rewrite (vma_alloc_run _ owner s root c r) by done.
    cbn [alloc_loop]. rewrite (proj2 (Z.eqb_neq _ _) (HH_nonzero r Okr)), (kbind_run _ _ _ _ _ (kfield_run s r REGION_NEXT Okr)), A3.
    rewrite (proj2 (Z.eqb_neq _ _) (HH_nonzero r1 Okr1)), !(kbind_run _ _ _ _ _ (kfield_run s r _ Okr)), A1, A2.
    rewrite (kbind_run _ _ _ _ _ (kfield_run s r1 REGION_START Okr1)), B1. change (u64 (VMA_START + 0) <? VMA_START) with false.
    cbv iota. by rewrite (kbind_run _ _ _ _ _ (kfield_run s r1 REGION_NEXT Okr1)), B3.
  - rewrite (virt_to_phys_entry _ _ _ _ _ W). destruct Hsp as [E1 E2].
    assert (page_entry hhdm_offset s' root VMA_START = Z.lor p fl) as ->.
    { rewrite <- (P 0%nat p Hp0), Z.mul_0_l, Z.add_0_r. unfold page_entry. by rewrite E1, E2. }
    destruct (pa_pool_ok s p (wf_inv _ _ _ _ Hwf) (pa_free_pool s p (wf_inv _ _ _ _ Hwf) Hp)) as (Hm & ? & ? & _).
    unfold PAGE_SIZE in *. apply land_ADDR_MASK_lor; [done|lia|done].
Qed.

(** Freeing the first allocation frees nothing of it.  The root region has
    the same start address and is found first: [vma_free] takes the root region
    out of the list and releases its frame, while every page of the allocation
    stays mapped and its region stays in the list. *)
Theorem vma_free_first_region (fuel : nat) owner s root c r r1 n kernel_pagemap
  (Hctx : one_region owner s root c r r1 n) (Hfuel : (0 < fuel)%nat) :
  ∃ s', vma_free hhdm_offset fuel kernel_pagemap (HH c) VMA_START s = Ret tt s' ∧
    pa_free s' = r :: pa_free s ∧
    (∀ v, virt_to_phys hhdm_offset s' (HH root) v = virt_to_phys hhdm_offset s (HH root) v) ∧
    field s' (HH c) CTX_ROOT = HH r1 ∧ field s' (HH r1) REGION_SIZE = n.
Proof.
  destruct Hctx as [Hwf Hc Hr Hr1 (Hcr & Hcr1 & Hrr1) Fp Fl (A1 & A2 & A3 & A4) (B1 & B2 & B3)].
  pose proof (kept_page_ok _ _ _ _ Hwf Hr) as Okr. pose proof (kept_page_ok _ _ _ _ Hwf Hr1) as Okr1.
  pose proof (kept_page_ok _ _ _ _ Hwf Hc) as Okc.
  set (s2 := wr (wr s r1 REGION_PREV 0) c CTX_ROOT (HH r1)).
  assert (touched owner s root s2) as T by (unfold s2; apply touched_wr; [by apply wr_touched|done|done]).
  assert (0 ≤ r < 2 ^ 64 ∧ u64 (HH r1) = HH r1) as [Hrr Hu1].
  { destruct Okr as (_ & ? & ? & _), Okr1 as (_ & ? & _ & ?). pose proof pa_hhdm. unfold PAGE_SIZE in *.
    split; [lia|apply u64_small; lia]. }
  destruct (touched_kept _ _ _ _ r T Hr) as [Hpl2 Hfr2 Ho2].
  destruct (pa_release_page s2 r (wf_inv _ _ _ _ (tc_wf _ _ _ _ T)) Hpl2 Hfr2) as (Hinv & Hfree & Hpool & _ & Hbytes).
  assert (∀ f a, kept owner s f ∨ is_Some (owner !! f) → page_byte hhdm_offset f a →
    load8 (pa_ram (pmm_release s2 r)) a = load8 (pa_ram s2) a) as Hsame.
  { intros f a Hf Ha. apply Hbytes. apply (pa_pool_own s2 f a (wf_inv _ _ _ _ (tc_wf _ _ _ _ T))); [|done].
    apply (tc_pool _ _ _ _ T). destruct Hf as [[]|[π Hπ]]; [done|]. by eapply wf_frame. }
  exists (pmm_release s2 r). split_and!.
  - unfold vma_free. rewrite (proj2 (Z.eqb_neq _ _) (HH_nonzero c Okc)), (kbind_run _ _ _ _ _ (kfield_run s c CTX_ROOT Okc)), Fl.
    destruct fuel as [|fuel]; [lia|].
    rewrite (kbind_run _ _ s (HH r) s).
    2: { cbn [find_region]. rewrite (proj2 (Z.eqb_neq _ _) (HH_nonzero r Okr)).
         by rewrite (kbind_run _ _ _ _ _ (kfield_run s r REGION_START Okr)), A1. }
    rewrite (proj2 (Z.eqb_neq _ _) (HH_nonzero r Okr)), !(kbind_run _ _ _ _ _ (kfield_run s r _ Okr)), A2, A3, A4.
    rewrite (kbind_run _ _ s tt s) by done. change (0 =? 0) with true. cbv iota. rewrite kbind_ret.
    rewrite (proj2 (Z.eqb_neq _ _) (HH_nonzero r1 Okr1)), (kbind_run _ _ _ _ _ (kset_field_run s r1 _ _ Okr1)).
    rewrite (kbind_run _ _ _ _ _ (kfield_run _ c CTX_ROOT Okc)), field_wr, decide_False, Fl, Z.eqb_refl by (done || congruence).
    rewrite (kbind_run _ _ _ _ _ (kset_field_run _ c _ _ Okc)).
    unfold krelease, kmod. do 2 f_equal. rewrite <- (HIGHER_HALF_page hhdm_offset r pa_hhdm Okr). by apply PHYSICAL_HIGHER_HALF.
  - by rewrite Hfree, (tc_free _ _ _ _ T).
  - assert (pt_wf hhdm_offset owner (pmm_release s2 r) root) as W.
    { destruct (tc_wf _ _ _ _ T) as [_ R F L]. constructor; [done|done| |].
      - intros f π Hf. destruct (F f π Hf) as (? & ? & ?). rewrite Hpool, Hfree. split_and!; [done| |done].
        intros [->|?]%elem_of_cons; [congruence|done].
      - intros f π i Hf Hl Hi. rewrite (tbl_ext _ (pa_ram s2)); [by apply L|done|].
        intros a. apply (Hsame f). right. by exists π. }
    intros v. rewrite (virt_to_phys_entry _ _ _ _ _ W), (virt_to_phys_entry _ _ _ _ _ Hwf), <- (tc_entry _ _ _ _ T).
    f_equal. unfold page_entry. eapply leaf_ext; [apply T| |done|apply path_of_range|by apply pml_idx_range].
    intros h π a Hh. apply Hsame. right. by exists π.
  - rewrite (field_ext s2); [|done|intros a; by apply Hsame; left]. unfold s2.
    by rewrite field_wr, decide_True, Hu1 by done.
  - rewrite (field_ext s2); [|done|intros a; by apply Hsame; left]. unfold s2.
    rewrite field_wr, decide_False by (done || congruence). rewrite field_wr, decide_False by (done || (by intros [=])). done.
Qed.
End facts.

(** *** Witnesses: the machine of fifteen free pages *)

#[local] Existing Instance vm_alloc.
#[local] Existing Instance vm_laws.

Lemma vm_context : ∃ s : pmm, new_context demo_hhdm {[0x10000 := []]} s 0x10000 0xf000 0xe000 ∧ length (pa_free s) = 12%nat.
Proof.
  destruct vm_root as (s & W & F).
  destruct (create_context_run demo_hhdm _ s 0x10000 _ _ _ W F) as (s' & _ & Hc & Hf & _).
  exists s'. split; [exact Hc|]. by rewrite Hf.
Qed.

Lemma vm_one_region : ∃ (s : pmm) owner q,
  one_region demo_hhdm owner s 0x10000 0xf000 0xe000 q 1 ∧ (7 ≤ length (pa_free s))%nat.
Proof.
  destruct vm_context as (s & Hc & Hl).
  destruct (first_alloc demo_hhdm 1 _ s _ _ _ 1 7 Hc) as (q & pages & o & s' & _ & Hp & _ & _ & _ & _ & Ho & Hu & _);
    [lia|lia|by vm_compute|rewrite Hl; lia|].
  exists s', o, q. split; [exact Ho|]. rewrite Hl, Hp in Hu. change (Z.to_nat 1) with 1%nat in Hu. lia.
Qed.

Lemma vma_alloc_maps_witness : ∃ s s' : pmm, vma_alloc demo_hhdm 1 (demo_hhdm + 0xf000) 2 7 s = Ret VMA_START s'.
Proof.
  destruct vm_context as (s & Hc & Hl). exists s.
  destruct (vma_alloc_maps demo_hhdm 1 _ s _ _ _ 2 7 Hc) as (q & pages & o & s' & Hrun & _);
    [lia|lia|by vm_compute|rewrite Hl; lia|].
  exists s'. exact Hrun.
Defined.

Lemma vma_second_alloc_overlaps_witness : ∃ s s' : pmm,
  vma_alloc demo_hhdm 2 (demo_hhdm + 0xf000) 1 7 s = Ret 4097 s'.
Proof.
  destruct vm_one_region as (s & o & q & Hc & Hl). exists s.
  destruct (vma_second_alloc_overlaps demo_hhdm 2 o s _ _ _ q 1 1 7 Hc) as (p & s' & Hrun & _);
    [by vm_compute|lia|lia|by vm_compute|lia|].
  exists s'. exact Hrun.
Defined.

Lemma vma_free_first_region_witness : ∃ s s' : pmm,
  vma_free demo_hhdm 1 (demo_hhdm + 0x10000) (demo_hhdm + 0xf000) VMA_START s = Ret tt s' ∧ pa_free s' = 0xe000 :: pa_free s.
Proof.
  destruct vm_one_region as (s & o & q & Hc & Hl). exists s.
  destruct (vma_free_first_region demo_hhdm 1 o s _ _ _ q 1 (demo_hhdm + 0x10000) Hc ltac:(lia)) as (s' & Hrun & Hf & _).
  exists s'. exact (conj Hrun Hf).
Defined.
