(* ===== verification/Elf.v ===== *)
(** * The program loader

    [proc/data/elf.c]: [elf_load_binary] reads the headers of an ELF file that
    is in memory at [data] and gives each loadable segment fresh pages, mapped
    with the segment's rights, cleared, and filled from the file.  It stands on
    the interface [PageAlloc] and on [vmm_map].

    [elf_load_spec] is the loader's contract: what a process sees at each address
    of a segment.  [segment_misplaced] is what happens to a segment that does not
    start at a page boundary and is longer than a page. *)

From stdpp Require Import base gmap list.
From Stdlib Require Import ZArith Lia.
From S2P Require Import Prelude Ram PageAlloc Pmm Vmm.
#[local] Open Scope Z_scope.

Definition ELF_MAGIC : Z := 0x464C457F.
Definition PT_LOAD : Z := 1.
Definition PF_X : Z := 0x1.
Definition PF_W : Z := 0x2.

(** The fields of the packed structs [elf_header_t] and [elf_pheader_t] that the
    loader reads. *)
Definition e_magic (m : mem) (h : Z) : Z := load32 m h.
Definition e_class (m : mem) (h : Z) : Z := load8 m (h + 4).
Definition e_type (m : mem) (h : Z) : Z := load16 m (h + 16).
Definition e_entry (m : mem) (h : Z) : Z := load64 m (h + 24).
Definition e_phoff (m : mem) (h : Z) : Z := load64 m (h + 32).
Definition e_phnum (m : mem) (h : Z) : Z := load16 m (h + 56).

Definition p_type (m : mem) (ph : Z) : Z := load32 m ph.
Definition p_flags (m : mem) (ph : Z) : Z := load32 m (ph + 4).
Definition p_offset (m : mem) (ph : Z) : Z := load64 m (ph + 8).
Definition p_vaddr (m : mem) (ph : Z) : Z := load64 m (ph + 16).
Definition p_filesz (m : mem) (ph : Z) : Z := load64 m (ph + 32).
Definition p_memsz (m : mem) (ph : Z) : Z := load64 m (ph + 40).
Definition PHEADER_SIZEOF : Z := 56.

Definition segment_flags (p_flags : Z) : Z :=
  let flags := VMM_PRESENT in
  let flags := if negb (Z.land p_flags PF_W =? 0) then Z.lor flags VMM_WRITE else flags in
  let flags := if Z.land p_flags PF_X =? 0 then Z.lor flags VMM_NX else flags in
  Z.lor flags VMM_USER.

Section elf.
Context (hhdm_offset : Z) {S : Type} `{PageAlloc S}.

(** One page of a segment, from [memset] on: cleared, then filled with the
    page's share of the file. *)
Definition fill_page (data ph vaddr_start offset page_offset vaddr phys : Z) (m : mem) : mem :=
  let m := memset m (HIGHER_HALF hhdm_offset phys) 0 PAGE_SIZE in
  let file_page_offset := u64 (offset + u64 (vaddr - vaddr_start)) in
  let file_data_end := u64 (offset + p_filesz m ph) in
  if file_page_offset <? file_data_end then
    let bytes_from_start := u64 (vaddr - vaddr_start) in
    let page_data_offset := if (bytes_from_start =? 0) && (0 <? page_offset) then page_offset else 0 in
    let copy_offset := file_page_offset in
    let copy_size := u64 (PAGE_SIZE - page_data_offset) in
    let copy_size :=
      if file_data_end <? u64 (copy_offset + copy_size) then u64 (file_data_end - copy_offset) else copy_size in
    if 0 <? copy_size then
      let dest := u64 (HIGHER_HALF hhdm_offset phys + page_data_offset) in
      memcpy m dest (u64 (data + copy_offset)) copy_size
    else m
  else m.

(** [for (vaddr = vaddr_start; vaddr < vaddr_end; vaddr += PAGE_SIZE)]; the
    result is false when there was no page left. *)
Fixpoint page_loop (fuel : nat) (data pagemap ph vaddr_start vaddr_end offset flags page_offset vaddr : Z) :
    kernel S bool :=
  λ s,
  if vaddr <? vaddr_end then
    match fuel with
    | O => NoFuel
    | Datatypes.S f =>
        let '(phys, s) := pmm_request s in
        if phys =? 0 then Ret false s else
        let s := vmm_map hhdm_offset s pagemap vaddr phys flags in
        let s := pa_with_ram s (fill_page data ph vaddr_start offset page_offset vaddr phys (pa_ram s)) in
        page_loop f data pagemap ph vaddr_start vaddr_end offset flags page_offset (u64 (vaddr + PAGE_SIZE)) s
    end
  else Ret true s.

(** The body of the loop over the program headers. *)
Definition load_segment (fuel : nat) (data pagemap ph : Z) : kernel S bool :=
  λ s,
  let m := pa_ram s in
  if negb (p_type m ph =? PT_LOAD) then Ret true s else
  let vaddr_start := ALIGN_DOWN (p_vaddr m ph) PAGE_SIZE in
  let vaddr_end := ALIGN_UP (u64 (p_vaddr m ph + p_memsz m ph)) PAGE_SIZE in
  let offset := p_offset m ph in
  let flags := segment_flags (p_flags m ph) in
  let page_offset := Z.land (p_vaddr m ph) (PAGE_SIZE - 1) in
  page_loop fuel data pagemap ph vaddr_start vaddr_end offset flags page_offset vaddr_start s.

(** [for (uint16_t i = 0; i < header->e_phnum; i++)] *)
Fixpoint segment_loop (fuel : nat) (data pagemap ph i : Z) : kernel S bool :=
  let* phnum := kget (λ s, e_phnum (pa_ram s) data) in
  if i <? phnum then
    match fuel with
    | O => knofuel
    | Datatypes.S f =>
        let* more := load_segment f data pagemap (u64 (ph + PHEADER_SIZEOF * i)) in
        if more then segment_loop f data pagemap ph (u16 (i + 1)) else kret false
    end
  else kret true.

Definition elf_load_binary (fuel : nat) (data pagemap : Z) : kernel S Z :=
  kassert (negb (data =? 0)) ;;;
  let* m := kget pa_ram in
  if negb (e_magic m data =? ELF_MAGIC) then kret 0 else
  if negb (e_class m data =? 2) then kret 0 else
  if negb (e_type m data =? 2) then kret 0 else
  let ph := u64 (data + e_phoff m data) in
  let* loaded := segment_loop fuel data pagemap ph 0 in
  if loaded then kget (λ s, e_entry (pa_ram s) data) else kret 0.
End elf.

(** ** Loading, step by step *)

(** The byte at distance [j] from the start of the page at distance [delta] from
    the start of the segment. *)
Definition page_content (file : Z → Z) (po offset filesz delta j : Z) : Z :=
  let pdo := if delta =? 0 then po else 0 in
  if (pdo <=? j) && (j <? pdo + Z.min (PAGE_SIZE - pdo) (filesz - delta)) then file (offset + delta + (j - pdo)) else 0.

(** A program header as a value. *)
Record segment := Segment {
  sg_type : Z; sg_flags : Z; sg_offset : Z; sg_vaddr : Z; sg_filesz : Z; sg_memsz : Z
}.

Definition segment_at (m : mem) (ph : Z) : segment :=
  Segment (p_type m ph) (p_flags m ph) (p_offset m ph) (p_vaddr m ph) (p_filesz m ph) (p_memsz m ph).

(** The program headers of the file at [data]. *)
Definition segments (m : mem) (data : Z) : list segment :=
  (λ i, segment_at m (data + e_phoff m data + PHEADER_SIZEOF * i)) <$> seqZ 0 (e_phnum m data).

Definition sg_start (g : segment) : Z := sg_vaddr g / PAGE_SIZE * PAGE_SIZE.

(** The pages a segment takes, and their number. *)
Definition sg_pages (g : segment) : nat :=
  if sg_type g =? PT_LOAD
  then Z.to_nat ((sg_vaddr g + sg_memsz g + PAGE_SIZE - 1) / PAGE_SIZE - sg_vaddr g / PAGE_SIZE) else 0.

Fixpoint total_pages (gs : list segment) : nat :=
  match gs with [] => 0 | g :: gs => sg_pages g + total_pages gs end.

(** What the loader puts at [v]. *)
Definition sg_content (file : Z → Z) (g : segment) (v : Z) : Z :=
  page_content file (sg_vaddr g mod PAGE_SIZE) (sg_offset g) (sg_filesz g)
    ((v - sg_start g) / PAGE_SIZE * PAGE_SIZE) (v mod PAGE_SIZE).

(** The segment's memory is in the lower half, its bytes are in the file. *)
Definition segment_fits (len : Z) (g : segment) : Prop :=
  sg_vaddr g + sg_memsz g ≤ 2 ^ 47 ∧ sg_offset g + sg_filesz g ≤ len.

Section load.
Context (hhdm_offset : Z) {S : Type} `{LAWS : PageAllocLaws hhdm_offset S}.
Context (root : Z).
Implicit Types s : S.

(** The frames a process has been given. *)
Definition frames (owner : gmap Z (list Z)) s (F : gset Z) : Prop :=
  ∀ f, f ∈ F → pa_pool s f ∧ (f ∉ pa_free s) ∧ owner !! f = None.

(** The byte is in none of the pages of the allocator. *)
Definition outside s (a : Z) : Prop := ∀ p, pa_pool s p → ¬ page_byte hhdm_offset p a.

(** From [s] to [s'] the loader has taken at most [n] pages, changed the entries
    of the pages [ch], and changed no byte of the frames in [F] and none outside
    the allocator's pages. *)
Record loaded (n : nat) (ch : Z → Prop) (owner : gmap Z (list Z)) s (F : gset Z)
    (owner' : gmap Z (list Z)) s' (F' : gset Z) : Prop := {
  ld_wf : pt_wf hhdm_offset owner' s' root;
  ld_frames : frames owner' s' F';
  ld_sub : F ⊆ F';
  ld_used : ∃ used, pa_free s = used ++ pa_free s' ∧ (length used ≤ n)%nat;
  ld_pool : ∀ p, pa_pool s' p ↔ pa_pool s p;
  ld_entry : ∀ v, ¬ ch v → page_entry hhdm_offset s' root v = page_entry hhdm_offset s root v;
  ld_keep : ∀ f a, f ∈ F → page_byte hhdm_offset f a → load8 (pa_ram s') a = load8 (pa_ram s) a;
  ld_out : ∀ a, outside s a → load8 (pa_ram s') a = load8 (pa_ram s) a;
}.

(** The process sees the byte [b] at [v], in a page with these rights. *)
Definition view s (F : gset Z) (v b flags : Z) : Prop :=
  ∃ f, f ∈ F ∧ page_entry hhdm_offset s root v = Z.lor f flags ∧
    load8 (pa_ram s) (hhdm_offset + f + v mod PAGE_SIZE) = b.

Lemma loaded_refl owner s F : pt_wf hhdm_offset owner s root → frames owner s F → loaded 0 (λ _, False) owner s F owner s F.
Proof. intros Hwf HF. split; try done. by exists []. Qed.

Lemma loaded_weaken n n' (ch ch' : Z → Prop) owner s F owner' s' F' :
  loaded n ch owner s F owner' s' F' → (n ≤ n')%nat → (∀ v, ch v → ch' v) → loaded n' ch' owner s F owner' s' F'.
Proof.
  intros [L1 L2 L3 (u & L4 & L4') L5 L6 L7 L8] Hn Hch. split; try done; [|by auto].
  exists u. split; [done|lia].
Qed.

Lemma loaded_trans n1 n2 (ch1 ch2 : Z → Prop) o1 s1 F1 o2 s2 F2 o3 s3 F3 :
  loaded n1 ch1 o1 s1 F1 o2 s2 F2 → loaded n2 ch2 o2 s2 F2 o3 s3 F3 →
  loaded (n1 + n2) (λ v, ch1 v ∨ ch2 v) o1 s1 F1 o3 s3 F3.
Proof.
  intros [A1 A2 A3 (u1 & A4 & A4') A5 A6 A7 A8] [B1 B2 B3 (u2 & B4 & B4') B5 B6 B7 B8]. split; try done.
  - set_solver.
  - exists (u1 ++ u2). rewrite A4, B4, app_assoc, length_app. split; [done|lia].
  - intros p. by rewrite B5, A5.
  - intros v Hv. rewrite B6, A6; [done|tauto..].
  - intros f a Hf Ha. rewrite (B7 f a), (A7 f a); [done..|set_solver|done].
  - intros a Ha. rewrite B8, A8; [done..|]. intros p Hp. by apply Ha, A5.
Qed.

Lemma loaded_view n ch owner s F owner' s' F' v b flags :
  loaded n ch owner s F owner' s' F' → ¬ ch v → view s F v b flags → view s' F' v b flags.
Proof.
  intros L Hv (f & Hf & He & Hb). exists f. split_and!; [by apply (ld_sub _ _ _ _ _ _ _ _ L)|by rewrite (ld_entry _ _ _ _ _ _ _ _ L)|].
  rewrite (ld_keep _ _ _ _ _ _ _ _ L f); [done|done|]. unfold page_byte, PAGE_SIZE. pose proof (Z.mod_pos_bound v 4096). lia.
Qed.

(** *** One page *)

Lemma fill_page_bytes data ph vstart offset po vaddr p filesz m a :
  0 ≤ hhdm_offset → page_ok hhdm_offset p → 0 ≤ po < PAGE_SIZE → 0 ≤ vstart ≤ vaddr → vaddr < 2 ^ 64 →
  0 ≤ offset → 0 ≤ filesz → offset + filesz + PAGE_SIZE < 2 ^ 64 → vaddr - vstart < 2 ^ 48 →
  0 ≤ data → data + offset + filesz < 2 ^ 64 →
  offset + (vaddr - vstart) < 2 ^ 64 →
  p_filesz m ph = filesz →
  (∀ b, page_byte hhdm_offset p b → ¬ (ph + 32 ≤ b < ph + 40)) →
  (∀ b, page_byte hhdm_offset p b → ¬ (data + offset ≤ b < data + offset + filesz)) →
  load8 (fill_page hhdm_offset data ph vstart offset po vaddr p m) a =
  if (hhdm_offset + p <=? a) && (a <? hhdm_offset + p + PAGE_SIZE)
  then page_content (λ x, load8 m (data + x)) po offset filesz (vaddr - vstart) (a - (hhdm_offset + p))
  else load8 m a.
Proof.
  intros Hh Hp Hpo Hv Hv' Ho Hfs Hof Hd Hda Hdf Hov Hph Hnph Hnf. unfold fill_page. rewrite HIGHER_HALF_page by done.
  destruct Hp as (_ & Hp0 & Hp1 & Hp2). set (m1 := memset _ _ _ _).
  assert (∀ b, load8 m1 b = if (hhdm_offset + p <=? b) && (b <? hhdm_offset + p + PAGE_SIZE) then 0 else load8 m b) as Hm1.
  { intros b. unfold m1. rewrite load8_memset by (unfold PAGE_SIZE; lia). done. }
  assert (∀ b, ¬ page_byte hhdm_offset p b → load8 m1 b = load8 m b) as Hm1o.
  { intros b Hb. rewrite Hm1. unfold page_byte in Hb. zcases; simpl; try done; lia. }
  assert (p_filesz m1 ph = filesz) as ->.
  { rewrite <- Hph. unfold p_filesz. apply load_le_ext. intros b Hb. apply Hm1o. intros Hpb. apply (Hnph b Hpb). lia. }
  unfold page_content. set (delta := vaddr - vstart) in *. unfold PAGE_SIZE in *.
  rewrite (u64_small delta), (u64_small (offset + delta)), (u64_small (offset + filesz)) by lia.
  destruct (Z.ltb_spec (offset + delta) (offset + filesz)) as [Hlt|Hge].
  2: { rewrite Hm1. destruct (delta =? 0); zcases; simpl; try done; lia. }
  set (pdo := if delta =? 0 then po else 0).
  assert ((if (delta =? 0) && (0 <? po) then po else 0) = pdo) as -> by (unfold pdo; zcases; simpl; lia).
  assert (0 ≤ pdo < 4096) as Hpdo by (unfold pdo; destruct (delta =? 0); lia).
  rewrite (u64_small (4096 - pdo)), (u64_small (offset + delta + (4096 - pdo))), (u64_small (offset + filesz - _)),
    (u64_small (hhdm_offset + p + pdo)), (u64_small (data + (offset + delta))) by lia.
  assert ((if offset + filesz <? offset + delta + (4096 - pdo) then offset + filesz - (offset + delta) else 4096 - pdo)
    = Z.min (4096 - pdo) (filesz - delta)) as -> by (zcases; lia).
  rewrite (proj2 (Z.ltb_lt 0 _)) by lia.
  set (n := Z.min _ _). assert (0 < n ≤ 4096 - pdo) as Hn by lia.
  rewrite load8_memcpy; [|lia|].
  2: { destruct (decide (hhdm_offset + p + pdo ≤ data + (offset + delta))); [by left|right].
       assert (¬ (data + offset ≤ hhdm_offset + p + pdo < data + offset + filesz)); [apply Hnf; unfold page_byte, PAGE_SIZE|]; lia. }
  destruct ((hhdm_offset + p + pdo <=? a) && (a <? hhdm_offset + p + pdo + n)) eqn:Ein.
  - apply andb_true_iff in Ein as [E1%Z.leb_le E2%Z.ltb_lt]. rewrite Hm1o.
    + zcases; simpl; try lia. f_equal. lia.
    + intros Hb. apply (Hnf _ Hb). lia.
  - rewrite Hm1. zcases; simpl in *; try done; try lia.
Qed.

(** The file lies outside the pages of the allocator, and its bytes keep their
    values while the loader works. *)
Definition file_ok s (data len : Z) : Prop :=
  0 < data ∧ 0 ≤ len ≤ 2 ^ 47 ∧ data + len < 2 ^ 64 ∧ ∀ a, data ≤ a < data + len → outside s a.

Lemma loaded_file n ch owner s F owner' s' F' data len :
  loaded n ch owner s F owner' s' F' → file_ok s data len →
  file_ok s' data len ∧ ∀ a, data ≤ a < data + len → load8 (pa_ram s') a = load8 (pa_ram s) a.
Proof.
  intros L (H1 & H2 & H3 & H4). split; [split_and!; try done; try lia|].
  - intros a Ha p Hp. apply (H4 a Ha). by apply (ld_pool _ _ _ _ _ _ _ _ L).
  - intros a Ha. by apply (ld_out _ _ _ _ _ _ _ _ L), H4.
Qed.

(** A page is requested and mapped: the frame, the tables, and what has not
    changed. *)
Lemma request_map owner s F vaddr flags p ps :
  pt_wf hhdm_offset owner s root → frames owner s F → pa_free s = p :: ps → (3 ≤ length ps)%nat → 0 ≤ flags < 2 ^ 64 →
  ∃ s1 owner', pmm_request s = (p, s1) ∧ page_ok hhdm_offset p ∧
    let s2 := vmm_map hhdm_offset s1 (hhdm_offset + root) vaddr p flags in
    loaded 4 (λ v, same_page v vaddr) owner s F owner' s2 ({[p]} ∪ F) ∧ (p ∉ F) ∧
    (∀ v, same_page v vaddr → page_entry hhdm_offset s2 root v = Z.lor p flags).
Proof.
  intros Hwf HF Hfree Hps Hfl.
  destruct (request_wf hhdm_offset owner s root p ps Hwf Hfree)
    as (s1 & Hr & Hwf1 & Hf1 & Hpool1 & Hpok & Hpp & Hpn & Hop & Hb1 & _ & Hout1).
  destruct (vmm_map_grown hhdm_offset owner s1 root vaddr p flags Hwf1)
    as (o & W & O & (u & U & Ul) & P & En & B & Nw); [by rewrite Hf1|apply lor_range; destruct Hpok as (_ & ? & ? & _); unfold PAGE_SIZE in *; lia|].
  set (s2 := vmm_map hhdm_offset s1 _ _ _ _) in *.
  assert (p ∉ F) as HpF by (intros Hin; apply (HF p Hin); rewrite Hfree; by left).
  assert (∀ f, f ∈ {[p]} ∪ F → pa_pool s f ∧ (f ∉ ps) ∧ owner !! f = None) as HF1.
  { intros f [->%elem_of_singleton|Hf]%elem_of_union.
    - split_and!; [by apply Hpool1|done|done].
    - destruct (HF f Hf) as (? & Hn & ?). split_and!; try done. intros ?. apply Hn. rewrite Hfree. by right. }
  assert (∀ f, f ∈ {[p]} ∪ F → o !! f = None) as Ho.
  { intros f Hf. destruct (HF1 f Hf) as (_ & Hn & Hn'). destruct (o !! f) eqn:E; [|done].
    destruct (Nw f (elem_of_dom_2 _ _ _ E)) as [[? ?]%elem_of_dom|Hin]; [congruence|]. rewrite Hf1 in Hin. done. }
  exists s1, o. split; [done|]. split; [exact Hpok|]. cbv zeta. fold s2.
  split; [|split; [done|intros v Hv; rewrite En; by rewrite decide_True]].
  assert (∀ f a, pa_pool s f → o !! f = None → page_byte hhdm_offset f a → load8 (pa_ram s2) a = load8 (pa_ram s1) a) as Hframe.
  { intros f a Hf Hof Ha. apply B. intros h [π Hh]%elem_of_dom Hha. assert (h = f) as ->; [|congruence].
    eapply page_byte_inj; [eapply wf_page_ok; eauto|by apply (pa_pool_ok s f (wf_inv _ _ _ _ Hwf) Hf)|done..]. }
  split; try done.
  - intros f Hf. destruct (HF1 f Hf) as (? & Hn & ?). split_and!; [by apply P, Hpool1| |by apply Ho].
    intros Hin. apply Hn. rewrite <- Hf1, U. apply elem_of_app. by right.
  - apply union_subseteq_r.
  - exists (p :: u). rewrite Hfree, <- Hf1, U. split; [done|simpl; lia].
  - intros q. by rewrite P.
  - intros v Hv. rewrite En, decide_False by done. unfold page_entry.
    eapply leaf_ext; [exact Hwf|exact Hb1|done|apply path_of_range|by apply pml_idx_range].
  - intros f a Hf Ha. rewrite (Hframe f a); [|by apply HF|apply Ho, elem_of_union_r, Hf|done]. apply Hout1. intros Hpa.
    assert (f = p) as ->; [|done]. destruct (HF f Hf) as (Hfp & _).
    eapply page_byte_inj; [apply (pa_pool_ok s f (wf_inv _ _ _ _ Hwf) Hfp)|apply Hpok|done..].
  - intros a Ha. rewrite B, Hout1; [done| |].
    + apply Ha. by apply Hpool1.
    + intros h [π Hh]%elem_of_dom. apply Ha. apply Hpool1, P. by apply (wf_frame _ _ _ _ W h π Hh).
Qed.

(** The page is cleared and filled. *)
Lemma write_frame n ch owner s F owner' s' F' p m' :
  loaded n ch owner s F owner' s' F' → p ∈ F' → (p ∉ F) →
  (∀ a, ¬ page_byte hhdm_offset p a → load8 m' a = load8 (pa_ram s') a) →
  loaded n ch owner s F owner' (pa_with_ram s' m') F'.
Proof.
  intros [L1 L2 L3 L4 L5 L6 L7 L8] Hp HpF Hm. destruct (L2 p Hp) as (Hpp & _ & Hop).
  destruct (write_page_wf hhdm_offset owner' s' root p m' L1 Hpp Hop Hm) as (W & Fr & Pl & T).
  pose proof (pa_pool_ok s' p (wf_inv _ _ _ _ L1) Hpp) as [Hpa _].
  split; try done.
  - intros f Hf. rewrite Pl, Fr. by apply L2.
  - by rewrite Fr.
  - intros q. by rewrite Pl.
  - intros v Hv. rewrite <- L6 by done. unfold page_entry. rewrite pa_ram_with_ram.
    eapply leaf_ext; [exact L1| |done|apply path_of_range|by apply pml_idx_range].
    intros h π a Hh Ha. apply Hm. intros Hpa'. assert (h = p) as ->; [|congruence].
    eapply page_byte_inj; [eapply wf_page_ok; eauto|exact Hpa|done..].
  - intros f a Hf Ha. rewrite pa_ram_with_ram, Hm; [by eapply L7|]. intros Hpa'.
    assert (f = p) as ->; [|done]. destruct (L2 f) as (Hfp & _); [by apply L3|].
    eapply page_byte_inj; [apply (pa_pool_ok s' f (wf_inv _ _ _ _ L1) Hfp)|exact Hpa|done..].
  - intros a Ha. rewrite pa_ram_with_ram, Hm; [by apply L8|]. apply Ha. by apply L5.
Qed.

(** *** The pages of a segment *)

Lemma page_step data len ph vstart offset po filesz flags vaddr owner s F p ps :
  pt_wf hhdm_offset owner s root → frames owner s F → pa_free s = p :: ps → (3 ≤ length ps)%nat → 0 ≤ flags < 2 ^ 64 →
  file_ok s data len → data ≤ ph → ph + 56 ≤ data + len → p_filesz (pa_ram s) ph = filesz →
  0 ≤ po < PAGE_SIZE → 0 ≤ vstart ≤ vaddr → vaddr < 2 ^ 48 → 0 ≤ offset → 0 ≤ filesz → offset + filesz ≤ len →
  ∃ s1 owner', pmm_request s = (p, s1) ∧ p ≠ 0 ∧
    let s2 := vmm_map hhdm_offset s1 (hhdm_offset + root) vaddr p flags in
    let s3 := pa_with_ram s2 (fill_page hhdm_offset data ph vstart offset po vaddr p (pa_ram s2)) in
    loaded 4 (λ v, same_page v vaddr) owner s F owner' s3 ({[p]} ∪ F) ∧
    ∀ v, same_page v vaddr →
      view s3 ({[p]} ∪ F) v (page_content (λ x, load8 (pa_ram s) (data + x)) po offset filesz (vaddr - vstart) (v mod PAGE_SIZE)) flags.
Proof.
  intros Hwf HF Hfree Hps Hfl Hfile Hph1 Hph2 Hfs Hpo Hv Hv' Ho Hfs0 Hof.
  destruct (request_map owner s F vaddr flags p ps Hwf HF Hfree Hps Hfl) as (s1 & o & Hr & Hpok & L & HpF & En).
  set (s2 := vmm_map hhdm_offset s1 _ _ _ _) in *.
  destruct (loaded_file _ _ _ _ _ _ _ _ _ _ L Hfile) as [Hfile2 Hsame].
  destruct Hfile2 as (Hd & Hl & Hdl & Hout). pose proof (pa_hhdm (S := S)) as Hhh.
  destruct (ld_frames _ _ _ _ _ _ _ _ L p) as (Hpp & _); [by apply elem_of_union_l, elem_of_singleton|].
  assert (∀ b, page_byte hhdm_offset p b → ¬ (data ≤ b < data + len)) as Hnot by (intros b Hb Hin; by apply (Hout b Hin p)).
  assert (p_filesz (pa_ram s2) ph = filesz) as Hfs2.
  { rewrite <- Hfs. apply load_le_ext. intros b Hb. apply Hsame. lia. }
  assert (∀ a, load8 (fill_page hhdm_offset data ph vstart offset po vaddr p (pa_ram s2)) a =
    if (hhdm_offset + p <=? a) && (a <? hhdm_offset + p + PAGE_SIZE)
    then page_content (λ x, load8 (pa_ram s2) (data + x)) po offset filesz (vaddr - vstart) (a - (hhdm_offset + p))
    else load8 (pa_ram s2) a) as Hfill.
  { intros a. apply fill_page_bytes; try done; unfold PAGE_SIZE in *; try lia; intros b Hb ?; apply (Hnot b Hb); lia. }
  set (m' := fill_page _ _ _ _ _ _ _ _ _) in *.
  exists s1, o. split; [done|]. split; [destruct Hpok; lia|]. cbv zeta. fold s2 m'.
  assert (loaded 4 (λ v, same_page v vaddr) owner s F o (pa_with_ram s2 m') ({[p]} ∪ F)) as L3.
  { eapply write_frame; [exact L|by apply elem_of_union_l, elem_of_singleton|done|]. intros a Ha. rewrite Hfill.
    unfold page_byte in Ha. zcases; simpl; try done; lia. }
  split; [done|]. intros v Hsp. exists p. split_and!; [by apply elem_of_union_l, elem_of_singleton| |].
  - unfold page_entry. rewrite pa_ram_with_ram, <- (En v Hsp). unfold page_entry.
    eapply leaf_ext; [apply (ld_wf _ _ _ _ _ _ _ _ L)| |done|apply path_of_range|by apply pml_idx_range].
    intros h π a Hh Ha. rewrite Hfill. destruct ((_ <=? _) && _) eqn:E; [|done].
    apply andb_true_iff in E as [E1%Z.leb_le E2%Z.ltb_lt]. assert (h = p) as ->.
    { eapply page_byte_inj; [eapply wf_page_ok; [apply (ld_wf _ _ _ _ _ _ _ _ L)|done]|apply Hpok|done|done]. }
    destruct (ld_frames _ _ _ _ _ _ _ _ L p) as (_ & _ & ?); [by apply elem_of_union_l, elem_of_singleton|congruence].
  - rewrite pa_ram_with_ram, Hfill. pose proof (Z.mod_pos_bound v PAGE_SIZE ltac:(done)).
    rewrite (proj2 (Z.leb_le _ _)), (proj2 (Z.ltb_lt _ _)) by lia. simpl. rewrite Z.add_simpl_l. unfold page_content.
    destruct ((_ <=? _) && _) eqn:E; [|done]. apply andb_true_iff in E as [E1%Z.leb_le E2%Z.ltb_lt]. apply Hsame. 
    destruct (vaddr - vstart =? 0); unfold PAGE_SIZE in *; lia.
Qed.

(** The pages [j], ..., [j + k - 1] after [vstart]. *)
Definition pages_in (vstart j : Z) (k : nat) (v : Z) : Prop :=
  ∃ i, j ≤ i < j + Z.of_nat k ∧ same_page v (vstart + i * PAGE_SIZE).

Lemma page_loop_run data len ph vstart offset po filesz flags (file : Z → Z) (k : nat) :
  0 ≤ flags < 2 ^ 64 → data ≤ ph → ph + 56 ≤ data + len → 0 ≤ po < PAGE_SIZE → 0 ≤ vstart → vstart mod PAGE_SIZE = 0 →
  0 ≤ offset → 0 ≤ filesz → offset + filesz ≤ len →
  ∀ owner s F (fuel : nat) j,
  pt_wf hhdm_offset owner s root → frames owner s F → (4 * k ≤ length (pa_free s))%nat → (k ≤ fuel)%nat →
  file_ok s data len → p_filesz (pa_ram s) ph = filesz →
  (∀ x, 0 ≤ x < len → load8 (pa_ram s) (data + x) = file x) →
  0 ≤ j → vstart + (j + Z.of_nat k) * PAGE_SIZE < 2 ^ 48 →
  ∃ owner' s' F',
    page_loop hhdm_offset fuel data (hhdm_offset + root) ph vstart (vstart + (j + Z.of_nat k) * PAGE_SIZE)
      offset flags po (vstart + j * PAGE_SIZE) s = Ret true s' ∧
    loaded (4 * k) (pages_in vstart j k) owner s F owner' s' F' ∧
    ∀ v, vstart + j * PAGE_SIZE ≤ v < vstart + (j + Z.of_nat k) * PAGE_SIZE →
      view s' F' v (page_content file po offset filesz ((v - vstart) / PAGE_SIZE * PAGE_SIZE) (v mod PAGE_SIZE)) flags.
Proof.
  intros Hfl Hph1 Hph2 Hpo Hvs Hvm Ho Hfs0 Hof. induction k as [|k IH]; intros owner s F fuel j Hwf HF Hfree Hfuel Hfile Hfs Hby Hj Hend.
  { exists owner, s, F. split; [|split; [|intros v Hv; lia]].
    - rewrite Z.add_0_r. destruct fuel; simpl; rewrite Z.ltb_irrefl; done.
    - eapply loaded_weaken; [by apply loaded_refl|lia|done]. }
  destruct fuel as [|fuel]; [lia|]. cbn [page_loop]. unfold PAGE_SIZE in *. rewrite (proj2 (Z.ltb_lt _ _)) by lia.
  destruct (pa_free s) as [|p ps] eqn:Efree; simpl in Hfree; [lia|].
  destruct (page_step data len ph vstart offset po filesz flags (vstart + j * 4096) owner s F p ps)
    as (s1 & o1 & -> & Hp0 & L & Hview); try done; try lia.
  rewrite (proj2 (Z.eqb_neq p 0)) by done. set (s3 := pa_with_ram _ _) in *.
  rewrite u64_small by lia. replace (vstart + j * 4096 + 4096) with (vstart + (j + 1) * 4096) by lia.
  replace (j + Z.of_nat (Datatypes.S k)) with (j + 1 + Z.of_nat k) in * by lia.
  destruct (loaded_file _ _ _ _ _ _ _ _ _ _ L Hfile) as [Hfile3 Hsame].
  destruct (IH o1 s3 ({[p]} ∪ F) fuel (j + 1)) as (o2 & s4 & F4 & -> & L4 & Hv4).
  - apply L.
  - apply L.
  - destruct (ld_used _ _ _ _ _ _ _ _ L) as (u & Eu & Hu). rewrite Efree in Eu.
    apply (f_equal length) in Eu. rewrite length_app in Eu. simpl in Eu. lia.
  - lia.
  - done.
  - rewrite <- Hfs. apply load_le_ext. intros b Hb. apply Hsame. lia.
  - intros x Hx. rewrite Hsame by lia. by apply Hby.
  - lia.
  - lia.
  - assert (∀ i, 0 ≤ i < 2 ^ 36 → j + 1 ≤ i → ∀ v, same_page v (vstart + i * 4096) → same_page v (vstart + j * 4096) → False) as Hne.
    { intros i Hi Hji v H1 H2. assert (i = j); [|lia]. apply (same_page_near vstart); [lia|lia|done|]. by rewrite <- H1. }
    exists o2, s4, F4. split; [done|]. split.
    + eapply loaded_weaken; [exact (loaded_trans _ _ _ _ _ _ _ _ _ _ _ _ _ L L4)|lia|].
      intros v [Hv|(i & Hi & Hv)]; [exists j|exists i]; (split; [lia|done]).
    + intros v Hv. destruct (decide (vstart + (j + 1) * 4096 ≤ v)); [apply Hv4; lia|].
      assert ((v - vstart) / 4096 = j) as Hq by (symmetry; apply (Z.div_unique _ _ _ (v - vstart - j * 4096)); lia).
      assert (same_page v (vstart + j * 4096)) as Hsp by (rewrite <- Hq; by apply same_page_base).
      rewrite Hq. replace (page_content file po offset filesz (j * 4096) (v mod 4096))
        with (page_content (λ x, load8 (pa_ram s) (data + x)) po offset filesz (vstart + j * 4096 - vstart) (v mod 4096)).
      * eapply loaded_view; [exact L4| |by apply Hview]. intros (i & Hi & Hv'). by apply (Hne i ltac:(lia) ltac:(lia) v).
      * rewrite Z.add_simpl_l. unfold page_content. destruct ((_ <=? _) && _) eqn:E; [|done].
        apply andb_true_iff in E as [E1%Z.leb_le E2%Z.ltb_lt]. apply Hby. destruct (j * 4096 =? 0); unfold PAGE_SIZE in *; lia.
Qed.

(** *** Segments *)

Definition sg_page (g : segment) (v : Z) : Prop := pages_in (sg_start g) 0 (sg_pages g) v.

(** The rights a program header asks for, as bits of a page table entry: present,
    for user code, writable, and not executable. *)
Definition page_rights (p_flags : Z) : Z :=
  1 + (if Z.testbit p_flags 1 then 2 else 0) + 4 + (if Z.testbit p_flags 0 then 0 else 2 ^ 63).

Lemma land_bit x n : 0 ≤ n → (Z.land x (2 ^ n) =? 0) = negb (Z.testbit x n).
Proof.
  intros Hn. destruct (Z.testbit x n) eqn:E; cbn [negb].
  - apply Z.eqb_neq. intros H0. apply (f_equal (λ z, Z.testbit z n)) in H0.
    rewrite Z.land_spec, E, Z.pow2_bits_true, Z.bits_0 in H0 by done. done.
  - apply Z.eqb_eq. apply Z.bits_inj'. intros k Hk. rewrite Z.land_spec, Z.bits_0, Z.pow2_bits_eqb by done.
    destruct (Z.eqb_spec n k) as [<-|]; [by rewrite E|apply andb_false_r].
Qed.

Lemma segment_flags_rights pf : segment_flags pf = page_rights pf.
Proof.
  unfold segment_flags, page_rights.
  rewrite (land_bit pf 1 ltac:(done) : (Z.land pf PF_W =? 0) = _), (land_bit pf 0 ltac:(done) : (Z.land pf PF_X =? 0) = _).
  by destruct (Z.testbit pf 1), (Z.testbit pf 0).
Qed.

Lemma segment_flags_range pf : 0 ≤ segment_flags pf < 2 ^ 64 ∧ Z.land (segment_flags pf) ADDR_MASK = 0.
Proof. unfold segment_flags. by destruct (negb _), (_ =? _). Qed.

Lemma segment_at_range m ph g : segment_at m ph = g →
  0 ≤ sg_offset g < 2 ^ 64 ∧ 0 ≤ sg_vaddr g < 2 ^ 64 ∧ 0 ≤ sg_filesz g < 2 ^ 64 ∧ 0 ≤ sg_memsz g < 2 ^ 64.
Proof. intros <-. simpl. split_and!; apply load64_range. Qed.

Lemma segments_range m data g : g ∈ segments m data →
  0 ≤ sg_offset g < 2 ^ 64 ∧ 0 ≤ sg_vaddr g < 2 ^ 64 ∧ 0 ≤ sg_filesz g < 2 ^ 64 ∧ 0 ≤ sg_memsz g < 2 ^ 64.
Proof. intros (i & -> & _)%list_elem_of_fmap. by eapply segment_at_range. Qed.

(** The addresses of a segment are in its pages. *)
Lemma sg_pages_in g x :
  sg_type g = PT_LOAD → 0 ≤ sg_vaddr g → 0 ≤ x < sg_memsz g →
  sg_start g ≤ sg_vaddr g + x < sg_start g + Z.of_nat (sg_pages g) * PAGE_SIZE.
Proof.
  intros Ht Hv Hx. unfold sg_start, sg_pages. rewrite Ht. simpl. unfold PAGE_SIZE. Z.to_euclidean_division_equations; lia.
Qed.

Lemma segment_at_ext m m' ph : (∀ a, ph ≤ a < ph + 56 → load8 m' a = load8 m a) → segment_at m' ph = segment_at m ph.
Proof.
  intros He. unfold segment_at, p_type, p_flags, p_offset, p_vaddr, p_filesz, p_memsz, load32, load64.
  f_equal; apply load_le_ext; intros a Ha; apply He; lia.
Qed.

Lemma load_segment_run data len ph g file owner s F (fuel : nat) :
  pt_wf hhdm_offset owner s root → frames owner s F → file_ok s data len →
  data ≤ ph → ph + 56 ≤ data + len → segment_at (pa_ram s) ph = g →
  (∀ x, 0 ≤ x < len → load8 (pa_ram s) (data + x) = file x) →
  (sg_type g = PT_LOAD → segment_fits len g) →
  (4 * sg_pages g ≤ length (pa_free s))%nat → (sg_pages g ≤ fuel)%nat →
  ∃ owner' s' F',
    load_segment hhdm_offset fuel data (hhdm_offset + root) ph s = Ret true s' ∧
    loaded (4 * sg_pages g) (sg_page g) owner s F owner' s' F' ∧
    (sg_type g = PT_LOAD → ∀ v, sg_start g ≤ v < sg_start g + Z.of_nat (sg_pages g) * PAGE_SIZE →
      view s' F' v (sg_content file g v) (segment_flags (sg_flags g))).
Proof.
  intros Hwf HF Hfile Hph1 Hph2 Hg Hby Hfit Hfree Hfuel. destruct (segment_at_range _ _ _ Hg) as (R1 & R2 & R3 & R4).
  assert (p_type (pa_ram s) ph = sg_type g) as E1 by (by rewrite <- Hg). assert (p_flags (pa_ram s) ph = sg_flags g) as E2 by (by rewrite <- Hg).
  assert (p_offset (pa_ram s) ph = sg_offset g) as E3 by (by rewrite <- Hg). assert (p_vaddr (pa_ram s) ph = sg_vaddr g) as E4 by (by rewrite <- Hg).
  assert (p_memsz (pa_ram s) ph = sg_memsz g) as E5 by (by rewrite <- Hg). assert (p_filesz (pa_ram s) ph = sg_filesz g) as E6 by (by rewrite <- Hg).
  unfold load_segment. rewrite E1, E2, E3, E4, E5. unfold sg_page. unfold sg_pages in *. destruct (Z.eqb_spec (sg_type g) PT_LOAD) as [Ht|Ht]; simpl negb.
  2: { exists owner, s, F. split; [done|]. split; [|done]. eapply loaded_weaken; [by apply loaded_refl|lia|done]. }
  destruct (Hfit Ht) as [Hf1 Hf2]. cbv iota. set (k := Z.to_nat _) in *.
  assert (Z.of_nat k = (sg_vaddr g + sg_memsz g + 4096 - 1) / 4096 - sg_vaddr g / 4096) as Hk.
  { unfold k, PAGE_SIZE. rewrite Z2Nat.id; [done|]. pose proof (Z.div_le_mono (sg_vaddr g) (sg_vaddr g + sg_memsz g + 4096 - 1) 4096). lia. }
  rewrite (u64_small (_ + _)), ALIGN_DOWN_spec, ALIGN_UP_spec by (unfold PAGE_SIZE; lia).
  change (PAGE_SIZE - 1) with (Z.ones 12). rewrite Z.land_ones by lia. change (2 ^ 12) with PAGE_SIZE.
  destruct (page_loop_run data len ph (sg_start g) (sg_offset g) (sg_vaddr g mod PAGE_SIZE) (sg_filesz g)
    (segment_flags (sg_flags g)) file k) with (owner := owner) (s := s) (F := F) (fuel := fuel) (j := 0)
    as (o & s' & F' & Hrun & L & Hv); try done; try lia; try apply segment_flags_range;
    unfold sg_start, PAGE_SIZE in *; try (apply Z.mod_pos_bound; lia); try (apply Z.mod_mul; lia);
    try (Z.to_euclidean_division_equations; lia).
  exists o, s', F'. rewrite Z.mul_0_l, Z.add_0_r, Z.add_0_l in Hrun. split; [|split; [exact L|]].
  - rewrite <- Hrun. f_equal. lia.
  - intros _ v Hv'. apply Hv. lia.
Qed.

(** Segments with different numbers share no page. *)
Definition apart (gs : list segment) : Prop :=
  ∀ i j g g' v, gs !! i = Some g → gs !! j = Some g' → i ≠ j → sg_page g v → ¬ sg_page g' v.

Lemma apart_singleton g : apart [g].
Proof. intros i j g1 g2 v [-> _]%list_lookup_singleton_Some [-> _]%list_lookup_singleton_Some Hne. by destruct Hne. Qed.

Definition some_page (gs : list segment) (v : Z) : Prop := ∃ g, g ∈ gs ∧ sg_page g v.

Lemma segment_loop_run data len base file gs :
  data ≤ base → base + PHEADER_SIZEOF * 65535 < 2 ^ 64 →
  ∀ owner s F (fuel : nat) i,
  pt_wf hhdm_offset owner s root → frames owner s F → file_ok s data len → 58 ≤ len →
  e_phnum (pa_ram s) data = i + Z.of_nat (length gs) → 0 ≤ i →
  base + PHEADER_SIZEOF * (i + Z.of_nat (length gs)) ≤ data + len →
  (∀ k g, gs !! k = Some g → segment_at (pa_ram s) (base + PHEADER_SIZEOF * (i + Z.of_nat k)) = g) →
  (∀ x, 0 ≤ x < len → load8 (pa_ram s) (data + x) = file x) →
  (∀ g, g ∈ gs → sg_type g = PT_LOAD → segment_fits len g) → apart gs →
  (4 * total_pages gs ≤ length (pa_free s))%nat → (length gs + total_pages gs ≤ fuel)%nat →
  ∃ owner' s' F',
    segment_loop hhdm_offset fuel data (hhdm_offset + root) base i s = Ret true s' ∧
    loaded (4 * total_pages gs) (some_page gs) owner s F owner' s' F' ∧
    ∀ g v, g ∈ gs → sg_type g = PT_LOAD → sg_start g ≤ v < sg_start g + Z.of_nat (sg_pages g) * PAGE_SIZE →
      view s' F' v (sg_content file g v) (segment_flags (sg_flags g)).
Proof.
  intros Hb1 Hb2. induction gs as [|g gs IH];
    intros owner s F fuel i Hwf HF Hfile Hlen Hnum Hi Hend Hgs Hby Hfit Hap Hfree Hfuel; simpl in *.
  { exists owner, s, F. split; [|split; [|intros g v Hg; by apply not_elem_of_nil in Hg]].
    - destruct fuel; simpl; unfold kbind, kget; rewrite Hnum, Z.add_0_r, Z.ltb_irrefl; done.
    - eapply loaded_weaken; [by apply loaded_refl|lia|done]. }
  assert (0 ≤ e_phnum (pa_ram s) data < 2 ^ 16) as Hn16 by apply (load_le_range 2).
  destruct fuel as [|fuel]; [lia|]. cbn [segment_loop]. rewrite (kbind_run (kget _) _ s _ _ eq_refl).
  rewrite (proj2 (Z.ltb_lt _ _)) by lia. unfold PHEADER_SIZEOF in *. pose proof (proj1 Hfile).
  rewrite u64_small, u16_small by lia.
  pose proof (Hgs 0%nat g eq_refl) as Hg. rewrite Z.add_0_r in Hg.
  destruct (load_segment_run data len (base + 56 * i) g file owner s F fuel)
    as (o1 & s1 & F1 & Hrun & L & Hv1); try done; try lia; [by apply Hfit; left|].
  rewrite (kbind_run _ _ _ _ _ Hrun). cbv iota. destruct (loaded_file _ _ _ _ _ _ _ _ _ _ L Hfile) as [Hfile1 Hsame].
  destruct (IH o1 s1 F1 fuel (i + 1)) as (o2 & s2 & F2 & Hrun2 & L2 & Hv2); try done.
  - apply L.
  - apply L.
  - transitivity (e_phnum (pa_ram s) data); [|lia]. apply load_le_ext. intros a Ha. apply Hsame. lia.
  - lia.
  - lia.
  - intros k g' Hk. rewrite <- (Hgs (Datatypes.S k) g' Hk). replace (i + 1 + Z.of_nat k) with (i + Z.of_nat (Datatypes.S k)) by lia.
    apply segment_at_ext. intros a Ha. apply Hsame. apply lookup_lt_Some in Hk. lia.
  - intros x Hx. rewrite Hsame by lia. by apply Hby.
  - intros g' Hg'. apply Hfit. by right.
  - intros k l g1 g2 v H1 H2 Hkl. by apply (Hap (Datatypes.S k) (Datatypes.S l) g1 g2 v H1 H2 ltac:(congruence)).
  - destruct (ld_used _ _ _ _ _ _ _ _ L) as (u & Eu & Hu). rewrite Eu, length_app in Hfree. lia.
  - lia.
  - exists o2, s2, F2. split; [done|]. split.
    + eapply loaded_weaken; [exact (loaded_trans _ _ _ _ _ _ _ _ _ _ _ _ _ L L2)|lia|].
      intros v [Hv|(g' & Hg' & Hv)]; [exists g|exists g']; (split; [|done]); [by left|by right].
    + intros g' v [->|Hg']%elem_of_cons Ht Hv; [|by apply Hv2]. eapply loaded_view; [exact L2| |by apply Hv1].
      intros (g2 & [k Hk]%list_elem_of_lookup & Hg2). apply (Hap 0%nat (Datatypes.S k) g g2 v eq_refl Hk); [done| |done].
      exists ((v - sg_start g) / PAGE_SIZE). unfold PAGE_SIZE in *. split; [Z.to_euclidean_division_equations; lia|].
      apply same_page_base. unfold sg_start, PAGE_SIZE. apply Z.mod_mul. lia.
Qed.

(** What [elf_load_binary] needs: a pagemap, a file of at most [len] bytes with
    its headers and segments, and four free pages for each page of a segment. *)
Record loadable owner s (data len : Z) : Prop := {
  lo_wf : pt_wf hhdm_offset owner s root;
  lo_file : file_ok s data len;
  lo_header : e_magic (pa_ram s) data = ELF_MAGIC ∧ e_class (pa_ram s) data = 2 ∧ e_type (pa_ram s) data = 2 ∧
    64 ≤ len ∧ e_phoff (pa_ram s) data + PHEADER_SIZEOF * e_phnum (pa_ram s) data ≤ len;
  lo_top : data + len + 2 ^ 22 < 2 ^ 64;
  lo_fits : ∀ g, g ∈ segments (pa_ram s) data → sg_type g = PT_LOAD → segment_fits len g;
  lo_apart : apart (segments (pa_ram s) data);
  lo_free : (4 * total_pages (segments (pa_ram s) data) ≤ length (pa_free s))%nat;
}.

Definition load_fuel (gs : list segment) : nat := length gs + total_pages gs.

Lemma elf_load_run owner s data len (fuel : nat) :
  loadable owner s data len → (load_fuel (segments (pa_ram s) data) ≤ fuel)%nat →
  ∃ owner' s' F',
    elf_load_binary hhdm_offset fuel data (hhdm_offset + root) s = Ret (e_entry (pa_ram s) data) s' ∧
    loaded (4 * total_pages (segments (pa_ram s) data)) (some_page (segments (pa_ram s) data)) owner s ∅ owner' s' F' ∧
    ∀ g v, g ∈ segments (pa_ram s) data → sg_type g = PT_LOAD →
      sg_start g ≤ v < sg_start g + Z.of_nat (sg_pages g) * PAGE_SIZE →
      view s' F' v (sg_content (λ x, load8 (pa_ram s) (data + x)) g v) (segment_flags (sg_flags g)).
Proof.
  intros [Hwf Hfile (Hm & Hc & Ht & Hlen & Hph) Htop Hfit Hap Hfree] Hfuel. pose proof Hfile as (Hd & Hl & Hdl & _).
  unfold elf_load_binary, kassert. rewrite (proj2 (Z.eqb_neq data 0)) by lia. cbn [negb]. rewrite kbind_ret.
  rewrite (kbind_run (kget _) _ s _ _ eq_refl), Hm, Hc, Ht. cbn [negb Z.eqb Pos.eqb]. rewrite Z.eqb_refl. cbn [negb].
  assert (0 ≤ e_phoff (pa_ram s) data < 2 ^ 64) by apply load64_range.
  assert (0 ≤ e_phnum (pa_ram s) data < 2 ^ 16) as Hn by apply (load_le_range 2).
  unfold PHEADER_SIZEOF in *. rewrite u64_small by lia.
  assert (Z.of_nat (length (segments (pa_ram s) data)) = e_phnum (pa_ram s) data) as Hlg
    by (unfold segments; rewrite length_fmap, length_seqZ; lia).
  destruct (segment_loop_run data len (data + e_phoff (pa_ram s) data) (λ x, load8 (pa_ram s) (data + x)) (segments (pa_ram s) data))
    with (owner := owner) (s := s) (F := ∅ : gset Z) (fuel := fuel) (i := 0) as (o & s' & F' & Hrun & L & Hv);
    unfold PHEADER_SIZEOF in *; try done; try lia.
  - intros k g. unfold segments. rewrite list_lookup_fmap. intros (i & Hi & ->)%fmap_Some. apply lookup_seqZ in Hi as [-> _]. done.
  - rewrite (kbind_run _ _ _ _ _ Hrun). exists o, s', F'. split; [|done]. unfold kget. f_equal.
    apply load_le_ext. intros a Ha. apply (proj2 (loaded_file _ _ _ _ _ _ _ _ _ _ L Hfile)). lia.
Qed.

(** The byte a process reads at [v], through its pagemap. *)
Definition process_byte s (v : Z) : Z :=
  load8 (pa_ram s) (HIGHER_HALF hhdm_offset (virt_to_phys hhdm_offset s (hhdm_offset + root) v) + v mod PAGE_SIZE).

Lemma view_process owner s F v b flags :
  pt_wf hhdm_offset owner s root → frames owner s F → view s F v b flags →
  0 ≤ flags < 2 ^ 64 ∧ Z.land flags ADDR_MASK = 0 →
  process_byte s v = b ∧
  page_entry hhdm_offset s root v = Z.lor (virt_to_phys hhdm_offset s (hhdm_offset + root) v) flags.
Proof.
  intros Hwf HF (f & Hf & He & Hb) [Hfl Hfm]. destruct (HF f Hf) as (Hp & _).
  pose proof (pa_pool_ok s f (wf_inv _ _ _ _ Hwf) Hp) as Hok. pose proof Hok as (Hal & H0 & H1 & _).
  unfold process_byte. rewrite (virt_to_phys_entry _ _ _ _ _ Hwf), He.
  rewrite land_ADDR_MASK_lor by (unfold PAGE_SIZE in *; (done || lia)).
  rewrite HIGHER_HALF_page by (done || apply (pa_hhdm (S := S))). done.
Qed.
End load.

Section properties.
Context (hhdm_offset : Z) {S : Type} `{LAWS : PageAllocLaws hhdm_offset S}.

(** The segment starts at a page boundary, or its bytes from the file end in its
    first page. *)
Definition well_placed (g : segment) : Prop :=
  sg_filesz g ≤ sg_memsz g ∧ (sg_vaddr g mod PAGE_SIZE = 0 ∨ sg_vaddr g mod PAGE_SIZE + sg_filesz g ≤ PAGE_SIZE).

(** The content of the page at distance [x] from the start of the segment. *)
Lemma sg_content_at file g x :
  0 ≤ sg_vaddr g → 0 ≤ x →
  ∃ delta j, 0 ≤ delta ∧ 0 ≤ j < 4096 ∧ sg_vaddr g mod 4096 + x = delta + j ∧ delta mod 4096 = 0 ∧
    sg_content file g (sg_vaddr g + x) =
    page_content file (sg_vaddr g mod 4096) (sg_offset g) (sg_filesz g) delta j.
Proof.
  intros Hv Hx. exists ((sg_vaddr g + x - sg_start g) / 4096 * 4096), ((sg_vaddr g + x) mod 4096).
  unfold sg_content, sg_start, PAGE_SIZE. pose proof (Z.div_mod (sg_vaddr g) 4096 ltac:(lia)).
  pose proof (Z.mod_pos_bound (sg_vaddr g) 4096 ltac:(lia)). pose proof (Z.mod_pos_bound (sg_vaddr g + x) 4096 ltac:(lia)).
  split_and!; [| |lia| |apply Z.mod_mul; lia|done]; Z.to_euclidean_division_equations; lia.
Qed.

Lemma sg_content_well file g x :
  0 ≤ sg_vaddr g → 0 ≤ sg_filesz g → well_placed g → 0 ≤ x →
  sg_content file g (sg_vaddr g + x) = if x <? sg_filesz g then file (sg_offset g + x) else 0.
Proof.
  intros Hv Hf [_ Hpl] Hx. destruct (sg_content_at file g x Hv Hx) as (delta & j & Hd & Hj & Hsum & Hdm & ->).
  unfold PAGE_SIZE in *. pose proof (Z.mod_pos_bound (sg_vaddr g) 4096 ltac:(lia)). set (po := sg_vaddr g mod 4096) in *.
  assert (delta = 0 ∨ 4096 ≤ delta) by (apply Z.mod_divide in Hdm as [q ->]; lia).
  unfold page_content, PAGE_SIZE. zcases; simpl; try lia; try (f_equal; lia).
Qed.

(** C6: [elf_load_binary] loads a program.  For an executable whose segments share
    no page, start at page boundaries (or are short), and for which there are
    four free pages for each page, it returns the entry point; at each address
    of a segment the process then reads the byte of the file, or 0 past the
    segment's part of the file; the page is present, for user code, writable
    and executable as the header asks; no other address is mapped differently
    and the pagemap stays well formed. *)
Theorem elf_load_spec root owner (s : S) data len (fuel : nat)
    (Hlo : loadable hhdm_offset root owner s data len)
    (Hwell : ∀ g, g ∈ segments (pa_ram s) data → sg_type g = PT_LOAD → well_placed g)
    (Hfuel : (load_fuel (segments (pa_ram s) data) ≤ fuel)%nat) :
  ∃ s', elf_load_binary hhdm_offset fuel data (hhdm_offset + root) s = Ret (e_entry (pa_ram s) data) s' ∧
    (∀ g x, g ∈ segments (pa_ram s) data → sg_type g = PT_LOAD → 0 ≤ x < sg_memsz g →
      process_byte hhdm_offset root s' (sg_vaddr g + x) =
        (if x <? sg_filesz g then load8 (pa_ram s) (data + (sg_offset g + x)) else 0) ∧
      page_entry hhdm_offset s' root (sg_vaddr g + x) =
        Z.lor (virt_to_phys hhdm_offset s' (hhdm_offset + root) (sg_vaddr g + x)) (page_rights (sg_flags g))) ∧
    (∀ v, ¬ some_page (segments (pa_ram s) data) v →
      page_entry hhdm_offset s' root v = page_entry hhdm_offset s root v) ∧
    ∃ owner', pt_wf hhdm_offset owner' s' root.
Proof.
  destruct (elf_load_run _ _ _ _ _ _ fuel Hlo Hfuel) as (o & s' & F' & Hrun & L & Hv).
  exists s'. split; [done|]. split; [|split; [apply L|exists o; apply L]].
  intros g x Hg Ht Hx. destruct (Hwell g Hg Ht) as [Hsz Hpl].
  destruct (segments_range _ _ _ Hg) as (R1 & R2 & R3 & R4).
  destruct (view_process _ _ _ _ _ _ _ _ (ld_wf _ _ _ _ _ _ _ _ _ _ L) (ld_frames _ _ _ _ _ _ _ _ _ _ L)
    (Hv g _ Hg Ht (sg_pages_in g x Ht ltac:(lia) ltac:(lia))) (segment_flags_range _)) as [-> ->].
  split; [|by rewrite segment_flags_rights].
  apply (sg_content_well (λ x, load8 (pa_ram s) (data + x))); (done || lia).
Qed.

(** A segment that starts [po] bytes into a page is loaded wrong from its
    second page on: where the process should read the byte [x] of the segment it
    reads the one [po] further on in the file. *)
Theorem elf_load_misplaced root owner (s : S) data len (fuel : nat) g x
    (Hlo : loadable hhdm_offset root owner s data len)
    (Hfuel : (load_fuel (segments (pa_ram s) data) ≤ fuel)%nat)
    (Hg : g ∈ segments (pa_ram s) data ∧ sg_type g = PT_LOAD)
    (Hx : 0 ≤ x < sg_memsz g ∧ PAGE_SIZE ≤ sg_vaddr g mod PAGE_SIZE + x < sg_filesz g) :
  ∃ s', elf_load_binary hhdm_offset fuel data (hhdm_offset + root) s = Ret (e_entry (pa_ram s) data) s' ∧
    process_byte hhdm_offset root s' (sg_vaddr g + x) =
      load8 (pa_ram s) (data + (sg_offset g + (sg_vaddr g mod PAGE_SIZE + x))).
Proof.
  destruct (elf_load_run _ _ _ _ _ _ fuel Hlo Hfuel) as (o & s' & F' & Hrun & L & Hv).
  exists s'. split; [done|]. destruct Hg as [Hg Ht]. destruct (segments_range _ _ _ Hg) as (R1 & R2 & R3 & R4).
  destruct (view_process _ _ _ _ _ _ _ _ (ld_wf _ _ _ _ _ _ _ _ _ _ L) (ld_frames _ _ _ _ _ _ _ _ _ _ L)
    (Hv g _ Hg Ht (sg_pages_in g x Ht ltac:(lia) ltac:(lia))) (segment_flags_range _)) as [-> _].
  destruct (sg_content_at (λ x, load8 (pa_ram s) (data + x)) g x) as (delta & j & Hd & Hj & Hsum & Hdm & ->); [lia|lia|].
  unfold page_content, PAGE_SIZE in *. assert (delta = 0 ∨ 4096 ≤ delta) by (apply Z.mod_divide in Hdm as [q ->]; lia).
  zcases; simpl; try lia. f_equal. lia.
Qed.

(** The loader refuses what is not a 64-bit executable and leaves the machine
    as it was; with no file at all the assertion stops it. *)
Theorem elf_load_rejects (s : S) data pagemap (fuel : nat)
    (Hbad : data = 0 ∨ e_magic (pa_ram s) data ≠ ELF_MAGIC ∨ e_class (pa_ram s) data ≠ 2 ∨ e_type (pa_ram s) data ≠ 2) :
  elf_load_binary hhdm_offset fuel data pagemap s = if data =? 0 then Halt s else Ret 0 s.
Proof.
  unfold elf_load_binary, kassert. destruct (Z.eqb_spec data 0) as [|Hd]; [done|]. cbn [negb]. rewrite kbind_ret.
  rewrite (kbind_run (kget _) _ s _ _ eq_refl). zcases; cbn [negb]; try done. tauto.
Qed.
End properties.

(** *** Witnesses: a file at 0x1000 and the machine of [Vmm] with fifteen pages *)

Fixpoint put_fields (l : list (Z * Z * Z)) (m : mem) : mem :=
  match l with [] => m | (n, a, v) :: l => put_fields l (store_le (Z.to_nat n) m a v) end.

(** One program header: read and execute, the given place and sizes. *)
Definition demo_file (vaddr filesz memsz : Z) : mem :=
  put_fields [(4, 0x1000, ELF_MAGIC); (1, 0x1004, 2); (2, 0x1010, 2); (8, 0x1018, 0x400123); (8, 0x1020, 64); (2, 0x1038, 1);
    (4, 0x1040, PT_LOAD); (4, 0x1044, 5); (8, 0x1048, 120); (8, 0x1050, vaddr); (8, 0x1060, filesz); (8, 0x1068, memsz);
    (1, 0x1078, 0x90); (1, 0x1088, 1); (1, 0x2078, 2)] ∅.

Definition elf_pmm (file : mem) : pmm :=
  match pmm_init demo_hhdm (Some vm_memmap) (pmm_boot file) with Ret _ s => s | _ => pmm_boot ∅ end.
Definition elf_state (file : mem) : pmm := (pmm_request (PageAlloc := vm_alloc) (elf_pmm file)).2.

#[local] Existing Instances vm_alloc vm_laws.

Lemma elf_state_ready vaddr filesz memsz :
  let file := demo_file vaddr filesz memsz in
  pmm_init demo_hhdm (Some vm_memmap) (pmm_boot file) = Ret tt (elf_pmm file) →
  reverse (free_stack (elf_pmm file)) = [0x10000; 0xf000; 0xe000; 0xd000; 0xc000; 0xb000; 0xa000; 0x9000; 0x8000; 0x7000;
                    0x6000; 0x5000; 0x4000; 0x3000; 0x2000] →
  pt_wf demo_hhdm {[0x10000 := []]} (elf_state file) 0x10000 ∧ length (pa_free (elf_state file)) = 14%nat.
Proof.
  intros file Hrun Hfree.
  destruct (pmm_init_spec_aux demo_hhdm file vm_memmap) as (s' & H1 & H2 & _); [by vm_compute | | by vm_compute |].
  { split_and!; [|apply (bool_decide_unpack _); by vm_compute|by vm_compute].
    repeat constructor; intros; try discriminate; by vm_compute. }
  rewrite Hrun in H1. apply Ret_inj in H1 as [_ <-].
  assert (pa_inv (elf_pmm file)) as Hinv by exact H2.
  assert (pa_free (elf_pmm file) = reverse (free_stack (elf_pmm file))) as Hpf by reflexivity. rewrite Hfree in Hpf.
  destruct (fresh_root demo_hhdm (elf_pmm file) _ _ Hinv Hpf) as (s & Hr & W & F & _).
  assert (elf_state file = s) as -> by (unfold elf_state; rewrite Hr; reflexivity). split; [exact W|]. rewrite F. reflexivity.
Qed.

Lemma demo_outside s a : pt_wf demo_hhdm {[0x10000 := []]} s 0x10000 → 0x1000 ≤ a < 0x1000 + 2 ^ 20 → outside demo_hhdm s a.
Proof.
  intros Hwf Ha p Hp [Hb _]. pose proof (pa_pool_ok s p (wf_inv _ _ _ _ Hwf) Hp) as (_ & Hp0 & _). unfold demo_hhdm in Hb. lia.
Qed.

Lemma demo_loadable vaddr filesz memsz len :
  let file := demo_file vaddr filesz memsz in let s := elf_state file in
  pmm_init demo_hhdm (Some vm_memmap) (pmm_boot file) = Ret tt (elf_pmm file) →
  reverse (free_stack (elf_pmm file)) = [0x10000; 0xf000; 0xe000; 0xd000; 0xc000; 0xb000; 0xa000; 0x9000; 0x8000; 0x7000;
                    0x6000; 0x5000; 0x4000; 0x3000; 0x2000] →
  e_magic (pa_ram s) 0x1000 = ELF_MAGIC ∧ e_class (pa_ram s) 0x1000 = 2 ∧ e_type (pa_ram s) 0x1000 = 2 ∧
    e_phoff (pa_ram s) 0x1000 = 64 ∧ e_phnum (pa_ram s) 0x1000 = 1 →
  segments (pa_ram s) 0x1000 = [Segment PT_LOAD 5 120 vaddr filesz memsz] →
  120 + filesz ≤ len ≤ 2 ^ 20 → 0 ≤ filesz → vaddr + memsz ≤ 2 ^ 47 →
  (sg_pages (Segment PT_LOAD 5 120 vaddr filesz memsz) ≤ 3)%nat →
  loadable demo_hhdm 0x10000 {[0x10000 := []]} s 0x1000 len.
Proof.
  intros file s Hrun Hfree Hhd Hsegs Hlen Hfs Hva Hpg.
  destruct (elf_state_ready vaddr filesz memsz Hrun Hfree) as [Hwf Hf]. fold file s in Hwf, Hf.
  split; [exact Hwf| | |lia| | |].
  - split_and!; [lia|lia|lia|lia|]. intros a Ha. apply demo_outside; [exact Hwf|lia].
  - unfold PHEADER_SIZEOF. destruct Hhd as (H1 & H2 & H3 & H4 & H5). rewrite H4, H5. split_and!; [exact H1|exact H2|exact H3|lia|lia].
  - rewrite Hsegs. intros g ->%list_elem_of_singleton _. split; simpl; lia.
  - rewrite Hsegs. apply apart_singleton.
  - rewrite Hsegs. cbn [total_pages]. rewrite Hf. lia.
Qed.

Lemma elf_load_spec_witness : ∃ s' : pmm,
  elf_load_binary demo_hhdm 5 0x1000 (demo_hhdm + 0x10000) (elf_state (demo_file 0x400000 8 4100)) = Ret 0x400123 s' ∧
  process_byte demo_hhdm 0x10000 s' 0x400000 = 0x90 ∧ process_byte demo_hhdm 0x10000 s' 0x401000 = 0.
Proof.
  pose (g := Segment PT_LOAD 5 120 0x400000 8 4100). set (s := elf_state (demo_file 0x400000 8 4100)).
  assert (segments (pa_ram s) 0x1000 = [g]) as Hsegs by (vm_compute; reflexivity).
  destruct (elf_load_spec demo_hhdm 0x10000 {[0x10000 := []]} s 0x1000 256 5) as (s' & Hrun & Hby & _).
  - apply (demo_loadable 0x400000 8 4100 256);
      [vm_compute; reflexivity|vm_compute; reflexivity|split_and!; vm_compute; reflexivity|exact Hsegs|lia|lia|lia|vm_compute; lia].
  - rewrite Hsegs. intros g' ->%list_elem_of_singleton _. split; [simpl; lia|left; reflexivity].
  - rewrite Hsegs. vm_compute. lia.
  - exists s'. rewrite Hsegs in Hby. split; [exact Hrun|].
    destruct (Hby g 0) as [H1 _]; [by apply list_elem_of_singleton|reflexivity|simpl; lia|].
    destruct (Hby g 4096) as [H2 _]; [by apply list_elem_of_singleton|reflexivity|simpl; lia|].
    split; [exact H1|exact H2].
Defined.

(** The byte 16 of the segment is 1 in the file; the process reads 2. *)
Lemma elf_load_misplaced_witness : ∃ s' : pmm,
  elf_load_binary demo_hhdm 5 0x1000 (demo_hhdm + 0x10000) (elf_state (demo_file 0x400ff0 5000 5000)) = Ret 0x400123 s' ∧
  load8 (demo_file 0x400ff0 5000 5000) (0x1000 + (120 + 16)) = 1 ∧ process_byte demo_hhdm 0x10000 s' (0x400ff0 + 16) = 2.
Proof.
  pose (g := Segment PT_LOAD 5 120 0x400ff0 5000 5000). set (s := elf_state (demo_file 0x400ff0 5000 5000)).
  assert (segments (pa_ram s) 0x1000 = [g]) as Hsegs by (vm_compute; reflexivity).
  destruct (elf_load_misplaced demo_hhdm 0x10000 {[0x10000 := []]} s 0x1000 8192 5 g 16) as (s' & Hrun & Hby).
  - apply (demo_loadable 0x400ff0 5000 5000 8192);
      [vm_compute; reflexivity|vm_compute; reflexivity|split_and!; vm_compute; reflexivity|exact Hsegs|lia|lia|lia|vm_compute; lia].
  - rewrite Hsegs. vm_compute. lia.
  - rewrite Hsegs. split; [by apply list_elem_of_singleton|reflexivity].
  - vm_compute. split; [split; [discriminate|reflexivity]|split; [discriminate|reflexivity]].
  - exists s'. split; [exact Hrun|]. split; [vm_compute; reflexivity|]. exact Hby.
Defined.

Lemma elf_load_rejects_witness :
  elf_load_binary demo_hhdm 5 0x2000 (demo_hhdm + 0x10000) (elf_state (demo_file 0x400000 8 4100)) =
  Ret 0 (elf_state (demo_file 0x400000 8 4100)).
Proof. apply (elf_load_rejects demo_hhdm _ 0x2000). right. left. vm_compute. discriminate. Defined.
