(* ===== verification/Heap.v ===== *)
(** * The kernel heap

    [mm/liballoc/liballoc.c] and [liballoc_wrappers.c]: [kmalloc], [kfree],
    [kcalloc] and [krealloc].  Blocks of pages, the majors, are linked in a
    list; each holds a list of minors in the order of their addresses, and a
    minor is a header of 40 bytes followed by the bytes of one allocation.

    The heap reads and writes bytes at the kernel's virtual addresses, [hm].
    The blocks of pages come from [liballoc_alloc] and go back through
    [liballoc_free]; the class [BlockSource] names the two, and [HeapSpec] gives
    the laws that the theorems rely on.  The wrappers implement them by
    [vma_alloc] and [vma_free] on the kernel's context. *)

From stdpp Require Import base gmap list.
From Stdlib Require Import ZArith Lia.
From S2P Require Import Prelude Ram PageAlloc Vmm Vma.
#[local] Open Scope Z_scope.

Definition ALIGNMENT : Z := 16.
Definition ALIGN_INFO : Z := 16.
Definition LIBALLOC_MAGIC : Z := 0xc001c0de.
Definition LIBALLOC_DEAD : Z := 0xdeaddead.

(** [struct liballoc_major] and [struct liballoc_minor]: the offsets of the
    fields; [pages], [size], [usage], [magic] and [req_size] are 32 bits wide. *)
Definition MAJ_PREV : Z := 0.
Definition MAJ_NEXT : Z := 8.
Definition MAJ_PAGES : Z := 16.
Definition MAJ_SIZE : Z := 20.
Definition MAJ_USAGE : Z := 24.
Definition MAJ_FIRST : Z := 32.
Definition MAJ_SIZEOF : Z := 40.
Definition MIN_PREV : Z := 0.
Definition MIN_NEXT : Z := 8.
Definition MIN_BLOCK : Z := 16.
Definition MIN_MAGIC : Z := 24.
Definition MIN_SIZE : Z := 28.
Definition MIN_REQ_SIZE : Z := 32.
Definition MIN_SIZEOF : Z := 40.

Definition l_pageSize : Z := 4096.
Definition l_pageCount : Z := 16.

(** [mm/kmalloc.h]: where the heap gets its blocks of pages. *)
Class BlockSource (S : Type) := {
  liballoc_alloc : Z → kernel S Z;
  liballoc_free : Z → Z → kernel S unit;
}.

(** The heap's globals, the memory it lives in and the source of its pages. *)
Record heap (S : Type) := Heap {
  hm : mem;
  src : S;
  l_memRoot : Z;
  l_bestBet : Z;
  l_allocated : Z;
  l_inuse : Z;
  l_warningCount : Z;
  l_errorCount : Z;
  l_possibleOverruns : Z;
  liballoc_lock_var : bool;
}.
Arguments Heap {S} _ _ _ _ _ _ _ _ _ _.
Arguments hm {S} _.
Arguments src {S} _.
Arguments l_memRoot {S} _.
Arguments l_bestBet {S} _.
Arguments l_allocated {S} _.
Arguments l_inuse {S} _.
Arguments l_warningCount {S} _.
Arguments l_errorCount {S} _.
Arguments l_possibleOverruns {S} _.
Arguments liballoc_lock_var {S} _.

(** [liballoc_memset] and [liballoc_memcpy], for a size that the counter of the
    first loop, an [unsigned int], can reach. *)
Definition liballoc_memset (m : mem) (s c n : Z) : mem := memset_loop (Z.to_nat n) m s c.

Fixpoint liballoc_memcpy_words (k : nat) (m : mem) (d s : Z) : mem :=
  match k with
  | O => m
  | S k => liballoc_memcpy_words k (store_le 4 m d (load_le 4 m s)) (d + 4) (s + 4)
  end.

Definition liballoc_memcpy (m : mem) (s1 s2 n : Z) : mem :=
  let words := n / 4 in
  memcpy_loop (Z.to_nat (n mod 4)) (liballoc_memcpy_words (Z.to_nat words) m s1 s2)
    (s1 + 4 * words) (s2 + 4 * words).

Section heap.
Context {S : Type} `{BlockSource S}.
Abbreviation K := (kernel (heap S)).

Definition set_hm (m : mem) (h : heap S) : heap S :=
  Heap m (src h) (l_memRoot h) (l_bestBet h) (l_allocated h) (l_inuse h)
    (l_warningCount h) (l_errorCount h) (l_possibleOverruns h) (liballoc_lock_var h).
Definition set_src (s : S) (h : heap S) : heap S :=
  Heap (hm h) s (l_memRoot h) (l_bestBet h) (l_allocated h) (l_inuse h)
    (l_warningCount h) (l_errorCount h) (l_possibleOverruns h) (liballoc_lock_var h).
Definition set_memRoot (p : Z) (h : heap S) : heap S :=
  Heap (hm h) (src h) p (l_bestBet h) (l_allocated h) (l_inuse h)
    (l_warningCount h) (l_errorCount h) (l_possibleOverruns h) (liballoc_lock_var h).
Definition set_bestBet (p : Z) (h : heap S) : heap S :=
  Heap (hm h) (src h) (l_memRoot h) p (l_allocated h) (l_inuse h)
    (l_warningCount h) (l_errorCount h) (l_possibleOverruns h) (liballoc_lock_var h).
Definition set_allocated (n : Z) (h : heap S) : heap S :=
  Heap (hm h) (src h) (l_memRoot h) (l_bestBet h) n (l_inuse h)
    (l_warningCount h) (l_errorCount h) (l_possibleOverruns h) (liballoc_lock_var h).
Definition set_inuse (n : Z) (h : heap S) : heap S :=
  Heap (hm h) (src h) (l_memRoot h) (l_bestBet h) (l_allocated h) n
    (l_warningCount h) (l_errorCount h) (l_possibleOverruns h) (liballoc_lock_var h).
Definition add_warning (h : heap S) : heap S :=
  Heap (hm h) (src h) (l_memRoot h) (l_bestBet h) (l_allocated h) (l_inuse h)
    (l_warningCount h + 1) (l_errorCount h) (l_possibleOverruns h) (liballoc_lock_var h).
Definition add_error (h : heap S) : heap S :=
  Heap (hm h) (src h) (l_memRoot h) (l_bestBet h) (l_allocated h) (l_inuse h)
    (l_warningCount h) (l_errorCount h + 1) (l_possibleOverruns h) (liballoc_lock_var h).
Definition add_overrun (h : heap S) : heap S :=
  Heap (hm h) (src h) (l_memRoot h) (l_bestBet h) (l_allocated h) (l_inuse h)
    (l_warningCount h) (l_errorCount h) (l_possibleOverruns h + 1) (liballoc_lock_var h).
Definition set_lock (b : bool) (h : heap S) : heap S :=
  Heap (hm h) (src h) (l_memRoot h) (l_bestBet h) (l_allocated h) (l_inuse h)
    (l_warningCount h) (l_errorCount h) (l_possibleOverruns h) b.

(** [p->field] and [p->field = v] for a field of [n] bytes; undefined through
    NULL. *)
Definition kld (n : nat) (p off : Z) : K Z :=
  if p =? 0 then kfault else kget (λ h, load_le n (hm h) (p + off)).
Definition kst (n : nat) (p off v : Z) : K unit :=
  if p =? 0 then kfault else kmod (λ h, set_hm (store_le n (hm h) (p + off) v) h).

Definition ksrc {A} (c : kernel S A) : K A :=
  λ h, match c (src h) with
       | Ret a s => Ret a (set_src s h)
       | Halt s => Halt (set_src s h)
       | Spin => Spin
       | Fault => Fault
       | NoFuel => NoFuel
       end.

Definition liballoc_lock : K unit :=
  λ h, if liballoc_lock_var h then Spin else Ret tt (set_lock true h).
Definition liballoc_unlock : K unit := kmod (set_lock false).

(** [ALIGN(ptr)]: the aligned pointer; the distance is kept in the byte 16
    before it.  [UNALIGN(ptr)] reads it back, as a signed [char]. *)
Definition ALIGN (ptr : Z) : K Z :=
  let ptr := u64 (ptr + ALIGN_INFO) in
  let diff := Z.land ptr (ALIGNMENT - 1) in
  let diff := if diff =? 0 then diff else ALIGNMENT - diff in
  let ptr := u64 (ptr + diff) in
  kmod (λ h, set_hm (store8 (hm h) (u64 (ptr - ALIGN_INFO)) (diff + ALIGN_INFO)) h) ;;;
  kret ptr.

Definition s8 (x : Z) : Z := (x + 2 ^ 7) mod 2 ^ 8 - 2 ^ 7.

Definition UNALIGN (ptr : Z) : K Z :=
  let* b := kget (λ h, load8 (hm h) (u64 (ptr - ALIGN_INFO))) in
  let diff := u64 (s8 b) in
  kret (if diff <? ALIGNMENT + ALIGN_INFO then u64 (ptr - diff) else ptr).

Definition allocate_new_page (size : Z) : K Z :=
  let st := u32 (u32 (u32 size + MAJ_SIZEOF) + MIN_SIZEOF) in
  let st := if st mod l_pageSize =? 0 then st / l_pageSize else st / l_pageSize + 1 in
  let st := if st <? l_pageCount then l_pageCount else st in
  let* maj := ksrc (liballoc_alloc st) in
  if maj =? 0 then kmod add_warning ;;; kret 0 else
  kst 8 maj MAJ_PREV 0 ;;;
  kst 8 maj MAJ_NEXT 0 ;;;
  kst 4 maj MAJ_PAGES st ;;;
  kst 4 maj MAJ_SIZE (st * l_pageSize) ;;;
  kst 4 maj MAJ_USAGE MAJ_SIZEOF ;;;
  kst 8 maj MAJ_FIRST 0 ;;;
  let* msize := kld 4 maj MAJ_SIZE in
  kmod (λ h, set_allocated (u64 (l_allocated h + msize)) h) ;;;
  kret maj.

(** What the four ways of placing a minor end with: the block's usage, the
    statistics, and the aligned pointer. *)
Definition account (maj min size : Z) : K Z :=
  let* usage := kld 4 maj MAJ_USAGE in
  kst 4 maj MAJ_USAGE (usage + size + MIN_SIZEOF) ;;;
  kmod (λ h, set_inuse (u64 (l_inuse h + size)) h) ;;;
  ALIGN (u64 (min + MIN_SIZEOF)).

(** CASE 2: the block is empty. *)
Definition case2 (maj size req_size : Z) : K Z :=
  kst 8 maj MAJ_FIRST (u64 (maj + MAJ_SIZEOF)) ;;;
  let* first := kld 8 maj MAJ_FIRST in
  kst 4 first MIN_MAGIC LIBALLOC_MAGIC ;;;
  kst 8 first MIN_PREV 0 ;;;
  kst 8 first MIN_NEXT 0 ;;;
  kst 8 first MIN_BLOCK maj ;;;
  kst 4 first MIN_SIZE size ;;;
  kst 4 first MIN_REQ_SIZE req_size ;;;
  account maj first size.

(** CASE 3: there is room before the first minor. *)
Definition case3 (maj first size req_size : Z) : K Z :=
  kst 8 first MIN_PREV (u64 (maj + MAJ_SIZEOF)) ;;;
  let* new := kld 8 first MIN_PREV in
  kst 8 new MIN_NEXT first ;;;
  kst 8 maj MAJ_FIRST new ;;;
  kst 4 new MIN_MAGIC LIBALLOC_MAGIC ;;;
  kst 8 new MIN_PREV 0 ;;;
  kst 8 new MIN_BLOCK maj ;;;
  kst 4 new MIN_SIZE size ;;;
  kst 4 new MIN_REQ_SIZE req_size ;;;
  account maj new size.

(** CASE 4.1: there is room after the last minor. *)
Definition case41 (maj min msize size req_size : Z) : K Z :=
  kst 8 min MIN_NEXT (u64 (min + MIN_SIZEOF + msize)) ;;;
  let* new := kld 8 min MIN_NEXT in
  kst 8 new MIN_PREV min ;;;
  kst 8 new MIN_NEXT 0 ;;;
  kst 4 new MIN_MAGIC LIBALLOC_MAGIC ;;;
  kst 8 new MIN_BLOCK maj ;;;
  kst 4 new MIN_SIZE size ;;;
  kst 4 new MIN_REQ_SIZE req_size ;;;
  account maj new size.

(** CASE 4.2: there is room between two minors. *)
Definition case42 (maj min next msize size req_size : Z) : K Z :=
  let new := u64 (min + MIN_SIZEOF + msize) in
  kst 4 new MIN_MAGIC LIBALLOC_MAGIC ;;;
  kst 8 new MIN_NEXT next ;;;
  kst 8 new MIN_PREV min ;;;
  kst 4 new MIN_SIZE size ;;;
  kst 4 new MIN_REQ_SIZE req_size ;;;
  kst 8 new MIN_BLOCK maj ;;;
  let* next := kld 8 min MIN_NEXT in
  kst 8 next MIN_PREV new ;;;
  kst 8 min MIN_NEXT new ;;;
  account maj new size.

(** CASE 4: [while (min != NULL)]; [None] when no gap is wide enough. *)
Fixpoint scan_minors (fuel : nat) (maj min size req_size : Z) : K (option Z) :=
  if min =? 0 then kret None else
  match fuel with
  | O => knofuel
  | Datatypes.S f =>
      let* next := kld 8 min MIN_NEXT in
      let* msize := kld 4 min MIN_SIZE in
      if next =? 0 then
        let* majsize := kld 4 maj MAJ_SIZE in
        let diff := u64 (maj + majsize - min - MIN_SIZEOF - msize) in
        if u64 (size + MIN_SIZEOF) <=? diff then
          let* p := case41 maj min msize size req_size in kret (Some p)
        else scan_minors f maj next size req_size
      else
        let diff := u64 (next - min - MIN_SIZEOF - msize) in
        if u64 (size + MIN_SIZEOF) <=? diff then
          let* p := case42 maj min next msize size req_size in kret (Some p)
        else scan_minors f maj next size req_size
  end.

(** CASES 2, 3 and 4 on the block [maj]. *)
Definition place (fuel : nat) (maj size req_size : Z) : K (option Z) :=
  let* first := kld 8 maj MAJ_FIRST in
  if first =? 0 then let* p := case2 maj size req_size in kret (Some p) else
  let diff := u64 (first - maj - MAJ_SIZEOF) in
  if u64 (size + MIN_SIZEOF) <=? diff then
    let* p := case3 maj first size req_size in kret (Some p)
  else scan_minors fuel maj first size req_size.

(** How a step of the outer loop goes on: [continue] with another block,
    [break], or further down with the block in hand. *)
Inductive flow := Again (maj : Z) (startedBet : bool) | Break | Here (maj : Z).

(** A new block after [maj], the last of the list. *)
Definition append_block (maj size : Z) : K Z :=
  let* new := allocate_new_page size in
  kst 8 maj MAJ_NEXT new ;;;
  (if new =? 0 then kret tt else kst 8 new MAJ_PREV maj) ;;;
  kret new.

(** CASE 1: too little is free in the block. *)
Definition case1 (maj size : Z) (startedBet : bool) (diff : Z) : K flow :=
  if u64 (size + MIN_SIZEOF) <=? diff then kret (Here maj) else
  let* next := kld 8 maj MAJ_NEXT in
  if negb (next =? 0) then kret (Again next startedBet) else
  if startedBet then let* root := kget l_memRoot in kret (Again root false) else
  let* new := append_block maj size in
  kret (if new =? 0 then Break else Here new).

(** CASE 5: the gaps of the block are too small. *)
Definition case5 (maj size : Z) (startedBet : bool) : K flow :=
  let* next := kld 8 maj MAJ_NEXT in
  if negb (next =? 0) then kret (Again next startedBet) else
  if startedBet then let* root := kget l_memRoot in kret (Again root false) else
  let* new := append_block maj size in
  kret (if new =? 0 then Break else Again new startedBet).

(** [while (maj != NULL)] *)
Fixpoint kmalloc_loop (fuel : nat) (maj : Z) (startedBet : bool) (bestSize size req_size : Z) : K Z :=
  if maj =? 0 then kret 0 else
  match fuel with
  | O => knofuel
  | Datatypes.S f =>
      let* msize := kld 4 maj MAJ_SIZE in
      let* usage := kld 4 maj MAJ_USAGE in
      let diff := u32 (msize - usage) in
      (if bestSize <? diff then kmod (set_bestBet maj) else kret tt) ;;;
      let bestSize := if bestSize <? diff then diff else bestSize in
      let* fl := case1 maj size startedBet diff in
      match fl with
      | Again maj sb => kmalloc_loop f maj sb bestSize size req_size
      | Break => kret 0
      | Here maj =>
          let* r := place f maj size req_size in
          match r with
          | Some p => kret p
          | None =>
              let* fl := case5 maj size startedBet in
              match fl with
              | Again maj sb => kmalloc_loop f maj sb bestSize size req_size
              | _ => kret 0
              end
          end
      end
  end.

(** [kmalloc] once [size] is known not to be 0 and the lock is held. *)
Definition kmalloc_sized (fuel : nat) (size req_size : Z) : K Z :=
  let* root := kget l_memRoot in
  let* root :=
    if root =? 0 then
      let* p := allocate_new_page size in kmod (set_memRoot p) ;;; kret p
    else kret root in
  if root =? 0 then liballoc_unlock ;;; kret 0 else
  let* best := kget l_bestBet in
  let* bestSize :=
    if best =? 0 then kret 0 else
    let* bsize := kld 4 best MAJ_SIZE in
    let* usage := kld 4 best MAJ_USAGE in
    kret (u32 (bsize - usage)) in
  let startedBet := negb (best =? 0) && (u64 (size + MIN_SIZEOF) <? bestSize) in
  let* p := kmalloc_loop fuel (if startedBet then best else root) startedBet bestSize size req_size in
  liballoc_unlock ;;;
  kret p.

Definition kmalloc (fuel : nat) (req_size : Z) : K Z :=
  let size := u64 (req_size + ALIGNMENT + ALIGN_INFO) in
  liballoc_lock ;;;
  if size =? 0 then
    kmod add_warning ;;;
    liballoc_unlock ;;;
    liballoc_lock ;;;
    kmalloc_sized fuel (u64 (1 + ALIGNMENT + ALIGN_INFO)) 1
  else kmalloc_sized fuel size req_size.

(** The branch on a magic number that is not right, with the lock held. *)
Definition bad_magic (magic : Z) : K unit :=
  kmod add_error ;;;
  (if (Z.land magic 0xFFFFFF =? Z.land LIBALLOC_MAGIC 0xFFFFFF)
      || (Z.land magic 0xFFFF =? Z.land LIBALLOC_MAGIC 0xFFFF)
      || (Z.land magic 0xFF =? Z.land LIBALLOC_MAGIC 0xFF)
   then kmod add_overrun else kret tt) ;;;
  liballoc_unlock.

(** Taking the minor out of its block's list. *)
Definition unlink_minor (maj min : Z) : K unit :=
  let* next := kld 8 min MIN_NEXT in
  (if next =? 0 then kret tt else let* prev := kld 8 min MIN_PREV in kst 8 next MIN_PREV prev) ;;;
  let* prev := kld 8 min MIN_PREV in
  (if prev =? 0 then kret tt else let* next := kld 8 min MIN_NEXT in kst 8 prev MIN_NEXT next) ;;;
  let* prev := kld 8 min MIN_PREV in
  if prev =? 0 then let* next := kld 8 min MIN_NEXT in kst 8 maj MAJ_FIRST next else kret tt.

(** The block is empty: it leaves the list and goes back to its source. *)
Definition release_block (maj : Z) : K unit :=
  let* next := kld 8 maj MAJ_NEXT in
  kmod (λ h, if l_memRoot h =? maj then set_memRoot next h else h) ;;;
  kmod (λ h, if l_bestBet h =? maj then set_bestBet 0 h else h) ;;;
  let* prev := kld 8 maj MAJ_PREV in
  (if prev =? 0 then kret tt else kst 8 prev MAJ_NEXT next) ;;;
  let* next := kld 8 maj MAJ_NEXT in
  (if next =? 0 then kret tt else let* prev := kld 8 maj MAJ_PREV in kst 8 next MAJ_PREV prev) ;;;
  let* msize := kld 4 maj MAJ_SIZE in
  kmod (λ h, set_allocated (u64 (l_allocated h - msize)) h) ;;;
  let* pages := kld 4 maj MAJ_PAGES in
  ksrc (liballoc_free maj pages).

Definition update_bet (maj : Z) : K unit :=
  let* best := kget l_bestBet in
  if best =? 0 then kret tt else
  let* bsize := kld 4 best MAJ_SIZE in
  let* busage := kld 4 best MAJ_USAGE in
  let* msize := kld 4 maj MAJ_SIZE in
  let* musage := kld 4 maj MAJ_USAGE in
  if s32 (u32 (bsize - busage)) <? s32 (u32 (msize - musage)) then kmod (set_bestBet maj) else kret tt.

Definition kfree (ptr : Z) : K unit :=
  if ptr =? 0 then kmod add_warning else
  let* ptr := UNALIGN ptr in
  liballoc_lock ;;;
  let min := u64 (ptr - MIN_SIZEOF) in
  let* magic := kld 4 min MIN_MAGIC in
  if negb (magic =? LIBALLOC_MAGIC) then bad_magic magic else
  let* maj := kld 8 min MIN_BLOCK in
  let* msize := kld 4 min MIN_SIZE in
  kmod (λ h, set_inuse (u64 (l_inuse h - msize)) h) ;;;
  let* usage := kld 4 maj MAJ_USAGE in
  kst 4 maj MAJ_USAGE (usage - (msize + MIN_SIZEOF)) ;;;
  kst 4 min MIN_MAGIC LIBALLOC_DEAD ;;;
  unlink_minor maj min ;;;
  let* first := kld 8 maj MAJ_FIRST in
  (if first =? 0 then release_block maj else update_bet maj) ;;;
  liballoc_unlock.

(** [real_size] is an [int]; a negative one becomes a huge [size_t], which the
    loop of [liballoc_memset] can not reach, and which is past every block. *)
Definition kcalloc (fuel : nat) (nobj size : Z) : K Z :=
  let real_size := s32 (u64 (nobj * size)) in
  let* p := kmalloc fuel (u64 real_size) in
  if real_size =? 0 then kret p else
  if (p =? 0) || (real_size <? 0) then kfault else
  kmod (λ h, set_hm (liballoc_memset (hm h) p 0 real_size) h) ;;;
  kret p.

Definition krealloc (fuel : nat) (p size : Z) : K Z :=
  if size =? 0 then kfree p ;;; kret 0 else
  if p =? 0 then kmalloc fuel size else
  let* ptr := UNALIGN p in
  liballoc_lock ;;;
  let min := u64 (ptr - MIN_SIZEOF) in
  let* magic := kld 4 min MIN_MAGIC in
  if negb (magic =? LIBALLOC_MAGIC) then bad_magic magic ;;; kret 0 else
  let* real_size := kld 4 min MIN_REQ_SIZE in
  if size <=? real_size then
    kst 4 min MIN_REQ_SIZE size ;;;
    liballoc_unlock ;;;
    kret p
  else
  liballoc_unlock ;;;
  let* ptr := kmalloc fuel size in
  (if (ptr =? 0) && negb (real_size =? 0) then kfault else
   kmod (λ h, set_hm (liballoc_memcpy (hm h) ptr p real_size) h)) ;;;
  kfree p ;;;
  kret ptr.
End heap.

(** [liballoc_wrappers.c]: the blocks are regions of the kernel's context. *)
Definition vma_source (hhdm_offset : Z) (fuel : nat) (kernel_pagemap kernel_vma_context : Z)
    {S : Type} `{PageAlloc S} : BlockSource S := {|
  liballoc_alloc pages :=
    vma_alloc hhdm_offset fuel kernel_vma_context (u64 (s32 pages)) (Z.lor VMM_PRESENT VMM_WRITE);
  liballoc_free ptr pages := vma_free hhdm_offset fuel kernel_pagemap kernel_vma_context ptr;
|}.
