(* ===== verification/HeapList.v ===== *)
(** * The lists of the kernel heap

    Facts about memory that do not depend on the allocator's code: doubly linked
    segments, whose nodes keep [prev] at offset 0 and [next] at offset 8; the
    order of the minors in a block; and what one block of pages looks like in
    memory when it holds a given list of minors ([block_ok]). *)

From stdpp Require Import base gmap list.
From Stdlib Require Import ZArith Lia.
From S2P Require Import Prelude Ram Heap.
#[local] Open Scope Z_scope.
#[global] Arguments load_le : simpl never.
#[global] Arguments store_le : simpl never.

(** The first and last address of a list, or a default. *)
Definition first_or (d : Z) (l : list Z) : Z := match l with [] => d | a :: _ => a end.
Fixpoint last_or (d : Z) (l : list Z) : Z := match l with [] => d | a :: r => last_or a r end.

(** The nodes [l] are linked in both directions; [prev] stands before the first
    and [nxt] after the last. *)
Fixpoint dseg (m : mem) (prev nxt : Z) (l : list Z) : Prop :=
  match l with
  | [] => True
  | a :: r => load_le 8 m a = prev ∧ load_le 8 m (a + 8) = first_or nxt r ∧ dseg m a nxt r
  end.

Lemma elem_of_mid {A} (x y : A) l1 l2 : x ∈ l1 ++ y :: l2 ↔ x = y ∨ x ∈ l1 ++ l2.
Proof. rewrite !elem_of_app, elem_of_cons. tauto. Qed.

Lemma first_or_app d l1 l2 : first_or d (l1 ++ l2) = first_or (first_or d l2) l1.
Proof. by destruct l1. Qed.

Lemma last_or_app d l1 l2 : last_or d (l1 ++ l2) = last_or (last_or d l1) l2.
Proof. revert d. by induction l1; simpl. Qed.

Lemma last_or_elem d l : last_or d l = d ∧ l = [] ∨ last_or d l ∈ l.
Proof.
  revert d. induction l as [|a r IH]; intros d; [by left|right]. simpl.
  destruct (IH a) as [[-> _]|]; set_solver.
Qed.

Lemma first_or_elem d l : first_or d l = d ∧ l = [] ∨ first_or d l ∈ l.
Proof. destruct l; [by left|right; simpl; set_solver]. Qed.

Lemma last_or_default d d' l : l ≠ [] → last_or d l = last_or d' l.
Proof. by destruct l. Qed.

Lemma dseg_app m p n l1 l2 :
  dseg m p n (l1 ++ l2) ↔ dseg m p (first_or n l2) l1 ∧ dseg m (last_or p l1) n l2.
Proof.
  revert p. induction l1 as [|a r IH]; intros p; simpl; [naive_solver|].
  rewrite IH, first_or_app. naive_solver.
Qed.

Lemma dseg_ext m m' p n l :
  (∀ a, a ∈ l → load_le 8 m' a = load_le 8 m a ∧ load_le 8 m' (a + 8) = load_le 8 m (a + 8)) →
  dseg m p n l → dseg m' p n l.
Proof.
  revert p. induction l as [|a r IH]; intros p Hl; [done|]. simpl. intros (H1 & H2 & H3).
  destruct (Hl a) as [-> ->]; [by left|]. split_and!; [done|done|]. apply IH; [|done]. intros b Hb. apply Hl. by right.
Qed.

(** The links of a node in the middle. *)
Lemma dseg_mid m p n l1 a l2 :
  dseg m p n (l1 ++ a :: l2) → load_le 8 m a = last_or p l1 ∧ load_le 8 m (a + 8) = first_or n l2.
Proof. intros [_ (H1 & H2 & _)]%dseg_app. done. Qed.

(** Another node after the segment. *)
Lemma dseg_next m m' p n n' l :
  NoDup l → dseg m p n l →
  (∀ a, a ∈ l → load_le 8 m' a = load_le 8 m a) →
  (∀ a, a ∈ l → a ≠ last_or 0 l → load_le 8 m' (a + 8) = load_le 8 m (a + 8)) →
  (l ≠ [] → load_le 8 m' (last_or 0 l + 8) = n') →
  dseg m' p n' l.
Proof.
  induction l as [|x l _] using rev_ind; [done|]. intros Hnd Hl Hp Hn Hx.
  rewrite last_or_app in Hx, Hn. simpl in Hx, Hn. apply dseg_app in Hl as [Hl Hl2].
  apply NoDup_app in Hnd as (_ & Hnd & _). apply dseg_app. split.
  - eapply dseg_ext; [|exact Hl]. intros a Ha. split; [apply Hp; set_solver|].
    apply Hn; [set_solver|]. intros ->. set_solver.
  - destruct Hl2 as (H1 & H2 & _). split_and!; [rewrite <- H1; apply Hp; set_solver| |done].
    simpl. apply Hx. by destruct l.
Qed.

(** Another node before it. *)
Lemma dseg_prev m m' p p' n l :
  NoDup l → dseg m p n l →
  (∀ a, a ∈ l → load_le 8 m' (a + 8) = load_le 8 m (a + 8)) →
  (∀ a, a ∈ l → a ≠ first_or 0 l → load_le 8 m' a = load_le 8 m a) →
  (l ≠ [] → load_le 8 m' (first_or 0 l) = p') →
  dseg m' p' n l.
Proof.
  destruct l as [|x l]; [done|]. intros [Hx Hnd]%NoDup_cons (H1 & H2 & H3) Hn Hp Hf. simpl in *.
  split_and!; [by apply Hf|rewrite <- H2; apply Hn; by left|].
  eapply dseg_ext; [|exact H3]. intros a Ha. split; [apply Hp|apply Hn]; [by right| |by right]. by intros ->.
Qed.

(** Linking [x] in, and taking it out. *)
Lemma dseg_insert m m' p n l1 x l2 :
  NoDup (l1 ++ l2) → dseg m p n (l1 ++ l2) →
  (∀ a, a ∈ l1 → load_le 8 m' a = load_le 8 m a) →
  (∀ a, a ∈ l1 → a ≠ last_or 0 l1 → load_le 8 m' (a + 8) = load_le 8 m (a + 8)) →
  (l1 ≠ [] → load_le 8 m' (last_or 0 l1 + 8) = x) →
  (∀ a, a ∈ l2 → load_le 8 m' (a + 8) = load_le 8 m (a + 8)) →
  (∀ a, a ∈ l2 → a ≠ first_or 0 l2 → load_le 8 m' a = load_le 8 m a) →
  (l2 ≠ [] → load_le 8 m' (first_or 0 l2) = x) →
  load_le 8 m' x = last_or p l1 → load_le 8 m' (x + 8) = first_or n l2 →
  dseg m' p n (l1 ++ x :: l2).
Proof.
  intros (N1 & _ & N2)%NoDup_app [H1 H2]%dseg_app A1 A2 A3 B1 B2 B3 X1 X2. apply dseg_app. split.
  - by apply (dseg_next m m' p (first_or n l2) x).
  - split_and!; [done|done|]. by apply (dseg_prev m m' (last_or p l1) x).
Qed.

Lemma dseg_remove m m' p n l1 x l2 :
  NoDup (l1 ++ x :: l2) → dseg m p n (l1 ++ x :: l2) →
  (∀ a, a ∈ l1 → load_le 8 m' a = load_le 8 m a) →
  (∀ a, a ∈ l1 → a ≠ last_or 0 l1 → load_le 8 m' (a + 8) = load_le 8 m (a + 8)) →
  (l1 ≠ [] → load_le 8 m' (last_or 0 l1 + 8) = first_or n l2) →
  (∀ a, a ∈ l2 → load_le 8 m' (a + 8) = load_le 8 m (a + 8)) →
  (∀ a, a ∈ l2 → a ≠ first_or 0 l2 → load_le 8 m' a = load_le 8 m a) →
  (l2 ≠ [] → load_le 8 m' (first_or 0 l2) = last_or p l1) →
  dseg m' p n (l1 ++ l2).
Proof.
  intros (N1 & _ & [_ N2]%NoDup_cons)%NoDup_app [H1 (_ & _ & H2)]%dseg_app A1 A2 A3 B1 B2 B3.
  apply dseg_app. split.
  - by apply (dseg_next m m' p x (first_or n l2)).
  - by apply (dseg_prev m m' x (last_or p l1)).
Qed.

(** ** Minors in a block *)

Record minor := Minor { mi : Z; msz : Z; mreq : Z }.
Record major := Major { ma : Z; mpages : Z; minors : list minor }.

#[export] Instance minor_eq_dec : EqDecision minor.
Proof. solve_decision. Defined.
#[export] Instance major_eq_dec : EqDecision major.
Proof. solve_decision. Defined.

(** The end of a minor, and the pointer its client has: the next multiple of 16
    that leaves 16 bytes free after the header. *)
Definition mend (x : minor) : Z := mi x + 40 + msz x.
Definition uptr (x : minor) : Z := (mi x + 71) / 16 * 16.
Definition bend (M : major) : Z := ma M + mpages M * 4096.

(** Minors lie between [lo] and [hi] in the order of the list, each with room
    for the bytes its client asked for. *)
Fixpoint fits (lo hi : Z) (l : list minor) : Prop :=
  match l with
  | [] => lo ≤ hi
  | x :: r => lo ≤ mi x ∧ 0 ≤ mreq x ∧ mreq x + 32 ≤ msz x ∧ fits (mend x) hi r
  end.

Fixpoint used (l : list minor) : Z := match l with [] => 0 | x :: r => msz x + 40 + used r end.

Fixpoint last_end (lo : Z) (l : list minor) : Z :=
  match l with [] => lo | x :: r => last_end (mend x) r end.

Lemma uptr_range x : mi x + 56 ≤ uptr x < mi x + 72.
Proof. unfold uptr. pose proof (Z.div_mod (mi x + 71) 16). pose proof (Z.mod_pos_bound (mi x + 71) 16). lia. Qed.

Lemma uptr_aligned x : uptr x mod 16 = 0.
Proof. apply Z.mod_mul. lia. Qed.

Lemma fits_app lo hi l1 l2 :
  fits lo hi (l1 ++ l2) ↔ fits lo (last_end lo l1) l1 ∧ fits (last_end lo l1) hi l2.
Proof. revert lo. induction l1 as [|x r IH]; intros lo; simpl; [|rewrite IH]; naive_solver lia. Qed.

Lemma fits_le lo hi l : fits lo hi l → lo ≤ hi.
Proof. revert lo. induction l as [|x r IH]; intros lo; simpl; [done|]. unfold mend. intros (? & ? & ? & H%IH). unfold mend in H. lia. Qed.

Lemma fits_elem lo hi l x :
  fits lo hi l → x ∈ l → lo ≤ mi x ∧ 0 ≤ mreq x ∧ mreq x + 32 ≤ msz x ∧ mend x ≤ hi.
Proof.
  revert lo. induction l as [|y r IH]; intros lo; simpl; [set_solver|].
  intros (H1 & H2 & H3 & H4) [->|Hx]%elem_of_cons; [apply fits_le in H4; auto|].
  apply (IH _ H4) in Hx. unfold mend in *. lia.
Qed.

Lemma fits_used lo hi l : fits lo hi l → 0 ≤ used l ≤ hi - lo.
Proof.
  revert lo. induction l as [|x r IH]; intros lo; simpl; [lia|]. intros (? & ? & ? & H%IH). unfold mend in *. lia.
Qed.

Lemma used_app l1 l2 : used (l1 ++ l2) = used l1 + used l2.
Proof. induction l1; simpl; lia. Qed.

Lemma fits_NoDup lo hi l : fits lo hi l → NoDup (mi <$> l).
Proof.
  revert lo. induction l as [|x r IH]; intros lo; simpl; [constructor|]. intros (? & ? & ? & H).
  apply NoDup_cons. split; [|by eapply IH]. intros (y & Hy & Hin)%list_elem_of_fmap.
  pose proof (fits_elem _ _ _ _ H Hin). unfold mend in *. lia.
Qed.

(** The last minor before a point, and the first after it, by their addresses. *)
Lemma last_or_mi l : l ≠ [] → ∃ l' x, l = l' ++ [x] ∧ last_or 0 (mi <$> l) = mi x.
Proof.
  induction l as [|x l _] using rev_ind; [done|]. intros _. exists l, x. split; [done|].
  by rewrite fmap_app, last_or_app.
Qed.

Lemma fits_cross lo hi l1 l2 x y : fits lo hi (l1 ++ l2) → x ∈ l1 → y ∈ l2 → mend x ≤ mi y.
Proof.
  intros [H1 H2]%fits_app Hx Hy. pose proof (fits_elem _ _ _ _ H1 Hx). pose proof (fits_elem _ _ _ _ H2 Hy). lia.
Qed.

Lemma fits_pair lo hi l x y :
  fits lo hi l → x ∈ l → y ∈ l → mi x = mi y ∨ mend x ≤ mi y ∨ mend y ≤ mi x.
Proof.
  revert lo. induction l as [|z r IH]; intros lo; [set_solver|]. intros (H1 & H2 & H3 & H4).
  assert (∀ y, y ∈ r → mend z ≤ mi y) as Hz by (intros w Hw; by apply (fits_elem _ _ _ _ H4 Hw)).
  intros [->|Hx]%elem_of_cons [->|Hy]%elem_of_cons; [by left| | |by eapply IH].
  - right; left. by apply Hz.
  - right; right. by apply Hz.
Qed.

(** ** A block of pages in memory *)

(** The header of a minor of the block [blk], links aside, and the byte before
    the client's pointer. *)
Record minor_ok (m : mem) (blk : Z) (x : minor) : Prop := {
  mo_block : load_le 8 m (mi x + 16) = blk;
  mo_magic : load_le 4 m (mi x + 24) = LIBALLOC_MAGIC;
  mo_size : load_le 4 m (mi x + 28) = msz x;
  mo_req : load_le 4 m (mi x + 32) = mreq x;
  mo_align : load8 m (uptr x - 16) = uptr x - mi x - 40;
}.

Record block_ok (m : mem) (M : major) : Prop := {
  bk_addr : 0 < ma M ∧ 0 < mpages M ∧ mpages M * 4096 < 2 ^ 32 ∧ bend M ≤ 2 ^ 64;
  bk_pages : load_le 4 m (ma M + 16) = mpages M;
  bk_size : load_le 4 m (ma M + 20) = mpages M * 4096;
  bk_usage : load_le 4 m (ma M + 24) = 40 + used (minors M);
  bk_first : load_le 8 m (ma M + 32) = first_or 0 (mi <$> minors M);
  bk_list : dseg m 0 0 (mi <$> minors M);
  bk_minors : ∀ x, x ∈ minors M → minor_ok m (ma M) x;
  bk_fits : fits (ma M + 40) (bend M) (minors M);
}.

(** The bytes the heap keeps for itself. *)
Definition minor_own (x : minor) (a : Z) : Prop := mi x ≤ a < mi x + 40 ∨ a = uptr x - 16.
Definition block_own (M : major) (a : Z) : Prop :=
  ma M ≤ a < ma M + 40 ∨ ∃ x, x ∈ minors M ∧ minor_own x a.
(** The bytes a client of the block may use. *)
Definition block_user (M : major) (a : Z) : Prop :=
  ∃ x, x ∈ minors M ∧ uptr x ≤ a < uptr x + mreq x.

Lemma minor_ok_ext m m' blk x :
  (∀ a, mi x + 16 ≤ a < mi x + 40 ∨ a = uptr x - 16 → load8 m' a = load8 m a) →
  minor_ok m blk x → minor_ok m' blk x.
Proof.
  intros He [H1 H2 H3 H4 H5].
  split; [rewrite <- H1|rewrite <- H2|rewrite <- H3|rewrite <- H4|rewrite <- H5; apply He; by right];
    apply load_le_ext; intros b Hb; apply He; lia.
Qed.

(** A block depends only on the bytes that belong to it, the links between
    blocks aside. *)
Lemma block_ok_ext m m' M :
  (∀ a, block_own M a → ¬ (ma M ≤ a < ma M + 16) → load8 m' a = load8 m a) →
  block_ok m M → block_ok m' M.
Proof.
  intros He [H1 H2 H3 H4 H5 H6 H7 H8].
  assert (∀ n a, ma M + 16 ≤ a → a + Z.of_nat n ≤ ma M + 40 → load_le n m' a = load_le n m a) as Hh.
  { intros n a Ha Hn. apply load_le_ext. intros b Hb. apply He; [left|]; lia. }
  assert (∀ x a, x ∈ minors M → minor_own x a → load8 m' a = load8 m a) as Hx.
  { intros x a Hx Ho. pose proof (fits_elem _ _ _ _ H8 Hx). pose proof (uptr_range x).
    apply He; [right; by exists x|]. destruct Ho as [? | ->]; lia. }
  split; rewrite ?Hh by lia; try done.
  - eapply dseg_ext; [|done]. intros a (x & -> & Hin)%list_elem_of_fmap.
    split; apply load_le_ext; intros b Hb; apply (Hx x); try done; left; lia.
  - intros x Hin. eapply minor_ok_ext; [|by apply H7]. intros a Ha. apply (Hx x); [done|]. unfold minor_own. lia.
Qed.

(** Client bytes are no bytes of the heap's own, and those of one allocation are
    not those of another. *)
Lemma user_not_own m M a : block_ok m M → block_user M a → ¬ block_own M a.
Proof.
  intros Hb (x & Hx & Ha) [Ho|(y & Hy & Ho)]; pose proof (fits_elem _ _ _ _ (bk_fits _ _ Hb) Hx) as Fx;
    pose proof (uptr_range x); unfold mend in *; [lia|].
  pose proof (fits_elem _ _ _ _ (bk_fits _ _ Hb) Hy). pose proof (uptr_range y).
  pose proof (fits_pair _ _ _ _ _ (bk_fits _ _ Hb) Hx Hy) as [Heq|?]; unfold mend, minor_own in *; [|lia].
  assert (uptr x = uptr y) by (unfold uptr; by rewrite Heq). lia.
Qed.

Lemma block_bounds m M a : block_ok m M → block_own M a ∨ block_user M a → ma M ≤ a < bend M.
Proof.
  intros Hb. pose proof (bk_addr _ _ Hb). assert (ma M + 40 ≤ bend M) by apply (fits_le _ _ _ (bk_fits _ _ Hb)).
  intros [[Ho|(x & Hx & Ho)]|(x & Hx & Ho)]; [lia| |]; pose proof (fits_elem _ _ _ _ (bk_fits _ _ Hb) Hx) as Fx;
    pose proof (uptr_range x); unfold mend, minor_own in *; lia.
Qed.

(** ** Putting a minor in and taking it out *)

(** The fields that change around the place between [l1] and [l2]: the block's
    [usage] and [first], [next] of the minor before and [prev] of the one after. *)
Definition link_bytes (M : major) (l1 l2 : list minor) (a : Z) : Prop :=
  ma M + 24 ≤ a < ma M + 28 ∨ ma M + 32 ≤ a < ma M + 40 ∨
  (∃ l x, l1 = l ++ [x] ∧ mi x + 8 ≤ a < mi x + 16) ∨
  (∃ x l, l2 = x :: l ∧ mi x ≤ a < mi x + 8).

Lemma link_bytes_own M l1 l2 a :
  (∀ x, x ∈ l1 ++ l2 → x ∈ minors M) → link_bytes M l1 l2 a → block_own M a.
Proof.
  intros Hl [?|[?|[(l & x & -> & ?)|(x & l & -> & ?)]]]; [left; lia|left; lia| |];
    right; exists x; (split; [apply Hl; set_solver|left; lia]).
Qed.

(** The links do not touch the rest of a minor. *)
Lemma link_bytes_body M l1 l2 x a lo hi :
  fits lo hi (l1 ++ l2) → ma M + 40 ≤ lo → x ∈ l1 ++ l2 →
  mi x + 16 ≤ a < mi x + 40 ∨ a = uptr x - 16 → ¬ link_bytes M l1 l2 a.
Proof.
  intros Hf Hlo Hx Ha Hw. pose proof (fits_elem _ _ _ _ Hf Hx) as Fx. pose proof (uptr_range x).
  destruct Hw as [?|[?|[(l & y & Hy & ?)|(y & l & Hy & ?)]]]; [unfold mend in *; lia..| |];
    pose proof (fits_pair _ _ _ x y Hf Hx ltac:(set_solver));
    pose proof (fits_elem _ _ _ y Hf ltac:(set_solver)); unfold mend in *; lia.
Qed.

Section surgery.
Context (m m' : mem) (M : major) (l1 l2 : list minor) (x : minor).

Lemma link_load_prev lo hi y n :
  fits lo hi (l1 ++ l2) → ma M + 40 ≤ lo → y ∈ l1 →
  (∀ a, ¬ link_bytes M l1 l2 a → mi y ≤ a < mi y + 8 → load8 m' a = load8 m a) → (n ≤ 8)%nat →
  load_le n m' (mi y) = load_le n m (mi y).
Proof.
  intros Hf Hlo Hy He Hn. apply load_le_ext. intros b Hb. apply He; [|lia].
  pose proof (fits_elem _ _ _ y Hf ltac:(set_solver)) as Fy.
  intros [?|[?|[(l & z & Hz & ?)|(z & l & Hz & ?)]]]; [unfold mend in *; lia..| |].
  - pose proof (fits_pair _ _ _ y z Hf ltac:(set_solver) ltac:(set_solver)).
    pose proof (fits_elem _ _ _ z Hf ltac:(set_solver)). unfold mend in *. lia.
  - pose proof (fits_cross _ _ _ _ y z Hf ltac:(set_solver) ltac:(set_solver)). unfold mend in *. lia.
Qed.

Lemma link_load_next lo hi y n :
  fits lo hi (l1 ++ l2) → ma M + 40 ≤ lo → y ∈ l2 →
  (∀ a, ¬ link_bytes M l1 l2 a → mi y + 8 ≤ a < mi y + 16 → load8 m' a = load8 m a) → (n ≤ 8)%nat →
  load_le n m' (mi y + 8) = load_le n m (mi y + 8).
Proof.
  intros Hf Hlo Hy He Hn. apply load_le_ext. intros b Hb. apply He; [|lia].
  pose proof (fits_elem _ _ _ y Hf ltac:(set_solver)) as Fy.
  intros [?|[?|[(l & z & Hz & ?)|(z & l & Hz & ?)]]]; [unfold mend in *; lia..| |].
  - pose proof (fits_cross _ _ _ _ z y Hf ltac:(set_solver) ltac:(set_solver)).
    pose proof (fits_elem _ _ _ z Hf ltac:(set_solver)). unfold mend in *. lia.
  - pose proof (fits_pair _ _ _ y z Hf ltac:(set_solver) ltac:(set_solver)).
    pose proof (fits_elem _ _ _ z Hf ltac:(set_solver)). unfold mend in *. lia.
Qed.

Lemma link_load_far lo hi y off n :
  fits lo hi (l1 ++ l2) → ma M + 40 ≤ lo →
  y ∈ l1 ∧ mi y ≠ last_or 0 (mi <$> l1) ∨ y ∈ l2 ∧ mi y ≠ first_or 0 (mi <$> l2) →
  0 ≤ off → off + Z.of_nat n ≤ 16 →
  (∀ a, ¬ link_bytes M l1 l2 a → mi y ≤ a < mi y + 16 → load8 m' a = load8 m a) →
  load_le n m' (mi y + off) = load_le n m (mi y + off).
Proof.
  intros Hf Hlo Hy Ho Hn He. apply load_le_ext. intros b Hb. apply He; [|lia].
  pose proof (fits_elem _ _ _ y Hf ltac:(set_solver)) as Fy.
  intros [?|[?|[(l & z & Hz & ?)|(z & l & Hz & ?)]]]; [unfold mend in *; lia..| |];
    pose proof (fits_pair _ _ _ y z Hf ltac:(set_solver) ltac:(set_solver));
    pose proof (fits_elem _ _ _ z Hf ltac:(set_solver)); destruct Hy as [[Hy N]|[Hy N]];
    try (rewrite Hz, fmap_app, last_or_app in N; simpl in N); try (rewrite Hz in N; simpl in N);
    try pose proof (fits_cross _ _ _ _ y z Hf Hy ltac:(set_solver));
    try pose proof (fits_cross _ _ _ _ z y Hf ltac:(set_solver) Hy); unfold mend in *; lia.
Qed.
End surgery.

(** The links of the minors after the fields around the place have changed. *)
Lemma links_insert m m' M l1 x l2 lo hi :
  fits lo hi (l1 ++ l2) → 0 < ma M → ma M + 40 ≤ lo → dseg m 0 0 (mi <$> l1 ++ l2) →
  (∀ y a, y ∈ l1 ++ l2 → ¬ link_bytes M l1 l2 a → mi y ≤ a < mi y + 16 → load8 m' a = load8 m a) →
  load_le 8 m' (mi x) = last_or 0 (mi <$> l1) → load_le 8 m' (mi x + 8) = first_or 0 (mi <$> l2) →
  (l1 ≠ [] → load_le 8 m' (last_or 0 (mi <$> l1) + 8) = mi x) →
  (l2 ≠ [] → load_le 8 m' (first_or 0 (mi <$> l2)) = mi x) →
  dseg m' 0 0 (mi <$> l1 ++ x :: l2).
Proof.
  intros Hf Ha Hlo Hd He X1 X2 P N. rewrite fmap_app, fmap_cons.
  pose proof (fits_NoDup _ _ _ Hf) as Hnd. rewrite fmap_app in Hd, Hnd.
  apply (dseg_insert m); try done.
  - intros a (y & -> & Hy)%list_elem_of_fmap. eapply (link_load_prev m m' M); [done..| |lia].
    intros b Hb Hr. apply (He y); [set_solver|done|lia].
  - intros a (y & -> & Hy)%list_elem_of_fmap Hne.
    eapply (link_load_far m m' M l1 l2); [done|done|by left|lia|lia|]. intros b. apply (He y). set_solver.
  - intros Hl. apply P. by intros ->.
  - intros a (y & -> & Hy)%list_elem_of_fmap. eapply (link_load_next m m' M l1 l2); [done..| |lia].
    intros b Hb Hr. apply (He y); [set_solver|done|lia].
  - intros a (y & -> & Hy)%list_elem_of_fmap Hne. rewrite <- (Z.add_0_r (mi y)).
    eapply (link_load_far m m' M l1 l2); [done|done|by right|lia|lia|]. intros b. apply (He y). set_solver.
  - intros Hl. apply N. by intros ->.
Qed.

Lemma links_remove m m' M l1 x l2 lo hi :
  fits lo hi (l1 ++ x :: l2) → 0 < ma M → ma M + 40 ≤ lo → dseg m 0 0 (mi <$> l1 ++ x :: l2) →
  (∀ y a, y ∈ l1 ++ l2 → ¬ link_bytes M l1 l2 a → mi y ≤ a < mi y + 16 → load8 m' a = load8 m a) →
  (l1 ≠ [] → load_le 8 m' (last_or 0 (mi <$> l1) + 8) = first_or 0 (mi <$> l2)) →
  (l2 ≠ [] → load_le 8 m' (first_or 0 (mi <$> l2)) = last_or 0 (mi <$> l1)) →
  fits lo hi (l1 ++ l2) → dseg m' 0 0 (mi <$> l1 ++ l2).
Proof.
  intros Hf Ha Hlo Hd He P N Hf'. rewrite fmap_app. pose proof (fits_NoDup _ _ _ Hf) as Hnd.
  rewrite fmap_app, fmap_cons in Hd, Hnd. apply (dseg_remove m m' 0 0 _ (mi x)); try done.
  - intros a (y & -> & Hy)%list_elem_of_fmap. eapply (link_load_prev m m' M); [done..| |lia].
    intros b Hb Hr. apply (He y); [set_solver|done|lia].
  - intros a (y & -> & Hy)%list_elem_of_fmap Hne.
    eapply (link_load_far m m' M l1 l2); [done|done|by left|lia|lia|]. intros b. apply (He y). set_solver.
  - intros Hl. apply P. by intros ->.
  - intros a (y & -> & Hy)%list_elem_of_fmap. eapply (link_load_next m m' M l1 l2); [done..| |lia].
    intros b Hb Hr. apply (He y); [set_solver|done|lia].
  - intros a (y & -> & Hy)%list_elem_of_fmap Hne. rewrite <- (Z.add_0_r (mi y)).
    eapply (link_load_far m m' M l1 l2); [done|done|by right|lia|lia|]. intros b. apply (He y). set_solver.
  - intros Hl. apply N. by intros ->.
Qed.

Lemma fits_remove lo hi l1 x l2 : fits lo hi (l1 ++ x :: l2) → fits lo hi (l1 ++ l2).
Proof.
  revert lo. induction l1 as [|y r IH]; intros lo; simpl; [|naive_solver]. intros (? & ? & ? & H).
  destruct l2 as [|z l2]; simpl in *; unfold mend in *; [lia|]. naive_solver lia.
Qed.


(** Two minors of a block share no byte. *)
Lemma minor_own_disjoint lo hi l1 x l2 y a :
  fits lo hi (l1 ++ x :: l2) → y ∈ l1 ++ l2 → minor_own y a → ¬ minor_own x a.
Proof.
  intros Hf Hy Ho. pose proof (fits_pair _ _ _ x y Hf ltac:(set_solver) ltac:(set_solver)) as Hp.
  pose proof (fits_elem _ _ _ x Hf ltac:(set_solver)). pose proof (fits_elem _ _ _ y Hf ltac:(set_solver)).
  assert (mi x ≠ mi y).
  { apply fits_NoDup in Hf. rewrite fmap_app, fmap_cons in Hf. intros Heq.
    apply NoDup_app in Hf as (_ & Hd & [Hn _]%NoDup_cons). apply elem_of_app in Hy as [Hy|Hy].
    - apply (Hd (mi x)); [|by left]. rewrite Heq. by apply list_elem_of_fmap_2.
    - apply Hn. rewrite Heq. by apply list_elem_of_fmap_2. }
  pose proof (uptr_range x). pose proof (uptr_range y). unfold minor_own, mend in *. lia.
Qed.

(** The part of a block that does not change with its list. *)
Lemma header_kept m m' M l1 x l2 a :
  fits (ma M + 40) (bend M) (l1 ++ x :: l2) →
  (∀ a, ¬ link_bytes M l1 l2 a → ¬ minor_own x a → load8 m' a = load8 m a) →
  ma M ≤ a < ma M + 24 → load8 m' a = load8 m a.
Proof.
  intros Hf He Ha. pose proof (fits_elem _ _ _ x Hf ltac:(set_solver)). pose proof (uptr_range x).
  apply He; [|unfold minor_own; lia]. intros [?|[?|[(l & y & -> & ?)|(y & l & -> & ?)]]]; [lia..| |];
    pose proof (fits_elem _ _ _ y Hf ltac:(set_solver)); lia.
Qed.

(** [x] is written between [l1] and [l2]. *)
Lemma block_insert m m' M l1 x l2 :
  block_ok m M → minors M = l1 ++ l2 → fits (ma M + 40) (bend M) (l1 ++ x :: l2) →
  (∀ a, ¬ link_bytes M l1 l2 a → ¬ minor_own x a → load8 m' a = load8 m a) →
  load_le 4 m' (ma M + 24) = 40 + used (l1 ++ x :: l2) →
  load_le 8 m' (ma M + 32) = first_or 0 (mi <$> l1 ++ x :: l2) →
  load_le 8 m' (mi x) = last_or 0 (mi <$> l1) → load_le 8 m' (mi x + 8) = first_or 0 (mi <$> l2) →
  (l1 ≠ [] → load_le 8 m' (last_or 0 (mi <$> l1) + 8) = mi x) →
  (l2 ≠ [] → load_le 8 m' (first_or 0 (mi <$> l2)) = mi x) →
  minor_ok m' (ma M) x →
  block_ok m' (Major (ma M) (mpages M) (l1 ++ x :: l2)).
Proof.
  intros [H1 H2 H3 H4 H5 H6 H7 H8] Hl Hf He Hu Hfirst X1 X2 P N Hx. rewrite Hl in *.
  pose proof (λ y a, minor_own_disjoint _ _ l1 x l2 y a Hf) as Hdis.
  pose proof (λ a, header_kept m m' M l1 x l2 a Hf He) as Hh.
  split; simpl; try done.
  - rewrite <- H2. apply load_le_ext. intros b Hb. apply Hh. lia.
  - rewrite <- H3. apply load_le_ext. intros b Hb. apply Hh. lia.
  - eapply (links_insert m m' M); try done; [lia|]. intros y a Hy Hw Ha. apply He; [done|].
    apply (Hdis y); [done|left; lia].
  - intros y Hy. destruct (decide (y = x)) as [->|Hne]; [done|].
    assert (y ∈ l1 ++ l2) as Hin by set_solver. eapply minor_ok_ext; [|by apply H7].
    intros a Ha. apply He; [by eapply link_bytes_body|]. apply (Hdis y); [done|]. unfold minor_own. lia.
Qed.

(** [x] is taken out from between [l1] and [l2]. *)
Lemma block_remove m m' M l1 x l2 :
  block_ok m M → minors M = l1 ++ x :: l2 →
  (∀ a, ¬ link_bytes M l1 l2 a → ¬ minor_own x a → load8 m' a = load8 m a) →
  load_le 4 m' (ma M + 24) = 40 + used (l1 ++ l2) →
  load_le 8 m' (ma M + 32) = first_or 0 (mi <$> l1 ++ l2) →
  (l1 ≠ [] → load_le 8 m' (last_or 0 (mi <$> l1) + 8) = first_or 0 (mi <$> l2)) →
  (l2 ≠ [] → load_le 8 m' (first_or 0 (mi <$> l2)) = last_or 0 (mi <$> l1)) →
  block_ok m' (Major (ma M) (mpages M) (l1 ++ l2)).
Proof.
  intros [H1 H2 H3 H4 H5 H6 H7 H8] Hl He Hu Hfirst P N. rewrite Hl in *. pose proof (fits_remove _ _ _ _ _ H8) as Hf.
  pose proof (λ y a, minor_own_disjoint _ _ l1 x l2 y a H8) as Hdis.
  pose proof (λ a, header_kept m m' M l1 x l2 a H8 He) as Hh.
  split; simpl; try done.
  - rewrite <- H2. apply load_le_ext. intros b Hb. apply Hh. lia.
  - rewrite <- H3. apply load_le_ext. intros b Hb. apply Hh. lia.
  - eapply (links_remove m m' M); try done; [lia|]. intros y a Hy Hw Ha. apply He; [done|].
    apply (Hdis y); [done|left; lia].
  - intros y Hy. eapply minor_ok_ext; [|apply H7; set_solver].
    intros a Ha. apply He; [by eapply link_bytes_body|]. apply (Hdis y); [done|]. unfold minor_own. lia.
Qed.
