(* ===== verification/HeapPlace.v ===== *)
(** * Placing an allocation in a block

    The cases 2 to 4 of [kmalloc] on one block of pages: each writes a new minor
    into a gap of the block's list ([placed]), and together they find a gap when
    the block is empty or the scan meets one ([place_run]). *)

From stdpp Require Import base gmap list.
From Stdlib Require Import ZArith Lia.
From S2P Require Import Prelude Ram Heap HeapList.
#[local] Open Scope Z_scope.

Lemma load_store_at n m a b v : a = b → load_le n (store_le n m a v) b = v mod 256 ^ Z.of_nat n.
Proof. intros ->. apply load_store_le_eq. Qed.

Lemma load_le_store8_ne k m a b v :
  b + Z.of_nat k ≤ a ∨ a + 1 ≤ b → load_le k (store8 m a v) b = load_le k m b.
Proof. apply (load_store_le_ne 1). Qed.

(** Reading a field back from a memory written field by field. *)
Ltac mload1 :=
  match goal with
  | |- context [load_le ?k (store_le ?n ?m ?a ?v) ?b] =>
      first [rewrite (load_store_le_ne n k m a b v) by lia | rewrite (load_store_at n m a b v) by lia]
  | |- context [load_le ?k (store8 ?m ?a ?v) ?b] =>
      rewrite (load_le_store8_ne k m a b v) by lia
  end.
Ltac mload := repeat mload1.

(** The conversions of values that fit. *)
Ltac smallmod :=
  change (256 ^ Z.of_nat 4) with (2 ^ 32); change (256 ^ Z.of_nat 8) with (2 ^ 64);
  rewrite ?Z.mod_small by (unfold LIBALLOC_MAGIC in *; lia).

Ltac vload := cbn [used app first_or last_or fmap list_fmap] in *; mload; smallmod; lia.

(** A byte outside the fields written. *)
Ltac mframe :=
  repeat first
    [ rewrite load8_store8_ne by lia
    | rewrite load8_store_le_out by lia ].

Section run.
Context {S : Type} `{BlockSource S}.
Implicit Types h : heap S.

Lemma kld_run n p off h : p ≠ 0 → kld n p off h = Ret (load_le n (hm h) (p + off)) h.
Proof. intros Hp. unfold kld. by rewrite (proj2 (Z.eqb_neq p 0) Hp). Qed.

Lemma kst_run n p off v h : p ≠ 0 → kst n p off v h = Ret tt (set_hm (store_le n (hm h) (p + off) v) h).
Proof. intros Hp. unfold kst. by rewrite (proj2 (Z.eqb_neq p 0) Hp). Qed.

(** [ALIGN] finds the pointer of the specification. *)
Lemma ALIGN_run x h :
  0 ≤ mi x → mi x + 72 ≤ 2 ^ 64 →
  ALIGN (mi x + 40) h = Ret (uptr x) (set_hm (store8 (hm h) (uptr x - 16) (uptr x - mi x - 40)) h).
Proof.
  intros H0 H1. pose proof (uptr_range x) as Hu. unfold ALIGN, ALIGN_INFO, ALIGNMENT.
  rewrite (u64_small (mi x + 40 + 16)) by lia.
  change (16 - 1) with (Z.ones 4). rewrite Z.land_ones by lia.
  set (d := if _ =? 0 then _ else _).
  assert (mi x + 40 + 16 + d = uptr x) as Hd.
  { unfold d, uptr. change (2 ^ 4) with 16. pose proof (Z.div_mod (mi x + 40 + 16) 16 ltac:(lia)).
    pose proof (Z.mod_pos_bound (mi x + 40 + 16) 16 ltac:(lia)). pose proof (Z.div_mod (mi x + 71) 16 ltac:(lia)).
    pose proof (Z.mod_pos_bound (mi x + 71) 16 ltac:(lia)). zcases; nia. }
  clearbody d. rewrite Hd, (u64_small (uptr x)), (u64_small (uptr x - 16)) by lia. unfold kbind, kmod, kret. do 3 f_equal. lia.
Qed.

Lemma account_run maj x h :
  0 < maj → 0 ≤ mi x → mi x + 72 ≤ 2 ^ 64 →
  account maj (mi x) (msz x) h =
  Ret (uptr x) (set_inuse (u64 (l_inuse h + msz x))
    (set_hm (store8 (store_le 4 (hm h) (maj + 24) (load_le 4 (hm h) (maj + 24) + msz x + 40))
      (uptr x - 16) (uptr x - mi x - 40)) h)).
Proof.
  intros Hmaj H0 H1. unfold account, MAJ_USAGE, MIN_SIZEOF.
  rewrite (kbind_run _ _ _ _ _ (kld_run 4 maj 24 h ltac:(lia))).
  rewrite (kbind_run _ _ _ _ _ (kst_run 4 maj 24 _ h ltac:(lia))).
  rewrite (kbind_run (kmod _) _ _ tt _ eq_refl), u64_small by lia.
  rewrite ALIGN_run by lia. by destruct h.
Qed.
End run.

(** Running a sequence of field accesses. *)
Ltac hstep :=
  match goal with
  | |- context [kbind (kst ?n ?p ?o ?v) ?k ?h] =>
      rewrite (kbind_run _ k h _ _ (kst_run n p o v h ltac:(lia))); cbn [hm set_hm set_inuse set_src set_allocated]
  | |- context [kbind (kld ?n ?p ?o) ?k ?h] =>
      rewrite (kbind_run _ k h _ _ (kld_run n p o h ltac:(lia))); cbn [hm set_hm set_inuse set_src set_allocated]
  end.

(** ** The four places for a new minor *)

(** The memory [m'] has [x] linked in between [l1] and [l2]. *)
Record placed (m m' : mem) (M : major) (l1 : list minor) (x : minor) (l2 : list minor) : Prop := {
  pl_frame : ∀ a, ¬ link_bytes M l1 l2 a → ¬ minor_own x a → load8 m' a = load8 m a;
  pl_usage : load_le 4 m' (ma M + 24) = 40 + used (l1 ++ x :: l2);
  pl_first : load_le 8 m' (ma M + 32) = first_or 0 (mi <$> l1 ++ x :: l2);
  pl_xprev : load_le 8 m' (mi x) = last_or 0 (mi <$> l1);
  pl_xnext : load_le 8 m' (mi x + 8) = first_or 0 (mi <$> l2);
  pl_prev : l1 ≠ [] → load_le 8 m' (last_or 0 (mi <$> l1) + 8) = mi x;
  pl_next : l2 ≠ [] → load_le 8 m' (first_or 0 (mi <$> l2)) = mi x;
  pl_minor : minor_ok m' (ma M) x;
}.

Lemma placed_block m m' M l1 x l2 :
  block_ok m M → minors M = l1 ++ l2 → fits (ma M + 40) (bend M) (l1 ++ x :: l2) →
  placed m m' M l1 x l2 → block_ok m' (Major (ma M) (mpages M) (l1 ++ x :: l2)).
Proof. intros ??? []. by eapply block_insert. Qed.

(** Bytes outside the fields of [link_bytes] and of the new minor. *)
Lemma not_link_head M l1 l2 a :
  ¬ link_bytes M l1 l2 a → ¬ (ma M + 24 ≤ a < ma M + 28) ∧ ¬ (ma M + 32 ≤ a < ma M + 40).
Proof. unfold link_bytes. tauto. Qed.

Lemma not_link_snoc M l y l2 a : ¬ link_bytes M (l ++ [y]) l2 a → ¬ (mi y + 8 ≤ a < mi y + 16).
Proof. intros Hw Ha. apply Hw. right; right; left. by exists l, y. Qed.

Lemma not_link_cons M l1 y l a : ¬ link_bytes M l1 (y :: l) a → ¬ (mi y ≤ a < mi y + 8).
Proof. intros Hw Ha. apply Hw. right; right; right. by exists y, l. Qed.

Ltac link_frame :=
  let a := fresh "a" in let Hw := fresh in let Ho := fresh in
  intros a Hw Ho; unfold minor_own in Ho; pose proof (not_link_head _ _ _ _ Hw);
  try pose proof (not_link_snoc _ _ _ _ _ Hw); try pose proof (not_link_cons _ _ _ _ _ Hw);
  mframe; done.

Section cases.
Context {S : Type} `{BlockSource S}.
Implicit Types h : heap S.

(** What the four cases start from. *)
Record gap (m : mem) (M : major) (l1 : list minor) (x : minor) (l2 : list minor) : Prop := {
  gap_block : block_ok m M;
  gap_minors : minors M = l1 ++ l2;
  gap_fits : fits (ma M + 40) (bend M) (l1 ++ x :: l2);
}.

Definition done_with (m' : mem) (x : minor) h : heap S :=
  set_inuse (u64 (l_inuse h + msz x)) (set_hm m' h).

Lemma case2_run M x h :
  gap (hm h) M [] x [] → mi x = ma M + 40 →
  ∃ m', case2 (ma M) (msz x) (mreq x) h = Ret (uptr x) (done_with m' x h) ∧ placed (hm h) m' M [] x [].
Proof.
  intros [[H1 H2 H3 H4 H5 H6 H7 H8] Hl Hf] Hx. rewrite Hl in *. pose proof (uptr_range x) as Hu.
  destruct Hf as (F1 & F2 & F3 & F4). simpl in F4. unfold mend, bend in *.
  unfold case2, MAJ_FIRST, MAJ_SIZEOF. hstep. hstep. mload.
  rewrite !(u64_small (ma M + 40)), (Z.mod_small (ma M + 40)) by lia.
  unfold MIN_MAGIC, MIN_PREV, MIN_NEXT, MIN_BLOCK, MIN_SIZE, MIN_REQ_SIZE. do 6 hstep.
  rewrite <- Hx. rewrite account_run by lia. cbn [hm set_hm l_inuse].
  eexists. split; [by destruct h|]. mload. rewrite H4.
  split; [|vload..| | |].
  - link_frame.
  - done.
  - done.
  - split; [vload..|]. rewrite load8_store8_eq. apply Z.mod_small. lia.
Qed.

Lemma case3_run M x y l2 h :
  gap (hm h) M [] x (y :: l2) → mi x = ma M + 40 →
  ∃ m', case3 (ma M) (mi y) (msz x) (mreq x) h = Ret (uptr x) (done_with m' x h) ∧
    placed (hm h) m' M [] x (y :: l2).
Proof.
  intros [[H1 H2 H3 H4 H5 H6 H7 H8] Hl Hf] Hx. rewrite Hl in *. pose proof (uptr_range x) as Hu.
  pose proof (fits_used _ _ _ Hf) as Hus. destruct Hf as (F1 & F2 & F3 & F4 & F5 & F6 & F7).
  apply fits_le in F7. unfold mend, bend in *.
  unfold case3, MAJ_FIRST, MAJ_SIZEOF, MIN_MAGIC, MIN_PREV, MIN_NEXT, MIN_BLOCK, MIN_SIZE, MIN_REQ_SIZE.
  do 2 hstep. mload. rewrite !(u64_small (ma M + 40)), (Z.mod_small (ma M + 40)), <- Hx by lia.
  do 7 hstep. rewrite account_run by lia. cbn [hm set_hm l_inuse].
  eexists. split; [by destruct h|]. mload. rewrite H4.
  split; [|vload..| | |].
  - link_frame.
  - done.
  - intros _. vload.
  - split; [vload..|]. rewrite load8_store8_eq. apply Z.mod_small. lia.
Qed.

Lemma first_or_snoc l (y : minor) l2 :
  first_or 0 (mi <$> (l ++ [y]) ++ l2) = first_or 0 (mi <$> l ++ [y]).
Proof. by destruct l. Qed.

Lemma last_or_snoc l (y : minor) d : last_or d (mi <$> l ++ [y]) = mi y.
Proof. by rewrite fmap_app, last_or_app. Qed.

Lemma case41_run M x y l h :
  gap (hm h) M (l ++ [y]) x [] → mi x = mend y →
  ∃ m', case41 (ma M) (mi y) (msz y) (msz x) (mreq x) h = Ret (uptr x) (done_with m' x h) ∧
    placed (hm h) m' M (l ++ [y]) x [].
Proof.
  intros [[H1 H2 H3 H4 H5 H6 H7 H8] Hl Hf] Hx. rewrite Hl in *. pose proof (uptr_range x) as Hu.
  pose proof (fits_used _ _ _ Hf) as Hus. pose proof (fits_elem _ _ _ x Hf ltac:(set_solver)) as Fx.
  pose proof (fits_elem _ _ _ y Hf ltac:(set_solver)) as Fy. clear Hf. unfold mend, bend in *.
  unfold case41, MIN_MAGIC, MIN_PREV, MIN_NEXT, MIN_BLOCK, MIN_SIZE, MIN_REQ_SIZE, MIN_SIZEOF.
  do 2 hstep. mload. rewrite !(u64_small (mi y + 40 + msz y)), (Z.mod_small (mi y + 40 + msz y)), <- Hx by lia.
  do 6 hstep. rewrite account_run by lia. cbn [hm set_hm l_inuse].
  eexists. split; [by destruct h|]. mload. rewrite H4, app_nil_r in *. rewrite !used_app in Hus. cbn [used] in Hus.
  split; rewrite ?first_or_snoc, ?last_or_snoc, ?app_nil_r, ?used_app; [|cbn [used]; vload..| | |].
  - link_frame.
  - intros _. vload.
  - done.
  - split; [vload..|]. rewrite load8_store8_eq. apply Z.mod_small. lia.
Qed.

Lemma case42_run M x y z l l2 h :
  gap (hm h) M (l ++ [y]) x (z :: l2) → mi x = mend y →
  ∃ m', case42 (ma M) (mi y) (mi z) (msz y) (msz x) (mreq x) h = Ret (uptr x) (done_with m' x h) ∧
    placed (hm h) m' M (l ++ [y]) x (z :: l2).
Proof.
  intros [[H1 H2 H3 H4 H5 H6 H7 H8] Hl Hf] Hx. rewrite Hl in *. pose proof (uptr_range x) as Hu.
  pose proof (fits_used _ _ _ Hf) as Hus. pose proof (fits_elem _ _ _ x Hf ltac:(set_solver)) as Fx.
  pose proof (fits_elem _ _ _ y Hf ltac:(set_solver)) as Fy. pose proof (fits_elem _ _ _ z Hf ltac:(set_solver)) as Fz.
  assert (mend x ≤ mi z) as Fxz.
  { rewrite (app_assoc _ [x] (z :: l2) : (l ++ [y]) ++ x :: z :: l2 = _) in Hf. apply (fits_cross _ _ _ _ x z Hf); set_solver. }
  clear Hf. unfold mend, bend in *.
  assert (load_le 8 (hm h) (mi y + 8) = mi z) as Hnext by (rewrite <- app_assoc, fmap_app in H6; by apply dseg_mid in H6 as [_ ->]).
  unfold case42, MIN_MAGIC, MIN_PREV, MIN_NEXT, MIN_BLOCK, MIN_SIZE, MIN_REQ_SIZE, MIN_SIZEOF.
  rewrite (u64_small (mi y + 40 + msz y)), <- Hx by lia.
  do 7 hstep. mload. rewrite Hnext. do 2 hstep. rewrite account_run by lia. cbn [hm set_hm l_inuse].
  eexists. split; [by destruct h|]. mload. rewrite H4. rewrite !used_app in *. cbn [used] in *. rewrite first_or_snoc in H5.
  split; rewrite ?first_or_snoc, ?last_or_snoc, ?used_app; [|cbn [used]; vload..| | |].
  - link_frame.
  - intros _. vload.
  - intros _. vload.
  - split; [vload..|]. rewrite load8_store8_eq. apply Z.mod_small. lia.
Qed.
End cases.

Lemma last_end_app lo l1 l2 : last_end lo (l1 ++ l2) = last_end (last_end lo l1) l2.
Proof. revert lo. by induction l1; simpl. Qed.

Lemma fits_after lo hi l y x r :
  fits lo hi ((l ++ [y]) ++ r) → mi x = mend y → 0 ≤ mreq x → mreq x + 32 ≤ msz x →
  mend x ≤ match r with [] => hi | z :: _ => mi z end → fits lo hi ((l ++ [y]) ++ x :: r).
Proof.
  rewrite !fits_app. intros [[H1 H2] H3] Hx Hq Hs Hr. split; [done|]. rewrite last_end_app in *. simpl in *.
  split_and!; [lia|done|done|]. destruct r as [|z r]; simpl in *; [done|]. destruct H3 as (? & ? & ? & ?). auto.
Qed.

Section malloc.
Context {S : Type} `{BlockSource S}.
Context (req size : Z) (Hreq : 0 ≤ req) (Hsize : size = req + 32) (Hmax : size + 40 < 2 ^ 32).
Implicit Types h : heap S.

(** A new minor for the request was placed in the block. *)
Definition placed_in (M : major) h (out : outcome (heap S) (option Z)) : Prop :=
  ∃ l1 x l2 m', out = Ret (Some (uptr x)) (done_with m' x h) ∧ msz x = size ∧ mreq x = req ∧
    gap (hm h) M l1 x l2 ∧ placed (hm h) m' M l1 x l2.

Lemma scan_minors_run (fuel : nat) M l y r h :
  block_ok (hm h) M → minors M = (l ++ [y]) ++ r → (length r < fuel)%nat →
  scan_minors fuel (ma M) (mi y) size req h = Ret None h ∨
  placed_in M h (scan_minors fuel (ma M) (mi y) size req h).
Proof.
  revert l y r. induction fuel as [|f IH]; intros l y r Hb Hl Hf; [lia|]. pose proof Hb as [H1 H2 H3 H4 H5 H6 H7 H8].
  rewrite Hl in *. pose proof (fits_elem _ _ _ y H8 ltac:(set_solver)) as Fy.
  assert (minor_ok (hm h) (ma M) y) as Hy by (apply H7; set_solver). 
  assert (load_le 8 (hm h) (mi y + 8) = first_or 0 (mi <$> r)) as Hn
    by (rewrite <- app_assoc, fmap_app in H6; by apply dseg_mid in H6 as [_ ->]).
  unfold bend, mend in *. cbn [scan_minors]. rewrite (proj2 (Z.eqb_neq (mi y) 0)) by lia.
  do 2 hstep. unfold MIN_NEXT, MIN_SIZE, MIN_SIZEOF. rewrite Hn, (mo_size _ _ _ Hy).
  rewrite (u64_small (size + 40)) by lia. set (x := Minor (mi y + 40 + msz y) size req).
  destruct r as [|z r].
  - cbn [fmap list_fmap first_or]. rewrite Z.eqb_refl. hstep. unfold MAJ_SIZE. rewrite H3, u64_small by lia.
    destruct (Z.leb_spec (size + 40) (ma M + mpages M * 4096 - mi y - 40 - msz y)).
    + right. assert (gap (hm h) M (l ++ [y]) x []) as Hg.
      { split; [done|done|]. apply fits_after; unfold mend, bend; simpl; rewrite ?Hl; try done; lia. }
      destruct (case41_run M x y l h Hg eq_refl) as (m' & Hrun & Hp).
      rewrite (kbind_run _ _ _ _ _ Hrun). exists (l ++ [y]), x, [], m'. done.
    + left. by destruct f.
  - cbn [fmap list_fmap first_or]. pose proof (fits_elem _ _ _ z H8 ltac:(set_solver)) as Fz.
    pose proof (fits_cross _ _ _ _ y z H8 ltac:(set_solver) ltac:(set_solver)) as Fyz. unfold mend in *.
    rewrite (proj2 (Z.eqb_neq (mi z) 0)), u64_small by lia.
    destruct (Z.leb_spec (size + 40) (mi z - mi y - 40 - msz y)).
    + right. assert (gap (hm h) M (l ++ [y]) x (z :: r)) as Hg.
      { split; [done|done|]. apply fits_after; unfold mend; simpl; try done; lia. }
      destruct (case42_run M x y z l r h Hg eq_refl) as (m' & Hrun & Hp).
      rewrite (kbind_run _ _ _ _ _ Hrun). exists (l ++ [y]), x, (z :: r), m'. done.
    + simpl in Hf. apply (IH (l ++ [y]) z r); [done| |lia]. rewrite <- !app_assoc. done.
Qed.

Lemma place_run (fuel : nat) M h :
  block_ok (hm h) M → (length (minors M) ≤ fuel)%nat →
  (minors M = [] → size + 80 ≤ mpages M * 4096) →
  (place fuel (ma M) size req h = Ret None h ∧ minors M ≠ []) ∨ placed_in M h (place fuel (ma M) size req h).
Proof.
  intros Hb Hf Hempty. pose proof Hb as [H1 H2 H3 H4 H5 H6 H7 H8]. unfold place, bend in *. hstep.
  unfold MAJ_FIRST, MAJ_SIZEOF, MIN_SIZEOF. rewrite H5. set (x := Minor (ma M + 40) size req).
  destruct (minors M) as [|y r] eqn:Hl.
  - right. cbn [fmap list_fmap first_or]. rewrite Z.eqb_refl. specialize (Hempty eq_refl).
    assert (gap (hm h) M [] x []) as Hg.
    { split; [done|done|]. simpl. unfold mend, bend. simpl. lia. }
    destruct (case2_run M x h Hg eq_refl) as (m' & Hrun & Hp). rewrite (kbind_run _ _ _ _ _ Hrun).
    by exists [], x, [], m'.
  - cbn [fmap list_fmap first_or]. destruct H8 as (F1 & F2 & F3 & F4). pose proof (fits_le _ _ _ F4). unfold mend in *.
    rewrite (proj2 (Z.eqb_neq (mi y) 0)), !u64_small by lia.
    destruct (Z.leb_spec (size + 40) (mi y - ma M - 40)).
    + right. assert (gap (hm h) M [] x (y :: r)) as Hg.
      { split; [done|done|]. simpl. unfold mend. simpl. split_and!; try done; lia. }
      destruct (case3_run M x y r h Hg eq_refl) as (m' & Hrun & Hp). rewrite (kbind_run _ _ _ _ _ Hrun).
      by exists [], x, (y :: r), m'.
    + destruct (scan_minors_run fuel M [] y r h Hb Hl) as [->|?]; [simpl in Hf; lia|by left|by right].
Qed.
End malloc.
