(* ===== verification/HeapSpec.v ===== *)
(** * The invariant of the kernel heap, and allocation

    [BlockSourceLaws] is what the heap relies on: the blocks of pages it is
    given do not overlap.  [heap_rep V h] relates the heap to the list [V] of
    its blocks and their minors; [allocs V] is what a client sees, the pointers
    in use with their sizes.  The loop of [kmalloc] ends, and either adds an
    aligned allocation beside the others or changes nothing ([sized_run]). *)

From stdpp Require Import base gmap list.
From Stdlib Require Import ZArith Lia.
From S2P Require Import Prelude Ram Heap HeapList HeapPlace.
#[local] Open Scope Z_scope.

Class BlockSourceLaws (S : Type) `{BlockSource S} := {
  (** the source's invariant, and the blocks in use: address and pages *)
  src_inv : S → Prop;
  src_live : S → gmap Z Z;

  src_live_bounds s p n :
    src_inv s → src_live s !! p = Some n → 0 < p ∧ 0 < n ∧ p + n * 4096 ≤ 2 ^ 64;
  src_live_disjoint s p n q k :
    src_inv s → src_live s !! p = Some n → src_live s !! q = Some k → p ≠ q →
    p + n * 4096 ≤ q ∨ q + k * 4096 ≤ p;
  src_alloc_run s n :
    src_inv s → 0 < n < 2 ^ 20 →
    ∃ p s', liballoc_alloc n s = Ret p s' ∧ src_inv s' ∧
      (p = 0 ∧ src_live s' = src_live s ∨
       p ≠ 0 ∧ src_live s !! p = None ∧ src_live s' = <[p := n]> (src_live s));
  src_free_run s p n :
    src_inv s → src_live s !! p = Some n →
    ∃ s', liballoc_free p n s = Ret tt s' ∧ src_inv s' ∧ src_live s' = delete p (src_live s);
}.

(** The sums the statistics keep. *)
Fixpoint pages_of (V : list major) : Z := match V with [] => 0 | M :: r => mpages M + pages_of r end.
Fixpoint sizes (l : list minor) : Z := match l with [] => 0 | x :: r => msz x + sizes r end.
Fixpoint sizes_of (V : list major) : Z := match V with [] => 0 | M :: r => sizes (minors M) + sizes_of r end.

(** The pointers in use and the bytes each client asked for. *)
Definition alloc_of (x : minor) : Z * Z := (uptr x, mreq x).
Definition allocs (V : list major) : list (Z * Z) := V ≫= λ M, alloc_of <$> minors M.

(** The byte [a] belongs to an allocation. *)
Definition user_byte (V : list major) (a : Z) : Prop := ∃ p n, (p, n) ∈ allocs V ∧ p ≤ a < p + n.


Section rep.
Context {S : Type} `{BlockSourceLaws S}.
Implicit Types h : heap S.

(** The heap holds the blocks [V]; the lock aside. *)
Record heap_rep (V : list major) (h : heap S) : Prop := {
  hr_src : src_inv (src h);
  hr_live : ∀ M, M ∈ V → src_live (src h) !! ma M = Some (mpages M);
  hr_nodup : NoDup (ma <$> V);
  hr_blocks : ∀ M, M ∈ V → block_ok (hm h) M;
  hr_list : dseg (hm h) 0 0 (ma <$> V);
  hr_root : l_memRoot h = first_or 0 (ma <$> V);
  hr_best : l_bestBet h = 0 ∨ l_bestBet h ∈ ma <$> V;
  hr_allocated : l_allocated h = u64 (pages_of V * 4096);
  hr_inuse : l_inuse h = u64 (sizes_of V);
}.

Lemma sizes_of_app V1 V2 : sizes_of (V1 ++ V2) = sizes_of V1 + sizes_of V2.
Proof. induction V1; simpl; lia. Qed.

Lemma heap_pages_app V1 V2 : pages_of (V1 ++ V2) = pages_of V1 + pages_of V2.
Proof. induction V1; simpl; lia. Qed.

Lemma sizes_app l1 l2 : sizes (l1 ++ l2) = sizes l1 + sizes l2.
Proof. induction l1; simpl; lia. Qed.

Lemma u64_add_l a b : u64 (u64 a + b) = u64 (a + b).
Proof. unfold u64. apply Zplus_mod_idemp_l. Qed.

Lemma u64_sub_l a b : u64 (u64 a - b) = u64 (a - b).
Proof. unfold u64. apply Zminus_mod_idemp_l. Qed.

(** Two blocks of the heap do not overlap. *)
Lemma blocks_disjoint V h M N :
  heap_rep V h → M ∈ V → N ∈ V → M ≠ N → bend M ≤ ma N ∨ bend N ≤ ma M.
Proof.
  intros Hr HM HN Hne. unfold bend.
  apply (src_live_disjoint (src h)); [apply Hr|by apply Hr|by apply Hr|].
  intros Heq. apply Hne. pose proof (hr_nodup _ _ Hr) as Hnd.
  apply list_elem_of_lookup in HM as [i Hi], HN as [j Hj].
  assert (i = j) as ->; [|congruence].
  apply (NoDup_lookup (ma <$> V) i j (ma M) Hnd); rewrite list_lookup_fmap; [by rewrite Hi|].
  rewrite Hj. simpl. congruence.
Qed.

(** The blocks beside [M]. *)
Lemma other_block V1 M V2 h K :
  heap_rep (V1 ++ M :: V2) h → K ∈ V1 ++ V2 →
  K ∈ V1 ++ M :: V2 ∧ (bend K ≤ ma M ∨ bend M ≤ ma K) ∧ ma K + 40 ≤ bend K ∧ 0 < ma K < 2 ^ 64.
Proof.
  intros Hr HK. assert (K ∈ V1 ++ M :: V2) as HK' by (apply elem_of_mid; by right).
  pose proof (hr_blocks _ _ Hr K HK') as Hb. pose proof (bk_addr _ _ Hb). pose proof (fits_le _ _ _ (bk_fits _ _ Hb)).
  split_and!; [done| |done|lia|unfold bend in *; lia].
  apply (blocks_disjoint _ h K M Hr HK'); [apply elem_of_mid; by left|]. intros ->.
  pose proof (hr_nodup _ _ Hr) as Hnd. rewrite fmap_app in Hnd. apply NoDup_app in Hnd as (_ & Hd & [Hn _]%NoDup_cons).
  apply elem_of_app in HK as [HK|HK]; [apply (Hd (ma M)); [|by left]|apply Hn]; by apply list_elem_of_fmap_2.
Qed.

(** One block changes, in its own bytes and not in its links to other blocks. *)
Lemma heap_rep_update V1 M V2 l h h' :
  heap_rep (V1 ++ M :: V2) h → block_ok (hm h') (Major (ma M) (mpages M) l) →
  (∀ a, ¬ (ma M + 16 ≤ a < bend M) → load8 (hm h') a = load8 (hm h) a) →
  src h' = src h → l_memRoot h' = l_memRoot h → l_allocated h' = l_allocated h →
  l_bestBet h' = 0 ∨ l_bestBet h' ∈ ma <$> V1 ++ M :: V2 →
  l_inuse h' = u64 (l_inuse h + (sizes l - sizes (minors M))) →
  heap_rep (V1 ++ Major (ma M) (mpages M) l :: V2) h'.
Proof.
  intros Hr Hb He Es Er Ea Hbest Ei. pose proof Hr as [R1 R2 R3 R4 R5 R6 R7 R8 R9].
  assert (ma <$> V1 ++ Major (ma M) (mpages M) l :: V2 = ma <$> V1 ++ M :: V2) as Hma by (by rewrite !fmap_app).
  pose proof (λ N, other_block V1 M V2 h N Hr) as Hoth.
  split; rewrite ?Es, ?Er, ?Ea, ?Hma; try done.
  - intros N [->|HN]%elem_of_mid; [apply (R2 M), elem_of_mid; by left|]. apply R2. by apply Hoth.
  - intros N [->|HN]%elem_of_mid; [done|]. destruct (Hoth N HN) as (HN' & ? & _).
    eapply block_ok_ext; [|by apply R4]. intros a Ho _. apply He.
    pose proof (block_bounds _ _ a (R4 N HN') (or_introl Ho)). lia.
  - eapply dseg_ext; [|exact R5]. intros a (N & -> & HN)%list_elem_of_fmap.
    pose proof (bk_addr _ _ (R4 N HN)) as Hbd.
    assert (ma N = ma M ∨ bend N ≤ ma M ∨ bend M ≤ ma N) as Hd.
    { apply elem_of_mid in HN as [->|HN]; [by left|right; by apply Hoth]. }
    unfold bend in *. split; apply load_le_ext; intros b Hb'; apply He; lia.
  - rewrite R8, !heap_pages_app. done.
  - rewrite Ei, R9, u64_add_l, !sizes_of_app. simpl. f_equal. lia.
Qed.

(** A block the source has just given away overlaps none of the heap's. *)
Lemma fresh_disjoint V h s N M :
  heap_rep V h → M ∈ V → src_inv s → src_live (src h) !! ma N = None →
  src_live s = <[ma N := mpages N]> (src_live (src h)) → bend M ≤ ma N ∨ bend N ≤ ma M.
Proof.
  intros Hr HM Hs Hf Hl. unfold bend. pose proof (hr_live _ _ Hr M HM) as HlM.
  assert (ma M ≠ ma N) by congruence. apply (src_live_disjoint s); [done| | |done]; rewrite Hl;
    [by rewrite lookup_insert_ne|by rewrite lookup_insert_eq].
Qed.

(** A new empty block at the end of the list. *)
Lemma heap_rep_append V N h h' :
  heap_rep V h → block_ok (hm h') N → minors N = [] →
  src_inv (src h') → src_live (src h) !! ma N = None → src_live (src h') = <[ma N := mpages N]> (src_live (src h)) →
  (∀ a, ¬ (ma N ≤ a < bend N) → ¬ (V ≠ [] ∧ last_or 0 (ma <$> V) + 8 ≤ a < last_or 0 (ma <$> V) + 16) →
    load8 (hm h') a = load8 (hm h) a) →
  load_le 8 (hm h') (ma N) = last_or 0 (ma <$> V) → load_le 8 (hm h') (ma N + 8) = 0 →
  (V ≠ [] → load_le 8 (hm h') (last_or 0 (ma <$> V) + 8) = ma N) →
  l_memRoot h' = first_or (ma N) (ma <$> V) → l_bestBet h' = l_bestBet h →
  l_allocated h' = u64 (l_allocated h + mpages N * 4096) → l_inuse h' = l_inuse h →
  heap_rep (V ++ [N]) h'.
Proof.
  intros Hr Hb Hm Hs Hf Hl He X1 X2 P Er Eb Ea Ei. pose proof Hr as [R1 R2 R3 R4 R5 R6 R7 R8 R9].
  assert (∀ M, M ∈ V → bend M ≤ ma N ∨ bend N ≤ ma M) as Hdis.
  { intros M HM. by apply (fresh_disjoint V h (src h')). }
  assert (∀ M, M ∈ V → ma M = last_or 0 (ma <$> V) ∨ bend M ≤ last_or 0 (ma <$> V) ∨ last_or 0 (ma <$> V) + 16 ≤ ma M) as Hlast.
  { intros M HM. destruct (last_or_elem 0 (ma <$> V)) as [[_ E]|(L & -> & HL)%list_elem_of_fmap].
    { apply fmap_nil_inv in E as ->. set_solver. }
    destruct (decide (M = L)) as [->|Hne]; [by left|right].
    pose proof (fits_le _ _ _ (bk_fits _ _ (R4 L HL))). destruct (blocks_disjoint V h M L Hr HM HL Hne); [by left|right; lia]. }
  assert (∀ M, M ∈ V → ma M + 40 ≤ bend M) as Hsz by (intros M HM; by apply (fits_le _ _ _ (bk_fits _ _ (R4 M HM)))).
  split; try done.
  - intros M [HM| ->%list_elem_of_singleton]%elem_of_app; rewrite Hl; [|by rewrite lookup_insert_eq].
    rewrite lookup_insert_ne; [by apply R2|]. intros Heq. rewrite Heq, R2 in Hf; done.
  - rewrite fmap_app. apply NoDup_app. split_and!; [done| |apply NoDup_singleton].
    intros a (M & -> & HM)%list_elem_of_fmap Heq%list_elem_of_singleton. rewrite <- Heq, R2 in Hf; done.
  - intros M [HM| ->%list_elem_of_singleton]%elem_of_app; [|done]. eapply block_ok_ext; [|by apply R4].
    intros a Ho Ha. pose proof (block_bounds _ _ a (R4 M HM) (or_introl Ho)). specialize (Hdis M HM).
    specialize (Hlast M HM). apply He; [lia|]. intros [_ ?]. lia.
  - rewrite fmap_app. apply (dseg_insert (hm h)); rewrite ?app_nil_r; try done.
    + intros a (M & -> & HM)%list_elem_of_fmap. apply load_le_ext. intros b Hb'. specialize (Hdis M HM). specialize (Hlast M HM).
      specialize (Hsz M HM). apply He; [lia|]. intros [_ ?]. lia.
    + intros a (M & -> & HM)%list_elem_of_fmap Hne. apply load_le_ext. intros b Hb'. specialize (Hdis M HM). specialize (Hlast M HM).
      specialize (Hsz M HM). apply He; [lia|]. intros [_ ?]. lia.
    + intros Hne. apply P. by intros ->.
    + set_solver.
    + set_solver.
  - rewrite fmap_app, Er, first_or_app. done.
  - rewrite Eb, fmap_app. destruct R7; [by left|right; set_solver].
  - rewrite Ea, R8, u64_add_l, heap_pages_app. simpl. f_equal. lia.
  - rewrite Ei, R9, sizes_of_app. simpl. rewrite Hm. simpl. f_equal. lia.
Qed.

(** The number of pages of a new block. *)
Definition pages_for (size : Z) : Z :=
  let n := if (size + 80) mod 4096 =? 0 then (size + 80) / 4096 else (size + 80) / 4096 + 1 in
  if n <? 16 then 16 else n.

Lemma pages_for_bounds size :
  0 ≤ size ≤ 2 ^ 31 + 32 → 16 ≤ pages_for size < 2 ^ 20 ∧ size + 80 ≤ pages_for size * 4096 < 2 ^ 32.
Proof.
  intros Hs. unfold pages_for. pose proof (Z.div_mod (size + 80) 4096 ltac:(lia)).
  pose proof (Z.mod_pos_bound (size + 80) 4096 ltac:(lia)). zcases; lia.
Qed.

(** [allocate_new_page] without and with a block from the source. *)
Lemma allocate_run size h :
  src_inv (src h) → 0 ≤ size ≤ 2 ^ 31 + 32 →
  (∃ s, allocate_new_page size h = Ret 0 (add_warning (set_src s h)) ∧ src_inv s ∧
    liballoc_alloc (pages_for size) (src h) = Ret 0 s ∧ src_live s = src_live (src h)) ∨
  (∃ N m s, allocate_new_page size h = Ret (ma N) (set_allocated (u64 (l_allocated h + mpages N * 4096)) (set_hm m (set_src s h))) ∧
    mpages N = pages_for size ∧ minors N = [] ∧ block_ok m N ∧ load_le 8 m (ma N) = 0 ∧ load_le 8 m (ma N + 8) = 0 ∧
    (∀ a, ¬ (ma N ≤ a < ma N + 40) → load8 m a = load8 (hm h) a) ∧
    src_inv s ∧ src_live (src h) !! ma N = None ∧ src_live s = <[ma N := mpages N]> (src_live (src h))).
Proof.
  intros Hs Hsize. pose proof (pages_for_bounds size Hsize) as Hp. unfold allocate_new_page.
  unfold MAJ_SIZEOF, MIN_SIZEOF, l_pageSize, l_pageCount.
  rewrite (u32_small size), (u32_small (size + 40)), (u32_small (size + 40 + 40)) by lia.
  replace (size + 40 + 40) with (size + 80) by lia. fold (pages_for size).
  destruct (src_alloc_run (src h) (pages_for size) Hs ltac:(lia)) as (p & s & Hrun & Hs' & Hp').
  rewrite (kbind_run (ksrc _) _ h p (set_src s h)) by (unfold ksrc; by rewrite Hrun).
  destruct Hp' as [[-> Hl]|(Hp0 & Hf & Hl)].
  - left. exists s. by rewrite Z.eqb_refl.
  - right. rewrite (proj2 (Z.eqb_neq p 0) Hp0).
    destruct (src_live_bounds s p (pages_for size) Hs') as (B1 & B2 & B3); [by rewrite Hl, lookup_insert_eq|].
    unfold MAJ_PREV, MAJ_NEXT, MAJ_PAGES, MAJ_SIZE, MAJ_USAGE, MAJ_FIRST. do 7 hstep. mload.
    exists (Major p (pages_for size) []). eexists. exists s. cbn [ma mpages minors].
    split; [rewrite (kbind_run (kmod _) _ _ tt _ eq_refl); change (256 ^ Z.of_nat 4) with (2 ^ 32);
      rewrite Z.mod_small by lia; reflexivity|]. split_and!; try done.
    + split; unfold bend; cbn [ma mpages minors]; [lia|vload..|done| |simpl; lia]. intros x Hx. by apply elem_of_nil in Hx.
    + vload.
    + vload.
    + intros a Ha. mframe. done.
Qed.

(** ** Running the loop of [kmalloc] *)

Lemma heap_rep_ext V h h' :
  heap_rep V h → (∀ a, load8 (hm h') a = load8 (hm h) a) → src_inv (src h') → src_live (src h') = src_live (src h) →
  l_memRoot h' = l_memRoot h → l_bestBet h' = 0 ∨ l_bestBet h' ∈ ma <$> V →
  l_allocated h' = l_allocated h → l_inuse h' = l_inuse h → heap_rep V h'.
Proof.
  intros [R1 R2 R3 R4 R5 R6 R7 R8 R9] He Hs Hl Er Eb Ea Ei.
  split; rewrite ?Hl, ?Er, ?Ea, ?Ei; try done.
  - intros M HM. eapply block_ok_ext; [|by apply R4]. auto.
  - eapply dseg_ext; [|done]. intros a _. split; apply load_le_ext; auto.
Qed.

Lemma user_byte_block V a : user_byte V a ↔ ∃ M, M ∈ V ∧ block_user M a.
Proof.
  unfold user_byte, allocs, block_user, alloc_of. split.
  - intros (p & n & (M & Hin & HM)%list_elem_of_bind & Ha).
    apply list_elem_of_fmap in Hin as (x & [= -> ->] & Hx). exists M. split; [done|]. by exists x.
  - intros (M & HM & x & Hx & Ha). exists (uptr x), (mreq x). split; [|done].
    apply list_elem_of_bind. exists M. split; [|done]. by apply (list_elem_of_fmap_2 (λ x, (uptr x, mreq x))).
Qed.

Lemma user_not_header V h M a : heap_rep V h → M ∈ V → user_byte V a → ¬ (ma M ≤ a < ma M + 40).
Proof.
  intros Hr HM (K & HK & Hu)%user_byte_block Ha. pose proof (hr_blocks _ _ Hr K HK) as HbK.
  destruct (decide (K = M)) as [->|Hne]; [apply (user_not_own _ _ _ HbK Hu); by left|].
  pose proof (block_bounds _ _ a HbK (or_intror Hu)).
  pose proof (fits_le _ _ _ (bk_fits _ _ (hr_blocks _ _ Hr M HM))).
  destruct (blocks_disjoint _ h K M Hr HK HM Hne); lia.
Qed.

(** Writing a new minor leaves the clients' bytes alone. *)
Lemma placed_user m m' M l1 x l2 a :
  gap m M l1 x l2 → placed m m' M l1 x l2 → block_user M a → load8 m' a = load8 m a.
Proof.
  intros [Hb Hl Hf] Hp Hu. apply Hp.
  - intros Hw. apply (user_not_own m M a Hb Hu). eapply link_bytes_own; [|exact Hw]. by rewrite Hl.
  - destruct Hu as (y & Hy & Ha). rewrite Hl in Hy.
    assert (mi x ≠ mi y) as Hne.
    { intros Heq. destruct (minor_own_disjoint _ _ l1 x l2 y (mi y) Hf Hy); left; lia. }
    pose proof (fits_pair _ _ _ x y Hf) as Hpair. rewrite !elem_of_mid in Hpair.
    pose proof (fits_elem _ _ _ x Hf) as Fx. rewrite elem_of_mid in Fx.
    pose proof (fits_elem _ _ _ y Hf) as Fy. rewrite elem_of_mid in Fy.
    destruct Hpair as [?|?]; [by left|by right|done|]. destruct Fx as (? & ? & ? & ?); [by left|].
    destruct Fy as (? & ? & ? & ?); [by right|]. pose proof (uptr_range x). pose proof (uptr_range y).
    unfold minor_own, mend in *. lia.
Qed.

Lemma placed_out m m' M l1 x l2 a :
  gap m M l1 x l2 → placed m m' M l1 x l2 → ¬ (ma M + 16 ≤ a < bend M) → load8 m' a = load8 m a.
Proof.
  intros [Hb Hl Hf] Hp Ha. pose proof (bk_fits _ _ Hb) as Hf'. rewrite Hl in Hf'. pose proof (fits_le _ _ _ Hf').
  apply Hp.
  - intros [?|[?|[(l & y & -> & ?)|(y & l & -> & ?)]]]; [lia..| |];
      pose proof (fits_elem _ _ _ y Hf' ltac:(set_solver)); unfold mend in *; lia.
  - pose proof (fits_elem _ _ _ x Hf) as Fx. rewrite elem_of_mid in Fx. destruct Fx as (? & ? & ? & ?); [by left|].
    pose proof (uptr_range x). unfold minor_own, mend in *. lia.
Qed.

Section loop.
Context (req size : Z) (Hreq : 0 ≤ req ≤ 2 ^ 31) (Hsize : size = req + 32).

Definition full (V : list major) : Prop := ∀ M, M ∈ V → minors M ≠ [].

(** An allocation succeeded: the new pointer is aligned, and the other
    allocations and their bytes are as before. *)
Record allocated (V : list major) h (p : Z) (V' : list major) h' : Prop := {
  al_rep : heap_rep V' h';
  al_full : full V';
  al_ptr : p ≠ 0 ∧ p mod 16 = 0;
  al_allocs : allocs V' ≡ₚ (p, req) :: allocs V;
  al_user : ∀ a, user_byte V a → load8 (hm h') a = load8 (hm h) a;
  al_lock : liballoc_lock_var h' = liballoc_lock_var h;
}.

(** The source had no block, and nothing has changed. *)
Record refused (V : list major) h h' : Prop := {
  rf_rep : heap_rep V h';
  rf_full : full V;
  rf_src : ∃ s, liballoc_alloc (pages_for size) (src h) = Ret 0 s;
  rf_bytes : ∀ a, load8 (hm h') a = load8 (hm h) a;
  rf_lock : liballoc_lock_var h' = liballoc_lock_var h;
}.

Definition malloc_post (V : list major) h (out : outcome (heap S) Z) : Prop :=
  ∃ p h', out = Ret p h' ∧ ((p = 0 ∧ refused V h h') ∨ ∃ V', allocated V h p V' h').

Lemma allocs_mid V1 M V2 : allocs (V1 ++ M :: V2) = allocs V1 ++ (alloc_of <$> minors M) ++ allocs V2.
Proof. unfold allocs. rewrite bind_app. done. Qed.

(** One more minor is one more allocation. *)
Lemma allocs_insert V1 M V2 l1 x l2 :
  minors M = l1 ++ x :: l2 →
  allocs (V1 ++ M :: V2) ≡ₚ alloc_of x :: allocs (V1 ++ Major (ma M) (mpages M) (l1 ++ l2) :: V2).
Proof.
  intros Hl. rewrite !allocs_mid. simpl. rewrite Hl, !fmap_app, fmap_cons.
  rewrite <- (Permutation_middle (alloc_of <$> l1)). simpl. by rewrite <- Permutation_middle.
Qed.

Lemma heap_sizes V h M : heap_rep V h → M ∈ V →
  load_le 4 (hm h) (ma M + 20) = mpages M * 4096 ∧ load_le 4 (hm h) (ma M + 24) = 40 + used (minors M) ∧
  0 ≤ mpages M * 4096 - (40 + used (minors M)) < 2 ^ 32.
Proof.
  intros Hr HM. pose proof (hr_blocks _ _ Hr M HM) as Hb. pose proof (fits_used _ _ _ (bk_fits _ _ Hb)).
  pose proof (bk_addr _ _ Hb). rewrite (bk_size _ _ Hb), (bk_usage _ _ Hb). unfold bend in *. lia.
Qed.

Lemma place_step (fuel : nat) V1 M V2 h :
  heap_rep (V1 ++ M :: V2) h → full (V1 ++ V2) → (length (minors M) ≤ fuel)%nat →
  (minors M = [] → size + 80 ≤ mpages M * 4096) →
  (place fuel (ma M) size req h = Ret None h ∧ minors M ≠ []) ∨
  ∃ p V' h', place fuel (ma M) size req h = Ret (Some p) h' ∧ allocated (V1 ++ M :: V2) h p V' h'.
Proof.
  intros Hr Hfull Hf Hroom. assert (M ∈ V1 ++ M :: V2) as HM by (apply elem_of_mid; by left).
  destruct (place_run req size ltac:(lia) Hsize ltac:(lia) fuel M h (hr_blocks _ _ Hr M HM) Hf Hroom)
    as [?|(l1 & x & l2 & m' & -> & Hs & Hq & Hg & Hp)]; [by left|right].
  pose proof (placed_block _ _ _ _ _ _ (gap_block _ _ _ _ _ Hg) (gap_minors _ _ _ _ _ Hg) (gap_fits _ _ _ _ _ Hg) Hp) as Hb.
  eexists _, (V1 ++ Major (ma M) (mpages M) (l1 ++ x :: l2) :: V2), _. split; [done|]. split.
  - eapply heap_rep_update; [exact Hr|exact Hb| |done|done|done|apply Hr|].
    + intros a Ha. by eapply placed_out.
    + simpl. rewrite (gap_minors _ _ _ _ _ Hg), !sizes_app. simpl. f_equal. lia.
  - intros N [->|HN]%elem_of_mid; [simpl; by destruct l1|by apply Hfull].
  - pose proof (fits_elem _ _ _ x (gap_fits _ _ _ _ _ Hg)) as Fx. rewrite elem_of_mid in Fx.
    destruct Fx as (? & _); [by left|]. pose proof (bk_addr _ _ Hb) as Ha. simpl in Ha. pose proof (uptr_range x).
    split; [lia|apply uptr_aligned].
  - rewrite (allocs_insert V1 (Major (ma M) (mpages M) (l1 ++ x :: l2)) V2 l1 x l2 eq_refl). simpl.
    unfold alloc_of at 1. rewrite Hq, <- (gap_minors _ _ _ _ _ Hg). by destruct M.
  - intros a (N & HN & Hu)%user_byte_block. simpl. apply elem_of_mid in HN as [->|HN]; [by eapply placed_user|].
    eapply placed_out; [done|done|]. destruct (other_block V1 M V2 h N Hr HN) as (HN' & ? & _).
    pose proof (block_bounds _ _ a (hr_blocks _ _ Hr N HN') (or_intror Hu)). lia.
  - done.
Qed.

Lemma block_append_run V1 M h :
  heap_rep (V1 ++ [M]) h → full (V1 ++ [M]) →
  (∃ h', append_block (ma M) size h = Ret 0 h' ∧ refused (V1 ++ [M]) h h') ∨
  (∃ N h', append_block (ma M) size h = Ret (ma N) h' ∧ heap_rep ((V1 ++ [M]) ++ [N]) h' ∧ ma N ≠ 0 ∧
    minors N = [] ∧ size + 80 ≤ mpages N * 4096 ∧
    (∀ a, user_byte (V1 ++ [M]) a → load8 (hm h') a = load8 (hm h) a) ∧
    liballoc_lock_var h' = liballoc_lock_var h).
Proof.
  intros Hr Hfull. pose proof (pages_for_bounds size ltac:(lia)) as Hpf.
  assert (M ∈ V1 ++ [M]) as HM by (apply elem_of_mid; by left). pose proof (hr_blocks _ _ Hr M HM) as Hb.
  pose proof (bk_addr _ _ Hb) as Hma. pose proof (fits_le _ _ _ (bk_fits _ _ Hb)) as Hbe.
  pose proof (hr_list _ _ Hr) as Hd. rewrite fmap_app in Hd. simpl in Hd. apply dseg_mid in Hd as [_ Hd]. simpl in Hd.
  assert (last_or 0 (ma <$> V1 ++ [M]) = ma M) as Hlast by (by rewrite fmap_app, last_or_app).
  unfold append_block, MAJ_NEXT, MAJ_PREV.
  destruct (allocate_run size h (hr_src _ _ Hr) ltac:(lia))
    as [(s & Hrun & Hs & Hno & Hl)|(N & m & s & Hrun & Hpg & Hmin & HbN & P0 & N0 & He & Hs & Hnew & Hl)].
  - left. rewrite (kbind_run _ _ _ _ _ Hrun). hstep. rewrite Z.eqb_refl. eexists. split; [reflexivity|].
    assert (∀ a, load8 (store_le 8 (hm h) (ma M + 8) 0) a = load8 (hm h) a) as Hsame.
    { intros a. rewrite <- Hd. apply load8_store_same. }
    split; [|done|by exists s|done|done].
    eapply heap_rep_ext; [exact Hr|done..|apply Hr|done|done].
  - right. rewrite (kbind_run _ _ _ _ _ Hrun). pose proof (bk_addr _ _ HbN) as HN. hstep.
    rewrite (proj2 (Z.eqb_neq (ma N) 0)) by lia. hstep.
    pose proof (fresh_disjoint _ h s N M Hr HM Hs Hnew Hl) as Hdis.
    pose proof (fits_le _ _ _ (bk_fits _ _ HbN)) as HbN'. exists N. eexists. split; [reflexivity|].
    split_and!; [|lia|done|lia| |done].
    + eapply heap_rep_append; [exact Hr| |done|done|done|done| | | | | |done|done|done]; rewrite ?Hlast; cbn [hm set_hm set_allocated].
      * eapply block_ok_ext; [|exact HbN]. intros a Ho Ha. pose proof (block_bounds _ _ a HbN (or_introl Ho)). mframe. done.
      * intros a Ha Hw. assert (¬ (ma M + 8 ≤ a < ma M + 16)) by (intros ?; apply Hw; split; [by destruct V1|done]).
        mframe. apply He. lia.
      * vload.
      * vload.
      * intros _. vload.
      * change (l_memRoot h = first_or (ma N) (ma <$> V1 ++ [M])). rewrite (hr_root _ _ Hr). by destruct V1.
    + intros a Ha. pose proof (user_not_header _ _ M a Hr HM Ha). apply user_byte_block in Ha as (K & HK & Hu).
      pose proof (block_bounds _ _ a (hr_blocks _ _ Hr K HK) (or_intror Hu)) as HKa.
      pose proof (fresh_disjoint _ h s N K Hr HK Hs Hnew Hl). cbn [hm set_hm set_allocated].
      mframe. apply He. lia.
Qed.

Lemma malloc_post_from V h h1 out :
  hm h1 = hm h → src h1 = src h → liballoc_lock_var h1 = liballoc_lock_var h →
  malloc_post V h1 out → malloc_post V h out.
Proof.
  intros Em Es El (p & h' & -> & [[-> [R F Hs B L]]|(V' & [R F P A U L])]).
  - exists 0, h'. split; [done|]. left. split; [done|]. rewrite Em, Es, El in *. by split.
  - exists p, h'. split; [done|]. right. exists V'. rewrite Em, El in *. by split.
Qed.

(** An allocation in the block that was just appended counts for the list
    before it. *)
Lemma allocated_from V N h h1 p V' h' :
  minors N = [] → (∀ a, user_byte V a → load8 (hm h1) a = load8 (hm h) a) →
  liballoc_lock_var h1 = liballoc_lock_var h →
  allocated (V ++ [N]) h1 p V' h' → allocated V h p V' h'.
Proof.
  intros Hm Hu Hl [R F P A U L]. split; [done..| | |congruence].
  - rewrite A, allocs_mid, Hm. simpl. unfold allocs at 2. by rewrite app_nil_r.
  - intros a Ha. rewrite U, Hu; [done|done|]. apply user_byte_block in Ha as (M & HM & Ha). apply user_byte_block.
    exists M. split; [set_solver|done].
Qed.

(** The start of a round: the best bet may move to the block in hand. *)
Lemma loop_round (f : nat) V M h sb best :
  heap_rep V h → M ∈ V →
  ∃ h1 best1, heap_rep V h1 ∧ hm h1 = hm h ∧ src h1 = src h ∧ liballoc_lock_var h1 = liballoc_lock_var h ∧
    kmalloc_loop (Datatypes.S f) (ma M) sb best size req h =
    (let* fl := case1 (ma M) size sb (mpages M * 4096 - (40 + used (minors M))) in
     match fl with
     | Again maj sb => kmalloc_loop f maj sb best1 size req
     | Break => kret 0
     | Here maj =>
         let* r := place f maj size req in
         match r with
         | Some p => kret p
         | None =>
             let* fl := case5 maj size sb in
             match fl with
             | Again maj sb => kmalloc_loop f maj sb best1 size req
             | _ => kret 0
             end
         end
     end) h1.
Proof.
  intros Hr HM. destruct (heap_sizes V h M Hr HM) as (Es & Eu & Hd). pose proof (bk_addr _ _ (hr_blocks _ _ Hr M HM)).
  cbn [kmalloc_loop]. rewrite (proj2 (Z.eqb_neq (ma M) 0)) by lia. do 2 hstep.
  unfold MAJ_SIZE, MAJ_USAGE. rewrite Es, Eu, u32_small by lia.
  set (diff := mpages M * 4096 - _) in *. destruct (Z.ltb_spec best diff).
  - exists (set_bestBet (ma M) h), diff. split_and!; try done.
    eapply heap_rep_ext; [exact Hr|done|apply Hr|done|done| |done|done]. right. simpl. by apply list_elem_of_fmap_2.
  - by exists h, best.
Qed.

Lemma case1_room maj sb diff h : size + 40 ≤ diff → case1 maj size sb diff h = Ret (Here maj) h.
Proof. intros Hd. unfold case1, MIN_SIZEOF. rewrite u64_small by lia. by rewrite (proj2 (Z.leb_le _ _)). Qed.

(** The loop on a new empty block. *)
Lemma loop_fresh (f : nat) V N h sb best :
  heap_rep (V ++ [N]) h → full V → minors N = [] → size + 80 ≤ mpages N * 4096 →
  ∃ p V' h', kmalloc_loop (Datatypes.S f) (ma N) sb best size req h = Ret p h' ∧ allocated (V ++ [N]) h p V' h'.
Proof.
  intros Hr Hfull Hm Hroom. assert (N ∈ V ++ [N]) as HN by (apply elem_of_mid; by left).
  destruct (loop_round f _ N h sb best Hr HN) as (h1 & best1 & Hr1 & Em & Es & El & ->).
  rewrite Hm in *. cbn [used]. rewrite (kbind_run _ _ _ _ _ (case1_room _ _ (mpages N * 4096 - (40 + 0)) h1 ltac:(lia))).
  destruct (place_step f V N [] h1 Hr1) as [[_ Hne]|(p & V' & h' & Hp & Ha)]; [by rewrite app_nil_r|rewrite Hm; simpl; lia|done|done|].
  rewrite (kbind_run _ _ _ _ _ Hp). exists p, V', h'. split; [done|]. destruct Ha as [R F P A U L]. rewrite Em, El in *. by split.
Qed.

(** CASES 1 and 5 when the block in hand has no room: the next block, the first
    one after a bet, or a new one. *)
Lemma next_block V1 M V2 h sb (k : Z → flow) :
  heap_rep (V1 ++ M :: V2) h → full (V1 ++ M :: V2) →
  let r := (let* next := kld 8 (ma M) MAJ_NEXT in
    if negb (next =? 0) then kret (Again next sb) else
    if sb then let* root := kget l_memRoot in kret (Again root false) else
    let* new := append_block (ma M) size in
    kret (if new =? 0 then Break else k new)) h in
  (∃ N V3, V2 = N :: V3 ∧ r = Ret (Again (ma N) sb) h) ∨
  (∃ N V3, V1 ++ M :: V2 = N :: V3 ∧ sb = true ∧ r = Ret (Again (ma N) false) h) ∨
  (∃ h', r = Ret Break h' ∧ refused (V1 ++ M :: V2) h h') ∨
  (∃ N h', r = Ret (k (ma N)) h' ∧ heap_rep ((V1 ++ M :: V2) ++ [N]) h' ∧ minors N = [] ∧
    size + 80 ≤ mpages N * 4096 ∧ (∀ a, user_byte (V1 ++ M :: V2) a → load8 (hm h') a = load8 (hm h) a) ∧
    liballoc_lock_var h' = liballoc_lock_var h).
Proof.
  intros Hr Hfull r. assert (M ∈ V1 ++ M :: V2) as HM by (apply elem_of_mid; by left).
  pose proof (bk_addr _ _ (hr_blocks _ _ Hr M HM)) as Hma. pose proof (hr_list _ _ Hr) as Hd.
  rewrite fmap_app, fmap_cons in Hd. apply dseg_mid in Hd as [_ Hd]. subst r. hstep. unfold MAJ_NEXT. rewrite Hd.
  destruct V2 as [|N V3]; cbn [fmap list_fmap first_or].
  - rewrite Z.eqb_refl. simpl. right. destruct sb.
    + left. destruct (V1 ++ [M]) as [|N V3] eqn:HV; [by destruct V1|]. exists N, V3. split_and!; try done.
      unfold kbind, kget, kret. by rewrite (hr_root _ _ Hr).
    + right. destruct (block_append_run V1 M h Hr Hfull) as [(h' & Hrun & Hrf)|(N & h' & Hrun & Hr' & HN & ?)].
      * left. exists h'. by rewrite (kbind_run _ _ _ _ _ Hrun).
      * right. exists N, h'. rewrite (kbind_run _ _ _ _ _ Hrun). by rewrite (proj2 (Z.eqb_neq (ma N) 0) HN).
  - left. exists N, V3. split; [done|]. assert (N ∈ V1 ++ M :: N :: V3) as HN by set_solver.
    pose proof (bk_addr _ _ (hr_blocks _ _ Hr N HN)). rewrite (proj2 (Z.eqb_neq (ma N) 0)) by lia. done.
Qed.

Lemma loop_run (W : nat) : ∀ (fuel : nat) V1 M V2 h (sb : bool) (best : Z),
  heap_rep (V1 ++ M :: V2) h → full (V1 ++ M :: V2) → (∀ N, N ∈ V1 ++ M :: V2 → (length (minors N) ≤ W)%nat) →
  (length V2 + (if sb then length (V1 ++ M :: V2) else 0) + W + 2 ≤ fuel)%nat →
  malloc_post (V1 ++ M :: V2) h (kmalloc_loop fuel (ma M) sb best size req h).
Proof.
  intros fuel. induction fuel as [|f IH]; intros V1 M V2 h sb best Hr Hfull HW Hf; [lia|].
  assert (M ∈ V1 ++ M :: V2) as HM by (apply elem_of_mid; by left).
  destruct (loop_round f _ M h sb best Hr HM) as (h1 & best1 & Hr1 & Em & Es & El & ->).
  apply (malloc_post_from _ h h1); [done..|]. clear Hr Em Es El h.
  assert (∀ N V3 (b : Z), V2 = N :: V3 → malloc_post (V1 ++ M :: V2) h1 (kmalloc_loop f (ma N) sb b size req h1)) as Hnext.
  { intros N V3 b ->. rewrite (app_assoc V1 [M] (N :: V3) : V1 ++ M :: N :: V3 = _) in *.
    apply IH; [done..|]. rewrite <- app_assoc in *. simpl in *. lia. }
  assert (∀ N V3 (b : Z), V1 ++ M :: V2 = N :: V3 → sb = true →
    malloc_post (V1 ++ M :: V2) h1 (kmalloc_loop f (ma N) false b size req h1)) as Hroot.
  { intros N V3 b HV ->. rewrite HV in *. apply (IH []); [done..|]. simpl in *. lia. }
  destruct (Z.leb_spec (size + 40) (mpages M * 4096 - (40 + used (minors M)))) as [Hd|Hd].
  - rewrite (kbind_run _ _ _ _ _ (case1_room _ _ _ h1 Hd)).
    destruct (place_step f V1 M V2 h1 Hr1) as [[Hp _]|(p & V' & h' & Hp & Ha)].
    + intros N HN. apply Hfull. apply elem_of_mid. by right.
    + specialize (HW M HM). lia.
    + intros Hm. by apply Hfull in Hm.
    + rewrite (kbind_run _ _ _ _ _ Hp). unfold case5.
      destruct (next_block V1 M V2 h1 sb (λ p, Again p sb) Hr1 Hfull)
        as [(N & V3 & HV & Hrun)|[(N & V3 & HV & Hsb & Hrun)|[(h' & Hrun & Hrf)|(N & h' & Hrun & Hr' & Hm & Hroom & Hu & Hlk)]]];
        rewrite (kbind_run _ _ _ _ _ Hrun); [by eapply Hnext|by eapply Hroot|exists 0, h'; split; [done|by left]|].
      destruct f as [|f]; [lia|]. destruct (loop_fresh f _ N h' sb best1 Hr' Hfull Hm Hroom) as (p & V' & h2 & -> & Ha).
      exists p, h2. split; [done|right]. exists V'. by eapply allocated_from.
    + rewrite (kbind_run _ _ _ _ _ Hp). exists p, h'. split; [done|right]. by exists V'.
  - unfold case1, MIN_SIZEOF. rewrite u64_small, (proj2 (Z.leb_gt _ _) Hd) by lia.
    destruct (next_block V1 M V2 h1 sb Here Hr1 Hfull)
      as [(N & V3 & HV & Hrun)|[(N & V3 & HV & Hsb & Hrun)|[(h' & Hrun & Hrf)|(N & h' & Hrun & Hr' & Hm & Hroom & Hu & Hlk)]]];
      rewrite (kbind_run _ _ _ _ _ Hrun); [by eapply Hnext|by eapply Hroot|exists 0, h'; split; [done|by left]|].
    destruct (place_step f _ N [] h' Hr') as [[_ Hne]|(p & V' & h2 & Hp & Ha)];
      [by rewrite app_nil_r|rewrite Hm; simpl; lia|done|done|].
    rewrite (kbind_run _ _ _ _ _ Hp). exists p, h2. split; [done|right]. exists V'. by eapply allocated_from.
Qed.

(** The source gave the very first block. *)
Lemma first_block h :
  heap_rep [] h →
  (∃ h', (let* p := allocate_new_page size in kmod (set_memRoot p) ;;; kret p) h = Ret 0 h' ∧ refused [] h h') ∨
  (∃ N h', (let* p := allocate_new_page size in kmod (set_memRoot p) ;;; kret p) h = Ret (ma N) h' ∧
    heap_rep [N] h' ∧ ma N ≠ 0 ∧ l_bestBet h' = 0 ∧ minors N = [] ∧ size + 80 ≤ mpages N * 4096 ∧
    liballoc_lock_var h' = liballoc_lock_var h).
Proof.
  intros Hr. pose proof (pages_for_bounds size ltac:(lia)) as Hpf.
  assert (l_bestBet h = 0) as Hbest by (destruct (hr_best _ _ Hr) as [?|?%elem_of_nil]; done).
  destruct (allocate_run size h (hr_src _ _ Hr) ltac:(lia))
    as [(s & Hrun & Hs & Hno & Hl)|(N & m & s & Hrun & Hpg & Hmin & HbN & P0 & N0 & He & Hs & Hnew & Hl)];
    rewrite (kbind_run _ _ _ _ _ Hrun).
  - left. eexists. split; [reflexivity|]. split; [|intros ? []%elem_of_nil|by exists s|done|done].
    eapply heap_rep_ext; [exact Hr|done..| |apply Hr|done|done]. simpl. by rewrite (hr_root _ _ Hr).
  - right. pose proof (bk_addr _ _ HbN). exists N. eexists. split; [reflexivity|]. split_and!; [|lia|done|done|lia|done].
    apply (heap_rep_append [] N h); try done. intros a Ha _. apply He. pose proof (fits_le _ _ _ (bk_fits _ _ HbN)). lia.
Qed.

Lemma sized_run (fuel : nat) V h :
  heap_rep V h → full V → (2 * length V + length (allocs V) + 2 ≤ fuel)%nat →
  ∃ p h', kmalloc_sized fuel size req h = Ret p (set_lock false h') ∧
    ((p = 0 ∧ refused V h h') ∨ ∃ V', allocated V h p V' h').
Proof.
  intros Hr Hfull Hf. unfold kmalloc_sized. rewrite (kbind_run (kget _) _ h _ _ eq_refl).
  destruct V as [|R V0].
  - rewrite (hr_root _ _ Hr). cbn [fmap list_fmap first_or]. rewrite Z.eqb_refl.
    destruct (first_block h Hr) as [(h' & Hrun & Hrf)|(N & h' & Hrun & Hr' & HN & Hb & Hm & Hroom & Hlk)];
      rewrite (kbind_run _ _ _ _ _ Hrun).
    + rewrite Z.eqb_refl. exists 0, h'. split; [done|by left].
    + rewrite (proj2 (Z.eqb_neq _ _) HN), (kbind_run (kget _) _ h' _ _ eq_refl), Hb, Z.eqb_refl. simpl.
      rewrite kbind_ret. destruct fuel as [|f]; [lia|].
      destruct (loop_fresh f [] N h' false 0 Hr' Hfull Hm Hroom) as (p & V' & h2 & Hl & Ha).
      rewrite (kbind_run _ _ _ _ _ Hl). exists p, h2. split; [done|right]. exists V'.
      apply (allocated_from [] N h h'); try done. by intros a (? & ? & []%elem_of_nil & _).
  - set (V := R :: V0) in *. assert (R ∈ V) as HR by by left.
    pose proof (bk_addr _ _ (hr_blocks _ _ Hr R HR)). rewrite (hr_root _ _ Hr).
    change (first_or 0 (ma <$> V)) with (ma R). assert (V = [] ++ R :: V0) as HV by done. clearbody V.
    rewrite (proj2 (Z.eqb_neq (ma R) 0)) by lia. rewrite kbind_ret, (proj2 (Z.eqb_neq (ma R) 0)) by lia. rewrite (kbind_run (kget _) _ h _ _ eq_refl).
    assert (∀ V1 M V2 sb best, V = V1 ++ M :: V2 →
      ∃ p h', (let* p := kmalloc_loop fuel (ma M) sb best size req in liballoc_unlock ;;; kret p) h =
        Ret p (set_lock false h') ∧ ((p = 0 ∧ refused V h h') ∨ ∃ V', allocated V h p V' h')) as Hloop.
    { intros V1 M V2 sb best ->. destruct (loop_run (length (allocs (V1 ++ M :: V2))) fuel V1 M V2 h sb best)
        as (p & h' & Hl & Hpost); try done.
      - intros N HN. apply list_elem_of_split in HN as (l1 & l2 & ->). rewrite allocs_mid, !length_app, length_fmap. lia.
      - rewrite !length_app in *. simpl in *. destruct sb; rewrite ?length_app; simpl; lia.
      - rewrite (kbind_run _ _ _ _ _ Hl). exists p, h'. by split. }
    destruct (Z.eqb_spec (l_bestBet h) 0) as [Hb|Hb]; [rewrite kbind_ret; simpl; by eapply (Hloop [])|].
    destruct (hr_best _ _ Hr) as [?|(B & HB & HBV)%list_elem_of_fmap]; [done|]. rewrite HB in *.
    destruct (heap_sizes V h B Hr HBV) as (Es & Eu & Hd). rewrite kbind_assoc. hstep. rewrite kbind_assoc. hstep.
    rewrite kbind_ret. apply list_elem_of_split in HBV as (V1 & V2 & HV'). cbn [negb andb].
    destruct (_ <? _); [by eapply Hloop|by eapply (Hloop [])].
Qed.
End loop.
End rep.
