(* ===== verification/HeapFree.v ===== *)
(** * Freeing

    [kfree] takes a minor out of its block and gives an empty block back to its
    source; the other allocations and their bytes stay ([kfree_frees]). *)

From stdpp Require Import base gmap list.
From Stdlib Require Import ZArith Lia.
From S2P Require Import Prelude Ram Heap HeapList HeapPlace HeapSpec.
#[local] Open Scope Z_scope.

Section rep.
Context {S : Type} `{BlockSourceLaws S}.
Implicit Types h : heap S.

(** The links around a minor that is taken out; [hm h] may differ from a
    well-formed block in the fields of the minor and in [usage]. *)
Record unlinked (m m' : mem) (M : major) (l1 l2 : list minor) : Prop := {
  ul_frame : ∀ a, ¬ link_bytes M l1 l2 a ∨ ma M + 24 ≤ a < ma M + 28 ∨ (l1 ≠ [] ∧ ma M + 32 ≤ a < ma M + 40) →
    load8 m' a = load8 m a;
  ul_first : l1 = [] → load_le 8 m' (ma M + 32) = first_or 0 (mi <$> l2);
  ul_prev : l1 ≠ [] → load_le 8 m' (last_or 0 (mi <$> l1) + 8) = first_or 0 (mi <$> l2);
  ul_next : l2 ≠ [] → load_le 8 m' (first_or 0 (mi <$> l2)) = last_or 0 (mi <$> l1);
}.

Lemma unlink_run M l1 x l2 h :
  0 < ma M → bend M ≤ 2 ^ 64 → fits (ma M + 40) (bend M) (l1 ++ x :: l2) →
  load_le 8 (hm h) (mi x) = last_or 0 (mi <$> l1) → load_le 8 (hm h) (mi x + 8) = first_or 0 (mi <$> l2) →
  ∃ m', unlink_minor (ma M) (mi x) h = Ret tt (set_hm m' h) ∧ unlinked (hm h) m' M l1 l2.
Proof.
  intros Ha He Hf Hp Hn. pose proof (fits_elem _ _ _ x Hf) as Fx. rewrite elem_of_mid in Fx.
  destruct Fx as (Fx1 & Fx2 & Fx3 & Fx4); [by left|]. unfold mend in *.
  unfold unlink_minor, MIN_NEXT, MIN_PREV, MAJ_FIRST. hstep. rewrite Hn.
  destruct l1 as [|y l _] using rev_ind; destruct l2 as [|z l2]; rewrite ?last_or_snoc in *;
    cbn [fmap list_fmap first_or last_or] in *;
    try (pose proof (fits_elem _ _ _ y Hf ltac:(set_solver)) as (? & ? & ? & ?);
         pose proof (fits_cross _ _ _ _ y x Hf ltac:(set_solver) ltac:(set_solver)));
    try (pose proof (fits_elem _ _ _ z Hf ltac:(set_solver)) as (? & ? & ? & ?);
         assert (mend x ≤ mi z)
           by (match type of Hf with fits _ _ (?l ++ x :: z :: l2) =>
                 apply (fits_cross (ma M + 40) (bend M) (l ++ [x]) (z :: l2)); [by rewrite <- app_assoc|set_solver|by left] end));
    unfold mend in *.
  all: repeat first
    [ rewrite Z.eqb_refl | rewrite (proj2 (Z.eqb_neq (mi _) 0)) by lia | rewrite kbind_ret | rewrite kbind_assoc
    | hstep | mload1 | rewrite Z.add_0_r | rewrite Hp | rewrite Hn ].
  all: try (rewrite kst_run by lia; cbn [hm set_hm]).
  all: eexists; (split; [reflexivity|]).
  all: split; try done; try (intros _; rewrite ?last_or_snoc; vload).
  all: try by (intros E; apply (f_equal length) in E; rewrite length_app in E; simpl in E; lia).
  all: intros a Hw.
  all: destruct Hw as [Hw|[?|[? ?]]]; try done; try (mframe; done).
  all: pose proof (not_link_head _ _ _ _ Hw);
    try pose proof (not_link_snoc _ _ _ _ _ Hw); try pose proof (not_link_cons _ _ _ _ _ Hw); mframe; done.
Qed.

(** The bytes of the links around the place between two parts of the list of
    blocks. *)
Definition block_links (V1 V2 : list major) (a : Z) : Prop :=
  (V1 ≠ [] ∧ last_or 0 (ma <$> V1) + 8 ≤ a < last_or 0 (ma <$> V1) + 16) ∨
  (V2 ≠ [] ∧ first_or 0 (ma <$> V2) ≤ a < first_or 0 (ma <$> V2) + 8).

(** They lie in the links of blocks of the list. *)
Lemma block_links_in V1 V2 a :
  block_links V1 V2 a →
  (∃ M, M ∈ V1 ∧ last_or 0 (ma <$> V1) = ma M ∧ ma M + 8 ≤ a < ma M + 16) ∨
  (∃ M, M ∈ V2 ∧ first_or 0 (ma <$> V2) = ma M ∧ ma M ≤ a < ma M + 8).
Proof.
  intros [[Hne Ha]|[Hne Ha]]; [left|right].
  - destruct (last_or_elem 0 (ma <$> V1)) as [[_ E%fmap_nil_inv]|(M & E & HM)%list_elem_of_fmap]; [done|].
    exists M. rewrite E in *. done.
  - destruct V2 as [|M V2]; [done|]. exists M. split; [by left|done].
Qed.

Lemma heap_rep_remove V1 M V2 h h' :
  heap_rep (V1 ++ M :: V2) h → minors M = [] →
  src_inv (src h') → src_live (src h') = delete (ma M) (src_live (src h)) →
  (∀ a, ¬ block_links V1 V2 a → load8 (hm h') a = load8 (hm h) a) →
  (V1 ≠ [] → load_le 8 (hm h') (last_or 0 (ma <$> V1) + 8) = first_or 0 (ma <$> V2)) →
  (V2 ≠ [] → load_le 8 (hm h') (first_or 0 (ma <$> V2)) = last_or 0 (ma <$> V1)) →
  l_memRoot h' = first_or 0 (ma <$> V1 ++ V2) → l_bestBet h' = 0 ∨ l_bestBet h' ∈ ma <$> V1 ++ V2 →
  l_allocated h' = u64 (l_allocated h - mpages M * 4096) → l_inuse h' = l_inuse h →
  heap_rep (V1 ++ V2) h'.
Proof.
  intros Hr Hm Hs Hl He P N Er Eb Ea Ei. pose proof Hr as [R1 R2 R3 R4 R5 R6 R7 R8 R9].
  assert (∀ K, K ∈ V1 ++ V2 → K ∈ V1 ++ M :: V2) as Hin by (intros K HK; apply elem_of_mid; by right).
  pose proof R3 as Hnd. rewrite fmap_app, fmap_cons in Hnd.
  assert (∀ K L, K ∈ V1 ++ V2 → L ∈ V1 ++ V2 → K = L ∨ bend K ≤ ma L ∨ bend L ≤ ma K) as Hdis.
  { intros K L HK HL. destruct (decide (K = L)); [by left|right]. eapply (blocks_disjoint _ h); eauto. }
  assert (∀ K, K ∈ V1 ++ V2 → ma K + 40 ≤ bend K) as Hsz
    by (intros K HK; by apply (fits_le _ _ _ (bk_fits _ _ (R4 K (Hin K HK))))).
  assert (∀ K a, K ∈ V1 ++ V2 → ma K + 16 ≤ a < bend K → ¬ block_links V1 V2 a) as Hout.
  { intros K a HK Ha [(L & HL & _ & ?)|(L & HL & _ & ?)]%block_links_in;
      (assert (L ∈ V1 ++ V2) as HL' by (apply elem_of_app; auto));
      pose proof (Hsz L HL'); destruct (Hdis K L HK HL') as [->|?]; lia. }
  assert (∀ K L a, K ∈ V1 ++ V2 → L ∈ V1 ++ V2 → ma L ≤ a < ma L + 16 → ma K ≤ a < ma K + 16 → K = L) as Heq.
  { intros K L a HK HL ??. pose proof (Hsz K HK). pose proof (Hsz L HL). destruct (Hdis K L HK HL); [done|lia]. }
  assert (∀ K, K ∈ V1 → K ∈ V2 → False) as Hcross.
  { intros K H1 H2. apply NoDup_app in Hnd as (_ & Hd & _). apply (Hd (ma K)); [by apply list_elem_of_fmap_2|].
    right. by apply list_elem_of_fmap_2. }
  split; try done.
  - intros K HK. rewrite Hl, lookup_delete_ne; [by apply R2, Hin|]. intros E.
    apply NoDup_app in Hnd as (_ & Hd & [Hn _]%NoDup_cons). rewrite E in *.
    apply elem_of_app in HK as [HK|HK]; [apply (Hd (ma K)); [by apply list_elem_of_fmap_2|by left]|].
    apply Hn. by apply list_elem_of_fmap_2.
  - rewrite fmap_app. apply NoDup_app in Hnd as (H1 & Hd & [_ H2]%NoDup_cons). apply NoDup_app. split_and!; try done.
    intros a Ha1 Ha2. apply (Hd a); [done|by right].
  - intros K HK. eapply block_ok_ext; [|by apply R4, Hin]. intros a Ho Ha. apply He. eapply (Hout K); [done|].
    pose proof (block_bounds _ _ a (R4 K (Hin K HK)) (or_introl Ho)). lia.
  - rewrite fmap_app. rewrite fmap_app, fmap_cons in R5. apply (dseg_remove (hm h) _ 0 0 _ (ma M)); try done.
    + intros a (K & -> & HK)%list_elem_of_fmap. apply load_le_ext. intros b Hb. apply He.
      intros [(L & HL & _ & ?)|(L & HL & _ & ?)]%block_links_in.
      * assert (K = L) as -> by (apply (Heq K L b); [apply elem_of_app; by left|apply elem_of_app; by left|lia|lia]). lia.
      * apply (Hcross K HK). by rewrite (Heq K L b) by (try (apply elem_of_app; auto); lia).
    + intros a (K & -> & HK)%list_elem_of_fmap Hne. apply load_le_ext. intros b Hb. apply He.
      intros [(L & HL & E & ?)|(L & HL & _ & ?)]%block_links_in.
      * rewrite E in Hne. apply Hne. by rewrite (Heq K L b) by (try (apply elem_of_app; auto); lia).
      * apply (Hcross K HK). by rewrite (Heq K L b) by (try (apply elem_of_app; auto); lia).
    + intros Hne. apply P. by intros ->.
    + intros a (K & -> & HK)%list_elem_of_fmap. apply load_le_ext. intros b Hb. apply He.
      intros [(L & HL & _ & ?)|(L & HL & _ & ?)]%block_links_in.
      * apply (Hcross L HL). by rewrite <- (Heq K L b) by (try (apply elem_of_app; auto); lia).
      * assert (K = L) as -> by (apply (Heq K L b); [apply elem_of_app; by right|apply elem_of_app; by right|lia|lia]). lia.
    + intros a (K & -> & HK)%list_elem_of_fmap Hne. apply load_le_ext. intros b Hb. apply He.
      intros [(L & HL & _ & ?)|(L & HL & E & ?)]%block_links_in.
      * apply (Hcross L HL). by rewrite <- (Heq K L b) by (try (apply elem_of_app; auto); lia).
      * rewrite E in Hne. apply Hne. by rewrite (Heq K L b) by (try (apply elem_of_app; auto); lia).
    + intros Hne. apply N. by intros ->.
  - rewrite Ea, R8, u64_sub_l, !heap_pages_app. simpl. f_equal. lia.
  - rewrite Ei, R9, !sizes_of_app. simpl. rewrite Hm. done.
Qed.

Lemma links_apart V1 M V2 h :
  heap_rep (V1 ++ M :: V2) h →
  (last_or 0 (ma <$> V1) = 0 ∧ V1 = [] ∨ V1 ≠ [] ∧ 0 < last_or 0 (ma <$> V1) < 2 ^ 64 ∧
    (last_or 0 (ma <$> V1) + 16 ≤ ma M ∨ bend M ≤ last_or 0 (ma <$> V1))) ∧
  (first_or 0 (ma <$> V2) = 0 ∧ V2 = [] ∨ V2 ≠ [] ∧ 0 < first_or 0 (ma <$> V2) < 2 ^ 64 ∧
    (first_or 0 (ma <$> V2) + 16 ≤ ma M ∨ bend M ≤ first_or 0 (ma <$> V2))).
Proof.
  intros Hr. split.
  - destruct (last_or_elem 0 (ma <$> V1)) as [[E E2%fmap_nil_inv]|(K & E & HK)%list_elem_of_fmap]; [by left|right].
    destruct (other_block V1 M V2 h K Hr) as (_ & ? & ? & ?); [apply elem_of_app; by left|].
    split; [intros ->; by apply elem_of_nil in HK|lia].
  - destruct V2 as [|K V2]; [by left|right]. simpl.
    destruct (other_block V1 M (K :: V2) h K Hr) as (_ & ? & ? & ?); [apply elem_of_app; right; by left|].
    split; [done|lia].
Qed.

(** The loads and stores of [release_block] after the globals are set. *)
Lemma release_links V1 M V2 h s :
  heap_rep (V1 ++ M :: V2) h → liballoc_free (ma M) (mpages M) (src h) = Ret tt s →
  ∀ h1, hm h1 = hm h → src h1 = src h →
  ∃ m', (let* prev := kld 8 (ma M) MAJ_PREV in
    (if prev =? 0 then kret tt else kst 8 prev MAJ_NEXT (first_or 0 (ma <$> V2))) ;;;
    let* next := kld 8 (ma M) MAJ_NEXT in
    (if next =? 0 then kret tt else let* prev := kld 8 (ma M) MAJ_PREV in kst 8 next MAJ_PREV prev) ;;;
    let* msize := kld 4 (ma M) MAJ_SIZE in
    kmod (λ h, set_allocated (u64 (l_allocated h - msize)) h) ;;;
    let* pages := kld 4 (ma M) MAJ_PAGES in
    ksrc (liballoc_free (ma M) pages)) h1 =
    Ret tt (set_src s (set_allocated (u64 (l_allocated h1 - mpages M * 4096)) (set_hm m' h1))) ∧
    (∀ a, ¬ block_links V1 V2 a → load8 m' a = load8 (hm h) a) ∧
    (V1 ≠ [] → load_le 8 m' (last_or 0 (ma <$> V1) + 8) = first_or 0 (ma <$> V2)) ∧
    (V2 ≠ [] → load_le 8 m' (first_or 0 (ma <$> V2)) = last_or 0 (ma <$> V1)).
Proof.
  intros Hr Hfree h1 Em Es. assert (M ∈ V1 ++ M :: V2) as HM by (apply elem_of_mid; by left).
  pose proof (hr_blocks _ _ Hr M HM) as Hb. pose proof (bk_addr _ _ Hb) as Hma.
  pose proof (hr_list _ _ Hr) as Hd. rewrite fmap_app, fmap_cons in Hd. apply dseg_mid in Hd as [Hprev Hnext].
  pose proof (fits_le _ _ _ (bk_fits _ _ Hb)) as Hbe. pose proof (links_apart V1 M V2 h Hr) as (Hp & Hn).
  pose proof (bk_size _ _ Hb) as Hsz. pose proof (bk_pages _ _ Hb) as Hpg.
  assert (V1 ≠ [] → V2 ≠ [] → last_or 0 (ma <$> V1) + 16 ≤ first_or 0 (ma <$> V2) ∨ first_or 0 (ma <$> V2) + 16 ≤ last_or 0 (ma <$> V1)) as Hap.
  { intros N1 N2. destruct V2 as [|K V2]; [done|]. rewrite (app_assoc V1 [M] (K :: V2) : V1 ++ M :: K :: V2 = _) in Hr.
    assert (K ∈ (V1 ++ [M]) ++ K :: V2) as HK by (apply elem_of_mid; by left).
    pose proof (fits_le _ _ _ (bk_fits _ _ (hr_blocks _ _ Hr K HK))).
    destruct (last_or_elem 0 (ma <$> V1)) as [[_ ?%fmap_nil_inv]|(L & -> & HL)%list_elem_of_fmap]; [done|].
    destruct (other_block _ K _ h L Hr) as (_ & ? & ? & _); [set_solver|]. simpl. lia. }
  set (prev := last_or 0 (ma <$> V1)) in *. set (next := first_or 0 (ma <$> V2)) in *.
  assert (∀ a, ¬ block_links V1 V2 a → (V1 ≠ [] → ¬ (prev + 8 ≤ a < prev + 16)) ∧ (V2 ≠ [] → ¬ (next ≤ a < next + 8))) as Hlk.
  { unfold block_links. fold prev next. intros a Hw. split; intros ? ?; apply Hw; [left|right]; auto. }
  clearbody prev next. destruct h1 as [m1 s1 r1 b1 al1 iu1 w1 e1 o1 lk1]. simpl in Em, Es. subst m1 s1.
  unfold MAJ_NEXT, MAJ_PREV, MAJ_SIZE, MAJ_PAGES.
  destruct Hp as [[Hp0 ->]|(Hp1 & Hp2 & Hp3)], Hn as [[Hn0 ->]|(Hn1 & Hn2 & Hn3)]; try specialize (Hap Hp1 Hn1).
  all: repeat first
    [ rewrite Z.eqb_refl | rewrite (proj2 (Z.eqb_neq _ 0)) by lia | rewrite kbind_ret | rewrite kbind_assoc
    | hstep | mload1 | rewrite (kbind_run (kmod _) _ _ tt _ eq_refl); cbn [hm set_hm set_allocated]
    | rewrite Z.add_0_r | rewrite Hprev | rewrite Hnext | rewrite Hp0 | rewrite Hn0 | rewrite Hsz | rewrite Hpg ].
  all: unfold ksrc; cbn [src set_hm set_allocated]; rewrite Hfree; eexists; (split; [reflexivity|]).
  all: split_and!; try done; try (intros _; vload).
  all: intros a Ha; destruct (Hlk a Ha) as [A1 A2]; try specialize (A1 Hp1); try specialize (A2 Hn1); mframe; done.
Qed.

(** The empty block [M] leaves the list. *)
Lemma release_block_run V1 M V2 h :
  heap_rep (V1 ++ M :: V2) h → minors M = [] →
  ∃ h', release_block (ma M) h = Ret tt h' ∧ heap_rep (V1 ++ V2) h' ∧
    (∀ a, ¬ block_links V1 V2 a → load8 (hm h') a = load8 (hm h) a) ∧ liballoc_lock_var h' = liballoc_lock_var h.
Proof.
  intros Hr Hm. assert (M ∈ V1 ++ M :: V2) as HM by (apply elem_of_mid; by left).
  pose proof (bk_addr _ _ (hr_blocks _ _ Hr M HM)) as Hma.
  destruct (src_free_run (src h) (ma M) (mpages M) (hr_src _ _ Hr) (hr_live _ _ Hr M HM)) as (s & Hfree & Hs & Hl).
  pose proof (hr_list _ _ Hr) as Hd. rewrite fmap_app, fmap_cons in Hd. apply dseg_mid in Hd as [_ Hnext].
  unfold release_block at 1. hstep.
  change (ma M + MAJ_NEXT) with (ma M + 8). rewrite !Hnext. rewrite !(kbind_run (kmod _) _ _ tt _ eq_refl).
  match goal with |- context [kbind _ _ ?x] => set (h1 := x) end.
  assert (hm h1 = hm h ∧ src h1 = src h ∧ l_allocated h1 = l_allocated h ∧ l_inuse h1 = l_inuse h ∧
    liballoc_lock_var h1 = liballoc_lock_var h ∧
    l_memRoot h1 = (if l_memRoot h =? ma M then first_or 0 (ma <$> V2) else l_memRoot h) ∧
    l_bestBet h1 = if l_bestBet h =? ma M then 0 else l_bestBet h) as (Em & Es & Eal & Ei & Elk & Er & Eb).
  { unfold h1. destruct h as [m s0 r b al iu w e o lk]. simpl. destruct (r =? ma M); simpl; destruct (b =? ma M); done. }
  destruct (release_links V1 M V2 h s Hr Hfree h1 Em Es) as (m' & Hrun & Hframe & P & N).
  eexists. split; [exact Hrun|]. split_and!; [|done|done].
  eapply (heap_rep_remove V1 M V2 h); try done; cbn [src set_src l_memRoot l_bestBet l_allocated set_allocated set_hm].
  - rewrite Er, (hr_root _ _ Hr). destruct V1 as [|R V1]; simpl; [by rewrite Z.eqb_refl|].
    destruct (Z.eqb_spec (ma R) (ma M)) as [E|]; [|done]. pose proof (hr_nodup _ _ Hr) as Hnd.
    apply NoDup_cons in Hnd as [Hn _]. destruct Hn. rewrite E. by apply list_elem_of_fmap_2, elem_of_mid; left.
  - rewrite Eb. destruct (Z.eqb_spec (l_bestBet h) (ma M)) as [|Hne]; [by left|].
    destruct (hr_best _ _ Hr) as [?|(B & E & [->|HB]%elem_of_mid)%list_elem_of_fmap]; [by left|done|right].
    rewrite E. by apply list_elem_of_fmap_2.
  - by rewrite Eal.
Qed.

Lemma update_bet_run V M h :
  heap_rep V h → M ∈ V →
  ∃ b, update_bet (ma M) h = Ret tt (set_bestBet b h) ∧ heap_rep V (set_bestBet b h).
Proof.
  intros Hr HM. pose proof (bk_addr _ _ (hr_blocks _ _ Hr M HM)) as Hma.
  assert (∀ b, b = 0 ∨ b ∈ ma <$> V → heap_rep V (set_bestBet b h)) as Hset
    by (intros b Hb; eapply heap_rep_ext; [exact Hr|done|apply Hr|done..]).
  assert (set_bestBet (l_bestBet h) h = h) as Hid by (by destruct h).
  unfold update_bet. rewrite (kbind_run (kget _) _ h _ _ eq_refl). destruct (Z.eqb_spec (l_bestBet h) 0) as [E|Hne].
  - exists (l_bestBet h). rewrite Hid. by split.
  - destruct (hr_best _ _ Hr) as [?|(B & E & HB)%list_elem_of_fmap]; [done|].
    do 4 hstep. destruct (_ <? _); [exists (ma M)|exists (l_bestBet h); by rewrite Hid].
    split; [done|]. apply Hset. right. by apply list_elem_of_fmap_2.
Qed.

(** The header of [x] says that it was freed. *)
Definition dead_header (m : mem) (x : minor) : Prop :=
  load_le 4 m (mi x + 24) = LIBALLOC_DEAD ∧ load8 m (uptr x - 16) = uptr x - mi x - 40.

Lemma dead_header_ext m m' x :
  (∀ a, minor_own x a → load8 m' a = load8 m a) → dead_header m x → dead_header m' x.
Proof.
  intros He [H1 H2]. split; [rewrite <- H1; apply load_le_ext; intros b Hb|rewrite <- H2]; apply He; unfold minor_own; lia.
Qed.

(** The block after the minor is dead, its usage lowered and its links removed. *)
Lemma removed_block m m' M l1 x l2 :
  block_ok m M → minors M = l1 ++ x :: l2 →
  unlinked (store_le 4 (store_le 4 m (ma M + 24) (load_le 4 m (ma M + 24) - (msz x + 40))) (mi x + 24) LIBALLOC_DEAD)
    m' M l1 l2 →
  block_ok m' (Major (ma M) (mpages M) (l1 ++ l2)) ∧
  (∀ a, ¬ link_bytes M l1 l2 a → ¬ minor_own x a → load8 m' a = load8 m a) ∧ dead_header m' x.
Proof.
  intros Hb Hl [Uf U1 Up Un]. pose proof (bk_fits _ _ Hb) as Hf. pose proof (bk_usage _ _ Hb) as Hu.
  pose proof (bk_addr _ _ Hb) as Ha. rewrite Hl in Hf, Hu. pose proof (fits_used _ _ _ Hf) as Hus.
  rewrite used_app in Hus, Hu. cbn [used] in Hus, Hu.
  pose proof (fits_elem _ _ _ x Hf) as Fx. rewrite elem_of_mid in Fx. destruct Fx as (F1 & F2 & F3 & F4); [by left|].
  pose proof (fits_used _ _ _ (fits_remove _ _ _ _ _ Hf)) as Hus'. rewrite used_app in Hus'.
  assert (∀ a, ¬ link_bytes M l1 l2 a → ¬ minor_own x a → load8 m' a = load8 m a) as Hfr.
  { intros a Hw Ho. rewrite Uf by (by left). pose proof (not_link_head _ _ _ _ Hw). unfold minor_own in Ho. mframe. done. }
  assert (∀ a, minor_own x a → ¬ link_bytes M l1 l2 a) as Hnl.
  { intros a Ho [?|[?|[(l & y & -> & ?)|(y & l & -> & ?)]]]; [unfold minor_own in Ho; pose proof (uptr_range x); lia..| |];
      (eapply (minor_own_disjoint _ _ _ x _ y a Hf); [set_solver|left; lia|done]). }
  split_and!; [|done|split].
  2: { erewrite load_le_ext by (intros b Hb'; apply Uf; left; apply Hnl; left; lia). mload. reflexivity. }
  2: { assert (minor_own x (uptr x - 16)) as Ho by by right. rewrite (Uf _ (or_introl (Hnl _ Ho))).
       pose proof (uptr_range x). mframe. apply (bk_minors _ _ Hb). rewrite Hl. apply elem_of_mid. by left. }
  eapply (block_remove m m' M l1 x l2); try done.
  - erewrite load_le_ext by (intros b Hb'; apply Uf; right; left; lia). rewrite used_app. unfold bend in *. vload.
  - destruct l1 as [|y l1]; [by apply U1|].
    erewrite load_le_ext by (intros b Hb'; apply Uf; right; right; split; [done|lia]).
    mload. rewrite (bk_first _ _ Hb), Hl. done.
Qed.

Lemma UNALIGN_byte x h :
  load8 (hm h) (uptr x - 16) = uptr x - mi x - 40 → 0 ≤ mi x → mi x + 72 ≤ 2 ^ 64 →
  UNALIGN (uptr x) h = Ret (mi x + 40) h.
Proof.
  intros Hx H1 H2. pose proof (uptr_range x). unfold UNALIGN, ALIGN_INFO, ALIGNMENT.
  rewrite (kbind_run (kget _) _ h _ _ eq_refl), (u64_small (uptr x - 16)), Hx by lia.
  unfold s8. rewrite (Z.mod_small (_ + 2 ^ 7)) by lia. rewrite Z.add_simpl_r, (u64_small (uptr x - mi x - 40)) by lia.
  rewrite (proj2 (Z.ltb_lt _ _)) by lia. rewrite u64_small by lia. unfold kret. f_equal. lia.
Qed.

Lemma UNALIGN_run m blk x h :
  hm h = m → minor_ok m blk x → 0 ≤ mi x → mi x + 72 ≤ 2 ^ 64 → UNALIGN (uptr x) h = Ret (mi x + 40) h.
Proof. intros <- Hx. apply UNALIGN_byte, (mo_align _ _ _ Hx). Qed.

(** The new state of a block keeps the clients' bytes. *)
Lemma removed_user m m' M l1 x l2 a :
  block_ok m M → minors M = l1 ++ x :: l2 →
  (∀ a, ¬ link_bytes M l1 l2 a → ¬ minor_own x a → load8 m' a = load8 m a) →
  block_user (Major (ma M) (mpages M) (l1 ++ l2)) a ∨ ¬ (ma M + 16 ≤ a < bend M) → load8 m' a = load8 m a.
Proof.
  intros Hb Hl Hfr Ha. pose proof (bk_fits _ _ Hb) as Hf. pose proof (fits_le _ _ _ Hf). rewrite Hl in Hf.
  assert (∀ b, link_bytes M l1 l2 b ∨ minor_own x b → block_own M b) as Hown.
  { intros b [Hw|Ho]; [|right; exists x; split; [rewrite Hl; apply elem_of_mid; by left|done]].
    eapply link_bytes_own; [|exact Hw]. intros y Hy. rewrite Hl. apply elem_of_mid. by right. }
  assert (¬ (link_bytes M l1 l2 a ∨ minor_own x a)) as Hn; [|apply Hfr; tauto].
  intros Hw. destruct Ha as [(y & Hy & Ha)|Ha].
  - apply (user_not_own m M a Hb); [|by apply Hown]. exists y. split; [|done]. rewrite Hl. apply elem_of_mid. by right.
  - pose proof (block_bounds _ _ a Hb (or_introl (Hown a Hw))). apply Ha. split; [|lia].
    pose proof (fits_elem _ _ _ x Hf) as Fx. rewrite elem_of_mid in Fx. destruct Fx as (F1 & F2 & F3 & F4); [by left|].
    pose proof (uptr_range x). unfold minor_own in Hw.
    destruct Hw as [[?|[?|[(l & y & -> & ?)|(y & l & -> & ?)]]]|?]; try lia;
      pose proof (fits_elem _ _ _ y Hf ltac:(set_solver)); lia.
Qed.

Record freed (V : list major) h (p n : Z) (V' : list major) h' : Prop := {
  fr_rep : heap_rep V' h';
  fr_full : full V';
  fr_allocs : allocs V ≡ₚ (p, n) :: allocs V';
  fr_user : ∀ a, user_byte V' a → load8 (hm h') a = load8 (hm h) a;
  fr_lock : liballoc_lock_var h' = false;
}.

(** [kfree] up to the test for an empty block. *)
Lemma kfree_unlinks V1 M V2 l1 x l2 h :
  heap_rep (V1 ++ M :: V2) h → minors M = l1 ++ x :: l2 → liballoc_lock_var h = false →
  ∃ h', heap_rep (V1 ++ Major (ma M) (mpages M) (l1 ++ l2) :: V2) h' ∧
    (∀ a, block_user (Major (ma M) (mpages M) (l1 ++ l2)) a ∨ ¬ (ma M + 16 ≤ a < bend M) → load8 (hm h') a = load8 (hm h) a) ∧
    dead_header (hm h') x ∧
    kfree (uptr x) h =
    (let* first := kld 8 (ma M) MAJ_FIRST in
     (if first =? 0 then release_block (ma M) else update_bet (ma M)) ;;;
     liballoc_unlock) h'.
Proof.
  intros Hr Hl Hlk. assert (M ∈ V1 ++ M :: V2) as HM by (apply elem_of_mid; by left).
  pose proof (hr_blocks _ _ Hr M HM) as Hb. pose proof (bk_addr _ _ Hb) as Ha. pose proof (bk_fits _ _ Hb) as Hf.
  rewrite Hl in Hf. pose proof (fits_elem _ _ _ x Hf) as Fx. rewrite elem_of_mid in Fx.
  destruct Fx as (F1 & F2 & F3 & F4); [by left|]. pose proof (uptr_range x). unfold mend in F4.
  assert (minor_ok (hm h) (ma M) x) as Hx by (apply (bk_minors _ _ Hb); rewrite Hl; apply elem_of_mid; by left).
  pose proof (bk_list _ _ Hb) as Hd. rewrite Hl, fmap_app, fmap_cons in Hd. apply dseg_mid in Hd as [Hp Hn].
  unfold kfree. rewrite (proj2 (Z.eqb_neq (uptr x) 0)) by lia.
  rewrite (kbind_run _ _ _ _ _ (UNALIGN_run _ _ x h eq_refl Hx ltac:(lia) ltac:(lia))).
  rewrite (kbind_run liballoc_lock _ h tt (set_lock true h)) by (unfold liballoc_lock; by rewrite Hlk).
  unfold MIN_SIZEOF. rewrite Z.add_simpl_r, u64_small by lia. hstep.
  cbn [hm set_lock]. unfold MIN_MAGIC, MIN_BLOCK, MIN_SIZE, MAJ_USAGE.
  rewrite (mo_magic _ _ _ Hx), Z.eqb_refl. cbn [negb]. do 2 hstep. cbn [hm set_lock].
  rewrite (mo_size _ _ _ Hx), (mo_block _ _ _ Hx), (kbind_run (kmod _) _ _ tt _ eq_refl). do 3 hstep.
  cbn [hm set_lock set_inuse].
  match goal with |- context [kbind (unlink_minor _ _) _ ?s] => set (h3 := s) end.
  destruct (unlink_run M l1 x l2 h3) as (m' & Hrun & Hul); [lia|lia|done|unfold h3; cbn [hm set_hm]..|].
  - mload. done.
  - mload. done.
  - unfold h3 in Hul. cbn [hm set_hm] in Hul. destruct (removed_block _ _ _ _ _ _ Hb Hl Hul) as (Hb' & Hfr & Hdead).
    pose proof (λ a, removed_user _ _ _ _ _ _ a Hb Hl Hfr) as Hus.
    exists (set_hm m' h3). split_and!; [|done|done|by rewrite (kbind_run _ _ _ _ _ Hrun)].
    eapply heap_rep_update; [exact Hr|exact Hb'| |done|done|done|apply Hr|].
    + intros a Ha'. apply Hus. by right.
    + simpl. rewrite Hl, !sizes_app. simpl. f_equal. lia.
Qed.

Lemma kfree_frees V1 M V2 l1 x l2 h :
  heap_rep (V1 ++ M :: V2) h → full (V1 ++ M :: V2) → minors M = l1 ++ x :: l2 → liballoc_lock_var h = false →
  ∃ V' h', kfree (uptr x) h = Ret tt h' ∧ freed (V1 ++ M :: V2) h (uptr x) (mreq x) V' h' ∧ dead_header (hm h') x.
Proof.
  intros Hr Hfull Hl Hlk. destruct (kfree_unlinks V1 M V2 l1 x l2 h Hr Hl Hlk) as (h1 & Hr1 & Hus & Hdead & ->).
  set (M' := Major (ma M) (mpages M) (l1 ++ l2)) in *.
  assert (M' ∈ V1 ++ M' :: V2) as HM' by (apply elem_of_mid; by left).
  pose proof (hr_blocks _ _ Hr1 M' HM') as Hb. pose proof (bk_addr _ _ Hb) as Ha. simpl in Ha.
  assert (∀ a, user_byte (V1 ++ M' :: V2) a → load8 (hm h1) a = load8 (hm h) a) as Hu1.
  { intros a (K & [->|HK]%elem_of_mid & Hu)%user_byte_block; [apply Hus; by left|]. apply Hus. right.
    destruct (other_block V1 M' V2 h1 K Hr1 HK) as (HK' & Hd & _). unfold bend, M' in *. simpl in Hd.
    pose proof (block_bounds _ _ a (hr_blocks _ _ Hr1 K HK') (or_intror Hu)). unfold bend in *. lia. }
  pose proof (allocs_insert V1 M V2 l1 x l2 Hl : _ ≡ₚ (uptr x, mreq x) :: allocs (V1 ++ M' :: V2)) as Hal.
  hstep. unfold MAJ_FIRST. rewrite (bk_first _ _ Hb : load_le 8 (hm h1) (ma M + 32) = _).
  assert (∀ K, K ∈ V1 ++ V2 → minors K ≠ []) as Hfo by (intros K HK; apply Hfull, elem_of_mid; by right).
  destruct (l1 ++ l2) as [|y r] eqn:Hr12; cbn [minors M' fmap list_fmap first_or].
  - rewrite Z.eqb_refl. destruct (release_block_run V1 M' V2 h1 Hr1 eq_refl) as (h2 & Hrun & Hr2 & Hfr & _).
    rewrite (kbind_run _ _ _ _ _ Hrun). exists (V1 ++ V2). eexists. split; [reflexivity|].
    split; [|eapply dead_header_ext; [|exact Hdead]; intros a Ho; apply Hfr; intros Hbl].
    2: { assert (ma M ≤ a < bend M) as Ha'.
         { apply (block_bounds _ _ a (hr_blocks _ _ Hr M ltac:(apply elem_of_mid; by left))). left. right. exists x.
           split; [rewrite Hl; apply elem_of_mid; by left|done]. }
         apply block_links_in in Hbl as [(K & HK & _ & ?)|(K & HK & _ & ?)];
           (destruct (other_block V1 M V2 h K Hr) as (_ & ? & ? & _); [apply elem_of_app; auto|lia]). }
    assert (∀ a, user_byte (V1 ++ V2) a → user_byte (V1 ++ M' :: V2) a) as Hsub.
    { intros a (K & HK & Hu)%user_byte_block. apply user_byte_block. exists K. split; [apply elem_of_mid; by right|done]. }
    split; [|done| | |done].
    + eapply heap_rep_ext; [exact Hr2|done|apply Hr2|done|done|apply Hr2|done|done].
    + rewrite Hal, allocs_mid. simpl. unfold allocs. by rewrite <- bind_app.
    + intros a Hu. simpl. rewrite Hfr; [by apply Hu1, Hsub|]. intros [(K & HK & _ & ?)|(K & HK & _ & ?)]%block_links_in;
        (apply (user_not_header _ _ K a Hr1); [apply elem_of_mid; right; apply elem_of_app; auto|by apply Hsub|lia]).
  - assert (y ∈ minors M') as Hy by (unfold M'; simpl; by left).
    pose proof (fits_elem _ _ _ y (bk_fits _ _ Hb) Hy) as Fy. simpl in Fy.
    rewrite (proj2 (Z.eqb_neq (mi y) 0)) by lia. destruct (update_bet_run _ M' h1 Hr1 HM') as (b & Hrun & Hr2).
    rewrite (kbind_run _ _ _ _ _ Hrun). exists (V1 ++ M' :: V2). eexists. split; [reflexivity|]. split; [|done]. split; [| |done|done|done].
    + eapply heap_rep_ext; [exact Hr2|done|apply Hr2|done|done|apply Hr2|done|done].
    + intros K [->|HK]%elem_of_mid; [done|by apply Hfo].
Qed.
End rep.
