(* ===== verification/KernelHeap.v ===== *)
(** * The kernel heap as a map of allocations

    [kheap_ok h A] is the contract of [mm/kmalloc.h]: [A] maps each pointer in
    use to its size.  [kmalloc], [kfree], [kcalloc] and [krealloc] refine the
    obvious operations on [A]; over every sequence of calls and of writes by the
    clients the allocations are aligned, disjoint and inside the blocks the heap
    was given.  Then what happens to sizes near 2^64 and to a failed
    [krealloc]. *)

From stdpp Require Import base gmap list.
From Stdlib Require Import ZArith Lia.
From S2P Require Import Prelude Ram Heap HeapList HeapPlace HeapSpec HeapFree.
#[local] Open Scope Z_scope.

(** ** Copying by words *)

Lemma load8_memcpy_words k m d s a :
  d ≤ s ∨ s + 4 * Z.of_nat k ≤ d →
  load8 (liballoc_memcpy_words k m d s) a =
  if (d <=? a) && (a <? d + 4 * Z.of_nat k) then load8 m (s + (a - d)) else load8 m a.
Proof.
  revert m d s. induction k as [|k IH]; intros m d s Hds; cbn [liballoc_memcpy_words].
  - zcases; simpl; try done; lia.
  - rewrite IH by lia. rewrite !load8_copy_le. change (Z.of_nat 4) with 4.
    zcases; simpl; try done; try lia; try (f_equal; lia).
Qed.

Lemma load8_liballoc_memcpy m d s n a :
  0 ≤ n → d ≤ s ∨ s + n ≤ d →
  load8 (liballoc_memcpy m d s n) a =
  if (d <=? a) && (a <? d + n) then load8 m (s + (a - d)) else load8 m a.
Proof.
  intros Hn Hds. unfold liballoc_memcpy. pose proof (Z.div_mod n 4 ltac:(lia)) as Hdm.
  pose proof (Z.mod_pos_bound n 4 ltac:(lia)). assert (0 ≤ n / 4) by (apply Z.div_pos; lia).
  rewrite load8_memcpy_loop, !load8_memcpy_words by (rewrite ?Z2Nat.id; lia). rewrite !Z2Nat.id by lia.
  zcases; simpl; try done; try lia; try (f_equal; lia).
Qed.

(** C40: The heap's own copy routine, which moves four bytes at a time and then the
    rest, leaves memory as [memcpy] of [lib/memory.c] does, byte by byte, unless
    the destination starts inside the source. *)
Theorem liballoc_memcpy_memcpy m d s n a (Hn : 0 ≤ n) (Hds : d ≤ s ∨ s + n ≤ d) :
  load8 (liballoc_memcpy m d s n) a = load8 (memcpy m d s n) a.
Proof. by rewrite load8_liballoc_memcpy, load8_memcpy. Qed.

Lemma liballoc_memcpy_memcpy_witness :
  load8 (liballoc_memcpy (<[10 := 7]> (<[15 := 9]> ∅)) 20 10 6) 25 = 9.
Proof. rewrite (liballoc_memcpy_memcpy _ 20 10 6 25); [reflexivity | lia | lia]. Defined.

Section contract.
Context {S : Type} `{BlockSourceLaws S}.
Implicit Types h : heap S.
Implicit Types A : gmap Z Z.

Definition kheap_ok h A : Prop :=
  ∃ V, heap_rep V h ∧ full V ∧ liballoc_lock_var h = false ∧ A = list_to_map (allocs V).

(** The byte [a] belongs to a client. *)
Definition in_use A (a : Z) : Prop := ∃ p n, A !! p = Some n ∧ p ≤ a < p + n.

(** ** Allocations are disjoint *)

Lemma alloc_elem V p n :
  (p, n) ∈ allocs V → ∃ V1 M V2 l1 x l2, V = V1 ++ M :: V2 ∧ minors M = l1 ++ x :: l2 ∧ p = uptr x ∧ n = mreq x.
Proof.
  unfold allocs. intros (M & Hx & HM)%list_elem_of_bind. apply list_elem_of_fmap in Hx as (x & [= -> ->] & Hx).
  apply list_elem_of_split in HM as (V1 & V2 & ->), Hx as (l1 & l2 & Hl). by exists V1, M, V2, l1, x, l2.
Qed.

(** Two minors of the heap with different places. *)
Lemma minors_disjoint V h M x N y :
  heap_rep V h → M ∈ V → N ∈ V → x ∈ minors M → y ∈ minors N → M ≠ N ∨ mi x ≠ mi y →
  mend x ≤ mi y ∨ mend y ≤ mi x.
Proof.
  intros Hr HM HN Hx Hy Hne. pose proof (bk_fits _ _ (hr_blocks _ _ Hr M HM)) as FM.
  pose proof (bk_fits _ _ (hr_blocks _ _ Hr N HN)) as FN.
  destruct (decide (M = N)) as [->|HMN].
  - destruct (fits_pair _ _ _ x y FM Hx Hy) as [?|?]; [naive_solver|lia].
  - pose proof (fits_elem _ _ _ x FM Hx). pose proof (fits_elem _ _ _ y FN Hy).
    destruct (blocks_disjoint V h M N Hr HM HN HMN); lia.
Qed.

Lemma alloc_bounds V h M x : heap_rep V h → M ∈ V → x ∈ minors M →
  0 ≤ mreq x ∧ mi x + 56 ≤ uptr x ∧ uptr x + mreq x ≤ mend x ∧ ma M + 40 ≤ mi x ∧ mend x ≤ bend M.
Proof.
  intros Hr HM Hx. pose proof (fits_elem _ _ _ x (bk_fits _ _ (hr_blocks _ _ Hr M HM)) Hx).
  pose proof (uptr_range x). unfold mend in *. lia.
Qed.

Lemma fits_uptr_NoDup lo hi l : fits lo hi l → NoDup (uptr <$> l).
Proof.
  revert lo. induction l as [|x r IH]; intros lo; simpl; [constructor|]. intros (? & ? & ? & Hf).
  apply NoDup_cons. split; [|by eapply IH]. intros (y & Hy & Hin)%list_elem_of_fmap.
  pose proof (fits_elem _ _ _ _ Hf Hin). pose proof (uptr_range x). pose proof (uptr_range y). unfold mend in *. lia.
Qed.

Lemma allocs_NoDup V h : heap_rep V h → NoDup (allocs V).*1.
Proof.
  intros Hr. assert ((allocs V).*1 = V ≫= λ M, uptr <$> minors M) as ->.
  { unfold allocs. clear Hr. induction V as [|M V IH]; [done|]. cbn. rewrite fmap_app, IH, <- list_fmap_compose. done. }
  apply NoDup_bind.
  - intros M N p HM HN (x & -> & Hx)%list_elem_of_fmap (y & Hxy & Hy)%list_elem_of_fmap.
    destruct (decide (M = N)); [done|]. pose proof (alloc_bounds V h M x Hr HM Hx). pose proof (alloc_bounds V h N y Hr HN Hy).
    pose proof (uptr_range x). pose proof (uptr_range y).
    destruct (minors_disjoint V h M x N y Hr HM HN Hx Hy); [by left|lia..].
  - intros M HM. by eapply fits_uptr_NoDup, (bk_fits _ _ (hr_blocks _ _ Hr M HM)).
  - eapply NoDup_fmap_1, Hr.
Qed.

Lemma ok_lookup V h p n :
  heap_rep V h → (list_to_map (allocs V) : gmap Z Z) !! p = Some n ↔ (p, n) ∈ allocs V.
Proof. intros Hr. symmetry. apply elem_of_list_to_map. by eapply allocs_NoDup. Qed.

Lemma ok_in_use V h a : heap_rep V h → in_use (list_to_map (allocs V)) a ↔ user_byte V a.
Proof.
  intros Hr. unfold in_use, user_byte. split; intros (p & n & Hp & Ha); exists p, n; (split; [|done]);
    by eapply (ok_lookup V h p n Hr).
Qed.

(** What the contract gives: an allocation is aligned and lies in a block of
    pages that the heap holds, and two of them do not overlap. *)
Lemma kheap_ok_alloc h A p n :
  kheap_ok h A → A !! p = Some n →
  0 < p ∧ 0 ≤ n ∧ p mod 16 = 0 ∧ ∃ b k, src_live (src h) !! b = Some k ∧ b ≤ p ∧ p + n ≤ b + k * 4096.
Proof.
  intros (V & Hr & _ & _ & ->) (V1 & M & V2 & l1 & x & l2 & -> & Hl & -> & ->)%(ok_lookup V h p n Hr)%alloc_elem.
  assert (M ∈ V1 ++ M :: V2) as HM by (apply elem_of_mid; by left).
  pose proof (bk_addr _ _ (hr_blocks _ _ Hr M HM)).
  destruct (alloc_bounds _ h M x Hr HM) as (? & ? & ? & ? & ?); [rewrite Hl; apply elem_of_mid; by left|].
  split_and!; [lia|done|apply uptr_aligned|]. exists (ma M), (mpages M). unfold bend in *.
  split_and!; [by apply (hr_live _ _ Hr)|lia|lia].
Qed.

Lemma kheap_ok_disjoint h A p n q k :
  kheap_ok h A → A !! p = Some n → A !! q = Some k → p ≠ q → p + n ≤ q ∨ q + k ≤ p.
Proof.
  intros (V & Hr & _ & _ & ->) Hp%(ok_lookup V h p n Hr) Hq%(ok_lookup V h q k Hr) Hne.
  apply list_elem_of_bind in Hp as (M & (x & [= -> ->] & Hx)%list_elem_of_fmap & HM).
  apply list_elem_of_bind in Hq as (N & (y & [= -> ->] & Hy)%list_elem_of_fmap & HN).
  assert (mi x ≠ mi y) by (intros E; apply Hne; unfold uptr; by rewrite E).
  destruct (alloc_bounds _ h M x Hr HM Hx) as (? & ? & ? & ? & ?), (alloc_bounds _ h N y Hr HN Hy) as (? & ? & ? & ? & ?).
  destruct (minors_disjoint V h M x N y Hr HM HN Hx Hy); [by right|lia..].
Qed.

(** ** The operations on the map *)

Lemma kmalloc_refines (fuel : nat) req h A :
  kheap_ok h A → 0 ≤ req ≤ 2 ^ 31 → (3 * size A + 2 ≤ fuel)%nat →
  ∃ p h', kmalloc fuel req h = Ret p h' ∧
    ((p = 0 ∧ kheap_ok h' A ∧ (∃ s, liballoc_alloc (pages_for (req + 32)) (src h) = Ret 0 s) ∧
      ∀ a, load8 (hm h') a = load8 (hm h) a) ∨
     (A !! p = None ∧ kheap_ok h' (<[p := req]> A) ∧ ∀ a, in_use A a → load8 (hm h') a = load8 (hm h) a)).
Proof.
  intros (V & Hr & Hfull & Hlk & ->) Hreq Hf.
  unfold kmalloc, ALIGNMENT, ALIGN_INFO. replace (req + 16 + 16) with (req + 32) by lia. rewrite u64_small by lia.
  rewrite (kbind_run liballoc_lock _ h tt (set_lock true h)) by (unfold liballoc_lock; by rewrite Hlk).
  rewrite (proj2 (Z.eqb_neq (req + 32) 0)) by lia.
  assert (heap_rep V (set_lock true h)) as Hr1 by (eapply heap_rep_ext; [exact Hr|done|apply Hr|done|done|apply Hr|done|done]).
  assert (size (list_to_map (allocs V) : gmap Z Z) = length (allocs V)) as Hsize.
  { rewrite <- length_map_to_list. apply Permutation_length.
    apply map_to_list_to_map. by eapply allocs_NoDup. }
  assert (length V ≤ length (allocs V))%nat as HlenV.
  { clear -Hfull. induction V as [|M V IH]; [simpl; lia|]. cbn. rewrite length_app, length_fmap.
    assert (minors M ≠ []) as HM by (apply Hfull; by left). destruct (minors M); [done|]. simpl.
    assert (length V ≤ length (allocs V))%nat by (apply IH; intros K HK; apply Hfull; by right). unfold allocs in *. lia. }
  destruct (sized_run req (req + 32) Hreq eq_refl fuel V (set_lock true h) Hr1 Hfull ltac:(lia))
    as (p & h' & Hrun & Hpost). rewrite Hrun. exists p. eexists. split; [reflexivity|].
  assert (∀ V', heap_rep V' h' → heap_rep V' (set_lock false h')) as Hunl
    by (intros V' H'; eapply heap_rep_ext; [exact H'|done|apply H'|done|done|apply H'|done|done]).
  destruct Hpost as [[-> [R F Hs B _]]|(V' & [R F P Al U _])]; [left|right].
  - split_and!; [done|exists V; by auto|done|done].
  - pose proof (allocs_NoDup _ _ R) as Hnd. pose proof Hnd as Hnd'. rewrite Al in Hnd'. apply NoDup_cons in Hnd' as [Hn _].
    split_and!.
    + by apply not_elem_of_list_to_map_1.
    + exists V'. split_and!; [by apply Hunl|done|done|]. by rewrite (list_to_map_proper _ _ Hnd Al).
    + intros a Ha%(ok_in_use V h a Hr). simpl. by apply U.
Qed.

Lemma kfree_refines h A p n :
  kheap_ok h A → A !! p = Some n →
  ∃ h', kfree p h = Ret tt h' ∧ kheap_ok h' (delete p A) ∧
    (∀ a, in_use (delete p A) a → load8 (hm h') a = load8 (hm h) a) ∧
    ∃ x, p = uptr x ∧ 0 < mi x ∧ mi x + 72 ≤ 2 ^ 64 ∧ dead_header (hm h') x.
Proof.
  intros (V & Hr & Hfull & Hlk & ->) Hp%(ok_lookup V h p n Hr).
  destruct (alloc_elem V p n Hp) as (V1 & M & V2 & l1 & x & l2 & -> & Hl & -> & ->).
  destruct (kfree_frees V1 M V2 l1 x l2 h Hr Hfull Hl Hlk) as (V' & h' & Hrun & [R F Al U L] & Hdead).
  pose proof (allocs_NoDup _ _ Hr) as Hnd. pose proof Hnd as Hnd'. rewrite Al in Hnd'. apply NoDup_cons in Hnd' as [Hn _].
  assert (delete (uptr x) (list_to_map (allocs (V1 ++ M :: V2))) = (list_to_map (allocs V') : gmap Z Z)) as Hdel.
  { rewrite (list_to_map_proper _ _ Hnd Al). simpl. apply delete_insert_id. by apply not_elem_of_list_to_map_1. }
  exists h'. rewrite Hdel. split_and!; [done|by exists V'| |].
  - intros a Ha%(ok_in_use V' h' a R). by apply U.
  - exists x. assert (M ∈ V1 ++ M :: V2) as HM by (apply elem_of_mid; by left). pose proof (bk_addr _ _ (hr_blocks _ _ Hr M HM)).
    pose proof (fits_elem _ _ _ x (bk_fits _ _ (hr_blocks _ _ Hr M HM)) ltac:(rewrite Hl; apply elem_of_mid; by left)).
    unfold mend in *.    pose proof (uptr_range x). split_and!; [done|lia|lia|done].
Qed.

(** The clients may write in what they have. *)
Lemma kheap_ok_write h A m' :
  kheap_ok h A → (∀ a, ¬ in_use A a → load8 m' a = load8 (hm h) a) → kheap_ok (set_hm m' h) A.
Proof.
  intros (V & Hr & Hfull & Hlk & ->) Hm. exists V. split_and!; try done. pose proof Hr as [R1 R2 R3 R4 R5 R6 R7 R8 R9].
  assert (∀ a, ¬ user_byte V a → load8 m' a = load8 (hm h) a) as Hm' by (intros a Ha; apply Hm; by rewrite (ok_in_use V h a Hr)).
  split; try done; simpl.
  - intros M HM. eapply block_ok_ext; [|by apply R4]. intros a Ho _. apply Hm'. intros (K & HK & Hu)%user_byte_block.
    pose proof (block_bounds _ _ a (R4 K HK) (or_intror Hu)). pose proof (block_bounds _ _ a (R4 M HM) (or_introl Ho)).
    destruct (decide (K = M)) as [->|Hne]; [by eapply user_not_own; [apply R4| |]|].
    destruct (blocks_disjoint V h K M Hr HK HM Hne); lia.
  - eapply dseg_ext; [|exact R5]. intros b (M & -> & HM)%list_elem_of_fmap.
    split; apply load_le_ext; intros a Ha; apply Hm'; intros Hu; apply (user_not_header V h M a Hr HM Hu); lia.
Qed.

(** ** Properties *)


(** C5: [kfree] refines the removal of an allocation: it returns, the pointer is
    no longer in use, and the bytes of every other allocation are as before. *)
Theorem kfree_spec h A p n (Hok : kheap_ok h A) (Hp : A !! p = Some n) :
  ∃ h', kfree p h = Ret tt h' ∧ kheap_ok h' (delete p A) ∧
    ∀ a, in_use (delete p A) a → load8 (hm h') a = load8 (hm h) a.
Proof. destruct (kfree_refines h A p n Hok Hp) as (h' & ? & ? & ? & _). by exists h'. Qed.

(** A call of a client or a write by one, with the map of allocations the client
    keeps. *)
Inductive heap_step : heap S * gmap Z Z → heap S * gmap Z Z → Prop :=
| step_kmalloc fuel req h A p h' :
    0 ≤ req ≤ 2 ^ 31 → (3 * size A + 2 ≤ fuel)%nat → kmalloc fuel req h = Ret p h' →
    heap_step (h, A) (h', if p =? 0 then A else <[p := req]> A)
| step_kfree h A p n h' :
    A !! p = Some n → kfree p h = Ret tt h' → heap_step (h, A) (h', delete p A)
| step_write h A m' :
    (∀ a, ¬ in_use A a → load8 m' a = load8 (hm h) a) → heap_step (h, A) (set_hm m' h, A).

Lemma heap_step_ok c c' : heap_step c c' → kheap_ok c.1 c.2 → kheap_ok c'.1 c'.2.
Proof.
  intros [fuel req h A p h' Hreq Hfuel Hrun|h A p n h' Hp Hrun|h A m' Hm] Hok; simpl in *.
  - destruct (kmalloc_refines fuel req h A Hok Hreq Hfuel) as (p' & h2 & Hrun' & [(-> & H1 & _)|(Hn & Hok' & _)]);
      rewrite Hrun in Hrun'; apply Ret_inj in Hrun' as [-> ->]; [done|].
    destruct (kheap_ok_alloc _ _ p' req Hok') as (Hp' & _); [apply lookup_insert_eq|].
    by rewrite (proj2 (Z.eqb_neq p' 0)) by lia.
  - destruct (kfree_refines h A p n Hok Hp) as (h2 & Hrun' & ? & _). rewrite Hrun in Hrun'. by apply Ret_inj in Hrun' as [_ ->].
  - by apply kheap_ok_write.
Qed.

Lemma heap_steps_ok c c' : rtc heap_step c c' → kheap_ok c.1 c.2 → kheap_ok c'.1 c'.2.
Proof. induction 1 as [|c c1 c2 Hstep _ IH]; eauto using heap_step_ok. Qed.


(** ** [krealloc] and [kcalloc] *)

(** The size a client asked for becomes smaller in place. *)
Lemma block_resize m M l1 x l2 sz :
  block_ok m M → minors M = l1 ++ x :: l2 → 0 ≤ sz ≤ mreq x →
  block_ok (store_le 4 m (mi x + 32) sz) (Major (ma M) (mpages M) (l1 ++ Minor (mi x) (msz x) sz :: l2)).
Proof.
  intros [H1 H2 H3 H4 H5 H6 H7 H8] Hl Hsz. rewrite Hl in *. set (x' := Minor (mi x) (msz x) sz).
  assert (x ∈ l1 ++ x :: l2) as Hx by (apply elem_of_mid; by left). pose proof (fits_elem _ _ _ x H8 Hx) as (F1 & F2 & F3 & F4).
  assert (mi <$> l1 ++ x' :: l2 = mi <$> l1 ++ x :: l2) as Hmi by (by rewrite !fmap_app).
  assert (fits (ma M + 40) (bend M) (l1 ++ x' :: l2)) as Hf.
  { apply fits_app in H8 as [A (B1 & B2 & B3 & B4)]. apply fits_app. split; [done|]. simpl. split_and!; [done|lia|lia|done]. }
  assert (∀ y, y ∈ l1 ++ l2 → y ∈ l1 ++ x :: l2) as Hin by (intros y Hy; apply elem_of_mid; by right).
  assert (∀ y, y ∈ l1 ++ l2 → mend y ≤ mi x ∨ mend x ≤ mi y) as Hdis.
  { intros y Hy. destruct (fits_pair _ _ _ y x H8 (Hin y Hy) Hx) as [E|?]; [|done].
    destruct (minor_own_disjoint _ _ l1 x l2 y (mi y) H8 Hy); left; lia. }
  unfold mend, bend in *. split; cbn [ma mpages minors]; rewrite ?Hmi; try done; try (mload; done).
  - mload. rewrite H4, !used_app. done.
  - eapply dseg_ext; [|exact H6]. intros a (y & -> & [->|Hy]%elem_of_mid)%list_elem_of_fmap; [split; mload; done|].
    pose proof (Hdis y Hy). pose proof (fits_elem _ _ _ y H8 (Hin y Hy)). unfold mend in *. split; mload; done.
  - intros y [->|Hy]%elem_of_mid.
    + destruct (H7 x Hx) as [A1 A2 A3 A4 A5]. pose proof (uptr_range x). assert (uptr x' = uptr x) as Eu by done.
      split; rewrite ?Eu; cbn [mi msz mreq x']; try (mload; done); [vload|]. mframe. done.
    + pose proof (Hdis y Hy). pose proof (fits_elem _ _ _ y H8 (Hin y Hy)). pose proof (uptr_range y). unfold mend in *.
      eapply minor_ok_ext; [|by apply H7, Hin]. intros a Ha. mframe. done.
Qed.

Lemma kheap_ok_resize h A p n sz :
  kheap_ok h A → A !! p = Some n → 0 ≤ sz ≤ n →
  ∃ x, p = uptr x ∧ n = mreq x ∧ (∃ M, minor_ok (hm h) (ma M) x) ∧ 0 ≤ mi x ∧ mi x + 72 ≤ 2 ^ 64 ∧ 0 < mi x ∧
    (∀ a, in_use A a → load8 (store_le 4 (hm h) (mi x + 32) sz) a = load8 (hm h) a) ∧
    kheap_ok (set_hm (store_le 4 (hm h) (mi x + 32) sz) h) (<[p := sz]> A).
Proof.
  intros (V & Hr & Hfull & Hlk & ->) Hp%(ok_lookup V h p n Hr) Hsz.
  destruct (alloc_elem V p n Hp) as (V1 & M & V2 & l1 & x & l2 & -> & Hl & -> & ->). exists x.
  assert (M ∈ V1 ++ M :: V2) as HM by (apply elem_of_mid; by left). pose proof (hr_blocks _ _ Hr M HM) as Hb.
  assert (x ∈ minors M) as Hx by (rewrite Hl; apply elem_of_mid; by left).
  pose proof (bk_addr _ _ Hb). pose proof (fits_elem _ _ _ x (bk_fits _ _ Hb) Hx) as (F1 & F2 & F3 & F4).
  pose proof (block_resize _ _ _ _ _ sz Hb Hl Hsz) as Hb'. set (m' := store_le 4 _ _ _) in *.
  unfold mend, bend in *. split_and!; [done|done|exists M; by apply (bk_minors _ _ Hb)|lia|lia|lia| |].
  - intros a Ha%(ok_in_use _ h a Hr). unfold m'. apply load8_store_le_out.
    assert (¬ block_own M a) as Hno.
    { intros Ho. apply user_byte_block in Ha as (K & HK & Hu).
      pose proof (block_bounds _ _ a (hr_blocks _ _ Hr K HK) (or_intror Hu)). pose proof (block_bounds _ _ a Hb (or_introl Ho)).
      destruct (decide (K = M)) as [->|Hne]; [by apply (user_not_own _ _ _ Hb Hu)|].
      destruct (blocks_disjoint _ h K M Hr HK HM Hne); lia. }
    destruct (decide (mi x + 32 ≤ a < mi x + 36)); [|lia]. destruct Hno. right. exists x. split; [done|left; lia].
  - set (x' := Minor (mi x) (msz x) sz). exists (V1 ++ Major (ma M) (mpages M) (l1 ++ x' :: l2) :: V2). split_and!; [| |done|].
    + eapply heap_rep_update; [exact Hr|exact Hb'| |done|done|done|apply Hr|].
      * intros a Ha. unfold m'. simpl. rewrite load8_store_le_out; [done|]. unfold bend in *. lia.
      * simpl. rewrite (hr_inuse _ _ Hr), Hl, !sizes_app, u64_add_l. simpl. f_equal. lia.
    + intros K [->|HK]%elem_of_mid; [simpl; by destruct l1|apply Hfull, elem_of_mid; by right].
    + pose proof (allocs_NoDup _ _ Hr) as Hnd.
      pose proof (allocs_insert V1 M V2 l1 x l2 Hl) as P1.
      pose proof (allocs_insert V1 (Major (ma M) (mpages M) (l1 ++ x' :: l2)) V2 l1 x' l2 eq_refl) as P2. simpl in P2.
      pose proof Hnd as Hnd1. rewrite P1 in Hnd1. rewrite (list_to_map_proper _ _ Hnd P1).
      assert (NoDup (allocs (V1 ++ Major (ma M) (mpages M) (l1 ++ x' :: l2) :: V2)).*1) as Hnd2 by (rewrite P2; exact Hnd1).
      rewrite (list_to_map_proper _ _ Hnd2 P2). simpl. by rewrite insert_insert_eq.
Qed.

(** The start of [krealloc] on a pointer in use. *)
Lemma krealloc_enters (fuel : nat) p n sz h A :
  kheap_ok h A → A !! p = Some n → 0 < sz →
  ∃ x, (sz ≤ n → kheap_ok (set_hm (store_le 4 (hm h) (mi x + 32) sz) h) (<[p := sz]> A) ∧
      ∀ a, in_use A a → load8 (store_le 4 (hm h) (mi x + 32) sz) a = load8 (hm h) a) ∧
    krealloc fuel p sz h =
    if sz <=? n then Ret p (set_hm (store_le 4 (hm h) (mi x + 32) sz) h) else
    (let* ptr := kmalloc fuel sz in
     (if (ptr =? 0) && negb (n =? 0) then kfault else
      kmod (λ h, set_hm (liballoc_memcpy (hm h) ptr p n) h)) ;;;
     kfree p ;;;
     kret ptr) h.
Proof.
  intros Hok Hp Hsz. destruct (kheap_ok_alloc h A p n Hok Hp) as (Hp0 & Hn0 & _).
  assert (liballoc_lock_var h = false) as Hlk by (by destruct Hok as (? & _ & _ & ? & _)).
  assert (∃ x, p = uptr x ∧ n = mreq x ∧ (∃ M, minor_ok (hm h) (ma M) x) ∧ 0 < mi x ∧ mi x + 72 ≤ 2 ^ 64 ∧
    (sz ≤ n → kheap_ok (set_hm (store_le 4 (hm h) (mi x + 32) sz) h) (<[p := sz]> A) ∧
      ∀ a, in_use A a → load8 (store_le 4 (hm h) (mi x + 32) sz) a = load8 (hm h) a))
    as (x & -> & -> & (M & Hx) & Hx0 & Hx1 & Hsmall).
  { destruct (decide (sz ≤ n)).
    - destruct (kheap_ok_resize h A p n sz Hok Hp) as (x & -> & -> & ? & ? & ? & ? & ? & ?); [lia|]. by exists x.
    - destruct (kheap_ok_resize h A p n n Hok Hp) as (x & -> & -> & ? & ? & ? & ? & ? & ?); [lia|]. exists x. naive_solver. }
  exists x. split; [done|]. unfold krealloc. rewrite (proj2 (Z.eqb_neq sz 0)), (proj2 (Z.eqb_neq (uptr x) 0)) by lia.
  rewrite (kbind_run _ _ _ _ _ (UNALIGN_run _ _ x h eq_refl Hx ltac:(lia) ltac:(lia))).
  rewrite (kbind_run liballoc_lock _ h tt (set_lock true h)) by (unfold liballoc_lock; by rewrite Hlk).
  unfold MIN_SIZEOF. rewrite Z.add_simpl_r, u64_small by lia. hstep. cbn [hm set_lock]. unfold MIN_MAGIC, MIN_REQ_SIZE.
  rewrite (mo_magic _ _ _ Hx), Z.eqb_refl. cbn [negb]. hstep. cbn [hm set_lock]. rewrite (mo_req _ _ _ Hx).
  destruct (sz <=? mreq x).
  - hstep. cbn [hm set_lock set_hm]. unfold kbind, liballoc_unlock, kmod, kret. destruct h; simpl in *. by subst.
  - unfold liballoc_unlock at 1. rewrite (kbind_run (kmod _) _ _ tt _ eq_refl). destruct h; simpl in *. by subst.
Qed.


(** [kcalloc] of an array that fits in an [int].  It returns a fresh pointer
    to bytes that are all 0 and changes no byte of another allocation; when there
    is no memory it clears bytes at NULL, which C does not define, unless the
    array is empty. *)
Theorem kcalloc_spec (fuel : nat) nobj sz h A
    (Hok : kheap_ok h A) (Hsz : 0 ≤ nobj * sz < 2 ^ 31) (Hfuel : (3 * size A + 2 ≤ fuel)%nat) :
  (∃ p h', kcalloc fuel nobj sz h = Ret p h' ∧ A !! p = None ∧ kheap_ok h' (<[p := nobj * sz]> A) ∧
     (∀ i, 0 ≤ i < nobj * sz → load8 (hm h') (p + i) = 0) ∧
     ∀ a, in_use A a → load8 (hm h') a = load8 (hm h) a) ∨
  ((∃ s, liballoc_alloc (pages_for (nobj * sz + 32)) (src h) = Ret 0 s) ∧
   if nobj * sz =? 0 then ∃ h', kcalloc fuel nobj sz h = Ret 0 h' ∧ kheap_ok h' A
   else kcalloc fuel nobj sz h = Fault).
Proof.
  unfold kcalloc. set (n := nobj * sz) in *. rewrite (u64_small n), (s32_small n), (u64_small n) by lia.
  destruct (kmalloc_refines fuel n h A Hok ltac:(lia) Hfuel)
    as (p & h1 & Hrun & [(-> & Hok1 & Hs & _)|(Hn & Hok1 & Hb)]); rewrite (kbind_run _ _ _ _ _ Hrun).
  { right. split; [done|]. destruct (n =? 0); [by exists h1|done]. }
  left. destruct (kheap_ok_alloc h1 _ p n Hok1) as (Hp & _); [apply lookup_insert_eq|].
  destruct (Z.eqb_spec n 0) as [E|E].
  { exists p, h1. split_and!; [done|done|done|intros; lia|done]. }
  rewrite (proj2 (Z.eqb_neq p 0)), (proj2 (Z.ltb_ge n 0)) by lia. cbn [orb].
  rewrite (kbind_run (kmod _) _ _ tt _ eq_refl). eexists p, _. split; [reflexivity|]. cbn [hm set_hm].
  assert (∀ a, load8 (liballoc_memset (hm h1) p 0 n) a =
               if (p <=? a) && (a <? p + n) then 0 else load8 (hm h1) a) as Hms.
  { intros a. change (liballoc_memset (hm h1) p 0 n) with (memset (hm h1) p 0 n). rewrite load8_memset by lia. done. }
  split_and!; [done| | |].
  - apply kheap_ok_write; [done|]. intros a Ha. rewrite Hms. zcases; simpl; try done.
    destruct Ha. exists p, n. rewrite lookup_insert_eq. split; [done|lia].
  - intros i Hi. rewrite Hms. zcases; simpl; try done; lia.
  - intros a Ha. rewrite Hms, <- (Hb a Ha). destruct Ha as (q & k & Hq & Ha).
    destruct (kheap_ok_disjoint h1 _ p n q k Hok1) as [?|?];
      [apply lookup_insert_eq|rewrite lookup_insert_ne by congruence; done|congruence|zcases; simpl; try done; lia..].
Qed.

(** A pointer freed twice.  While the block of pages it was in is still the
    heap's, the second [kfree] finds the dead header: it counts an error,
    releases the lock and changes nothing else. *)
Theorem kfree_twice h A p n h' (Hok : kheap_ok h A) (Hp : A !! p = Some n) (Hrun : kfree p h = Ret tt h')
    (Hkept : src_live (src h') = src_live (src h)) :
  kfree p h' = Ret tt (add_error h').
Proof.
  destruct (kfree_refines h A p n Hok Hp) as (h2 & Hrun2 & Hok2 & _ & x & -> & Hx0 & Hx1 & Hm & Hu).
  rewrite Hrun in Hrun2. apply Ret_inj in Hrun2 as [_ <-].
  assert (liballoc_lock_var h' = false) as Hlk by (by destruct Hok2 as (? & _ & _ & ? & _)).
  pose proof (uptr_range x). unfold kfree. rewrite (proj2 (Z.eqb_neq (uptr x) 0)) by lia.
  rewrite (kbind_run _ _ _ _ _ (UNALIGN_byte x h' Hu ltac:(lia) ltac:(lia))).
  rewrite (kbind_run liballoc_lock _ h' tt (set_lock true h')) by (unfold liballoc_lock; by rewrite Hlk).
  unfold MIN_SIZEOF. rewrite Z.add_simpl_r, u64_small by lia. hstep. cbn [hm set_lock]. unfold MIN_MAGIC.
  rewrite Hm. unfold bad_magic, kbind, kmod, kret. change (LIBALLOC_DEAD =? LIBALLOC_MAGIC) with false. cbn [negb].
  match goal with |- context [if ?b then _ else _] => change b with false end.
  unfold liballoc_unlock, kmod, add_error, set_lock. cbn iota. destruct h'; simpl in *. by subst.
Qed.
End contract.

(** ** A source of blocks

    Consecutive addresses from 2^20 on, to a limit: what the laws ask for can be
    had, and the theorems can be tried. *)
Record bump := Bump { b_next : Z; b_limit : Z; b_live : gmap Z Z }.

#[export] Instance bump_source : BlockSource bump := {|
  liballoc_alloc n b :=
    if b_next b + n * 4096 <=? b_limit b
    then Ret (b_next b) (Bump (b_next b + n * 4096) (b_limit b) (<[b_next b := n]> (b_live b)))
    else Ret 0 b;
  liballoc_free p _ b := Ret tt (Bump (b_next b) (b_limit b) (delete p (b_live b)));
|}.

Definition bump_inv (b : bump) : Prop :=
  0 < b_next b ∧ b_limit b ≤ 2 ^ 64 ∧
  (∀ p n, b_live b !! p = Some n → 0 < p ∧ 0 < n ∧ p + n * 4096 ≤ b_next b ∧ p + n * 4096 ≤ b_limit b) ∧
  ∀ p n q k, b_live b !! p = Some n → b_live b !! q = Some k → p ≠ q → p + n * 4096 ≤ q ∨ q + k * 4096 ≤ p.

#[export] Instance bump_source_laws : BlockSourceLaws bump.
Proof.
  refine {| src_inv := bump_inv; src_live := b_live |}.
  - intros b p n (_ & ? & Hb & _) Hp. specialize (Hb p n Hp). lia.
  - intros b p n q k (_ & _ & _ & Hd). apply Hd.
  - intros b n (Hx & Hl & Hb & Hd) Hn. unfold liballoc_alloc, bump_source.
    destruct (Z.leb_spec (b_next b + n * 4096) (b_limit b)); [|exists 0, b; split_and!; [done|done|by left]].
    eexists _, _. split_and!; [reflexivity| |right].
    + split_and!; simpl; [lia|lia|intros p k|intros p k q j].
      * intros Hp. destruct (decide (p = b_next b)) as [->|]; simplify_map_eq; [lia|]. specialize (Hb p k Hp). lia.
      * intros Hp Hq Hne. destruct (decide (p = b_next b)) as [->|], (decide (q = b_next b)) as [->|]; simplify_map_eq.
        -- specialize (Hb q j Hq). lia.
        -- specialize (Hb p k Hp). lia.
        -- by apply Hd.
    + split_and!; [lia| |done]. destruct (b_live b !! b_next b) as [k|] eqn:E; [|done]. specialize (Hb _ _ E). lia.
  - intros b p n (Hx & Hl & Hb & Hd) Hp. eexists. split_and!; [reflexivity| |done].
    split_and!; simpl; [done|done|intros q k|intros q k r j].
    + intros [? ?]%lookup_delete_Some. by apply Hb.
    + intros [? ?]%lookup_delete_Some [? ?]%lookup_delete_Some. by apply Hd.
Defined.

(** The heap before the first allocation. *)
Definition bump_heap (limit : Z) : heap bump := Heap ∅ (Bump (2 ^ 20) limit ∅) 0 0 0 0 0 0 0 false.

Lemma bump_heap_ok limit : limit ≤ 2 ^ 64 → kheap_ok (bump_heap limit) ∅.
Proof.
  intros Hl. exists []. split_and!; [|intros M HM; set_solver|done|done].
  split; [change (bump_inv (Bump (2 ^ 20) limit ∅))|intros M HM; set_solver|constructor|intros M HM; set_solver|
    done|done|by left|done|done].
  split_and!; simpl; [lia|done|intros p n Hp; by rewrite lookup_empty in Hp|intros p n q k Hp; by rewrite lookup_empty in Hp].
Qed.

(** After a first allocation of 100 bytes. *)
Definition bump_first : heap bump := ret_state (bump_heap 0) (kmalloc 2 100 (bump_heap (2 ^ 21))).
Definition bump_p : Z := 0x100060.

Lemma bump_first_run : kmalloc 2 100 (bump_heap (2 ^ 21)) = Ret bump_p bump_first.
Proof. apply ret_run. vm_compute. reflexivity. Qed.

Lemma bump_first_ok : kheap_ok bump_first {[bump_p := 100]}.
Proof.
  destruct (kmalloc_refines 2 100 (bump_heap (2 ^ 21)) ∅ (bump_heap_ok (2 ^ 21) ltac:(lia)) ltac:(lia) ltac:(vm_compute; lia))
    as (p & h' & Hrun & Hpost).
  rewrite bump_first_run in Hrun. apply Ret_inj in Hrun as [<- <-].
  destruct Hpost as [[E _]|(_ & Hok & _)]; [discriminate E|exact Hok].
Qed.

Lemma bump_lookup : ({[bump_p := 100]} : gmap Z Z) !! bump_p = Some 100.
Proof. apply lookup_insert_eq. Qed.


Lemma kfree_spec_witness : ∃ h', kfree bump_p bump_first = Ret tt h' ∧ kheap_ok h' (delete bump_p {[bump_p := 100]}).
Proof. destruct (kfree_spec _ _ _ _ bump_first_ok bump_lookup) as (h' & H1 & H2 & _). exists h'. exact (conj H1 H2). Defined.


Lemma kcalloc_spec_witness :
  ∃ p h', kcalloc 5 3 8 bump_first = Ret p h' ∧ ∀ i, 0 ≤ i < 3 * 8 → load8 (hm h') (p + i) = 0.
Proof.
  destruct (kcalloc_spec 5 3 8 bump_first _ bump_first_ok ltac:(lia) ltac:(vm_compute; lia))
    as [(p & h' & H1 & _ & _ & H2 & _)|[(s & E) _]].
  - exists p, h'. exact (conj H1 H2).
  - exfalso. vm_compute in E. discriminate E.
Defined.


(** Two allocations, the first of them freed. *)
Definition bump_second : heap bump := ret_state (bump_heap 0) (kmalloc 5 200 bump_first).
Definition bump_freed : heap bump := ret_state (bump_heap 0) (kfree bump_p bump_second).
Definition bump_q : Z := 0x100110.

Lemma bump_second_ok : kheap_ok bump_second (<[bump_q := 200]> {[bump_p := 100]}).
Proof.
  destruct (kmalloc_refines 5 200 bump_first _ bump_first_ok ltac:(lia) ltac:(vm_compute; lia)) as (p & h' & Hrun & Hpost).
  assert (kmalloc 5 200 bump_first = Ret bump_q bump_second) as Hrun' by (apply ret_run; vm_compute; reflexivity).
  rewrite Hrun' in Hrun. apply Ret_inj in Hrun as [<- <-].
  destruct Hpost as [[E _]|(_ & Hok & _)]; [discriminate E|exact Hok].
Qed.

Lemma kfree_twice_witness : kfree bump_p bump_freed = Ret tt (add_error bump_freed).
Proof.
  apply (kfree_twice bump_second _ bump_p 100 bump_freed bump_second_ok).
  - vm_compute. reflexivity.
  - apply ret_run. vm_compute. reflexivity.
  - vm_compute. reflexivity.
Defined.

(** [kmalloc] keeps sizes in 32 bits without a check: asked for 4 GiB, or for
    2^64 - 1 bytes, it returns a pointer, into a block of 64 KiB. *)
Definition bump_huge (req : Z) : heap bump := ret_state bump_first (kmalloc 5 req bump_first).

Theorem kmalloc_huge req (Hreq : req = 2 ^ 32 ∨ req = 2 ^ 64 - 1) :
  ∃ p, kmalloc 5 req bump_first = Ret p (bump_huge req) ∧
    ∃ b, b_live (src (bump_huge req)) !! b = Some 16 ∧ b < p < b + 2 ^ 16 ∧ b + 2 ^ 16 < p + req.
Proof.
  destruct Hreq as [-> | ->]; [exists 0x110060 | exists 0x100110]; (split; [apply ret_run; vm_compute; reflexivity|]);
    [exists 0x110000 | exists 0x100000]; (split; [vm_compute; reflexivity|lia]).
Qed.
