(* ===== verification/PortIO.v ===== *)
(** * Ports

    [dev/portio.c] wraps the processor's [in] and [out] instructions.  What they
    do is up to the devices, so the devices [D] are a parameter: [PortIO] names
    the byte-wide instructions, [PortIO32] the double-word ones.  Each driver's
    file states what the data sheet of its device says of them. *)

From stdpp Require Import base list.
From Stdlib Require Import ZArith Lia.
From S2P Require Import Prelude.
#[local] Open Scope Z_scope.

Class PortIO (D : Type) := {
  inb : D → Z → Z * D;
  outb : D → Z → Z → D;
}.

Class PortIO32 (D : Type) := {
  inl : D → Z → Z * D;
  outl : D → Z → Z → D;
}.

Section ports.
Context {D : Type} `{PortIO D}.

Definition kinb (port : Z) : kernel D Z := λ d, let '(v, d) := inb d port in Ret v d.
Definition koutb (port v : Z) : kernel D unit := λ d, Ret tt (outb d port v).
Definition io_wait : kernel D unit := koutb 0x80 0.
End ports.

Section ports32.
Context {D : Type} `{PortIO32 D}.

Definition kinl (port : Z) : kernel D Z := λ d, let '(v, d) := inl d port in Ret v d.
Definition koutl (port v : Z) : kernel D unit := λ d, Ret tt (outl d port v).
End ports32.
