(* ===== verification/Rtc.v ===== *)
(** * The real-time clock and calendar

    [dev/time/rtc.c], the conversion macros of [dev/time/rtc.h] and
    [TIMESTAMP_TO_STRING] of [dev/vfs.h].  The clock chip behind the ports
    0x70/0x71 is a parameter: the interface [PortIO]
    has the two instructions that reach it, and [CmosLaws] what the MC146818 data sheet says of them. *)

From stdpp Require Import base list.
From Stdlib Require Import ZArith Lia.
From S2P Require Import Prelude PortIO.
#[local] Open Scope Z_scope.

Definition RTC_IO_INDEX : Z := 0x70.
Definition RTC_IO_DATA : Z := 0x71.
Definition RTC_REG_SECONDS : Z := 0x00.
Definition RTC_REG_MINUTES : Z := 0x02.
Definition RTC_REG_HOURS : Z := 0x04.
Definition RTC_REG_DAY : Z := 0x07.
Definition RTC_REG_MONTH : Z := 0x08.
Definition RTC_REG_YEAR : Z := 0x09.
Definition RTC_REG_STATUS_A : Z := 0x0A.
Definition RTC_REG_STATUS_B : Z := 0x0B.

(** ** Dates *)

Definition RTC_DAYS_IN_MONTHS : list Z := [0; 31; 28; 31; 30; 31; 30; 31; 31; 30; 31; 30; 31].

Definition RTC_IS_LEAP_YEAR (y : Z) : bool :=
  (y mod 4 =? 0) && (negb (y mod 100 =? 0) || (y mod 400 =? 0)).

(** [for (uint16_t y = ...; y < year; y++)], [n] iterations *)
Fixpoint add_years (n : nat) (y timestamp : Z) : Z :=
  match n with
  | O => timestamp
  | S n => add_years n (u16 (y + 1)) (u32 (timestamp + if RTC_IS_LEAP_YEAR y then 366 else 365))
  end.

(** [for (uint8_t m = ...; m < month; m++)], [n] iterations; [None] when the
    table is read past its end *)
Fixpoint add_months (n : nat) (m year timestamp : Z) : option Z :=
  match n with
  | O => Some timestamp
  | S n =>
      days ← RTC_DAYS_IN_MONTHS !! Z.to_nat m;
      add_months n (u8 (m + 1)) year
        (u32 (timestamp + (days + if (m =? 2) && RTC_IS_LEAP_YEAR year then 1 else 0)))
  end.

Definition RTC_TO_UNIX_TIMESTAMP (year month day hours minutes seconds : Z) : option Z :=
  let timestamp := add_years (Z.to_nat (year - 1970)) 1970 0 in
  timestamp ← add_months (Z.to_nat (month - 1)) 1 year timestamp;
  let timestamp := u32 (timestamp + (day - 1)) in
  Some (u32 (timestamp * 86400 + hours * 3600 + minutes * 60 + seconds)).

(** [dev/vfs.h]: [while (t >= year_seconds) t -= year_seconds, y++;] *)
Definition year_seconds (y : Z) : Z := (if RTC_IS_LEAP_YEAR y then 366 else 365) * 86400.

Fixpoint peel_years (fuel : nat) (y t : Z) : option (Z * Z) :=
  if year_seconds y <=? t
  then match fuel with O => None | S f => peel_years f (y + 1) (t - year_seconds y) end
  else Some (y, t).

Definition dim : list Z := [31; 28; 31; 30; 31; 30; 31; 31; 30; 31; 30; 31].

(** [for (m = 0; m < 12; m++) { if (t < days * 86400) break; t -= ...; }] *)
Fixpoint peel_months (l : list Z) (m y t : Z) : Z * Z :=
  match l with
  | [] => (m, t)
  | days :: l =>
      let days := days + if (m =? 1) && RTC_IS_LEAP_YEAR y then 1 else 0 in
      if t <? days * 86400 then (m, t) else peel_months l (m + 1) y (t - days * 86400)
  end.

(** The twenty bytes of [buffer]. *)
Definition date_buffer (y m d h min s : Z) : list Z :=
  [48 + (y / 1000) mod 10; 48 + (y / 100) mod 10; 48 + (y / 10) mod 10; 48 + y mod 10; 45;
   48 + m / 10; 48 + m mod 10; 45; 48 + d / 10; 48 + d mod 10; 32;
   48 + h / 10; 48 + h mod 10; 58; 48 + min / 10; 48 + min mod 10; 58;
   48 + s / 10; 48 + s mod 10; 0].

Definition TIMESTAMP_TO_STRING (fuel : nat) (timestamp utc_offset : Z) : option (list Z) :=
  let t := u64 (timestamp + utc_offset * 3600) in
  '(y, t) ← peel_years fuel 1970 t;
  let '(m, t) := peel_months dim 0 y t in
  let d := 1 + t / 86400 in
  let t := t mod 86400 in
  let h := t / 3600 in
  let t := t mod 3600 in
  Some (date_buffer y (m + 1) d h (t / 60) (t mod 60)).

(** ** Reading the chip *)

Section rtc.
Context {D : Type} `{PortIO D}.

Fixpoint wait_not_busy (fuel : nat) : kernel D unit :=
  let* v := kinb RTC_IO_DATA in
  if Z.land v 0x80 =? 0 then kret tt else
  match fuel with O => knofuel | S f => wait_not_busy f end.

Definition rtc_wait_for_update (fuel : nat) : kernel D unit :=
  koutb RTC_IO_INDEX RTC_REG_STATUS_A ;;;
  wait_not_busy fuel.

Definition rtc_read_register (reg : Z) : kernel D Z :=
  koutb RTC_IO_INDEX reg ;;;
  kinb RTC_IO_DATA.

Definition rtc_bcd_to_binary (bcd : Z) : Z := u8 (bcd / 16 * 10 + bcd mod 16).

(** [rtc_init] only reads the status, to warn about 12-hour mode. *)
Definition rtc_init : kernel D unit :=
  rtc_read_register RTC_REG_STATUS_B ;;; kret tt.

Definition rtc_read_time (fuel : nat) : kernel D (Z * Z * Z) :=
  rtc_wait_for_update fuel ;;;
  let* seconds := rtc_read_register RTC_REG_SECONDS in
  let* minutes := rtc_read_register RTC_REG_MINUTES in
  let* hours := rtc_read_register RTC_REG_HOURS in
  kret (rtc_bcd_to_binary hours, rtc_bcd_to_binary minutes, rtc_bcd_to_binary seconds).

Definition rtc_read_date (fuel : nat) : kernel D (Z * Z * Z) :=
  rtc_wait_for_update fuel ;;;
  let* day := rtc_read_register RTC_REG_DAY in
  let* month := rtc_read_register RTC_REG_MONTH in
  let* year := rtc_read_register RTC_REG_YEAR in
  kret (rtc_bcd_to_binary day, rtc_bcd_to_binary month, u16 (rtc_bcd_to_binary year + 2000)).

Definition GET_CURRENT_UNIX_TIME (fuel : nat) : kernel D Z :=
  let* (hours, minutes, seconds) := rtc_read_time fuel in
  let* (day, month, year) := rtc_read_date fuel in
  kopt (RTC_TO_UNIX_TIMESTAMP year month day hours minutes seconds).
End rtc.

(** ** The calendar *)

Definition year_days (y : Z) : Z := if RTC_IS_LEAP_YEAR y then 366 else 365.
Definition leap_day (m y : Z) : Z := if (m =? 1) && RTC_IS_LEAP_YEAR y then 1 else 0.

(** The days of the [n] years from [y], and of the [n] months from month [m]
    (counted from 0) of year [y], the lengths of which [l] lists. *)
Fixpoint days_of_years (n : nat) (y : Z) : Z :=
  match n with O => 0 | S n => year_days y + days_of_years n (y + 1) end.

Fixpoint days_of_months (n : nat) (l : list Z) (m y : Z) : Z :=
  match n, l with
  | S n, d :: l => d + leap_day m y + days_of_months n l (m + 1) y
  | _, _ => 0
  end.

(** The length of month [m], counted from 1. *)
Definition month_days (y m : Z) : Z := default 0 (dim !! Z.to_nat (m - 1)) + leap_day (m - 1) y.

Definition valid_date (y m d : Z) : Prop :=
  1970 ≤ y ≤ 2105 ∧ 1 ≤ m ≤ 12 ∧ 1 ≤ d ≤ month_days y m.
Definition valid_time (h min s : Z) : Prop := 0 ≤ h < 24 ∧ 0 ≤ min < 60 ∧ 0 ≤ s < 60.

Lemma year_days_bound y : 365 ≤ year_days y ≤ 366.
Proof. unfold year_days. destruct (RTC_IS_LEAP_YEAR y); lia. Qed.

Lemma days_of_years_bound n y : 0 ≤ days_of_years n y ≤ 366 * Z.of_nat n.
Proof.
  revert y. induction n as [|n IH]; intros y; cbn [days_of_years]; [lia|].
  pose proof (year_days_bound y). specialize (IH (y + 1)). lia.
Qed.

Lemma days_of_years_snoc n y :
  days_of_years (S n) y = days_of_years n y + year_days (y + Z.of_nat n).
Proof.
  revert y. induction n as [|n IH]; intros y.
  - cbn [days_of_years]. rewrite !Z.add_0_r. lia.
  - change (days_of_years (S (S n)) y) with (year_days y + days_of_years (S n) (y + 1)).
    rewrite IH. cbn [days_of_years].
    replace (y + 1 + Z.of_nat n) with (y + Z.of_nat (S n)) by lia. lia.
Qed.

Lemma days_of_years_le n k y : (n ≤ k)%nat → days_of_years n y ≤ days_of_years k y.
Proof.
  induction 1 as [|k _ IH]; [lia|]. rewrite days_of_years_snoc.
  pose proof (year_days_bound (y + Z.of_nat k)). lia.
Qed.

Lemma add_years_spec n y ts :
  0 ≤ y → y + Z.of_nat n < 2 ^ 16 → 0 ≤ ts → ts + days_of_years n y < 2 ^ 32 →
  add_years n y ts = ts + days_of_years n y.
Proof.
  revert y ts. induction n as [|n IH]; intros y ts Hy Hn Hts Hb; cbn [add_years days_of_years] in *; [lia|].
  change (if RTC_IS_LEAP_YEAR y then 366 else 365) with (year_days y).
  pose proof (year_days_bound y). pose proof (days_of_years_bound n (y + 1)).
  rewrite u16_small, u32_small by lia. rewrite IH by lia. lia.
Qed.

Lemma peel_years_spec n fuel y t :
  (n ≤ fuel)%nat → 0 ≤ t < year_days (y + Z.of_nat n) * 86400 →
  peel_years fuel y (days_of_years n y * 86400 + t) = Some (y + Z.of_nat n, t).
Proof.
  revert fuel y. induction n as [|n IH]; intros fuel y Hf Ht; cbn [days_of_years].
  - rewrite Z.add_0_r in *. change (year_days y * 86400) with (year_seconds y) in Ht.
    destruct fuel; cbn [peel_years]; rewrite (proj2 (Z.leb_gt _ _)) by lia; by rewrite Z.add_0_l.
  - destruct fuel as [|fuel]; [lia|]. cbn [peel_years].
    change (year_seconds y) with (year_days y * 86400).
    pose proof (days_of_years_bound n (y + 1)).
    rewrite (proj2 (Z.leb_le _ _)) by lia.
    replace (_ - year_days y * 86400) with (days_of_years n (y + 1) * 86400 + t) by lia.
    replace (y + Z.of_nat (S n)) with (y + 1 + Z.of_nat n) in * by lia.
    apply IH; [lia|done].
Qed.

Lemma days_of_months_nonneg n l m y : Forall (λ d, 0 ≤ d) l → 0 ≤ days_of_months n l m y.
Proof.
  intros HF. revert n m. induction HF as [|d l Hd HF IH]; intros [|n] m; simpl; try lia.
  specialize (IH n (m + 1)). unfold leap_day. destruct (_ && _); lia.
Qed.

Lemma add_months_spec n m y ts :
  0 ≤ m → m + Z.of_nat n ≤ 13 → 0 ≤ ts →
  ts + days_of_months n (drop (Z.to_nat m) RTC_DAYS_IN_MONTHS) (m - 1) y < 2 ^ 32 →
  add_months n m y ts = Some (ts + days_of_months n (drop (Z.to_nat m) RTC_DAYS_IN_MONTHS) (m - 1) y).
Proof.
  revert m ts. induction n as [|n IH]; intros m ts Hm Hn Hts Hb; [cbn; f_equal; lia|].
  assert (∃ d, RTC_DAYS_IN_MONTHS !! Z.to_nat m = Some d) as [d Hd]
    by (apply lookup_lt_is_Some; simpl; lia).
  assert (0 ≤ d) as Hd0.
  { apply list_elem_of_lookup_2 in Hd. revert d Hd. apply Forall_forall. repeat constructor; lia. }
  cbn [add_months]. rewrite Hd. simpl.
  erewrite drop_S in Hb |- * by done. cbn [days_of_months] in *.
  replace (m =? 2) with (m - 1 =? 1) by (zcases; lia). fold (leap_day (m - 1) y).
  assert (0 ≤ leap_day (m - 1) y ≤ 1) by (unfold leap_day; destruct (_ && _); lia).
  replace (S (Z.to_nat m)) with (Z.to_nat (m + 1)) in * by lia.
  replace (m - 1 + 1) with (m + 1 - 1) in * by lia.
  pose proof (days_of_months_nonneg n (drop (Z.to_nat (m + 1)) RTC_DAYS_IN_MONTHS) (m + 1 - 1) y
    ltac:(apply Forall_drop; repeat constructor; lia)).
  rewrite u8_small, u32_small by lia. rewrite IH by lia. f_equal. lia.
Qed.

Lemma peel_months_spec n l m y t d :
  l !! n = Some d → Forall (λ d, 0 ≤ d) l → 0 ≤ t < (d + leap_day (m + Z.of_nat n) y) * 86400 →
  peel_months l m y (days_of_months n l m y * 86400 + t) = (m + Z.of_nat n, t).
Proof.
  revert l m. induction n as [|n IH]; intros [|d' l] m Hd HF Ht; try done; cbn [days_of_months peel_months];
    fold (leap_day m y).
  - simpl in Hd. simplify_eq. rewrite Z.add_0_r in *.
    rewrite (proj2 (Z.ltb_lt _ _)) by lia. by rewrite Z.add_0_l.
  - inv HF. pose proof (days_of_months_nonneg n l (m + 1) y ltac:(done)).
    rewrite (proj2 (Z.ltb_ge _ _)) by lia.
    replace (_ - (d' + leap_day m y) * 86400) with (days_of_months n l (m + 1) y * 86400 + t) by lia.
    replace (m + Z.of_nat (S n)) with (m + 1 + Z.of_nat n) in * by lia.
    by apply IH.
Qed.

Ltac month_cases m :=
  assert (m = 1 ∨ m = 2 ∨ m = 3 ∨ m = 4 ∨ m = 5 ∨ m = 6 ∨ m = 7 ∨ m = 8 ∨ m = 9 ∨ m = 10 ∨ m = 11 ∨ m = 12)
    as Hcases by lia;
  repeat destruct Hcases as [->|Hcases]; [..|subst m].

(** A day of the year is one of its days. *)
Lemma months_in_year y m :
  1 ≤ m ≤ 12 → days_of_months (Z.to_nat (m - 1)) dim 0 y + month_days y m ≤ year_days y.
Proof.
  intros Hm. unfold month_days, year_days.
  month_cases m; cbv -[RTC_IS_LEAP_YEAR]; destruct (RTC_IS_LEAP_YEAR y); discriminate.
Qed.

Lemma month_days_le y m : 1 ≤ m ≤ 12 → month_days y m ≤ 31.
Proof.
  intros Hm. unfold month_days.
  month_cases m; cbv -[RTC_IS_LEAP_YEAR]; destruct (RTC_IS_LEAP_YEAR y); discriminate.
Qed.

Lemma timestamp_bound y m d h min s :
  valid_date y m d → valid_time h min s →
  let days := days_of_years (Z.to_nat (y - 1970)) 1970 + days_of_months (Z.to_nat (m - 1)) dim 0 y in
  0 ≤ days ∧ (days + d) * 86400 ≤ 4291747200.
Proof.
  intros (Hy & Hm & Hd) _ days.
  pose proof (months_in_year y m Hm). pose proof (days_of_months_nonneg (Z.to_nat (m - 1)) dim 0 y
    ltac:(repeat constructor; lia)).
  pose proof (days_of_years_bound (Z.to_nat (y - 1970)) 1970).
  pose proof (days_of_years_le (S (Z.to_nat (y - 1970))) 136 1970 ltac:(lia)) as Hle.
  rewrite days_of_years_snoc, Z2Nat.id in Hle by lia.
  replace (1970 + (y - 1970)) with y in Hle by lia.
  change (days_of_years 136 1970) with 49673 in Hle. subst days. lia.
Qed.

Lemma to_unix_spec y m d h min s :
  valid_date y m d → valid_time h min s →
  RTC_TO_UNIX_TIMESTAMP y m d h min s =
  Some ((days_of_years (Z.to_nat (y - 1970)) 1970 + days_of_months (Z.to_nat (m - 1)) dim 0 y + (d - 1)) * 86400
        + h * 3600 + min * 60 + s).
Proof.
  intros Hdate Htime. destruct (timestamp_bound y m d h min s Hdate Htime) as [H0 Hb].
  destruct Hdate as (Hy & Hm & Hd), Htime as (Hh & Hmin & Hs).
  pose proof (days_of_years_bound (Z.to_nat (y - 1970)) 1970).
  pose proof (days_of_months_nonneg (Z.to_nat (m - 1)) dim 0 y ltac:(repeat constructor; lia)).
  unfold RTC_TO_UNIX_TIMESTAMP. rewrite add_years_spec by lia. rewrite Z.add_0_l.
  rewrite add_months_spec; change (drop (Z.to_nat 1) RTC_DAYS_IN_MONTHS) with dim;
    change (1 - 1) with 0; [|lia..].
  cbn [mbind option_bind]. rewrite (u32_small (_ + (d - 1))) by lia. rewrite u32_small by lia. done.
Qed.

(** C39: Calendar round trip: the timestamp [RTC_TO_UNIX_TIMESTAMP] computes for a
    date and time from 1970 to 2105 fits 32 bits without wrapping, and
    [TIMESTAMP_TO_STRING] prints that same date and time back; 135 rounds of
    its year loop are enough. *)
Theorem timestamp_round_trip y m d h min s (fuel : nat)
  (Hdate : valid_date y m d) (Htime : valid_time h min s) (Hfuel : (135 ≤ fuel)%nat) :
  ∃ ts, RTC_TO_UNIX_TIMESTAMP y m d h min s = Some ts ∧ 0 ≤ ts < 2 ^ 32 ∧
    TIMESTAMP_TO_STRING fuel ts 0 = Some (date_buffer y m d h min s).
Proof.
  rewrite (to_unix_spec y m d h min s Hdate Htime). eexists. split; [reflexivity|].
  destruct (timestamp_bound y m d h min s Hdate Htime) as [H0 Hb].
  destruct Hdate as (Hy & Hm & Hd), Htime as (Hh & Hmin & Hs).
  split; [lia|]. unfold TIMESTAMP_TO_STRING. rewrite u64_small by lia.
  set (tod := h * 3600 + min * 60 + s).
  pose proof (months_in_year y m Hm) as Hyear.
  pose proof (days_of_months_nonneg (Z.to_nat (m - 1)) dim 0 y ltac:(repeat constructor; lia)).
  replace (_ + 0 * 3600) with (days_of_years (Z.to_nat (y - 1970)) 1970 * 86400 +
    (days_of_months (Z.to_nat (m - 1)) dim 0 y * 86400 + ((d - 1) * 86400 + tod))) by (unfold tod; lia).
  rewrite peel_years_spec; rewrite ?Z2Nat.id, ?Zplus_minus by lia; [|lia|unfold tod; lia].
  cbn [mbind option_bind].
  assert (∃ len, dim !! Z.to_nat (m - 1) = Some len) as [len Hlen] by (apply lookup_lt_is_Some; simpl; lia).
  unfold month_days in *. rewrite Hlen in *. simpl in Hd.
  rewrite (peel_months_spec _ _ _ _ _ len); rewrite ?Z2Nat.id, ?Z.add_0_l by lia;
    [|done|repeat constructor; lia|unfold tod; lia].
  replace (m - 1 + 1) with m by lia.
  replace (((d - 1) * 86400 + tod) / 86400) with (d - 1) by (apply (Z.div_unique _ _ _ tod); unfold tod; lia).
  replace (((d - 1) * 86400 + tod) mod 86400) with tod by (apply (Z.mod_unique _ _ (d - 1)); unfold tod; lia).
  replace (tod / 3600) with h by (apply (Z.div_unique _ _ _ (min * 60 + s)); unfold tod; lia).
  replace (tod mod 3600) with (min * 60 + s) by (apply (Z.mod_unique _ _ h); unfold tod; lia).
  replace ((min * 60 + s) / 60) with min by (apply (Z.div_unique _ _ _ s); lia).
  replace ((min * 60 + s) mod 60) with s by (apply (Z.mod_unique _ _ min); lia).
  by replace (1 + (d - 1)) with d by lia.
Qed.

Lemma timestamp_round_trip_witness :
  ∃ ts, RTC_TO_UNIX_TIMESTAMP 2024 2 29 23 59 58 = Some ts ∧ 0 ≤ ts < 2 ^ 32 ∧
    TIMESTAMP_TO_STRING 135 ts 0 = Some (date_buffer 2024 2 29 23 59 58).
Proof.
  apply (timestamp_round_trip 2024 2 29 23 59 58 135); [by vm_compute|by vm_compute|lia].
Defined.

(** ** The chip *)

(** What the MC146818 promises: port 0x70 selects a register, port 0x71 reads
    the selected one, and bit 7 of status register A falls after at most
    [cmos_busy] reads.  [cmos_reg] are the registers of the time of day. *)
Class CmosLaws (D : Type) `{PortIO D} := {
  cmos_selected : D → Z;
  cmos_reg : D → Z → Z;
  cmos_busy : D → nat;
  cmos_select d r :
    let d' := outb d RTC_IO_INDEX r in
    cmos_selected d' = r ∧ cmos_reg d' = cmos_reg d ∧ cmos_busy d' = cmos_busy d;
  cmos_read d r : cmos_selected d = r → r ≠ RTC_REG_STATUS_A →
    ∃ d', inb d RTC_IO_DATA = (cmos_reg d r, d') ∧
      cmos_selected d' = r ∧ cmos_reg d' = cmos_reg d ∧ cmos_busy d' = cmos_busy d;
  cmos_read_status d : cmos_selected d = RTC_REG_STATUS_A →
    ∃ v d', inb d RTC_IO_DATA = (v, d') ∧ cmos_selected d' = RTC_REG_STATUS_A ∧
      cmos_reg d' = cmos_reg d ∧ cmos_busy d' = Nat.pred (cmos_busy d) ∧
      (Z.land v 0x80 =? 0) = Nat.eqb (cmos_busy d) 0;
}.

(** The registers hold [v] in binary-coded decimal. *)
Definition bcd (v : Z) : Z := v / 10 * 16 + v mod 10.

Lemma rtc_bcd_to_binary_bcd v : 0 ≤ v < 100 → rtc_bcd_to_binary (bcd v) = v.
Proof.
  intros Hv. unfold rtc_bcd_to_binary, bcd.
  pose proof (Z.mod_pos_bound v 10 ltac:(lia)). pose proof (Z.div_mod v 10 ltac:(lia)).
  replace ((v / 10 * 16 + v mod 10) / 16) with (v / 10) by (apply (Z.div_unique _ _ _ (v mod 10)); lia).
  replace ((v / 10 * 16 + v mod 10) mod 16) with (v mod 10) by (apply (Z.mod_unique _ _ (v / 10)); lia).
  rewrite u8_small; lia.
Qed.

Section chip.
Context {D : Type} `{CmosLaws D}.

Lemma wait_not_busy_spec fuel d :
  cmos_selected d = RTC_REG_STATUS_A → (cmos_busy d ≤ fuel)%nat →
  ∃ d', wait_not_busy fuel d = Ret tt d' ∧ cmos_reg d' = cmos_reg d ∧ cmos_busy d' = 0%nat.
Proof.
  revert d. induction fuel as [|fuel IH]; intros d Hs Hb; cbn [wait_not_busy];
    unfold kbind, kinb; destruct (cmos_read_status d Hs) as (v & d' & -> & Hs' & Hr & Hb' & ->);
    destruct (Nat.eqb_spec (cmos_busy d) 0).
  - exists d'. split_and!; [done|done|lia].
  - lia.
  - exists d'. split_and!; [done|done|lia].
  - destruct (IH d') as (d'' & ? & ? & ?); [done|lia|]. exists d''. split_and!; [done|congruence|done].
Qed.

Lemma rtc_wait_spec fuel d :
  (cmos_busy d ≤ fuel)%nat →
  ∃ d', rtc_wait_for_update fuel d = Ret tt d' ∧ cmos_reg d' = cmos_reg d ∧ cmos_busy d' = 0%nat.
Proof.
  intros Hb. unfold rtc_wait_for_update, kbind, koutb.
  destruct (cmos_select d RTC_REG_STATUS_A) as (Hs & Hr & Hb').
  destruct (wait_not_busy_spec fuel _ Hs) as (d' & ? & ? & ?); [lia|].
  exists d'. split_and!; [done|congruence|done].
Qed.

Lemma rtc_read_register_spec r d :
  r ≠ RTC_REG_STATUS_A →
  ∃ d', rtc_read_register r d = Ret (cmos_reg d r) d' ∧ cmos_reg d' = cmos_reg d ∧ cmos_busy d' = cmos_busy d.
Proof.
  intros Hr. unfold rtc_read_register, kbind, koutb, kinb.
  destruct (cmos_select d r) as (Hs & Hreg & Hb).
  destruct (cmos_read _ r Hs Hr) as (d' & -> & _ & Hreg' & Hb').
  exists d'. split_and!; congruence.
Qed.

(** Reading three registers after waiting. *)
Lemma rtc_read3_spec {A} fuel d r1 r2 r3 (f : Z → Z → Z → A) :
  (cmos_busy d ≤ fuel)%nat →
  r1 ≠ RTC_REG_STATUS_A → r2 ≠ RTC_REG_STATUS_A → r3 ≠ RTC_REG_STATUS_A →
  ∃ d', (rtc_wait_for_update fuel ;;;
         let* x := rtc_read_register r1 in
         let* y := rtc_read_register r2 in
         let* z := rtc_read_register r3 in
         kret (f x y z)) d = Ret (f (cmos_reg d r1) (cmos_reg d r2) (cmos_reg d r3)) d' ∧
    cmos_reg d' = cmos_reg d ∧ cmos_busy d' = 0%nat.
Proof.
  intros Hb H1 H2 H3. destruct (rtc_wait_spec fuel d Hb) as (d0 & E0 & R0 & B0).
  destruct (rtc_read_register_spec r1 d0 H1) as (d1 & E1 & R1 & B1).
  destruct (rtc_read_register_spec r2 d1 H2) as (d2 & E2 & R2 & B2).
  destruct (rtc_read_register_spec r3 d2 H3) as (d3 & E3 & R3 & B3).
  exists d3. unfold kbind, kret. rewrite E0, E1, E2, E3, R2, R1, R0.
  split_and!; congruence.
Qed.

(** When the chip's registers hold a date of 2000 to 2099 and a time in
    binary-coded decimal (24-hour mode), [GET_CURRENT_UNIX_TIME] returns the
    timestamp of that date, waiting only as long as an update is in progress. *)
Theorem get_current_unix_time_spec (fuel : nat) (d : D) y m day h min s
  (Hdate : valid_date y m day) (Hyear : 2000 ≤ y ≤ 2099) (Htime : valid_time h min s)
  (Hregs : cmos_reg d RTC_REG_SECONDS = bcd s ∧ cmos_reg d RTC_REG_MINUTES = bcd min ∧
           cmos_reg d RTC_REG_HOURS = bcd h ∧ cmos_reg d RTC_REG_DAY = bcd day ∧
           cmos_reg d RTC_REG_MONTH = bcd m ∧ cmos_reg d RTC_REG_YEAR = bcd (y - 2000))
  (Hfuel : (cmos_busy d ≤ fuel)%nat) :
  ∃ ts d', RTC_TO_UNIX_TIMESTAMP y m day h min s = Some ts ∧
    GET_CURRENT_UNIX_TIME fuel d = Ret ts d' ∧ cmos_reg d' = cmos_reg d.
Proof.
  destruct Hregs as (Rs & Rmin & Rh & Rd & Rm & Ry).
  assert (day < 100) as Hday by (destruct Hdate as (_ & Hm & Hd); pose proof (month_days_le y m Hm); lia).
  rewrite (to_unix_spec y m day h min s Hdate Htime).
  unfold GET_CURRENT_UNIX_TIME, rtc_read_time, rtc_read_date, kbind at 1.
  destruct (rtc_read3_spec fuel d RTC_REG_SECONDS RTC_REG_MINUTES RTC_REG_HOURS
    (λ s m h, (rtc_bcd_to_binary h, rtc_bcd_to_binary m, rtc_bcd_to_binary s))) as (d1 & -> & R1 & B1);
    try done. cbv beta.
  destruct (rtc_read3_spec fuel d1 RTC_REG_DAY RTC_REG_MONTH RTC_REG_YEAR
    (λ d m y, (rtc_bcd_to_binary d, rtc_bcd_to_binary m, u16 (rtc_bcd_to_binary y + 2000)))) as (d2 & E2 & R2 & B2);
    try done; [lia|].
  unfold kbind at 1. rewrite E2. rewrite R1, Rs, Rmin, Rh, Rd, Rm, Ry.
  destruct Hdate as (Hy & Hm & Hd), Htime as (Hh & Hmin & Hs).
  rewrite !rtc_bcd_to_binary_bcd by lia. rewrite u16_small by lia.
  replace (y - 2000 + 2000) with y by lia.
  rewrite to_unix_spec by done. eexists _, d2. split_and!; [reflexivity|reflexivity|congruence].
Qed.
End chip.

(** *** A chip that answers from a table, for the witness *)

Record demo_chip := DemoChip { chip_index : Z; chip_regs : Z → Z; chip_busy : nat }.

#[export] Instance demo_chip_io : PortIO demo_chip := {
  inb d port :=
    if chip_index d =? RTC_REG_STATUS_A
    then (if Nat.eqb (chip_busy d) 0 then 0x26 else 0xa6,
          DemoChip (chip_index d) (chip_regs d) (Nat.pred (chip_busy d)))
    else (chip_regs d (chip_index d), d);
  outb d port v := if port =? RTC_IO_INDEX then DemoChip v (chip_regs d) (chip_busy d) else d;
}.

#[local, program] Instance demo_chip_laws : CmosLaws demo_chip := {
  cmos_selected := chip_index; cmos_reg := chip_regs; cmos_busy := chip_busy;
}.
Next Obligation. done. Qed.
Next Obligation.
  intros d r Hs Hr. exists d. simpl. rewrite Hs, (proj2 (Z.eqb_neq _ _) Hr). done.
Qed.
Next Obligation.
  intros d Hs. simpl. rewrite Hs. simpl.
  eexists _, _. split_and!; [reflexivity|reflexivity|done|done|]. by destruct (Nat.eqb _ 0).
Qed.

Definition demo_regs (r : Z) : Z :=
  if r =? 0 then 0x58 else if r =? 2 then 0x59 else if r =? 4 then 0x23 else
  if r =? 7 then 0x29 else if r =? 8 then 0x02 else if r =? 9 then 0x24 else 0.

Lemma get_current_unix_time_spec_witness :
  ∃ ts d', RTC_TO_UNIX_TIMESTAMP 2024 2 29 23 59 58 = Some ts ∧
    GET_CURRENT_UNIX_TIME 5 (DemoChip 0 demo_regs 3) = Ret ts d' ∧
    cmos_reg d' = cmos_reg (DemoChip 0 demo_regs 3).
Proof.
  apply (get_current_unix_time_spec 5 (DemoChip 0 demo_regs 3) 2024 2 29 23 59 58);
    [by vm_compute|lia|by vm_compute|by vm_compute|simpl; lia].
Defined.
