(* ===== verification/Interrupts.v ===== *)
(** * Interrupts

    The interrupt descriptor table and the table of handlers of [sys/intr.c], the
    two 8259A interrupt controllers of [sys/pic.c], and the timer of
    [dev/timer/pit.c], which uses both.  The controllers are devices: [PicLaws]
    is what their data sheet says of the writes the kernel makes. *)

From stdpp Require Import base list.
From Stdlib Require Import ZArith Lia.
From S2P Require Import Prelude PortIO.
#[local] Open Scope Z_scope.

(** The functions the kernel installs as handlers. *)
Inductive handler := idt_default_interrupt_handler | syscall_handler | pit_handler | kbd_handler.

#[export] Instance handler_eq_dec : EqDecision handler.
Proof. solve_decision. Defined.

Record idt_entry := IdtEntry {
  off_low : Z; sel : Z; ist : Z; attr : Z; off_mid : Z; off_high : Z; zero : Z
}.

Definition IDT_INTERRUPT_GATE : Z := 0x8E.
Definition IDT_TRAP_GATE : Z := 0x8F.
Definition IDT_IRQ_BASE : Z := 0x20.
Definition GDT_ACCESS_RING3 : Z := 0x60.

(** The devices, and the globals of [sys/intr.c], [sys/pic.c] and
    [dev/input/keyboard.c]. *)
Record machine (D : Type) := Machine {
  ports : D;
  idt_descriptor : list idt_entry;
  real_handlers : list (option handler);
  g_curmask : Z;
  last_scancode : Z;
  has_scancode : Z;
}.
Arguments Machine {D} _ _ _ _ _ _.
Arguments ports {D} _.
Arguments idt_descriptor {D} _.
Arguments real_handlers {D} _.
Arguments g_curmask {D} _.
Arguments last_scancode {D} _.
Arguments has_scancode {D} _.

Section machine.
Context {D : Type} `{PortIO D}.
Abbreviation K := (kernel (machine D)).

Definition set_ports (d : D) (m : machine D) : machine D :=
  Machine d (idt_descriptor m) (real_handlers m) (g_curmask m) (last_scancode m) (has_scancode m).
Definition set_idt_descriptor (l : list idt_entry) (m : machine D) : machine D :=
  Machine (ports m) l (real_handlers m) (g_curmask m) (last_scancode m) (has_scancode m).
Definition set_real_handlers (l : list (option handler)) (m : machine D) : machine D :=
  Machine (ports m) (idt_descriptor m) l (g_curmask m) (last_scancode m) (has_scancode m).
Definition set_g_curmask (x : Z) (m : machine D) : machine D :=
  Machine (ports m) (idt_descriptor m) (real_handlers m) x (last_scancode m) (has_scancode m).
Definition set_scancode (last has : Z) (m : machine D) : machine D :=
  Machine (ports m) (idt_descriptor m) (real_handlers m) (g_curmask m) last has.

(** A device access. *)
Definition io {A} (c : kernel D A) : K A :=
  zoom ports set_ports c.

(** ** The tables of [sys/intr.c] *)

Definition gate (base flags : Z) : idt_entry :=
  IdtEntry (Z.land base 0xFFFF) 0x8 0 flags (Z.land (Z.shiftr base 16) 0xFFFF)
    (Z.land (Z.shiftr base 32) 0xFFFFFFFF) 0.

(** [SET_GATE]; an index outside the table is undefined. *)
Definition SET_GATE (interrupt base flags : Z) : K unit :=
  let* l := kget idt_descriptor in
  if (0 <=? interrupt) && (interrupt <? Z.of_nat (length l))
  then kmod (set_idt_descriptor (<[Z.to_nat interrupt := gate base flags]> l)) else kfault.

(** [real_handlers[vector] = h] *)
Definition set_handler (vector : Z) (h : handler) : K unit :=
  let* l := kget real_handlers in
  if (0 <=? vector) && (vector <? Z.of_nat (length l))
  then kmod (set_real_handlers (<[Z.to_nat vector := Some h]> l)) else kfault.

(** [stubs] are the addresses of the entry points of [sys/intr.S]. *)
Definition idt_init (stubs : list Z) : K unit :=
  kfor (seqZ 0 32) (λ i,
    let* stub := kopt (stubs !! Z.to_nat i) in
    SET_GATE i stub IDT_TRAP_GATE ;;;
    set_handler i idt_default_interrupt_handler) ;;;
  kfor (seqZ 32 224) (λ i,
    let* stub := kopt (stubs !! Z.to_nat i) in
    SET_GATE i stub IDT_INTERRUPT_GATE) ;;;
  let* stub := kopt (stubs !! Z.to_nat 0x80) in
  SET_GATE 0x80 stub (Z.lor IDT_INTERRUPT_GATE GDT_ACCESS_RING3) ;;;
  set_handler 0x80 syscall_handler.

Definition idt_register_handler (vector : Z) (h : handler) : K Z :=
  let* l := kget real_handlers in
  let* old := kopt (l !! Z.to_nat vector) in
  if decide (old = Some idt_default_interrupt_handler) then kret 1
  else kmod (set_real_handlers (<[Z.to_nat vector := Some h]> l)) ;;; kret 0.

(** ** [sys/pic.c] *)

Definition PIC_MASTER_COMMAND : Z := 0x20.
Definition PIC_MASTER_DATA : Z := 0x21.
Definition PIC_SLAVE_COMMAND : Z := 0xA0.
Definition PIC_SLAVE_DATA : Z := 0xA1.
Definition PIC_EOI : Z := 0x20.
Definition PIC_ICW1_ICW4 : Z := 0x01.
Definition PIC_ICW1_INIT : Z := 0x10.
Definition PIC_ICW4_8086 : Z := 0x01.

Definition pic_maskall : K unit :=
  io (koutb PIC_MASTER_DATA 0xFF) ;;;
  io (koutb PIC_SLAVE_DATA 0xFF) ;;;
  kmod (set_g_curmask 0xFFFF).

Definition pic_init : K unit :=
  io (koutb PIC_MASTER_COMMAND (Z.lor PIC_ICW1_INIT PIC_ICW1_ICW4)) ;;; io io_wait ;;;
  io (koutb PIC_SLAVE_COMMAND (Z.lor PIC_ICW1_INIT PIC_ICW1_ICW4)) ;;; io io_wait ;;;
  io (koutb PIC_MASTER_DATA 0x20) ;;; io io_wait ;;;
  io (koutb PIC_SLAVE_DATA 0x28) ;;; io io_wait ;;;
  io (koutb PIC_MASTER_DATA 4) ;;; io io_wait ;;;
  io (koutb PIC_SLAVE_DATA 2) ;;; io io_wait ;;;
  io (koutb PIC_MASTER_DATA PIC_ICW4_8086) ;;; io io_wait ;;;
  io (koutb PIC_SLAVE_DATA PIC_ICW4_8086) ;;; io io_wait ;;;
  pic_maskall.

Definition pic_eoi (irq : Z) : K unit :=
  (if 8 <=? irq then io (koutb PIC_SLAVE_COMMAND PIC_EOI) else kret tt) ;;;
  io (koutb PIC_MASTER_COMMAND PIC_EOI).

(** The byte of the mask register that has the line's bit goes to its chip. *)
Definition write_mask (irq : Z) : K unit :=
  let* mask := kget g_curmask in
  if irq <? 8 then io (koutb PIC_MASTER_DATA (Z.land mask 0xFF))
  else io (koutb PIC_SLAVE_DATA (Z.land (Z.shiftr mask 8) 0xFF)).

(** [1 << irq] is undefined from 31 on. *)
Definition pic_mask (irq : Z) : K unit :=
  (if irq <? 31 then kmod (λ m, set_g_curmask (u16 (Z.lor (g_curmask m) (Z.shiftl 1 irq))) m) else kfault) ;;;
  write_mask irq.

Definition pic_unmask (irq : Z) : K unit :=
  (if irq <? 31 then kmod (λ m, set_g_curmask (u16 (Z.land (g_curmask m) (Z.lnot (Z.shiftl 1 irq)))) m) else kfault) ;;;
  io io_wait ;;;
  write_mask irq.

(** ** [dev/timer/pit.c] *)

Definition pit_init : K unit :=
  io (koutb 0x43 0x36) ;;;
  idt_register_handler (IDT_IRQ_BASE + 0) pit_handler ;;;
  let divisor := 5966 in
  io (koutb 0x40 (Z.land divisor 0xFF)) ;;;
  io (koutb 0x40 (Z.land (Z.shiftr divisor 8) 0xFF)) ;;;
  pic_unmask 0.
End machine.

(** ** The tables *)

(** The address a gate leads to, and the lowest privilege that may use it. *)
Definition gate_target (e : idt_entry) : Z :=
  off_low e + Z.shiftl (off_mid e) 16 + Z.shiftl (off_high e) 32.
Definition gate_dpl (e : idt_entry) : Z := Z.land (Z.shiftr (attr e) 5) 3.

Lemma gate_target_gate base flags : 0 ≤ base < 2 ^ 64 → gate_target (gate base flags) = base.
Proof.
  intros Hb. unfold gate_target, gate. cbn [off_low off_mid off_high].
  change 0xFFFF with (Z.ones 16). change 0xFFFFFFFF with (Z.ones 32).
  rewrite !Z.land_ones, !Z.shiftr_div_pow2, !Z.shiftl_mul_pow2 by lia.
  Z.to_euclidean_division_equations. lia.
Qed.

(** What [idt_init] leaves at the vector [i]. *)
Definition gate_flags (i : nat) : Z :=
  if decide (i = 0x80%nat) then Z.lor IDT_INTERRUPT_GATE GDT_ACCESS_RING3 else
  if decide (i < 32)%nat then IDT_TRAP_GATE else IDT_INTERRUPT_GATE.

Section idt.
Context {D : Type} `{PortIO D}.
Implicit Types m : machine D.

Lemma SET_GATE_run i base flags m :
  0 ≤ i < Z.of_nat (length (idt_descriptor m)) →
  SET_GATE i base flags m = Ret tt (set_idt_descriptor (<[Z.to_nat i := gate base flags]> (idt_descriptor m)) m).
Proof.
  intros Hi. unfold SET_GATE, kbind, kget. rewrite (proj2 (Z.leb_le _ _)), (proj2 (Z.ltb_lt _ _)) by lia. done.
Qed.

Lemma set_handler_run i h m :
  0 ≤ i < Z.of_nat (length (real_handlers m)) →
  set_handler i h m = Ret tt (set_real_handlers (<[Z.to_nat i := Some h]> (real_handlers m)) m).
Proof.
  intros Hi. unfold set_handler, kbind, kget. rewrite (proj2 (Z.leb_le _ _)), (proj2 (Z.ltb_lt _ _)) by lia. done.
Qed.

(** The entries [lo], ..., [hi - 1] are done; nothing else has changed. *)
Record filled (stubs : list Z) (m0 : machine D) (flags : Z) (lo hi : Z) (hs : bool) m : Prop := {
  fi_ports : ports m = ports m0 ∧ g_curmask m = g_curmask m0 ∧ last_scancode m = last_scancode m0 ∧
    has_scancode m = has_scancode m0;
  fi_idt : ∀ k, idt_descriptor m !! k =
    if decide (lo ≤ Z.of_nat k < hi) then (λ b, gate b flags) <$> stubs !! k else idt_descriptor m0 !! k;
  fi_handlers : ∀ k, real_handlers m !! k =
    if decide (hs = true ∧ lo ≤ Z.of_nat k < hi) then Some (Some idt_default_interrupt_handler) else real_handlers m0 !! k;
  fi_len : length (idt_descriptor m) = 256%nat ∧ length (real_handlers m) = 256%nat;
}.

Lemma fill_step stubs m0 flags lo i (hs : bool) m b :
  filled stubs m0 flags lo i hs m → 0 ≤ lo ≤ i → i < 256 → stubs !! Z.to_nat i = Some b →
  filled stubs m0 flags lo (i + 1) hs
    (let m1 := set_idt_descriptor (<[Z.to_nat i := gate b flags]> (idt_descriptor m)) m in
     if hs then set_real_handlers (<[Z.to_nat i := Some idt_default_interrupt_handler]> (real_handlers m1)) m1 else m1).
Proof.
  intros [F1 F2 F3 [L1 L2]] Hlo Hi Hb. split.
  - by destruct hs.
  - intros k. transitivity ((<[Z.to_nat i := gate b flags]> (idt_descriptor m)) !! k); [by destruct hs|].
    destruct (decide (k = Z.to_nat i)) as [->|Hk].
    + rewrite list_lookup_insert_eq, decide_True, Hb by lia. done.
    + rewrite list_lookup_insert_ne, F2 by done. repeat case_decide; (done || lia).
  - intros k. destruct hs; simpl.
    + destruct (decide (k = Z.to_nat i)) as [->|Hk].
      * rewrite list_lookup_insert_eq, decide_True by (split; [done|lia] || lia). done.
      * rewrite list_lookup_insert_ne, F3 by done. repeat case_decide; try done; naive_solver lia.
    + rewrite F3. repeat case_decide; naive_solver.
  - destruct hs; simpl; rewrite ?length_insert; done.
Qed.

(** A loop of [idt_init]. *)
Lemma fill_loop stubs m0 flags lo n (hs : bool) (body : Z → kernel (machine D) unit) :
  length stubs = 256%nat → 0 ≤ lo → 0 ≤ n → lo + n ≤ 256 →
  length (idt_descriptor m0) = 256%nat → length (real_handlers m0) = 256%nat →
  (∀ i b m, stubs !! Z.to_nat i = Some b → 0 ≤ i < 256 → length (idt_descriptor m) = 256%nat → length (real_handlers m) = 256%nat →
    body i m = Ret tt (let m1 := set_idt_descriptor (<[Z.to_nat i := gate b flags]> (idt_descriptor m)) m in
      if hs then set_real_handlers (<[Z.to_nat i := Some idt_default_interrupt_handler]> (real_handlers m1)) m1 else m1)) →
  ∃ m, kfor (seqZ lo n) body m0 = Ret tt m ∧ filled stubs m0 flags lo (lo + n) hs m.
Proof.
  intros Hls Hlo Hn Hhi L1 L2 Hbody.
  apply (kfor_range (λ k m, filled stubs m0 flags lo (lo + k) hs m)); [done| |].
  - rewrite Z.add_0_r. split; try done; intros k; (rewrite decide_False; [done|lia]).
  - intros i m Hi HP. destruct (lookup_lt_is_Some_2 stubs (Z.to_nat (lo + i))) as [b Hb]; [lia|].
    destruct (fi_len _ _ _ _ _ _ _ HP) as [L3 L4]. eexists. split; [apply (Hbody (lo + i) b m); [done|lia|done|done]|].
    rewrite Z.add_assoc. apply fill_step; try done; lia.
Qed.

Lemma idt_init_run stubs m :
  length stubs = 256%nat → Forall (λ b, 0 ≤ b < 2 ^ 64) stubs →
  length (idt_descriptor m) = 256%nat → length (real_handlers m) = 256%nat →
  ∃ m', idt_init stubs m = Ret tt m' ∧ ports m' = ports m ∧ g_curmask m' = g_curmask m ∧ length (real_handlers m') = 256%nat ∧
    ∀ i b, stubs !! i = Some b →
      (∃ e, idt_descriptor m' !! i = Some e ∧ gate_target e = b ∧ sel e = 8 ∧
        gate_dpl e = if decide (i = 0x80%nat) then 3 else 0) ∧
      real_handlers m' !! i =
        if decide (i = 0x80%nat) then Some (Some syscall_handler) else
        if decide (i < 32)%nat then Some (Some idt_default_interrupt_handler) else real_handlers m !! i.
Proof.
  intros Hs Hb64 L1 L2. unfold idt_init.
  destruct (fill_loop stubs m IDT_TRAP_GATE 0 32 true (λ i,
    let* stub := kopt (stubs !! Z.to_nat i) in
    SET_GATE i stub IDT_TRAP_GATE ;;; set_handler i idt_default_interrupt_handler)) as (m1 & Hrun1 & F1); try done.
  { intros i b m1 Hb Hi Hl1 Hl2. rewrite Hb. unfold kopt. rewrite kbind_ret.
    rewrite (kbind_run _ _ _ _ _ (SET_GATE_run i b IDT_TRAP_GATE m1 ltac:(lia))).
    apply set_handler_run. simpl. lia. }
  rewrite (kbind_run _ _ _ _ _ Hrun1). destruct (fi_len _ _ _ _ _ _ _ F1) as [L3 L4].
  destruct (fill_loop stubs m1 IDT_INTERRUPT_GATE 32 224 false (λ i,
    let* stub := kopt (stubs !! Z.to_nat i) in SET_GATE i stub IDT_INTERRUPT_GATE)) as (m2 & Hrun2 & F2); try done.
  { intros i b m2 Hb Hi Hl1 Hl2. rewrite Hb. unfold kopt. rewrite kbind_ret. apply SET_GATE_run. lia. }
  rewrite (kbind_run _ _ _ _ _ Hrun2). destruct (fi_len _ _ _ _ _ _ _ F2) as [L5 L6].
  destruct (lookup_lt_is_Some_2 stubs 128) as [b Hb]; [lia|]. change (Z.to_nat 128) with 128%nat. rewrite Hb. unfold kopt.
  rewrite kbind_ret, (kbind_run _ _ _ _ _ (SET_GATE_run 128 _ _ m2 ltac:(lia))), set_handler_run by (simpl; lia).
  eexists. split; [reflexivity|]. change (Z.to_nat 128) with 128%nat. cbn [ports g_curmask set_real_handlers set_idt_descriptor idt_descriptor real_handlers].
  destruct F1 as [(P1 & P2 & _) I1 H1 _], F2 as [(Q1 & Q2 & _) I2 H2 _]. split_and!; [congruence|congruence|by rewrite length_insert|].
  intros i c Hi. assert (i < 256)%nat as Hlt by (apply lookup_lt_Some in Hi; lia).
  assert (0 ≤ c < 2 ^ 64) as Hc by (rewrite Forall_lookup in Hb64; by eapply Hb64). split.
  - exists (gate c (gate_flags i)). split; [|split_and!; [by apply gate_target_gate|done|]].
    + unfold gate_flags. destruct (decide (i = 128%nat)) as [->|Hne].
      * rewrite list_lookup_insert_eq by lia. congruence.
      * rewrite list_lookup_insert_ne, I2, I1, Hi by done. repeat case_decide; try done; lia.
    + unfold gate_dpl, gate_flags. simpl. repeat case_decide; done.
  - destruct (decide (i = 128%nat)) as [->|Hne]; [by rewrite list_lookup_insert_eq by lia|].
    rewrite list_lookup_insert_ne, H2, H1 by done. rewrite decide_False by (by intros [? _]).
    destruct (decide (i < 32)%nat); [rewrite decide_True by (split; [done|lia])|rewrite decide_False by lia]; done.
Qed.

(** [idt_init] fills the table: each of the 256 gates leads to its entry point
    through the kernel's code segment, only [int $0x80] may be used from ring
    3, the exceptions have the default handler, [int $0x80] the one for system
    calls, and the other vectors have the handlers they had. *)
Theorem idt_init_spec stubs m
    (Hstubs : length stubs = 256%nat ∧ Forall (λ b, 0 ≤ b < 2 ^ 64) stubs)
    (Hlen : length (idt_descriptor m) = 256%nat ∧ length (real_handlers m) = 256%nat) :
  ∃ m', idt_init stubs m = Ret tt m' ∧ ports m' = ports m ∧ g_curmask m' = g_curmask m ∧
    ∀ i b, stubs !! i = Some b →
      (∃ e, idt_descriptor m' !! i = Some e ∧ gate_target e = b ∧ sel e = 8 ∧
        gate_dpl e = if decide (i = 0x80%nat) then 3 else 0) ∧
      real_handlers m' !! i =
        if decide (i = 0x80%nat) then Some (Some syscall_handler) else
        if decide (i < 32)%nat then Some (Some idt_default_interrupt_handler) else real_handlers m !! i.
Proof.
  destruct Hstubs as [Hs Hb64], Hlen as [L1 L2].
  destruct (idt_init_run stubs m Hs Hb64 L1 L2) as (m' & H1 & H2 & H3 & _ & H4). by exists m'.
Qed.
End idt.

(** ** The interrupt controllers *)

Definition pic_command (slave : bool) : Z := if slave then PIC_SLAVE_COMMAND else PIC_MASTER_COMMAND.
Definition pic_data (slave : bool) : Z := if slave then PIC_SLAVE_DATA else PIC_MASTER_DATA.

(** An 8259A: its mask register, the vector of its line 0, its third
    initialisation word, how many initialisation words it waits for (counted
    from the first), and the lines in service. *)
Record pic_chip := PicChip { imr : Z; vector_base : Z; cascade : Z; icw : nat; isr : Z }.

(** The data sheet: ICW1 starts the initialisation, ICW2 to ICW4 follow at the
    data port; from then on a write there sets the mask register, and an
    end-of-interrupt command ends the service of the line of highest priority.
    Other ports are not the chip's. *)
Class PicLaws (D : Type) `{PortIO D} := {
  chip : D → bool → pic_chip;
  chip_icw1 d c : icw (chip (outb d (pic_command c) (Z.lor PIC_ICW1_INIT PIC_ICW1_ICW4)) c) = 1%nat;
  chip_icw2 d c v : icw (chip d c) = 1%nat → v mod 8 = 0 →
    let x := chip d c in chip (outb d (pic_data c) v) c = PicChip (imr x) v (cascade x) 2 (isr x);
  chip_icw3 d c v : icw (chip d c) = 2%nat →
    let x := chip d c in chip (outb d (pic_data c) v) c = PicChip (imr x) (vector_base x) v 3 (isr x);
  chip_icw4 d c : icw (chip d c) = 3%nat →
    let x := chip d c in chip (outb d (pic_data c) PIC_ICW4_8086) c = PicChip (imr x) (vector_base x) (cascade x) 0 (isr x);
  chip_ocw1 d c v : icw (chip d c) = 0%nat →
    let x := chip d c in chip (outb d (pic_data c) v) c = PicChip v (vector_base x) (cascade x) 0 (isr x);
  chip_eoi d c : icw (chip d c) = 0%nat →
    let x := chip d c in
    chip (outb d (pic_command c) PIC_EOI) c = PicChip (imr x) (vector_base x) (cascade x) 0 (Z.land (isr x) (isr x - 1));
  chip_out d c port v : port ≠ pic_command c → port ≠ pic_data c → chip (outb d port v) c = chip d c;
  chip_in d c port : port ≠ pic_command c → port ≠ pic_data c → chip (inb d port).2 c = chip d c;
}.

Section pic.
Context {D : Type} `{PicLaws D}.
Implicit Types m : machine D.

(** The two chips are set up as master and slave and their mask registers are
    the two bytes of [g_curmask]. *)
Record pic_ok m : Prop := {
  po_mask : 0 ≤ g_curmask m < 2 ^ 16;
  po_master : let x := chip (ports m) false in
    icw x = 0%nat ∧ imr x = Z.land (g_curmask m) 0xFF ∧ vector_base x = 0x20 ∧ cascade x = 4;
  po_slave : let x := chip (ports m) true in
    icw x = 0%nat ∧ imr x = Z.land (Z.shiftr (g_curmask m) 8) 0xFF ∧ vector_base x = 0x28 ∧ cascade x = 2;
}.

(** The chip of a line, and whether an interrupt on the line reaches the
    processor: those of the slave go through the line 2 of the master. *)
Definition line_chip m (irq : Z) : pic_chip := chip (ports m) (8 <=? irq).
Definition line_open m (irq : Z) : bool :=
  negb (Z.testbit (imr (line_chip m irq)) (irq mod 8)) &&
  ((irq <? 8) || negb (Z.testbit (imr (chip (ports m) false)) 2)).
(** The vector of a line. *)
Definition line_vector m (irq : Z) : Z := vector_base (line_chip m irq) + irq mod 8.

Lemma io_out_run port v m : io (koutb port v) m = Ret tt (set_ports (outb (ports m) port v) m).
Proof. done. Qed.

(** The mask as a bit per line. *)
Lemma ok_line_mask m irq : pic_ok m → 0 ≤ irq < 16 →
  Z.testbit (imr (line_chip m irq)) (irq mod 8) = Z.testbit (g_curmask m) irq.
Proof.
  intros [_ (_ & M1 & _) (_ & M2 & _)] Hi. unfold line_chip. destruct (Z.leb_spec 8 irq).
  - rewrite M2. change 0xFF with (Z.ones 8). rewrite Z.land_spec, Z.ones_spec_low, andb_true_r by (apply Z.mod_pos_bound; lia).
    rewrite Z.shiftr_spec by (apply Z.mod_pos_bound; lia). f_equal. Z.to_euclidean_division_equations. lia.
  - rewrite M1. change 0xFF with (Z.ones 8). rewrite Z.mod_small by lia.
    rewrite Z.land_spec, Z.ones_spec_low, andb_true_r by lia. done.
Qed.

Lemma ok_line_open m irq : pic_ok m → 0 ≤ irq < 16 →
  line_open m irq = negb (Z.testbit (g_curmask m) irq) && ((irq <? 8) || negb (Z.testbit (g_curmask m) 2)).
Proof.
  intros Hok Hi. unfold line_open. rewrite (ok_line_mask m irq Hok Hi).
  pose proof (ok_line_mask m 2 Hok ltac:(lia)) as E. change (line_chip m 2) with (chip (ports m) false) in E.
  change (2 mod 8) with 2 in E. by rewrite E.
Qed.

Lemma ok_line_vector m irq : pic_ok m → 0 ≤ irq < 16 → line_vector m irq = IDT_IRQ_BASE + irq.
Proof.
  intros [_ (_ & _ & V1 & _) (_ & _ & V2 & _)] Hi. unfold line_vector, line_chip, IDT_IRQ_BASE. destruct (Z.leb_spec 8 irq).
  - rewrite V2. Z.to_euclidean_division_equations. lia.
  - rewrite V1, Z.mod_small by lia. done.
Qed.

(** Writing the byte of a new mask. *)
Lemma write_mask_run m mask irq :
  pic_ok m → 0 ≤ irq < 16 → 0 ≤ mask < 2 ^ 16 →
  (∀ j, 0 ≤ j < 16 → j ≠ irq → Z.testbit mask j = Z.testbit (g_curmask m) j) →
  ∃ d, write_mask irq (set_g_curmask mask m) = Ret tt (set_ports d (set_g_curmask mask m)) ∧
    pic_ok (set_ports d (set_g_curmask mask m)) ∧ ∃ v, d = outb (ports m) (pic_data (8 <=? irq)) v.
Proof.
  intros [_ (M1 & M2 & M3 & M4) (S1 & S2 & S3 & S4)] Hi Hm Hbits.
  assert (∀ a b k, 0 ≤ k → (∀ j, 0 ≤ j < 8 → Z.testbit a (j + k) = Z.testbit b (j + k)) →
    Z.land (Z.shiftr a k) 0xFF = Z.land (Z.shiftr b k) 0xFF) as Hbyte.
  { intros a b k Hk Hab. apply Z.bits_inj'. intros j Hj. rewrite !Z.land_spec, !Z.shiftr_spec by done.
    change 0xFF with (Z.ones 8). destruct (decide (j < 8)); [by rewrite Hab|].
    rewrite Z.ones_spec_high, !andb_false_r by lia. done. }
  unfold write_mask, kbind, kget. cbn [g_curmask set_g_curmask]. destruct (Z.ltb_spec irq 8); rewrite io_out_run; cbn [ports set_g_curmask].
  - rewrite (proj2 (Z.leb_gt _ _)) by lia. eexists. split; [reflexivity|]. split; [|by eexists].
    split; cbn [g_curmask ports set_ports set_g_curmask]; [done| |].
    + rewrite (chip_ocw1 (ports m) false _ M1). by simpl.
    + rewrite (chip_out (ports m) true) by done. split_and!; try done. rewrite S2. apply Hbyte; [lia|].
      intros j Hj. symmetry. apply Hbits; lia.
  - rewrite (proj2 (Z.leb_le _ _)) by lia. eexists. split; [reflexivity|]. split; [|by eexists].
    split; cbn [g_curmask ports set_ports set_g_curmask]; [done| |].
    + rewrite (chip_out (ports m) false) by done. split_and!; try done. rewrite M2.
      rewrite <- (Z.shiftr_0_r (g_curmask m)), <- (Z.shiftr_0_r mask). apply Hbyte; [lia|].
      intros j Hj. symmetry. apply Hbits; lia.
    + rewrite (chip_ocw1 (ports m) true _ S1). by simpl.
Qed.

Lemma unmask_bits mask irq j : 0 ≤ irq < 16 → 0 ≤ j < 16 →
  Z.testbit (u16 (Z.land mask (Z.lnot (Z.shiftl 1 irq)))) j = Z.testbit mask j && negb (j =? irq).
Proof.
  intros Hi Hj. unfold u16. rewrite Z.mod_pow2_bits_low, Z.land_spec, Z.lnot_spec, Z.shiftl_1_l, Z.pow2_bits_eqb by lia.
  f_equal. f_equal. by rewrite Z.eqb_sym.
Qed.

Lemma mask_bits mask irq j : 0 ≤ irq < 16 → 0 ≤ j < 16 →
  Z.testbit (u16 (Z.lor mask (Z.shiftl 1 irq))) j = Z.testbit mask j || (j =? irq).
Proof.
  intros Hi Hj. unfold u16. rewrite Z.mod_pow2_bits_low, Z.lor_spec, Z.shiftl_1_l, Z.pow2_bits_eqb by lia.
  f_equal. by rewrite Z.eqb_sym.
Qed.

(** A write that is not for the controllers. *)
Lemma pic_ok_other m port v :
  pic_ok m → port ≠ 0x20 → port ≠ 0x21 → port ≠ 0xA0 → port ≠ 0xA1 → pic_ok (set_ports (outb (ports m) port v) m).
Proof.
  intros [H1 H2 H3] ????.
  split; cbn [g_curmask ports set_ports]; rewrite ?(chip_out (ports m) _ port v) by done; done.
Qed.

Lemma pic_ok_handlers m l : pic_ok m → pic_ok (set_real_handlers l m).
Proof. by intros [H1 H2 H3]. Qed.

Lemma pic_ok_in m port :
  pic_ok m → port ≠ 0x20 → port ≠ 0x21 → port ≠ 0xA0 → port ≠ 0xA1 → pic_ok (set_ports (inb (ports m) port).2 m).
Proof.
  intros [H1 H2 H3] ????.
  split; cbn [g_curmask ports set_ports]; rewrite ?(chip_in (ports m) _ port) by done; done.
Qed.

Lemma pic_unmask_run m irq :
  pic_ok m → 0 ≤ irq < 16 →
  ∃ m', pic_unmask irq m = Ret tt m' ∧ pic_ok m' ∧ real_handlers m' = real_handlers m ∧
    (∀ j, 0 ≤ j < 16 → Z.testbit (g_curmask m') j = Z.testbit (g_curmask m) j && negb (j =? irq)) ∧
    ∃ v, ports m' = outb (outb (ports m) 0x80 0) (pic_data (8 <=? irq)) v.
Proof.
  intros Hok Hi. unfold pic_unmask. rewrite (proj2 (Z.ltb_lt _ _)) by lia. rewrite (kbind_run (kmod _) _ _ tt _ eq_refl).
  set (mask := u16 _). unfold io_wait. rewrite (kbind_run _ _ _ _ _ (io_out_run _ _ _)).
  cbn [ports set_g_curmask].
  pose proof (pic_ok_other m 0x80 0 Hok ltac:(done) ltac:(done) ltac:(done) ltac:(done)) as Hok1. set (m1 := set_ports _ m) in Hok1.
  destruct (write_mask_run m1 mask irq Hok1 Hi) as (d & Hrun & Hok2 & v & Hd).
  - apply u16_range.
  - intros j Hj Hne. unfold mask. rewrite unmask_bits, (proj2 (Z.eqb_neq j irq)), andb_true_r by done. done.
  - eexists. split; [exact Hrun|]. split; [exact Hok2|]. split; [done|]. split; [|by exists v].
    intros j Hj. simpl. by apply unmask_bits.
Qed.

(** The writes of [pic_init]. *)
Definition pic_writes : list (Z * Z) :=
  [(0x20, 0x11); (0x80, 0); (0xA0, 0x11); (0x80, 0); (0x21, 0x20); (0x80, 0); (0xA1, 0x28); (0x80, 0);
   (0x21, 4); (0x80, 0); (0xA1, 2); (0x80, 0); (0x21, 1); (0x80, 0); (0xA1, 1); (0x80, 0); (0x21, 0xFF); (0xA1, 0xFF)].
Fixpoint outs (d : D) (l : list (Z * Z)) : D :=
  match l with [] => d | (port, v) :: l => outs (outb d port v) l end.

(** The initialisation of one chip, with other writes in between. *)
Lemma chip_setup c base cas d1 d2 d3 d4 d5 :
  icw (chip d1 c) = 1%nat → chip d2 c = chip (outb d1 (pic_data c) base) c → chip d3 c = chip (outb d2 (pic_data c) cas) c →
  chip d4 c = chip (outb d3 (pic_data c) PIC_ICW4_8086) c → chip d5 c = chip (outb d4 (pic_data c) 0xFF) c → base mod 8 = 0 →
  let x := chip d5 c in icw x = 0%nat ∧ imr x = 0xFF ∧ vector_base x = base ∧ cascade x = cas.
Proof.
  intros H1 H2 H3 H4 H5 Hb. rewrite chip_icw2 in H2 by done.
  rewrite chip_icw3 in H3 by (by rewrite H2). rewrite chip_icw4 in H4 by (by rewrite H3).
  rewrite chip_ocw1 in H5 by (by rewrite H4). rewrite H5, H4, H3, H2. done.
Qed.

Lemma pic_init_run m :
  let m' := set_g_curmask 0xFFFF (set_ports (outs (ports m) pic_writes) m) in pic_init m = Ret tt m' ∧ pic_ok m'.
Proof.
  split; [done|]. split; cbn [g_curmask ports set_ports set_g_curmask]; [lia| |].
  - apply (chip_setup false 0x20 4 (outs (ports m) (take 4 pic_writes)) (outs (ports m) (take 8 pic_writes))
        (outs (ports m) (take 12 pic_writes)) (outs (ports m) (take 16 pic_writes))); cbn [outs take pic_writes];
        repeat rewrite (chip_out _ false) by done; (reflexivity || exact (chip_icw1 _ false)).
  - apply (chip_setup true 0x28 2 (outs (ports m) (take 6 pic_writes)) (outs (ports m) (take 10 pic_writes))
        (outs (ports m) (take 14 pic_writes)) (outs (ports m) (take 17 pic_writes))); cbn [outs take pic_writes];
        repeat rewrite (chip_out _ true) by done; (reflexivity || exact (chip_icw1 _ true)).
Qed.

(** [pic_init] leaves both controllers initialised, lines 0 to 7 on the
    vectors 0x20 to 0x27 and 8 to 15 on 0x28 to 0x2F, the slave on line 2 of the
    master, and every line masked. *)
Theorem pic_init_spec m :
  ∃ m', pic_init m = Ret tt m' ∧ pic_ok m' ∧ real_handlers m' = real_handlers m ∧
    ∀ irq, 0 ≤ irq < 16 → line_open m' irq = false ∧ line_vector m' irq = IDT_IRQ_BASE + irq.
Proof.
  destruct (pic_init_run m) as [Hrun Hok].
  eexists. split; [exact Hrun|]. split; [done|]. split; [done|]. intros irq Hi.
  rewrite ok_line_open, ok_line_vector by done. split; [|done].
  cbn [g_curmask set_g_curmask]. change 0xFFFF with (Z.ones 16). by rewrite Z.ones_spec_low by lia.
Qed.

(** [pic_unmask] and [pic_mask] change one line.  The mask registers of the
    chips are what [g_curmask] says before and after, [pic_unmask] clears the
    line's bit and [pic_mask] sets it; the other fifteen bits stay. *)
Theorem pic_lines m irq (Hok : pic_ok m) (Hirq : 0 ≤ irq < 16) :
  (∃ m', pic_unmask irq m = Ret tt m' ∧ pic_ok m' ∧
     ∀ j, 0 ≤ j < 16 → Z.testbit (imr (line_chip m' j)) (j mod 8) =
       Z.testbit (imr (line_chip m j)) (j mod 8) && negb (j =? irq)) ∧
  (∃ m', pic_mask irq m = Ret tt m' ∧ pic_ok m' ∧
     ∀ j, 0 ≤ j < 16 → Z.testbit (imr (line_chip m' j)) (j mod 8) =
       Z.testbit (imr (line_chip m j)) (j mod 8) || (j =? irq)).
Proof.
  split.
  - destruct (pic_unmask_run m irq Hok Hirq) as (m' & Hrun & Hok' & _ & Hb & _). exists m'. split_and!; try done.
    intros j Hj. rewrite !ok_line_mask by done. by apply Hb.
  - unfold pic_mask. rewrite (proj2 (Z.ltb_lt _ _)) by lia. rewrite (kbind_run (kmod _) _ _ tt _ eq_refl).
    destruct (write_mask_run m (u16 (Z.lor (g_curmask m) (Z.shiftl 1 irq))) irq Hok Hirq) as (d & Hrun & Hok' & _).
    + apply u16_range.
    + intros j Hj Hne. rewrite mask_bits, (proj2 (Z.eqb_neq j irq)), orb_false_r by done. done.
    + eexists. split_and!; [exact Hrun|exact Hok'|]. intros j Hj. rewrite !ok_line_mask by done. by apply mask_bits.
Qed.

(** Unmasking a line of the slave is not enough: while line 2 of the master
    is masked, as [pic_init] leaves it, [pic_unmask] of a line from 8 on opens no
    line at all. *)
Theorem pic_unmask_slave m irq (Hok : pic_ok m) (Hirq : 8 ≤ irq < 16) (H2 : Z.testbit (g_curmask m) 2 = true) :
  ∃ m', pic_unmask irq m = Ret tt m' ∧ ∀ j, 0 ≤ j < 16 → line_open m' j = line_open m j.
Proof.
  destruct (pic_unmask_run m irq Hok ltac:(lia)) as (m' & Hrun & Hok' & _ & Hb & _). exists m'. split; [done|].
  intros j Hj. rewrite (ok_line_open m'), (ok_line_open m), (Hb j), (Hb 2), H2 by (done || lia).
  destruct (Z.ltb_spec j 8).
  - rewrite (proj2 (Z.eqb_neq j irq)) by lia. by destruct (Z.testbit (g_curmask m) j).
  - rewrite (proj2 (Z.eqb_neq 2 irq)) by lia. by destruct (Z.testbit (g_curmask m) j), (j =? irq).
Qed.

(** [pic_eoi] ends the service of a line: when the line is the only one of its
    chip in service, and line 2 the only one of the master for a line of the
    slave, no line is in service afterwards; the masks stay. *)
Theorem pic_eoi_spec m irq (Hok : pic_ok m) (Hirq : 0 ≤ irq < 16)
    (Hisr : isr (chip (ports m) false) = (if 8 <=? irq then 4 else 2 ^ irq) ∧
            isr (chip (ports m) true) = (if 8 <=? irq then 2 ^ (irq - 8) else 0)) :
  ∃ m', pic_eoi irq m = Ret tt m' ∧ pic_ok m' ∧ g_curmask m' = g_curmask m ∧
    ∀ c, isr (chip (ports m') c) = 0.
Proof.
  destruct Hok as [Hm (M1 & M2 & M3 & M4) (S1 & S2 & S3 & S4)], Hisr as [I1 I2]. unfold pic_eoi.
  assert (∀ k, 0 ≤ k → Z.land (2 ^ k) (2 ^ k - 1) = 0) as Hpow.
  { intros k Hk. rewrite Z.sub_1_r, <- Z.ones_equiv, Z.land_ones by done. by rewrite Z.mod_same by lia. }
  destruct (Z.leb_spec 8 irq).
  - rewrite (kbind_run _ _ _ _ _ (io_out_run _ _ _)), io_out_run. eexists. split; [reflexivity|]. cbn [ports set_ports].
    pose proof (chip_eoi (ports m) true S1) as E1. set (d1 := outb (ports m) PIC_SLAVE_COMMAND PIC_EOI) in *.
    assert (chip d1 false = chip (ports m) false) as E2 by (by apply chip_out).
    pose proof (chip_eoi d1 false ltac:(by rewrite E2)) as E3. set (d2 := outb d1 PIC_MASTER_COMMAND PIC_EOI) in *.
    assert (chip d2 true = chip d1 true) as E4 by (by apply chip_out).
    change (chip d1 true = PicChip (imr (chip (ports m) true)) (vector_base (chip (ports m) true)) (cascade (chip (ports m) true)) 0
      (Z.land (isr (chip (ports m) true)) (isr (chip (ports m) true) - 1))) in E1.
    change (chip d2 false = PicChip (imr (chip d1 false)) (vector_base (chip d1 false)) (cascade (chip d1 false)) 0
      (Z.land (isr (chip d1 false)) (isr (chip d1 false) - 1))) in E3. rewrite E2 in E3.
    split; [split; cbn [g_curmask ports set_ports]; rewrite ?E3, ?E4, ?E1; done|]. split; [done|].
    intros [|]; [rewrite E4, E1|rewrite E3]; cbn [isr]; rewrite ?I1, ?I2; [apply Hpow; lia|done].
  - rewrite kbind_ret, io_out_run. eexists. split; [reflexivity|]. cbn [ports set_ports].
    pose proof (chip_eoi (ports m) false M1) as E1. set (d1 := outb (ports m) PIC_MASTER_COMMAND PIC_EOI) in *.
    change (chip d1 false = PicChip (imr (chip (ports m) false)) (vector_base (chip (ports m) false)) (cascade (chip (ports m) false)) 0
      (Z.land (isr (chip (ports m) false)) (isr (chip (ports m) false) - 1))) in E1.
    assert (chip d1 true = chip (ports m) true) as E2 by (by apply chip_out).
    split; [split; cbn [g_curmask ports set_ports]; rewrite ?E1, ?E2; done|]. split; [done|].
    intros [|]; [by rewrite E2, I2|rewrite E1]. cbn [isr]. rewrite I1. apply Hpow. lia.
Qed.

(** ** Registering a handler *)

Lemma register_run m vector h :
  0 ≤ vector < Z.of_nat (length (real_handlers m)) → real_handlers m !! Z.to_nat vector ≠ Some (Some idt_default_interrupt_handler) →
  idt_register_handler vector h m = Ret 0 (set_real_handlers (<[Z.to_nat vector := Some h]> (real_handlers m)) m).
Proof.
  intros Hv Hne. unfold idt_register_handler, kbind, kget.
  destruct (lookup_lt_is_Some_2 (real_handlers m) (Z.to_nat vector)) as [old Hold]; [lia|].
  rewrite Hold. simpl. rewrite decide_False by congruence. done.
Qed.

(** [idt_register_handler] installs a handler where there is none or one that
    was registered before, and returns 0; over the default handler of an
    exception it installs nothing and returns 1; outside the table of 256 it is
    undefined. *)
Theorem idt_register_spec m vector h (Hlen : length (real_handlers m) = 256%nat) (Hv : 0 ≤ vector < 2 ^ 64) :
  idt_register_handler vector h m =
    if 256 <=? vector then Fault else
    if decide (real_handlers m !! Z.to_nat vector = Some (Some idt_default_interrupt_handler)) then Ret 1 m
    else Ret 0 (set_real_handlers (<[Z.to_nat vector := Some h]> (real_handlers m)) m).
Proof.
  destruct (Z.leb_spec 256 vector).
  - unfold idt_register_handler, kbind, kget. rewrite lookup_ge_None_2 by lia. done.
  - case_decide as Hd; [|apply register_run; [lia|done]]. unfold idt_register_handler, kbind, kget. by rewrite Hd.
Qed.

(** [pit_init] registers the timer and opens its line. *)
Lemma pit_init_run m :
  pic_ok m → length (real_handlers m) = 256%nat → real_handlers m !! 32%nat ≠ Some (Some idt_default_interrupt_handler) →
  ∃ m', pit_init m = Ret tt m' ∧ pic_ok m' ∧ real_handlers m' = <[32%nat := Some pit_handler]> (real_handlers m) ∧
    ∀ j, 0 ≤ j < 16 → Z.testbit (g_curmask m') j = Z.testbit (g_curmask m) j && negb (j =? 0).
Proof.
  intros Hok Hlen Hne. unfold pit_init. rewrite (kbind_run _ _ _ _ _ (io_out_run _ _ _)).
  set (m1 := set_ports _ m). assert (pic_ok m1) as Hok1 by (by apply pic_ok_other).
  unfold IDT_IRQ_BASE. rewrite (kbind_run _ _ _ _ _ (register_run m1 (0x20 + 0) pit_handler ltac:(simpl; lia) ltac:(done))).
  cbv zeta. rewrite !(kbind_run _ _ _ _ _ (io_out_run _ _ _)).
  match goal with |- context [pic_unmask 0 ?x] => set (m2 := x) end.
  assert (pic_ok m2) as Hok2.
  { apply (pic_ok_other (set_ports _ (set_real_handlers _ m1))); try done. apply (pic_ok_other (set_real_handlers _ m1)); try done. by apply pic_ok_handlers. }
  destruct (pic_unmask_run m2 0 Hok2 ltac:(lia)) as (m' & Hrun & Hok' & Hh & Hb & _). exists m'. split_and!; try done.
Qed.
End pic.
