(* ===== verification/Gdt.v ===== *)
(** * Segments

    [sys/gdt.c]: the global descriptor table and the task state segment, as the
    bytes the processor reads.  [gdt_flush] and [flush_tss] are assembly; what
    they load is in the fields [gdtr], [code_segment], [data_segment] and
    [task_register].  The theorems decode the table the way the processor does:
    every selector the kernel uses names a descriptor of the right kind, and the
    descriptor of the task state segment leads to [tss]. *)

From stdpp Require Import base list.
From Stdlib Require Import ZArith Lia.
From S2P Require Import Prelude Interrupts.
#[local] Open Scope Z_scope.

Definition GDT_ACCESS_PRESENT : Z := 0x80.
Definition GDT_ACCESS_RING0 : Z := 0x00.
Definition GDT_ACCESS_CODE : Z := 0x18.
Definition GDT_ACCESS_DATA : Z := 0x10.
Definition GDT_ACCESS_EXECUTABLE : Z := 0x08.
Definition GDT_ACCESS_RW : Z := 0x02.
Definition GDT_KERNEL_CODE : Z :=
  Z.lor (Z.lor (Z.lor (Z.lor GDT_ACCESS_PRESENT GDT_ACCESS_RING0) GDT_ACCESS_CODE) GDT_ACCESS_EXECUTABLE) GDT_ACCESS_RW.
Definition GDT_KERNEL_DATA : Z :=
  Z.lor (Z.lor (Z.lor GDT_ACCESS_PRESENT GDT_ACCESS_RING0) GDT_ACCESS_DATA) GDT_ACCESS_RW.
Definition GDT_USER_CODE : Z :=
  Z.lor (Z.lor (Z.lor (Z.lor GDT_ACCESS_PRESENT GDT_ACCESS_RING3) GDT_ACCESS_CODE) GDT_ACCESS_EXECUTABLE) GDT_ACCESS_RW.
Definition GDT_USER_DATA : Z :=
  Z.lor (Z.lor (Z.lor GDT_ACCESS_PRESENT GDT_ACCESS_RING3) GDT_ACCESS_DATA) GDT_ACCESS_RW.
Definition GDT_TSS : Z := 0xE9.
Definition GDT_GRANULARITY_4K : Z := 0x80.
Definition GDT_GRANULARITY_LONG_MODE : Z := 0x20.
Definition GDT_GRANULARITY_FLAT : Z := Z.lor GDT_GRANULARITY_4K GDT_GRANULARITY_LONG_MODE.

Record gdt_entry := GdtEntry {
  limit_low : Z; base_low : Z; base_middle : Z; access : Z; granularity : Z; base_high : Z
}.

Record gdt_system_entry := GdtSystemEntry {
  entry : gdt_entry; base_upper : Z; reserved : Z
}.

(** The fields of [tss_entry_t] that are not 0. *)
Record tss_entry := TssEntry { rsp0 : Z; io_map_base : Z }.
Definition GDT_ENTRY_SIZEOF : Z := 8.
Definition TSS_SIZEOF : Z := 104.

(** The bytes of a packed struct, little-endian. *)
Fixpoint le_bytes (n : nat) (v : Z) : list Z :=
  match n with O => [] | S n => v mod 256 :: le_bytes n (v / 256) end.
Fixpoint of_le (l : list Z) : Z :=
  match l with [] => 0 | b :: l => b + 256 * of_le l end.

Definition gdt_entry_bytes (e : gdt_entry) : list Z :=
  le_bytes 2 (limit_low e) ++ le_bytes 2 (base_low e) ++ le_bytes 1 (base_middle e) ++ le_bytes 1 (access e) ++
  le_bytes 1 (granularity e) ++ le_bytes 1 (base_high e).
Definition gdt_system_entry_bytes (e : gdt_system_entry) : list Z :=
  gdt_entry_bytes (entry e) ++ le_bytes 4 (base_upper e) ++ le_bytes 4 (reserved e).

(** The globals, and what the processor has been told. *)
Record segments := Segs {
  gdt : list Z;
  tss : tss_entry;
  gdt_ptr : Z * Z;
  gdtr : Z * Z;
  code_segment : Z;
  data_segment : Z;
  task_register : Z;
}.

(** [memcpy] of bytes over the table; past its 56 bytes is undefined. *)
Definition write_gdt (off : Z) (bytes : list Z) : kernel segments unit :=
  λ s, if off + Z.of_nat (length bytes) <=? Z.of_nat (length (gdt s))
       then Ret tt (Segs (list_inserts (Z.to_nat off) bytes (gdt s)) (tss s) (gdt_ptr s) (gdtr s) (code_segment s) (data_segment s) (task_register s))
       else Fault.

Definition set_gdt (i : Z) (e : gdt_entry) : kernel segments unit := write_gdt (GDT_ENTRY_SIZEOF * i) (gdt_entry_bytes e).

Definition gdt_flush (ptr : Z * Z) : kernel segments unit :=
  kmod (λ s, Segs (gdt s) (tss s) (gdt_ptr s) ptr 0x8 0x10 (task_register s)).
Definition flush_tss : kernel segments unit :=
  kmod (λ s, Segs (gdt s) (tss s) (gdt_ptr s) (gdtr s) (code_segment s) (data_segment s) (5 * 8)).

(** [gdt_addr] and [tss_addr] are the addresses of the globals. *)
Definition gdt_init (gdt_addr : Z) : kernel segments unit :=
  set_gdt 0 (GdtEntry 0 0 0 0x00 0x00 0) ;;;
  set_gdt 1 (GdtEntry 0 0 0 GDT_KERNEL_CODE GDT_GRANULARITY_FLAT 0) ;;;
  set_gdt 2 (GdtEntry 0 0 0 GDT_KERNEL_DATA GDT_GRANULARITY_FLAT 0) ;;;
  set_gdt 3 (GdtEntry 0 0 0 GDT_USER_CODE GDT_GRANULARITY_LONG_MODE 0) ;;;
  set_gdt 4 (GdtEntry 0 0 0 GDT_USER_DATA 0x00 0) ;;;
  kmod (λ s, Segs (gdt s) (tss s) (u16 (Z.of_nat (length (gdt s)) - 1), gdt_addr) (gdtr s) (code_segment s) (data_segment s) (task_register s)) ;;;
  let* ptr := kget gdt_ptr in
  gdt_flush ptr.

Definition tss_init (tss_addr stack : Z) : kernel segments unit :=
  kmod (λ s, Segs (gdt s) (TssEntry stack TSS_SIZEOF) (gdt_ptr s) (gdtr s) (code_segment s) (data_segment s) (task_register s)) ;;;
  let base := tss_addr in
  let limit := u32 (TSS_SIZEOF - 1) in
  let tss_entry :=
    GdtSystemEntry
      (GdtEntry (Z.land limit 0xFFFF) (Z.land base 0xFFFF) (Z.land (Z.shiftr base 16) 0xFF) GDT_TSS
                (Z.land (Z.shiftr limit 16) 0x0F) (Z.land (Z.shiftr base 24) 0xFF))
      (u32 (Z.shiftr base 32)) 0 in
  write_gdt (GDT_ENTRY_SIZEOF * 5) (gdt_system_entry_bytes tss_entry) ;;;
  let* ptr := kget gdt_ptr in
  gdt_flush ptr ;;;
  flush_tss.

(** ** What the processor reads *)

(** The eight bytes a selector names, when they are inside the limit. *)
Definition descriptor (s : segments) (selector : Z) : option Z :=
  let off := Z.land selector (Z.lnot 7) in
  if off + 7 <=? fst (gdtr s) then Some (of_le (take 8 (drop (Z.to_nat off) (gdt s)))) else None.

Definition d_present (d : Z) : bool := Z.testbit d 47.
Definition d_dpl (d : Z) : Z := Z.land (Z.shiftr d 45) 3.
Definition d_segment (d : Z) : bool := Z.testbit d 44.
Definition d_code (d : Z) : bool := Z.testbit d 43.
Definition d_writable (d : Z) : bool := Z.testbit d 41.
Definition d_long (d : Z) : bool := Z.testbit d 53.
Definition rpl (selector : Z) : Z := Z.land selector 3.

(** A selector that may be loaded in [cs] of 64-bit code, and one for [ss]. *)
Definition code_selector_ok (s : segments) (selector : Z) : bool :=
  match descriptor s selector with
  | Some d => d_present d && d_segment d && d_code d && d_long d && (d_dpl d =? rpl selector)
  | None => false
  end.
Definition stack_selector_ok (s : segments) (selector : Z) : bool :=
  match descriptor s selector with
  | Some d => d_present d && d_segment d && negb (d_code d) && d_writable d && (d_dpl d =? rpl selector)
  | None => false
  end.

(** The base and the limit of the system descriptor at an offset of the table. *)
Definition system_bytes (s : segments) (off : Z) : list Z := take 16 (drop (Z.to_nat off) (gdt s)).
Definition byte_at (l : list Z) (i : nat) : Z := default 0 (l !! i).
Definition system_base (l : list Z) : Z :=
  byte_at l 2 + Z.shiftl (byte_at l 3) 8 + Z.shiftl (byte_at l 4) 16 + Z.shiftl (byte_at l 7) 24 + Z.shiftl (of_le (drop 8 (take 12 l))) 32.
Definition system_limit (l : list Z) : Z :=
  byte_at l 0 + Z.shiftl (byte_at l 1) 8 + Z.shiftl (Z.land (byte_at l 6) 15) 16.
Definition system_type (l : list Z) : Z := byte_at l 5.

Definition segments_start : segments := Segs (replicate 56 0) (TssEntry 0 0) (0, 0) (0, 0) 0 0 0.

Lemma le_bytes_of_le (n : nat) v : 0 ≤ v < 256 ^ Z.of_nat n → of_le (le_bytes n v) = v.
Proof.
  revert v. induction n as [|n IH]; intros v Hv; cbn [le_bytes of_le].
  - simpl in Hv. lia.
  - rewrite Nat2Z.inj_succ, Z.pow_succ_r in Hv by lia. rewrite IH; Z.to_euclidean_division_equations; lia.
Qed.

(** The descriptor [tss_init] writes, and its base put together again. *)
Definition tss_descriptor (base : Z) : gdt_system_entry :=
  GdtSystemEntry (GdtEntry 103 (Z.land base 0xFFFF) (Z.land (Z.shiftr base 16) 0xFF) GDT_TSS 0
    (Z.land (Z.shiftr base 24) 0xFF)) (u32 (Z.shiftr base 32)) 0.

Lemma system_base_tss base : 0 ≤ base < 2 ^ 64 → system_base (gdt_system_entry_bytes (tss_descriptor base)) = base.
Proof.
  intros Hb. set (l := gdt_system_entry_bytes _). unfold system_base.
  change (byte_at l 2) with (Z.land base 0xFFFF mod 256). change (byte_at l 3) with (Z.land base 0xFFFF / 256 mod 256).
  change (byte_at l 4) with (Z.land (Z.shiftr base 16) 0xFF mod 256). change (byte_at l 7) with (Z.land (Z.shiftr base 24) 0xFF mod 256).
  change (drop 8 (take 12 l)) with (le_bytes 4 (u32 (Z.shiftr base 32))).
  rewrite le_bytes_of_le by (apply (u32_range (Z.shiftr base 32))).
  change 0xFFFF with (Z.ones 16). change 0xFF with (Z.ones 8). unfold u32.
  rewrite !Z.land_ones, !Z.shiftr_div_pow2, !Z.shiftl_mul_pow2 by lia.
  change (2 ^ 64) with 18446744073709551616 in Hb. change (2 ^ 8) with 256. change (2 ^ 16) with 65536.
  change (2 ^ 24) with 16777216. change (2 ^ 32) with 4294967296. Z.to_euclidean_division_equations. lia.
Qed.

(** The table after both initialisations: the four segments, then the sixteen
    bytes of the system descriptor. *)
Lemma table_run gdt_addr tss_addr stack :
  (gdt_init gdt_addr ;;; tss_init tss_addr stack) segments_start =
  Ret tt (Segs ([0; 0; 0; 0; 0; 0; 0; 0; 0; 0; 0; 0; 0; 0x9A; 0xA0; 0; 0; 0; 0; 0; 0; 0x92; 0xA0; 0;
                 0; 0; 0; 0; 0; 0xFA; 0x20; 0; 0; 0; 0; 0; 0; 0xF2; 0; 0] ++ gdt_system_entry_bytes (tss_descriptor tss_addr))
    (TssEntry stack 104) (55, gdt_addr) (55, gdt_addr) 0x8 0x10 0x28).
Proof. reflexivity. Qed.

(** C35: The descriptors, as the processor decodes them after [gdt_init] and
    [tss_init]: the kernel's selectors 0x08 and 0x10, those of user processes
    0x1B and 0x23, and the one in every gate of the interrupt table name present
    segments of the right kind and privilege; the task register names a system descriptor with the address and the
    size of [tss], whose ring 0 stack is the one given. *)
Theorem gdt_spec gdt_addr tss_addr stack (Htss : 0 ≤ tss_addr < 2 ^ 64) :
  ∃ s, (gdt_init gdt_addr ;;; tss_init tss_addr stack) segments_start = Ret tt s ∧
    code_segment s = 0x08 ∧ code_selector_ok s 0x08 = true ∧ data_segment s = 0x10 ∧ stack_selector_ok s 0x10 = true ∧
    code_selector_ok s 0x1B = true ∧ stack_selector_ok s 0x23 = true ∧
    (∀ base flags, code_selector_ok s (sel (gate base flags)) = true) ∧
    let l := system_bytes s (task_register s) in
    system_base l = tss_addr ∧ system_limit l = TSS_SIZEOF - 1 ∧ system_type l = GDT_TSS ∧ rsp0 (tss s) = stack.
Proof.
  rewrite table_run. set (t := Segs _ _ _ _ _ _ _). exists t. split; [reflexivity|].
  assert (system_bytes t (task_register t) = gdt_system_entry_bytes (tss_descriptor tss_addr)) as Hl by reflexivity.
  cbv zeta. rewrite Hl, system_base_tss by done. split_and!; reflexivity.
Qed.

Lemma gdt_spec_witness : ∃ s, (gdt_init 0xffffffff80010000 ;;; tss_init 0xffffffff80012340 0xffff800000100000) segments_start = Ret tt s ∧
  system_base (system_bytes s (task_register s)) = 0xffffffff80012340.
Proof.
  destruct (gdt_spec 0xffffffff80010000 0xffffffff80012340 0xffff800000100000) as (s & H1 & _ & _ & _ & _ & _ & _ & _ & H2 & _); [lia|].
  exists s. exact (conj H1 H2).
Defined.
