(* ===== verification/Pci.v ===== *)
(** * The PCI configuration space

    [sys/pci.c]: reading and writing configuration registers through the ports
    0xCF8 and 0xCFC, and the enumeration of the functions of the first eight
    buses.  [PciLaws] is configuration mechanism 1 of the PCI specification. *)

From stdpp Require Import base list.
From Stdlib Require Import ZArith Lia.
From S2P Require Import Prelude PortIO.
#[local] Open Scope Z_scope.

Definition PCI_CONFIG_ADDRESS : Z := 0xCF8.
Definition PCI_CONFIG_DATA : Z := 0xCFC.

(** [base] of the struct is never written. *)
Record pci_device := PciDevice {
  interrupt : Z; bus : Z; device : Z; function : Z; vendor_id : Z; device_id : Z;
  class_id : Z; subclass_id : Z; interface_id : Z; revision : Z
}.

Definition pci_id (bus device function regoffset : Z) : Z :=
  u32 (Z.lor (Z.lor (Z.lor (Z.lor (Z.shiftl 0x1 31) (Z.shiftl (Z.land bus 0xFF) 16)) (Z.shiftl (Z.land device 0x1F) 11))
    (Z.shiftl (Z.land function 0x07) 8)) (Z.land regoffset 0xFC)).

Section pci.
Context {D : Type} `{PortIO32 D}.

Definition pci_read (bus device function regoffset : Z) : kernel D Z :=
  let id := pci_id bus device function regoffset in
  koutl PCI_CONFIG_ADDRESS id ;;;
  let* result := kinl PCI_CONFIG_DATA in
  kret (Z.shiftr result (Z.shiftl (regoffset mod 4) 3)).

Definition pci_write (bus device function regoffset data : Z) : kernel D unit :=
  let id := pci_id bus device function regoffset in
  koutl PCI_CONFIG_ADDRESS id ;;;
  koutl PCI_CONFIG_DATA data.

Definition get_device_descriptor (bus device function : Z) : kernel D pci_device :=
  let* vendor_id := pci_read bus device function 0x00 in
  let* device_id := pci_read bus device function 0x02 in
  let* class_id := pci_read bus device function 0x0b in
  let* subclass_id := pci_read bus device function 0x0a in
  let* interface_id := pci_read bus device function 0x09 in
  let* revision := pci_read bus device function 0x08 in
  let* interrupt := pci_read bus device function 0x3c in
  kret (PciDevice interrupt bus device function (u16 vendor_id) (u16 device_id)
          (u8 class_id) (u8 subclass_id) (u8 interface_id) (u8 revision)).

(** The three loops of [pci_debug_log]; the result is the list of the devices it
    logs. *)
Fixpoint pci_scan (l : list (Z * Z * Z)) : kernel D (list pci_device) :=
  match l with
  | [] => kret []
  | (bus, device, function) :: l =>
      let* desc := get_device_descriptor bus device function in
      let* rest := pci_scan l in
      kret (if (vendor_id desc =? 0x0000) || (vendor_id desc =? 0xFFFF) then rest else desc :: rest)
  end.

Definition pci_functions : list (Z * Z * Z) :=
  bus ← seqZ 0 8; device ← seqZ 0 32; function ← seqZ 0 8; [(bus, device, function)].

Definition pci_debug_log : kernel D (list pci_device) := pci_scan pci_functions.
End pci.

(** ** The mechanism *)

(** A write to 0xCF8 selects a register, 0xCFC reads or writes the selected one. *)
Class PciLaws (D : Type) `{PortIO32 D} := {
  pci_reg : D → Z → Z;
  pci_selected : D → Z;
  pci_reg_range d id : 0 ≤ pci_reg d id < 2 ^ 32;
  pci_select d id : pci_selected (outl d PCI_CONFIG_ADDRESS id) = id ∧
    ∀ i, pci_reg (outl d PCI_CONFIG_ADDRESS id) i = pci_reg d i;
  pci_in d : ∃ d', inl d PCI_CONFIG_DATA = (pci_reg d (pci_selected d), d') ∧ ∀ i, pci_reg d' i = pci_reg d i;
  pci_out d v : 0 ≤ v < 2 ^ 32 →
    ∀ i, i ≠ pci_selected d → pci_reg (outl d PCI_CONFIG_DATA v) i = pci_reg d i;
}.

(** A function of a bus, and the fields of the address the mechanism decodes. *)
Definition pci_function_ok (bus device function : Z) : Prop := 0 ≤ bus < 256 ∧ 0 ≤ device < 32 ∧ 0 ≤ function < 8.

Lemma lor_add x b k : 0 ≤ k → x mod 2 ^ k = 0 → 0 ≤ b < 2 ^ k → Z.lor x b = x + b.
Proof.
  intros Hk Hx Hb. pose proof (Z.add_lor_land x b) as E. assert (Z.land x b = 0) as H0; [|lia].
  rewrite <- (Z.mod_small b (2 ^ k)), <- Z.land_ones, (Z.land_comm b), Z.land_assoc, Z.land_ones, Hx by lia. done.
Qed.

Lemma land_FC reg : 0 ≤ reg < 256 → Z.land reg 0xFC = reg / 4 * 4.
Proof.
  intros Hr. assert (Forall (λ r, Z.land r 0xFC = r / 4 * 4) (seqZ 0 256)) as HF.
  { apply (bool_decide_unpack _). by vm_compute. }
  rewrite Forall_forall in HF. apply HF, elem_of_seqZ. lia.
Qed.

Lemma pci_id_sum bus device function reg :
  pci_function_ok bus device function → 0 ≤ reg < 256 →
  pci_id bus device function reg = 2 ^ 31 + bus * 2 ^ 16 + device * 2 ^ 11 + function * 2 ^ 8 + reg / 4 * 4.
Proof.
  intros (Hb & Hd & Hf) Hr. unfold pci_id. rewrite land_FC by done.
  assert (Z.land bus 0xFF = bus) as -> by (change 0xFF with (Z.ones 8); rewrite Z.land_ones, Z.mod_small; lia).
  assert (Z.land device 0x1F = device) as -> by (change 0x1F with (Z.ones 5); rewrite Z.land_ones, Z.mod_small; lia).
  assert (Z.land function 0x07 = function) as -> by (change 0x07 with (Z.ones 3); rewrite Z.land_ones, Z.mod_small; lia).
  rewrite (Z.shiftl_mul_pow2 1 31), (Z.shiftl_mul_pow2 bus 16), (Z.shiftl_mul_pow2 device 11), (Z.shiftl_mul_pow2 function 8) by lia.
  rewrite (lor_add (1 * 2 ^ 31) _ 24), (lor_add (1 * 2 ^ 31 + bus * 2 ^ 16) _ 16),
    (lor_add (1 * 2 ^ 31 + bus * 2 ^ 16 + device * 2 ^ 11) _ 11),
    (lor_add (1 * 2 ^ 31 + bus * 2 ^ 16 + device * 2 ^ 11 + function * 2 ^ 8) _ 8), u32_small;
    Z.to_euclidean_division_equations; lia.
Qed.

(** The register a function's address names, without its low bits. *)
Lemma pci_id_inj b d f r b' d' f' r' :
  pci_function_ok b d f → pci_function_ok b' d' f' → 0 ≤ r < 256 → 0 ≤ r' < 256 →
  pci_id b d f r = pci_id b' d' f' r' → b = b' ∧ d = d' ∧ f = f' ∧ r / 4 = r' / 4.
Proof.
  intros H1 H2 Hr Hr'. rewrite !pci_id_sum by done. destruct H1 as (? & ? & ?), H2 as (? & ? & ?).
  intros E. Z.to_euclidean_division_equations. lia.
Qed.

Section laws.
Context {D : Type} `{PciLaws D}.
Implicit Types d : D.

(** The byte, word or double word of the configuration space at an offset. *)
Definition cfg (d : D) (bus device function off : Z) : Z :=
  Z.shiftr (pci_reg d (pci_id bus device function off)) (8 * (off mod 4)).

Lemma pci_read_run d bus device function off :
  ∃ d', pci_read bus device function off d = Ret (cfg d bus device function off) d' ∧ ∀ i, pci_reg d' i = pci_reg d i.
Proof.
  destruct (pci_select d (pci_id bus device function off)) as [Hs Hr]. unfold pci_read, koutl, kinl, kbind, kret.
  destruct (pci_in (outl d PCI_CONFIG_ADDRESS (pci_id bus device function off))) as (d' & -> & Hr'). exists d'.
  rewrite Hs, Hr, Z.shiftl_mul_pow2 by lia. change (2 ^ 3) with 8. unfold cfg. rewrite (Z.mul_comm (off mod 4)). split; [done|].
  intros i. by rewrite Hr', Hr.
Qed.

(** What the configuration space says of a function. *)
Definition pci_describe (d : D) (bus device function : Z) : pci_device :=
  PciDevice (cfg d bus device function 0x3c) bus device function
    (u16 (cfg d bus device function 0x00)) (u16 (cfg d bus device function 0x02))
    (u8 (cfg d bus device function 0x0b)) (u8 (cfg d bus device function 0x0a))
    (u8 (cfg d bus device function 0x09)) (u8 (cfg d bus device function 0x08)).

Lemma cfg_ext d d' b dv f off : (∀ i, pci_reg d' i = pci_reg d i) → cfg d' b dv f off = cfg d b dv f off.
Proof. intros Hr. unfold cfg. by rewrite Hr. Qed.

Lemma descriptor_run d bus device function :
  ∃ d', get_device_descriptor bus device function d = Ret (pci_describe d bus device function) d' ∧
    ∀ i, pci_reg d' i = pci_reg d i.
Proof.
  unfold get_device_descriptor.
  destruct (pci_read_run d bus device function 0x00) as (d1 & R1 & E1). rewrite (kbind_run _ _ _ _ _ R1).
  destruct (pci_read_run d1 bus device function 0x02) as (d2 & R2 & E2). rewrite (kbind_run _ _ _ _ _ R2).
  destruct (pci_read_run d2 bus device function 0x0b) as (d3 & R3 & E3). rewrite (kbind_run _ _ _ _ _ R3).
  destruct (pci_read_run d3 bus device function 0x0a) as (d4 & R4 & E4). rewrite (kbind_run _ _ _ _ _ R4).
  destruct (pci_read_run d4 bus device function 0x09) as (d5 & R5 & E5). rewrite (kbind_run _ _ _ _ _ R5).
  destruct (pci_read_run d5 bus device function 0x08) as (d6 & R6 & E6). rewrite (kbind_run _ _ _ _ _ R6).
  destruct (pci_read_run d6 bus device function 0x3c) as (d7 & R7 & E7). rewrite (kbind_run _ _ _ _ _ R7).
  exists d7. split; [|intros i; by rewrite E7, E6, E5, E4, E3, E2, E1]. unfold kret, pci_describe. f_equal.
  rewrite (cfg_ext d d1), (cfg_ext d d2), (cfg_ext d d3), (cfg_ext d d4), (cfg_ext d d5), (cfg_ext d d6);
    [done|intros i; by rewrite ?E6, ?E5, ?E4, ?E3, ?E2, ?E1..].
Qed.

(** The function answers. *)
Definition pci_present (d : D) (w : Z * Z * Z) : bool :=
  let '(bus, device, function) := w in
  let v := u16 (cfg d bus device function 0) in negb ((v =? 0x0000) || (v =? 0xFFFF)).
Definition describe (d : D) (w : Z * Z * Z) : pci_device := let '(bus, device, function) := w in pci_describe d bus device function.

Lemma scan_run l d : ∃ d', pci_scan l d = Ret (describe d <$> filter (λ w, pci_present d w = true) l) d' ∧
  ∀ i, pci_reg d' i = pci_reg d i.
Proof.
  revert d. induction l as [|[[b dv] f] l IH]; intros d; cbn [pci_scan]; [by exists d|].
  destruct (descriptor_run d b dv f) as (d1 & R1 & E1). rewrite (kbind_run _ _ _ _ _ R1).
  destruct (IH d1) as (d2 & R2 & E2). rewrite (kbind_run _ _ _ _ _ R2). exists d2. split; [|intros i; by rewrite E2].
  unfold kret. f_equal. rewrite filter_cons.
  assert (describe d1 <$> filter (λ w, pci_present d1 w = true) l = describe d <$> filter (λ w, pci_present d w = true) l) as ->.
  { assert (∀ w, pci_present d1 w = pci_present d w) as Hp by (intros [[? ?] ?]; unfold pci_present; by rewrite (cfg_ext d d1)).
    rewrite (list_filter_iff _ (λ w, pci_present d w = true)) by (intros w; by rewrite Hp).
    apply list_fmap_ext. intros i [[? ?] ?] _. simpl. unfold pci_describe. by rewrite !(cfg_ext d d1). }
  change (pci_present d (b, dv, f)) with (negb ((vendor_id (pci_describe d b dv f) =? 0) || (vendor_id (pci_describe d b dv f) =? 0xFFFF))).
  by destruct ((_ =? 0) || _).
Qed.

(** The fields of the functions that come out of the loops. *)
Ltac decompose_bind :=
  repeat match goal with
  | H : ∃ _, _ |- _ => destruct H as [? H]
  | H : _ ∧ _ |- _ => destruct H
  | H : _ ∈ _ ≫= _ |- _ => apply list_elem_of_bind in H
  | H : _ ∈ [_] |- _ => apply list_elem_of_singleton in H
  end; congruence.

(** [pci_debug_log] reports exactly the functions of the first eight buses that
    answer, in the order of their addresses, each with what its configuration
    space says, and changes no configuration register. *)
Theorem pci_debug_log_spec d :
  ∃ d', pci_debug_log d = Ret (describe d <$> filter (λ w, pci_present d w = true) pci_functions) d' ∧
    (∀ i, pci_reg d' i = pci_reg d i) ∧
    (∀ b dv f, 0 ≤ b < 8 → 0 ≤ dv < 32 → 0 ≤ f < 8 → (b, dv, f) ∈ pci_functions) ∧ NoDup pci_functions.
Proof.
  destruct (scan_run pci_functions d) as (d' & R & E). exists d'. split_and!; [done|done| |].
  - intros b dv f Hb Hd Hf. unfold pci_functions. apply list_elem_of_bind. exists b. rewrite elem_of_seqZ. split; [|lia].
    apply list_elem_of_bind. exists dv. rewrite elem_of_seqZ. split; [|lia].
    apply list_elem_of_bind. exists f. rewrite elem_of_seqZ. split; [|lia]. by apply list_elem_of_singleton.
  - apply NoDup_bind; [intros x y z _ _ H1 H2; decompose_bind|intros x _|apply NoDup_seqZ].
    apply NoDup_bind; [intros x' y z _ _ H1 H2; decompose_bind|intros x' _|apply NoDup_seqZ].
    apply NoDup_bind; [intros x'' y z _ _ H1 H2; decompose_bind|intros x'' _; apply NoDup_singleton|apply NoDup_seqZ].
Qed.

(** A write changes one register: after [pci_write] to one function, a read of
    another function, or of another register of the same one, returns what it
    would have returned. *)
Theorem pci_write_local d b dv f r b' dv' f' r' v
    (Hok : pci_function_ok b dv f ∧ pci_function_ok b' dv' f') (Hr : 0 ≤ r < 256 ∧ 0 ≤ r' < 256) (Hv : 0 ≤ v < 2 ^ 32)
    (Hne : (b, dv, f, r / 4) ≠ (b', dv', f', r' / 4)) :
  ∃ d1 d2, pci_write b dv f r v d = Ret tt d1 ∧ pci_read b' dv' f' r' d1 = Ret (cfg d b' dv' f' r') d2.
Proof.
  destruct Hok as [H1 H2], Hr as [Hr1 Hr2]. destruct (pci_select d (pci_id b dv f r)) as [Hs Hreg].
  eexists. set (d1 := outl (outl d PCI_CONFIG_ADDRESS (pci_id b dv f r)) PCI_CONFIG_DATA v).
  destruct (pci_read_run d1 b' dv' f' r') as (d2 & R & _). exists d2. split; [reflexivity|]. fold d1. rewrite R. f_equal.
  unfold cfg, d1. rewrite pci_out, Hreg; [done|done|]. rewrite Hs. intros E.
  destruct (pci_id_inj b' dv' f' r' b dv f r) as (-> & -> & -> & E4); try done. by apply Hne; rewrite E4.
Qed.
End laws.

(** *** Witness: a host bridge at the function 0 of the device 0 *)

Record pci_bus := PciBus { bus_selected : Z; bus_regs : Z → Z }.

#[export] Instance pci_bus_io : PortIO32 pci_bus := {
  inl d port := (u32 (bus_regs d (bus_selected d)), d);
  outl d port v :=
    if port =? PCI_CONFIG_ADDRESS then PciBus v (bus_regs d)
    else PciBus (bus_selected d) (λ i, if i =? bus_selected d then v else bus_regs d i);
}.

#[export, program] Instance pci_bus_laws : PciLaws pci_bus :=
  { pci_reg d i := u32 (bus_regs d i); pci_selected := bus_selected }.
Next Obligation. intros d i. apply u32_range. Qed.
Next Obligation. done. Qed.
Next Obligation. intros d. by exists d. Qed.
Next Obligation. intros d v _ i Hi. cbn. by rewrite (proj2 (Z.eqb_neq _ _) Hi). Qed.

Definition host_bridge : pci_bus :=
  PciBus 0 (λ i, if i =? 2 ^ 31 then 0x12378086 else if i =? 2 ^ 31 + 8 then 0x06000002 else 0xFFFFFFFF).

Lemma pci_write_local_witness : ∃ d1 d2, pci_write 0 1 0 0x3c 11 host_bridge = Ret tt d1 ∧ pci_read 0 0 0 0x02 d1 = Ret 0x1237 d2.
Proof.
  destruct (pci_write_local host_bridge 0 1 0 0x3c 0 0 0 0x02 11) as (d1 & d2 & H1 & H2).
  - unfold pci_function_ok. lia.
  - lia.
  - lia.
  - discriminate.
  - exists d1, d2. exact (conj H1 H2).
Defined.
