(* ===== verification/Vnode.v ===== *)
(** * The objects of the virtual file system

    [dev/vfs.h]: vnodes, mounts and the operations tables, and the kernel heap
    that holds them.  Objects are C structs reached through pointers, so the
    heap is one finite map from addresses to objects, shared by every list that
    links them: a freed object is gone from the map, and touching it is a
    [Fault].  The allocator and the clock are an interface, [KernelEnv]. *)

From stdpp Require Import base gmap list.
From Stdlib Require Import ZArith Lia.
From S2P Require Import Prelude.
#[local] Open Scope Z_scope.

Definition VNODE_DIR : Z := 0x0001.
Definition VNODE_FILE : Z := 0x0002.
Definition VNODE_DEV : Z := 0x0003.
Definition VNODE_FLAG_MOUNTPOINT : Z := 0x0001.

Definition VNODE_MODE_RUSR : Z := 0x0100.
Definition VNODE_MODE_WUSR : Z := 0x0080.
Definition VNODE_MODE_XUSR : Z := 0x0040.
Definition VNODE_MODE_RGRP : Z := 0x0020.
Definition VNODE_MODE_WGRP : Z := 0x0010.
Definition VNODE_MODE_XGRP : Z := 0x0008.
Definition VNODE_MODE_ROTH : Z := 0x0004.
Definition VNODE_MODE_WOTH : Z := 0x0002.
Definition VNODE_MODE_XOTH : Z := 0x0001.

(** A [char *] of these structs: NULL, a string in the heap, or a literal. *)
Inductive strptr := SNull | SHeap (p : Z) | SLit (l : list Z).

#[export] Instance strptr_eq_dec : EqDecision strptr.
Proof. solve_decision. Defined.

Record vnode := Vnode {
  parent : Z;
  next : Z;
  child : Z;
  v_mount : Z;
  vtype : Z;
  name : strptr;
  vsize : Z;
  data : Z;
  uid : Z;
  gid : Z;
  mode : Z;
  creation_time : Z;
  access_time : Z;
  modify_time : Z;
  ops : Z;
  flags : Z;
  locked : bool;
}.

Record mount := Mount {
  m_root : Z;
  m_next : Z;
  m_prev : Z;
  mountpoint : strptr;
  mtype : strptr;
  mdata : Z;
}.

(** [fs/ramfs.h] *)
Record ramfs_data := RamfsData { rdata : Z; rsize : Z }.

(** What an allocated block holds. A [dev] holds the numbers of its two
    functions. *)
Inductive obj :=
| OVnode (v : vnode)
| OMount (m : mount)
| OStr (l : list Z)
| OData (d : ramfs_data)
| OBuf (bytes : list Z)
| ODev (read write : Z).

(** [v->field = x] *)
Definition set_parent (x : Z) (r : vnode) : vnode :=
  Vnode x (next r) (child r) (v_mount r) (vtype r) (name r) (vsize r) (data r) (uid r) (gid r) (mode r) (creation_time r) (access_time r) (modify_time r) (ops r) (flags r) (locked r).
Definition set_next (x : Z) (r : vnode) : vnode :=
  Vnode (parent r) x (child r) (v_mount r) (vtype r) (name r) (vsize r) (data r) (uid r) (gid r) (mode r) (creation_time r) (access_time r) (modify_time r) (ops r) (flags r) (locked r).
Definition set_child (x : Z) (r : vnode) : vnode :=
  Vnode (parent r) (next r) x (v_mount r) (vtype r) (name r) (vsize r) (data r) (uid r) (gid r) (mode r) (creation_time r) (access_time r) (modify_time r) (ops r) (flags r) (locked r).
Definition set_v_mount (x : Z) (r : vnode) : vnode :=
  Vnode (parent r) (next r) (child r) x (vtype r) (name r) (vsize r) (data r) (uid r) (gid r) (mode r) (creation_time r) (access_time r) (modify_time r) (ops r) (flags r) (locked r).
Definition set_vtype (x : Z) (r : vnode) : vnode :=
  Vnode (parent r) (next r) (child r) (v_mount r) x (name r) (vsize r) (data r) (uid r) (gid r) (mode r) (creation_time r) (access_time r) (modify_time r) (ops r) (flags r) (locked r).
Definition set_name (x : strptr) (r : vnode) : vnode :=
  Vnode (parent r) (next r) (child r) (v_mount r) (vtype r) x (vsize r) (data r) (uid r) (gid r) (mode r) (creation_time r) (access_time r) (modify_time r) (ops r) (flags r) (locked r).
Definition set_vsize (x : Z) (r : vnode) : vnode :=
  Vnode (parent r) (next r) (child r) (v_mount r) (vtype r) (name r) x (data r) (uid r) (gid r) (mode r) (creation_time r) (access_time r) (modify_time r) (ops r) (flags r) (locked r).
Definition set_data (x : Z) (r : vnode) : vnode :=
  Vnode (parent r) (next r) (child r) (v_mount r) (vtype r) (name r) (vsize r) x (uid r) (gid r) (mode r) (creation_time r) (access_time r) (modify_time r) (ops r) (flags r) (locked r).
Definition set_uid (x : Z) (r : vnode) : vnode :=
  Vnode (parent r) (next r) (child r) (v_mount r) (vtype r) (name r) (vsize r) (data r) x (gid r) (mode r) (creation_time r) (access_time r) (modify_time r) (ops r) (flags r) (locked r).
Definition set_gid (x : Z) (r : vnode) : vnode :=
  Vnode (parent r) (next r) (child r) (v_mount r) (vtype r) (name r) (vsize r) (data r) (uid r) x (mode r) (creation_time r) (access_time r) (modify_time r) (ops r) (flags r) (locked r).
Definition set_mode (x : Z) (r : vnode) : vnode :=
  Vnode (parent r) (next r) (child r) (v_mount r) (vtype r) (name r) (vsize r) (data r) (uid r) (gid r) x (creation_time r) (access_time r) (modify_time r) (ops r) (flags r) (locked r).
Definition set_creation_time (x : Z) (r : vnode) : vnode :=
  Vnode (parent r) (next r) (child r) (v_mount r) (vtype r) (name r) (vsize r) (data r) (uid r) (gid r) (mode r) x (access_time r) (modify_time r) (ops r) (flags r) (locked r).
Definition set_access_time (x : Z) (r : vnode) : vnode :=
  Vnode (parent r) (next r) (child r) (v_mount r) (vtype r) (name r) (vsize r) (data r) (uid r) (gid r) (mode r) (creation_time r) x (modify_time r) (ops r) (flags r) (locked r).
Definition set_modify_time (x : Z) (r : vnode) : vnode :=
  Vnode (parent r) (next r) (child r) (v_mount r) (vtype r) (name r) (vsize r) (data r) (uid r) (gid r) (mode r) (creation_time r) (access_time r) x (ops r) (flags r) (locked r).
Definition set_ops (x : Z) (r : vnode) : vnode :=
  Vnode (parent r) (next r) (child r) (v_mount r) (vtype r) (name r) (vsize r) (data r) (uid r) (gid r) (mode r) (creation_time r) (access_time r) (modify_time r) x (flags r) (locked r).
Definition set_flags (x : Z) (r : vnode) : vnode :=
  Vnode (parent r) (next r) (child r) (v_mount r) (vtype r) (name r) (vsize r) (data r) (uid r) (gid r) (mode r) (creation_time r) (access_time r) (modify_time r) (ops r) x (locked r).
Definition set_locked (x : bool) (r : vnode) : vnode :=
  Vnode (parent r) (next r) (child r) (v_mount r) (vtype r) (name r) (vsize r) (data r) (uid r) (gid r) (mode r) (creation_time r) (access_time r) (modify_time r) (ops r) (flags r) x.
Definition set_m_root (x : Z) (r : mount) : mount :=
  Mount x (m_next r) (m_prev r) (mountpoint r) (mtype r) (mdata r).
Definition set_m_next (x : Z) (r : mount) : mount :=
  Mount (m_root r) x (m_prev r) (mountpoint r) (mtype r) (mdata r).
Definition set_m_prev (x : Z) (r : mount) : mount :=
  Mount (m_root r) (m_next r) x (mountpoint r) (mtype r) (mdata r).
Definition set_mountpoint (x : strptr) (r : mount) : mount :=
  Mount (m_root r) (m_next r) (m_prev r) x (mtype r) (mdata r).
Definition set_mtype (x : strptr) (r : mount) : mount :=
  Mount (m_root r) (m_next r) (m_prev r) (mountpoint r) x (mdata r).
Definition set_mdata (x : Z) (r : mount) : mount :=
  Mount (m_root r) (m_next r) (m_prev r) (mountpoint r) (mtype r) x.

Definition VNODE_SIZEOF : Z := 104.
Definition MOUNT_SIZEOF : Z := 48.
Definition RAMFS_DATA_SIZEOF : Z := 16.
Definition DEV_SIZEOF : Z := 16.

(** What the file systems use of the rest of the kernel: [kmalloc] and [kfree]
    of [mm/kmalloc.h], and [GET_CURRENT_UNIX_TIME]. *)
Class KernelEnv (E : Type) := {
  env_malloc : E → Z → Z * E;
  env_free : E → Z → E;
  env_time : E → Z * E;
}.

(** The allocator's promise, while its invariant holds: for a request of up to
    2 GiB it returns NULL or a block that is not in use, and a block in use can
    be given back. *)
Class KernelEnvLaws (E : Type) `{KernelEnv E} := {
  env_inv : E → Prop;
  env_live : E → gset Z;
  env_malloc_fresh e n p e' : env_inv e → 0 < n ≤ 2 ^ 31 → env_malloc e n = (p, e') →
    env_inv e' ∧
    ((p = 0 ∧ env_live e' = env_live e) ∨
     (p ≠ 0 ∧ (p ∉ env_live e) ∧ env_live e' = {[p]} ∪ env_live e));
  env_free_live e p : env_inv e → p ∈ env_live e →
    env_inv (env_free e p) ∧ env_live (env_free e p) = env_live e ∖ {[p]};
  env_time_live e : env_inv e → env_inv (snd (env_time e)) ∧ env_live (snd (env_time e)) = env_live e;
}.

(** The file systems' globals, and the bytes written to the serial port. *)
Record fs (E : Type) := Fs {
  heap : gmap Z obj;
  env : E;
  root_mount : Z;
  devfs_root : Z;
  stdout : Z;
  console : list Z;
}.
Arguments Fs {E} _ _ _ _ _ _.
Arguments heap {E} _.
Arguments env {E} _.
Arguments root_mount {E} _.
Arguments devfs_root {E} _.
Arguments stdout {E} _.
Arguments console {E} _.

Section memory.
Context {E : Type} `{KernelEnv E}.

Definition set_heap (h : gmap Z obj) (s : fs E) : fs E :=
  Fs h (env s) (root_mount s) (devfs_root s) (stdout s) (console s).
Definition set_env (e : E) (s : fs E) : fs E :=
  Fs (heap s) e (root_mount s) (devfs_root s) (stdout s) (console s).
Definition set_root_mount (p : Z) (s : fs E) : fs E :=
  Fs (heap s) (env s) p (devfs_root s) (stdout s) (console s).
Definition set_devfs_root (p : Z) (s : fs E) : fs E :=
  Fs (heap s) (env s) (root_mount s) p (stdout s) (console s).
Definition set_stdout (p : Z) (s : fs E) : fs E :=
  Fs (heap s) (env s) (root_mount s) (devfs_root s) p (console s).
Definition set_console (l : list Z) (s : fs E) : fs E :=
  Fs (heap s) (env s) (root_mount s) (devfs_root s) (stdout s) l.

(** Reading and writing through a pointer. *)
Definition get_vnode (p : Z) : kernel (fs E) vnode :=
  λ s, match heap s !! p with Some (OVnode v) => Ret v s | _ => Fault end.
Definition get_mount (p : Z) : kernel (fs E) mount :=
  λ s, match heap s !! p with Some (OMount m) => Ret m s | _ => Fault end.
Definition get_str (p : strptr) : kernel (fs E) (list Z) :=
  λ s, match p with
       | SLit l => Ret l s
       | SHeap a => match heap s !! a with Some (OStr l) => Ret l s | _ => Fault end
       | SNull => Fault
       end.
Definition get_data (p : Z) : kernel (fs E) ramfs_data :=
  λ s, match heap s !! p with Some (OData d) => Ret d s | _ => Fault end.
Definition get_buf (p : Z) : kernel (fs E) (list Z) :=
  λ s, match heap s !! p with Some (OBuf l) => Ret l s | _ => Fault end.
Definition get_dev (p : Z) : kernel (fs E) (Z * Z) :=
  λ s, match heap s !! p with Some (ODev r w) => Ret (r, w) s | _ => Fault end.

Definition put (p : Z) (o : obj) : kernel (fs E) unit := kmod (λ s, set_heap (<[p := o]> (heap s)) s).

Definition upd_vnode (p : Z) (f : vnode → vnode) : kernel (fs E) unit :=
  let* v := get_vnode p in put p (OVnode (f v)).
Definition upd_mount (p : Z) (f : mount → mount) : kernel (fs E) unit :=
  let* m := get_mount p in put p (OMount (f m)).

Definition kmalloc (n : Z) : kernel (fs E) Z :=
  λ s, let '(p, e) := env_malloc (env s) n in Ret p (set_env e s).

(** [kfree(NULL)] does nothing; any other block must be allocated. *)
Definition kfree (p : Z) : kernel (fs E) unit :=
  λ s, if p =? 0 then Ret tt s else
       match heap s !! p with
       | Some _ => Ret tt (set_heap (delete p (heap s)) (set_env (env_free (env s) p) s))
       | None => Fault
       end.

(** [kfree] of a string, which must not be a literal. *)
Definition kfree_str (p : strptr) : kernel (fs E) unit :=
  match p with SHeap a => kfree a | _ => kfault end.

(** [strdup(s)] *)
Definition kstrdup (l : list Z) : kernel (fs E) strptr :=
  let* p := kmalloc (Z.of_nat (length l) + 1) in
  if p =? 0 then kret SNull else
  put p (OStr l) ;;; kret (SHeap p).

Definition now : kernel (fs E) Z :=
  λ s, let '(t, e) := env_time (env s) in Ret t (set_env e s).

(** [lib/spinlock.h] on the lock of a vnode. *)
Definition spinlock_acquire (p : Z) : kernel (fs E) unit :=
  let* v := get_vnode p in
  if locked v then kspin else upd_vnode p (set_locked true).
Definition spinlock_release (p : Z) : kernel (fs E) unit :=
  upd_vnode p (set_locked false).

(** The operations table of a file system: [None] is a NULL function pointer.
    The arguments are those of the C types.  A read is given the pointer [buf]
    and returns, beside its result, the bytes it stores there; a write is given
    the [size] bytes at [buf], [None] for a NULL [buf]; a name is [None] for NULL. *)
Record vnode_ops := VnodeOps {
  op_read : option (Z → Z → Z → Z → kernel (fs E) (Z * list Z));
  op_write : option (Z → option (list Z) → Z → Z → kernel (fs E) Z);
  op_create : option (Z → option (list Z) → Z → kernel (fs E) Z);
  op_ioctl : option (Z → Z → Z → kernel (fs E) Z);
}.
End memory.
Arguments vnode_ops E : clear implicits.

(** The next [k] allocations of up to [max] bytes succeed. *)
Fixpoint room {E} `{KernelEnv E} (max : Z) (k : nat) (e : E) : Prop :=
  match k with
  | O => True
  | S k => ∀ n p e', 0 < n ≤ max → env_malloc e n = (p, e') → p ≠ 0 ∧ room max k e'
  end.

(** Every object of the heap is an allocated block. *)
Definition heap_ok {E} `{KernelEnvLaws E} (s : fs E) : Prop :=
  env_inv (env s) ∧ dom (heap s) ⊆ env_live (env s).

(** ** Running the primitives *)

Section run.
Context {E : Type} `{KernelEnvLaws E}.
Implicit Types s : fs E.

Lemma get_vnode_run s p v : heap s !! p = Some (OVnode v) → get_vnode p s = Ret v s.
Proof. intros Hp. unfold get_vnode. by rewrite Hp. Qed.

Lemma get_mount_run s p m : heap s !! p = Some (OMount m) → get_mount p s = Ret m s.
Proof. intros Hp. unfold get_mount. by rewrite Hp. Qed.

Lemma get_data_run s p d : heap s !! p = Some (OData d) → get_data p s = Ret d s.
Proof. intros Hp. unfold get_data. by rewrite Hp. Qed.

Lemma get_buf_run s p l : heap s !! p = Some (OBuf l) → get_buf p s = Ret l s.
Proof. intros Hp. unfold get_buf. by rewrite Hp. Qed.

Lemma get_dev_run s p r w : heap s !! p = Some (ODev r w) → get_dev p s = Ret (r, w) s.
Proof. intros Hp. unfold get_dev. by rewrite Hp. Qed.

Lemma upd_vnode_run s p v f :
  heap s !! p = Some (OVnode v) →
  upd_vnode p f s = Ret tt (set_heap (<[p := OVnode (f v)]> (heap s)) s).
Proof. intros Hp. unfold upd_vnode, kbind. by rewrite (get_vnode_run s p v Hp). Qed.

Lemma acquire_run s p v :
  heap s !! p = Some (OVnode v) → locked v = false →
  spinlock_acquire p s = Ret tt (set_heap (<[p := OVnode (set_locked true v)]> (heap s)) s).
Proof.
  intros Hp Hl. unfold spinlock_acquire, kbind. rewrite (get_vnode_run s p v Hp), Hl.
  by apply upd_vnode_run.
Qed.

Lemma release_run s p v :
  heap s !! p = Some (OVnode v) →
  spinlock_release p s = Ret tt (set_heap (<[p := OVnode (set_locked false v)]> (heap s)) s).
Proof. apply upd_vnode_run. Qed.

Lemma kfree_run s p o :
  p ≠ 0 → heap s !! p = Some o →
  kfree p s = Ret tt (set_heap (delete p (heap s)) (set_env (env_free (env s) p) s)).
Proof. intros Hp Ho. unfold kfree. by rewrite (proj2 (Z.eqb_neq p 0)), Ho. Qed.

(** A successful allocation: a new block, nothing else changed. *)
Lemma kmalloc_run s n max k :
  heap_ok s → room max (S k) (env s) → 0 < n ≤ max → n ≤ 2 ^ 31 →
  ∃ p e', kmalloc n s = Ret p (set_env e' s) ∧ p ≠ 0 ∧ heap s !! p = None ∧
    room max k e' ∧ env_inv e' ∧ env_live e' = {[p]} ∪ env_live (env s) ∧ (p ∉ env_live (env s)).
Proof.
  intros [Hinv Hok] Hroom Hn Hmax. unfold kmalloc. destruct (env_malloc (env s) n) as [p e'] eqn:Em.
  destruct (Hroom n p e' Hn Em) as [Hp Hk].
  destruct (env_malloc_fresh _ n _ _ Hinv ltac:(lia) Em) as [Hi [[? _]|(_ & Hf & Hl)]]; [done|].
  exists p, e'. split_and!; try done. apply not_elem_of_dom. intros Hd. by apply Hf, Hok.
Qed.
End run.

(** Symbolic execution: [hlook] finds an object in an updated heap; [kstep]
    runs the next primitive of a program in the goal. *)
Ltac hlook :=
  cbn [heap set_heap set_env env];
  repeat first
    [ rewrite lookup_insert_eq
    | rewrite lookup_insert_ne by congruence
    | rewrite lookup_delete_ne by congruence ];
  first [reflexivity | eassumption].

Ltac kstep :=
  match goal with
  | |- context [kbind (kbind ?c ?k) ?k' ?s] => rewrite (kbind_assoc c k k' s)
  | |- context [kbind (kret ?a) ?k ?s] => rewrite (kbind_ret a k s)
  | |- context [kbind (get_vnode ?p) ?k ?s] =>
      erewrite (kbind_run (get_vnode p) k s) by (eapply get_vnode_run; hlook)
  | |- context [kbind (get_mount ?p) ?k ?s] =>
      erewrite (kbind_run (get_mount p) k s) by (eapply get_mount_run; hlook)
  | |- context [kbind (get_data ?p) ?k ?s] =>
      erewrite (kbind_run (get_data p) k s) by (eapply get_data_run; hlook)
  | |- context [kbind (get_buf ?p) ?k ?s] =>
      erewrite (kbind_run (get_buf p) k s) by (eapply get_buf_run; hlook)
  | |- context [kbind (get_dev ?p) ?k ?s] =>
      erewrite (kbind_run (get_dev p) k s) by (eapply get_dev_run; hlook)
  | |- context [kbind (upd_vnode ?p ?f) ?k ?s] =>
      erewrite (kbind_run (upd_vnode p f) k s) by (eapply upd_vnode_run; hlook)
  | |- context [kbind (spinlock_acquire ?p) ?k ?s] =>
      erewrite (kbind_run (spinlock_acquire p) k s) by (eapply acquire_run; [hlook|done])
  | |- context [kbind (spinlock_release ?p) ?k ?s] =>
      erewrite (kbind_run (spinlock_release p) k s) by (eapply release_run; hlook)
  | |- context [kbind (kfree ?p) ?k ?s] =>
      erewrite (kbind_run (kfree p) k s) by (eapply kfree_run; [done|hlook])
  | |- context [kbind (put ?p ?o) ?k ?s] =>
      rewrite (kbind_run (put p o) k s tt (set_heap (<[p := o]> (heap s)) s)) by reflexivity
  | |- context [kbind (kget ?f) ?k ?s] =>
      rewrite (kbind_run (kget f) k s (f s) s) by reflexivity
  end.

(** *** An environment for the witnesses: blocks at fresh addresses, at most
    [de_left] of them, and a clock that ticks at each reading. *)

Record demo_env := DemoEnv { de_left : nat; de_live : gset Z; de_clock : Z }.

#[export] Instance demo_kernel_env : KernelEnv demo_env := {
  env_malloc e n :=
    match de_left e with
    | O => (0, e)
    | S k => let p := fresh ({[0]} ∪ de_live e) in
             (p, DemoEnv k ({[p]} ∪ de_live e) (de_clock e))
    end;
  env_free e p := DemoEnv (de_left e) (de_live e ∖ {[p]}) (de_clock e);
  env_time e := (de_clock e, DemoEnv (de_left e) (de_live e) (de_clock e + 1));
}.

#[export, program] Instance demo_kernel_env_laws : KernelEnvLaws demo_env :=
  { env_inv _ := True; env_live := de_live }.
Next Obligation.
  intros [[|k] live c] n p e' _ _; simpl; intros [= <- <-]; (split; [done|]); [by left|right].
  pose proof (is_fresh ({[0]} ∪ live : gset Z)) as Hf. simpl. set_solver.
Qed.
Next Obligation. done. Qed.
Next Obligation. done. Qed.

Lemma demo_room max k e : (k ≤ de_left e)%nat → room max k e.
Proof.
  revert e. induction k as [|k IH]; intros [left live c] Hk; [done|]. simpl in Hk.
  destruct left as [|left]; [lia|]. intros n p e' _ [= <- <-]. split; [|apply IH; simpl; lia].
  pose proof (is_fresh ({[0]} ∪ live : gset Z)). set_solver.
Qed.
