(* ===== verification/HeapEnv.v ===== *)
(** * The file systems on the kernel heap

    The interface [KernelEnv] of the file systems, implemented by [kmalloc] and
    [kfree] of the kernel heap and by the real-time clock, and its laws, from the
    contract of the heap.  The environment keeps, beside the heap and the clock,
    the map of the allocations in use, which no code has: it bounds the steps
    of [kmalloc]. *)

From stdpp Require Import base gmap list.
From Stdlib Require Import ZArith Lia.
From S2P Require Import Prelude Ram Heap HeapSpec KernelHeap PortIO Rtc Vnode.
#[local] Open Scope Z_scope.

Record heap_env (S D : Type) := HeapEnv { he_heap : Heap.heap S; he_allocs : gmap Z Z; he_clock : D }.
Arguments HeapEnv {S D} _ _ _.
Arguments he_heap {S D} _.
Arguments he_allocs {S D} _.
Arguments he_clock {S D} _.

Section instance.
Context {S D : Type} `{BlockSourceLaws S} `{PortIO D}.
Abbreviation E := (heap_env S D).

(** [kmalloc(n)]: where the heap is not in order the result is unspecified, and
    [he_malloc_run] shows that under the invariant this case does not arise. *)
Definition he_malloc (e : E) (n : Z) : Z * E :=
  match Heap.kmalloc (3 * size (he_allocs e) + 2) n (he_heap e) with
  | Ret p h => (p, HeapEnv h (if p =? 0 then he_allocs e else <[p := n]> (he_allocs e)) (he_clock e))
  | _ => (0, e)
  end.

Definition he_free (e : E) (p : Z) : E :=
  match Heap.kfree p (he_heap e) with
  | Ret _ h => HeapEnv h (delete p (he_allocs e)) (he_clock e)
  | _ => e
  end.

(** A clock whose update takes more than 2^20 readings is not read. *)
Definition he_time (e : E) : Z * E :=
  match GET_CURRENT_UNIX_TIME (Z.to_nat (2 ^ 20)) (he_clock e) with
  | Ret t d => (t, HeapEnv (he_heap e) (he_allocs e) d)
  | _ => (0, e)
  end.

#[export] Instance heap_kernel_env : KernelEnv E :=
  {| env_malloc := he_malloc; env_free := he_free; env_time := he_time |}.

Definition he_ok (e : E) : Prop := kheap_ok (he_heap e) (he_allocs e).

Lemma he_malloc_run e n p e' :
  he_ok e → 0 < n ≤ 2 ^ 31 → he_malloc e n = (p, e') →
  he_ok e' ∧ (p = 0 ∧ he_allocs e' = he_allocs e ∨
              p ≠ 0 ∧ he_allocs e !! p = None ∧ he_allocs e' = <[p := n]> (he_allocs e)).
Proof.
  intros Hok Hn. unfold he_malloc.
  destruct (kmalloc_refines (3 * size (he_allocs e) + 2) n (he_heap e) (he_allocs e) Hok ltac:(lia) ltac:(lia))
    as (q & h' & -> & [(-> & Hok' & _)|(Hq & Hok' & _)]).
  - intros [= <- <-]. split; [done|by left].
  - destruct (kheap_ok_alloc _ _ q n Hok') as (Hq0 & _); [apply lookup_insert_eq|].
    rewrite (proj2 (Z.eqb_neq q 0)) by lia. intros [= <- <-]. split; [done|right]. split_and!; [lia|done|done].
Qed.

#[export] Instance heap_kernel_env_laws : KernelEnvLaws E.
Proof.
  refine {| env_inv := he_ok; env_live e := dom (he_allocs e) |}.
  - intros e n p e' Hok Hn Hrun. destruct (he_malloc_run e n p e' Hok Hn Hrun) as [Hok' [[-> Ha]|(Hp & Hf & Ha)]].
    + split; [done|left]. by rewrite Ha.
    + split; [done|right]. rewrite Ha, dom_insert_L, not_elem_of_dom. done.
  - intros e p Hok [n Hp]%elem_of_dom. unfold env_free, heap_kernel_env, he_free.
    destruct (kfree_refines _ _ p n Hok Hp) as (h' & -> & Hok' & _). split; [done|]. simpl. by rewrite dom_delete_L.
  - intros e Hok. unfold env_time, heap_kernel_env, he_time. by destruct (GET_CURRENT_UNIX_TIME _ _).
Defined.

(** The file systems and the kernel heap together: while the objects of the
    file systems are allocated blocks, each starts at a multiple of 16 inside a
    block of pages the heap holds, and the bytes of two objects never overlap. *)
Theorem objects_disjoint (s : fs E) p o
    (Hok : heap_ok s) (Hp : Vnode.heap s !! p = Some o) :
  ∃ n, he_allocs (env s) !! p = Some n ∧ p mod 16 = 0 ∧
    (∃ b k, src_live (src (he_heap (env s))) !! b = Some k ∧ b ≤ p ∧ p + n ≤ b + k * 4096) ∧
    ∀ q o', Vnode.heap s !! q = Some o' → q ≠ p →
      ∃ k, he_allocs (env s) !! q = Some k ∧ (p + n ≤ q ∨ q + k ≤ p).
Proof.
  destruct Hok as [Hinv Hsub].
  assert (∀ q o', Vnode.heap s !! q = Some o' → ∃ k, he_allocs (env s) !! q = Some k) as Hin.
  { intros q o' Hq. apply elem_of_dom, Hsub, elem_of_dom. by exists o'. }
  destruct (Hin p o Hp) as [n Hn]. destruct (kheap_ok_alloc _ _ p n Hinv Hn) as (_ & _ & Hal & Hb).
  exists n. split_and!; try done. intros q o' Hq Hne. destruct (Hin q o' Hq) as [k Hk]. exists k. split; [done|].
  eapply (kheap_ok_disjoint _ _ p n q k Hinv); [done|done|congruence].
Qed.
End instance.

(** The first allocation of [KernelHeap], holding a string. *)
Definition demo_fs : fs (heap_env bump demo_chip) :=
  Fs {[bump_p := OStr [65; 66]]} (HeapEnv bump_first {[bump_p := 100]} (DemoChip 0 demo_regs 3)) 0 0 0 [].

Lemma objects_disjoint_witness : ∃ n, he_allocs (env demo_fs) !! bump_p = Some n ∧ bump_p mod 16 = 0.
Proof.
  destruct (objects_disjoint demo_fs bump_p (OStr [65; 66])) as (n & Hn & Hal & _).
  - split; [exact bump_first_ok|]. intros p Hp. apply elem_of_dom in Hp as [o Ho].
    apply (lookup_singleton_Some bump_p p (OStr [65; 66]) o) in Ho as [<- _]. apply elem_of_dom. exists 100. exact bump_lookup.
  - apply lookup_insert_eq.
  - exists n. exact (conj Hn Hal).
Defined.
