(* ===== verification/Vfs.v ===== *)
(** * The virtual file system

    [dev/vfs.c]: the mount list, the vnode tree, path resolution, the locked
    calls into a file system's operations table, creation, deletion and
    permission checks.  Loops over linked objects carry a step budget; names
    and paths are the byte strings before their NUL. *)

From stdpp Require Import base gmap list.
From Stdlib Require Import ZArith Lia.
From S2P Require Import Prelude Vnode.
#[local] Open Scope Z_scope.

Definition SLASH : Z := 47.
Definition ROOT_NAME : list Z := [47].
Definition ROOTFS : list Z := [114; 111; 111; 116; 102; 115].
Definition FULL_PATH_UNSUPPORTED : list Z :=
  [123; 118; 102; 115; 95; 103; 101; 116; 95; 102; 117; 108; 108; 95; 112; 97; 116; 104; 32; 105; 115;
   32; 110; 111; 116; 32; 115; 117; 112; 112; 111; 114; 116; 101; 100; 125].

Section vfs.
Context {E : Type} `{KernelEnv E}.
(** The operations tables by address, and the word found in fresh memory. *)
Context (ops_table : Z → option (vnode_ops E)) (junk : Z).

Definition vfs_init : kernel (fs E) unit :=
  let* mount := kmalloc MOUNT_SIZEOF in
  if mount =? 0 then kret tt else
  put mount (OMount (Mount junk junk junk (SHeap junk) (SHeap junk) junk)) ;;;
  let* root := kmalloc VNODE_SIZEOF in
  upd_mount mount (set_m_root root) ;;;
  if root =? 0 then kfree mount else
  put root (OVnode (Vnode junk junk junk junk junk (SHeap junk) junk junk junk junk junk junk junk junk
                          junk junk true)) ;;;
  let* name := kmalloc 2 in
  if name =? 0 then kfree root ;;; kfree mount else
  put name (OStr ROOT_NAME) ;;;
  upd_vnode root (λ v,
    Vnode root (next v) 0 mount VNODE_DIR (SHeap name) 0 0 0 0
      (Z.lor (Z.lor (Z.lor VNODE_MODE_RUSR VNODE_MODE_WUSR) (Z.lor VNODE_MODE_XUSR VNODE_MODE_RGRP))
             (Z.lor (Z.lor VNODE_MODE_XGRP VNODE_MODE_ROTH) VNODE_MODE_XOTH))
      0 0 0 0 0 false) ;;;
  upd_mount mount (λ m, set_m_next 0 (set_m_prev 0 m)) ;;;
  let* mp := kmalloc 1 in
  if mp =? 0 then kfree name ;;; kfree root ;;; kfree mount else
  put mp (OStr []) ;;;
  upd_mount mount (set_mountpoint (SHeap mp)) ;;;
  let* ty := kmalloc 7 in
  if ty =? 0 then kfree mp ;;; kfree name ;;; kfree root ;;; kfree mount else
  put ty (OStr ROOTFS) ;;;
  upd_mount mount (λ m, set_mdata 0 (set_mtype (SHeap ty) m)) ;;;
  kmod (set_root_mount mount).

(** [strcmp(current->name, name) == 0] holds when the strings are equal
    (see [CString.strcmp]). *)
Fixpoint lookup_loop (fuel : nat) (current : Z) (nm : list Z) : kernel (fs E) Z :=
  if current =? 0 then kret 0 else
  match fuel with
  | O => knofuel
  | S f =>
      let* v := get_vnode current in
      let* l := get_str (name v) in
      if bool_decide (l = nm) then kret current else lookup_loop f (next v) nm
  end.

Definition vfs_lookup (fuel : nat) (par : Z) (nm : list Z) : kernel (fs E) Z :=
  let* v := get_vnode par in
  lookup_loop fuel (child v) nm.

(** The inner loop of path resolution: at most 255 bytes up to a slash. *)
Fixpoint take_name (k : nat) (path : list Z) : list Z * list Z :=
  match k, path with
  | S k, c :: rest =>
      if c =? SLASH then ([], path)
      else let '(nm, rest') := take_name k rest in (c :: nm, rest')
  | _, _ => ([], path)
  end.

(** [if ( *current_path == '/') current_path++;] *)
Definition skip_slash (path : list Z) : list Z :=
  match path with c :: rest => if c =? SLASH then rest else path | [] => [] end.

(** The loop of [vfs_lazy_lookup]: 0 when a component is missing; it stops at
    the first component that is not a directory. *)
Fixpoint lookup_components (fuel inner : nat) (current : Z) (path : list Z) : kernel (fs E) Z :=
  match path with
  | [] => kret current
  | _ =>
      let '(nm, rest) := take_name 255 path in
      let* found := vfs_lookup inner current nm in
      if found =? 0 then kret 0 else
      let* v := get_vnode found in
      if negb (vtype v =? VNODE_DIR) then kret found else
      match fuel with
      | O => knofuel
      | S f => lookup_components f inner found (skip_slash rest)
      end
  end.

Fixpoint vfs_lazy_lookup (fuel inner : nat) (mount : Z) (path : option (list Z)) : kernel (fs E) Z :=
  match path with
  | Some (c :: rest) =>
      if (mount =? 0) || negb (c =? SLASH) then kret 0 else
      let* m := get_mount mount in
      if m_root m =? 0 then kret 0 else
      let* found := lookup_components inner inner (m_root m) rest in
      if found =? 0 then
        if m_next m =? 0 then kret 0 else
        match fuel with
        | O => knofuel
        | S f => vfs_lazy_lookup f inner (m_next m) path
        end
      else kret found
  | _ => kret 0
  end.

(** The loop of [vfs_lazy_lookup_last]: the last component that exists. *)
Fixpoint last_component (fuel inner : nat) (current : Z) (path : list Z) : kernel (fs E) Z :=
  match path with
  | [] => kret current
  | _ =>
      let '(nm, rest) := take_name 255 path in
      let* found := vfs_lookup inner current nm in
      if found =? 0 then kret current else
      match fuel with
      | O => knofuel
      | S f => last_component f inner found (skip_slash rest)
      end
  end.

Definition vfs_lazy_lookup_last (inner : nat) (mount : Z) (path : option (list Z)) : kernel (fs E) Z :=
  match path with
  | Some (c :: rest) =>
      if (mount =? 0) || negb (c =? SLASH) then kret 0 else
      let* m := get_mount mount in
      if m_root m =? 0 then kret 0 else
      last_component inner inner (m_root m) rest
  | _ => kret 0
  end.

Fixpoint mountpoint_used (fuel : nat) (current : Z) (path : list Z) : kernel (fs E) bool :=
  if current =? 0 then kret false else
  match fuel with
  | O => knofuel
  | S f =>
      let* m := get_mount current in
      let* l := get_str (mountpoint m) in
      if bool_decide (l = path) then kret true else mountpoint_used f (m_next m) path
  end.

(** [while (current->next != NULL) current = current->next;] *)
Fixpoint last_mount (fuel : nat) (current : Z) : kernel (fs E) Z :=
  let* m := get_mount current in
  if m_next m =? 0 then kret current else
  match fuel with O => knofuel | S f => last_mount f (m_next m) end.

Definition vfs_mount (fuel : nat) (path type : list Z) : kernel (fs E) Z :=
  let* root := kget root_mount in
  let* used := mountpoint_used fuel root path in
  if used : bool then kret 0 else
  let* parent_vnode := vfs_lazy_lookup fuel fuel root (Some path) in
  if parent_vnode =? 0 then kret 0 else
  let* v := get_vnode parent_vnode in
  if negb (vtype v =? VNODE_DIR) then kret 0 else
  let* new_mount := kmalloc MOUNT_SIZEOF in
  if new_mount =? 0 then kret 0 else
  put new_mount (OMount (Mount 0 0 0 (SHeap junk) (SHeap junk) junk)) ;;;
  let* mp := kstrdup path in
  upd_mount new_mount (set_mountpoint mp) ;;;
  if bool_decide (mp = SNull) then kfree new_mount ;;; kret 0 else
  let* ty := kstrdup type in
  upd_mount new_mount (set_mtype ty) ;;;
  if bool_decide (ty = SNull) then kfree_str mp ;;; kfree new_mount ;;; kret 0 else
  upd_mount new_mount (set_mdata 0) ;;;
  let* current := last_mount fuel root in
  upd_mount current (set_m_next new_mount) ;;;
  upd_mount new_mount (set_m_prev current) ;;;
  kret new_mount.

(** [mp_copy] is allocated, filled, logged and freed again. *)
Definition vfs_umount (mount : Z) : kernel (fs E) unit :=
  if mount =? 0 then kret tt else
  let* m := get_mount mount in
  let* l := get_str (mountpoint m) in
  let* mp_copy := kstrdup l in
  (if bool_decide (mp_copy = SNull) then kret tt else kfree_str mp_copy) ;;;
  (if m_prev m =? 0 then kret tt else upd_mount (m_prev m) (set_m_next (m_next m))) ;;;
  (if m_next m =? 0 then kret tt else upd_mount (m_next m) (set_m_prev (m_prev m))) ;;;
  kfree_str (mountpoint m) ;;;
  kfree_str (mtype m) ;;;
  kfree mount.

Definition vfs_read (vnode buf size offset : Z) : kernel (fs E) (Z * list Z) :=
  spinlock_acquire vnode ;;;
  let* v := get_vnode vnode in
  if vtype v =? VNODE_DIR then spinlock_release vnode ;;; kret (-1, []) else
  let fail := spinlock_release vnode ;;; kret (-1, []) in
  if ops v =? 0 then fail else
  let* o := kopt (ops_table (ops v)) in
  match op_read o with
  | Some f =>
      let* ret := f vnode buf size offset in
      spinlock_release vnode ;;; kret ret
  | None => fail
  end.

Definition vfs_write (vnode : Z) (buf : option (list Z)) (size offset : Z) : kernel (fs E) Z :=
  spinlock_acquire vnode ;;;
  let* v := get_vnode vnode in
  if vtype v =? VNODE_DIR then spinlock_release vnode ;;; kret (-1) else
  let fail := spinlock_release vnode ;;; kret (-1) in
  if ops v =? 0 then fail else
  let* o := kopt (ops_table (ops v)) in
  match op_write o with
  | Some f =>
      let* ret := f vnode buf size offset in
      spinlock_release vnode ;;;
      let* t := now in
      upd_vnode vnode (set_modify_time t) ;;; kret ret
  | None => fail
  end.

Definition vfs_chown (vnode uid : Z) : kernel (fs E) Z :=
  spinlock_acquire vnode ;;;
  upd_vnode vnode (set_uid uid) ;;;
  spinlock_release vnode ;;; kret 0.

Definition vfs_chmod (vnode mode : Z) : kernel (fs E) Z :=
  spinlock_acquire vnode ;;;
  upd_vnode vnode (set_mode mode) ;;;
  spinlock_release vnode ;;; kret 0.

Definition vfs_create_vnode (par : Z) (nm : option (list Z)) (type : Z) : kernel (fs E) Z :=
  spinlock_acquire par ;;;
  let* v := get_vnode par in
  let fail := spinlock_release par ;;; kret 0 in
  if negb (vtype v =? VNODE_DIR) then fail else
  if ops v =? 0 then fail else
  let* o := kopt (ops_table (ops v)) in
  match op_create o with
  | Some f =>
      let* ret := f par nm type in
      spinlock_release par ;;;
      if ret =? 0 then kret 0 else
      (let* t := now in upd_vnode ret (set_creation_time t)) ;;;
      (let* t := now in upd_vnode ret (set_modify_time t)) ;;;
      (let* t := now in upd_vnode ret (set_access_time t)) ;;;
      kret ret
  | None => fail
  end.

(** The deletion after the children are gone. *)
Definition delete_self (p : Z) : kernel (fs E) unit :=
  let* v := get_vnode p in
  (if parent v =? 0 then kret tt else
   let* pv := get_vnode (parent v) in
   if child pv =? p then upd_vnode (parent v) (set_child 0) else kret tt) ;;;
  let* v := get_vnode p in
  (match name v with
   | SNull => kret tt
   | nm => kfree_str nm ;;; upd_vnode p (set_name SNull)
   end) ;;;
  let* v := get_vnode p in
  (if data v =? 0 then kret tt else kfree (data v) ;;; upd_vnode p (set_data 0)) ;;;
  spinlock_release p ;;;
  kfree p.

Fixpoint vfs_delete_node (fuel : nat) (p : Z) : kernel (fs E) unit :=
  if p =? 0 then kret tt else
  match fuel with
  | O => knofuel
  | S f =>
      spinlock_acquire p ;;;
      let* v := get_vnode p in
      (if vtype v =? VNODE_DIR then
         (fix children (k : nat) (c : Z) : kernel (fs E) unit :=
            if c =? 0 then kret tt else
            match k with
            | O => knofuel
            | S k =>
                let* cv := get_vnode c in
                vfs_delete_node f c ;;;
                children k (next cv)
            end) fuel (child v)
       else kret tt) ;;;
      delete_self p
  end.

(** [_vfs_get_full_path]: the length of the path ... *)
Fixpoint path_length (count : nat) (current path_len : Z) : kernel (fs E) (option Z) :=
  if current =? 0 then kret (Some path_len) else
  let* v := get_vnode current in
  if parent v =? current then kret (Some path_len) else
  let* l := get_str (name v) in
  let path_len := path_len + Z.of_nat (length l) + 1 in
  match count with
  | O => kret None
  | S count => path_length count (parent v) path_len
  end.

(** ... and the path, written from its end. *)
Fixpoint fill_path (count : nat) (current path_len : Z) (buf : list Z) : kernel (fs E) (option (list Z)) :=
  if current =? 0 then kret (Some buf) else
  let* v := get_vnode current in
  if parent v =? current then kret (Some buf) else
  let* l := get_str (name v) in
  let path_len := path_len - Z.of_nat (length l) in
  let buf := list_inserts (Z.to_nat path_len) l buf in
  let '(path_len, buf) :=
    if 0 <? path_len then (path_len - 1, <[Z.to_nat (path_len - 1) := SLASH]> buf) else (path_len, buf) in
  if 1000000 <? path_len then kret None else
  match count with
  | O => knofuel
  | S count => fill_path count (parent v) path_len buf
  end.

Definition get_full_path (p : Z) : kernel (fs E) strptr :=
  if p =? 0 then kret SNull else
  let* v := get_vnode p in
  if parent v =? p then kstrdup ROOT_NAME else
  let* len := path_length 1000 p 0 in
  match len with
  | None => kret SNull
  | Some path_len =>
      let* full_path := kmalloc (path_len + 1) in
      if full_path =? 0 then kret SNull else
      let buf := replicate (Z.to_nat path_len) junk in
      put full_path (OStr buf) ;;;
      let* buf := fill_path 1001 p path_len buf in
      match buf with
      | None => kfree full_path ;;; kret SNull
      | Some buf =>
          put full_path (OStr buf) ;;;
          if bool_decide (head buf = Some SLASH) then kret (SHeap full_path) else
          let* temp := kmalloc (Z.of_nat (length buf) + 2) in
          if temp =? 0 then kfree full_path ;;; kret SNull else
          put temp (OStr (SLASH :: buf)) ;;;
          kfree full_path ;;;
          kret (SHeap temp)
      end
  end.

(** What [vfs_get_full_path] returns. *)
Definition vfs_get_full_path (vnode : Z) : strptr := SLit FULL_PATH_UNSUPPORTED.

Definition vfs_type_to_str (type : Z) : list Z :=
  if type =? VNODE_FILE then [70; 73; 76; 69] else
  if type =? VNODE_DIR then [68; 73; 82] else
  if type =? VNODE_DEV then [68; 69; 86] else [85; 78; 75; 78; 79; 87; 78].

(** [mode & bit] *)
Definition has (mode bit : Z) : bool := negb (Z.land mode bit =? 0).

(** One of the three switches on [action]. *)
Definition grants (mode action x r w : Z) : bool :=
  if action =? 0 then has mode x else if action =? 1 then has mode r else
  if action =? 2 then has mode w else false.

Definition allowed (v : vnode) (u g action : Z) : bool :=
  if (uid v =? u) && grants (mode v) action VNODE_MODE_XUSR VNODE_MODE_RUSR VNODE_MODE_WUSR then true else
  if (gid v =? g) && grants (mode v) action VNODE_MODE_XGRP VNODE_MODE_RGRP VNODE_MODE_WGRP then true else
  grants (mode v) action VNODE_MODE_XOTH VNODE_MODE_ROTH VNODE_MODE_WOTH.

Definition vfs_am_i_allowed (vnode u g action : Z) : kernel (fs E) bool :=
  if vnode =? 0 then kret false else
  let* v := get_vnode vnode in kret (allowed v u g action).
End vfs.

(** ** The tree of vnodes *)

(** The string a pointer of a struct stands for. *)
Definition has_name (h : gmap Z obj) (p : strptr) (nm : list Z) : Prop :=
  match p with SLit l => l = nm | SHeap q => h !! q = Some (OStr nm) | SNull => False end.

(** The list of siblings from [p] on: their addresses and names. *)
Fixpoint chain (h : gmap Z obj) (p : Z) (l : list (Z * list Z)) : Prop :=
  match l with
  | [] => p = 0
  | (a, nm) :: l =>
      p = a ∧ a ≠ 0 ∧
      ∃ v, h !! a = Some (OVnode v) ∧ has_name h (name v) nm ∧ chain h (next v) l
  end.

(** The first child with a name; 0 when there is none. *)
Fixpoint find_child (nm : list Z) (l : list (Z * list Z)) : Z :=
  match l with
  | [] => 0
  | (a, nm') :: l => if bool_decide (nm' = nm) then a else find_child nm l
  end.

(** The abstract tree: type and children of each vnode. *)
Abbreviation view := (gmap Z (Z * list (Z * list Z))).

(** The heap holds the tree [t]. *)
Record repr (h : gmap Z obj) (t : view) (p : Z) (ty : Z) (l : list (Z * list Z)) (v : vnode) : Prop := {
  repr_vnode : h !! p = Some (OVnode v);
  repr_type : vtype v = ty;
  repr_chain : chain h (child v) l;
  repr_nodup : NoDup (l.*1);
  repr_names : NoDup (l.*2);
  repr_child : ∀ a, a ∈ l.*1 → a ∈ dom t ∧ ∃ va, h !! a = Some (OVnode va) ∧ parent va = p;
}.

Definition tree_ok (h : gmap Z obj) (t : view) : Prop :=
  ∀ p ty l, t !! p = Some (ty, l) → p ≠ 0 ∧ ∃ v, repr h t p ty l v.

(** Following names from [cur], stopping early at what is not a directory. *)
Fixpoint resolve (t : view) (cur : Z) (names : list (list Z)) : Z :=
  match names with
  | [] => cur
  | nm :: names =>
      match t !! cur with
      | Some (_, l) =>
          let found := find_child nm l in
          if found =? 0 then 0 else
          match t !! found with
          | Some (ty, _) => if ty =? VNODE_DIR then resolve t found names else found
          | None => 0
          end
      | None => 0
      end
  end.

(** A path component as the kernel's buffer can hold it. *)
Definition component (nm : list Z) : Prop :=
  nm ≠ [] ∧ (length nm ≤ 255)%nat ∧ Forall (λ c, c ≠ SLASH ∧ c ≠ 0) nm.

(** The components joined by slashes, with the leading one. *)
Definition path_of (names : list (list Z)) : list Z :=
  match names with [] => [SLASH] | _ => concat (map (cons SLASH) names) end.

Section facts.
Context {E : Type} `{KernelEnv E}.
Implicit Types s : fs E.

Lemma get_str_run s p nm : has_name (heap s) p nm → get_str p s = Ret nm s.
Proof. destruct p; simpl; intros Hn; [done|by rewrite Hn|by subst]. Qed.

Lemma lookup_loop_run fuel s p nm l :
  chain (heap s) p l → (length l ≤ fuel)%nat → lookup_loop fuel p nm s = Ret (find_child nm l) s.
Proof.
  revert fuel p. induction l as [|[a nm'] l IH]; intros fuel p Hc Hf; cbn in Hc.
  - subst. by destruct fuel.
  - destruct Hc as (-> & Ha & v & Hv & Hn & Hc). destruct fuel as [|fuel]; cbn in Hf; [lia|].
    cbn [lookup_loop find_child]. rewrite (proj2 (Z.eqb_neq a 0)) by done. unfold kbind.
    rewrite (get_vnode_run _ _ v), (get_str_run _ _ nm') by done.
    case_bool_decide; [done|]. apply IH; [done|lia].
Qed.

Lemma find_child_in nm l : find_child nm l ≠ 0 → (find_child nm l, nm) ∈ l.
Proof.
  induction l as [|[a nm'] l IH]; simpl; [done|]. case_bool_decide as Hd; intros Hn.
  - subst. by left.
  - right. by apply IH.
Qed.

Lemma chain_addr_nonzero h p l a : chain h p l → a ∈ l.*1 → a ≠ 0.
Proof.
  revert p. induction l as [|[b nm] l IH]; intros p Hc Ha; [by apply not_elem_of_nil in Ha|].
  destruct Hc as (_ & Hb & v & _ & _ & Hc). apply elem_of_cons in Ha as [->|Ha]; [done|eauto].
Qed.

Lemma vfs_lookup_run fuel s t p ty l nm :
  tree_ok (heap s) t → t !! p = Some (ty, l) → (length l ≤ fuel)%nat →
  vfs_lookup fuel p nm s = Ret (find_child nm l) s.
Proof.
  intros Ht Hp Hf. destruct (Ht p ty l Hp) as (_ & v & R). unfold vfs_lookup, kbind.
  rewrite (get_vnode_run _ _ v) by apply R. by apply lookup_loop_run; [apply R|].
Qed.

Lemma take_name_component k nm rest :
  Forall (λ c, c ≠ SLASH ∧ c ≠ 0) nm → (length nm ≤ k)%nat →
  (length nm = k ∨ rest = [] ∨ head rest = Some SLASH) →
  take_name k (nm ++ rest) = (nm, rest).
Proof.
  revert nm. induction k as [|k IH]; intros [|c nm] HF Hl Hr; cbn in *; try lia; try done.
  - destruct rest as [|c rest]; [done|]. destruct Hr as [?|[?|[= ->]]]; done.
  - apply Forall_cons in HF as [[Hc _] HF]. rewrite (proj2 (Z.eqb_neq c SLASH)) by done.
    rewrite IH; [done|done|lia|]. destruct Hr as [?|?]; [left; lia|by right].
Qed.
#[global] Arguments take_name : simpl never.

(** The path without its leading slash. *)
Definition join (names : list (list Z)) : list Z :=
  match names with [] => [] | nm :: names => nm ++ concat (map (cons SLASH) names) end.

Lemma path_of_join names : path_of names = SLASH :: join names.
Proof. by destruct names. Qed.

Lemma take_name_join nm names :
  component nm → take_name 255 (join (nm :: names)) = (nm, concat (map (cons SLASH) names)).
Proof.
  intros (_ & Hl & HF). cbn [join]. apply take_name_component; [done|done|].
  right. destruct names; [by left|by right].
Qed.

Lemma skip_slash_concat names : skip_slash (concat (map (cons SLASH) names)) = join names.
Proof. by destruct names. Qed.

Lemma join_nonempty nm names : component nm → join (nm :: names) ≠ [].
Proof. intros (Hn & _). by destruct nm. Qed.

Lemma lookup_components_run fuel inner s t cur names :
  tree_ok (heap s) t → cur ∈ dom t → Forall component names → (length names ≤ fuel)%nat →
  (∀ p ty l, t !! p = Some (ty, l) → (length l ≤ inner)%nat) →
  lookup_components fuel inner cur (join names) s = Ret (resolve t cur names) s.
Proof.
  intros Ht Hcur HF Hlen Hin. revert fuel cur Hcur Hlen.
  induction HF as [|nm names Hnm HF IH]; intros fuel cur Hcur Hlen; [by destruct fuel|].
  destruct fuel as [|fuel]; [simpl in Hlen; lia|].
  cbn [lookup_components]. destruct (join (nm :: names)) as [|c0 l0] eqn:Ej; [by apply join_nonempty in Ej|].
  rewrite <- Ej, take_name_join by done. unfold kbind.
  apply elem_of_dom in Hcur as [[ty l] Hcur].
  rewrite (vfs_lookup_run inner s t cur ty l) by eauto. cbn [resolve]. rewrite Hcur.
  destruct (Z.eqb_spec (find_child nm l) 0) as [|Hf]; [done|].
  destruct (Ht _ _ _ Hcur) as (_ & v & R).
  assert (find_child nm l ∈ l.*1) as Hel by (apply (list_elem_of_fmap_2 fst _ _ (find_child_in nm l Hf))).
  destruct (repr_child _ _ _ _ _ _ R _ Hel) as (Hd & va & Hva & _).
  rewrite (get_vnode_run _ _ va) by done.
  pose proof Hd as [[ty' l'] Hf']%elem_of_dom. rewrite Hf'.
  destruct (Ht _ _ _ Hf') as (_ & va' & R'). assert (va' = va) as ->.
  { pose proof (repr_vnode _ _ _ _ _ _ R'). congruence. }
  rewrite (repr_type _ _ _ _ _ _ R'). destruct (ty' =? VNODE_DIR); [|done]. cbn [negb].
  rewrite skip_slash_concat. apply IH; [done|simpl in Hlen; lia].
Qed.

(** The mount list from [p] on: the roots of the mounts. *)
Fixpoint mounts_from (h : gmap Z obj) (p : Z) (roots : list Z) : Prop :=
  match roots with
  | [] => p = 0
  | r :: roots =>
      p ≠ 0 ∧ r ≠ 0 ∧ ∃ m, h !! p = Some (OMount m) ∧ m_root m = r ∧ mounts_from h (m_next m) roots
  end.

(** The first mount in whose tree the names lead somewhere. *)
Fixpoint resolve_mounts (t : view) (roots : list Z) (names : list (list Z)) : Z :=
  match roots with
  | [] => 0
  | r :: roots => let p := resolve t r names in if p =? 0 then resolve_mounts t roots names else p
  end.

Lemma lazy_lookup_run (fuel inner : nat) s t mount roots names :
  tree_ok (heap s) t → mounts_from (heap s) mount roots → Forall (λ r, r ∈ dom t) roots →
  (length roots ≤ fuel)%nat → Forall component names → (length names ≤ inner)%nat →
  (∀ p ty l, t !! p = Some (ty, l) → (length l ≤ inner)%nat) →
  vfs_lazy_lookup fuel inner mount (Some (path_of names)) s = Ret (resolve_mounts t roots names) s.
Proof.
  intros Htree Hmounts Hroots Hfuel Hnames Hlen Hdirs. rewrite path_of_join. revert fuel mount Hmounts Hfuel.
  induction Hroots as [|r roots Hr HF IH]; intros fuel mount Hm Hfuel; cbn in Hm, Hfuel.
  { subst. by destruct fuel. }
  destruct Hm as (Hm0 & Hr0 & m & Hm & <- & Hnext). destruct fuel as [|fuel]; [lia|].
  cbn [vfs_lazy_lookup resolve_mounts]. rewrite (proj2 (Z.eqb_neq mount 0)), Z.eqb_refl by done.
  cbn [orb negb]. unfold kbind. rewrite (get_mount_run _ _ m) by done.
  rewrite (proj2 (Z.eqb_neq (m_root m) 0)), (lookup_components_run _ _ s t) by done.
  destruct (Z.eqb_spec (resolve t (m_root m) names) 0); [|done].
  destruct (Z.eqb_spec (m_next m) 0) as [Hz|Hz]; [|apply IH; [done|lia]].
  destruct roots; [done|]. by destruct Hnext.
Qed.


Lemma has_testbit m b : 0 ≤ b → has m (2 ^ b) = Z.testbit m b.
Proof.
  intros Hb. unfold has. destruct (Z.testbit m b) eqn:Et.
  - apply negb_true_iff, Z.eqb_neq. intros E0.
    assert (Z.testbit (Z.land m (2 ^ b)) b = true) as Hl
      by (by rewrite Z.land_spec, Et, Z.pow2_bits_true).
    by rewrite E0, Z.bits_0 in Hl.
  - apply negb_false_iff, Z.eqb_eq, Z.bits_inj'. intros n Hn.
    rewrite Z.land_spec, Z.pow2_bits_eqb, Z.bits_0 by done.
    destruct (Z.eqb_spec b n) as [->|]; [by rewrite Et|by rewrite andb_false_r].
Qed.

(** Every permission check: access is granted exactly when one of the three
    classes that apply to the caller (owner when the user is the owner's, group
    when the group matches, others always) has the bit of the action, so the
    owner and the group also pass with the permissions of others, and no user
    is above the mode. *)
Theorem vfs_am_i_allowed_spec s p v u g action
  (Hp : heap s !! p = Some (OVnode v)) (Hp0 : p ≠ 0) (Haction : 0 ≤ action ≤ 2) :
  let bit := if action =? 0 then 0 else if action =? 1 then 2 else 1 in
  vfs_am_i_allowed p u g action s =
  Ret ((uid v =? u) && Z.testbit (mode v) (6 + bit) ||
       (gid v =? g) && Z.testbit (mode v) (3 + bit) ||
       Z.testbit (mode v) bit) s.
Proof.
  intros bit. unfold vfs_am_i_allowed. rewrite (proj2 (Z.eqb_neq p 0)) by done.
  unfold kbind. rewrite (get_vnode_run _ _ v) by done. unfold kret. f_equal. unfold allowed.
  subst bit. unfold grants.
  assert (action = 0 ∨ action = 1 ∨ action = 2) as [-> | [-> | ->]] by lia;
    rewrite <- !has_testbit by (vm_compute; discriminate);
    generalize (has (mode v)) (uid v =? u) (gid v =? g); intros f owner group; cbv;
    repeat match goal with |- context [f ?m] => destruct (f m) end; by destruct owner, group.
Qed.

(** ** Deleting a vnode *)

(** A vnode that is not a directory, the blocks it owns, and its directory. *)
Record leaf_node (s : fs E) (p : Z) (v : vnode) (d : Z) (dv : vnode) : Prop := {
  ln_vnode : heap s !! p = Some (OVnode v);
  ln_type : vtype v ≠ VNODE_DIR;
  ln_unlocked : locked v = false;
  ln_name : ∃ n nm, name v = SHeap n ∧ n ≠ 0 ∧ heap s !! n = Some (OStr nm);
  ln_data : data v = 0 ∨ ∃ dd, heap s !! data v = Some (OData dd);
  ln_parent : parent v = d ∧ d ≠ 0 ∧ p ≠ 0 ∧ heap s !! d = Some (OVnode dv) ∧ vtype dv = VNODE_DIR;
}.

(** The last [kfree], and the lookups in what is left. *)
Ltac delete_done n n' p :=
  (erewrite kfree_run; [|done|hlook]); eexists; (split; [reflexivity|]); cbn [heap set_heap set_env];
  (split_and!; [apply lookup_delete_eq|hlook| |]);
  intros q w Hq; intros; assert (n ≠ q) by congruence; assert (n' ≠ q) by congruence;
  assert (p ≠ q) by congruence; hlook.

(** What deletion leaves: the node is freed; its directory's first-child
    pointer is cleared when it pointed to the node, whatever siblings follow;
    every other vnode and string is as before, so a sibling before the node
    still points to it. *)
Lemma vfs_delete_leaf_run fuel s p v d dv :
  leaf_node s p v d dv →
  ∃ s', vfs_delete_node (S fuel) p s = Ret tt s' ∧ heap s' !! p = None ∧
    heap s' !! d = Some (OVnode (if child dv =? p then set_child 0 dv else dv)) ∧
    (∀ q w, q ≠ p → q ≠ d → heap s !! q = Some (OVnode w) → heap s' !! q = Some (OVnode w)) ∧
    (∀ q l, name v ≠ SHeap q → heap s !! q = Some (OStr l) → heap s' !! q = Some (OStr l)).
Proof.
  intros [Hv Ht Hl (n & nm & Hn & Hn0 & Hns) Hd (Hpar & Hd0 & Hp0 & Hdv & Hdt)].
  assert (d ≠ p) as Hdp by congruence. assert (n ≠ p) by congruence. assert (n ≠ d) by congruence.
  assert (p ≠ d) by congruence.
  cbn [vfs_delete_node]. rewrite (proj2 (Z.eqb_neq p 0)) by done. do 2 kstep.
  cbn [vtype set_locked]. rewrite (proj2 (Z.eqb_neq (vtype v) VNODE_DIR)) by done.
  kstep. unfold delete_self. kstep. cbn [parent set_locked].
  rewrite Hpar, (proj2 (Z.eqb_neq d 0)) by done. kstep. kstep.
  destruct (Z.eqb_spec (data v) 0) as [Hd0'|Hd0'].
  - destruct (child dv =? p) eqn:Ec; kstep; kstep; cbn [name set_locked]; rewrite Hn; cbn [kfree_str];
      repeat kstep; cbn [data set_name set_locked]; rewrite Hd0', Z.eqb_refl; do 2 kstep; delete_done n n p.
  - destruct Hd as [?|[dd Hdd]]; [done|].
    assert (data v ≠ p) by congruence. assert (data v ≠ d) by congruence. assert (data v ≠ n) by congruence.
    destruct (child dv =? p) eqn:Ec; kstep; kstep; cbn [name set_locked]; rewrite Hn; cbn [kfree_str];
      repeat kstep; cbn [data set_name set_locked]; rewrite (proj2 (Z.eqb_neq (data v) 0)) by done;
      repeat kstep; delete_done n (data v) p.
Qed.

(** Deleting a file breaks the list of its siblings.  When it is the first
    child, the directory looks empty afterwards and every sibling is lost; when
    it follows another child, that child still points to the freed vnode and
    looking up any other name runs into it. *)
Theorem vfs_delete_node_breaks_siblings (fuel : nat) s p v d dv
  (Hleaf : leaf_node s p v d dv) :
  ∃ s', vfs_delete_node (S fuel) p s = Ret tt s' ∧
    (child dv = p → ∀ nm, vfs_lookup fuel d nm s' = Ret 0 s') ∧
    (∀ q w qn nm, child dv = q → q ≠ p → q ≠ d → q ≠ 0 → heap s !! q = Some (OVnode w) → next w = p →
       has_name (heap s) (name w) qn → name w ≠ name v → qn ≠ nm →
       vfs_lookup (S (S fuel)) d nm s' = Fault).
Proof.
  destruct (vfs_delete_leaf_run fuel s p v d dv Hleaf) as (s' & Hrun & Hp & Hd & Hvn & Hstr).
  destruct (ln_parent _ _ _ _ _ Hleaf) as (_ & _ & Hp0 & _). exists s'. split_and!; [done| |].
  - intros Hc nm. rewrite Hc, Z.eqb_refl in Hd. unfold vfs_lookup.
    rewrite (kbind_run _ _ _ _ _ (get_vnode_run _ _ _ Hd)). by destruct fuel.
  - intros q w qn nm Hc Hqp Hqd Hq0 Hq Hnext Hn Hnn Hne.
    rewrite Hc, (proj2 (Z.eqb_neq q p)) in Hd by done. unfold vfs_lookup.
    rewrite (kbind_run _ _ _ _ _ (get_vnode_run _ _ _ Hd)), Hc. cbn [lookup_loop].
    rewrite (proj2 (Z.eqb_neq q 0)) by done.
    rewrite (kbind_run _ _ _ _ _ (get_vnode_run _ _ _ (Hvn _ _ Hqp Hqd Hq))).
    assert (has_name (heap s') (name w) qn) as Hn'.
    { destruct (name w) eqn:Ew; simpl in *; try done. apply Hstr; congruence. }
    rewrite (kbind_run _ _ _ _ _ (get_str_run _ _ _ Hn')), bool_decide_eq_false_2 by done.
    rewrite Hnext. cbn [lookup_loop]. rewrite (proj2 (Z.eqb_neq p 0)) by done.
    unfold kbind, get_vnode. by rewrite Hp.
Qed.
End facts.

(** *** Witnesses: [/a] a directory with the file [/a/b], and a second mount
    whose root is [/a] *)

Definition demo_vnode (par nxt ch ty : Z) (nm : list Z) : vnode :=
  Vnode par nxt ch 1 ty (SLit nm) 0 0 0 0 0x1ed 0 0 0 0 0 false.

Definition demo_heap : gmap Z obj :=
  <[1 := OMount (Mount 2 5 0 (SLit []) (SLit ROOTFS) 0)]>
  (<[2 := OVnode (demo_vnode 2 0 3 VNODE_DIR ROOT_NAME)]>
  (<[3 := OVnode (demo_vnode 2 0 4 VNODE_DIR [97])]>
  (<[4 := OVnode (demo_vnode 3 0 0 VNODE_FILE [98])]>
  (<[5 := OMount (Mount 3 0 1 (SLit [47; 97]) (SLit ROOTFS) 0)]> ∅)))).

Definition demo_fs : fs demo_env := Fs demo_heap (DemoEnv 10 {[1; 2; 3; 4; 5]} 0) 1 0 0 [].

Definition demo_view : view :=
  <[2 := (VNODE_DIR, [(3, [97])])]> (<[3 := (VNODE_DIR, [(4, [98])])]> (<[4 := (VNODE_FILE, [])]> ∅)).

Ltac view_cases H :=
  repeat (apply lookup_insert_Some in H as [[<- H]|[_ H]]; [injection H as <- <-|]);
  [..|by rewrite lookup_empty in H].

Lemma demo_tree_ok : tree_ok (heap demo_fs) demo_view.
Proof.
  intros p ty l Hp. unfold demo_view in Hp. view_cases Hp; (split; [done|]); eexists;
    (constructor; [reflexivity|reflexivity| |apply (bool_decide_unpack _); by vm_compute
                  |apply (bool_decide_unpack _); by vm_compute|]).
  1,3: split_and!; [done..|]; eexists; by split_and!.
  3: done.
  1,2: intros a Ha; apply list_elem_of_singleton in Ha as ->; split; [by vm_compute|by eexists].
  by intros a ?%not_elem_of_nil.
Qed.


Lemma vfs_am_i_allowed_spec_witness :
  vfs_am_i_allowed 4 7 7 2 demo_fs = Ret false demo_fs ∧ vfs_am_i_allowed 4 0 7 2 demo_fs = Ret true demo_fs.
Proof.
  split.
  - exact (vfs_am_i_allowed_spec demo_fs 4 _ 7 7 2 eq_refl ltac:(done) ltac:(lia)).
  - exact (vfs_am_i_allowed_spec demo_fs 4 _ 0 7 2 eq_refl ltac:(done) ltac:(lia)).
Defined.

(** A directory with two files, [a] and [b]. *)
Definition two_files : fs demo_env :=
  Fs (<[2 := OVnode (demo_vnode 2 0 3 VNODE_DIR ROOT_NAME)]>
     (<[3 := OVnode (set_name (SHeap 5) (demo_vnode 2 4 0 VNODE_FILE []))]>
     (<[4 := OVnode (set_name (SHeap 6) (demo_vnode 2 0 0 VNODE_FILE []))]>
     (<[5 := OStr [97]]> (<[6 := OStr [98]]> ∅))))) (DemoEnv 10 {[2; 3; 4; 5; 6]} 0) 0 0 0 [].

Lemma two_files_leaf :
  leaf_node two_files 3 (set_name (SHeap 5) (demo_vnode 2 4 0 VNODE_FILE [])) 2
            (demo_vnode 2 0 3 VNODE_DIR ROOT_NAME) ∧
  leaf_node two_files 4 (set_name (SHeap 6) (demo_vnode 2 0 0 VNODE_FILE [])) 2
            (demo_vnode 2 0 3 VNODE_DIR ROOT_NAME).
Proof.
  split; (constructor; [reflexivity|done|done| |by left|done]).
  - by exists 5, [97].
  - by exists 6, [98].
Qed.

Lemma vfs_delete_node_breaks_siblings_witness :
  (∃ s', vfs_delete_node 5 3 two_files = Ret tt s' ∧ vfs_lookup 4 2 [98] s' = Ret 0 s') ∧
  (∃ s', vfs_delete_node 5 4 two_files = Ret tt s' ∧ vfs_lookup 6 2 [99] s' = Fault).
Proof.
  split.
  - destruct (vfs_delete_node_breaks_siblings 4 two_files _ _ _ _ (proj1 two_files_leaf)) as (s' & H1 & H2 & _).
    exists s'. split; [exact H1|]. by apply H2.
  - destruct (vfs_delete_node_breaks_siblings 4 two_files _ _ _ _ (proj2 two_files_leaf)) as (s' & H1 & _ & H2).
    exists s'. split; [exact H1|]. by eapply H2.
Defined.
