(* ===== verification/Ramfs.v ===== *)
(** * The RAM file system

    [fs/ramfs.c]: the file operations behind [ramfs_ops] and the loader of the
    USTAR archive the boot loader passes.  A file's bytes are an [OBuf] block;
    reading or writing outside the block is a [Fault]. *)

From stdpp Require Import base gmap list.
From Stdlib Require Import ZArith Lia.
From S2P Require Import Prelude Ram CString Vnode Vfs.
#[local] Open Scope Z_scope.

Definition USTAR_HEADER_SIZE : Z := 512.
Definition RAMFS_TYPE_USTAR : Z := 1.
(** [&ramfs_ops] and [&devfs_ops] *)
Definition RAMFS_OPS : Z := 1.
Definition DEVFS_OPS : Z := 2.
Definition RAMFS : list Z := [114; 97; 109; 102; 115].

Section ramfs.
Context {E : Type} `{KernelEnv E}.
Context (ops_table : Z → option (vnode_ops E)) (junk : Z).

(** [memcpy(buf, block + off, n)] and [memcpy(block + off, bytes, n)] *)
Definition read_block (p off n : Z) : kernel (fs E) (list Z) :=
  if n =? 0 then kret [] else
  let* l := get_buf p in
  if off + n <=? Z.of_nat (length l) then kret (take (Z.to_nat n) (drop (Z.to_nat off) l)) else kfault.

Definition write_block (p off : Z) (bytes : list Z) : kernel (fs E) unit :=
  match bytes with
  | [] => kret tt
  | _ =>
      let* l := get_buf p in
      if off + Z.of_nat (length bytes) <=? Z.of_nat (length l)
      then put p (OBuf (list_inserts (Z.to_nat off) bytes l)) else kfault
  end.

Definition upd_data (p : Z) (f : ramfs_data → ramfs_data) : kernel (fs E) unit :=
  let* d := get_data p in put p (OData (f d)).

Definition ramfs_read (vnode buf size offset : Z) : kernel (fs E) (Z * list Z) :=
  if vnode =? 0 then kret (-1, []) else
  let* v := get_vnode vnode in
  if negb (vtype v =? VNODE_FILE) then kret (-1, []) else
  if data v =? 0 then kret (0, []) else
  let* d := get_data (data v) in
  if rsize d <=? offset then kret (0, []) else
  let to_read := if u64 (rsize d - offset) <? size then u64 (rsize d - offset) else size in
  if buf =? 0 then kret (-1, []) else
  let* bytes := read_block (rdata d) offset to_read in
  kret (s32 to_read, bytes).

(** The part of [ramfs_write] that enlarges the block; [false] when there is no
    memory. *)
Definition ramfs_grow (p : Z) (v : vnode) (size offset : Z) : kernel (fs E) bool :=
  let* d := get_data (data v) in
  if rsize d <=? offset then
    let new_size := u64 (offset + size) in
    if rsize d <? new_size then
      let* new_data := kmalloc new_size in
      if new_data =? 0 then kret false else
      put new_data (OBuf (replicate (Z.to_nat new_size) junk)) ;;;
      let* old := read_block (rdata d) 0 (rsize d) in
      write_block new_data 0 old ;;;
      kfree (rdata d) ;;;
      put (data v) (OData (RamfsData new_data new_size)) ;;;
      upd_vnode p (set_vsize new_size) ;;;
      kret true
    else kret true
  else kret true.

Definition ramfs_write (vnode : Z) (buf : option (list Z)) (size offset : Z) : kernel (fs E) Z :=
  if vnode =? 0 then kret (-1) else
  let* v := get_vnode vnode in
  if negb (vtype v =? VNODE_FILE) then kret (-1) else
  if data v =? 0 then kret (-1) else
  let* ok := ramfs_grow vnode v size offset in
  if negb ok then kret (-1) else
  match buf with
  | None => kret (-1)
  | Some bytes =>
      let* d := get_data (data v) in
      write_block (rdata d) offset bytes ;;;
      let* v := get_vnode vnode in
      let new_size := if u64 (offset + size) <? vsize v then vsize v else u64 (offset + size) in
      upd_vnode vnode (set_vsize new_size) ;;;
      upd_data (data v) (λ d, RamfsData (rdata d) new_size) ;;;
      kret (s32 size)
  end.

(** [while (current->next != NULL) current = current->next;] *)
Fixpoint last_sibling (fuel : nat) (current : Z) : kernel (fs E) Z :=
  let* v := get_vnode current in
  if next v =? 0 then kret current else
  match fuel with O => knofuel | S f => last_sibling f (next v) end.

(** The new vnode becomes the last child. *)
Definition link_child (fuel : nat) (self new_vnode : Z) : kernel (fs E) unit :=
  let* sv := get_vnode self in
  if child sv =? 0 then upd_vnode self (set_child new_vnode) else
  let* current := last_sibling fuel (child sv) in
  upd_vnode current (set_next new_vnode).

Definition ramfs_mode (type : Z) : Z :=
  if negb (type =? VNODE_DEV)
  then Z.lor (Z.lor VNODE_MODE_RUSR VNODE_MODE_WUSR) (Z.lor VNODE_MODE_RGRP VNODE_MODE_ROTH)
  else Z.lor (Z.lor VNODE_MODE_RUSR VNODE_MODE_WUSR) VNODE_MODE_RGRP.

Definition ramfs_create (fuel : nat) (self : Z) (nm : option (list Z)) (type : Z) : kernel (fs E) Z :=
  spinlock_release self ;;;
  match nm with
  | None => kret 0
  | Some nm =>
      let* found := vfs_lookup fuel self nm in
      if negb (found =? 0) then kret 0 else
      spinlock_acquire self ;;;
      let* new_vnode := kmalloc VNODE_SIZEOF in
      if new_vnode =? 0 then kret 0 else
      let* np := kstrdup nm in
      let* sv := get_vnode self in
      put new_vnode (OVnode (Vnode self 0 0 (v_mount sv) type np 0 0 0 0 (ramfs_mode type) 0 0 0 0 0 false)) ;;;
      let* d := kmalloc RAMFS_DATA_SIZEOF in
      if d =? 0 then kfree new_vnode ;;; kret 0 else
      put d (OData (RamfsData 0 0)) ;;;
      upd_vnode new_vnode (λ v, set_ops RAMFS_OPS (set_data d v)) ;;;
      link_child fuel self new_vnode ;;;
      kret new_vnode
  end.

Definition ramfs_ops (fuel : nat) : vnode_ops E :=
  VnodeOps (Some ramfs_read) (Some ramfs_write) (Some (ramfs_create fuel)) None.

(** ** The USTAR loader

    The archive lies in memory, where [strtok] cuts its names apart. *)

Record ustar := Ustar { u_fs : fs E; u_mem : mem; u_last : Z }.

Definition in_fs {A} (c : kernel (fs E) A) : kernel ustar A :=
  λ u, match c (u_fs u) with
       | Ret a s => Ret a (Ustar s (u_mem u) (u_last u))
       | Halt s => Halt (Ustar s (u_mem u) (u_last u))
       | Spin => Spin
       | Fault => Fault
       | NoFuel => NoFuel
       end.

(** A read-only routine of [lib/memory.c] on the archive. *)
Definition on_mem {A} (f : mem → option A) : kernel ustar A :=
  λ u, match f (u_mem u) with Some a => Ret a u | None => NoFuel end.

(** [strtok(str, "/")]; [slash] is the address of the literal. *)
Definition u_strtok (fuel : nat) (slash str : Z) : kernel ustar Z :=
  λ u, match strtok fuel (u_mem u) (u_last u) str slash with
       | Some (tok, m, last) => Ret tok (Ustar (u_fs u) m last)
       | None => NoFuel
       end.

Definition octal (fuel : nat) (p : Z) : kernel ustar Z :=
  on_mem (λ m, '(v, _) ← strtol fuel m p 8; Some v).

(** The [while (token != NULL)] loop: [None] when creating a directory failed
    (the function returns), otherwise the parent and the token it stopped at. *)
Fixpoint ustar_descend (rounds fuel : nat) (slash header : Z) (dir : bool) (cur_parent token : Z) :
    kernel ustar (option (Z * Z)) :=
  if token =? 0 then kret (Some (cur_parent, 0)) else
  let* nm := on_mem (λ m, read_cstr fuel m token) in
  let* subdir := in_fs (vfs_lookup fuel cur_parent nm) in
  let continue :=
    let* token := u_strtok fuel slash 0 in
    match rounds with
    | O => knofuel
    | S rounds => ustar_descend rounds fuel slash header dir subdir token
    end in
  if negb (subdir =? 0) then continue else
  if dir then
    let* node := in_fs (vfs_create_vnode ops_table cur_parent (Some nm) VNODE_DIR) in
    if node =? 0 then kret None else
    let* md := octal fuel (header + 100) in
    let* mtime := octal fuel (header + 136) in
    in_fs (upd_vnode node (λ v, set_creation_time (u32 mtime) (set_mode (u32 md) (set_ops RAMFS_OPS v)))) ;;;
    continue
  else kret (Some (cur_parent, token)).

(** Creating the file; [false] when the function returns early. *)
Definition ustar_file (fuel : nat) (slash header file_size cur_parent token : Z) : kernel ustar bool :=
  let* filename := u_strtok fuel slash token in
  if filename =? 0 then kret true else
  let* nm := on_mem (λ m, read_cstr fuel m filename) in
  if bool_decide (nm = []) then kret true else
  let* file := in_fs (vfs_create_vnode ops_table cur_parent (Some nm) VNODE_FILE) in
  if file =? 0 then kret false else
  let* rd := in_fs (kmalloc RAMFS_DATA_SIZEOF) in
  if rd =? 0 then kret false else
  in_fs (put rd (OData (RamfsData junk junk))) ;;;
  let* block := in_fs (kmalloc file_size) in
  if block =? 0 then in_fs (kfree rd) ;;; kret false else
  let* bytes := on_mem (λ m, Some (bytes_at m (header + USTAR_HEADER_SIZE) (Z.to_nat file_size))) in
  in_fs (put block (OBuf bytes)) ;;;
  in_fs (put rd (OData (RamfsData block file_size))) ;;;
  let* md := octal fuel (header + 100) in
  let* mtime := octal fuel (header + 136) in
  in_fs (upd_vnode file (λ v,
    set_creation_time (u32 mtime) (set_mode (u32 md)
      (set_vsize file_size (set_data rd (set_ops RAMFS_OPS v)))))) ;;;
  kret true.

(** [USTAR_HEADER_SIZE + ((file_size + 511) & ~511)] with 32-bit [file_size] *)
Definition ustar_step (file_size : Z) : Z :=
  u32 (USTAR_HEADER_SIZE + Z.land (u32 (file_size + 511)) 0xFFFFFE00).

(** One entry of the archive; [None] when the function returns. *)
Definition ustar_entry (fuel : nat) (slash root data offset : Z) : kernel ustar (option Z) :=
  let header := data + offset in
  let* size := octal fuel (header + 124) in
  let file_size := u32 size in
  let* typeflag := on_mem (λ m, Some (load8 m (header + 156))) in
  let dir := typeflag =? 53 in
  let* dotslash := on_mem (λ m, Some ((load8 m header =? 46) && (load8 m (header + 1) =? 47))) in
  let nm := if dotslash : bool then header + 2 else header in
  let* skip := on_mem (λ m, Some ((load8 m nm =? 0) || (load8 m nm =? 46) && (load8 m (nm + 1) =? 0))) in
  if skip : bool then kret (Some (u64 (offset + ustar_step file_size))) else
  let* token := u_strtok fuel slash nm in
  let* stop := ustar_descend fuel fuel slash header dir root token in
  match stop with
  | None => kret None
  | Some (cur_parent, token) =>
      let* ok := if dir then kret true else ustar_file fuel slash header file_size cur_parent token in
      if negb ok then kret None else kret (Some (u64 (offset + ustar_step file_size)))
  end.

Fixpoint ustar_loop (rounds fuel : nat) (slash root data size offset : Z) : kernel ustar unit :=
  if size <=? offset then kret tt else
  let* first := on_mem (λ m, Some (load8 m (data + offset))) in
  if first =? 0 then kret tt else
  let* next := ustar_entry fuel slash root data offset in
  match next, rounds with
  | None, _ => kret tt
  | Some _, O => knofuel
  | Some offset, S rounds => ustar_loop rounds fuel slash root data size offset
  end.

Definition ramfs_init_ustar (fuel : nat) (slash mount data size : Z) : kernel ustar unit :=
  kassert (negb (mount =? 0)) ;;;
  kassert (negb (data =? 0)) ;;;
  kassert (USTAR_HEADER_SIZE <=? size) ;;;
  let* m := in_fs (get_mount mount) in
  ustar_loop fuel fuel slash (m_root m) data size 0.

Definition ramfs_init (fuel : nat) (slash mount type data size : Z) : kernel ustar unit :=
  kassert (negb (mount =? 0)) ;;;
  let* m := in_fs (get_mount mount) in
  in_fs (upd_vnode (m_root m) (set_ops RAMFS_OPS)) ;;;
  in_fs (upd_mount mount (set_mtype (SLit RAMFS))) ;;;
  if type =? RAMFS_TYPE_USTAR then ramfs_init_ustar fuel slash mount data size else kret tt.
End ramfs.
Arguments ustar E : clear implicits.
Arguments Ustar {E} _ _ _.
Arguments u_fs {E} _.
Arguments u_mem {E} _.
Arguments u_last {E} _.

(** ** Creating a vnode *)

(** The heap [h'] has the strings and the vnodes of [h] with their places in the
    tree, except that [par] may have another first child and [x] another next
    sibling. *)
Record updated (par x : Z) (h h' : gmap Z obj) : Prop := {
  upd_str : ∀ q l, h !! q = Some (OStr l) → h' !! q = Some (OStr l);
  upd_node : ∀ a v, h !! a = Some (OVnode v) → ∃ v', h' !! a = Some (OVnode v') ∧
    parent v' = parent v ∧ vtype v' = vtype v ∧ name v' = name v ∧
    (a ≠ par → child v' = child v) ∧ (a ≠ x → next v' = next v);
}.

Lemma updated_chain par x h h' p l :
  updated par x h h' → x ∉ l.*1 → chain h p l → chain h' p l.
Proof.
  intros [Hs Hn]. revert p. induction l as [|[a nm] l IH]; intros p Hx; [done|].
  apply not_elem_of_cons in Hx as [Hax Hx]. simpl in Hax.
  intros (-> & Ha0 & v & Hv & Hnm & Hc). destruct (Hn a v Hv) as (v' & Hv' & _ & _ & En & _ & Ex).
  split_and!; [done..|]. exists v'. rewrite En, Ex by done. split_and!; [done| |by apply IH].
  destruct (name v); simpl in *; auto.
Qed.

(** The last sibling of a chain. *)
Definition last_addr (l : list (Z * list Z)) : Z := default 0 (fst <$> last l).

Lemma last_addr_in l : l ≠ [] → last_addr l ∈ l.*1.
Proof.
  intros Hl. unfold last_addr. destruct (last l) as [[a nm]|] eqn:El.
  - apply last_Some in El as [l' ->]. rewrite fmap_app. apply elem_of_app. right. simpl. by left.
  - by apply last_None in El.
Qed.

Lemma last_addr_cons a l : l ≠ [] → last_addr (a :: l) = last_addr l.
Proof. intros. unfold last_addr. destruct l; [done|]. done. Qed.

Lemma last_sibling_run {E} `{KernelEnv E} fuel (s : fs E) p l :
  chain (heap s) p l → l ≠ [] → (length l ≤ S fuel)%nat →
  last_sibling fuel p s = Ret (last_addr l) s ∧
  ∃ v, heap s !! last_addr l = Some (OVnode v) ∧ next v = 0.
Proof.
  revert fuel p. induction l as [|[a nm] l IH]; intros fuel p Hc Hl Hf; [done|].
  destruct Hc as (-> & Ha0 & v & Hv & _ & Hc).
  assert (last_sibling fuel a s =
    (if next v =? 0 then kret a else
     match fuel with O => knofuel | S f => last_sibling f (next v) end) s) as ->.
  { destruct fuel; cbn [last_sibling]; by rewrite (kbind_run _ _ _ _ _ (get_vnode_run _ _ _ Hv)). }
  destruct (decide (l = [])) as [->|Hl'].
  - simpl in Hc. rewrite Hc. split; [done|]. by exists v.
  - assert (next v ≠ 0) as Hn.
    { destruct l as [|[b bn] l']; [done|]. by destruct Hc as (-> & ? & _). }
    rewrite (proj2 (Z.eqb_neq _ _) Hn), last_addr_cons by done.
    destruct fuel as [|fuel]; [destruct l; simpl in Hf; [done|lia]|].
    apply IH; [done|done|simpl in Hf; lia].
Qed.

(** Appending to a chain: the last element points to the new one. *)
Lemma chain_append h h' p l new nm nv :
  chain h p l → l ≠ [] → NoDup (l.*1) → new ≠ 0 →
  h' !! new = Some (OVnode nv) → next nv = 0 → has_name h' (name nv) nm →
  updated 0 (last_addr l) h h' →
  (∀ v', h' !! last_addr l = Some (OVnode v') → next v' = new) →
  chain h' p (l ++ [(new, nm)]).
Proof.
  intros Hc Hl Hnd Hn0 Hnew Hnext Hname Hu Hlast.
  revert p Hc. induction l as [|[a anm] l IH]; intros p; [done|].
  intros (-> & Ha0 & v & Hv & Hnm & Hc). apply NoDup_cons in Hnd as [Hal Hnd].
  destruct (upd_node _ _ _ _ Hu a v Hv) as (v' & Hv' & _ & _ & En & _ & Ex).
  split_and!; [done..|]. exists v'. rewrite En. split_and!; [done| |].
  - destruct (name v); simpl in *; try done. by apply (upd_str _ _ _ _ Hu).
  - destruct (decide (l = [])) as [->|Hl'].
    + simpl. rewrite (Hlast v' Hv'). split_and!; [done..|]. by exists nv.
    + rewrite last_addr_cons in * by done. rewrite Ex.
      * by apply IH.
      * intros ->. by apply Hal, last_addr_in.
Qed.

Lemma updated_refl par x h : updated par x h h.
Proof. split; [done|]. intros a v Hv. exists v. by split_and!. Qed.

Lemma updated_trans par x h1 h2 h3 : updated par x h1 h2 → updated par x h2 h3 → updated par x h1 h3.
Proof.
  intros [S1 N1] [S2 N2]. split; [by eauto|]. intros a v Hv.
  destruct (N1 a v Hv) as (v2 & Hv2 & ? & ? & ? & C2 & X2).
  destruct (N2 a v2 Hv2) as (v3 & Hv3 & ? & ? & ? & C3 & X3).
  exists v3. split_and!; try congruence; intros; [rewrite C3, C2|rewrite X3, X2]; done.
Qed.

Lemma updated_fresh par x h p o : h !! p = None → updated par x h (<[p := o]> h).
Proof.
  intros Hp. split.
  - intros q l Hq. rewrite lookup_insert_ne by congruence. done.
  - intros a v Hv. exists v. rewrite lookup_insert_ne by congruence. by split_and!.
Qed.

Lemma updated_set par x h a v v' :
  h !! a = Some (OVnode v) →
  parent v' = parent v → vtype v' = vtype v → name v' = name v →
  (a ≠ par → child v' = child v) → (a ≠ x → next v' = next v) →
  updated par x h (<[a := OVnode v']> h).
Proof.
  intros Ha. split.
  - intros q l Hq. rewrite lookup_insert_ne by congruence. done.
  - intros b w Hb. destruct (decide (a = b)) as [<-|].
    + assert (w = v) as -> by congruence. exists v'. rewrite lookup_insert_eq. by split_and!.
    + exists w. rewrite lookup_insert_ne by done. by split_and!.
Qed.

(** An object without what linking changes, and without the lock when [lk]. *)
Definition core (lk : bool) (o : obj) : obj :=
  match o with
  | OVnode v => OVnode (set_child 0 (set_next 0 (if lk then set_locked false v else v)))
  | _ => o
  end.

(** The heap [h'] has the objects of [h], except that vnodes may have other
    links and [par] another lock. *)
Definition kept (par : Z) (h h' : gmap Z obj) : Prop :=
  ∀ q o, h !! q = Some o → ∃ o', h' !! q = Some o' ∧ core (bool_decide (q = par)) o' = core (bool_decide (q = par)) o.

Lemma kept_refl par h : kept par h h.
Proof. intros q o Hq. eauto. Qed.

Lemma kept_trans par h1 h2 h3 : kept par h1 h2 → kept par h2 h3 → kept par h1 h3.
Proof.
  intros K1 K2 q o Hq. destruct (K1 q o Hq) as (o2 & Hq2 & E2). destruct (K2 q o2 Hq2) as (o3 & Hq3 & E3).
  exists o3. split; [done|congruence].
Qed.

Lemma kept_new par h h' p o : kept par h h' → h !! p = None → kept par h (<[p := o]> h').
Proof.
  intros K Hp q o1 Hq. destruct (K q o1 Hq) as (o' & Hq' & Eo). exists o'.
  rewrite lookup_insert_ne by congruence. done.
Qed.

Lemma kept_set par h a v v' :
  h !! a = Some (OVnode v) → core (bool_decide (a = par)) (OVnode v') = core (bool_decide (a = par)) (OVnode v) →
  kept par h (<[a := OVnode v']> h).
Proof.
  intros Ha Ec q o Hq. destruct (decide (a = q)) as [<-|].
  - exists (OVnode v'). rewrite lookup_insert_eq. split; [done|]. congruence.
  - exists o. by rewrite lookup_insert_ne.
Qed.

Lemma kept_vnode par h h' q v :
  kept par h h' → h !! q = Some (OVnode v) → ∃ v', h' !! q = Some (OVnode v') ∧
    vtype v' = vtype v ∧ vsize v' = vsize v ∧ data v' = data v ∧ mode v' = mode v ∧
    creation_time v' = creation_time v ∧ ops v' = ops v ∧ (q ≠ par → locked v' = locked v).
Proof.
  intros K Hq. destruct (K q _ Hq) as ([v'| | | | |] & Hq' & Ec); cbn in Ec; try done.
  exists v'. split; [done|]. case_bool_decide; destruct v, v'; cbn in Ec |- *; injection Ec as; by subst.
Qed.

(** [k] blocks of up to [max] bytes have been allocated between [e] and [e']. *)
Fixpoint drawn {E} `{KernelEnv E} (max : Z) (k : nat) (e e' : E) : Prop :=
  match k with
  | O => e' = e
  | S k => ∃ n p e1, 0 < n ≤ max ∧ env_malloc e n = (p, e1) ∧ drawn max k e1 e'
  end.

(** The clock has been read [k] times. *)
Definition ticked {E} `{KernelEnv E} (k : nat) (e : E) : E := Nat.iter k (λ e, (env_time e).2) e.

Section create.
Context {E : Type} `{KernelEnvLaws E}.
Implicit Types s : fs E.

Lemma kmalloc_env s n p e : kmalloc n s = Ret p (set_env e s) → env_malloc (env s) n = (p, e).
Proof. unfold kmalloc. destruct (env_malloc (env s) n) as [q e']. by intros [= -> ->]. Qed.

Lemma heap_ok_new s p o e' :
  heap_ok s → env_inv e' → env_live e' = {[p]} ∪ env_live (env s) →
  heap_ok (set_heap (<[p := o]> (heap s)) (set_env e' s)).
Proof. unfold heap_ok. simpl. intros [_ Hs] Hi ->. split; [done|]. rewrite dom_insert. clear -Hs. set_solver. Qed.

Lemma heap_ok_set s p o o' :
  heap_ok s → heap s !! p = Some o → heap_ok (set_heap (<[p := o']> (heap s)) s).
Proof.
  unfold heap_ok. simpl. intros [Hi Hs] Hp. split; [done|]. apply elem_of_dom_2 in Hp. rewrite dom_insert. clear -Hs Hp. set_solver.
Qed.

(** Linking the new vnode in, in a state where it is already in the heap. *)
Lemma link_child_run fuel s par pv l new nv nm :
  heap_ok s → heap s !! par = Some (OVnode pv) → chain (heap s) (child pv) l → NoDup (l.*1) →
  (length l ≤ fuel)%nat → new ≠ 0 → new ∉ l.*1 → new ≠ par →
  heap s !! new = Some (OVnode nv) → next nv = 0 → has_name (heap s) (name nv) nm →
  ∃ s' pv', link_child fuel par new s = Ret tt s' ∧ heap_ok s' ∧ env s' = env s ∧
    updated par (last_addr l) (heap s) (heap s') ∧
    heap s' !! new = Some (OVnode nv) ∧ heap s' !! par = Some (OVnode pv') ∧
    chain (heap s') (child pv') (l ++ [(new, nm)]) ∧ (∀ x, kept x (heap s) (heap s')).
Proof.
  intros Hok Hpar Hc Hnd Hf Hn0 Hnl Hnp Hnew Hnext Hname. unfold link_child. kstep.
  destruct (decide (l = [])) as [->|Hl].
  - simpl in Hc. rewrite Hc, Z.eqb_refl, (upd_vnode_run _ _ pv) by done.
    eexists _, (set_child new pv). split; [reflexivity|].
    split_and!; [by eapply heap_ok_set|done| |hlook|hlook| |].
    + by eapply updated_set.
    + split_and!; [done..|]. exists nv. split_and!; [hlook| |done].
      destruct (name nv); simpl in *; try done. hlook.
    + intros x. eapply kept_set; [done|]. cbn. by case_bool_decide.
  - assert (child pv ≠ 0) as Hc0.
    { destruct l as [|[b bn] l']; [done|]. by destruct Hc as (-> & ? & _). }
    rewrite (proj2 (Z.eqb_neq _ _) Hc0).
    destruct (last_sibling_run fuel s (child pv) l) as (Hls & w & Hw & Hw0); [done|done|lia|].
    rewrite (kbind_run _ _ _ _ _ Hls), (upd_vnode_run _ _ w) by done.
    assert (new ≠ last_addr l) as Hnx by (intros ->; by apply Hnl, last_addr_in).
    assert (∀ par', updated par' (last_addr l) (heap s) (<[last_addr l := OVnode (set_next new w)]> (heap s))) as Hu.
    { intros. by eapply updated_set. }
    assert (∃ pv', <[last_addr l := OVnode (set_next new w)]> (heap s) !! par = Some (OVnode pv') ∧
                   child pv' = child pv) as (pv' & Hpv' & Hch).
    { destruct (decide (last_addr l = par)) as [Heq|].
      - rewrite Heq, lookup_insert_eq. eexists. split; [done|]. simpl. congruence.
      - exists pv. rewrite lookup_insert_ne by done. done. }
    eexists _, pv'. split; [reflexivity|].
    split_and!; [by eapply heap_ok_set|done|by apply Hu|hlook|done| |].
    + rewrite Hch. apply (chain_append (heap s) _ _ _ _ _ nv); try done; [hlook| |].
      * destruct (name nv); simpl in *; try done. hlook.
      * intros v'. cbn. rewrite lookup_insert_eq. by intros [= <-].
    + intros x. eapply kept_set; [done|]. cbn. by case_bool_decide.
Qed.

(** What [ramfs_create] writes into the new vnode. *)
Definition fresh_vnode (par mnt type np d : Z) : vnode :=
  Vnode par 0 0 mnt type (SHeap np) 0 d 0 0 (ramfs_mode type) 0 0 0 RAMFS_OPS 0 false.

Lemma find_child_none nm l : nm ∉ l.*2 → find_child nm l = 0.
Proof.
  induction l as [|[a nm'] l IH]; [done|]. simpl. intros [Hn Hl]%not_elem_of_cons.
  rewrite bool_decide_eq_false_2 by congruence. by apply IH.
Qed.

Lemma chain_elem h p l a : chain h p l → a ∈ l.*1 → is_Some (h !! a).
Proof.
  revert p. induction l as [|[b nm] l IH]; intros p Hc Ha; [by apply not_elem_of_nil in Ha|].
  destruct Hc as (_ & Hb & v & Hv & _ & Hc). apply elem_of_cons in Ha as [->|Ha]; [by eexists|eauto].
Qed.

(** The state in which the new vnode is made: the directory relocked after the
    name was found to be free. *)
Lemma create_prologue fuel s par pv l nm :
  heap_ok s → heap s !! par = Some (OVnode pv) →
  chain (heap s) (child pv) l → nm ∉ l.*2 → (length l ≤ fuel)%nat →
  let s' := set_heap (<[par := OVnode (set_locked true pv)]> (heap s)) s in
  (∀ A (stop k : kernel (fs E) A),
     (spinlock_release par ;;;
      let* found := vfs_lookup fuel par nm in
      if negb (found =? 0) then stop else spinlock_acquire par ;;; k) s = k s') ∧
  heap_ok s' ∧ chain (heap s') (child pv) l ∧ updated par (last_addr l) (heap s) (heap s').
Proof.
  intros Hok Hpar Hc Hnm Hf s'.
  assert (chain (heap (set_heap (<[par := OVnode (set_locked false pv)]> (heap s)) s)) (child pv) l) as C1.
  { apply (updated_chain par 0 (heap s)); [by eapply updated_set| |done].
    intros Hz. by apply (chain_addr_nonzero _ _ _ _ Hc) in Hz. }
  split_and!.
  - intros A stop k. kstep. unfold vfs_lookup. do 2 kstep. cbn [child set_locked].
    rewrite (kbind_run _ _ _ _ _ (lookup_loop_run fuel _ (child pv) nm l C1 Hf)), find_child_none by done.
    cbn [Z.eqb negb]. kstep. f_equal. unfold s', set_heap. cbn. by rewrite insert_insert_eq.
  - by eapply heap_ok_set.
  - apply (updated_chain par 0 (heap s)); [by eapply updated_set| |done].
    intros Hz. by apply (chain_addr_nonzero _ _ _ _ Hc) in Hz.
  - by eapply updated_set.
Qed.

Lemma heap_ok_env s e p : heap_ok s → env_inv e → env_live e = {[p]} ∪ env_live (env s) → heap_ok (set_env e s).
Proof. unfold heap_ok. simpl. intros [_ Hs] Hi ->. split; [done|]. clear -Hs. set_solver. Qed.

(** The three allocations: the new vnode, its name and its data, all fresh. *)
Lemma create_alloc s par pv nm type :
  heap_ok s → room 4096 3 (env s) → heap s !! par = Some (OVnode pv) → (length nm < 4095)%nat →
  ∃ s' new np d,
    (∀ (k : Z → kernel (fs E) Z),
       (let* new_vnode := kmalloc VNODE_SIZEOF in
        if new_vnode =? 0 then kret 0 else
        let* np := kstrdup nm in
        let* sv := get_vnode par in
        put new_vnode (OVnode (Vnode par 0 0 (v_mount sv) type np 0 0 0 0 (ramfs_mode type) 0 0 0 0 0 false)) ;;;
        let* d := kmalloc RAMFS_DATA_SIZEOF in
        if d =? 0 then kfree new_vnode ;;; kret 0 else
        put d (OData (RamfsData 0 0)) ;;;
        upd_vnode new_vnode (λ v, set_ops RAMFS_OPS (set_data d v)) ;;;
        k new_vnode) s = k new s') ∧
    new ≠ 0 ∧ heap s !! new = None ∧ heap_ok s' ∧ (∀ x y, updated x y (heap s) (heap s')) ∧
    heap s' !! new = Some (OVnode (fresh_vnode par (v_mount pv) type np d)) ∧
    heap s' !! np = Some (OStr nm) ∧ heap s' !! par = Some (OVnode pv) ∧ np ≠ par ∧
    (∀ x, kept x (heap s) (heap s')) ∧ drawn 4096 3 (env s) (env s').
Proof.
  intros Hok Hroom Hpar Hlen.
  destruct (kmalloc_run s VNODE_SIZEOF 4096 2) as (new & e1 & M1 & New0 & NewN & R1 & I1 & L1 & F1); [done..|].
  pose proof (heap_ok_env _ _ _ Hok I1 L1) as Ok1.
  destruct (kmalloc_run (set_env e1 s) (Z.of_nat (length nm) + 1) 4096 1) as (np & e2 & M2 & Np0 & NpN & R2 & I2 & L2 & F2);
    [done|done|lia|lia|].
  cbn [env heap set_env] in *.
  assert (np ≠ new) as Hnn by (intros ->; apply F2; rewrite L1; clear; set_solver).
  assert (new ≠ par) as Hnp by congruence. assert (np ≠ par) as Hnp' by congruence.
  set (nv := Vnode par 0 0 (v_mount pv) type (SHeap np) 0 0 0 0 (ramfs_mode type) 0 0 0 0 0 false).
  set (s3 := set_heap (<[new := OVnode nv]> (<[np := OStr nm]> (heap s))) (set_env e2 s)).
  assert (heap_ok s3) as Ok3.
  { destruct Hok as [_ Hok]. split; [done|]. simpl. rewrite !dom_insert, L2, L1. clear -Hok. set_solver. }
  destruct (kmalloc_run s3 RAMFS_DATA_SIZEOF 4096 0) as (d & e3 & M3 & D0 & DN & _ & I3 & L3 & F3); [done..|].
  pose proof DN as DN'. cbn in DN'. apply lookup_insert_None in DN' as [DN' Hdn].
  apply lookup_insert_None in DN' as [DN' Hdn'].
  exists (set_heap (<[new := OVnode (fresh_vnode par (v_mount pv) type np d)]>
            (<[d := OData (RamfsData 0 0)]> (heap s3))) (set_env e3 s3)), new, np, d.
  assert (heap s3 !! new = Some (OVnode nv)) as Hs3 by (unfold s3; hlook).
  split_and!; [| done | done | | | hlook | | | done | |].
  - intros k. rewrite (kbind_run _ _ _ _ _ M1), (proj2 (Z.eqb_neq new 0)) by done.
    unfold kstrdup. rewrite kbind_assoc, (kbind_run _ _ _ _ _ M2), (proj2 (Z.eqb_neq np 0)) by done.
    do 5 kstep. cbn [v_mount]. fold nv.
    match goal with |- context [kbind (kmalloc RAMFS_DATA_SIZEOF) _ ?st] => change st with s3 end.
    rewrite (kbind_run _ _ _ _ _ M3), (proj2 (Z.eqb_neq d 0)) by done. by do 2 kstep.
  - destruct Hok as [_ Hok]. split; [done|]. cbn. rewrite !dom_insert, L3. cbn. rewrite L2, L1. clear -Hok. set_solver.
  - intros x y. cbn. rewrite (insert_insert_ne _ new d) by done. rewrite insert_insert_eq.
    rewrite (insert_insert_ne _ d new) by done.
    eapply updated_trans; [eapply updated_trans|]; apply updated_fresh; [done|by rewrite lookup_insert_ne|].
    by rewrite !lookup_insert_ne.
  - unfold s3. hlook.
  - unfold s3. hlook.
  - intros x. unfold s3. cbn. repeat apply kept_new; try done. apply kept_refl.
  - apply kmalloc_env in M1, M2, M3. cbn in M3. cbn [drawn env set_heap set_env].
    eexists _, _, _. split; [|split; [exact M1|]]; [done|]. eexists _, _, _. split; [|split; [exact M2|]]; [lia|].
    eexists _, _, _. split; [|split; [exact M3|]]; done.
Qed.

(** The name and the vnode are allocated, filled and linked; the result is a
    heap where everything else is as before. *)
Lemma ramfs_create_run fuel s par pv l nm type :
  heap_ok s → room 4096 3 (env s) → heap s !! par = Some (OVnode pv) →
  chain (heap s) (child pv) l → NoDup (l.*1) → nm ∉ l.*2 →
  (length l ≤ fuel)%nat → (length nm < 4095)%nat →
  ∃ s' new np d pv', ramfs_create fuel par (Some nm) type s = Ret new s' ∧
    new ≠ 0 ∧ heap s !! new = None ∧ heap_ok s' ∧
    updated par (last_addr l) (heap s) (heap s') ∧
    heap s' !! new = Some (OVnode (fresh_vnode par (v_mount pv) type np d)) ∧
    heap s' !! np = Some (OStr nm) ∧
    heap s' !! par = Some (OVnode pv') ∧ chain (heap s') (child pv') (l ++ [(new, nm)]) ∧
    kept par (heap s) (heap s') ∧ drawn 4096 3 (env s) (env s').
Proof.
  intros Hok Hroom Hpar Hc Hnd Hnm Hf Hlen. unfold ramfs_create.
  destruct (create_prologue fuel s par pv l nm) as (Hpro & Ok2 & C2 & U2); [done..|].
  rewrite Hpro. clear Hpro.
  set (s2 := set_heap _ s) in *.
  destruct (create_alloc s2 par (set_locked true pv) nm type)
    as (s3 & new & np & d & Halloc & New0 & NewN & Ok3 & U3 & W3 & S3 & P3 & Hnp & K3 & D3); [done|done| |done|].
  { apply lookup_insert_eq. }
  rewrite (Halloc (λ p, link_child fuel par p ;;; kret p)). clear Halloc.
  assert (heap s !! new = None) as NewN'.
  { unfold s2 in NewN. cbn in NewN. by apply lookup_insert_None in NewN as [? _]. }
  assert (new ∉ l.*1) as Hnl.
  { intros Hin. apply (chain_elem _ _ _ _ Hc) in Hin as [o Ho]. congruence. }
  destruct (link_child_run fuel s3 par (set_locked true pv) l new (fresh_vnode par (v_mount pv) type np d) nm)
    as (s4 & pv' & Hlink & Ok4 & Ee & U4 & W4 & P4 & C4 & K4); try done.
  { apply (updated_chain par 0 (heap s2)); [done|intros Hz; by apply (chain_addr_nonzero _ _ _ _ Hc) in Hz|done]. }
  { congruence. }
  exists s4, new, np, d, pv'. rewrite (kbind_run _ _ _ _ _ Hlink).
  split_and!; try done.
  - eapply updated_trans; [apply U2|]. eapply updated_trans; [apply U3|apply U4].
  - by apply (upd_str _ _ _ _ U4).
  - eapply kept_trans; [|eapply kept_trans; [apply K3|apply K4]].
    eapply kept_set; [done|]. by rewrite bool_decide_eq_true_2.
  - by rewrite Ee.
Qed.

(** The tree with the new vnode as the last child of [par]. *)
Definition tree_add (t : view) (par : Z) (l : list (Z * list Z)) (new : Z) (nm : list Z) (type : Z) : view :=
  <[new := (type, [])]> (<[par := (VNODE_DIR, l ++ [(new, nm)])]> t).

Lemma tree_ok_add h h' t par l new nm type nv pv' :
  tree_ok h t → t !! par = Some (VNODE_DIR, l) → updated par (last_addr l) h h' →
  h !! new = None → new ≠ 0 → h' !! new = Some (OVnode nv) →
  vtype nv = type → child nv = 0 → parent nv = par →
  h' !! par = Some (OVnode pv') → chain h' (child pv') (l ++ [(new, nm)]) → nm ∉ l.*2 →
  tree_ok h' (tree_add t par l new nm type).
Proof.
  intros Ht Hpar U Hn Hn0 Hnv Hty Hch Hp Hpv Hc Hnm.
  destruct (Ht _ _ _ Hpar) as (Hpar0 & pv & R).
  assert (par ≠ new) as Hpn by (intros ->; pose proof (repr_vnode _ _ _ _ _ _ R); congruence).
  assert (∀ a, a ∈ dom t → a ∈ dom (tree_add t par l new nm type)) as Hdom.
  { intros a Ha. unfold tree_add. rewrite !dom_insert. clear -Ha. set_solver. }
  intros p ty lp Hlp. unfold tree_add in Hlp.
  apply lookup_insert_Some in Hlp as [[<- [= <- <-]]|[Hne Hp']].
  { split; [done|]. exists nv. split; try done; [constructor|constructor|by intros a ?%not_elem_of_nil]. }
  apply lookup_insert_Some in Hp' as [[<- [= <- <-]]|[Hne' Hp']].
  - split; [done|]. exists pv'. destruct (upd_node _ _ _ _ U par pv) as (w & Hw & _ & Ew & _); [apply R|].
    assert (w = pv') as -> by congruence.
    assert (new ∉ l.*1) as Hnl.
    { intros Hin. destruct (repr_child _ _ _ _ _ _ R _ Hin) as (_ & va & Hva & _). congruence. }
    split; try done.
    + rewrite Ew. apply R.
    + rewrite fmap_app. apply NoDup_app. split_and!; [apply R| |apply NoDup_singleton].
      intros a Ha Ha'%list_elem_of_singleton. simpl in Ha'. by subst.
    + rewrite fmap_app. apply NoDup_app. split_and!; [apply R| |apply NoDup_singleton].
      intros a Ha Ha'%list_elem_of_singleton. simpl in Ha'. by subst.
    + intros a. rewrite fmap_app. intros [Ha|Ha%list_elem_of_singleton]%elem_of_app.
      * destruct (repr_child _ _ _ _ _ _ R _ Ha) as (Hd & va & Hva & Hpa).
        destruct (upd_node _ _ _ _ U a va Hva) as (va' & Hva' & Epa & _).
        split; [by apply Hdom|]. exists va'. split; [done|congruence].
      * simpl in Ha. subst a. split; [unfold tree_add; rewrite dom_insert; clear; set_solver|]. by exists nv.
  - destruct (Ht _ _ _ Hp') as (Hp0 & v & [V T C N1 N2 Ch]). split; [done|].
    destruct (upd_node _ _ _ _ U p v V) as (v' & Hv' & _ & Ety & _ & Ech & _).
    exists v'. split; try done; [congruence| |].
    + rewrite Ech by done. apply (updated_chain par (last_addr l) h); [done| |done].
      intros Hin. destruct (decide (l = [])) as [->|Hl]; [by apply (chain_addr_nonzero _ _ _ _ C) in Hin|].
      apply Ch in Hin as (_ & va & Hva & Hpa).
      destruct (repr_child _ _ _ _ _ _ R _ (last_addr_in l Hl)) as (_ & vb & Hvb & Hpb). congruence.
    + intros a Ha. destruct (Ch a Ha) as (Hd & va & Hva & Hpa).
      destruct (upd_node _ _ _ _ U a va Hva) as (va' & Hva' & Epa & _).
      split; [by apply Hdom|]. exists va'. split; [done|congruence].
Qed.

(** Changing locks, sizes and times does not change the tree. *)
Lemma tree_ok_updated h h' t : updated 0 0 h h' → tree_ok h t → tree_ok h' t.
Proof.
  intros U Ht p ty l Hp. destruct (Ht _ _ _ Hp) as (Hp0 & v & [V T C N1 N2 Ch]). split; [done|].
  destruct (upd_node _ _ _ _ U p v V) as (v' & Hv' & _ & Ety & _ & Ech & _).
  exists v'. split; try done; [congruence| |].
  - rewrite Ech by done. apply (updated_chain 0 0 h); [done| |done].
    intros Hz. by apply (chain_addr_nonzero _ _ _ _ C) in Hz.
  - intros a Ha. destruct (Ch a Ha) as (Hd & va & Hva & Hpa).
    destruct (upd_node _ _ _ _ U a va Hva) as (va' & Hva' & Epa & _).
    split; [done|]. exists va'. split; [done|congruence].
Qed.

(** Stamping a vnode with the current time. *)
Lemma touch_run s p v (f : Z → vnode → vnode) :
  heap s !! p = Some (OVnode v) → heap_ok s →
  (∀ x, parent (f x v) = parent v ∧ vtype (f x v) = vtype v ∧ name (f x v) = name v ∧ ops (f x v) = ops v ∧
        data (f x v) = data v ∧ child (f x v) = child v ∧ next (f x v) = next v ∧ locked (f x v) = locked v) →
  ∃ s' v', (let* x := now in upd_vnode p (f x)) s = Ret tt s' ∧ heap_ok s' ∧
    heap s' = <[p := OVnode v']> (heap s) ∧ updated 0 0 (heap s) (heap s') ∧ locked v' = locked v ∧
    vtype v' = vtype v ∧ env s' = ticked 1 (env s).
Proof.
  intros Hp Hok Hf. unfold kbind, now. destruct (env_time (env s)) as [x e] eqn:Et.
  rewrite (upd_vnode_run _ _ v) by done. destruct (Hf x) as (? & ? & ? & ? & ? & ? & ? & ?).
  eexists _, (f x v). split; [reflexivity|]. split_and!; [|done|by eapply updated_set|done|done|cbn; by rewrite Et].
  destruct Hok as [Hi Hok]. pose proof (env_time_live (env s) Hi) as [Hi' Hl]. rewrite Et in Hi', Hl. simpl in Hi', Hl.
  split; [done|]. cbn. rewrite dom_insert, Hl. apply elem_of_dom_2 in Hp. clear -Hp Hok. set_solver.
Qed.

(** Three stamps in a row. *)
Lemma touch3_run s p v (k : kernel (fs E) Z) :
  heap s !! p = Some (OVnode v) → heap_ok s →
  ∃ s' v', ((let* x := now in upd_vnode p (set_creation_time x)) ;;;
            (let* x := now in upd_vnode p (set_modify_time x)) ;;;
            (let* x := now in upd_vnode p (set_access_time x)) ;;; k) s = k s' ∧
    heap_ok s' ∧ heap s' = <[p := OVnode v']> (heap s) ∧ updated 0 0 (heap s) (heap s') ∧ locked v' = locked v ∧
    vtype v' = vtype v ∧ env s' = ticked 3 (env s).
Proof.
  intros Hp Hok.
  destruct (touch_run s p v set_creation_time Hp Hok) as (s1 & v1 & E1 & Ok1 & H1 & U1 & L1 & T1 & X1); [done|].
  assert (heap s1 !! p = Some (OVnode v1)) as P1 by (rewrite H1; apply lookup_insert_eq).
  destruct (touch_run s1 p v1 set_modify_time P1 Ok1) as (s2 & v2 & E2 & Ok2 & H2 & U2 & L2 & T2 & X2); [done|].
  assert (heap s2 !! p = Some (OVnode v2)) as P2 by (rewrite H2; apply lookup_insert_eq).
  destruct (touch_run s2 p v2 set_access_time P2 Ok2) as (s3 & v3 & E3 & Ok3 & H3 & U3 & L3 & T3 & X3); [done|].
  exists s3, v3. rewrite (kbind_run _ _ _ _ _ E1), (kbind_run _ _ _ _ _ E2), (kbind_run _ _ _ _ _ E3).
  split_and!; [done|done| |eauto using updated_trans|congruence|congruence|by rewrite X3, X2, X1].
  by rewrite H3, H2, H1, !insert_insert_eq.
Qed.

Context (ops_table : Z → option (vnode_ops E)) (junk : Z).

(** What creating a vnode does to the tree, the heap and the environment. *)
Lemma vfs_create_run (fuel : nat) s t par pv l nm type
  (Htree : tree_ok (heap s) t) (Hok : heap_ok s) (Hroom : room 4096 3 (env s))
  (Hpar : t !! par = Some (VNODE_DIR, l)) (Hpv : heap s !! par = Some (OVnode pv))
  (Hlock : locked pv = false) (Hops : ops pv = RAMFS_OPS)
  (Htable : ops_table RAMFS_OPS = Some (ramfs_ops junk fuel))
  (Hname : nm ∉ l.*2) (Hfuel : (length l ≤ fuel)%nat) (Hlen : (length nm < 4095)%nat) :
  ∃ s' new nv, vfs_create_vnode ops_table par (Some nm) type s = Ret new s' ∧
    new ≠ 0 ∧ heap s !! new = None ∧ (new ∉ dom t) ∧ heap_ok s' ∧ tree_ok (heap s') (tree_add t par l new nm type) ∧
    (∃ pv', heap s' !! par = Some (OVnode pv') ∧ locked pv' = false ∧ ops pv' = RAMFS_OPS) ∧
    heap s' !! new = Some (OVnode nv) ∧ vtype nv = type ∧ locked nv = false ∧ kept par (heap s) (heap s') ∧
    ∃ e, drawn 4096 3 (env s) e ∧ env s' = ticked 3 e.
Proof.
  destruct (Htree _ _ _ Hpar) as (Hpar0 & w & [V T C N1 N2 Ch]). assert (w = pv) as -> by congruence.
  unfold vfs_create_vnode. do 2 kstep. cbn [vtype ops set_locked]. rewrite T, Hops.
  change (VNODE_DIR =? VNODE_DIR) with true. change (RAMFS_OPS =? 0) with false. cbn [negb].
  rewrite Htable. cbn [kopt]. kstep. cbn [ramfs_ops op_create].
  set (s1 := set_heap _ s).
  assert (updated 0 0 (heap s) (heap s1)) as U1 by (by eapply updated_set).
  assert (heap s1 !! par = Some (OVnode (set_locked true pv))) as P1 by apply lookup_insert_eq.
  assert (heap_ok s1) as Ok1 by (by eapply heap_ok_set).
  pose proof (tree_ok_updated _ _ _ U1 Htree) as Ht1.
  destruct (Ht1 _ _ _ Hpar) as (_ & w & R1).
  assert (w = set_locked true pv) as -> by (pose proof (repr_vnode _ _ _ _ _ _ R1); congruence).
  destruct (ramfs_create_run fuel s1 par (set_locked true pv) l nm type)
    as (s2 & new & np & d & pv2 & Hrun & New0 & NewN & Ok2 & U2 & W2 & S2 & P2 & C2 & K2 & D2); try done; [apply R1|].
  rewrite (kbind_run _ _ _ _ _ Hrun), (kbind_run _ _ _ _ _ (release_run _ _ _ P2)).
  rewrite (proj2 (Z.eqb_neq new 0)) by done.
  assert (new ≠ par) as Hnp by congruence.
  assert (tree_ok (heap s2) (tree_add t par l new nm type)) as Ht2 by (by eapply tree_ok_add).
  set (s3 := set_heap _ s2).
  assert (updated 0 0 (heap s2) (heap s3)) as U3 by (by eapply updated_set).
  assert (heap_ok s3) as Ok3 by (by eapply heap_ok_set).
  destruct (touch3_run s3 new (fresh_vnode par (v_mount (set_locked true pv)) type np d) (kret new))
    as (s4 & v4 & E4 & Ok4 & H4 & U4 & L4 & T4 & X4); [unfold s3; hlook|done|].
  assert (heap s !! new = None) as New by (cbn in NewN; by apply lookup_insert_None in NewN as [? _]).
  assert (tree_ok (heap s4) (tree_add t par l new nm type)) as Ht4.
  { eapply tree_ok_updated; [apply U4|]. by eapply tree_ok_updated. }
  exists s4, new, v4. split_and!; [exact E4|done|done| |done|done| |rewrite H4; hlook|done|done| |].
  - intros [[ty ln] Hd]%elem_of_dom. destruct (Htree _ _ _ Hd) as (_ & vn & Rn).
    pose proof (repr_vnode _ _ _ _ _ _ Rn). congruence.
  - exists (set_locked false pv2). rewrite H4. unfold s3. split_and!; [hlook|done|].
    destruct (kept_vnode _ _ _ _ _ K2 P1) as (w & Hw & _ & _ & _ & _ & _ & Hwo & _). cbn in Hwo |- *. congruence.
  - rewrite H4. apply kept_new; [|done]. eapply kept_trans; [|eapply kept_trans; [apply K2|]].
    + eapply kept_set; [done|]. by rewrite bool_decide_eq_true_2.
    + eapply kept_set; [done|]. by rewrite bool_decide_eq_true_2.
  - exists (env s2). split; [exact D2|exact X4].
Qed.

(** The new name is found. *)
Lemma find_child_new nm l new : nm ∉ l.*2 → find_child nm (l ++ [(new, nm)]) = new.
Proof.
  induction l as [|[a an] l IH]; intros Hn; simpl; [by rewrite bool_decide_eq_true_2|].
  apply not_elem_of_cons in Hn as [Ha Hl]. rewrite bool_decide_eq_false_2 by (simpl in Ha; congruence). auto.
Qed.

(** C13: Creating a vnode: in a directory of the RAM file system where the name
    is free, with memory for three blocks, [vfs_create_vnode] returns a new
    vnode that is now the last child of the directory under that name, with no
    children of its own; the rest of the tree is unchanged and the directory's
    lock is free again.  Looking the path up then finds it, since the result is
    again a tree for [vfs_lazy_lookup]. *)
Theorem vfs_create_vnode_adds (fuel : nat) s t par pv l nm type
  (Htree : tree_ok (heap s) t) (Hok : heap_ok s) (Hroom : room 4096 3 (env s))
  (Hpar : t !! par = Some (VNODE_DIR, l)) (Hpv : heap s !! par = Some (OVnode pv))
  (Hlock : locked pv = false) (Hops : ops pv = RAMFS_OPS)
  (Htable : ops_table RAMFS_OPS = Some (ramfs_ops junk fuel))
  (Hname : nm ∉ l.*2) (Hfuel : (length l ≤ fuel)%nat) (Hlen : (length nm < 4095)%nat) :
  ∃ s' new, vfs_create_vnode ops_table par (Some nm) type s = Ret new s' ∧
    (new ∉ dom t) ∧ heap_ok s' ∧ tree_ok (heap s') (tree_add t par l new nm type) ∧
    (∃ pv', heap s' !! par = Some (OVnode pv') ∧ locked pv' = false ∧ ops pv' = RAMFS_OPS) ∧
    (∀ fuel', (S (length l) ≤ fuel')%nat → vfs_lookup fuel' par nm s' = Ret new s').
Proof.
  destruct (vfs_create_run fuel s t par pv l nm type) as (s' & new & nv & Hrun & New0 & New & Hnt & Hok' & Ht' & Hp' & _); [done..|].
  exists s', new. split_and!; [done..|]. intros fuel' Hf'.
  rewrite (vfs_lookup_run fuel' s' (tree_add t par l new nm type) par VNODE_DIR (l ++ [(new, nm)])).
  - by rewrite find_child_new.
  - done.
  - unfold tree_add. destruct (Htree _ _ _ Hpar) as (_ & w & R).
    assert (new ≠ par) by (pose proof (repr_vnode _ _ _ _ _ _ R); congruence).
    by rewrite lookup_insert_ne, lookup_insert_eq.
  - rewrite length_app. simpl. lia.
Qed.
End create.

(** ** File contents *)

Section contents.
Context {E : Type} `{KernelEnvLaws E} (junk : Z).
Implicit Types s : fs E.

(** The file at [p] holds [bytes]: its two sizes and its block agree. *)
Definition file_holds s (p : Z) (bytes : list Z) : Prop :=
  p ≠ 0 ∧ ∃ v d, heap s !! p = Some (OVnode v) ∧ vtype v = VNODE_FILE ∧
    vsize v = Z.of_nat (length bytes) ∧ data v ≠ 0 ∧ heap s !! data v = Some (OData d) ∧
    rsize d = Z.of_nat (length bytes) ∧
    ((rdata d = 0 ∧ bytes = []) ∨ (rdata d ≠ 0 ∧ heap s !! rdata d = Some (OBuf bytes))).

Lemma read_block_run s p off n l :
  heap s !! p = Some (OBuf l) → 0 ≤ off → 0 ≤ n → off + n ≤ Z.of_nat (length l) →
  read_block p off n s = Ret (take (Z.to_nat n) (drop (Z.to_nat off) l)) s.
Proof.
  intros Hp Ho Hn Hl. unfold read_block. destruct (Z.eqb_spec n 0) as [->|]; [by rewrite take_0|].
  kstep. by rewrite (proj2 (Z.leb_le _ _) Hl).
Qed.

Lemma list_inserts_splice {A} i (k l : list A) :
  (i + length k ≤ length l)%nat → list_inserts i k l = take i l ++ k ++ drop (i + length k) l.
Proof.
  intros Hl. rewrite <- (take_drop i l) at 1.
  replace i with (length (take i l) + 0)%nat at 1 by (rewrite length_take; lia).
  rewrite list_inserts_app_r. f_equal. rewrite <- (take_drop (length k) (drop i l)) at 1.
  rewrite list_inserts_0_r; [by rewrite drop_drop|]. rewrite length_take, length_drop. lia.
Qed.

Lemma write_block_run s p off l bytes :
  heap s !! p = Some (OBuf l) → 0 ≤ off → off + Z.of_nat (length bytes) ≤ Z.of_nat (length l) →
  write_block p off bytes s =
  Ret tt (set_heap (<[p := OBuf (take (Z.to_nat off) l ++ bytes ++ drop (Z.to_nat off + length bytes) l)]> (heap s)) s).
Proof.
  intros Hp Ho Hl. unfold write_block. destruct bytes as [|b bytes].
  - simpl. rewrite Nat.add_0_r, take_drop, insert_id by done. by destruct s.
  - kstep. rewrite (proj2 (Z.leb_le _ _) Hl). unfold put, kmod.
    by rewrite list_inserts_splice by lia.
Qed.

(** Enlarging extends the file by bytes nobody wrote. *)
Definition grown_by (bytes : list Z) (size offset : Z) : list Z :=
  if Z.of_nat (length bytes) <=? offset
  then bytes ++ replicate (Z.to_nat (offset + size - Z.of_nat (length bytes))) junk else bytes.

Lemma grow_block s p v d bytes new ns e' :
  heap_ok s → heap s !! p = Some (OVnode v) → heap s !! data v = Some (OData d) →
  rsize d = Z.of_nat (length bytes) → rsize d < ns →
  ((rdata d = 0 ∧ bytes = []) ∨ (rdata d ≠ 0 ∧ heap s !! rdata d = Some (OBuf bytes))) →
  new ≠ 0 → heap s !! new = None → env_inv e' → env_live e' = {[new]} ∪ env_live (env s) →
  ∃ s', (put new (OBuf (replicate (Z.to_nat ns) junk)) ;;;
         let* old := read_block (rdata d) 0 (rsize d) in
         write_block new 0 old ;;;
         kfree (rdata d) ;;;
         put (data v) (OData (RamfsData new ns)) ;;;
         upd_vnode p (set_vsize ns) ;;;
         kret true) (set_env e' s) = Ret true s' ∧ heap_ok s' ∧
    heap s' !! p = Some (OVnode (set_vsize ns v)) ∧ heap s' !! data v = Some (OData (RamfsData new ns)) ∧
    heap s' !! new = Some (OBuf (bytes ++ replicate (Z.to_nat (ns - Z.of_nat (length bytes))) junk)).
Proof.
  intros Hok Hp Hd Hr Hns Hb Hn0 Hn Hinv Hl. kstep.
  assert (new ≠ p) by congruence. assert (new ≠ data v) by congruence. assert (p ≠ data v) by congruence.
  set (s1 := set_heap _ _).
  assert (heap s1 !! new = Some (OBuf (replicate (Z.to_nat ns) junk))) as N1 by (unfold s1; hlook).
  assert (read_block (rdata d) 0 (rsize d) s1 = Ret bytes s1) as Hread.
  { destruct Hb as [[Hz ->]|[Hz Hb]]; [unfold read_block; by rewrite Hr|].
    rewrite (read_block_run s1 _ _ _ bytes); [|unfold s1; hlook|lia..].
    by rewrite Hr, Nat2Z.id, firstn_all. }
  assert (write_block new 0 bytes s1 = Ret tt (set_heap (<[new := OBuf (bytes ++
    replicate (Z.to_nat (ns - Z.of_nat (length bytes))) junk)]> (heap s1)) s1)) as Hwrite.
  { rewrite (write_block_run s1 _ _ _ _ N1); [|lia|rewrite length_replicate; lia].
    rewrite take_0, drop_replicate.
    by replace (Z.to_nat ns - (Z.to_nat 0 + length bytes))%nat with (Z.to_nat (ns - Z.of_nat (length bytes))) by lia. }
  rewrite (kbind_run _ _ _ _ _ Hread), (kbind_run _ _ _ _ _ Hwrite).
  unfold s1. clear s1 N1 Hread Hwrite. destruct Hb as [[Hz ->]|[Hz Hb]].
  - rewrite Hz. rewrite (kbind_run (kfree 0) _ _ tt _ eq_refl). do 2 kstep.
    eexists. split; [reflexivity|]. split_and!; [|hlook..].
    destruct Hok as [_ Hok]. split; [done|]. cbn. rewrite !dom_insert, Hl. apply elem_of_dom_2 in Hp, Hd.
    clear -Hok Hp Hd. set_solver.
  - assert (rdata d ≠ new) as Hrn by congruence. assert (rdata d ≠ p) as Hrp by congruence.
    assert (rdata d ≠ data v) as Hrv by congruence. do 3 kstep.
    eexists. split; [reflexivity|]. split_and!; [|hlook..].
    destruct Hok as [_ Hok]. apply elem_of_dom_2 in Hp, Hd, Hb.
    destruct (env_free_live e' (rdata d) Hinv) as [Hi' Hl']; [rewrite Hl; clear -Hok Hb; set_solver|].
    split; [done|]. cbn. rewrite !dom_insert, !dom_delete, !dom_insert, Hl', Hl. clear -Hok Hp Hd Hb Hrn Hrp Hrv. set_solver.
Qed.

Lemma ramfs_grow_run s p v bytes size offset :
  file_holds s p bytes → heap s !! p = Some (OVnode v) → heap_ok s → room (offset + size) 1 (env s) →
  0 ≤ offset → 0 ≤ size → offset + size ≤ 2 ^ 31 →
  ∃ s' n, ramfs_grow junk p v size offset s = Ret true s' ∧ heap_ok s' ∧
    file_holds s' p (grown_by bytes size offset) ∧
    heap s' !! p = Some (OVnode (set_vsize n v)).
Proof.
  intros (Hp0 & v' & d & Hp & Hty & Hsz & Hd0 & Hd & Hr & Hb) Hp' Hok Hroom Ho Hn Hlt.
  assert (v' = v) as -> by congruence. unfold ramfs_grow, grown_by. kstep. rewrite Hr, u64_small by lia.
  assert (∃ s' n, (kret true : kernel (fs E) bool) s = Ret true s' ∧ heap_ok s' ∧ file_holds s' p bytes ∧
    heap s' !! p = Some (OVnode (set_vsize n v))) as Hsame.
  { exists s, (vsize v). split_and!; [done|done|split; [done|by exists v, d]|by rewrite Hp; destruct v]. }
  destruct (Z.leb_spec (Z.of_nat (length bytes)) offset); [|done].
  destruct (Z.ltb_spec (Z.of_nat (length bytes)) (offset + size)).
  - destruct (kmalloc_run s (offset + size) (offset + size) 0) as (new & e' & M & N0 & NN & _ & I & L & _); [done|done|lia|lia|].
    rewrite (kbind_run _ _ _ _ _ M), (proj2 (Z.eqb_neq new 0)) by done. rewrite <- Hr.
    destruct (grow_block s p v d bytes new (offset + size) e') as (s' & -> & Ok' & Hp2 & Hd2 & Hn2); try done; [lia|].
    exists s', (offset + size). split_and!; [done|done| |done]. split; [done|].
    eexists _, _. rewrite length_app, length_replicate.
    split_and!; [done|done|cbn; lia|done|done|cbn; lia|]. right. split; [done|]. cbn. rewrite Hn2. by rewrite Hr.
  - replace (Z.to_nat (offset + size - Z.of_nat (length bytes))) with 0%nat by lia. by rewrite app_nil_r.
Qed.

(** The bytes of a file after writing [buf] at [offset]. *)
Definition write_at (bytes buf : list Z) (offset : Z) : list Z :=
  let grown := grown_by bytes (Z.of_nat (length buf)) offset in
  take (Z.to_nat offset) grown ++ buf ++ drop (Z.to_nat offset + length buf) grown.

(** Storing into a file that is large enough. *)
Lemma store_run s p v bytes buf offset :
  file_holds s p bytes → heap s !! p = Some (OVnode v) → heap_ok s →
  0 ≤ offset → offset + Z.of_nat (length buf) ≤ Z.of_nat (length bytes) → Z.of_nat (length bytes) < 2 ^ 64 →
  let size := Z.of_nat (length buf) in
  ∃ s', (let* d := get_data (data v) in
         write_block (rdata d) offset buf ;;;
         let* v := get_vnode p in
         let new_size := if u64 (offset + size) <? vsize v then vsize v else u64 (offset + size) in
         upd_vnode p (set_vsize new_size) ;;;
         upd_data (data v) (λ d, RamfsData (rdata d) new_size) ;;;
         kret (s32 size)) s = Ret (s32 size) s' ∧ heap_ok s' ∧
    file_holds s' p (take (Z.to_nat offset) bytes ++ buf ++ drop (Z.to_nat offset + length buf) bytes) ∧
    ∃ n, heap s' !! p = Some (OVnode (set_vsize n v)).
Proof.
  intros (Hp0 & v' & d & Hp & Hty & Hsz & Hd0 & Hd & Hr & Hb) Hp' Hok Ho Hn Hlt size.
  assert (v' = v) as -> by congruence. kstep.
  set (bytes' := take (Z.to_nat offset) bytes ++ buf ++ drop (Z.to_nat offset + length buf) bytes).
  assert (length bytes' = length bytes) as Hlen.
  { unfold bytes'. rewrite !length_app, length_take, length_drop. lia. }
  assert (p ≠ data v) as Hpd by congruence.
  assert (∃ s1, write_block (rdata d) offset buf s = Ret tt s1 ∧ heap_ok s1 ∧
    heap s1 !! p = Some (OVnode v) ∧ heap s1 !! data v = Some (OData d) ∧
    ((rdata d = 0 ∧ bytes' = []) ∨ (rdata d ≠ 0 ∧ heap s1 !! rdata d = Some (OBuf bytes'))))
    as (s1 & Hw & Ok1 & P1 & D1 & B1).
  { destruct Hb as [[Hz ->]|[Hz Hb]].
    - destruct buf; [|simpl in Hn; lia]. exists s. split_and!; try done. left. split; [done|].
      by destruct bytes'.
    - rewrite (write_block_run s _ _ _ _ Hb) by lia. eexists. split; [reflexivity|].
      split_and!; [by eapply heap_ok_set|hlook|hlook|]. right. split; [done|]. hlook. }
  rewrite (kbind_run _ _ _ _ _ Hw). kstep. rewrite Hsz, u64_small by lia.
  assert ((if offset + size <? Z.of_nat (length bytes) then Z.of_nat (length bytes) else offset + size) =
    Z.of_nat (length bytes')) as -> by (zcases; lia).
  cbv zeta. unfold upd_data. do 4 kstep. eexists. split; [reflexivity|].
  split; [|split; [split; [done|]|eexists; hlook]].
  - eapply heap_ok_set; [|cbn; rewrite lookup_insert_ne by done; exact D1]. by eapply heap_ok_set.
  - eexists _, _. split_and!; [hlook|done|done|done|hlook|done|].
    destruct B1 as [B1|[Hz B1]]; [by left|right]. split; [done|]. cbn [rdata].
    assert (rdata d ≠ p) by congruence. assert (rdata d ≠ data v) by congruence. hlook.
Qed.

Lemma ramfs_write_run s p v bytes buf offset :
  file_holds s p bytes → heap s !! p = Some (OVnode v) → heap_ok s → room (offset + Z.of_nat (length buf)) 1 (env s) →
  0 ≤ offset → Z.of_nat (length bytes) + offset + Z.of_nat (length buf) < 2 ^ 31 →
  Z.of_nat (length bytes) ≤ offset ∨ offset + Z.of_nat (length buf) ≤ Z.of_nat (length bytes) →
  ∃ s', ramfs_write junk p (Some buf) (Z.of_nat (length buf)) offset s = Ret (Z.of_nat (length buf)) s' ∧
    heap_ok s' ∧ file_holds s' p (write_at bytes buf offset) ∧ ∃ n, heap s' !! p = Some (OVnode (set_vsize n v)).
Proof.
  intros Hfile Hpv Hok Hroom Hoff Hsize Hfits. pose proof Hfile as (Hp0 & v' & d & Hp & Hty & _ & Hd0 & _).
  assert (v' = v) as -> by congruence.
  unfold ramfs_write. rewrite (proj2 (Z.eqb_neq p 0)) by done. kstep. rewrite Hty.
  change (VNODE_FILE =? VNODE_FILE) with true. rewrite (proj2 (Z.eqb_neq (data v) 0)) by done. cbn [negb].
  destruct (ramfs_grow_run s p v bytes (Z.of_nat (length buf)) offset) as (s1 & n1 & Hg & Ok1 & F1 & P1);
    try done; try lia.
  rewrite (kbind_run _ _ _ _ _ Hg). cbn [negb].
  assert (Z.of_nat (length (grown_by bytes (Z.of_nat (length buf)) offset)) =
    Z.max (Z.of_nat (length bytes)) (if Z.of_nat (length bytes) <=? offset then offset + Z.of_nat (length buf) else 0)) as Hgl.
  { unfold grown_by. zcases; [rewrite length_app, length_replicate|]; lia. }
  destruct (store_run s1 p (set_vsize n1 v) (grown_by bytes (Z.of_nat (length buf)) offset) buf offset) as (s2 & Hst & Ok2 & F2 & n2 & P2);
    try done; [rewrite Hgl; zcases; lia|rewrite Hgl; zcases; lia|].
  exists s2. change (data (set_vsize n1 v)) with (data v) in Hst. split_and!; [|done|done|by exists n2].
  etrans; [exact Hst|]. f_equal. unfold s32. rewrite Z.mod_small; lia.
Qed.

Lemma ramfs_read_run s p bytes buf size offset :
  file_holds s p bytes → buf ≠ 0 → 0 ≤ offset → 0 ≤ size < 2 ^ 31 → Z.of_nat (length bytes) < 2 ^ 64 →
  let got := take (Z.to_nat size) (drop (Z.to_nat offset) bytes) in
  ramfs_read p buf size offset s = Ret (Z.of_nat (length got), got) s.
Proof.
  intros (Hp0 & v & d & Hp & Hty & Hsz & Hd0 & Hd & Hr & Hb) Hbuf Ho Hs Hlt got.
  unfold ramfs_read. rewrite (proj2 (Z.eqb_neq p 0)) by done. kstep. rewrite Hty.
  change (VNODE_FILE =? VNODE_FILE) with true. rewrite (proj2 (Z.eqb_neq (data v) 0)) by done. cbn [negb].
  kstep. rewrite Hr. destruct (Z.leb_spec (Z.of_nat (length bytes)) offset).
  - unfold got. rewrite drop_ge by lia. by rewrite take_nil.
  - rewrite (proj2 (Z.eqb_neq buf 0)), u64_small by (done || lia).
    destruct Hb as [[_ ->]|[_ Hb]]; [simpl in *; lia|].
    set (n := if _ <? _ then _ else _).
    assert (0 ≤ n ≤ size ∧ offset + n ≤ Z.of_nat (length bytes)) as [Hn Hn'] by (unfold n; zcases; lia).
    rewrite (kbind_run _ _ _ _ _ (read_block_run s _ offset n bytes Hb Ho (proj1 Hn) Hn')).
    assert (take (Z.to_nat n) (drop (Z.to_nat offset) bytes) = got) as ->.
    { unfold got, n. zcases; [|done]. rewrite !firstn_all2; [done|rewrite length_drop; lia..]. }
    unfold kret. do 2 f_equal. unfold got. rewrite length_take, length_drop. unfold s32.
    rewrite Z.mod_small; unfold n; zcases; lia.
Qed.

(** Where the bytes of a write can be found afterwards. *)
Lemma write_at_read bytes buf offset :
  0 ≤ offset →
  Z.of_nat (length bytes) ≤ offset ∨ offset + Z.of_nat (length buf) ≤ Z.of_nat (length bytes) →
  take (length buf) (drop (Z.to_nat offset) (write_at bytes buf offset)) = buf ∧
  (length (write_at bytes buf offset) ≤ Z.to_nat (Z.of_nat (length bytes) + offset + Z.of_nat (length buf)))%nat.
Proof.
  intros Ho Hf. unfold write_at. set (g := grown_by _ _ _).
  assert (Z.to_nat offset + length buf ≤ length g ∧
          length g ≤ Z.to_nat (Z.of_nat (length bytes) + offset + Z.of_nat (length buf)))%nat as [Hg Hg'].
  { unfold g, grown_by. zcases; [rewrite length_app, length_replicate|]; lia. }
  assert (length (take (Z.to_nat offset) g) = Z.to_nat offset) as Hlen by (rewrite length_take; lia).
  split.
  - rewrite drop_app_length' by done. by rewrite take_app_length.
  - rewrite !length_app, length_drop, Hlen. lia.
Qed.

(** C17: Writing to a file of the RAM file system and reading it back.  A write
    that starts at or beyond the end of the file, or stays inside it, returns
    its size; the file then holds the written bytes at that offset, its old
    bytes elsewhere, and bytes of fresh memory in the gap between the old end
    and the offset; a read of that many bytes at that offset returns exactly
    the bytes written. *)
Theorem ramfs_write_read s p bytes buf offset dest
  (Hfile : file_holds s p bytes) (Hok : heap_ok s)
  (Hroom : room (offset + Z.of_nat (length buf)) 1 (env s)) (Hdest : dest ≠ 0)
  (Hoff : 0 ≤ offset) (Hsize : Z.of_nat (length bytes) + offset + Z.of_nat (length buf) < 2 ^ 31)
  (Hfits : Z.of_nat (length bytes) ≤ offset ∨ offset + Z.of_nat (length buf) ≤ Z.of_nat (length bytes)) :
  ∃ s', ramfs_write junk p (Some buf) (Z.of_nat (length buf)) offset s = Ret (Z.of_nat (length buf)) s' ∧
    heap_ok s' ∧ file_holds s' p (write_at bytes buf offset) ∧
    ramfs_read p dest (Z.of_nat (length buf)) offset s' = Ret (Z.of_nat (length buf), buf) s'.
Proof.
  pose proof Hfile as (_ & v & _ & Hv & _).
  destruct (ramfs_write_run s p v bytes buf offset) as (s' & Hw & Ok' & F' & _); try done.
  exists s'. split_and!; [done..|].
  destruct (write_at_read bytes buf offset Hoff Hfits) as [Hr Hl].
  rewrite (ramfs_read_run s' p (write_at bytes buf offset)) by (done || lia).
  by rewrite Nat2Z.id, Hr.
Qed.

(** A write that starts inside a file and ends beyond it is not enlarged for:
    [ramfs_write] only makes room when the offset is at or past the end, so the
    copy runs over the end of the file's heap block. *)
Theorem ramfs_write_overflows s p bytes buf offset
  (Hfile : file_holds s p bytes)
  (Hspan : 0 ≤ offset < Z.of_nat (length bytes) ∧ Z.of_nat (length bytes) < offset + Z.of_nat (length buf)) :
  ramfs_write junk p (Some buf) (Z.of_nat (length buf)) offset s = Fault.
Proof.
  destruct Hfile as (Hp0 & v & d & Hp & Hty & Hsz & Hd0 & Hd & Hr & Hb).
  unfold ramfs_write. rewrite (proj2 (Z.eqb_neq p 0)) by done. kstep. rewrite Hty.
  change (VNODE_FILE =? VNODE_FILE) with true. rewrite (proj2 (Z.eqb_neq (data v) 0)) by done. cbn [negb].
  assert (ramfs_grow junk p v (Z.of_nat (length buf)) offset s = Ret true s) as Hg.
  { unfold ramfs_grow. kstep. by rewrite Hr, (proj2 (Z.leb_gt _ _)) by lia. }
  rewrite (kbind_run _ _ _ _ _ Hg). cbn [negb]. kstep.
  destruct Hb as [[_ ->]|[_ Hb]]; [simpl in Hspan; lia|].
  destruct buf as [|b buf]; [simpl in Hspan; lia|].
  assert (write_block (rdata d) offset (b :: buf) s = Fault) as Hw.
  { unfold write_block. kstep. by rewrite (proj2 (Z.leb_gt _ _)) by lia. }
  unfold kbind at 1. by rewrite Hw.
Qed.
(** Changing the lock or the times of a file does not change its contents. *)
Lemma file_holds_touch s p v v' bytes :
  file_holds s p bytes → heap s !! p = Some (OVnode v) → vtype v' = vtype v → vsize v' = vsize v → data v' = data v →
  file_holds (set_heap (<[p := OVnode v']> (heap s)) s) p bytes.
Proof.
  intros (Hp0 & w & d & Hp & Hty & Hsz & Hd0 & Hd & Hr & Hb) Hpv E1 E2 E3. assert (w = v) as -> by congruence.
  split; [done|]. exists v', d. assert (data v ≠ p) by congruence. cbn. rewrite E1, E2, E3.
  split_and!; try done; [apply lookup_insert_eq|by rewrite lookup_insert_ne|].
  destruct Hb as [Hb|[Hb0 Hb]]; [by left|right]. assert (rdata d ≠ p) by congruence. by rewrite lookup_insert_ne.
Qed.

Lemma file_holds_env s p bytes e : file_holds s p bytes → file_holds (set_env e s) p bytes.
Proof. by destruct s. Qed.

(** A file of the RAM file system that nobody is using. *)
Definition free_file s (p : Z) (bytes : list Z) : Prop :=
  file_holds s p bytes ∧ ∃ v, heap s !! p = Some (OVnode v) ∧ locked v = false ∧ ops v = RAMFS_OPS.

Lemma free_file_size s p bytes : free_file s p bytes →
  ∃ v, heap s !! p = Some (OVnode v) ∧ vsize v = Z.of_nat (length bytes).
Proof. intros [(_ & v & _ & Hp & _ & Hsz & _) _]. eauto. Qed.

Context (ops_table : Z → option (vnode_ops E)) (fuel : nat) (Htable : ops_table RAMFS_OPS = Some (ramfs_ops junk fuel)).

(** [vfs_read] changes nothing. *)
Lemma vfs_read_run s p bytes buf size :
  free_file s p bytes → buf ≠ 0 → 0 ≤ size < 2 ^ 31 → Z.of_nat (length bytes) < 2 ^ 64 →
  let got := take (Z.to_nat size) bytes in
  vfs_read ops_table p buf size 0 s = Ret (Z.of_nat (length got), got) s.
Proof.
  intros [Hf (v & Hp & Hl & Hops)] Hbuf Hsize Hlen got. pose proof Hf as (_ & w & _ & Hp' & Hty & _). assert (w = v) as -> by congruence.
  unfold vfs_read. do 2 kstep. cbn [vtype ops set_locked]. rewrite Hty, Hops.
  change (VNODE_FILE =? VNODE_DIR) with false. change (RAMFS_OPS =? 0) with false. cbv beta iota zeta.
  rewrite Htable. cbn [kopt]. kstep. cbn [op_read ramfs_ops].
  pose proof (file_holds_touch s p v (set_locked true v) bytes Hf Hp eq_refl eq_refl eq_refl) as Hf1. set (s1 := set_heap _ s) in *.
  rewrite (kbind_run _ _ _ _ _ (ramfs_read_run s1 p bytes buf size 0 Hf1 Hbuf ltac:(lia) Hsize Hlen)).
  rewrite (kbind_run _ _ _ _ _ (release_run s1 p (set_locked true v) (lookup_insert_eq _ _ _))).
  unfold kret. rewrite drop_0. f_equal. unfold s1, set_heap. cbn. rewrite insert_insert_eq, insert_id; [by destruct s|].
  rewrite Hp. do 2 f_equal. destruct v; cbn in Hl |- *. by rewrite Hl.
Qed.

(** [vfs_write] writes, and stamps the file. *)
Lemma vfs_write_run s p bytes buf offset :
  free_file s p bytes → heap_ok s → room (offset + Z.of_nat (length buf)) 1 (env s) →
  0 ≤ offset → Z.of_nat (length bytes) + offset + Z.of_nat (length buf) < 2 ^ 31 →
  Z.of_nat (length bytes) ≤ offset ∨ offset + Z.of_nat (length buf) ≤ Z.of_nat (length bytes) →
  ∃ s', vfs_write ops_table p (Some buf) (Z.of_nat (length buf)) offset s = Ret (Z.of_nat (length buf)) s' ∧
    heap_ok s' ∧ free_file s' p (write_at bytes buf offset).
Proof.
  intros [Hf (v & Hp & Hl & Hops)] Hok Hroom Ho Hsize Hfits.
  pose proof Hf as (_ & w & _ & Hp' & Hty & _). assert (w = v) as -> by congruence.
  unfold vfs_write. do 2 kstep. cbn [vtype ops set_locked]. rewrite Hty, Hops.
  change (VNODE_FILE =? VNODE_DIR) with false. change (RAMFS_OPS =? 0) with false. cbv beta iota zeta.
  rewrite Htable. cbn [kopt]. kstep. cbn [op_write ramfs_ops].
  pose proof (file_holds_touch s p v (set_locked true v) bytes Hf Hp eq_refl eq_refl eq_refl) as Hf1. set (s1 := set_heap _ s) in *.
  assert (heap_ok s1) as Ok1 by (by eapply heap_ok_set).
  destruct (ramfs_write_run s1 p (set_locked true v) bytes buf offset Hf1 (lookup_insert_eq _ _ _) Ok1 Hroom Ho Hsize Hfits)
    as (s2 & Hw & Ok2 & F2 & n & P2).
  rewrite (kbind_run _ _ _ _ _ Hw), (kbind_run _ _ _ _ _ (release_run s2 p _ P2)).
  set (v2 := set_locked false (set_vsize n (set_locked true v))). set (s3 := set_heap _ s2).
  assert (heap s3 !! p = Some (OVnode v2)) as P3 by apply lookup_insert_eq.
  assert (heap_ok s3) as Ok3 by (by eapply heap_ok_set).
  assert (file_holds s3 p (write_at bytes buf offset)) as F3 by (by eapply file_holds_touch).
  rewrite <- kbind_assoc.
  destruct (touch_run s3 p v2 set_modify_time P3 Ok3) as (s4 & _ & E4 & Ok4 & _); [done|].
  rewrite (kbind_run _ _ _ _ _ E4). exists s4. split; [done|]. split; [done|].
  assert (∃ x e, s4 = set_heap (<[p := OVnode (set_modify_time x v2)]> (heap s3)) (set_env e s3)) as (x & e & ->).
  { unfold kbind, now in E4. destruct (env_time (env s3)) as [x e]. rewrite (upd_vnode_run _ _ v2) in E4 by done. injection E4 as <-. eauto. }
  split.
  - change (file_holds (set_env e (set_heap (<[p := OVnode (set_modify_time x v2)]> (heap s3)) s3)) p (write_at bytes buf offset)).
    by eapply file_holds_env, file_holds_touch.
  - exists (set_modify_time x v2). split; [apply lookup_insert_eq|]. by split.
Qed.

End contents.

(** *** Witnesses: a root directory with one file of three bytes *)

Definition one_file : fs demo_env :=
  Fs (<[1 := OMount (Mount 2 0 0 (SLit []) (SLit RAMFS) 0)]>
     (<[2 := OVnode (Vnode 2 0 3 1 VNODE_DIR (SLit ROOT_NAME) 0 0 0 0 0x1ed 0 0 0 RAMFS_OPS 0 false)]>
     (<[3 := OVnode (Vnode 2 0 0 1 VNODE_FILE (SHeap 4) 3 5 0 0 0x1a4 0 0 0 RAMFS_OPS 0 false)]>
     (<[4 := OStr [97]]> (<[5 := OData (RamfsData 6 3)]> (<[6 := OBuf [10; 20; 30]]> ∅))))))
     (DemoEnv 10 {[1; 2; 3; 4; 5; 6]} 0) 1 0 0 [].

Definition one_file_view : view := <[2 := (VNODE_DIR, [(3, [97])])]> (<[3 := (VNODE_FILE, [])]> ∅).

Lemma one_file_tree : tree_ok (heap one_file) one_file_view.
Proof.
  intros p ty l Hp. unfold one_file_view in Hp. view_cases Hp; (split; [done|]); eexists;
    (constructor; [reflexivity|reflexivity| |apply (bool_decide_unpack _); by vm_compute
                  |apply (bool_decide_unpack _); by vm_compute|]).
  - split_and!; [done..|]; eexists; by split_and!.
  - intros a Ha; apply list_elem_of_singleton in Ha as ->; split; [by vm_compute|by eexists].
  - done.
  - by intros a ?%not_elem_of_nil.
Qed.

Lemma one_file_ok : heap_ok one_file.
Proof. split; [done|]. apply (bool_decide_unpack _). by vm_compute. Qed.

Lemma one_file_holds : file_holds one_file 3 [10; 20; 30].
Proof. split; [done|]. eexists _, _. split_and!; try reflexivity; try done. by right. Qed.

Definition demo_ops (p : Z) : option (vnode_ops demo_env) :=
  if p =? RAMFS_OPS then Some (ramfs_ops 77 5) else None.

Lemma vfs_create_vnode_adds_witness :
  ∃ s' new, vfs_create_vnode demo_ops 2 (Some [98]) VNODE_DIR one_file = Ret new s' ∧
    vfs_lookup 5 2 [98] s' = Ret new s'.
Proof.
  destruct (vfs_create_vnode_adds demo_ops 77 5 one_file one_file_view 2 _ [(3, [97])] [98] VNODE_DIR
    one_file_tree one_file_ok (demo_room 4096 3 (env one_file) ltac:(by apply Nat.leb_le)) eq_refl eq_refl eq_refl eq_refl eq_refl)
    as (s' & new & H1 & _ & _ & _ & _ & H2);
    [apply (bool_decide_unpack _); by vm_compute|by apply Nat.leb_le|by apply Nat.ltb_lt|].
  exists s', new. split; [exact H1|]. apply H2. simpl. lia.
Defined.

Lemma ramfs_write_read_witness :
  ∃ s', ramfs_write 77 3 (Some [1; 2]) 2 5 one_file = Ret 2 s' ∧
    file_holds s' 3 [10; 20; 30; 77; 77; 1; 2] ∧ ramfs_read 3 1 2 5 s' = Ret (2, [1; 2]) s'.
Proof.
  destruct (ramfs_write_read 77 one_file 3 [10; 20; 30] [1; 2] 5 1 one_file_holds one_file_ok)
    as (s' & H1 & _ & H2 & H3);
    [apply demo_room; simpl; lia|done|lia|simpl; lia|simpl; lia|].
  exists s'. split; [exact H1|]. split; [exact H2|exact H3].
Defined.

Lemma ramfs_write_overflows_witness : ramfs_write 77 3 (Some [1; 2]) 2 2 one_file = Fault.
Proof. apply (ramfs_write_overflows 77 one_file 3 [10; 20; 30] [1; 2] 2 one_file_holds). simpl. lia. Defined.
