(* ===== verification/Ustar.v ===== *)
(** * The boot archive

    What the USTAR loader of [fs/ramfs.c] makes of an archive.  The abstract
    state is a finite map from paths to nodes; [rep] relates it to the vnodes in
    the heap; an archive in memory is a list of entries.  The theorem: loading an
    archive whose entries come in an order the loader can use adds exactly those
    entries to the map. *)

From stdpp Require Import base gmap list strings.
From Stdlib Require Import ZArith Lia.
From S2P Require Import Prelude Ram CString Vnode Vfs Ramfs.
#[local] Open Scope Z_scope.

(** ** Paths and nodes *)

Record node := Node { n_dir : bool; n_mode : Z; n_mtime : Z; n_bytes : list Z }.

(** The files and directories under the root. *)
Abbreviation tree := (gmap (list (list Z)) node).

(** Following names through the abstract vnodes. *)
Definition child_of (t : view) (p : Z) (nm : list Z) : option Z :=
  '(_, l) ← t !! p; let c := find_child nm l in if c =? 0 then None else Some c.
Definition walk (t : view) (cur : Z) (names : list (list Z)) : option Z :=
  foldl (λ o nm, p ← o; child_of t p nm) (Some cur) names.

Lemma walk_snoc t cur names nm : walk t cur (names ++ [nm]) = (p ← walk t cur names; child_of t p nm).
Proof. unfold walk. by rewrite foldl_snoc. Qed.

Lemma walk_cons t cur x names : walk t cur (x :: names) = (p ← child_of t cur x; walk t p names).
Proof.
  unfold walk. cbn [foldl]. change (Some cur ≫= _) with (child_of t cur x). destruct (child_of t cur x) as [c|]; [done|].
  cbn. induction names as [|y names IH]; [done|]. exact IH.
Qed.

Lemma child_of_find t p nm c :
  child_of t p nm = Some c → c ≠ 0 ∧ ∃ ty l, t !! p = Some (ty, l) ∧ find_child nm l = c.
Proof.
  unfold child_of. destruct (t !! p) as [[ty l]|]; [|done]. cbn. destruct (Z.eqb_spec (find_child nm l) 0) as [|Hc]; [done|].
  intros [= <-]. split; [done|]. by exists ty, l.
Qed.

Lemma child_of_in t p nm c :
  child_of t p nm = Some c → c ≠ 0 ∧ ∃ ty l, t !! p = Some (ty, l) ∧ (c, nm) ∈ l.
Proof.
  intros (Hc & ty & l & Hp & <-)%child_of_find. split; [done|]. exists ty, l. split; [done|]. by apply find_child_in.
Qed.

Lemma find_child_app x l new nm :
  nm ∉ l.*2 → find_child x (l ++ [(new, nm)]) = if bool_decide (x = nm) then new else find_child x l.
Proof.
  intros Hn. case_bool_decide as Hx; [subst; by apply find_child_new|].
  clear Hn. induction l as [|[a an] l IH]; simpl; [|by rewrite IH]. by rewrite bool_decide_eq_false_2 by congruence.
Qed.

Section walks.
Context (h : gmap Z obj) (t : view) (root : Z) (Htree : tree_ok h t) (Hroot : root ∈ dom t)
  (Htop : ∀ p ty l, t !! p = Some (ty, l) → root ∉ l.*1).

Lemma child_of_parent p nm c :
  child_of t p nm = Some c → c ∈ dom t ∧ c ≠ root ∧ ∃ v, h !! c = Some (OVnode v) ∧ parent v = p.
Proof using Htree Htop.
  intros (_ & ty & l & Hp & Hin)%child_of_in. destruct (Htree _ _ _ Hp) as (_ & v & R).
  assert (c ∈ l.*1) as Hc by exact (list_elem_of_fmap_2 fst _ _ Hin).
  destruct (repr_child _ _ _ _ _ _ R c Hc) as [Hd Hv]. split_and!; [done| |done].
  intros ->. exact (Htop _ _ _ Hp Hc).
Qed.

Lemma walk_dom names p : walk t root names = Some p → p ∈ dom t.
Proof using Htree Hroot Htop.
  destruct names as [|x names _] using rev_ind; [by intros [= <-]|]. rewrite walk_snoc.
  destruct (walk t root names) as [q|]; [|done]. cbn. intros Hc. by apply child_of_parent in Hc as [? _].
Qed.

(** Different paths lead to different vnodes. *)
Lemma walk_inj n1 n2 p : walk t root n1 = Some p → walk t root n2 = Some p → n1 = n2.
Proof using Htree Hroot Htop.
  revert n2 p. induction n1 as [|x1 n1 IH] using rev_ind; intros n2 p H1 H2.
  - destruct n2 as [|x2 n2 _] using rev_ind; [done|]. exfalso. injection H1 as <-. rewrite walk_snoc in H2.
    destruct (walk t root n2) as [q|]; [|done]. by apply child_of_parent in H2 as (_ & ? & _).
  - rewrite walk_snoc in H1. destruct (walk t root n1) as [q1|] eqn:W1; [|done]. cbn in H1.
    destruct (child_of_parent _ _ _ H1) as (_ & Hr & v1 & Hv1 & Hp1).
    destruct n2 as [|x2 n2 _] using rev_ind; [injection H2 as <-; done|].
    rewrite walk_snoc in H2. destruct (walk t root n2) as [q2|] eqn:W2; [|done]. cbn in H2.
    destruct (child_of_parent _ _ _ H2) as (_ & _ & v2 & Hv2 & Hp2).
    assert (q2 = q1) as -> by congruence. rewrite (IH n2 q1 eq_refl W2). do 2 f_equal.
    apply child_of_in in H1 as (_ & ty & l & Hq & I1), H2 as (_ & ty' & l' & Hq' & I2).
    rewrite Hq in Hq'. injection Hq' as <- <-. destruct (Htree _ _ _ Hq) as (_ & v & R).
    pose proof (elem_of_list_to_map_1 (M := gmap Z) l p x1 (repr_nodup _ _ _ _ _ _ R) I1) as M1.
    pose proof (elem_of_list_to_map_1 (M := gmap Z) l p x2 (repr_nodup _ _ _ _ _ _ R) I2) as M2. congruence.
Qed.

(** A new child adds one path. *)
Lemma walk_add path par l new nm ty names :
  walk t root path = Some par → t !! par = Some (VNODE_DIR, l) → nm ∉ l.*2 → new ∉ dom t → new ≠ 0 →
  walk (tree_add t par l new nm ty) root names = if bool_decide (names = path ++ [nm]) then Some new else walk t root names.
Proof using Htree Hroot Htop.
  intros Hpath Hpar Hnm Hnew Hn0. assert (par ≠ new) as Hpn by (intros ->; by apply Hnew, (walk_dom path)).
  induction names as [|x names IH] using rev_ind.
  { rewrite bool_decide_eq_false_2; [done|]. by destruct path. }
  rewrite !walk_snoc, IH. case_bool_decide as Hn.
  - subst names. rewrite bool_decide_eq_false_2; [|intros E%(f_equal length); rewrite !length_app in E; simpl in E; lia].
    assert (child_of t par nm = None) as Hold by (unfold child_of; rewrite Hpar; cbn; by rewrite find_child_none).
    rewrite walk_snoc, Hpath. cbn [mbind option_bind]. rewrite Hold. unfold child_of, tree_add. by rewrite lookup_insert_eq.
  - destruct (walk t root names) as [p|] eqn:W; cbn.
    + destruct (decide (p = par)) as [->|Hpp].
      * assert (names = path) as -> by (by apply (walk_inj _ _ par)).
        unfold child_of, tree_add. rewrite lookup_insert_ne, lookup_insert_eq, Hpar by done. cbn.
        rewrite find_child_app by done. destruct (decide (x = nm)) as [->|Hx].
        -- rewrite !bool_decide_eq_true_2 by done. by rewrite (proj2 (Z.eqb_neq new 0)).
        -- rewrite !bool_decide_eq_false_2; [done| |done]. intros [_ ?]%app_inj_tail. done.
      * assert (p ≠ new) by (intros ->; by apply Hnew, (walk_dom names)).
        unfold child_of, tree_add. rewrite !lookup_insert_ne by done.
        rewrite bool_decide_eq_false_2; [done|]. intros [-> _]%app_inj_tail. congruence.
    + rewrite bool_decide_eq_false_2; [done|]. intros [-> _]%app_inj_tail. congruence.
Qed.
End walks.

(** ** The abstract file system *)

(** The next [k] allocations of up to [max] bytes and readings of the clock, in
    any order: the allocations succeed. *)
Fixpoint supply {E} `{KernelEnv E} (max : Z) (k : nat) (e : E) : Prop :=
  match k with
  | O => True
  | S k => (∀ n p e', 0 < n ≤ max → env_malloc e n = (p, e') → p ≠ 0 ∧ supply max k e') ∧ supply max k (env_time e).2
  end.

Section abstract.
Context {E : Type} `{KernelEnvLaws E}.
Implicit Types s : fs E.

Lemma supply_room max max' k e : max' ≤ max → supply max k e → room max' k e.
Proof.
  intros Hm. revert e. induction k as [|k IH]; intros e; [done|]. intros [Hs _] n p e' Hn Em.
  destruct (Hs n p e' ltac:(lia) Em). auto.
Qed.

Lemma supply_weaken max k j e : (j ≤ k)%nat → supply max k e → supply max j e.
Proof.
  revert j e. induction k as [|k IH]; intros [|j] e Hj; [done|lia|done|]. intros [Hs Ht]. split.
  - intros n p e' Hn Em. destruct (Hs n p e' Hn Em). split; [done|]. apply IH; [lia|done].
  - apply IH; [lia|done].
Qed.

Lemma supply_drawn max max' k j e e' : max' ≤ max → drawn max' k e e' → supply max (k + j) e → supply max j e'.
Proof.
  intros Hm. revert e. induction k as [|k IH]; intros e; cbn [drawn]; [by intros ->|].
  intros (n & p & e1 & Hn & Em & Hd) [Hs _]. apply (IH e1 Hd). apply (Hs n p e1); [lia|done].
Qed.

Lemma supply_ticked max k j e : supply max (k + j) e → supply max j (ticked k e).
Proof.
  revert j. induction k as [|k IH]; intros j Hs; [done|]. unfold ticked. rewrite Nat.iter_succ. fold (ticked k e).
  apply (IH (S j)). by replace (k + S j)%nat with (S k + j)%nat by lia.
Qed.

(** The vnode at [p] is the node [n], in the RAM file system and not in use. *)
Definition node_at s (p : Z) (n : node) : Prop :=
  (∃ v, heap s !! p = Some (OVnode v) ∧ vtype v = (if n_dir n then VNODE_DIR else VNODE_FILE) ∧
     mode v = n_mode n ∧ creation_time v = n_mtime n ∧ ops v = RAMFS_OPS ∧ locked v = false) ∧
  (n_dir n = false → file_holds s p (n_bytes n)).

(** The vnodes under [root] are the nodes of [F]. *)
Record rep s (t : view) (root : Z) (F : tree) : Prop := {
  rep_tree : tree_ok (heap s) t;
  rep_root : root ∈ dom t;
  rep_top : ∀ p ty l, t !! p = Some (ty, l) → root ∉ l.*1;
  rep_leaf : ∀ p ty l, t !! p = Some (ty, l) → l ≠ [] → ty = VNODE_DIR;
  rep_node : ∀ names n, F !! names = Some n → ∃ p, walk t root names = Some p ∧ node_at s p n;
  rep_only : ∀ names p, walk t root names = Some p → is_Some (F !! names);
}.

Lemma file_holds_kept s s' par p bytes :
  kept par (heap s) (heap s') → file_holds s p bytes → file_holds s' p bytes.
Proof.
  intros K (Hp0 & v & d & Hv & Hty & Hsz & Hd0 & Hd & Hr & Hb). split; [done|].
  destruct (kept_vnode _ _ _ _ _ K Hv) as (v' & Hv' & Ety & Esz & Ed & _).
  destruct (K _ _ Hd) as ([] & Hd' & Ec); cbn in Ec; try done. injection Ec as ->.
  exists v', d. rewrite Ety, Esz, Ed. split_and!; try done.
  destruct Hb as [?|[Hb0 Hb]]; [by left|right]. split; [done|].
  destruct (K _ _ Hb) as ([] & Hb' & Ec); cbn in Ec; try done. by injection Ec as ->.
Qed.

Lemma node_at_kept s s' par p n :
  kept par (heap s) (heap s') → (∃ v, heap s' !! par = Some (OVnode v) ∧ locked v = false) →
  node_at s p n → node_at s' p n.
Proof.
  intros K (w & Hw & Hlk) [(v & Hv & Hty & Hm & Ht & Ho & Hl) Hf]. split; [|intros Hd; by eapply file_holds_kept, Hf].
  destruct (kept_vnode _ _ _ _ _ K Hv) as (v' & Hv' & Ety & _ & _ & Em & Et & Eo & El).
  exists v'. rewrite Ety, Em, Et, Eo. split_and!; try done.
  destruct (decide (p = par)) as [->|Hp]; [congruence|by rewrite El].
Qed.

(** The children of a directory have the paths of the directory and one name. *)
Lemma rep_free s t root F path nm p ty l :
  rep s t root F → walk t root path = Some p → t !! p = Some (ty, l) → F !! (path ++ [nm]) = None → nm ∉ l.*2.
Proof.
  intros R Hw Hp HF Hin. apply list_elem_of_fmap in Hin as ([c nm'] & -> & Hin). cbn in HF.
  destruct (rep_tree _ _ _ _ R _ _ _ Hp) as (_ & v & V).
  assert (c ≠ 0) as Hc0.
  { eapply chain_addr_nonzero; [apply V|]. exact (list_elem_of_fmap_2 fst _ _ Hin). }
  assert (find_child nm' l = c) as Hf.
  { pose proof (repr_names _ _ _ _ _ _ V) as Hnd. clear -Hin Hnd. induction l as [|[a an] l IH]; [by apply not_elem_of_nil in Hin|].
    cbn in Hnd |- *. apply NoDup_cons in Hnd as [Ha Hnd]. apply elem_of_cons in Hin as [[= -> ->]|Hin]; [by rewrite bool_decide_eq_true_2|].
    rewrite bool_decide_eq_false_2; [by apply IH|]. intros ->. apply Ha. exact (list_elem_of_fmap_2 snd _ _ Hin). }
  assert (walk t root (path ++ [nm']) = Some c) as W.
  { rewrite walk_snoc, Hw. cbn. unfold child_of. rewrite Hp. cbn. by rewrite Hf, (proj2 (Z.eqb_neq c 0)). }
  destruct (rep_only _ _ _ _ R _ _ W). congruence.
Qed.

(** A directory of the map is a directory of the tree, ready for a new child. *)
Lemma rep_dir s t root F path d :
  rep s t root F → F !! path = Some d → n_dir d = true →
  ∃ par pv l, walk t root path = Some par ∧ t !! par = Some (VNODE_DIR, l) ∧ heap s !! par = Some (OVnode pv) ∧
    locked pv = false ∧ ops pv = RAMFS_OPS.
Proof.
  intros R HF Hd. destruct (rep_node _ _ _ _ R _ _ HF) as (par & W & (v & Hv & Hty & _ & _ & Ho & Hl) & _).
  rewrite Hd in Hty. pose proof (walk_dom _ _ _ (rep_tree _ _ _ _ R) (rep_root _ _ _ _ R) (rep_top _ _ _ _ R) _ _ W) as [[ty l] Hp]%elem_of_dom.
  destruct (rep_tree _ _ _ _ R _ _ _ Hp) as (_ & w & V). assert (w = v) as -> by (pose proof (repr_vnode _ _ _ _ _ _ V); congruence).
  assert (ty = VNODE_DIR) as -> by (rewrite <- (repr_type _ _ _ _ _ _ V); done). by exists par, v, l.
Qed.

Lemma rep_add s s' t root F path par l new nm n :
  rep s t root F → walk t root path = Some par → t !! par = Some (VNODE_DIR, l) → F !! (path ++ [nm]) = None →
  heap s !! new = None → new ∉ dom t → new ≠ 0 →
  tree_ok (heap s') (tree_add t par l new nm (if n_dir n then VNODE_DIR else VNODE_FILE)) →
  kept par (heap s) (heap s') → (∃ v, heap s' !! par = Some (OVnode v) ∧ locked v = false) → node_at s' new n →
  rep s' (tree_add t par l new nm (if n_dir n then VNODE_DIR else VNODE_FILE)) root (<[path ++ [nm] := n]> F).
Proof.
  intros R W Hpar HF Hnew Hnd Hn0 Ht' K Hl Hn. pose proof (rep_free _ _ _ _ _ _ _ _ _ R W Hpar HF) as Hnm.
  pose proof (λ ty names, walk_add _ _ _ (rep_tree _ _ _ _ R) (rep_root _ _ _ _ R) (rep_top _ _ _ _ R) path par l new nm ty names W Hpar Hnm Hnd Hn0) as Hwalk.
  pose proof (rep_root _ _ _ _ R) as Hr. split; [done| | | | |].
  - unfold tree_add. rewrite !dom_insert. clear -Hr. set_solver.
  - unfold tree_add. intros p ty k [[<- [= <- <-]]|[_ [[<- [= <- <-]]|[_ Hp]]%lookup_insert_Some]]%lookup_insert_Some.
    + apply not_elem_of_nil.
    + rewrite fmap_app. intros [Hin|Hin%list_elem_of_singleton]%elem_of_app; [exact (rep_top _ _ _ _ R _ _ _ Hpar Hin)|].
      cbn in Hin. by subst.
    + exact (rep_top _ _ _ _ R _ _ _ Hp).
  - unfold tree_add. intros p ty k [[<- [= <- <-]]|[_ [[<- [= <- <-]]|[_ Hp]]%lookup_insert_Some]]%lookup_insert_Some; [done|done|].
    exact (rep_leaf _ _ _ _ R _ _ _ Hp).
  - intros names m [[<- <-]|[Hne Hm]]%lookup_insert_Some.
    + exists new. split; [|done]. by rewrite Hwalk, bool_decide_eq_true_2.
    + destruct (rep_node _ _ _ _ R _ _ Hm) as (p & Wp & Hp). exists p.
      split; [by rewrite Hwalk, bool_decide_eq_false_2 by congruence|by eapply node_at_kept].
  - intros names p. rewrite Hwalk. case_bool_decide as Hx; [subst; rewrite lookup_insert_eq; eauto|].
    rewrite lookup_insert_ne by congruence. apply (rep_only _ _ _ _ R).
Qed.

Lemma rep_addr s t root F names p : rep s t root F → walk t root names = Some p → p ≠ 0.
Proof.
  intros R Hw. pose proof (walk_dom _ _ _ (rep_tree _ _ _ _ R) (rep_root _ _ _ _ R) (rep_top _ _ _ _ R) _ _ Hw) as [[ty l] Hp]%elem_of_dom.
  by apply (rep_tree _ _ _ _ R) in Hp as [? _].
Qed.

(** A path that leads to a vnode is resolved to it. *)
Lemma rep_resolve s t root F names p : rep s t root F → walk t root names = Some p → resolve t root names = p.
Proof.
  intros R. generalize root as cur. induction names as [|x names IH]; intros cur; [by intros [= <-]|].
  rewrite walk_cons. destruct (child_of t cur x) as [c|] eqn:Hc; [|done]. cbn [mbind option_bind]. intros Hw.
  pose proof (child_of_parent _ _ _ (rep_tree _ _ _ _ R) (rep_top _ _ _ _ R) _ _ _ Hc) as ([[ty' l'] Hd]%elem_of_dom & _).
  apply child_of_find in Hc as (Hc0 & ty & l & Hcur & <-). cbn [resolve]. rewrite Hcur, (proj2 (Z.eqb_neq _ 0)), Hd by done.
  destruct names as [|y names]; [cbn in Hw |- *; injection Hw as <-; by destruct (ty' =? _)|].
  rewrite walk_cons in Hw. destruct (child_of t (find_child x l) y) as [c'|] eqn:Hc'; [|done].
  pose proof (child_of_in _ _ _ _ Hc') as (_ & ty2 & l2 & Hl2 & Hin). rewrite Hd in Hl2. injection Hl2 as <- <-.
  rewrite (rep_leaf _ _ _ _ R _ _ _ Hd) by (intros ->; by apply not_elem_of_nil in Hin). cbn [Z.eqb].
  change (VNODE_DIR =? VNODE_DIR) with true. apply IH. by rewrite walk_cons, Hc'.
Qed.
End abstract.

(** ** Archives in memory *)

(** An entry of an archive; [e_dot] when its name is written with a leading "./"
    and [e_slash] when with a trailing slash.  The entry of the top directory,
    "./", has no path. *)
Record entry := Entry { e_dot : bool; e_slash : bool; e_path : list (list Z); e_node : node }.

Definition tail_text (names : list (list Z)) (trail : list Z) : list Z :=
  match names with [] => [] | _ => join names ++ trail end.
Definition trail (e : entry) : list Z := if e_slash e then [SLASH] else [].
Definition entry_text (e : entry) : list Z := (if e_dot e then [46; SLASH] else []) ++ tail_text (e_path e) (trail e).

Definition entry_ok (e : entry) : Prop :=
  Forall component (e_path e) ∧ (e_path e = [] → e_dot e = true) ∧ head (e_path e) ≠ Some [46] ∧
  0 ≤ n_mode (e_node e) < 2 ^ 32 ∧ 0 ≤ n_mtime (e_node e) < 2 ^ 32 ∧ zlen (n_bytes (e_node e)) ≤ 2 ^ 31 ∧
  (n_dir (e_node e) = false → n_bytes (e_node e) ≠ []).

(** A field of octal digits. *)
Definition octal_at (m : mem) (p v : Z) : Prop :=
  ∃ ds, ds ≠ [] ∧ (length ds ≤ 12)%nat ∧ digits_at m p 8 ds ∧ digits_value 8 0 ds = v.

(** The header of [e] is at [h], and its bytes after it. *)
Record entry_at (m : mem) (h : Z) (e : entry) : Prop := {
  ea_name : cstr m h (entry_text e);
  ea_len : (length (entry_text e) < 100)%nat;
  ea_mode : octal_at m (h + 100) (n_mode (e_node e));
  ea_size : octal_at m (h + 124) (zlen (n_bytes (e_node e)));
  ea_mtime : octal_at m (h + 136) (n_mtime (e_node e));
  ea_type : (load8 m (h + 156) =? 53) = n_dir (e_node e);
  ea_bytes : bytes_at m (h + 512) (length (n_bytes (e_node e))) = n_bytes (e_node e);
}.

(** Header and contents, in blocks of 512 bytes. *)
Definition entry_size (e : entry) : Z := 512 + (zlen (n_bytes (e_node e)) + 511) / 512 * 512.

(** The archive from [offset] on: the entries, and then the end of the file or
    an empty name. *)
Fixpoint archive_at (m : mem) (data offset size : Z) (es : list entry) : Prop :=
  match es with
  | [] => size ≤ offset ∨ load8 m (data + offset) = 0
  | e :: es => entry_ok e ∧ entry_at m (data + offset) e ∧ offset + entry_size e ≤ size ∧
               archive_at m data (offset + entry_size e) size es
  end.

(** What an entry adds: nothing for the top directory. *)
Definition add_entry (F : tree) (e : entry) : tree :=
  match e_path e with [] => F | path => <[path := e_node e]> F end.

(** The entry's directory is there already, and its name is not. *)
Definition fits_entry (F : tree) (e : entry) : Prop :=
  e_path e = [] ∨ ∃ path nm d, e_path e = path ++ [nm] ∧ F !! path = Some d ∧ n_dir d = true ∧ F !! (path ++ [nm]) = None.

Fixpoint in_order (F : tree) (es : list entry) : Prop :=
  match es with [] => True | e :: es => fits_entry F e ∧ in_order (add_entry F e) es end.

(** *** Memory that the loader does not change *)

Lemma digits_at_ext m m' p ds : (∀ a, p ≤ a → load8 m' a = load8 m a) → digits_at m p 8 ds → digits_at m' p 8 ds.
Proof.
  revert p. induction ds as [|d ds IH]; intros p Hm; cbn [digits_at]; rewrite (Hm p) by lia; [done|].
  intros (? & ? & ? & Hds). split_and!; [done..|]. apply IH; [|done]. intros. apply Hm. lia.
Qed.

Lemma octal_at_ext m m' p v : (∀ a, p ≤ a → load8 m' a = load8 m a) → octal_at m p v → octal_at m' p v.
Proof. intros Hm (ds & ? & ? & Hds & ?). exists ds. split_and!; try done. by eapply digits_at_ext. Qed.

Lemma bytes_at_same m m' p n : (∀ a, p ≤ a → load8 m' a = load8 m a) → bytes_at m' p n = bytes_at m p n.
Proof.
  intros Hm. apply list_eq. intros i. destruct (decide (i < n)%nat) as [Hi|Hi].
  - rewrite !bytes_at_lookup by done. by rewrite Hm by lia.
  - rewrite !lookup_ge_None_2 by (rewrite bytes_at_length; lia). done.
Qed.

Lemma entry_size_pos e : 512 ≤ entry_size e.
Proof. unfold entry_size. pose proof (zlen_nonneg (n_bytes (e_node e))). pose proof (Z.div_pos (zlen (n_bytes (e_node e)) + 511) 512). lia. Qed.

Lemma archive_at_ext m m' data offset size es :
  (∀ a, data + offset ≤ a → load8 m' a = load8 m a) → archive_at m data offset size es → archive_at m' data offset size es.
Proof.
  revert offset. induction es as [|e es IH]; intros offset Hm; cbn [archive_at]; [by rewrite Hm by lia|].
  intros (Hok & [Hn Hl Hmd Hs Ht Hty Hb] & Hsz & Hes). pose proof (entry_size_pos e). split_and!; [done| |done|].
  - split; try done.
    + eapply cstr_ext; [|done]. intros. apply Hm. lia.
    + eapply octal_at_ext; [|done]. intros. apply Hm. lia.
    + eapply octal_at_ext; [|done]. intros. apply Hm. lia.
    + eapply octal_at_ext; [|done]. intros. apply Hm. lia.
    + by rewrite Hm by lia.
    + rewrite <- Hb at 2. apply bytes_at_same. intros. apply Hm. lia.
  - apply IH; [|done]. intros. apply Hm. lia.
Qed.

(** ** Running the loader *)

Lemma entry_first m h e : entry_ok e → entry_at m h e → load8 m h ≠ 0.
Proof.
  intros (Hcomp & Hempty & _) [Hname _ _ _ _ _ _]. unfold entry_text in Hname. destruct (e_dot e); [cbn in Hname; destruct Hname as (-> & ? & _); done|].
  destruct (e_path e) as [|x rest]; [by specialize (Hempty eq_refl)|]. inversion Hcomp as [|? ? (Hx & _) _]; subst.
  destruct x as [|c x]; [done|]. cbn in Hname. by destruct Hname as (-> & ? & _).
Qed.

Lemma digit_of_ge c d : digit_of c = Some d → 48 ≤ c.
Proof. unfold digit_of. zcases; cbn; intros; lia || done. Qed.

Lemma not_space c : 32 < c → is_space c = false.
Proof. intros Hc. unfold is_space. by rewrite !(proj2 (Z.eqb_neq c _)) by lia. Qed.

Lemma ustar_step_size v : 0 ≤ v ≤ 2 ^ 31 → ustar_step v = 512 + (v + 511) / 512 * 512.
Proof.
  intros Hv. unfold ustar_step, USTAR_HEADER_SIZE. rewrite (u32_small (v + 511)) by lia.
  change 0xFFFFFE00 with (Z.shiftl (Z.ones 23) 9). pose proof (Z.div_mod (v + 511) 512 ltac:(lia)) as Hd.
  pose proof (Z.mod_pos_bound (v + 511) 512 ltac:(lia)).
  assert (Z.land (v + 511) (Z.shiftl (Z.ones 23) 9) = (v + 511) / 512 * 512) as ->; [|apply u32_small; lia].
  apply Z.bits_inj'. intros i Hi. rewrite Z.land_spec, Z.shiftl_spec by done.
  change 512 with (2 ^ 9). rewrite Z.mul_pow2_bits by lia.
  destruct (Z.ltb_spec i 9) as [Hl|Hl].
  - rewrite (Z.testbit_neg_r _ (i - 9)) by lia. rewrite (Z.testbit_neg_r _ (i - 9)) by lia. by rewrite andb_false_r.
  - rewrite Z.div_pow2_bits by lia. replace (i - 9 + 9) with i by lia.
    destruct (Z.ltb_spec i 32).
    + rewrite Z.ones_spec_low by lia. by rewrite andb_true_r.
    + rewrite Z.ones_spec_high, andb_false_r by lia. symmetry. apply (Z.bits_above_log2 (v + 511)); [lia|].
      apply Z.log2_lt_pow2; [lia|]. pose proof (Z.pow_le_mono_r 2 32 i). lia.
Qed.

Lemma component_start m q x r :
  component x → x ≠ [46] → cstr m q (x ++ r) →
  load8 m q ≠ 0 ∧ (load8 m q = 46 → load8 m (q + 1) ≠ 0 ∧ load8 m (q + 1) ≠ SLASH).
Proof.
  intros (Hne & _ & Hx) Hdot. destruct x as [|c [|d x]]; [done| |]; cbn [app cstr].
  - intros (-> & Hc & _). split; [done|]. intros ->. done.
  - intros (-> & Hc & -> & Hd & _). split; [done|]. intros _. inversion Hx as [|? ? _ Hx']. inversion Hx' as [|? ? [? ?] _]. done.
Qed.

Lemma join_length names : Forall component names → (length names ≤ length (join names))%nat.
Proof.
  assert (∀ l, Forall component l → (length l ≤ length (concat (map (cons SLASH) l)))%nat) as Hc.
  { induction 1 as [|x l _ _ IH]; [done|]. cbn. rewrite length_app. lia. }
  intros [|x l (Hx & _) Hl]; [done|]. cbn. rewrite length_app. specialize (Hc l Hl). destruct x; [done|]. cbn. lia.
Qed.

Section loader.
Context {E : Type} `{KernelEnvLaws E}.
Context (ops_table : Z → option (vnode_ops E)) (junk slash : Z) (fuel : nat)
  (Htable : ops_table RAMFS_OPS = Some (ramfs_ops junk fuel)) (Hfuel : (100 < fuel)%nat).
Implicit Types s : fs E.

Lemma in_fs_run {A} (c : kernel (fs E) A) s m last a s' : c s = Ret a s' → in_fs c (Ustar s m last) = Ret a (Ustar s' m last).
Proof. intros Hc. unfold in_fs. cbn. by rewrite Hc. Qed.

Lemma octal_run s m last p v : octal_at m p v → 0 ≤ v < 2 ^ 32 → octal fuel p (Ustar s m last) = Ret v (Ustar s m last).
Proof using Hfuel.
  intros (ds & Hne & Hl & Hds & <-) Hv. unfold octal, on_mem. cbn [u_mem].
  destruct (strtol_run fuel m p 0 8 1 p ds) as [e He]; [lia|lia|intros i ?; lia| |done|lia|].
  - right; right. rewrite Z.add_0_r. destruct ds as [|d ds]; [done|]. destruct Hds as (_ & Hd & _).
    apply digit_of_ge in Hd. split; [apply not_space; lia|]. split_and!; try done; lia.
  - rewrite He. cbn. unfold strtol_value. destruct (Z.leb_spec (digits_value 8 0 ds) LONG_MAX) as [_|Hb]; [by rewrite Z.mul_1_r|].
    unfold LONG_MAX in Hb. lia.
Qed.

(** [strtok] has cut the token [x] off at [q], in the name field of the header
    [h]; the rest of the names is at [last]. *)
Record cut (m : mem) (h q : Z) (x : list Z) (last : Z) (rest : list (list Z)) (tr : list Z) : Prop := {
  cut_pos : 0 < h ≤ q;
  cut_token : cstr m q x;
  cut_token_end : q + zlen x < h + 100;
  cut_rest : cstr m last (tail_text rest tr);
  cut_last : h ≤ last;
  cut_rest_end : last + zlen (tail_text rest tr) < h + 100;
}.

(** [m'] is [m] outside the name field of [h]. *)
Definition same_outside (h : Z) (m m' : mem) : Prop := ∀ a, a < h ∨ h + 100 ≤ a → load8 m' a = load8 m a.

Lemma same_outside_trans h m1 m2 m3 : same_outside h m1 m2 → same_outside h m2 m3 → same_outside h m1 m3.
Proof. intros H1 H2 a Ha. by rewrite H2, H1. Qed.

(** The literal "/" is outside the name field. *)
Definition slash_at (h : Z) (m : mem) : Prop := cstr m slash [SLASH] ∧ (slash + 1 < h ∨ h + 100 ≤ slash).

Lemma slash_at_same h m m' : same_outside h m m' → slash_at h m → slash_at h m'.
Proof.
  intros Hm [Hc Hs]. split; [|done]. eapply cstr_ext; [|done]. unfold zlen. cbn [length]. intros a Ha. apply Hm. lia.
Qed.

Lemma tail_text_cons x rest tr : tr = [] ∨ tr = [SLASH] →
  ∃ l, tail_text (x :: rest) tr = x ++ l ∧ tail l = tail_text rest tr ∧ match l with [] => True | c :: _ => c = SLASH end.
Proof.
  intros Htr. exists (concat (map (cons SLASH) rest) ++ tr). cbn [tail_text join]. rewrite <- app_assoc. split; [done|].
  destruct rest as [|y rest]; cbn.
  - by destruct Htr as [-> | ->].
  - by rewrite <- app_assoc.
Qed.

Lemma tok_run s m last str q h x rest tr :
  (if str =? 0 then last else str) = q → 0 < h ≤ q → cstr m q (tail_text (x :: rest) tr) →
  q + zlen (tail_text (x :: rest) tr) < h + 100 → component x → tr = [] ∨ tr = [SLASH] → slash_at h m →
  ∃ m' last', u_strtok fuel slash str (Ustar s m last) = Ret q (Ustar s m' last') ∧ cut m' h q x last' rest tr ∧ same_outside h m m'.
Proof using Hfuel.
  intros Hq Hh Hc Hlen (Hne & _ & Hx) Htr [Hs Hsd]. destruct (tail_text_cons x rest tr Htr) as (l & Et & Etl & Hl). rewrite Et in *.
  rewrite zlen_app in Hlen. pose proof (zlen_nonneg x). pose proof (zlen_nonneg l).
  destruct (strtok_token fuel m last str q slash [SLASH] [] x l) as (m' & last' & Hrun & Hx' & Hl' & Hb & Hb2 & Hfr); try done.
  - lia.
  - cbn. lia.
  - unfold zlen in *. cbn [app]. lia.
  - eapply Forall_impl; [exact Hx|]. cbn. intros c [Hc1 _] Hin%list_elem_of_singleton. done.
  - destruct l as [|c l]; [done|]. by apply list_elem_of_singleton.
  - cbn [zlen length] in Hrun, Hx', Hb, Hb2, Hfr. change (zlen (A := Z) []) with 0 in *. rewrite Z.add_0_r in *. cbn [app] in Hb2. rewrite zlen_app in Hb2.
    rewrite Etl in Hl', Hb2.
    exists m', last'. unfold u_strtok. cbn [u_mem u_last u_fs]. rewrite Hrun. split; [done|]. split.
    + split; try done; lia.
    + intros a Ha. apply Hfr. lia.
Qed.

(** The next token. *)
Lemma cut_next s m h q x last y rest tr :
  cut m h q x last (y :: rest) tr → component y → tr = [] ∨ tr = [SLASH] → slash_at h m →
  ∃ m' last', u_strtok fuel slash 0 (Ustar s m last) = Ret last (Ustar s m' last') ∧ cut m' h last y last' rest tr ∧ same_outside h m m'.
Proof using Hfuel. intros [] Hy Htr Hs. eapply tok_run; try done. lia. Qed.

(** No more tokens. *)
Lemma cut_end s m h q x last tr :
  cut m h q x last [] tr → slash_at h m → u_strtok fuel slash 0 (Ustar s m last) = Ret 0 (Ustar s m last).
Proof using Hfuel.
  intros [] [Hs _]. unfold u_strtok. cbn [u_mem u_last u_fs].
  rewrite (strtok_none fuel m last 0 last slash [SLASH] []); try done; try lia; cbn; lia.
Qed.

(** The part of the path that exists. *)
Lemma descend_run s t h dir nm tr par dirs :
  tree_ok (heap s) t → (∀ p ty l, t !! p = Some (ty, l) → (length l ≤ fuel)%nat) →
  tr = [] ∨ tr = [SLASH] → Forall component (dirs ++ [nm]) →
  ∀ r cur q m last x rest, dirs ++ [nm] = x :: rest → walk t cur dirs = Some par →
  cut m h q x last rest tr → slash_at h m →
  ∃ q' m' last', ustar_descend ops_table (length dirs + r) fuel slash h dir cur q (Ustar s m last) =
      ustar_descend ops_table r fuel slash h dir par q' (Ustar s m' last') ∧ cut m' h q' nm last' [] tr ∧ same_outside h m m'.
Proof using Hfuel.
  intros Ht Hwide Htr. induction dirs as [|d dirs IH]; intros Hcomp r cur q m last x rest Hx Hw Hcut Hs.
  - injection Hx as <- <-. injection Hw as <-. by exists q, m, last.
  - injection Hx as <- <-. rewrite walk_cons in Hw. destruct (child_of t cur d) as [c|] eqn:Hc; [|done]. cbn in Hw.
    apply child_of_find in Hc as (Hc0 & ty & l & Hcur & Hfc).
    inversion Hcomp as [|? ? Hd Hrest]; subst x l0. pose proof Hcut as [? Htok Hte ? ? ?]. pose proof (zlen_nonneg d).
    destruct (dirs ++ [nm]) as [|y rest'] eqn:Er; [by destruct dirs|]. inversion Hrest as [|? ? Hy _]; subst.
    destruct (cut_next s m h q d last y rest' tr Hcut Hy Htr Hs) as (m1 & last1 & Hrun & Hcut1 & Hm1).
    destruct (IH Hrest r (find_child d l) last m1 last1 y rest' eq_refl Hw Hcut1 (slash_at_same _ _ _ Hm1 Hs)) as (q' & m' & last' & Hdes & Hcut' & Hm').
    exists q', m', last'. split; [|split; [done|by eapply same_outside_trans]].
    rewrite <- Hdes. cbn [length Nat.add ustar_descend]. rewrite (proj2 (Z.eqb_neq q 0)) by lia.
    rewrite (kbind_run _ _ _ d (Ustar s m last)); [|unfold on_mem; cbn [u_mem]; by rewrite (read_cstr_ok _ _ _ d) by (done || unfold zlen in *; lia)].
    rewrite (kbind_run _ _ _ _ _ (in_fs_run _ s m last _ _ (vfs_lookup_run fuel s t cur ty l d Ht Hcur (Hwide _ _ _ Hcur)))).
    rewrite (proj2 (Z.eqb_neq (find_child d l) 0)) by done. cbn [negb]. by rewrite (kbind_run _ _ _ _ _ Hrun).
Qed.

(** A file: the descent stops at its name. *)
Lemma descend_file s t h nm tr par l r q m last :
  tree_ok (heap s) t → t !! par = Some (VNODE_DIR, l) → (length l ≤ fuel)%nat → nm ∉ l.*2 → cut m h q nm last [] tr →
  ustar_descend ops_table r fuel slash h false par q (Ustar s m last) = Ret (Some (par, q)) (Ustar s m last).
Proof using Hfuel.
  intros Ht Hpar Hl Hnm [? ? ? ? ? ?]. pose proof (zlen_nonneg nm).
  assert (∀ r, ustar_descend ops_table r fuel slash h false par q (Ustar s m last) = Ret (Some (par, q)) (Ustar s m last)) as Hd; [|done].
  intros r'. assert (read_cstr fuel m q = Some nm) as Hr by (apply read_cstr_ok; [done|unfold zlen in *; lia]).
  destruct r'; cbn [ustar_descend]; (rewrite (proj2 (Z.eqb_neq q 0)) by lia);
    (rewrite (kbind_run _ _ _ nm (Ustar s m last)) by (unfold on_mem; cbn [u_mem]; by rewrite Hr));
    rewrite (kbind_run _ _ _ _ _ (in_fs_run _ s m last _ _ (vfs_lookup_run fuel s t par VNODE_DIR l nm Ht Hpar Hl)));
    by rewrite find_child_none.
Qed.

Definition wide (k : nat) (t : view) : Prop := ∀ p ty l, t !! p = Some (ty, l) → (length l ≤ k)%nat.

Lemma wide_add k t par l new nm ty : wide k t → t !! par = Some (VNODE_DIR, l) → wide (S k) (tree_add t par l new nm ty).
Proof.
  intros Hw Hpar. unfold tree_add. intros p ty' l' [[<- [= <- <-]]|[_ [[<- [= <- <-]]|[_ Hp]]%lookup_insert_Some]]%lookup_insert_Some.
  - cbn. lia.
  - rewrite length_app. cbn. pose proof (Hw _ _ _ Hpar). lia.
  - pose proof (Hw _ _ _ Hp). lia.
Qed.

(** Everything the loader relies on from one entry to the next, with [k] entries
    in the longest directory and a supply for [j] more requests. *)
Context (mnt : Z) (mt : mount).
Record loading s (t : view) (root : Z) (F : tree) (k : nat) (max : Z) (j : nat) : Prop := {
  ld_rep : rep s t root F;
  ld_ok : heap_ok s;
  ld_wide : wide k t;
  ld_supply : supply max j (env s);
  ld_mount : heap s !! mnt = Some (OMount mt);
}.

Lemma updated_sub par x h h' : h ⊆ h' → updated par x h h'.
Proof.
  intros Hs. split; [intros q l Hq; by eapply lookup_weaken|]. intros a v Hv. exists v. split; [by eapply lookup_weaken|done].
Qed.

Lemma room_le max k j e : (j ≤ k)%nat → room max k e → room max j e.
Proof.
  revert j e. induction k as [|k IH]; intros [|j] e Hj Hr; [done|lia|done|]. intros n p e' Hn Em.
  destruct (Hr n p e' Hn Em). split; [done|]. apply IH; [lia|done].
Qed.

(** A new vnode of the directory [path], and the loader's last words on it. *)
Lemma loading_create s t root F k max j path nm d n :
  loading s t root F k max (6 + j) → 4096 ≤ max → (k ≤ fuel)%nat → (length nm < 100)%nat →
  F !! path = Some d → n_dir d = true → F !! (path ++ [nm]) = None →
  let ty := if n_dir n then VNODE_DIR else VNODE_FILE in
  ∃ par l new nv s1, walk t root path = Some par ∧ t !! par = Some (VNODE_DIR, l) ∧ nm ∉ l.*2 ∧
    vfs_create_vnode ops_table par (Some nm) ty s = Ret new s1 ∧ new ≠ 0 ∧ heap_ok s1 ∧ supply max j (env s1) ∧
    heap s1 !! new = Some (OVnode nv) ∧ vtype nv = ty ∧ locked nv = false ∧
    ∀ s2 h2 v, heap s1 ⊆ h2 → heap s2 = <[new := OVnode v]> h2 →
      parent v = parent nv → vtype v = vtype nv → name v = name nv → child v = child nv → next v = next nv →
      node_at s2 new n → heap_ok s2 → ∀ i, supply max i (env s2) →
      loading s2 (tree_add t par l new nm ty) root (<[path ++ [nm] := n]> F) (S k) max i.
Proof using Htable Hfuel.
  intros [R Hok Hw Hsup Hmt] Hmax Hk Hlen HF Hd HFn ty.
  destruct (rep_dir _ _ _ _ _ _ R HF Hd) as (par & pv & l & W & Hpar & Hpv & Hlk & Hops).
  pose proof (rep_free _ _ _ _ _ _ _ _ _ R W Hpar HFn) as Hnm. pose proof (Hw _ _ _ Hpar) as Hlw.
  destruct (vfs_create_run ops_table junk fuel s t par pv l nm ty) as
    (s1 & new & nv & Hrun & New0 & New & Hnt & Ok1 & Ht1 & (pv1 & Hpv1 & Hlk1 & _) & Hnv & Hty & Hnl & K & e & Hdr & Ee); try done.
  { apply R. } { eapply room_le, supply_room; [|exact Hmax|exact Hsup]. lia. } { lia. } { lia. }
  exists par, l, new, nv, s1. split_and!; try done.
  { rewrite Ee. apply supply_ticked. by apply (supply_drawn max 4096 3 (3 + j) (env s)). }
  intros s2 h2 v Hsub Hs2 E1 E2 E3 E4 E5 Hn Ok2 i Hi.
  assert (new ≠ par) as Hnp by congruence.
  assert (h2 !! new = Some (OVnode nv)) as Hn2 by (by eapply lookup_weaken).
  assert (kept par (heap s) (heap s2)) as K2.
  { rewrite Hs2. apply kept_new; [|done]. intros q o Hq. destruct (K q o Hq) as (o' & Hq' & Eo). exists o'.
    split; [by eapply lookup_weaken|done]. }
  split; [|done|by apply wide_add|done|].
  2: { destruct (K2 _ _ Hmt) as ([] & Hmt' & Ec); cbn in Ec; try done. by injection Ec as ->. }
  eapply rep_add; try done.
  - rewrite Hs2. eapply tree_ok_updated, tree_ok_updated; [|apply (updated_sub 0 0 (heap s1) h2 Hsub)|exact Ht1].
    by eapply updated_set.
  - exists pv1. split; [|done]. rewrite Hs2, lookup_insert_ne by done. by eapply lookup_weaken.
Qed.

(** A directory: it is made where the descent finds no child of its name. *)
Lemma load_dir s t root F k max j path nm d n h tr r q m last :
  loading s t root F k max (6 + j) → 4096 ≤ max → (k ≤ fuel)%nat →
  F !! path = Some d → n_dir d = true → F !! (path ++ [nm]) = None → n_dir n = true →
  cut m h q nm last [] tr → slash_at h m → octal_at m (h + 100) (n_mode n) → octal_at m (h + 136) (n_mtime n) →
  0 ≤ n_mode n < 2 ^ 32 → 0 ≤ n_mtime n < 2 ^ 32 →
  ∃ s' t' par, walk t root path = Some par ∧
    ustar_descend ops_table (S r) fuel slash h true par q (Ustar s m last) = Ret (Some (0, 0)) (Ustar s' m last) ∧
    loading s' t' root (<[path ++ [nm] := n]> F) (S k) max j.
Proof using Htable Hfuel.
  intros L Hmax Hk HF Hd HFn Hn Hcut Hs Om Ot Bm Bt. pose proof Hcut as [? Htok Hte ? ? ?]. pose proof (zlen_nonneg nm).
  assert (length nm < 100)%nat as Hlen by (unfold zlen in *; lia).
  destruct (loading_create s t root F k max j path nm d n L Hmax Hk Hlen HF Hd HFn)
    as (par & l & new & nv & s1 & W & Hpar & Hnm & Hrun & New0 & Ok1 & Sup1 & Hnv & Hty & Hlk & Hfin). rewrite Hn in *.
  pose proof L as [R _ Hw _ _]. pose proof (Hw _ _ _ Hpar).
  eexists _, _, par. split; [done|]. split.
  - cbn [ustar_descend]. rewrite (proj2 (Z.eqb_neq q 0)) by lia.
    rewrite (kbind_run _ _ _ nm (Ustar s m last)) by (unfold on_mem; cbn [u_mem]; by rewrite (read_cstr_ok _ _ _ nm) by (done || lia)).
    rewrite (kbind_run _ _ _ _ _ (in_fs_run _ s m last _ _ (vfs_lookup_run fuel s t par VNODE_DIR l nm (rep_tree _ _ _ _ R) Hpar ltac:(lia)))).
    rewrite find_child_none by done. cbn [Z.eqb negb].
    rewrite (kbind_run _ _ _ _ _ (in_fs_run _ s m last _ _ Hrun)), (proj2 (Z.eqb_neq new 0)) by done.
    rewrite (kbind_run _ _ _ _ _ (octal_run s1 m last _ _ Om Bm)), (kbind_run _ _ _ _ _ (octal_run s1 m last _ _ Ot Bt)).
    rewrite (kbind_run _ _ _ _ _ (in_fs_run _ s1 m last _ _ (upd_vnode_run s1 new nv _ Hnv))).
    rewrite (kbind_run _ _ _ _ _ (cut_end _ m h q nm last tr Hcut Hs)). by destruct r.
  - eapply (Hfin _ (heap s1)); [done|reflexivity|done|done|done|done|done| |by eapply heap_ok_set|done].
    split; [|congruence]. eexists. split; [apply lookup_insert_eq|]. rewrite Hn, !u32_small by done. by split_and!.
Qed.

(** A file: its vnode, its data and a block with the bytes that follow the header. *)
Lemma load_file s t root F k max j path nm d n h tr q m last :
  loading s t root F k max (8 + j) → 4096 ≤ max → (k ≤ fuel)%nat → component nm →
  F !! path = Some d → n_dir d = true → F !! (path ++ [nm]) = None → n_dir n = false →
  cut m h q nm last [] tr → slash_at h m → octal_at m (h + 100) (n_mode n) → octal_at m (h + 136) (n_mtime n) →
  0 ≤ n_mode n < 2 ^ 32 → 0 ≤ n_mtime n < 2 ^ 32 → 0 < zlen (n_bytes n) ≤ max → zlen (n_bytes n) ≤ 2 ^ 31 →
  bytes_at m (h + 512) (length (n_bytes n)) = n_bytes n →
  ∃ s' m' last' t' par, walk t root path = Some par ∧
    ustar_file ops_table junk fuel slash h (zlen (n_bytes n)) par q (Ustar s m last) = Ret true (Ustar s' m' last') ∧
    same_outside h m m' ∧ loading s' t' root (<[path ++ [nm] := n]> F) (S k) max j.
Proof using Htable Hfuel.
  intros L Hmax Hk Hnm HF Hd HFn Hn Hcut Hs Om Ot Bm Bt Bb Bb2 Hbytes. pose proof Hcut as [? Htok Hte ? ? ?]. pose proof (zlen_nonneg nm).
  assert (length nm < 100)%nat as Hlen by (unfold zlen in *; lia).
  assert (tail_text [nm] [] = nm) as Ett by (cbn; by rewrite !app_nil_r).
  destruct (tok_run s m last q q h nm [] []) as (m1 & last1 & Htr & Hcut1 & Hm1); try done; rewrite ?Ett; try done; [|auto|].
  { by rewrite (proj2 (Z.eqb_neq q 0)) by lia. }
  destruct (loading_create s t root F k max (2 + j) path nm d n L Hmax Hk Hlen HF Hd HFn)
    as (par & l & new & nv & s1 & W & Hpar & Hfree & Hrun & New0 & Ok1 & Sup1 & Hnv & Hty & Hlk & Hfin). rewrite Hn in *.
  destruct (kmalloc_run s1 RAMFS_DATA_SIZEOF max (1 + j)) as (rd & e1 & M1 & Rd0 & RdN & R1 & I1 & L1 & F1);
    [done|by eapply supply_room|unfold RAMFS_DATA_SIZEOF; lia|done|].
  set (s2 := set_heap (<[rd := OData (RamfsData junk junk)]> (heap s1)) (set_env e1 s1)).
  assert (heap_ok s2) as Ok2 by (by apply heap_ok_new).
  destruct (kmalloc_run s2 (zlen (n_bytes n)) max j) as (blk & e2 & M2 & B0 & BN & R2 & I2 & L2 & F2); [done|done|done|done|].
  pose proof BN as BN'. cbn in BN'. apply lookup_insert_None in BN' as [BN1 Hrb].
  set (h2 := <[rd := OData (RamfsData blk (zlen (n_bytes n)))]> (<[blk := OBuf (n_bytes n)]> (heap s2))).
  assert (rd ≠ new ∧ blk ≠ new) as [Hrn Hbn] by (split; congruence).
  assert (h2 !! new = Some (OVnode nv)) as Hn2 by (unfold h2, s2; hlook).
  eexists _, m1, last1, _, par. split; [done|].
  set (v := set_creation_time (n_mtime n) (set_mode (n_mode n) (set_vsize (zlen (n_bytes n)) (set_data rd (set_ops RAMFS_OPS nv))))).
  set (s3 := set_heap (<[new := OVnode v]> h2) (set_env e2 s2)).
  split; [|split; [done|eapply (Hfin s3 h2 v); try done]].
  - unfold ustar_file. rewrite (kbind_run _ _ _ _ _ Htr), (proj2 (Z.eqb_neq q 0)) by lia.
    rewrite (kbind_run _ _ _ nm (Ustar s m1 last1)) by (unfold on_mem; cbn [u_mem]; by rewrite (read_cstr_ok _ _ _ nm) by (apply Hcut1 || lia)).
    rewrite bool_decide_eq_false_2 by apply Hnm.
    rewrite (kbind_run _ _ _ _ _ (in_fs_run _ s m1 last1 _ _ Hrun)), (proj2 (Z.eqb_neq new 0)) by done.
    rewrite (kbind_run _ _ _ _ _ (in_fs_run _ s1 m1 last1 _ _ M1)), (proj2 (Z.eqb_neq rd 0)) by done.
    rewrite (kbind_run (in_fs (put rd _)) _ _ tt (Ustar s2 m1 last1)) by done.
    rewrite (kbind_run _ _ _ _ _ (in_fs_run _ s2 m1 last1 _ _ M2)), (proj2 (Z.eqb_neq blk 0)) by done.
    rewrite (kbind_run _ _ _ (n_bytes n) (Ustar (set_env e2 s2) m1 last1)).
    2: { unfold on_mem. cbn [u_mem]. unfold USTAR_HEADER_SIZE, zlen. rewrite Nat2Z.id.
         rewrite (bytes_at_same m m1) by (intros; apply Hm1; lia). by rewrite Hbytes. }
    rewrite (kbind_run (in_fs (put blk _)) _ _ tt (Ustar (set_heap (<[blk := OBuf (n_bytes n)]> (heap s2)) (set_env e2 s2)) m1 last1)) by done.
    rewrite (kbind_run (in_fs (put rd _)) _ _ tt (Ustar (set_heap h2 (set_env e2 s2)) m1 last1)) by done.
    assert (∀ p v, h + 100 ≤ p → octal_at m p v → octal_at m1 p v) as Hoct.
    { intros p' v' Hp'. apply octal_at_ext. intros. apply Hm1. lia. }
    rewrite (kbind_run _ _ _ _ _ (octal_run _ m1 last1 _ _ (Hoct (h + 100) _ ltac:(lia) Om) Bm)).
    rewrite (kbind_run _ _ _ _ _ (octal_run _ m1 last1 _ _ (Hoct (h + 136) _ ltac:(lia) Ot) Bt)).
    rewrite (kbind_run _ _ _ _ _ (in_fs_run _ _ m1 last1 _ _ (upd_vnode_run (set_heap h2 (set_env e2 s2)) new nv _ Hn2))).
    rewrite !u32_small by done. reflexivity.
  - apply map_subseteq_spec. intros a o Ha. unfold h2, s2. cbn. by rewrite !lookup_insert_ne by congruence.
  - split.
    + exists v. rewrite Hn. split_and!; try done. apply lookup_insert_eq.
    + intros _. split; [done|]. exists v, (RamfsData blk (zlen (n_bytes n))). unfold s3, h2. split_and!; try done.
      * apply lookup_insert_eq.
      * change (data v) with rd. hlook.
      * right. split; [done|]. change (rdata _) with blk. hlook.
  - destruct Ok1 as [_ Ok1]. apply elem_of_dom_2 in Hnv. split; [exact I2|]. unfold s3, h2, s2 in *. cbn in L2 |- *. rewrite !dom_insert, L2, L1.
    clear -Ok1 Hnv. set_solver.
  - eapply (supply_drawn max max 2 j (env s1)); [lia| |exact Sup1]. apply kmalloc_env in M1, M2.
    exists RAMFS_DATA_SIZEOF, rd, e1. split; [unfold RAMFS_DATA_SIZEOF; lia|]. split; [done|].
    exists (zlen (n_bytes n)), blk, e2. split; [exact Bb|]. split; [exact M2|reflexivity].
Qed.

(** The start of an entry: its size, its type, and where its name begins. *)
Lemma entry_start s root m last data offset e :
  entry_ok e → entry_at m (data + offset) e →
  let h := data + offset in let n := e_node e in
  let q := if e_dot e then h + 2 else h in
  cstr m q (tail_text (e_path e) (trail e)) ∧ q + zlen (tail_text (e_path e) (trail e)) < h + 100 ∧
  ustar_entry ops_table junk fuel slash root data offset (Ustar s m last) =
    if decide (e_path e = []) then Ret (Some (u64 (offset + entry_size e))) (Ustar s m last) else
    (let* token := u_strtok fuel slash q in
     let* stop := ustar_descend ops_table fuel fuel slash h (n_dir n) root token in
     match stop with
     | None => kret None
     | Some (cur_parent, token) =>
         let* ok := if n_dir n then kret true else ustar_file ops_table junk fuel slash h (zlen (n_bytes n)) cur_parent token in
         if negb ok then kret None else kret (Some (u64 (offset + entry_size e)))
     end) (Ustar s m last).
Proof using Hfuel.
  intros (Hcomp & Hempty & Hdot & _ & _ & Hb & _) [Hname Hlen _ Hsize _ Htype _] h n q. fold h in Hname, Hlen, Hsize, Htype |- *.
  pose proof (zlen_nonneg (n_bytes n)) as Hb0. fold n in Hsize, Htype, Hb.
  assert (cstr m q (tail_text (e_path e) (trail e)) ∧ q + zlen (tail_text (e_path e) (trail e)) < h + 100) as [Hq Hqe].
  { unfold entry_text in Hname, Hlen. unfold q. destruct (e_dot e); rewrite length_app in Hlen; cbn [length] in Hlen.
    - split; [exact (cstr_app _ _ [46; SLASH] _ Hname)|unfold zlen; lia].
    - split; [exact Hname|unfold zlen; lia]. }
  split; [done|]. split; [done|]. unfold ustar_entry. fold h.
  rewrite (kbind_run _ _ _ _ _ (octal_run s m last _ _ Hsize ltac:(lia))), (u32_small (zlen (n_bytes n))), ustar_step_size by lia.
  fold n. change (512 + (zlen (n_bytes n) + 511) / 512 * 512) with (entry_size e).
  rewrite (kbind_run _ _ _ (load8 m (h + 156)) (Ustar s m last)) by done. rewrite Htype.
  assert (on_mem (λ m, Some ((load8 m h =? 46) && (load8 m (h + 1) =? 47))) (Ustar s m last) = Ret (e_dot e) (Ustar s m last)) as Hds.
  { unfold on_mem. cbn [u_mem]. f_equal. unfold entry_text in Hname. destruct (e_dot e) eqn:Ed.
    - cbn in Hname. destruct Hname as (-> & _ & -> & _). done.
    - cbn [app] in Hname. destruct (e_path e) as [|x rest] eqn:Ep; [by specialize (Hempty eq_refl)|].
      inversion Hcomp as [|? ? Hx _]; subst. cbn [tail_text join] in Hname. rewrite <- app_assoc in Hname.
      destruct (component_start m h x _ Hx ltac:(intros ->; done) Hname) as [_ Hst]. unfold SLASH in Hst. zcases; cbn; lia || done. }
  rewrite (kbind_run _ _ _ _ _ Hds). fold q.
  assert (on_mem (λ m, Some ((load8 m q =? 0) || (load8 m q =? 46) && (load8 m (q + 1) =? 0))) (Ustar s m last) =
    Ret (bool_decide (e_path e = [])) (Ustar s m last)) as Hsk.
  { unfold on_mem. cbn [u_mem]. f_equal. case_bool_decide as Ep.
    - rewrite Ep in Hq. cbn in Hq. by rewrite Hq.
    - destruct (e_path e) as [|x rest] eqn:Ep'; [done|].
      inversion Hcomp as [|? ? Hx _]; subst. cbn [tail_text join] in Hq. rewrite <- app_assoc in Hq.
      destruct (component_start m q x _ Hx ltac:(intros ->; done) Hq) as [? Hst]. zcases; cbn; lia || done. }
  rewrite (kbind_run _ _ _ _ _ Hsk). destruct (decide (e_path e = [])) as [Ep|Ep].
  - by rewrite bool_decide_eq_true_2.
  - by rewrite bool_decide_eq_false_2.
Qed.

(** One entry. *)
Lemma load_entry s t root F k max j e data offset m last :
  loading s t root F k max (8 + j) → 4096 ≤ max → zlen (n_bytes (e_node e)) ≤ max → (k ≤ fuel)%nat →
  entry_ok e → fits_entry F e → entry_at m (data + offset) e → 0 < data + offset → slash_at (data + offset) m →
  0 ≤ offset → offset + entry_size e < 2 ^ 64 →
  ∃ s' t' m' last', ustar_entry ops_table junk fuel slash root data offset (Ustar s m last) =
      Ret (Some (offset + entry_size e)) (Ustar s' m' last') ∧
    same_outside (data + offset) m m' ∧ loading s' t' root (add_entry F e) (S k) max j.
Proof using Htable Hfuel.
  intros L Hmax Hsz Hk Hok Hfit Hat Hh Hs Ho Ho'. destruct (entry_start s root m last data offset e Hok Hat) as (Hq & Hqe & ->).
  pose proof Hok as (Hcomp & _ & _ & Bm & Bt & Bb & Hne). pose proof Hat as [_ _ Om _ Ot _ Hbytes].
  pose proof (entry_size_pos e). rewrite !u64_small by lia.
  set (h := data + offset) in *. set (n := e_node e) in *. set (q := if e_dot e then h + 2 else h) in *.
  assert (0 < h ≤ q) as Hhq by (unfold q; destruct (e_dot e); lia).
  destruct Hfit as [Ep|(path & nm & d & Ep & HF & Hd & HFn)].
  { rewrite decide_True by done. exists s, t, m, last. split; [done|]. split; [by intros a _|]. unfold add_entry. rewrite Ep.
    destruct L as [R Hok' Hw Hsup Hmt]. split; [done|done| | |done].
    - intros p ty l Hp. specialize (Hw _ _ _ Hp). lia.
    - eapply supply_weaken; [|exact Hsup]. lia. }
  rewrite decide_False by (rewrite Ep; by destruct path). unfold add_entry. fold n.
  assert (match e_path e with [] => F | p :: l => <[p :: l := n]> F end = <[path ++ [nm] := n]> F) as -> by (rewrite Ep; by destruct path).
  assert (trail e = [] ∨ trail e = [SLASH]) as Htr by (unfold trail; destruct (e_slash e); auto).
  destruct (rep_dir _ _ _ _ _ _ (ld_rep _ _ _ _ _ _ _ L) HF Hd) as (par & pv & l & W & Hpar & _ & _ & _).
  pose proof (rep_free _ _ _ _ _ _ _ _ _ (ld_rep _ _ _ _ _ _ _ L) W Hpar HFn) as Hnm.
  pose proof (ld_wide _ _ _ _ _ _ _ L _ _ _ Hpar) as Hl.
  pose proof (join_length _ Hcomp) as Hjl. rewrite Ep in Hcomp, Hq, Hqe, Hjl.
  destruct (path ++ [nm]) as [|x rest] eqn:Epn; [by destruct path|].
  assert (component x ∧ component nm) as [Hx Hnc].
  { split; [by inversion Hcomp|]. rewrite <- Epn in Hcomp. apply Forall_app in Hcomp as [_ Hcomp]. by inversion Hcomp. }
  destruct (tok_run s m last q q h x rest (trail e)) as (m1 & last1 & Htok & Hcut & Hm1); try done.
  { by rewrite (proj2 (Z.eqb_neq q 0)) by lia. }
  rewrite (kbind_run _ _ _ _ _ Htok).
  pose proof (slash_at_same _ _ _ Hm1 Hs) as Hs1.
  assert (∃ r, fuel = (length path + S r)%nat) as [r Hr].
  { exists (fuel - length path - 1)%nat. apply (f_equal length) in Epn. rewrite length_app in Epn. cbn [length] in Epn, Hjl.
    cbn [tail_text] in Hqe. unfold zlen in Hqe. rewrite length_app in Hqe. unfold q in Hqe. destruct (e_dot e); lia. }
  destruct (descend_run s t h (n_dir n) nm (trail e) par path (rep_tree _ _ _ _ (ld_rep _ _ _ _ _ _ _ L)) ltac:(intros p ty l' Hp; pose proof (ld_wide _ _ _ _ _ _ _ L _ _ _ Hp); lia) Htr
    ltac:(by rewrite Epn) (S r) root q m1 last1 x rest Epn W Hcut Hs1) as (q2 & m2 & last2 & Hdes & Hcut2 & Hm2).
  pose proof (slash_at_same _ _ _ Hm2 Hs1) as Hs2. pose proof (same_outside_trans _ _ _ _ Hm1 Hm2) as Hm02.
  assert (∀ p v, h + 100 ≤ p → octal_at m p v → octal_at m2 p v) as Hoct.
  { intros p' v' Hp'. apply octal_at_ext. intros. apply Hm02. lia. }
  rewrite <- Hr in Hdes. rewrite <- Epn in HFn |- *. destruct (n_dir n) eqn:Hn.
  - assert (loading s t root F k max (6 + (2 + j))) as L' by exact L.
    destruct (load_dir s t root F k max (2 + j) path nm d n h (trail e) r q2 m2 last2 L' Hmax Hk HF Hd HFn Hn Hcut2 Hs2
      (Hoct (h + 100) _ ltac:(lia) Om) (Hoct (h + 136) _ ltac:(lia) Ot) Bm Bt) as (s' & t' & par' & W' & Hrun & L2).
    assert (par' = par) as -> by congruence.
    exists s', t', m2, last2. rewrite (kbind_run _ _ _ _ _ (eq_trans Hdes Hrun)). split; [reflexivity|]. split; [done|].
    destruct L2 as [R2 Ok2 W2 S2 M2]. split; [done|done|done| |done]. eapply supply_weaken; [|exact S2]. lia.
  - destruct (load_file s t root F k max j path nm d n h (trail e) q2 m2 last2 L Hmax Hk Hnc HF Hd HFn Hn Hcut2 Hs2
      (Hoct (h + 100) _ ltac:(lia) Om) (Hoct (h + 136) _ ltac:(lia) Ot) Bm Bt) as (s' & m' & last' & t' & par' & W' & Hrun & Hm' & L2).
    { specialize (Hne eq_refl). fold n in Hne. split; [|done]. destruct (n_bytes n); [done|]. unfold zlen. cbn [length]. lia. }
    { done. }
    { rewrite <- Hbytes at 2. apply bytes_at_same. intros. apply Hm02. lia. }
    assert (par' = par) as -> by congruence.
    exists s', t', m', last'. split; [|split; [by eapply same_outside_trans|done]].
    rewrite (kbind_run _ _ _ _ _ (eq_trans Hdes (descend_file s t h nm (trail e) par l (S r) q2 m2 last2 (rep_tree _ _ _ _ (ld_rep _ _ _ _ _ _ _ L)) Hpar ltac:(lia) Hnm Hcut2))).
    by rewrite (kbind_run _ _ _ _ _ Hrun).
Qed.

(** The whole archive, from [offset] on. *)
Lemma load_loop root max j data size es :
  4096 ≤ max → 0 < data → size < 2 ^ 64 → slash + 1 < data ∨ data + size ≤ slash →
  Forall (λ e, zlen (n_bytes (e_node e)) ≤ max) es →
  ∀ s t F k offset m last rounds, loading s t root F k max (8 * length es + j) → (k + length es ≤ fuel)%nat → (length es ≤ rounds)%nat →
  in_order F es → archive_at m data offset size es → 0 ≤ offset → cstr m slash [SLASH] →
  ∃ s' t' m' last', ustar_loop ops_table junk rounds fuel slash root data size offset (Ustar s m last) = Ret tt (Ustar s' m' last') ∧
    loading s' t' root (foldl add_entry F es) (k + length es) max j.
Proof using Htable Hfuel.
  intros Hmax Hdata Hsize Hslash. induction 1 as [|e es Hsz Hszs IH]; intros s t F k offset m last rounds L Hk Hr Hord Har Ho Hs.
  - exists s, t, m, last. rewrite Nat.add_0_r. split; [|done]. cbn in Har.
    destruct rounds; cbn [ustar_loop]; (destruct (Z.leb_spec size offset); [done|]); (destruct Har as [|Har]; [lia|]);
      (rewrite (kbind_run _ _ _ (load8 m (data + offset)) (Ustar s m last)) by done); by rewrite Har.
  - destruct Hord as [Hfit Hord], Har as (Hok & Hat & Hend & Har). cbn [length] in *. pose proof (entry_size_pos e).
    destruct rounds as [|rounds]; [lia|].
    assert (loading s t root F k max (8 + (8 * length es + j))) as L1 by (by replace (8 + (8 * length es + j))%nat with (8 * S (length es) + j)%nat by lia).
    assert (slash_at (data + offset) m) as Hsl by (split; [done|lia]).
    destruct (load_entry s t root F k max (8 * length es + j) e data offset m last L1 Hmax Hsz ltac:(lia) Hok Hfit Hat ltac:(lia) Hsl Ho ltac:(lia))
      as (s1 & t1 & m1 & last1 & Hrun & Hm1 & L2).
    destruct (IH s1 t1 (add_entry F e) (S k) (offset + entry_size e) m1 last1 rounds L2 ltac:(lia) ltac:(lia) Hord) as (s' & t' & m' & last' & Hloop & L').
    { eapply archive_at_ext; [|exact Har]. intros a Ha. apply Hm1. lia. }
    { lia. }
    { apply (slash_at_same (data + offset) m m1 Hm1 Hsl). }
    exists s', t', m', last'. split; [|by replace (k + S (length es))%nat with (S k + length es)%nat by lia].
    cbn [ustar_loop]. destruct (Z.leb_spec size offset); [lia|].
    rewrite (kbind_run _ _ _ (load8 m (data + offset)) (Ustar s m last)) by done.
    rewrite (proj2 (Z.eqb_neq _ 0)) by (by eapply entry_first). by rewrite (kbind_run _ _ _ _ _ Hrun).
Qed.

(** *** A new file system *)

(** The file system of a root directory without children. *)
Definition root_only (rv : vnode) : tree := {[ [] := Node true (mode rv) (creation_time rv) [] ]}.

Lemma rep_root_only s root rv :
  heap s !! root = Some (OVnode rv) → root ≠ 0 → vtype rv = VNODE_DIR → child rv = 0 → locked rv = false → ops rv = RAMFS_OPS →
  rep s {[ root := (VNODE_DIR, []) ]} root (root_only rv).
Proof.
  intros Hrv Hr0 Hty Hch Hlk Hops.
  assert (∀ p ty l, ({[ root := (VNODE_DIR, []) ]} : view) !! p = Some (ty, l) → p = root ∧ ty = VNODE_DIR ∧ l = []) as Hone.
  { intros p ty l [<- [= <- <-]]%lookup_singleton_Some. done. }
  split.
  - intros p ty l (-> & -> & ->)%Hone. split; [done|]. exists rv. split; try done; [constructor|constructor|by intros a ?%not_elem_of_nil].
  - rewrite dom_singleton. by apply elem_of_singleton.
  - intros p ty l (-> & -> & ->)%Hone. apply not_elem_of_nil.
  - intros p ty l (-> & -> & ->)%Hone. done.
  - intros names n Hn. unfold root_only in Hn. apply lookup_singleton_Some in Hn as [<- <-]. exists root. split; [done|]. split; [|done]. by exists rv.
  - intros names p Hw. destruct names as [|x names]; [unfold root_only; rewrite lookup_singleton_eq; eauto|].
    rewrite walk_cons in Hw. unfold child_of in Hw. rewrite lookup_singleton_eq in Hw. done.
Qed.
End loader.

(** The paths of the result come from the entries. *)
Lemma added_from F es names n :
  foldl add_entry F es !! names = Some n → F !! names = Some n ∨ ∃ e, e ∈ es ∧ e_path e = names ∧ names ≠ [].
Proof.
  revert F. induction es as [|e es IH]; intros F; [by left|]. cbn. intros [HF|(e' & Hin & Hp)]%IH; [|right; exists e'; by split; [right|]].
  unfold add_entry in HF. destruct (e_path e) as [|x p] eqn:Ep; [by left|].
  apply lookup_insert_Some in HF as [[<- _]|[_ HF]]; [right; exists e; split; [left|done]|by left].
Qed.

Lemma archive_entry m data offset size es e :
  archive_at m data offset size es → e ∈ es → Forall component (e_path e) ∧ (length (e_path e) ≤ 100)%nat.
Proof.
  revert offset. induction es as [|e' es IH]; intros offset Har Hin; [by apply not_elem_of_nil in Hin|].
  destruct Har as ((Hc & _) & Hat & _ & Har). apply elem_of_cons in Hin as [->|Hin]; [|by eapply IH]. split; [done|].
  pose proof (ea_len _ _ _ Hat) as Hl. unfold entry_text, tail_text in Hl. pose proof (join_length _ Hc).
  destruct (e_path e'); [cbn; lia|]. rewrite !length_app in Hl. lia.
Qed.

Section theorem.
Context {E : Type} `{KernelEnvLaws E}.
Context (ops_table : Z → option (vnode_ops E)) (junk slash : Z) (fuel : nat)
  (Htable : ops_table RAMFS_OPS = Some (ramfs_ops junk fuel)).
Implicit Types s : fs E.

(** What the loader does, and that the mount stays. *)
Lemma ramfs_init_run s m last mnt mt rv data size es max (j : nat)
    (Hmnt : mnt ≠ 0 ∧ heap s !! mnt = Some (OMount mt)) (Hroot : m_root mt ≠ 0 ∧ heap s !! m_root mt = Some (OVnode rv))
    (Hempty : vtype rv = VNODE_DIR ∧ child rv = 0 ∧ locked rv = false)
    (Hok : heap_ok s) (Hmax : 4096 ≤ max) (Hsupply : supply max (8 * length es + j) (env s))
    (Hplace : 0 < data ∧ USTAR_HEADER_SIZE ≤ size < 2 ^ 64) (Harchive : archive_at m data 0 size es)
    (Horder : in_order (root_only rv) es) (Hsizes : Forall (λ e, zlen (n_bytes (e_node e)) ≤ max) es)
    (Hslash : cstr m slash [SLASH] ∧ (slash + 1 < data ∨ data + size ≤ slash))
    (Hfuel : (100 < fuel)%nat ∧ (length es ≤ fuel)%nat) :
  let F := foldl add_entry (root_only rv) es in
  ∃ s' t m' last', ramfs_init ops_table junk fuel slash mnt RAMFS_TYPE_USTAR data size (Ustar s m last) = Ret tt (Ustar s' m' last') ∧
    rep s' t (m_root mt) F ∧ heap_ok s' ∧ supply max j (env s') ∧ wide (length es) t ∧ heap s' !! mnt = Some (OMount (set_mtype (SLit RAMFS) mt)) ∧
    ∀ names n, F !! names = Some n → ∃ p, node_at s' p n ∧
      (∀ fuel', vfs_lazy_lookup fuel' fuel mnt (Some (path_of names)) s' = Ret p s') ∧
      (n_dir n = false → ∀ buf, buf ≠ 0 → zlen (n_bytes n) < 2 ^ 31 →
         vfs_read ops_table p buf (zlen (n_bytes n)) 0 s' = Ret (zlen (n_bytes n), n_bytes n) s').
Proof using Htable.
  destruct Hmnt as [Hm0 Hm], Hroot as [Hr0 Hrv], Hempty as (Hty & Hch & Hlk), Hplace as [Hd Hsz], Hslash as [Hsl Hsd], Hfuel as [Hf Hfe].
  intros F. set (root := m_root mt) in *. set (mt' := set_mtype (SLit RAMFS) mt).
  set (s1 := set_heap (<[root := OVnode (set_ops RAMFS_OPS rv)]> (heap s)) s).
  set (s2 := set_heap (<[mnt := OMount mt']> (heap s1)) s1).
  assert (mnt ≠ root) as Hmr by congruence.
  assert (heap s1 !! mnt = Some (OMount mt)) as Hm1 by (unfold s1; hlook).
  assert (heap s2 !! root = Some (OVnode (set_ops RAMFS_OPS rv))) as Hrv2 by (unfold s2, s1; hlook).
  assert (heap s2 !! mnt = Some (OMount mt')) as Hm2 by (unfold s2; hlook).
  assert (loading mnt mt' s2 {[ root := (VNODE_DIR, []) ]} root (root_only rv) 0 max (8 * length es + j)) as L.
  { split; [exact (rep_root_only s2 root _ Hrv2 Hr0 Hty Hch Hlk eq_refl)|by eapply heap_ok_set, Hm1; eapply heap_ok_set| |done|done].
    by intros p ty l [_ [= _ <-]]%lookup_singleton_Some. }
  destruct (load_loop ops_table junk slash fuel Htable Hf mnt mt' root max j data size es Hmax Hd ltac:(lia) Hsd Hsizes
    s2 _ (root_only rv) 0 0 m last fuel L Hfe Hfe Horder Harchive ltac:(lia) Hsl) as (s' & t & m' & last' & Hloop & [R Hok' Hw Hsup' Hm']).
  exists s', t, m', last'. split; [|split; [exact R|split; [exact Hok'|split; [exact Hsup'|split; [exact Hw|split; [exact Hm'|]]]]]].
  - unfold ramfs_init. unfold kassert at 1. rewrite (proj2 (Z.eqb_neq mnt 0)) by done. cbn [negb].
    rewrite (kbind_run _ _ _ tt (Ustar s m last)) by done. rewrite (kbind_run _ _ _ _ _ (in_fs_run _ s m last _ _ (get_mount_run s mnt mt Hm))).
    rewrite (kbind_run _ _ _ _ _ (in_fs_run _ s m last _ _ (upd_vnode_run s root rv _ Hrv))). fold s1.
    assert (upd_mount mnt (set_mtype (SLit RAMFS)) s1 = Ret tt s2) as Hup by (unfold upd_mount, kbind; by rewrite (get_mount_run _ _ mt)).
    rewrite (kbind_run _ _ _ _ _ (in_fs_run _ s1 m last _ _ Hup)). cbn [RAMFS_TYPE_USTAR Z.eqb Pos.eqb].
    unfold ramfs_init_ustar, kassert. rewrite (proj2 (Z.eqb_neq mnt 0)), (proj2 (Z.eqb_neq data 0)), (proj2 (Z.leb_le _ size)) by lia.
    cbn [negb]. do 3 (rewrite (kbind_run (kret tt) _ _ tt (Ustar s2 m last)) by done).
    by rewrite (kbind_run _ _ _ _ _ (in_fs_run _ s2 m last _ _ (get_mount_run s2 mnt mt' Hm2))).
  - intros names n HF. destruct (rep_node _ _ _ _ R _ _ HF) as (p & Wp & Hn). exists p. split; [exact Hn|].
    assert (Forall component names ∧ (length names ≤ fuel)%nat) as [Hcomp Hlen].
    { apply added_from in HF as [HF|(e & Hin & <- & _)].
      - unfold root_only in HF. apply lookup_singleton_Some in HF as [<- _]. cbn. split; [constructor|lia].
      - destruct (archive_entry _ _ _ _ _ _ Harchive Hin). split; [done|lia]. }
    split.
    + intros fuel'. rewrite path_of_join.
      pose proof (rep_addr _ _ _ _ _ _ R Wp) as Hp0.
      destruct fuel'; cbn [vfs_lazy_lookup]; rewrite (proj2 (Z.eqb_neq mnt 0)), Z.eqb_refl by done; cbn [orb negb];
        rewrite (kbind_run _ _ _ _ _ (get_mount_run s' mnt mt' Hm'));
        (rewrite (proj2 (Z.eqb_neq (m_root mt') 0)) by done);
        rewrite (kbind_run _ _ _ _ _ (lookup_components_run fuel fuel s' t root names (rep_tree _ _ _ _ R) (rep_root _ _ _ _ R) Hcomp Hlen
          ltac:(intros q ty l Hq; pose proof (Hw _ _ _ Hq); lia)));
        by rewrite (rep_resolve _ _ _ _ _ _ R Wp), (proj2 (Z.eqb_neq p 0)).
    + intros Hdir buf Hbuf Hb. destruct Hn as [(v & Hv & _ & _ & _ & Ho & Hl) Hfile].
      assert (free_file s' p (n_bytes n)) as Hfree by (split; [by apply Hfile|by exists v]).
      pose proof (vfs_read_run junk ops_table fuel Htable s' p (n_bytes n) buf (zlen (n_bytes n)) Hfree Hbuf) as Hread.
      unfold zlen in *. rewrite Nat2Z.id, take_ge in Hread by lia. apply Hread; lia.
Qed.

(** C14: The boot archive becomes the file system.  For a mount whose root is an
    empty directory, an archive in memory whose entries come after the
    directories they are in and have new names, and memory for them,
    [ramfs_init] ends; the root then holds the entries of the archive and
    nothing else, each with the type, mode and time of its header.  Each can be
    looked up by its path, and reading a file gives the bytes that follow its
    header in the archive. *)
Theorem ustar_loads s m last mnt mt rv data size es max
    (Hmnt : mnt ≠ 0 ∧ heap s !! mnt = Some (OMount mt)) (Hroot : m_root mt ≠ 0 ∧ heap s !! m_root mt = Some (OVnode rv))
    (Hempty : vtype rv = VNODE_DIR ∧ child rv = 0 ∧ locked rv = false)
    (Hok : heap_ok s) (Hmax : 4096 ≤ max) (Hsupply : supply max (8 * length es) (env s))
    (Hplace : 0 < data ∧ USTAR_HEADER_SIZE ≤ size < 2 ^ 64) (Harchive : archive_at m data 0 size es)
    (Horder : in_order (root_only rv) es) (Hsizes : Forall (λ e, zlen (n_bytes (e_node e)) ≤ max) es)
    (Hslash : cstr m slash [SLASH] ∧ (slash + 1 < data ∨ data + size ≤ slash))
    (Hfuel : (100 < fuel)%nat ∧ (length es ≤ fuel)%nat) :
  let F := foldl add_entry (root_only rv) es in
  ∃ s' t m' last', ramfs_init ops_table junk fuel slash mnt RAMFS_TYPE_USTAR data size (Ustar s m last) = Ret tt (Ustar s' m' last') ∧
    rep s' t (m_root mt) F ∧
    ∀ names n, F !! names = Some n → ∃ p, node_at s' p n ∧
      (∀ fuel', vfs_lazy_lookup fuel' fuel mnt (Some (path_of names)) s' = Ret p s') ∧
      (n_dir n = false → ∀ buf, buf ≠ 0 → zlen (n_bytes n) < 2 ^ 31 →
         vfs_read ops_table p buf (zlen (n_bytes n)) 0 s' = Ret (zlen (n_bytes n), n_bytes n) s').
Proof using Htable.
  destruct (ramfs_init_run s m last mnt mt rv data size es max 0) as (s' & t & m' & last' & Hrun & R & _ & _ & _ & _ & Hall); [done..| |done|done|done|done|done|done|].
  { by rewrite Nat.add_0_r. }
  by exists s', t, m', last'.
Qed.
End theorem.

(** *** Witness: a directory and a file *)

Definition demo_header (h : Z) (nm md sz tm ty : string) (m : mem) : mem :=
  store_bytes (store_bytes (store_bytes (store_bytes (store_bytes m h (str nm)) (h + 100) (str md)) (h + 124) (str sz)) (h + 136) (str tm)) (h + 156) (str ty).

Definition demo_archive : mem :=
  store_bytes (demo_header 4096 "./" "0000755" "00000000000" "00000000144" "5"
    (demo_header 4608 "./etc/" "0000755" "00000000000" "00000000144" "5"
    (demo_header 5120 "./etc/motd" "0000644" "00000000003" "00000000145" "0"
    (store_bytes ∅ 100 (str "/"))))) 5632 (str "hi!").

Definition demo_entries : list entry :=
  [Entry true false [] (Node true 493 100 []);
   Entry true true [str "etc"] (Node true 493 100 []);
   Entry true false [str "etc"; str "motd"] (Node false 420 101 (str "hi!"))].

Definition demo_root : vnode := Vnode 2 0 0 1 VNODE_DIR (SLit ROOT_NAME) 0 0 0 0 0x1ed 0 0 0 0 0 false.
Definition demo_mount : mount := Mount 2 0 0 (SLit []) (SLit ROOTFS) 0.
Definition new_fs : fs demo_env :=
  Fs (<[1 := OMount demo_mount]> (<[2 := OVnode demo_root]> ∅)) (DemoEnv 30 {[1; 2]} 0) 1 0 0 [].
Definition demo_ramfs (p : Z) : option (vnode_ops demo_env) := if p =? RAMFS_OPS then Some (ramfs_ops 77 101) else None.

Lemma demo_supply max k e : (k ≤ de_left e)%nat → supply max k e.
Proof.
  revert e. induction k as [|k IH]; intros [left live c] Hk; [done|]. simpl in Hk.
  destruct left as [|left]; [lia|]. split; [|apply IH; simpl; lia]. intros n p e' _ [= <- <-]. split; [|apply IH; simpl; lia].
  pose proof (is_fresh ({[0]} ∪ live : gset Z)). set_solver.
Qed.

Lemma octal_intro m p v ds :
  digits_at m p 8 ds → bool_decide (ds ≠ [] ∧ length ds ≤ 12 ∧ digits_value 8 0 ds = v)%nat = true → octal_at m p v.
Proof. intros Hd (? & ? & ?)%bool_decide_eq_true. by exists ds. Qed.

Ltac demo_field ds :=
  apply (octal_intro _ _ _ ds); [vm_compute; repeat (split; [discriminate|split; [reflexivity|split; [reflexivity|]]]); left; reflexivity|vm_compute; reflexivity].

Lemma demo_archive_at : archive_at demo_archive 4096 0 2048 demo_entries.
Proof.
  split; [|split; [|split; [vm_compute; discriminate|split; [|split; [|split; [vm_compute; discriminate|split; [|split; [|split; [vm_compute; discriminate|]]]]]]]]].
  1, 3, 5: unfold entry_ok, component; apply (bool_decide_unpack _); vm_compute; exact I.
  all: try (split; [vm_compute; repeat (split; [reflexivity|split; [discriminate|]]); reflexivity|apply Nat.ltb_lt; vm_compute; reflexivity| | | |vm_compute; reflexivity|vm_compute; reflexivity]).
  - demo_field [0; 0; 0; 0; 7; 5; 5].
  - demo_field [0; 0; 0; 0; 0; 0; 0; 0; 0; 0; 0].
  - demo_field [0; 0; 0; 0; 0; 0; 0; 0; 1; 4; 4].
  - demo_field [0; 0; 0; 0; 7; 5; 5].
  - demo_field [0; 0; 0; 0; 0; 0; 0; 0; 0; 0; 0].
  - demo_field [0; 0; 0; 0; 0; 0; 0; 0; 1; 4; 4].
  - demo_field [0; 0; 0; 0; 6; 4; 4].
  - demo_field [0; 0; 0; 0; 0; 0; 0; 0; 0; 0; 3].
  - demo_field [0; 0; 0; 0; 0; 0; 0; 0; 1; 4; 5].
  - left. vm_compute. discriminate.
Qed.

Lemma demo_in_order : in_order (root_only demo_root) demo_entries.
Proof.
  split; [by left|]. split; [right; exists [], (str "etc"); eexists; split_and!; [reflexivity|vm_compute; reflexivity|reflexivity|vm_compute; reflexivity]|].
  split; [|done]. right. exists [str "etc"], (str "motd"). eexists. split_and!; [reflexivity|vm_compute; reflexivity|reflexivity|vm_compute; reflexivity].
Qed.

Lemma ustar_loads_witness :
  ∃ s' m' last' p, ramfs_init demo_ramfs 77 101 100 1 RAMFS_TYPE_USTAR 4096 2048 (Ustar new_fs demo_archive 0) = Ret tt (Ustar s' m' last') ∧
    vfs_lazy_lookup 1 101 1 (Some (str "/etc/motd")) s' = Ret p s' ∧ vfs_read demo_ramfs p 9 3 0 s' = Ret (3, str "hi!") s'.
Proof.
  destruct (ustar_loads demo_ramfs 77 100 101 eq_refl new_fs demo_archive 0 1 demo_mount demo_root 4096 2048 demo_entries 4096)
    as (s' & t & m' & last' & Hrun & _ & Hall).
  - split; [discriminate|reflexivity].
  - split; [discriminate|reflexivity].
  - split; [reflexivity|split; reflexivity].
  - split; [exact I|]. apply (bool_decide_unpack _). vm_compute. exact I.
  - discriminate.
  - apply demo_supply. apply Nat.leb_le. reflexivity.
  - split; [reflexivity|]. split; [discriminate|reflexivity].
  - exact demo_archive_at.
  - exact demo_in_order.
  - apply (bool_decide_unpack _). vm_compute. exact I.
  - split; [|left; reflexivity]. vm_compute. split; [reflexivity|]. split; [discriminate|reflexivity].
  - split; apply Nat.leb_le; reflexivity.
  - destruct (Hall [str "etc"; str "motd"] (Node false 420 101 (str "hi!"))) as (p & _ & Hl & Hr); [vm_compute; reflexivity|].
    exists s', m', last', p. split; [exact Hrun|]. split; [exact (Hl 1%nat)|]. apply (Hr eq_refl 9); [discriminate|reflexivity].
Defined.
