(* ===== verification/Devfs.v ===== *)
(** * Device files and standard output

    [fs/devfs.c] and [dev/stdout.c].  A device is a pair of functions, known by
    their addresses; [dev_reads] and [dev_writes] are the code at those
    addresses. *)

From stdpp Require Import base gmap list.
From Stdlib Require Import ZArith Lia.
From S2P Require Import Prelude Ram CString Vnode Vfs Ramfs.
#[local] Open Scope Z_scope.

Definition DEV_NAME : list Z := [100; 101; 118].
Definition DEV_PATH : list Z := [47; 100; 101; 118].
Definition DEVFS_NAME : list Z := [100; 101; 118; 102; 115].
Definition STDOUT_NAME : list Z := [115; 116; 100; 111; 117; 116].
Definition STDOUT_PATH : list Z := DEV_PATH ++ [47] ++ STDOUT_NAME.
(** The addresses of [read] and [write] of [dev/stdout.c]. *)
Definition STDOUT_READ : Z := 16.
Definition STDOUT_WRITE : Z := 17.

Section devfs.
Context {E : Type} `{KernelEnv E}.
Context (ops_table : Z → option (vnode_ops E)) (junk : Z).
Context (dev_reads : Z → option (Z → Z → Z → kernel (fs E) (Z * list Z))).
Context (dev_writes : Z → option (option (list Z) → Z → Z → kernel (fs E) Z)).

Definition devfs_read (vnode buf size offset : Z) : kernel (fs E) (Z * list Z) :=
  let* v := get_vnode vnode in
  let* (r, _) := get_dev (data v) in
  let* f := kopt (dev_reads r) in
  f buf size offset.

Definition devfs_write (vnode : Z) (buf : option (list Z)) (size offset : Z) : kernel (fs E) Z :=
  let* v := get_vnode vnode in
  let* (_, w) := get_dev (data v) in
  let* f := kopt (dev_writes w) in
  f buf size offset.

(** [strncpy(p, nm, sizeof(char * ))] into the block of a string, which has room
    for the string it holds.  A name shorter than 8 bytes is padded, to 9 bytes
    in all (see [CString.strncpy]); a longer one is cut and overwrites
    the first 8 bytes, so that without room for 9 bytes either the write or the
    next use of the string leaves the block. *)
Definition strncpy_name (p : strptr) (nm : list Z) : kernel (fs E) unit :=
  match p with
  | SHeap a =>
      let* old := get_str p in
      if (length old <? 8)%nat then kfault else
      put a (OStr (if (length nm <? 8)%nat then nm else take 8 nm ++ drop 8 old))
  | _ => kfault
  end.

(** The fields of the fresh block hold [junk]; [strncpy] writes through the
    name pointer found there. *)
Definition devfs_create (fuel : nat) (self : Z) (nm : option (list Z)) (type : Z) : kernel (fs E) Z :=
  spinlock_release self ;;;
  match nm with
  | None => kfault
  | Some nm =>
      let* found := vfs_lookup fuel self nm in
      if negb (found =? 0) then kret 0 else
      spinlock_acquire self ;;;
      let* new_vnode := kmalloc VNODE_SIZEOF in
      if new_vnode =? 0 then kret 0 else
      put new_vnode (OVnode (Vnode junk junk junk junk junk (SHeap junk) junk junk junk junk junk junk junk junk
                                   junk junk true)) ;;;
      strncpy_name (SHeap junk) nm ;;;
      upd_vnode new_vnode (λ v, set_next 0 (set_child 0 (set_vtype type v))) ;;;
      link_child fuel self new_vnode ;;;
      let* sv := get_vnode self in
      upd_vnode new_vnode (λ v,
        Vnode self (next v) (child v) (v_mount sv) (vtype v) (name v) 0 0 0 0
          (Z.lor (Z.lor VNODE_MODE_RUSR VNODE_MODE_WUSR) (Z.lor VNODE_MODE_RGRP VNODE_MODE_WGRP))
          0 0 0 DEVFS_OPS 0 false) ;;;
      kret new_vnode
  end.

Definition devfs_ops (fuel : nat) : vnode_ops E :=
  VnodeOps (Some devfs_read) (Some devfs_write) (Some (devfs_create fuel)) None.

Definition devfs_add_dev (fuel : nat) (nm : option (list Z)) (read write : Z) : kernel (fs E) Z :=
  if bool_decide (nm = None) || (read =? 0) || (write =? 0) then kret (-1) else
  let* root := kget devfs_root in
  let* m := get_mount root in
  let* dev := vfs_create_vnode ops_table (m_root m) nm VNODE_DEV in
  if dev =? 0 then kret (-1) else
  upd_vnode dev (set_ops DEVFS_OPS) ;;;
  let* device := kmalloc DEV_SIZEOF in
  if device =? 0 then vfs_delete_node fuel dev ;;; kret (-1) else
  put device (ODev read write) ;;;
  upd_vnode dev (set_data device) ;;;
  kret 0.

Definition devfs_init (fuel : nat) : kernel (fs E) unit :=
  let* rm := kget root_mount in
  let* m := get_mount rm in
  let* devfs_dir := vfs_create_vnode ops_table (m_root m) (Some DEV_NAME) VNODE_DIR in
  kassert (negb (devfs_dir =? 0)) ;;;
  upd_vnode devfs_dir (set_flags VNODE_FLAG_MOUNTPOINT) ;;;
  let* mount := vfs_mount junk fuel DEV_PATH DEVFS_NAME in
  if mount =? 0 then kret tt else
  kmod (set_devfs_root mount) ;;;
  upd_mount mount (set_m_root devfs_dir) ;;;
  upd_vnode devfs_dir (set_v_mount mount).

(** [dev/stdout.c] *)
Definition stdout_read (buf size offset : Z) : kernel (fs E) (Z * list Z) := kret (-1, []).

(** [for (i = 0; i < size; i++) outb(DEFAULT_COM_PORT, buf[i]);] *)
Definition stdout_write (buf : option (list Z)) (size offset : Z) : kernel (fs E) Z :=
  match buf with
  | None => khalt
  | Some bytes =>
      kmod (λ s, set_console (console s ++ take (Z.to_nat size) bytes) s) ;;;
      kret (s32 size)
  end.

Definition stdout_init (fuel : nat) : kernel (fs E) unit :=
  let* r := devfs_add_dev fuel (Some STDOUT_NAME) STDOUT_READ STDOUT_WRITE in
  kassert (r =? 0) ;;;
  let* rm := kget root_mount in
  let* m := get_mount rm in
  let* rv := get_vnode (m_root m) in
  let* p := vfs_lazy_lookup fuel fuel (v_mount rv) (Some STDOUT_PATH) in
  kmod (set_stdout p).
End devfs.

(** The kernel's tables: the two file systems, and standard output as the only
    device. *)
Definition stdout_reads {E} `{KernelEnv E} (f : Z) : option (Z → Z → Z → kernel (fs E) (Z * list Z)) :=
  if f =? STDOUT_READ then Some stdout_read else None.
Definition stdout_writes {E} `{KernelEnv E} (f : Z) : option (option (list Z) → Z → Z → kernel (fs E) Z) :=
  if f =? STDOUT_WRITE then Some stdout_write else None.

Definition kernel_ops {E} `{KernelEnv E} (junk : Z) (fuel : nat) (p : Z) : option (vnode_ops E) :=
  if p =? RAMFS_OPS then Some (ramfs_ops junk fuel) else
  if p =? DEVFS_OPS then Some (devfs_ops junk stdout_reads stdout_writes fuel) else None.

(** ** Properties *)

Section facts.
Context {E : Type} `{KernelEnvLaws E} (junk : Z) (fuel : nat).
Implicit Types s : fs E.

(** Writing to standard output through the operations table and the device's
    function: the serial port receives the bytes in order; the vnode's lock is
    free again and carries the time of the write. *)
Lemma stdout_write_run s p v dev bytes offset time e' :
  heap s !! p = Some (OVnode v) → vtype v = VNODE_DEV → locked v = false →
  ops v = DEVFS_OPS → data v = dev → heap s !! dev = Some (ODev STDOUT_READ STDOUT_WRITE) →
  Z.of_nat (length bytes) < 2 ^ 31 → env_time (env s) = (time, e') →
  vfs_write (kernel_ops junk fuel) p (Some bytes) (Z.of_nat (length bytes)) offset s =
  Ret (Z.of_nat (length bytes))
      (Fs (<[p := OVnode (set_modify_time time (set_locked false v))]> (heap s)) e'
          (root_mount s) (devfs_root s) (stdout s) (console s ++ bytes)).
Proof.
  intros Hp Hty Hlock Hops Hdata Hdev Hlen Htime.
  unfold vfs_write. do 2 kstep. cbn [vtype ops set_locked]. rewrite Hty, Hops.
  change (VNODE_DEV =? VNODE_DIR) with false. change (DEVFS_OPS =? 0) with false.
  cbv beta iota zeta. unfold kernel_ops. change (DEVFS_OPS =? RAMFS_OPS) with false.
  change (DEVFS_OPS =? DEVFS_OPS) with true. cbn [kopt]. kstep. cbn [op_write devfs_ops].
  assert (dev ≠ p) as Hdp by congruence. unfold devfs_write. do 2 kstep. cbn [data set_locked].
  rewrite Hdata. do 2 kstep. unfold stdout_writes. change (STDOUT_WRITE =? STDOUT_WRITE) with true. cbn [kopt]. do 2 kstep.
  unfold stdout_write, kmod. unfold kbind at 1, kbind at 1. rewrite Nat2Z.id, firstn_all.
  cbv beta iota. unfold kret at 1. cbv beta iota.
  set (s2 := set_console _ _).
  rewrite (kbind_run _ _ _ _ _ (release_run s2 p (set_locked true v) (lookup_insert_eq _ _ _))).
  unfold now, kbind at 1. cbn [env set_heap s2 set_console]. rewrite Htime.
  erewrite kbind_run; [|eapply upd_vnode_run; cbn; apply lookup_insert_eq].
  unfold kret. f_equal; [unfold s32; rewrite Z.mod_small; lia|].
  unfold set_heap, set_env. cbn. by rewrite !insert_insert_eq.
Qed.


(** [devfs_create] writes where chance leads.  With the name free and memory
    for the vnode, it copies the name through the pointer that happens to be in
    the fresh block: unless that word is the address of a string, the write is
    outside every string of the kernel. *)
Theorem devfs_create_undefined s par pv l nm type dev_reads dev_writes
  (Hok : heap_ok s) (Hroom : room 4096 1 (env s)) (Hpv : heap s !! par = Some (OVnode pv))
  (Hchain : chain (heap s) (child pv) l) (Hname : nm ∉ l.*2) (Hfuel : (length l ≤ fuel)%nat)
  (Hjunk : ∀ str, heap s !! junk ≠ Some (OStr str)) :
  op_create (devfs_ops junk dev_reads dev_writes fuel) = Some (devfs_create junk fuel) ∧
  devfs_create junk fuel par (Some nm) type s = Fault.
Proof.
  split; [done|].
  destruct (create_prologue fuel s par pv l nm) as (Hpro & Ok2 & C2 & U2); [done..|].
  unfold devfs_create. rewrite (Hpro _ (kret 0)).
  destruct (kmalloc_run (set_heap (<[par := OVnode (set_locked true pv)]> (heap s)) s) VNODE_SIZEOF 4096 0)
    as (new & e & M & N0 & _); [done..|].
  rewrite (kbind_run _ _ _ _ _ M), (proj2 (Z.eqb_neq new 0)) by done. kstep.
  unfold kbind at 1, strncpy_name, kbind at 1, get_str. cbn [heap set_heap set_env].
  destruct (decide (junk = new)) as [->|Hn]; [by rewrite lookup_insert_eq|]. rewrite lookup_insert_ne by done.
  destruct (decide (junk = par)) as [->|Hn']; [by rewrite lookup_insert_eq|]. rewrite lookup_insert_ne by done.
  destruct (heap s !! junk) as [[]|] eqn:Hj; try done. by destruct (Hjunk l0).
Qed.
End facts.

(** *** Witnesses *)

Definition stdout_fs : fs demo_env :=
  Fs (<[2 := OVnode (Vnode 2 0 3 1 VNODE_DIR (SLit ROOT_NAME) 0 0 0 0 0x1ed 0 0 0 DEVFS_OPS 0 false)]>
     (<[3 := OVnode (Vnode 2 0 0 1 VNODE_DEV (SLit STDOUT_NAME) 0 5 0 0 0x92 0 0 0 DEVFS_OPS 0 false)]>
     (<[5 := ODev STDOUT_READ STDOUT_WRITE]> ∅)))
     (DemoEnv 10 {[2; 3; 5]} 7) 1 0 3 [72].


Lemma devfs_create_undefined_witness :
  devfs_create 77 5 2 (Some [97]) VNODE_DEV stdout_fs = Fault.
Proof.
  refine (proj2 (devfs_create_undefined 77 5 stdout_fs 2 _ [(3, STDOUT_NAME)] [97] VNODE_DEV
    stdout_reads stdout_writes _ _ eq_refl _ _ _ _)).
  - split; [done|]. apply (bool_decide_unpack _). by vm_compute.
  - apply demo_room. by apply Nat.leb_le.
  - split_and!; [done..|]. eexists. by split_and!.
  - apply (bool_decide_unpack _). by vm_compute.
  - by apply Nat.leb_le.
  - intros str. discriminate.
Defined.
