(* ===== verification/Printf.v ===== *)
(** * Kernel printing

    [lib/printf.c]: the log ring, the lock around it, [kprintf] and the C
    library's [printf] family, over the formatter ([Format]) and the file system
    ([Vfs]).  The terminal emulator flanterm is not in the repository: what a
    byte does to the screen is an argument, as is the function behind
    [putchar_impl].  A function's [char buffer[1024]] is the 1024 bytes at its
    argument [frame]. *)

From stdpp Require Import base gmap list.
From Stdlib Require Import ZArith Lia.
From S2P Require Import Prelude Ram CString Format Vnode Vfs Ramfs Devfs.
#[local] Open Scope Z_scope.

(** The size of the section [.printk_buffer] of [linker.ld]. *)
Definition PRINTK_BUFF_SIZE : Z := 0x100000.

Record printer (E T : Type) := Printer {
  pfs : fs E;
  pram : mem;
  printk_index : Z;
  put_lock : bool;
  serial : list Z;  (** bytes written to port 0xE9 *)
  screen : T;
  ft_ctx : Z;
  putchar_impl : Z;
}.
Arguments Printer {E T} _ _ _ _ _ _ _ _.
Arguments pfs {E T} _.
Arguments pram {E T} _.
Arguments printk_index {E T} _.
Arguments put_lock {E T} _.
Arguments serial {E T} _.
Arguments screen {E T} _.
Arguments ft_ctx {E T} _.
Arguments putchar_impl {E T} _.

(** ** The [snprintf] family *)

(** [vsnprintf]; [None] is undefined behaviour of the formatter. *)
Definition vsnprintf (m : mem) (buf size : Z) (fmt : list Z) (args : list va) : option (Z * mem) :=
  '(length, m) ← npf_vsnprintf m buf size fmt args;
  Some (length, if s32 size <=? length then store8 m (u64 (buf + u64 (size - 1))) 0 else m).

Definition snprintf (m : mem) (buf size : Z) (fmt : list Z) (args : list va) : option (Z * mem) :=
  vsnprintf m buf size fmt args.

(** [sizeof(buf)] is the size of a pointer. *)
Definition vsprintf (m : mem) (buf : Z) (fmt : list Z) (args : list va) : option (Z * mem) :=
  vsnprintf m buf 8 fmt args.
Definition sprintf (m : mem) (buf : Z) (fmt : list Z) (args : list va) : option (Z * mem) :=
  vsnprintf m buf 8 fmt args.

Section printf.
Context {E T : Type} `{KernelEnv E}.
Context (ops_table : Z → option (vnode_ops E)).
Context (flanterm_write : Z → list Z → T → T) (putchar_code : Z → Z → T → T).
Context (printk_buff_start : Z).

Definition set_pfs (x : fs E) (s : printer E T) : printer E T :=
  Printer x (pram s) (printk_index s) (put_lock s) (serial s) (screen s) (ft_ctx s) (putchar_impl s).
Definition set_pram (x : mem) (s : printer E T) : printer E T :=
  Printer (pfs s) x (printk_index s) (put_lock s) (serial s) (screen s) (ft_ctx s) (putchar_impl s).
Definition set_printk_index (x : Z) (s : printer E T) : printer E T :=
  Printer (pfs s) (pram s) x (put_lock s) (serial s) (screen s) (ft_ctx s) (putchar_impl s).
Definition set_put_lock (x : bool) (s : printer E T) : printer E T :=
  Printer (pfs s) (pram s) (printk_index s) x (serial s) (screen s) (ft_ctx s) (putchar_impl s).
Definition set_serial (x : list Z) (s : printer E T) : printer E T :=
  Printer (pfs s) (pram s) (printk_index s) (put_lock s) x (screen s) (ft_ctx s) (putchar_impl s).
Definition set_screen (x : T) (s : printer E T) : printer E T :=
  Printer (pfs s) (pram s) (printk_index s) (put_lock s) (serial s) x (ft_ctx s) (putchar_impl s).

(** A call into the file system. *)
Definition on_fs {A} (c : kernel (fs E) A) : kernel (printer E T) A :=
  zoom pfs set_pfs c.

(** ** [put] *)

Definition append_byte (data i : Z) : kernel (printer E T) unit :=
  kmod (λ s, set_printk_index (u64 (printk_index s + 1) mod PRINTK_BUFF_SIZE)
               (set_pram (store8 (pram s) (printk_buff_start + printk_index s) (load8 (pram s) (data + i))) s)).

Definition append_to_printk_buff (data length : Z) : kernel (printer E T) unit :=
  kfor (seqZ 0 length) (append_byte data).

(** [outb(0xE9, data[i])] *)
Definition out_e9 (data i : Z) : kernel (printer E T) unit :=
  kmod (λ s, set_serial (serial s ++ [load8 (pram s) (data + i)]) s).

Definition show_byte (data i : Z) : kernel (printer E T) unit :=
  kmod (λ s, let c := load8 (pram s) (data + i) in
             if negb (ft_ctx s =? 0) then set_screen (flanterm_write (ft_ctx s) [c] (screen s)) s else
             if negb (putchar_impl s =? 0) then set_screen (putchar_code (putchar_impl s) c (screen s)) s else s).

Definition lock_put : kernel (printer E T) unit :=
  let* l := kget put_lock in
  if l then kspin else kmod (set_put_lock true).

Definition put (data length : Z) : kernel (printer E T) unit :=
  lock_put ;;;
  let* out := kget (λ s, stdout (pfs s)) in
  if negb (out =? 0) then
    kfor (seqZ 0 length) (out_e9 data) ;;;
    kmod (set_put_lock false)
  else
    append_to_printk_buff data length ;;;
    kfor (seqZ 0 length) (λ i, out_e9 data i ;;; show_byte data i) ;;;
    kmod (set_put_lock false).

(** ** The [printf] family *)

(** The text in the buffer [frame], and its length. *)
Definition format_frame (frame : Z) (fmt : list Z) (args : list va) : kernel (printer E T) Z :=
  let* m := kget pram in
  let* r := kopt (npf_vsnprintf m frame 1024 fmt args) in
  kmod (set_pram (snd r)) ;;;
  kret (fst r).

Definition vprintf (frame : Z) (fmt : list Z) (args : list va) : kernel (printer E T) Z :=
  let* length := format_frame frame fmt args in
  (if (0 <=? length) && (length <? 1024) then put frame length else kret tt) ;;;
  kret length.

Definition kprintf (frame : Z) (fmt : list Z) (args : list va) : kernel (printer E T) Z :=
  let* length := format_frame frame fmt args in
  (if (0 <=? length) && (length <? 1024) then put frame length else kret tt) ;;;
  kret length.

Definition vfprintf (frame vnode : Z) (fmt : list Z) (args : list va) : kernel (printer E T) Z :=
  let* length := format_frame frame fmt args in
  (if (0 <=? length) && (length <? 1024) then
     let* bytes := kget (λ s, bytes_at (pram s) frame (Z.to_nat length)) in
     let* _ := on_fs (vfs_write ops_table vnode (Some bytes) length 0) in kret tt
   else kret tt) ;;;
  kret length.

Definition fprintf (frame vnode : Z) (fmt : list Z) (args : list va) : kernel (printer E T) Z :=
  vfprintf frame vnode fmt args.

Definition printf (frame : Z) (fmt : list Z) (args : list va) : kernel (printer E T) Z :=
  let* out := kget (λ s, stdout (pfs s)) in
  if out =? 0 then kret 0 else vfprintf frame out fmt args.

(** The bytes behind a pointer that may be NULL. *)
Definition pointed (m : mem) (p : Z) (n : nat) : option (list Z) :=
  if p =? 0 then None else Some (bytes_at m p n).

(** [fwrite]: every round writes at offset 0. *)
Fixpoint fwrite_loop (fuel : nat) (vnode buffer size total_written : Z) : kernel (printer E T) Z :=
  if total_written <? size then
    match fuel with
    | O => knofuel
    | S f =>
        let* bytes := kget (λ s, pointed (pram s) (buffer + total_written) (Z.to_nat (size - total_written))) in
        let* written := on_fs (vfs_write ops_table vnode bytes (size - total_written) 0) in
        if written <=? 0 then kret (-1) else fwrite_loop f vnode buffer size (total_written + written)
    end
  else kret (s32 total_written).

(** Every round that goes on writes a byte. *)
Definition fwrite (vnode buffer size : Z) : kernel (printer E T) Z :=
  fwrite_loop (Z.to_nat size) vnode buffer size 0.

(** ** The log ring *)

(** The bytes logged so far and the ring that holds the last of them. *)
Definition ring (s : printer E T) (log : list Z) : Prop :=
  printk_index s = zlen log mod PRINTK_BUFF_SIZE ∧
  ∀ i c, log !! i = Some c → zlen log - PRINTK_BUFF_SIZE ≤ Z.of_nat i →
    load8 (pram s) (printk_buff_start + Z.of_nat i mod PRINTK_BUFF_SIZE) = c.

(** [n] bytes at [a] that are not in the ring. *)
Definition off_ring (a n : Z) : Prop := a + n ≤ printk_buff_start ∨ printk_buff_start + PRINTK_BUFF_SIZE ≤ a.

Lemma mod_apart i j n : 0 < n → 0 < j - i < n → i mod n ≠ j mod n.
Proof.
  intros Hn Hij Heq. pose proof (Z.div_mod i n ltac:(lia)). pose proof (Z.div_mod j n ltac:(lia)).
  assert (j - i = n * (j / n - i / n)) as Ed by lia. destruct (decide (j / n - i / n ≤ 0)); nia.
Qed.

Lemma ring_ext s s' log :
  printk_index s' = printk_index s →
  (∀ a, printk_buff_start ≤ a < printk_buff_start + PRINTK_BUFF_SIZE → load8 (pram s') a = load8 (pram s) a) →
  ring s log → ring s' log.
Proof.
  intros Hi Hm [H1 H2]. split; [by rewrite Hi|]. intros i c Hc Hr. rewrite Hm; [by apply H2|].
  pose proof (Z.mod_pos_bound (Z.of_nat i) PRINTK_BUFF_SIZE ltac:(unfold PRINTK_BUFF_SIZE; lia)). lia.
Qed.

(** What appending leaves alone: everything but the ring and its index. *)
Definition ring_only (s s' : printer E T) : Prop :=
  s' = set_printk_index (printk_index s') (set_pram (pram s') s) ∧
  ∀ a n, off_ring a n → ∀ k, 0 ≤ k < n → load8 (pram s') (a + k) = load8 (pram s) (a + k).

Lemma ring_only_trans s1 s2 s3 : ring_only s1 s2 → ring_only s2 s3 → ring_only s1 s3.
Proof.
  intros [E1 H1] [E2 H2]. split; [rewrite E2, E1; done|]. intros a n Ha k Hk. by rewrite (H2 a n), (H1 a n).
Qed.

Lemma append_byte_ring s log data i :
  ring s log →
  ∃ s', append_byte data i s = Ret tt s' ∧ ring s' (log ++ [load8 (pram s) (data + i)]) ∧ ring_only s s'.
Proof.
  intros [H1 H2]. remember (load8 (pram s) (data + i)) as c eqn:Hc. symmetry in Hc. set (N := PRINTK_BUFF_SIZE) in *. assert (0 < N < 2 ^ 32) as HN by (unfold N, PRINTK_BUFF_SIZE; lia).
  pose proof (Z.mod_pos_bound (zlen log) N ltac:(lia)) as Hpos.
  eexists. split; [reflexivity|]. cbn [pram printk_index set_printk_index set_pram]. split; [split|split]; unfold append_byte; cbn [pram printk_index set_printk_index set_pram].
  - fold N. rewrite H1, zlen_app, u64_small by lia. change (zlen [c]) with 1. by rewrite Zplus_mod_idemp_l.
  - intros k ck Hk Hr. fold N in Hr |- *. rewrite zlen_app in Hr. change (zlen [c]) with 1 in Hr. rewrite load8_store8, H1, Hc.
    destruct (decide (k = length log)) as [->|Hk'].
    + rewrite lookup_app_r, Nat.sub_diag in Hk by lia. injection Hk as <-. unfold zlen. rewrite Z.eqb_refl.
      rewrite <- Hc. apply Z.mod_small, load8_range.
    + assert (k < length log)%nat as Hlt by (apply lookup_lt_Some in Hk; rewrite length_app in Hk; simpl in Hk; lia).
      rewrite lookup_app_l in Hk by done. unfold zlen in *.
      pose proof (mod_apart (Z.of_nat k) (Z.of_nat (length log)) N ltac:(lia) ltac:(lia)).
      rewrite (proj2 (Z.eqb_neq _ _)) by lia. apply H2; [done|lia].
  - by destruct s.
  - intros a n Ha k Hk. rewrite load8_store8, (proj2 (Z.eqb_neq _ _)); [done|]. unfold off_ring in Ha. fold N in Ha. lia.
Qed.

Lemma bytes_at_S m p n : bytes_at m p (S n) = bytes_at m p n ++ [load8 m (p + Z.of_nat n)].
Proof. unfold bytes_at. by rewrite seq_S, fmap_app. Qed.

Lemma bytes_at_ext m m' p n : (∀ k, 0 ≤ k < Z.of_nat n → load8 m' (p + k) = load8 m (p + k)) → bytes_at m' p n = bytes_at m p n.
Proof.
  intros Hk. unfold bytes_at. apply list_fmap_ext. intros i x Hi. apply lookup_seq in Hi. apply Hk. lia.
Qed.

Lemma bytes_at_next m p i : 0 ≤ i → bytes_at m p (Z.to_nat (i + 1)) = bytes_at m p (Z.to_nat i) ++ [load8 m (p + i)].
Proof. intros. rewrite Z2Nat.inj_add, Nat.add_1_r, bytes_at_S, Z2Nat.id by lia. done. Qed.

Lemma log_append_run s log data n :
  ring s log → off_ring data n → 0 ≤ n →
  ∃ s', append_to_printk_buff data n s = Ret tt s' ∧ ring s' (log ++ bytes_at (pram s) data (Z.to_nat n)) ∧ ring_only s s'.
Proof.
  intros Hr Hoff Hn.
  apply (kfor_range (λ i s', ring s' (log ++ bytes_at (pram s) data (Z.to_nat i)) ∧ ring_only s s')); [done| |].
  - rewrite app_nil_r. split; [done|]. split; [by destruct s|done].
  - intros i s1 Hi [R1 O1]. destruct (append_byte_ring s1 _ data (0 + i) R1) as (s2 & Hrun & R2 & O2).
    exists s2. split; [done|]. split; [|by eapply ring_only_trans].
    rewrite bytes_at_next, app_assoc by lia. rewrite (proj2 O1 data n) in R2 by (done || lia). exact R2.
Qed.

(** A loop of [outb]. *)
Lemma out_loop s data n :
  0 ≤ n → kfor (seqZ 0 n) (out_e9 data) s = Ret tt (set_serial (serial s ++ bytes_at (pram s) data (Z.to_nat n)) s).
Proof.
  intros Hn. destruct (kfor_range (λ i s', s' = set_serial (serial s ++ bytes_at (pram s) data (Z.to_nat i)) s) (out_e9 data) 0 n s)
    as (s' & Hrun & ->); [done| | |done].
  - rewrite app_nil_r. by destruct s.
  - intros i s1 Hi ->. eexists. split; [reflexivity|]. rewrite bytes_at_next, app_assoc by lia. done.
Qed.

(** What a byte does to the screen. *)
Definition shown (s : printer E T) (c : Z) (t : T) : T :=
  if negb (ft_ctx s =? 0) then flanterm_write (ft_ctx s) [c] t else
  if negb (putchar_impl s =? 0) then putchar_code (putchar_impl s) c t else t.

Lemma show_loop s data n :
  0 ≤ n →
  kfor (seqZ 0 n) (λ i, out_e9 data i ;;; show_byte data i) s =
  Ret tt (let l := bytes_at (pram s) data (Z.to_nat n) in
          set_screen (foldl (λ t c, shown s c t) (screen s) l) (set_serial (serial s ++ l) s)).
Proof.
  intros Hn. destruct (kfor_range (λ i s', s' = let l := bytes_at (pram s) data (Z.to_nat i) in
      set_screen (foldl (λ t c, shown s c t) (screen s) l) (set_serial (serial s ++ l) s))
    (λ i, out_e9 data i ;;; show_byte data i) 0 n s) as (s' & Hrun & ->); [done| | |done].
  - cbv zeta. rewrite app_nil_r. by destruct s.
  - intros i s1 Hi ->. eexists. split; [reflexivity|]. cbv zeta. rewrite bytes_at_next, foldl_app, app_assoc by lia.
    cbn [ft_ctx putchar_impl set_screen set_serial pram screen serial foldl]. unfold shown.
    destruct (negb (ft_ctx s =? 0)); [done|]. by destruct (negb (putchar_impl s =? 0)).
Qed.

(** ** Printing *)

(** The bytes [l] have been printed: they are on the debug port, and while there
    is no standard output, also in the log and on the screen. *)
Definition logged (s : printer E T) (log l : list Z) (s' : printer E T) : Prop :=
  put_lock s' = false ∧ pfs s' = pfs s ∧ serial s' = serial s ++ l ∧
  ft_ctx s' = ft_ctx s ∧ putchar_impl s' = putchar_impl s ∧
  (if decide (stdout (pfs s) = 0)
   then ring s' (log ++ l) ∧ screen s' = foldl (λ t c, shown s c t) (screen s) l
   else ring s' log ∧ screen s' = screen s).

Lemma put_run s log data n :
  ring s log → off_ring data n → 0 ≤ n → put_lock s = false →
  ∃ s', put data n s = Ret tt s' ∧ logged s log (bytes_at (pram s) data (Z.to_nat n)) s' ∧
    ∀ a, off_ring a 1 → load8 (pram s') a = load8 (pram s) a.
Proof.
  intros Hr Hoff Hn Hlock. unfold put, lock_put. unfold kbind at 1, kbind at 1, kget at 1. rewrite Hlock. unfold kmod at 1.
  unfold kbind at 1, kget at 1. set (s1 := set_put_lock true s). change (stdout (pfs s1)) with (stdout (pfs s)).
  assert (ring s1 log) as Hr1 by (revert Hr; by apply ring_ext).
  destruct (Z.eqb_spec (stdout (pfs s)) 0) as [E0|E0]; cbn [negb].
  - destruct (log_append_run s1 log data n Hr1 Hoff Hn) as (s2 & Hrun & R2 & O2).
    rewrite (kbind_run _ _ _ _ _ Hrun), (kbind_run _ _ _ _ _ (show_loop s2 data n Hn)). unfold kmod. cbv zeta.
    assert (bytes_at (pram s2) data (Z.to_nat n) = bytes_at (pram s) data (Z.to_nat n)) as ->.
    { apply bytes_at_ext. intros k Hk. apply (proj2 O2 data n); [done|lia]. }
    eexists. split; [reflexivity|]. destruct O2 as [-> O2]. split; [|intros a Ha; rewrite <- (Z.add_0_r a); apply (O2 a 1); [done|lia]].
    unfold logged. rewrite decide_True by done. do 5 (split; [done|]). split; [|done]. revert R2. by apply ring_ext.
  - rewrite (kbind_run _ _ _ _ _ (out_loop s1 data n Hn)). eexists. split; [reflexivity|].
    split; [|done]. unfold logged. rewrite decide_False by done. do 5 (split; [done|]). split; [|done].
    revert Hr1. by apply ring_ext.
Qed.

(** The bytes of a text as [char]s. *)
Definition chars (l : list Z) : list Z := (λ c, c mod 256) <$> l.

(** The text that fits in the 1024 bytes of the frame, or nothing. *)
Definition fitting (out : list Z) : list Z := if zlen out <? 1024 then chars out else [].

Lemma format_frame_run s log frame fmt args out :
  npf_vpprintf fmt args = Some out → zlen out < 2 ^ 31 → 0 < frame → off_ring frame 1024 → ring s log →
  ∃ m, format_frame frame fmt args s = Ret (zlen out) (set_pram m s) ∧ ring (set_pram m s) log ∧
    (zlen out < 1024 → bytes_at m frame (Z.to_nat (zlen out)) = chars out) ∧
    (∀ a, a < frame ∨ frame + 1024 ≤ a → load8 m a = load8 (pram s) a).
Proof.
  intros Hout Hlen Hf Hoff Hr.
  destruct (npf_vsnprintf_run (pram s) frame 1024 fmt args out Hout Hlen Hf ltac:(lia)) as (m & Hrun & Hsame & Htext).
  exists m. split; [|split; [|split; [|done]]].
  - unfold format_frame. unfold kbind at 1, kget at 1. rewrite Hrun. done.
  - revert Hr. apply ring_ext; [done|]. intros a Ha. apply Hsame. unfold off_ring in Hoff. lia.
  - intros Hfit. destruct (Htext ltac:(lia)) as [Ht _]. unfold zlen in *. apply list_eq. intros i. unfold chars.
    rewrite list_lookup_fmap. destruct (decide (i < length out)%nat) as [Hi|Hi].
    + rewrite bytes_at_lookup, Ht, Nat2Z.id by lia. destruct (lookup_lt_is_Some_2 out i Hi) as [c ->]. done.
    + rewrite !lookup_ge_None_2; [done|lia|rewrite bytes_at_length; lia].
Qed.

Lemma kprintf_run s log frame fmt args out :
  npf_vpprintf fmt args = Some out → zlen out < 2 ^ 31 → 0 < frame → off_ring frame 1024 →
  ring s log → put_lock s = false →
  ∃ s', kprintf frame fmt args s = Ret (zlen out) s' ∧ logged s log (fitting out) s' ∧
    ∀ a, a < frame ∨ frame + 1024 ≤ a → off_ring a 1 → load8 (pram s') a = load8 (pram s) a.
Proof.
  intros Hout Hlen Hframe Hoff Hring Hlock.
  destruct (format_frame_run s log frame fmt args out) as (m & Hrun & Hr & Htext & Hsame); [done..|].
  unfold kprintf, fitting. rewrite (kbind_run _ _ _ _ _ Hrun). pose proof (zlen_nonneg out).
  rewrite (proj2 (Z.leb_le 0 (zlen out))) by lia. cbn [andb].
  destruct (Z.ltb_spec (zlen out) 1024) as [Hfit|Hfit].
  - destruct (put_run (set_pram m s) log frame (zlen out)) as (s' & Hput & HL & Hm); [done| |lia|done|].
    { unfold off_ring in *. lia. }
    exists s'. rewrite (kbind_run _ _ _ _ _ Hput). split; [done|]. cbn [pram set_pram] in HL, Hm. rewrite (Htext Hfit) in HL.
    split; [exact HL|]. intros a Ha Ho. by rewrite Hm, Hsame.
  - exists (set_pram m s). split; [done|]. split; [|intros a Ha _; by apply Hsame]. unfold logged. rewrite app_nil_r.
    cbn [put_lock pfs serial set_pram]. rewrite !app_nil_r. do 5 (split; [done|]). by destruct (decide _).
Qed.

(** C24: [kprintf] prints its text or none of it.  A text of fewer than 1024 bytes
    goes, in order and complete, to the debug port, and before standard output
    exists also to the end of the log ring and to the screen; a longer text
    goes nowhere.  The length of the text is returned either way, the lock is
    free again, and the files are untouched.  The ring always holds the last
    mebibyte of what was logged. *)
Theorem kprintf_spec s log frame fmt args out
    (Hout : npf_vpprintf fmt args = Some out) (Hlen : zlen out < 2 ^ 31) (Hframe : 0 < frame) (Hoff : off_ring frame 1024)
    (Hring : ring s log) (Hlock : put_lock s = false) :
  ∃ s', kprintf frame fmt args s = Ret (zlen out) s' ∧ logged s log (fitting out) s'.
Proof. destruct (kprintf_run s log frame fmt args out) as (s' & Hrun & HL & _); [done..|]. by exists s'. Qed.
End printf.

(** ** Standard output *)

Section stdio.
Context {E T : Type} `{KernelEnvLaws E} (junk : Z) (fuel : nat).
Context (printk_buff_start : Z).
Implicit Types s : printer E T.

(** [p] is the vnode of standard output, with the clock at [time]. *)
Definition is_stdout (f : fs E) (p : Z) (v : vnode) (time : Z) (e' : E) : Prop :=
  heap f !! p = Some (OVnode v) ∧ vtype v = VNODE_DEV ∧ locked v = false ∧ ops v = DEVFS_OPS ∧
  heap f !! data v = Some (ODev STDOUT_READ STDOUT_WRITE) ∧ env_time (env f) = (time, e').

(** The files after [l] was written to standard output. *)
Definition wrote (f : fs E) (p : Z) (v : vnode) (time : Z) (e' : E) (l : list Z) : fs E :=
  Fs (<[p := OVnode (set_modify_time time (set_locked false v))]> (heap f)) e'
     (root_mount f) (devfs_root f) (stdout f) (console f ++ l).

Lemma on_fs_run {A} (c : kernel (fs E) A) s a f :
  c (pfs s) = Ret a f → on_fs c s = Ret a (set_pfs f s).
Proof. apply zoom_run. Qed.

Lemma stdout_write_call s p v time e' l :
  is_stdout (pfs s) p v time e' → zlen l < 2 ^ 31 →
  on_fs (vfs_write (kernel_ops junk fuel) p (Some l) (zlen l) 0) s = Ret (zlen l) (set_pfs (wrote (pfs s) p v time e' l) s).
Proof. intros (H1 & H2 & H3 & H4 & H5 & H6) Hl. apply on_fs_run. by apply (stdout_write_run junk fuel (pfs s) p v (data v)). Qed.

(** [printf] before standard output exists prints nothing and returns 0;
    afterwards a text of fewer than 1024 bytes is sent, complete and in order,
    to the console through the device's vnode, and a longer one is dropped,
    its length being returned in both cases. *)
Theorem printf_spec s frame fmt args out p v time e' log
    (Hout : npf_vpprintf fmt args = Some out) (Hlen : zlen out < 2 ^ 31) (Hframe : 0 < frame)
    (Hoff : off_ring printk_buff_start frame 1024) (Hring : ring printk_buff_start s log)
    (Hp : stdout (pfs s) = p) (Hdev : p = 0 ∨ is_stdout (pfs s) p v time e') :
  if decide (p = 0) then printf (kernel_ops junk fuel) frame fmt args s = Ret 0 s else
  ∃ m, let s' := set_pfs (if zlen out <? 1024 then wrote (pfs s) p v time e' (chars out) else pfs s) (set_pram m s) in
    printf (kernel_ops junk fuel) frame fmt args s = Ret (zlen out) s' ∧ ring printk_buff_start s' log ∧
    ∀ a, a < frame ∨ frame + 1024 ≤ a → load8 m a = load8 (pram s) a.
Proof.
  unfold printf. unfold kbind at 1, kget at 1. unfold kbind at 1, kget at 1. rewrite Hp.
  destruct (decide (p = 0)) as [->|Hp0]; [done|]. destruct Hdev as [?|Hdev]; [done|].
  rewrite (proj2 (Z.eqb_neq p 0)) by done. unfold vfprintf.
  destruct (format_frame_run printk_buff_start s log frame fmt args out) as (m & Hrun & Hr & Htext & Hsame); [done..|].
  rewrite (kbind_run _ _ _ _ _ Hrun). pose proof (zlen_nonneg out).
  rewrite (proj2 (Z.leb_le 0 (zlen out))) by lia. cbn [andb]. exists m.
  destruct (Z.ltb_spec (zlen out) 1024) as [Hfit|Hfit]; [|by destruct s].
  rewrite kbind_assoc. unfold kbind at 1, kget at 1. cbn [pram set_pram]. rewrite (Htext Hfit).
  assert (zlen (chars out) = zlen out) as El by (unfold zlen, chars; by rewrite length_fmap).
  pose proof (stdout_write_call (set_pram m s) p v time e' (chars out) Hdev ltac:(lia)) as Hw. rewrite El in Hw.
  rewrite kbind_assoc, (kbind_run _ _ _ _ _ Hw). split; [reflexivity|]. split; [|done]. revert Hr. by apply ring_ext.
Qed.

(** [fwrite] to standard output writes every byte of the buffer, once, and
    returns their number. *)
Theorem fwrite_stdout s p v time e' buffer size
    (Hdev : is_stdout (pfs s) p v time e') (Hbuf : buffer ≠ 0) (Hsize : 0 < size < 2 ^ 31) :
  fwrite (kernel_ops junk fuel) p buffer size s =
  Ret size (set_pfs (wrote (pfs s) p v time e' (bytes_at (pram s) buffer (Z.to_nat size))) s).
Proof.
  unfold fwrite. destruct (Z.to_nat size) as [|n] eqn:En; [lia|]. cbn [fwrite_loop]. rewrite <- En.
  rewrite (proj2 (Z.ltb_lt 0 size)) by lia. unfold kbind at 1, kget at 1. rewrite Z.add_0_r, Z.sub_0_r. unfold pointed.
  rewrite (proj2 (Z.eqb_neq buffer 0)) by done. set (l := bytes_at _ _ _).
  assert (zlen l = size) as El by (unfold zlen, l; rewrite bytes_at_length; lia).
  pose proof (stdout_write_call s p v time e' l Hdev ltac:(lia)) as Hw. rewrite El in Hw.
  rewrite (kbind_run _ _ _ _ _ Hw), (proj2 (Z.leb_gt size 0)), Z.add_0_l by lia.
  destruct n; cbn [fwrite_loop]; rewrite Z.ltb_irrefl; unfold kret, s32; f_equal; rewrite Z.mod_small; lia.
Qed.
End stdio.

(** ** Printing into memory *)

(** The bytes that [vsnprintf] leaves in memory. *)
Lemma vsnprintf_run m buf size fmt args out
    (Hout : npf_vpprintf fmt args = Some out) (Hlen : zlen out < 2 ^ 31) (Hbuf : 0 < buf) (Hsize : 0 ≤ size) (Hend : buf + size < 2 ^ 64) :
  ∃ m', vsnprintf m buf size fmt args = Some (zlen out, m') ∧
    if decide (size = 0) then ∀ a, load8 m' a = if a =? buf - 1 then 0 else load8 m a
    else (∀ a, a < buf ∨ buf + size ≤ a → load8 m' a = load8 m a) ∧
         (∀ i, 0 ≤ i < Z.min (zlen out) (size - 1) → load8 m' (buf + i) = default 0 (out !! Z.to_nat i) mod 256) ∧
         load8 m' (buf + Z.min (zlen out) (size - 1)) = 0.
Proof.
  destruct (npf_vsnprintf_run m buf size fmt args out Hout Hlen Hbuf Hsize) as (m1 & Hrun & Hsame & Htext).
  unfold vsnprintf. rewrite Hrun. cbn [mbind option_bind]. eexists. split; [reflexivity|]. fold (zlen out) in *.
  pose proof (zlen_nonneg out). destruct (decide (size = 0)) as [->|Hs].
  - change (s32 0) with 0. rewrite (proj2 (Z.leb_le 0 (zlen out))) by lia. intros a.
    assert (u64 (buf + u64 (0 - 1)) = buf - 1) as ->.
    { change (u64 (0 - 1)) with (2 ^ 64 - 1). unfold u64. rewrite <- (Z_mod_plus_full _ (-1)), Z.mod_small; lia. }
    rewrite load8_store8. destruct (Z.eqb_spec a (buf - 1)); [done|]. apply Hsame. lia.
  - destruct (Htext ltac:(lia)) as [Ht Hz]. destruct (s32 size <=? zlen out).
    + rewrite (u64_small (size - 1)), u64_small by lia. split; [|split].
      * intros a Ha. rewrite load8_store8, (proj2 (Z.eqb_neq _ _)) by lia. by apply Hsame.
      * intros i Hi. rewrite load8_store8, (proj2 (Z.eqb_neq _ _)) by lia. by apply Ht.
      * rewrite load8_store8. destruct (_ =? _); [done|exact Hz].
    + done.
Qed.

(** C38: [vsnprintf] with a buffer of at least one byte stores the text, cut to what
    fits, and a NUL, and touches nothing else; with a size of 0 it stores a NUL in
    the byte before the buffer. *)
Theorem vsnprintf_spec m buf size fmt args out
    (Hout : npf_vpprintf fmt args = Some out) (Hlen : zlen out < 2 ^ 31) (Hbuf : 0 < buf) (Hsize : 0 ≤ size) (Hend : buf + size < 2 ^ 64) :
  ∃ m', vsnprintf m buf size fmt args = Some (zlen out, m') ∧
    if decide (size = 0) then ∀ a, load8 m' a = if a =? buf - 1 then 0 else load8 m a
    else (∀ a, a < buf ∨ buf + size ≤ a → load8 m' a = load8 m a) ∧
         (∀ i, 0 ≤ i < Z.min (zlen out) (size - 1) → load8 m' (buf + i) = default 0 (out !! Z.to_nat i) mod 256) ∧
         load8 m' (buf + Z.min (zlen out) (size - 1)) = 0.
Proof. exact (vsnprintf_run m buf size fmt args out Hout Hlen Hbuf Hsize Hend). Qed.

(** [sprintf] takes the size of its pointer for the size of the buffer: it stores
    at most seven characters of the text, however long the text and the
    caller's buffer are, and returns the length of the whole text. *)
Theorem sprintf_cut m buf fmt args out
    (Hout : npf_vpprintf fmt args = Some out) (Hlen : 8 ≤ zlen out < 2 ^ 31) (Hbuf : 0 < buf) (Hend : buf + 8 < 2 ^ 64) :
  ∃ m', sprintf m buf fmt args = Some (zlen out, m') ∧ vsprintf m buf fmt args = Some (zlen out, m') ∧
    bytes_at m' buf 8 = chars (take 7 out) ++ [0] ∧ ∀ a, a < buf ∨ buf + 8 ≤ a → load8 m' a = load8 m a.
Proof.
  destruct (vsnprintf_run m buf 8 fmt args out Hout ltac:(lia) Hbuf ltac:(lia) Hend) as (m' & Hrun & Hspec).
  rewrite decide_False in Hspec by done. destruct Hspec as (Hsame & Ht & Hz).
  exists m'. split; [done|]. split; [done|]. split; [|done].
  rewrite bytes_at_S. rewrite Z.min_r in Ht, Hz by lia. change (8 - 1) with (Z.of_nat 7) in Hz. rewrite Hz. f_equal.
  unfold zlen, chars in *. apply list_eq. intros i. rewrite list_lookup_fmap. destruct (decide (i < 7)%nat) as [Hi|Hi].
  - rewrite bytes_at_lookup, Ht, Nat2Z.id, lookup_take_lt by lia. destruct (lookup_lt_is_Some_2 out i) as [c ->]; [lia|done].
  - rewrite !lookup_ge_None_2; [done|rewrite length_take; lia|rewrite bytes_at_length; lia].
Qed.

(** ** Printing a number and reading it back *)

Lemma utoa_decimal (n : nat) i cs : Forall (λ c, 48 ≤ c ≤ 57) (npf_utoa_rev n i 10 cs).
Proof.
  revert i. induction n as [|n IH]; intros i; cbn [npf_utoa_rev]; [constructor|].
  pose proof (Z.mod_pos_bound i 10 ltac:(lia)). constructor.
  - unfold digit_char. rewrite (proj2 (Z.ltb_lt _ _)) by lia. lia.
  - destruct (_ =? _); [constructor|apply IH].
Qed.

Lemma rev_digits_value l :
  Forall (λ c, 48 ≤ c ≤ 57) l → digits_value 10 0 ((λ c, c - 48) <$> reverse l) = rev_value 10 32 l.
Proof.
  induction 1 as [|c l Hc Hl IH]; [done|]. rewrite reverse_cons, fmap_app. unfold digits_value in *. rewrite foldl_app, IH.
  cbn [fmap list_fmap foldl rev_value]. unfold digit_value. rewrite (proj2 (Z.ltb_lt _ _)) by lia. lia.
Qed.

(** ["%ld"] *)
Definition LONG_FMT : list Z := [37; 108; 100].

Definition long_text (v : Z) : list Z := (if v <? 0 then [45] else []) ++ reverse (npf_itoa_rev 64 v).

Lemma itoa_nonempty (n : nat) i : npf_itoa_rev (S n) i ≠ [].
Proof. done. Qed.

Lemma print_long x : npf_vpprintf LONG_FMT [VWord x] = Some (long_text (s64 x)).
Proof.
  unfold npf_vpprintf, LONG_FMT. cbn [length vpprintf_loop]. change (negb (37 =? 37)) with false. cbv iota.
  change (npf_parse_format_spec [108; 100])
    with (Some (Some (Spec 0 false OPT_NONE 0 false false OPT_NONE 0 LEN_MOD_LONG CONV_SIGNED_INT 32, @nil Z))).
  cbn [mbind option_bind]. unfold star_args. cbn [field_width_opt prec_opt].
  rewrite !(decide_False (P := OPT_NONE = OPT_STAR)) by done. cbn [mbind option_bind]. rewrite (decide_False (P := OPT_NONE = OPT_STAR)) by done.
  unfold npf_convert. cbn [conv_spec va_word mbind option_bind length_modifier extract_signed prepend prec].
  set (v := s64 x). assert (- 2 ^ 63 ≤ v < 2 ^ 63) as Hv by (exact (extract_signed_range LEN_MOD_LONG x)).
  unfold no_digits. cbn [prec_opt]. rewrite bool_decide_false, andb_false_r by done. cbn [andb].
  pose proof (itoa_22 v Hv) as H22. set (t := npf_itoa_rev 64 v) in *.
  assert (1 ≤ length t)%nat as H1.
  { unfold t. pose proof (itoa_nonempty 63 v). destruct (npf_itoa_rev 64 v); [done|simpl; lia]. }
  unfold pads_defined. cbn [conv_spec cbuf cprec sign_c need_0x field_width]. unfold long_text. fold t. clearbody t.
  rewrite bool_decide_false by done. unfold npf_max, fits_int.
  rewrite (proj2 (Z.ltb_lt (0 - Z.of_nat (length t)) 0)) by lia.
  assert (Z.max 0 (0 - Z.of_nat (length t)) = 0) as Hpp by lia. destruct (v <? 0).
  all: repeat (first [rewrite (proj2 (Z.leb_le _ _)) by (simpl; lia) | rewrite (proj2 (Z.ltb_lt _ (2 ^ 31))) by (simpl; lia)]).
  all: cbn [orb andb negb]; rewrite app_nil_r; f_equal; unfold npf_emit, pad_char;
    cbn [conv_spec cbuf cprec sign_c need_0x field_width_opt left_justified].
  all: rewrite (decide_False (P := OPT_NONE = OPT_LITERAL)), bool_decide_false by done; cbn [negb andb Z.eqb app opt_char prefix_0x].
  all: unfold npf_max, rep; rewrite (proj2 (Z.ltb_lt (0 - Z.of_nat (length t)) 0)) by lia; cbn [replicate Z.to_nat app];
    by rewrite app_nil_r.
Qed.

Lemma digits_stored m q l :
  Forall (λ c, 48 ≤ c ≤ 57) l → (∀ i c, l !! i = Some c → load8 m (q + Z.of_nat i) = c) → load8 m (q + zlen l) = 0 →
  digits_at m q 10 ((λ c, c - 48) <$> l).
Proof.
  intros Hl. revert q. induction Hl as [|c l Hc Hl IH]; intros q Hm Hend.
  - left. by rewrite <- Hend, Z.add_0_r.
  - cbn [fmap list_fmap digits_at]. pose proof (Hm 0%nat c eq_refl) as H0. rewrite Z.add_0_r in H0. rewrite H0.
    split; [lia|]. split; [|split; [lia|]].
    + unfold digit_of. rewrite (proj2 (Z.leb_le _ _)), (proj2 (Z.leb_le _ _)) by lia. done.
    + apply IH.
      * intros i c' Hi. rewrite <- (Hm (S i) c' Hi). f_equal. lia.
      * rewrite <- Hend. f_equal. unfold zlen. simpl. lia.
Qed.

Lemma long_text_length v : - 2 ^ 63 ≤ v < 2 ^ 63 → 1 ≤ zlen (long_text v) ≤ 23.
Proof.
  intros Hv. pose proof (itoa_22 v Hv). pose proof (itoa_nonempty 63 v). unfold zlen, long_text.
  rewrite length_app, length_reverse. destruct (npf_itoa_rev 64 v); [done|]. destruct (v <? 0); simpl in *; lia.
Qed.

Lemma long_text_range v : Forall (λ c, 0 ≤ c < 256) (long_text v).
Proof.
  unfold long_text. apply Forall_app. split; [destruct (v <? 0); repeat constructor; lia|].
  rewrite itoa_utoa. apply Forall_reverse. eapply Forall_impl; [apply utoa_decimal|]. simpl. lia.
Qed.

Lemma decimal_start m p d ds :
  digits_at m p 10 (d :: ds) → is_space (load8 m p) = false ∧ load8 m p ≠ 45 ∧ load8 m p ≠ 43.
Proof.
  intros (_ & Hd & _). assert (48 ≤ load8 m p) as H48.
  { unfold digit_of in Hd. destruct (Z.leb_spec 48 (load8 m p)); [done|]. cbn [andb] in Hd.
    rewrite (proj2 (Z.leb_gt 97 _)), (proj2 (Z.leb_gt 65 _)) in Hd by lia. done. }
  split; [|lia]. unfold is_space. by rewrite !(proj2 (Z.eqb_neq (load8 m p) _)) by lia.
Qed.

Lemma read_long m buf v (n : nat) :
  - 2 ^ 63 ≤ v < 2 ^ 63 → (∀ i c, long_text v !! i = Some c → load8 m (buf + Z.of_nat i) = c) →
  load8 m (buf + zlen (long_text v)) = 0 → (24 < n)%nat → ∃ e, strtol n m buf 10 = Some (v, e).
Proof.
  intros Hv Hm Hz Hn. unfold long_text in *. set (ds := reverse (npf_itoa_rev 64 v)) in *.
  assert (Forall (λ c, 48 ≤ c ≤ 57) ds) as Hds by (unfold ds; rewrite itoa_utoa; apply Forall_reverse, utoa_decimal).
  assert (digits_value 10 0 ((λ c, c - 48) <$> ds) = Z.abs v) as Hval.
  { unfold ds. rewrite rev_digits_value by (rewrite itoa_utoa; apply utoa_decimal). by apply itoa_64. }
  assert (length ds ≤ 22)%nat as H22 by (unfold ds; rewrite length_reverse; by apply itoa_22).
  assert (∃ d ds', ds = d :: ds') as (d & ds' & Eds).
  { unfold ds. pose proof (itoa_nonempty 63 v). destruct (reverse _) as [|d l] eqn:Er; [|eauto].
    apply (f_equal reverse) in Er. rewrite reverse_involutive in Er. done. }
  destruct (Z.ltb_spec v 0) as [Hneg|Hpos].
  - destruct (strtol_run n m buf 0 10 (-1) (buf + 1) ((λ c, c - 48) <$> ds)) as (e & He); [lia|lia|lia| | |rewrite length_fmap; lia|].
    + left. rewrite Z.add_0_r. split; [|lia]. rewrite <- (Z.add_0_r buf). exact (Hm 0%nat 45 eq_refl).
    + apply digits_stored; [done| |].
      * intros i c Hi. rewrite <- (Hm (S i) c Hi). f_equal. lia.
      * rewrite <- Hz. f_equal. unfold zlen. simpl. lia.
    + exists e. rewrite He, Hval. do 2 f_equal. unfold strtol_value, LONG_MAX, LONG_MIN. zcases; simpl; lia.
  - assert (digits_at m buf 10 ((λ c, c - 48) <$> ds)) as Hat by (by apply digits_stored).
    destruct (strtol_run n m buf 0 10 1 buf ((λ c, c - 48) <$> ds)) as (e & He); [lia|lia|lia| |done|rewrite length_fmap; lia|].
    + right. right. rewrite Z.add_0_r. rewrite Eds in Hat. apply decimal_start in Hat as (? & ? & ?). done.
    + exists e. rewrite He, Hval. do 2 f_equal. unfold strtol_value, LONG_MAX. zcases; lia.
Qed.

(** C37: Printing and reading a number are inverse: any [long] printed with [%ld] by
    [snprintf] into a buffer of 24 bytes or more is read back by [strtol] in
    base 10, the most negative number included. *)
Theorem print_parse m buf size x (n : nat)
    (Hbuf : 0 < buf) (Hsize : 24 ≤ size) (Hend : buf + size < 2 ^ 64) (Hn : (24 < n)%nat) :
  ∃ len m', snprintf m buf size LONG_FMT [VWord x] = Some (len, m') ∧ ∃ e, strtol n m' buf 10 = Some (s64 x, e).
Proof.
  set (v := s64 x). assert (- 2 ^ 63 ≤ v < 2 ^ 63) as Hv by (exact (extract_signed_range LEN_MOD_LONG x)).
  pose proof (long_text_length v Hv) as Hl.
  destruct (vsnprintf_run m buf size LONG_FMT [VWord x] (long_text v) (print_long x)) as (m' & Hrun & Hspec); [lia..|].
  rewrite decide_False in Hspec by lia. destruct Hspec as (_ & Ht & Hz). rewrite Z.min_l in Ht, Hz by lia.
  exists (zlen (long_text v)), m'. split; [done|]. apply read_long; [done| |done|done].
  intros i c Hi. pose proof (lookup_lt_Some _ _ _ Hi). rewrite Ht by (unfold zlen; lia). rewrite Nat2Z.id, Hi.
  apply Z.mod_small. exact (Forall_lookup_1 _ _ _ _ (long_text_range v) Hi).
Qed.

(** ** Concrete printing *)

Definition demo_printer : printer demo_env (list Z) :=
  Printer stdout_fs ∅ 0 false [] [] 0 0.

(** A log that starts empty, before standard output. *)
Definition early_printer : printer demo_env (list Z) := set_pfs (set_stdout 0 stdout_fs) demo_printer.

Definition demo_screen (ctx : Z) (l t : list Z) : list Z := t ++ l.
Definition demo_putchar (f c : Z) (t : list Z) : list Z := t ++ [c].

Lemma empty_ring (s : printer demo_env (list Z)) : printk_index s = 0 → ring 0x100000 s [].
Proof. intros E. split; [by rewrite E|]. intros i c Hi. discriminate. Qed.

Lemma kprintf_spec_witness :
  ∃ s', kprintf demo_screen demo_putchar 0x100000 0x1000 demo_format demo_args early_printer = Ret 18 s' ∧
    serial s' = demo_text ∧ ring 0x100000 s' demo_text.
Proof.
  destruct (kprintf_spec demo_screen demo_putchar 0x100000 early_printer [] 0x1000 demo_format demo_args demo_text demo_format_text
    ltac:(vm_compute; reflexivity) ltac:(lia) ltac:(left; vm_compute; congruence) (empty_ring early_printer eq_refl) eq_refl)
    as (s' & Hrun & _ & _ & Hser & _ & _ & Hr).
  exists s'. split; [exact Hrun|]. split; [rewrite Hser; vm_compute; reflexivity|].
  rewrite decide_True in Hr by reflexivity. exact (proj1 Hr).
Defined.

Definition demo_stdout : vnode := Vnode 2 0 0 1 VNODE_DEV (SLit STDOUT_NAME) 0 5 0 0 0x92 0 0 0 DEVFS_OPS 0 false.

Lemma demo_is_stdout : is_stdout stdout_fs 3 demo_stdout 7 (DemoEnv 10 {[2; 3; 5]} 8).
Proof. unfold is_stdout. split; [reflexivity|]. do 4 (split; [reflexivity|]). vm_compute. reflexivity. Qed.

Lemma printf_spec_witness :
  ∃ s', printf (kernel_ops 77 5) 0x1000 demo_format demo_args demo_printer = Ret 18 s' ∧ console (pfs s') = 72 :: demo_text.
Proof.
  destruct (printf_spec 77 5 0x100000 demo_printer 0x1000 demo_format demo_args demo_text 3 demo_stdout 7
    (DemoEnv 10 {[2; 3; 5]} 8) [] demo_format_text ltac:(vm_compute; reflexivity) ltac:(lia) ltac:(left; vm_compute; congruence)
    (empty_ring demo_printer eq_refl) eq_refl (or_intror demo_is_stdout)) as (m & Hrun & _).
  eexists. split; [exact Hrun|]. vm_compute. reflexivity.
Defined.

Lemma fwrite_stdout_witness :
  ∃ s', fwrite (kernel_ops 77 5) 3 0x2000 2 demo_printer = Ret 2 s' ∧ console (pfs s') = [72; 0; 0].
Proof.
  eexists. split; [exact (fwrite_stdout 77 5 demo_printer 3 demo_stdout 7 (DemoEnv 10 {[2; 3; 5]} 8) 0x2000 2
    demo_is_stdout ltac:(discriminate) ltac:(lia))|vm_compute; reflexivity].
Defined.

Lemma vsnprintf_spec_witness :
  ∃ m', vsnprintf (<[99 := 7]> ∅) 100 0 demo_format demo_args = Some (18, m') ∧ load8 m' 99 = 0.
Proof.
  destruct (vsnprintf_spec (<[99 := 7]> ∅) 100 0 demo_format demo_args demo_text demo_format_text
    ltac:(vm_compute; reflexivity) ltac:(lia) ltac:(lia) ltac:(lia)) as (m' & E & H).
  exists m'. split; [exact E|]. exact (H 99).
Defined.

Lemma sprintf_cut_witness :
  ∃ m', sprintf ∅ 100 demo_format demo_args = Some (18, m') ∧ bytes_at m' 100 8 = [91; 105; 110; 102; 111; 32; 93; 0].
Proof.
  destruct (sprintf_cut ∅ 100 demo_format demo_args demo_text demo_format_text
    ltac:(vm_compute; split; congruence) ltac:(lia) ltac:(lia)) as (m' & E & _ & H & _).
  exists m'. split; [exact E|exact H].
Defined.

Lemma print_parse_witness :
  ∃ len m', snprintf ∅ 100 32 LONG_FMT [VWord (2 ^ 63)] = Some (len, m') ∧ ∃ e, strtol 30 m' 100 10 = Some (- 2 ^ 63, e).
Proof. exact (print_parse ∅ 100 32 (2 ^ 63) 30 ltac:(lia) ltac:(lia) ltac:(lia) ltac:(lia)). Defined.
