(* ===== verification/Log.v ===== *)
(** * Logging

    The macros of [lib/log.h] and [lib/assert.h], over the printing of
    [lib/printf.c], with the settings of [config.h]; the hex dump of
    [util/hexdump.h] and [vma_dump_context] of [mm/vma.c], which only print.
    [prints] says what a piece of code prints: to the kernel log, and to the
    console once there is one. *)

From stdpp Require Import base gmap list strings.
From Stdlib Require Import ZArith Lia Ascii.
From S2P Require Import Prelude Ram CString Format PageAlloc Vmm Vma Vnode Vfs Ramfs Devfs Printf.
#[local] Open Scope Z_scope.

(** [config.h] *)
Definition _DEBUG : bool := true.
Definition _TRACE : bool := true.
Definition _HEAP_TRACE : bool := false.
Definition _SYSCALL_TRACE : bool := true.

(** [UPPER_STR], up to the end of the string. *)
Fixpoint UPPER_STR (l : list Z) : list Z :=
  match l with
  | [] => []
  | c :: r => if c =? 0 then l else
      (if (97 <=? c) && (c <=? 122) then c - 97 + 65 else c) :: UPPER_STR r
  end.

(** ["\033[1;%dm" LOG_DEFAULT_FORMAT "\033[0m"] *)
Definition LOG_DEFAULT_FORMAT : list Z := str "[%-5s] ".
Definition LOG_HEAD : list Z := [27] ++ str "[1;%dm" ++ LOG_DEFAULT_FORMAT ++ [27] ++ str "[0m".
Definition NL : list Z := [10].

Section macros.
Context {E T : Type} `{KernelEnv E}.
Context (ops_table : Z → option (vnode_ops E)).
Context (flanterm_write : Z → list Z → T → T) (putchar_code : Z → Z → T → T).
Context (printk_buff_start frame : Z).
Abbreviation P := (kernel (printer E T)).
Abbreviation kprintf := (kprintf flanterm_write putchar_code printk_buff_start frame).
Abbreviation printf := (printf ops_table frame).

Definition LOG_CALLBACK (color : Z) (level fmt : list Z) (args : list va) : P unit :=
  let level_copy := UPPER_STR level in
  kprintf LOG_HEAD [VWord color; VString level_copy] ;;;
  kprintf fmt args ;;;
  kprintf NL [] ;;;
  kret tt.

Definition LOG_CALLBACK_EW (color : Z) (level fmt : list Z) (args : list va) : P unit :=
  let level_copy := UPPER_STR level in
  kprintf LOG_HEAD [VWord color; VString level_copy] ;;;
  kprintf fmt args ;;;
  kprintf NL [] ;;;
  printf LOG_HEAD [VWord color; VString level_copy] ;;;
  printf fmt args ;;;
  printf NL [] ;;;
  kret tt.

(** [_warnings++], then the line: the result is the counter, of which every file
    that includes the header has its own. *)
Definition _LOG_W (warnings color : Z) (level fmt : list Z) (args : list va) : P Z :=
  if warnings <? 2 ^ 31 - 1 then
    LOG_CALLBACK_EW color level (str "(Warning #%d) " ++ fmt) (VWord (warnings + 1) :: args) ;;;
    kret (warnings + 1)
  else kfault.

Definition debug (fmt : list Z) (args : list va) : P unit :=
  if _DEBUG then LOG_CALLBACK 94 (str "debug") fmt args else kret tt.
Definition trace (fmt : list Z) (args : list va) : P unit :=
  if _TRACE then LOG_CALLBACK 95 (str "trace") fmt args else kret tt.
Definition la_trace (fmt : list Z) (args : list va) : P unit :=
  if _HEAP_TRACE then LOG_CALLBACK 96 (str "trace") fmt args else kret tt.
Definition s_trace (fmt : list Z) (args : list va) : P unit :=
  if _SYSCALL_TRACE then LOG_CALLBACK 97 (str "trace") fmt args else kret tt.
Definition info (fmt : list Z) (args : list va) : P unit := LOG_CALLBACK 92 (str "info") fmt args.
Definition warning (warnings : Z) (fmt : list Z) (args : list va) : P Z := _LOG_W warnings 93 (str "warn") fmt args.
Definition error (fmt : list Z) (args : list va) : P unit := LOG_CALLBACK_EW 91 (str "error") fmt args.

(** [assert(expr)] with the text of the expression, the file and the line; [hlt]
    does not return. *)
Definition assert (expr : bool) (text file : list Z) (line : Z) : P unit :=
  if expr then kret tt else
  error (str "Assertion failed: (%s), file: %s, line: %d") [VString text; VString file; VWord line] ;;;
  khalt.

Definition msg_assert (expr : bool) (text msg file : list Z) (line : Z) : P unit :=
  if expr then kret tt else
  error (str "Assertion failed: (%s), message: %s, file: %s, line: %d")
    [VString text; VString msg; VString file; VWord line] ;;;
  khalt.

(** [BLOCK_START] and [BLOCK_END] of [lib/debug.h] *)
Definition BLOCK_START (kind : list Z) : P unit :=
  trace ([27] ++ str "[1m------ Starting Block: %s ------" ++ [27] ++ str "[0m") [VString kind].
Definition BLOCK_END (kind : list Z) : P unit :=
  trace ([27] ++ str "[1m------ Ending Block: %s ------" ++ [27] ++ str "[0m") [VString kind].

(** ** The hex dump *)

Definition _hd_isprint (c : Z) : bool := (32 <=? c) && (c <=? 126).
Definition ROUND_UP_TO_16 (x : Z) : Z := Z.land (u64 (x + 15)) (u64 (Z.lnot 15)).

(** The rounds of the loop over [i]; [out] is the function passed as [printf]. *)
Definition hex_dump_byte (out : list Z → list va → P Z) (data start_addr end_addr i : Z) : P unit :=
  let byte (m : mem) j := load8 m (data + j) in
  (if i mod 16 =? 0 then
     (if i =? start_addr then kret tt else out (str "  |  ") [] ;;; kret tt) ;;;
     out (NL ++ str "%08zx  ") [VWord i] ;;; kret tt
   else kret tt) ;;;
  let* b := kget (λ s, byte (pram s) i) in
  out (str "%02x ") [VWord b] ;;;
  (if (i + 1) mod 8 =? 0 then out (str " ") [] ;;; kret tt else kret tt) ;;;
  if (i mod 16 =? 15) || (i =? end_addr - 1) then
    out (str "  | ") [] ;;;
    kfor (seqZ (i - i mod 16) (i mod 16 + 1)) (λ j,
      let* c := kget (λ s, byte (pram s) j) in
      out (str "%c") [VWord (if _hd_isprint c then c else 46)] ;;; kret tt)
  else kret tt.

Definition hex_dump_region (out : list Z → list va → P Z) (data start_addr end_addr : Z) : P unit :=
  let end_addr := ROUND_UP_TO_16 end_addr in
  kfor (seqZ start_addr (end_addr - start_addr)) (hex_dump_byte out data start_addr end_addr) ;;;
  out (str "  | " ++ NL) [] ;;;
  kret tt.

(** ** [vma_dump_context] *)

(** Memory seen without its allocator, for reading page tables. *)
#[local] Instance bare_memory : PageAlloc mem := {|
  pa_ram := id; pa_with_ram _ m := m; pmm_request m := (0, m); pmm_release m _ := m;
|}.

(** [p->field] *)
Definition ld (p off : Z) : P Z := if p =? 0 then kfault else kget (λ s, load64 (pram s) (p + off)).

Context (hhdm_offset : Z).

Definition dump_page (ctx region i : Z) : P unit :=
  let* start := ld region REGION_START in
  let virt_address := u64 (start + i * PAGE_SIZE) in
  let* pagemap := ld ctx CTX_PAGEMAP in
  let* phys_address := kget (λ s, virt_to_phys hhdm_offset (pram s) pagemap virt_address) in
  trace (str "    - Virtual: 0x%.16llx -> Physical: 0x%.16llx") [VWord virt_address; VWord phys_address].

(** [if (region->flags & flag) trace(...)] *)
Definition dump_flag (region flag : Z) (text : string) : P unit :=
  let* flags := ld region REGION_FLAGS in
  if Z.land flags flag =? 0 then kret tt else trace (str text) [].

Definition dump_region (ctx region region_count : Z) : P unit :=
  let* start := ld region REGION_START in
  let* size := ld region REGION_SIZE in
  let* flags := ld region REGION_FLAGS in
  trace (str "Region %d: start=0x%.16llx, size=%llu pages, flags=0x%.8llx") [VWord region_count; VWord start; VWord size; VWord flags] ;;;
  let region_end := u64 (start + size * PAGE_SIZE) in
  trace (str "  - Region start address: 0x%.16llx") [VWord start] ;;;
  trace (str "  - Region end address: 0x%.16llx") [VWord region_end] ;;;
  trace (str "  - Region size in bytes: %llu") [VWord (u64 (size * PAGE_SIZE))] ;;;
  trace (str "  - Pages mapped for region: ") [] ;;;
  kfor (seqZ 0 size) (dump_page ctx region) ;;;
  let* prev := ld region REGION_PREV in
  (if prev =? 0 then trace (str "  - Previous region: NULL") [] else
   let* pstart := ld prev REGION_START in
   trace (str "  - Previous region: start=0x%.16llx, addr=0x%.16llx") [VWord pstart; VWord prev]) ;;;
  let* next := ld region REGION_NEXT in
  (if next =? 0 then trace (str "  - Next region: NULL") [] else
   let* nstart := ld next REGION_START in
   trace (str "  - Next region: start=0x%.16llx, addr=0x%.16llx") [VWord nstart; VWord next]) ;;;
  trace (str "  - Region flags: ") [] ;;;
  dump_flag region VMM_PRESENT "    - Readable" ;;;
  dump_flag region VMM_WRITE "    - Writable" ;;;
  dump_flag region VMM_USER "    - User" ;;;
  dump_flag region VMM_NX "    - NX".

(** [while (region != NULL)] *)
Fixpoint dump_regions (fuel : nat) (ctx region region_count : Z) : P unit :=
  if region =? 0 then kret tt else
  match fuel with
  | O => knofuel
  | Datatypes.S f =>
      dump_region ctx region region_count ;;;
      let* next := ld region REGION_NEXT in
      dump_regions f ctx next (region_count + 1)
  end.

Definition vma_dump_context (fuel : nat) (ctx : Z) : P unit :=
  let* root := (if ctx =? 0 then kret 0 else ld ctx CTX_ROOT) in
  if root =? 0 then error (str "Invalid VMA context or root region") [] else
  let* pagemap := ld ctx CTX_PAGEMAP in
  trace (str "Dumping VMA context at 0x%.16llx") [VWord ctx] ;;;
  trace (str "Context details:") [] ;;;
  trace (str "  - Root region at 0x%.16llx") [VWord root] ;;;
  trace (str "  - Pagemap address at 0x%.16llx") [VWord pagemap] ;;;
  dump_regions fuel ctx root 0 ;;;
  trace (str "End of VMA context dump") [].
End macros.

(** ** What code prints *)

Section prints.
Context {E T : Type} `{KernelEnvLaws E} (junk : Z) (ofuel : nat).
Context (flanterm_write : Z → list Z → T → T) (putchar_code : Z → Z → T → T).
Context (printk_buff_start frame : Z) (m0 : mem).
Context (Hframe : 0 < frame) (Hoff : off_ring printk_buff_start frame 1024).
Implicit Types s : printer E T.
Abbreviation kprintf := (kprintf flanterm_write putchar_code printk_buff_start frame).
Abbreviation printf := (printf (kernel_ops junk ofuel) frame).

(** Standard output is a device nobody holds. *)
Definition stdout_ready (f : fs E) : Prop :=
  ∃ v, heap f !! stdout f = Some (OVnode v) ∧ vtype v = VNODE_DEV ∧ locked v = false ∧ ops v = DEVFS_OPS ∧
    heap f !! data v = Some (ODev STDOUT_READ STDOUT_WRITE).

(** Nobody is printing, [log] has been logged so far, and memory is [m0] but for
    the ring and the buffer the text is made in. *)
Record calm s (log : list Z) : Prop := {
  ca_lock : put_lock s = false;
  ca_ring : ring printk_buff_start s log;
  ca_mem : ∀ a, a < frame ∨ frame + 1024 ≤ a → off_ring printk_buff_start a 1 → load8 (pram s) a = load8 m0 a;
  ca_stdout : stdout (pfs s) = 0 ∨ stdout_ready (pfs s);
}.

(** [k] has been printed to the kernel log and [c] to the console: the debug port
    has [k]; without a standard output the log and the screen have it too and the
    console nothing; the files, but for standard output's own vnode, are as
    before. *)
Record said s (log k c : list Z) s' : Prop := {
  sd_calm : calm s' (if decide (stdout (pfs s) = 0) then log ++ k else log);
  sd_serial : serial s' = serial s ++ k;
  sd_console : console (pfs s') = console (pfs s) ++ (if decide (stdout (pfs s) = 0) then [] else c);
  sd_screen : screen s' = if decide (stdout (pfs s) = 0)
    then foldl (λ t c, shown flanterm_write putchar_code s c t) (screen s) k else screen s;
  sd_stdout : stdout (pfs s') = stdout (pfs s);
  sd_terminal : ft_ctx s' = ft_ctx s ∧ putchar_impl s' = putchar_impl s;
  sd_mounts : root_mount (pfs s') = root_mount (pfs s) ∧ devfs_root (pfs s') = devfs_root (pfs s);
  sd_files : ∀ p, p ≠ stdout (pfs s) → heap (pfs s') !! p = heap (pfs s) !! p;
}.

Definition prints {A} (c : kernel (printer E T) A) (k con : list Z) : Prop :=
  ∀ s log, calm s log → ∃ a s', c s = Ret a s' ∧ said s log k con s'.

Lemma said_refl s log : calm s log → said s log [] [] s.
Proof.
  intros Hc. split; try done.
  - by rewrite app_nil_r; destruct (decide _).
  - by rewrite app_nil_r.
  - destruct (decide _); by rewrite app_nil_r.
  - by destruct (decide _).
Qed.

Lemma said_trans s log k1 c1 s1 k2 c2 s2 :
  said s log k1 c1 s1 → said s1 (if decide (stdout (pfs s) = 0) then log ++ k1 else log) k2 c2 s2 →
  said s log (k1 ++ k2) (c1 ++ c2) s2.
Proof.
  intros [C1 S1 O1 V1 D1 [F1 P1] M1 H1] [C2 S2 O2 V2 D2 [F2 P2] M2 H2]. rewrite D1 in C2, O2, V2, H2.
  split; try congruence.
  - destruct (decide _); [by rewrite app_assoc|done].
  - by rewrite S2, S1, app_assoc.
  - rewrite O2, O1. destruct (decide _); [by rewrite !app_nil_r|by rewrite app_assoc].
  - rewrite V2, V1. destruct (decide _); [|done]. rewrite foldl_app. unfold shown. by rewrite F1, P1.
  - split; congruence.
  - destruct M1, M2. split; congruence.
  - intros p Hp. rewrite H2, H1 by done. done.
Qed.

Lemma prints_ret {A} (a : A) : prints (kret a) [] [].
Proof. intros s log Hc. exists a, s. split; [done|by apply said_refl]. Qed.

Lemma prints_then {A B} (c : kernel (printer E T) A) (d : kernel (printer E T) B) k1 c1 k2 c2 :
  prints c k1 c1 → prints d k2 c2 → prints (c ;;; d) (k1 ++ k2) (c1 ++ c2).
Proof.
  intros Hc Hd s log Hs. destruct (Hc s log Hs) as (a & s1 & Hrun & S1). destruct (Hd s1 _ (sd_calm _ _ _ _ _ S1)) as (b & s2 & Hrun2 & S2).
  exists b, s2. rewrite (kbind_run _ _ _ _ _ Hrun). split; [done|by eapply said_trans].
Qed.

(** A word of memory, outside the ring and the buffer. *)
Definition readable (a n : Z) : Prop :=
  (a + n ≤ frame ∨ frame + 1024 ≤ a) ∧ off_ring printk_buff_start a n.

Lemma calm_load64 s log a : calm s log → readable a 8 → load64 (pram s) a = load64 m0 a.
Proof.
  intros Hc [Ha Ho]. apply load64_ext. intros b Hb. apply (ca_mem _ _ Hc); unfold off_ring in *; lia.
Qed.

Lemma prints_load64 {A} a (f : Z → kernel (printer E T) A) k c :
  readable a 8 → prints (f (load64 m0 a)) k c → prints (let* x := kget (λ s, load64 (pram s) a) in f x) k c.
Proof.
  intros Ha Hf s log Hs. destruct (Hf s log Hs) as (b & s' & Hrun & S). exists b, s'. split; [|done].
  unfold kbind, kget. by rewrite (calm_load64 s log a Hs Ha).
Qed.

Lemma prints_kprintf fmt args out :
  npf_vpprintf fmt args = Some out → zlen out < 2 ^ 31 → prints (kprintf fmt args) (fitting out) [].
Proof.
  intros Hout Hlen s log [Hl Hr Hm Hd].
  destruct (kprintf_run flanterm_write putchar_code printk_buff_start s log frame fmt args out Hout Hlen Hframe Hoff Hr Hl)
    as (s' & Hrun & (L1 & L2 & L3 & L4 & L5 & L6) & M).
  exists (zlen out), s'. split; [done|].
  assert (stdout (pfs s') = stdout (pfs s)) as Ed by (by rewrite L2).
  split; try done; rewrite ?L2; try done.
  - split; [done| | |by rewrite L2].
    + by destruct (decide _); destruct L6.
    + intros a Ha Ho. by rewrite M, Hm.
  - destruct (decide _); by rewrite app_nil_r.
  - by destruct (decide _); destruct L6.
Qed.

Lemma prints_printf fmt args out :
  npf_vpprintf fmt args = Some out → zlen out < 2 ^ 31 → prints (printf fmt args) [] (fitting out).
Proof.
  intros Hout Hlen s log Hc. destruct (decide (stdout (pfs s) = 0)) as [E0|E0].
  - exists 0, s. split; [unfold Printf.printf; unfold kbind, kget; by rewrite E0|].
    destruct (said_refl s log Hc) as [C S O V D F M H']. split; try done. by rewrite decide_True in O |- * by done.
  - destruct (ca_stdout _ _ Hc) as [?|(v & Hv & Ht & Hk & Hops & Hdev)]; [done|].
    destruct (env_time (env (pfs s))) as [time e'] eqn:Et.
    assert (is_stdout (pfs s) (stdout (pfs s)) v time e') as His by (by unfold is_stdout).
    pose proof (printf_spec junk ofuel printk_buff_start s frame fmt args out (stdout (pfs s)) v time e' log Hout Hlen Hframe Hoff
      (ca_ring _ _ Hc) eq_refl (or_intror His)) as Hp.
    rewrite decide_False in Hp by done. destruct Hp as (m & Hrun & Hr & Hm).
    assert (stdout (pfs s) ≠ data v) as Hne by (intros Heq; rewrite <- Heq, Hv in Hdev; discriminate).
    eexists _, _. split; [exact Hrun|]. unfold fitting.
    destruct (zlen out <? 1024); split; try done; cbn [put_lock ring pram pfs serial console stdout screen root_mount devfs_root heap set_pfs set_pram wrote];
      rewrite ?(decide_False _ _ E0), ?app_nil_r; try done.
    + split; [apply Hc|done| |].
      * intros a Ha Ho. cbn [pram set_pram set_pfs]. rewrite Hm by done. by apply (ca_mem _ _ Hc).
      * right. exists (set_modify_time time (set_locked false v)). cbn [pfs set_pfs wrote heap stdout]. rewrite lookup_insert_eq.
        split; [done|]. cbn. rewrite lookup_insert_ne by done. by repeat (split; [done|]).
    + intros p Hp. by rewrite lookup_insert_ne.
    + split; [apply Hc|done| |apply Hc].
      intros a Ha Ho. cbn [pram set_pram set_pfs]. rewrite Hm by done. by apply (ca_mem _ _ Hc).
Qed.

(** ** Lines *)

Abbreviation LOG_CALLBACK := (LOG_CALLBACK flanterm_write putchar_code printk_buff_start frame).
Abbreviation LOG_CALLBACK_EW := (LOG_CALLBACK_EW (kernel_ops junk ofuel) flanterm_write putchar_code printk_buff_start frame).
Abbreviation trace := (trace flanterm_write putchar_code printk_buff_start frame).

Lemma prints_eq {A} (c : kernel (printer E T) A) k con k' con' : prints c k con → k = k' → con = con' → prints c k' con'.
Proof. by intros ? <- <-. Qed.

Lemma nl_text : npf_vpprintf NL [] = Some NL ∧ zlen NL < 2 ^ 31.
Proof. by vm_compute. Qed.

(** A sequence of [kprintf] and [printf] whose texts are known. *)
Ltac prints_all :=
  eapply prints_eq;
    [repeat (eapply prints_then; [first [eapply prints_kprintf; [eassumption|assumption] | eapply prints_printf; [eassumption|assumption]]|]);
     apply prints_ret
    |rewrite ?app_nil_l, ?app_nil_r; try reflexivity..].

Lemma prints_line color level fmt args h out :
  npf_vpprintf LOG_HEAD [VWord color; VString (UPPER_STR level)] = Some h → zlen h < 2 ^ 31 →
  npf_vpprintf fmt args = Some out → zlen out < 2 ^ 31 →
  prints (LOG_CALLBACK color level fmt args) (fitting h ++ fitting out ++ NL) [].
Proof. intros Hh Hlh Ho Hlo. destruct nl_text. unfold Log.LOG_CALLBACK. cbv zeta. prints_all. Qed.

Lemma prints_line_ew color level fmt args h out :
  npf_vpprintf LOG_HEAD [VWord color; VString (UPPER_STR level)] = Some h → zlen h < 2 ^ 31 →
  npf_vpprintf fmt args = Some out → zlen out < 2 ^ 31 →
  prints (LOG_CALLBACK_EW color level fmt args) (fitting h ++ fitting out ++ NL) (fitting h ++ fitting out ++ NL).
Proof. intros Hh Hlh Ho Hlo. destruct nl_text. unfold Log.LOG_CALLBACK_EW. cbv zeta. prints_all. Qed.

(** The start of a line: the colour, and the level in capitals, padded to five. *)
Definition line_head (color : Z) (level : string) : list Z :=
  [27] ++ str "[1;" ++ (match color with 91 => str "91" | 92 => str "92" | 93 => str "93" | 94 => str "94" | 95 => str "95" | _ => str "97" end)
  ++ str "m[" ++ str level ++ str "] " ++ [27] ++ str "[0m".

Lemma prints_warning warnings fmt args outw :
  0 ≤ warnings < 2 ^ 31 - 1 → npf_vpprintf (str "(Warning #%d) " ++ fmt) (VWord (warnings + 1) :: args) = Some outw → zlen outw < 2 ^ 31 →
  prints (warning (kernel_ops junk ofuel) flanterm_write putchar_code printk_buff_start frame warnings fmt args)
    (line_head 93 "WARN " ++ fitting outw ++ NL) (line_head 93 "WARN " ++ fitting outw ++ NL).
Proof.
  intros Hw Ho Hl. unfold warning, _LOG_W. rewrite (proj2 (Z.ltb_lt _ _)) by lia.
  eapply prints_eq; [eapply prints_then; [|apply prints_ret]|by rewrite app_nil_r..].
  by apply (prints_line_ew 93 (str "warn") _ _ (line_head 93 "WARN ") outw).
Qed.

(** C32: The lines of the log.  [info], [debug] and [trace] print, to the kernel log
    only, the level in capitals and in its colour, then the text, or nothing of a
    text of 1024 bytes or more, and a newline; [error] and [warning] print the
    same line to the console as well, the text of a warning starting with its
    number.  Nothing else changes: not the files, the terminal, or memory
    outside the ring and the buffer the text is made in. *)
Theorem log_lines fmt args out (warnings : Z) outw
    (Hout : npf_vpprintf fmt args = Some out) (Hlen : zlen out < 2 ^ 31)
    (Hw : 0 ≤ warnings < 2 ^ 31 - 1) (Houtw : npf_vpprintf (str "(Warning #%d) " ++ fmt) (VWord (warnings + 1) :: args) = Some outw)
    (Hlenw : zlen outw < 2 ^ 31) :
  let line color level text := line_head color level ++ fitting text ++ NL in
  let W c := c flanterm_write putchar_code printk_buff_start frame in
  prints (W (info (T := T)) fmt args) (line 92 "INFO " out) [] ∧
  prints (W (debug (T := T)) fmt args) (line 94 "DEBUG" out) [] ∧
  prints (W (Log.trace (T := T)) fmt args) (line 95 "TRACE" out) [] ∧
  prints (error (kernel_ops junk ofuel) flanterm_write putchar_code printk_buff_start frame fmt args)
    (line 91 "ERROR" out) (line 91 "ERROR" out) ∧
  prints (warning (kernel_ops junk ofuel) flanterm_write putchar_code printk_buff_start frame warnings fmt args)
    (line 93 "WARN " outw) (line 93 "WARN " outw).
Proof.
  cbv zeta. split; [|split; [|split; [|split]]].
  - by apply (prints_line 92 (str "info") fmt args (line_head 92 "INFO ") out).
  - by apply (prints_line 94 (str "debug") fmt args (line_head 94 "DEBUG") out).
  - by apply (prints_line 95 (str "trace") fmt args (line_head 95 "TRACE") out).
  - by apply (prints_line_ew 91 (str "error") fmt args (line_head 91 "ERROR") out).
  - by apply prints_warning.
Qed.

(** ** Code that prints and returns *)

(** [c] returns, having printed something and changed nothing else. *)
Definition ends {A} (c : kernel (printer E T) A) : Prop :=
  ∀ s log, calm s log → ∃ a s' k con, c s = Ret a s' ∧ said s log k con s'.

Lemma ends_prints {A} (c : kernel (printer E T) A) k con : prints c k con → ends c.
Proof. intros Hc s log Hs. destruct (Hc s log Hs) as (a & s' & ? & ?). by exists a, s', k, con. Qed.

Lemma ends_ret {A} (a : A) : ends (kret a).
Proof. eapply ends_prints, prints_ret. Qed.

Lemma ends_bind {A B} (c : kernel (printer E T) A) (f : A → kernel (printer E T) B) :
  ends c → (∀ a, ends (f a)) → ends (kbind c f).
Proof.
  intros Hc Hf s log Hs. destruct (Hc s log Hs) as (a & s1 & k1 & c1 & Hrun & S1).
  destruct (Hf a s1 _ (sd_calm _ _ _ _ _ S1)) as (b & s2 & k2 & c2 & Hrun2 & S2).
  exists b, s2, (k1 ++ k2), (c1 ++ c2). rewrite (kbind_run _ _ _ _ _ Hrun). split; [done|by eapply said_trans].
Qed.

Lemma ends_get {A} (f : printer E T → A) : ends (kget f).
Proof. intros s log Hs. exists (f s), s, [], []. split; [done|by apply said_refl]. Qed.

Lemma ends_kfor l (body : Z → kernel (printer E T) unit) : (∀ i, ends (body i)) → ends (kfor l body).
Proof. intros Hb. induction l as [|i l IH]; cbn [kfor]; [apply ends_ret|apply ends_bind; [apply Hb|done]]. Qed.

(** A format that was checked for the kinds of its arguments. *)
Definition checked (fmt : list Z) (args : list va) : Prop :=
  ∃ ks, Forall2 has_kind args ks ∧ match format_bound (length fmt) fmt ks with Some b => b <? 2 ^ 31 | None => false end = true.

Lemma checked_text fmt args : checked fmt args → ∃ out, npf_vpprintf fmt args = Some out ∧ zlen out < 2 ^ 31.
Proof.
  intros (ks & Hk & Hb). destruct (format_bound _ _ _) as [b|] eqn:Eb; [|done]. apply Z.ltb_lt in Hb.
  destruct (format_total _ fmt args ks b Hk Eb) as (out & Ho & Hl). exists out. split; [done|lia].
Qed.

Lemma ends_kprintf fmt args : checked fmt args → ends (kprintf fmt args).
Proof. intros (out & ? & ?)%checked_text. eapply ends_prints. by apply prints_kprintf. Qed.

Lemma ends_printf fmt args : checked fmt args → ends (printf fmt args).
Proof. intros (out & ? & ?)%checked_text. eapply ends_prints. by apply prints_printf. Qed.

Lemma trace_head : npf_vpprintf LOG_HEAD [VWord 95; VString (UPPER_STR (str "trace"))] = Some (line_head 95 "TRACE") ∧
  zlen (line_head 95 "TRACE") < 2 ^ 31.
Proof. by vm_compute. Qed.

Lemma ends_trace fmt args : checked fmt args → ends (trace fmt args).
Proof.
  intros (out & ? & ?)%checked_text. eapply ends_prints. destruct trace_head. by eapply (prints_line 95 (str "trace")).
Qed.

Lemma ends_info fmt args : checked fmt args → ends (info flanterm_write putchar_code printk_buff_start frame fmt args).
Proof.
  intros (out & ? & ?)%checked_text. eapply ends_prints. by apply (prints_line 92 (str "info") fmt args (line_head 92 "INFO ") out).
Qed.

Lemma ends_error fmt args :
  checked fmt args → ends (error (kernel_ops junk ofuel) flanterm_write putchar_code printk_buff_start frame fmt args).
Proof.
  intros (out & ? & ?)%checked_text. eapply ends_prints.
  by apply (prints_line_ew 91 (str "error") fmt args (line_head 91 "ERROR") out).
Qed.

(** The text of a failed assertion. *)
Definition ASSERT_FORMAT : list Z := str "Assertion failed: (%s), file: %s, line: %d".

Lemma assert_fails text file line s log :
  zlen text ≤ 65536 → zlen file ≤ 65536 → calm s log →
  ∃ out s', npf_vpprintf ASSERT_FORMAT [VString text; VString file; VWord line] = Some out ∧
    assert (kernel_ops junk ofuel) flanterm_write putchar_code printk_buff_start frame false text file line s = Halt s' ∧
    said s log (line_head 91 "ERROR" ++ fitting out ++ NL) (line_head 91 "ERROR" ++ fitting out ++ NL) s'.
Proof.
  intros Ht Hf Hc. assert (checked ASSERT_FORMAT [VString text; VString file; VWord line]) as (out & Hout & Hlen)%checked_text.
  { exists [AString 65536; AString 65536; AWord]. split; [by repeat constructor|vm_compute; reflexivity]. }
  assert (prints (error (kernel_ops junk ofuel) flanterm_write putchar_code printk_buff_start frame ASSERT_FORMAT [VString text; VString file; VWord line])
    (line_head 91 "ERROR" ++ fitting out ++ NL) (line_head 91 "ERROR" ++ fitting out ++ NL)) as Hp
    by (by apply (prints_line_ew 91 (str "error") _ _ (line_head 91 "ERROR") out)).
  destruct (Hp s log Hc) as (a & s' & Hrun & Hsaid). exists out, s'. split; [done|]. split; [|done].
  unfold Log.assert. rewrite (kbind_run _ _ _ _ _ Hrun). done.
Qed.

(** C33: An assertion.  [assert(expr)] does nothing when the expression holds;
    otherwise it prints, to the kernel log and to the console, one line in red
    with the text of the expression, the file and the line, changes nothing
    else, and halts. *)
Theorem assert_spec expr text file line s log
    (Htext : zlen text ≤ 65536) (Hfile : zlen file ≤ 65536) (Hcalm : calm s log) :
  let c := assert (kernel_ops junk ofuel) flanterm_write putchar_code printk_buff_start frame expr text file line in
  if expr then c s = Ret tt s
  else ∃ out s', npf_vpprintf (str "Assertion failed: (%s), file: %s, line: %d") [VString text; VString file; VWord line] = Some out ∧
    c s = Halt s' ∧ said s log (line_head 91 "ERROR" ++ fitting out ++ NL) (line_head 91 "ERROR" ++ fitting out ++ NL) s'.
Proof. destruct expr; [reflexivity|]. by apply assert_fails. Qed.

Lemma checked_words fmt args n :
  length args = n → Forall (λ v, match v with VWord _ => True | VString _ => False end) args →
  match format_bound (length fmt) fmt (replicate n AWord) with Some b => b <? 2 ^ 31 | None => false end = true → checked fmt args.
Proof.
  intros <- Hw Hb. exists (replicate (length args) AWord). split; [|done].
  clear Hb. induction Hw as [|[x|l] args Hv Hw IH]; cbn; [constructor|by constructor|done].
Qed.
End prints.

(** A checked call with words for arguments. *)
Ltac words := apply (checked_words _ _ _ eq_refl); [repeat constructor | vm_compute; reflexivity].

(** ** Code that does not touch the files *)

Section keeps.
Context {E T : Type} `{KernelEnv E}.
Context (flanterm_write : Z → list Z → T → T) (putchar_code : Z → Z → T → T) (printk_buff_start frame : Z).

Definition keeps_files {A} (c : kernel (printer E T) A) : Prop := ∀ s a s', c s = Ret a s' → pfs s' = pfs s.

Lemma keeps_ret {A} (a : A) : keeps_files (kret a).
Proof. by intros s b s' [= <- <-]. Qed.
Lemma keeps_get {A} (f : printer E T → A) : keeps_files (kget f).
Proof. by intros s b s' [= <- <-]. Qed.
Lemma keeps_opt {A} (o : option A) : keeps_files (kopt o).
Proof. intros s b s'. by destruct o; [intros [= <- <-]|]. Qed.
Lemma keeps_mod f : (∀ s, pfs (f s) = pfs s) → keeps_files (kmod f).
Proof. intros Hf s a s' [= <- <-]. apply Hf. Qed.
Lemma keeps_bind {A B} (c : kernel (printer E T) A) (f : A → kernel (printer E T) B) :
  keeps_files c → (∀ a, keeps_files (f a)) → keeps_files (kbind c f).
Proof. intros Hc Hf s b s' (a & s1 & H1 & H2)%kbind_inv. rewrite (Hf a _ _ _ H2). by eapply Hc. Qed.
Lemma keeps_kfor l (body : Z → kernel (printer E T) unit) : (∀ i, keeps_files (body i)) → keeps_files (kfor l body).
Proof. intros Hb. induction l as [|i l IH]; [apply keeps_ret|]. by apply keeps_bind. Qed.

Lemma keeps_put data length : keeps_files (put flanterm_write putchar_code printk_buff_start data length).
Proof.
  assert (keeps_files lock_put) as Hlock.
  { apply keeps_bind; [apply keeps_get|]. intros []; [by intros s a s'|by apply keeps_mod]. }
  apply keeps_bind; [exact Hlock|]. intros _. apply keeps_bind; [apply keeps_get|]. intros out. destruct (negb (out =? 0)).
  - apply keeps_bind; [apply keeps_kfor; intros i|intros _]; by apply keeps_mod.
  - apply keeps_bind; [apply keeps_kfor; intros i; by apply keeps_mod|]. intros _.
    apply keeps_bind; [apply keeps_kfor; intros i|intros _; by apply keeps_mod].
    apply keeps_bind; [by apply keeps_mod|]. intros _. apply keeps_mod. intros s. unfold show_byte.
    by destruct (negb (ft_ctx s =? 0)), (negb (putchar_impl s =? 0)).
Qed.

Lemma keeps_kprintf fmt args : keeps_files (kprintf flanterm_write putchar_code printk_buff_start frame fmt args).
Proof.
  apply keeps_bind.
  - apply keeps_bind; [apply keeps_get|]. intros m. apply keeps_bind; [apply keeps_opt|]. intros r.
    apply keeps_bind; [by apply keeps_mod|]. intros _. apply keeps_ret.
  - intros n. apply keeps_bind; [|intros _; apply keeps_ret]. destruct (_ && _); [apply keeps_put|apply keeps_ret].
Qed.

(** [info], [debug] and [trace] print to the kernel log only. *)
Lemma keeps_line color level fmt args : keeps_files (LOG_CALLBACK flanterm_write putchar_code printk_buff_start frame color level fmt args).
Proof. repeat (apply keeps_bind; [apply keeps_kprintf|intros _]). apply keeps_ret. Qed.
End keeps.

(** ** The dump of a context *)

Section dump.
Context {E T : Type} `{KernelEnvLaws E} (junk : Z) (ofuel : nat).
Context (flanterm_write : Z → list Z → T → T) (putchar_code : Z → Z → T → T).
Context (printk_buff_start frame : Z) (m0 : mem) (hhdm_offset : Z).
Context (Hframe : 0 < frame) (Hoff : off_ring printk_buff_start frame 1024).
Abbreviation ends := (ends flanterm_write putchar_code printk_buff_start frame m0 (E := E) (T := T)).
Abbreviation readable := (readable printk_buff_start frame).

(** [n] regions from [p] on, which can be read while printing. *)
Fixpoint region_chain (n : nat) (p : Z) : Prop :=
  match n with
  | O => p = 0
  | S n => p ≠ 0 ∧ readable (p + REGION_NEXT) 8 ∧ region_chain n (load64 m0 (p + REGION_NEXT))
  end.

Lemma ends_ld p off : p ≠ 0 → ends (ld p off).
Proof. intros Hp. unfold ld. rewrite (proj2 (Z.eqb_neq p 0)) by done. apply ends_get. Qed.

Ltac step :=
  match goal with
  | |- Log.ends _ _ _ _ _ (kbind _ _) => apply ends_bind; [|intros ?]
  | |- Log.ends _ _ _ _ _ (kret _) => apply ends_ret
  | |- Log.ends _ _ _ _ _ (kget _) => apply ends_get
  | |- Log.ends _ _ _ _ _ (ld _ _) => apply ends_ld; done
  | |- Log.ends _ _ _ _ _ (trace _ _ _ _ _ _) => apply ends_trace; [done|done|words]
  | |- Log.ends _ _ _ _ _ (kfor _ _) => apply ends_kfor; intros ?
  | |- Log.ends _ _ _ _ _ (if ?a =? ?b then _ else _) => destruct (Z.eqb_spec a b)
  | |- _ => progress cbv zeta
  end.

Lemma dump_region_ends ctx region i : ctx ≠ 0 → region ≠ 0 →
  ends (dump_region flanterm_write putchar_code printk_buff_start frame hhdm_offset ctx region i).
Proof. intros Hc Hr. unfold dump_region, dump_page, dump_flag. repeat step. Qed.

Lemma dump_regions_ends (n fuel : nat) ctx p i :
  ctx ≠ 0 → region_chain n p → (n ≤ fuel)%nat →
  ends (dump_regions flanterm_write putchar_code printk_buff_start frame hhdm_offset fuel ctx p i).
Proof.
  intros Hc. revert fuel p i. induction n as [|n IH]; intros fuel p i Hp Hf; cbn [region_chain] in Hp.
  - subst p. destruct fuel; cbn [dump_regions Z.eqb]; apply ends_ret.
  - destruct Hp as (Hp0 & Hr & Hp). destruct fuel as [|fuel]; [lia|]. cbn [dump_regions].
    rewrite (proj2 (Z.eqb_neq p 0)) by done. apply ends_bind; [by apply dump_region_ends|intros _].
    intros s log Hs. unfold ld. rewrite (proj2 (Z.eqb_neq p 0)) by done. unfold kbind, kget.
    rewrite (calm_load64 printk_buff_start frame m0 Hoff s log _ Hs Hr). apply IH; [done|lia|done].
Qed.

(** [vma_dump_context] prints the regions of a list of [n], whatever is in them and
    however they are mapped, and returns. *)
Lemma vma_dump_ends (n fuel : nat) ctx :
  ctx ≠ 0 → readable (ctx + CTX_ROOT) 8 → region_chain n (load64 m0 (ctx + CTX_ROOT)) → (n ≤ fuel)%nat →
  ends (vma_dump_context (kernel_ops junk ofuel) flanterm_write putchar_code printk_buff_start frame hhdm_offset fuel ctx).
Proof.
  intros Hc Hr Hch Hf s log Hs. unfold vma_dump_context. rewrite (proj2 (Z.eqb_neq ctx 0)) by done.
  unfold ld at 1. rewrite (proj2 (Z.eqb_neq ctx 0)) by done. unfold kbind at 1, kget at 1.
  rewrite (calm_load64 printk_buff_start frame m0 Hoff s log _ Hs Hr). set (root := load64 m0 _) in *. revert s log Hs.
  change (ends (if root =? 0 then error (kernel_ops junk ofuel) flanterm_write putchar_code printk_buff_start frame (str "Invalid VMA context or root region") [] else
    let* pagemap := ld ctx CTX_PAGEMAP in
    trace flanterm_write putchar_code printk_buff_start frame (str "Dumping VMA context at 0x%.16llx") [VWord ctx] ;;;
    trace flanterm_write putchar_code printk_buff_start frame (str "Context details:") [] ;;;
    trace flanterm_write putchar_code printk_buff_start frame (str "  - Root region at 0x%.16llx") [VWord root] ;;;
    trace flanterm_write putchar_code printk_buff_start frame (str "  - Pagemap address at 0x%.16llx") [VWord pagemap] ;;;
    dump_regions flanterm_write putchar_code printk_buff_start frame hhdm_offset fuel ctx root 0 ;;;
    trace flanterm_write putchar_code printk_buff_start frame (str "End of VMA context dump") [])).
  destruct (Z.eqb_spec root 0) as [E0|E0]; [apply ends_error; [done|done|words]|].
  repeat match goal with |- Log.ends _ _ _ _ _ (dump_regions _ _ _ _ _ _ _ _ _) => by eapply dump_regions_ends | _ => step end.
Qed.
End dump.

(** *** A line, and a failed assertion, before there is a standard output *)

Definition quiet_printer : printer demo_env (list Z) :=
  Printer (Fs ∅ (DemoEnv 9 ∅ 0) 0 0 0 []) ∅ 0 false [] [] 0 0.

Lemma quiet_calm : calm 0x100000 0x2000 ∅ quiet_printer [].
Proof. split; [reflexivity|split; [reflexivity|intros i c Hi; discriminate]|reflexivity|by left]. Qed.

Lemma log_lines_witness :
  ∃ a s', info demo_screen demo_putchar 0x100000 0x2000 (str "%d pages") [VWord 12] quiet_printer = Ret a s' ∧
    serial s' = line_head 92 "INFO " ++ str "12 pages" ++ NL.
Proof.
  destruct (log_lines 77 5 demo_screen demo_putchar 0x100000 0x2000 ∅ ltac:(lia) ltac:(left; vm_compute; congruence)
    (str "%d pages") [VWord 12] (str "12 pages") 0 (str "(Warning #1) 12 pages")) as [Hinfo _].
  - vm_compute. reflexivity.
  - vm_compute. reflexivity.
  - lia.
  - vm_compute. reflexivity.
  - vm_compute. reflexivity.
  - destruct (Hinfo quiet_printer [] quiet_calm) as (a & s' & Hrun & Hsaid). exists a, s'. split; [exact Hrun|].
    exact (sd_serial _ _ _ _ _ _ _ _ _ _ Hsaid).
Defined.

Lemma assert_spec_witness :
  ∃ s', assert (kernel_ops 77 5) demo_screen demo_putchar 0x100000 0x2000 false (str "buf") (str "post.c") 91 quiet_printer = Halt s' ∧
    serial s' = line_head 91 "ERROR" ++ str "Assertion failed: (buf), file: post.c, line: 91" ++ NL.
Proof.
  destruct (assert_spec 77 5 demo_screen demo_putchar 0x100000 0x2000 ∅ ltac:(lia) ltac:(left; vm_compute; congruence)
    false (str "buf") (str "post.c") 91 quiet_printer []) as (out & s' & Hout & Hrun & Hsaid).
  - vm_compute. congruence.
  - vm_compute. congruence.
  - exact quiet_calm.
  - exists s'. split; [exact Hrun|]. rewrite (sd_serial _ _ _ _ _ _ _ _ _ _ Hsaid).
    replace out with (str "Assertion failed: (buf), file: post.c, line: 91"); [reflexivity|].
    assert (Some (str "Assertion failed: (buf), file: post.c, line: 91") = Some out) as Heq; [|injection Heq as <-; reflexivity].
    rewrite <- Hout. vm_compute. reflexivity.
Defined.
