(* ===== verification/Reports.v ===== *)
(** * What the allocators report

    [liballoc_dump] of [mm/liballoc/liballoc.c], and [trace_size] and the end of
    [pmm_init] of [mm/pmm.c]: the code that only prints what the allocators hold.

    The theorems: the dump of the heap ends, and lists every block of pages and
    every allocation in it with its size; the sizes [trace_size] prints are
    rounded. *)

From stdpp Require Import base gmap list strings.
From Stdlib Require Import ZArith Lia.
From S2P Require Import Prelude Ram CString Format Pmm Heap HeapList HeapSpec KernelHeap Vnode Vfs Ramfs Devfs Printf Log.
#[local] Open Scope Z_scope.

(** [mm/pmm.h] *)
Definition BYTES_TO_GB (bytes : Z) : Z :=
  BYTES_TO_MB bytes / 1024 + (if 512 <=? BYTES_TO_MB bytes mod 1024 then 1 else 0).
Definition BYTES_TO_TB (bytes : Z) : Z :=
  BYTES_TO_GB bytes / 1024 + (if 512 <=? BYTES_TO_GB bytes mod 1024 then 1 else 0).

Section reports.
Context {E T Src : Type} `{KernelEnv E}.
Context (flanterm_write : Z → list Z → T → T) (putchar_code : Z → Z → T → T) (printk_buff_start frame : Z).
Abbreviation P := (kernel (printer E T)).
Abbreviation info := (info flanterm_write putchar_code printk_buff_start frame).
Abbreviation trace := (Log.trace flanterm_write putchar_code printk_buff_start frame).

(** [while (min != NULL)] *)
Fixpoint dump_minors (rounds : nat) (m : mem) (min : Z) : P unit :=
  if min =? 0 then kret tt else
  match rounds with
  | O => knofuel
  | S rounds =>
      info (str "   %x: %i bytes") [VWord min; VWord (load_le 4 m (min + MIN_SIZE))] ;;;
      dump_minors rounds m (load_le 8 m (min + MIN_NEXT))
  end.

(** [while (maj != NULL)] *)
Fixpoint dump_majors (rounds fuel : nat) (m : mem) (maj : Z) : P unit :=
  if maj =? 0 then kret tt else
  match rounds with
  | O => knofuel
  | S rounds =>
      info (str "%x: total = %i, used = %i")
        [VWord maj; VWord (load_le 4 m (maj + MAJ_SIZE)); VWord (load_le 4 m (maj + MAJ_USAGE))] ;;;
      dump_minors fuel m (load_le 8 m (maj + MAJ_FIRST)) ;;;
      dump_majors rounds fuel m (load_le 8 m (maj + MAJ_NEXT))
  end.

(** [liballoc_dump], with [_DEBUG]; the heap is only read. *)
Definition liballoc_dump (fuel : nat) (h : Heap.heap Src) : P unit :=
  info (str "------ Memory data ---------------") [] ;;;
  info (str "System memory allocated: %i bytes") [VWord (l_allocated h)] ;;;
  info (str "Memory in used (malloc'ed): %i bytes") [VWord (l_inuse h)] ;;;
  info (str "Warning count: %i") [VWord (l_warningCount h)] ;;;
  info (str "Error count: %i") [VWord (l_errorCount h)] ;;;
  info (str "Possible overruns: %i") [VWord (l_possibleOverruns h)] ;;;
  dump_majors fuel fuel (hm h) (l_memRoot h).

(** [trace_size], with [_TRACE] *)
Definition trace_size (label : list Z) (size_in_bytes : Z) : P unit :=
  trace (str "%s:") [VString label] ;;;
  trace (str " - %llu KB") [VWord (BYTES_TO_KB size_in_bytes)] ;;;
  trace (str " - %llu MB") [VWord (BYTES_TO_MB size_in_bytes)] ;;;
  trace (str " - %llu GB") [VWord (BYTES_TO_GB size_in_bytes)] ;;;
  trace (str " - %llu TB") [VWord (BYTES_TO_TB size_in_bytes)].

(** [reusable_pages]: the loop over the pages of a region, and over the regions. *)
Fixpoint count_region (rounds : nat) (e : memmap_entry) (j n : Z) : option Z :=
  if len e <=? j then Some n else
  match rounds with
  | O => None
  | S rounds => count_region rounds e (u64 (j + PAGE_SIZE)) (u64 (n + 1))
  end.
Fixpoint count_reusable (mm : list memmap_entry) (n : Z) : option Z :=
  match mm with
  | [] => Some n
  | e :: mm => n ← (if is_reclaimable e then count_region (region_fuel e) e 0 n else Some n); count_reusable mm n
  end.

(** The end of [pmm_init]. *)
Definition pmm_report (mm : list memmap_entry) (free_pages cached_count : Z) : P unit :=
  match count_reusable mm 0 with
  | None => knofuel
  | Some reusable_pages =>
      trace (str "PMM initialization complete. Total free pages: %llu, total cached pages: %llu") [VWord free_pages; VWord cached_count] ;;;
      trace_size (str "Free memory") (u64 (free_pages * PAGE_SIZE)) ;;;
      trace_size (str "Cached memory") (u64 (cached_count * PAGE_SIZE)) ;;;
      trace_size (str "Reusable memory") (u64 (reusable_pages * PAGE_SIZE)) ;;;
      trace_size (str "Total memory") (u64 (u64 (free_pages + cached_count) * PAGE_SIZE))
  end.
End reports.

(** ** The dump of the heap *)

Section dump.
Context {E T : Type} `{KernelEnvLaws E} {Src : Type} `{BlockSourceLaws Src}.
Context (flanterm_write : Z → list Z → T → T) (putchar_code : Z → Z → T → T) (printk_buff_start frame : Z) (m0 : mem).
Context (Hframe : 0 < frame) (Hoff : off_ring printk_buff_start frame 1024).
Abbreviation prints := (prints (E := E) flanterm_write putchar_code printk_buff_start frame m0).
Abbreviation info := (info flanterm_write putchar_code printk_buff_start frame).

(** A line of [info]. *)
Definition info_line (fmt : list Z) (args : list va) : list Z :=
  line_head 92 "INFO " ++ fitting (default [] (npf_vpprintf fmt args)) ++ NL.

Lemma prints_info fmt args : checked fmt args → prints (info fmt args) (info_line fmt args) [].
Proof.
  intros (out & Ho & Hl)%checked_text. unfold info_line. rewrite Ho.
  by apply (prints_line flanterm_write putchar_code printk_buff_start frame m0 Hframe Hoff 92 (str "info") fmt args (line_head 92 "INFO ") out).
Qed.

(** The lines for an allocation, a block and the whole heap. *)
Definition minor_line (x : minor) : list Z := info_line (str "   %x: %i bytes") [VWord (mi x); VWord (msz x)].
Definition major_lines (M : major) : list Z :=
  info_line (str "%x: total = %i, used = %i") [VWord (ma M); VWord (mpages M * 4096); VWord (40 + used (minors M))] ++
  concat (map minor_line (minors M)).
Definition summary (h : Heap.heap Src) : list Z :=
  info_line (str "------ Memory data ---------------") [] ++
  info_line (str "System memory allocated: %i bytes") [VWord (l_allocated h)] ++
  info_line (str "Memory in used (malloc'ed): %i bytes") [VWord (l_inuse h)] ++
  info_line (str "Warning count: %i") [VWord (l_warningCount h)] ++
  info_line (str "Error count: %i") [VWord (l_errorCount h)] ++
  info_line (str "Possible overruns: %i") [VWord (l_possibleOverruns h)].
Lemma minors_printed m (rounds : nat) l p :
  dseg m p 0 (mi <$> l) → (∀ x, x ∈ l → 0 < mi x ∧ load_le 4 m (mi x + MIN_SIZE) = msz x) → (length l ≤ rounds)%nat →
  prints (dump_minors flanterm_write putchar_code printk_buff_start frame rounds m (first_or 0 (mi <$> l))) (concat (map minor_line l)) [].
Proof.
  revert rounds p. induction l as [|x l IH]; intros rounds p Hl Hx Hr.
  - destruct rounds; apply prints_ret.
  - destruct rounds as [|rounds]; [simpl in Hr; lia|]. destruct Hl as (_ & Hn & Hl). destruct (Hx x) as [Hp Hs]; [by left|].
    cbn [fmap list_fmap first_or dump_minors map concat]. rewrite (proj2 (Z.eqb_neq (mi x) 0)) by lia. rewrite Hs.
    change (mi x + MIN_NEXT) with (mi x + 8). rewrite Hn. apply (prints_then _ _ _ _ _ _ _ _ []).
    + apply prints_info. words.
    + eapply IH; [exact Hl|intros y Hy; apply Hx; by right|simpl in Hr; lia].
Qed.

Lemma majors_printed m (rounds fuel : nat) V p :
  dseg m p 0 (ma <$> V) → (∀ M, M ∈ V → block_ok m M ∧ (length (minors M) ≤ fuel)%nat) → (length V ≤ rounds)%nat →
  prints (dump_majors flanterm_write putchar_code printk_buff_start frame rounds fuel m (first_or 0 (ma <$> V))) (concat (map major_lines V)) [].
Proof.
  revert rounds p. induction V as [|M V IH]; intros rounds p Hl HV Hr.
  - destruct rounds; apply prints_ret.
  - destruct rounds as [|rounds]; [simpl in Hr; lia|]. destruct Hl as (_ & Hn & Hl). destruct (HV M) as [B Hf]; [by left|].
    pose proof (bk_addr _ _ B) as (Ha & _). cbn [fmap list_fmap first_or dump_majors map concat].
    rewrite (proj2 (Z.eqb_neq (ma M) 0)) by lia.
    change (ma M + MAJ_SIZE) with (ma M + 20). change (ma M + MAJ_USAGE) with (ma M + 24).
    change (ma M + MAJ_FIRST) with (ma M + 32). change (ma M + MAJ_NEXT) with (ma M + 8).
    rewrite (bk_size _ _ B), (bk_usage _ _ B), (bk_first _ _ B), Hn. unfold major_lines at 1. rewrite <- app_assoc.
    apply (prints_then _ _ _ _ _ _ _ _ []); [apply prints_info; words|].
    apply (prints_then _ _ _ _ _ _ _ _ []).
    + eapply minors_printed; [exact (bk_list _ _ B)| |done]. intros x Hx. split; [|exact (mo_size _ _ _ (bk_minors _ _ B x Hx))].
      pose proof (fits_elem _ _ _ _ (bk_fits _ _ B) Hx). lia.
    + eapply IH; [exact Hl|intros N HN; apply HV; by right|simpl in Hr; lia].
Qed.

(** The dump of the heap.  When the headers in memory hold the blocks [V],
    [liballoc_dump] ends, logs the totals, and then a line for every block of
    pages with its size and the bytes used of it, each followed by a line for
    every allocation in it, in the order of the lists; nothing else is
    printed and nothing changed.  The number of blocks, and of allocations in the
    fullest block, is budget enough. *)
Theorem liballoc_dump_lists h V (fuel : nat) (Hrep : heap_rep V h)
    (Hfuel : (length V ≤ fuel)%nat ∧ ∀ M, M ∈ V → (length (minors M) ≤ fuel)%nat) :
  prints (liballoc_dump flanterm_write putchar_code printk_buff_start frame fuel h) (summary h ++ concat (map major_lines V)) [].
Proof.
  destruct Hfuel as [Hf HV]. unfold liballoc_dump, summary. rewrite <- !app_assoc.
  do 6 (apply (prints_then _ _ _ _ _ _ _ _ []); [apply prints_info; words|]).
  rewrite (hr_root _ _ Hrep). eapply majors_printed; [exact (hr_list _ _ Hrep)| |done].
  intros M HM. split; [exact (hr_blocks _ _ Hrep M HM)|by apply HV].
Qed.
End dump.

(** ** Rounding *)

(** The sizes that are printed are exact to half of their unit and half of each
    smaller one. *)
Lemma rounded_units bytes : 0 ≤ bytes →
  Z.abs (BYTES_TO_KB bytes * 2 ^ 10 - bytes) ≤ 2 ^ 9 ∧ Z.abs (BYTES_TO_MB bytes * 2 ^ 20 - bytes) ≤ 2 ^ 19 + 2 ^ 9 ∧
  Z.abs (BYTES_TO_GB bytes * 2 ^ 30 - bytes) ≤ 2 ^ 29 + 2 ^ 19 + 2 ^ 9.
Proof.
  intros Hb. unfold BYTES_TO_GB, BYTES_TO_MB.
  assert (∀ x, Z.abs ((x / 1024 + (if 512 <=? x mod 1024 then 1 else 0)) * 1024 - x) ≤ 512) as Hr.
  { intros x. pose proof (Z.div_mod x 1024 ltac:(lia)). pose proof (Z.mod_pos_bound x 1024 ltac:(lia)). destruct (Z.leb_spec 512 (x mod 1024)); lia. }
  pose proof (Hr bytes) as H1. fold (BYTES_TO_KB bytes) in H1. set (k := BYTES_TO_KB bytes) in *.
  pose proof (Hr k) as H2. set (m := k / 1024 + _) in *. pose proof (Hr m) as H3. set (g := m / 1024 + _) in *. lia.
Qed.

(** *** Witness: the heap with one allocation of 100 bytes *)

Definition bump_blocks : list major := [Major 0x100000 16 [Minor 0x100028 132 100]].

Lemma bump_first_rep : heap_rep bump_blocks bump_first.
Proof.
  destruct bump_first_ok as (V & Hr & _). split.
  - exact (hr_src _ _ Hr).
  - intros M ->%list_elem_of_singleton. vm_compute. reflexivity.
  - apply NoDup_singleton.
  - intros M ->%list_elem_of_singleton. split; try (vm_compute; reflexivity).
    + vm_compute. repeat split; discriminate.
    + split; [vm_compute; reflexivity|]. split; [vm_compute; reflexivity|exact I].
    + intros x ->%list_elem_of_singleton. split; vm_compute; reflexivity.
    + vm_compute. repeat split; discriminate.
  - split; [vm_compute; reflexivity|]. split; [vm_compute; reflexivity|exact I].
  - vm_compute. reflexivity.
  - right. vm_compute. left.
  - vm_compute. reflexivity.
  - vm_compute. reflexivity.
Qed.

Lemma liballoc_dump_lists_witness :
  ∃ s', liballoc_dump demo_screen demo_putchar 0x10000000 0x20000000 5 bump_first quiet_printer = Ret tt s' ∧
    ∃ head, serial s' = head ++
      line_head 92 "INFO " ++ str "100000: total = 65536, used = 212" ++ NL ++ line_head 92 "INFO " ++ str "   100028: 132 bytes" ++ NL.
Proof.
  destruct (liballoc_dump_lists (E := demo_env) demo_screen demo_putchar 0x10000000 0x20000000 ∅ ltac:(reflexivity) ltac:(right; vm_compute; discriminate)
    bump_first bump_blocks 5 bump_first_rep) with (s := quiet_printer) (log := @nil Z) as ([] & s' & Hrun & Hs).
  - split; [apply Nat.leb_le; reflexivity|]. intros M ->%list_elem_of_singleton. apply Nat.leb_le. reflexivity.
  - split; [reflexivity|split; [reflexivity|intros i c Hi; discriminate]|reflexivity|left; reflexivity].
  - exists s'. split; [exact Hrun|]. exists (summary bump_first). rewrite (sd_serial _ _ _ _ _ _ _ _ _ _ Hs).
    change (serial quiet_printer) with (@nil Z). cbn [app]. apply (f_equal (app (summary bump_first))). vm_compute. reflexivity.
Defined.
