(* ===== verification/Config.v ===== *)
(** * Kernel configuration

    [GET_KERNEL_CONFIG_VALUE] of [post.c]: the loop over the lines of
    [/etc/user.conf] that looks for a key.  The theorem relates it to a
    function on lists of lines. *)

From stdpp Require Import base list strings.
From Stdlib Require Import ZArith Lia.
From S2P Require Import Prelude Ram CString.
#[local] Open Scope Z_scope.

(** [while (line)]: [nl], [needle] and [key] are the literals "\n", [key "="]
    and [key]; the result is [value], the memory and the static variable of
    [strtok]. *)
Fixpoint config_loop (rounds fuel : nat) (m : mem) (last line nl needle key : Z) : option (Z * mem * Z) :=
  match rounds with
  | O => None
  | S k =>
      if line =? 0 then Some (0, m, last) else
      temp ← strstr fuel m line needle;
      if negb (temp =? 0) then n ← strlen fuel m key; Some (temp + n + 1, m, last)
      else '(line, m, last) ← strtok fuel m last 0 nl; config_loop k fuel m last line nl needle key
  end.

Definition GET_KERNEL_CONFIG_VALUE (rounds fuel : nat) (m : mem) (last buff nl needle key : Z) : option (Z * mem * Z) :=
  '(line, m, last) ← strtok fuel m last buff nl;
  config_loop rounds fuel m last line nl needle key.

(** ** The specification *)

(** The first position of [nd] in [l]. *)
Fixpoint position (nd l : list Z) : option nat :=
  if bool_decide (nd `prefix_of` l) then Some O else
  match l with
  | [] => None
  | _ :: l => S <$> position nd l
  end.

(** What follows the first [nd]. *)
Definition after (nd l : list Z) : option (list Z) :=
  (λ i, drop (i + length nd) l) <$> position nd l.

Fixpoint config_value (nd : list Z) (lines : list (list Z)) : option (list Z) :=
  match lines with
  | [] => None
  | l :: lines => match after nd l with Some v => Some v | None => config_value nd lines end
  end.

Lemma prefix_here_ok fuel m h n l nd :
  cstr m h l → cstr m n nd → (length nd < fuel)%nat → prefix_here fuel m h n = Some (bool_decide (nd `prefix_of` l)).
Proof.
  revert fuel h n l. induction nd as [|c nd IH]; intros [|f] h n l Hl Hn Hf; simpl in Hf; try lia; cbn [prefix_here].
  - simpl in Hn. rewrite Hn, Z.eqb_refl. cbn [negb]. rewrite andb_false_r. cbn [andb].
    by rewrite bool_decide_eq_true_2 by apply prefix_nil.
  - destruct Hn as (Hc & Hc0 & Hn). rewrite Hc. destruct (Z.eqb_spec c 0) as [|_]; [done|]. cbn [negb].
    destruct l as [|d l].
    + simpl in Hl. rewrite Hl. cbn [Z.eqb negb andb]. rewrite bool_decide_eq_false_2; [done|]. apply prefix_nil_not.
    + destruct Hl as (Hd & Hd0 & Hl). rewrite Hd. destruct (Z.eqb_spec d 0) as [|_]; [done|]. cbn [negb andb].
      destruct (Z.eqb_spec d c) as [->|Hne].
      * rewrite (IH f _ _ l Hl Hn) by lia. f_equal. apply bool_decide_ext. split; [apply prefix_cons|apply prefix_cons_inv_2].
      * rewrite bool_decide_eq_false_2; [done|]. intros Hp. by apply prefix_cons_inv_1 in Hp.
Qed.

Lemma strstr_ok fuel m h n l nd :
  cstr m h l → cstr m n nd → nd ≠ [] → (length nd < fuel)%nat → (length l < fuel)%nat →
  strstr fuel m h n = Some (match position nd l with Some i => h + Z.of_nat i | None => 0 end).
Proof.
  intros Hl Hn Hne Hf Hfl. unfold strstr. rewrite (cstr_head _ _ _ Hn).
  assert (default 0 (head nd) ≠ 0) as Hnz.
  { destruct nd as [|c nd]; [done|]. by destruct Hn as (_ & Hc & _). }
  destruct (Z.eqb_spec (default 0 (head nd)) 0) as [|_]; [done|].
  assert (∀ k, (length l < k)%nat → strstr_loop k fuel m h n = Some (match position nd l with Some i => h + Z.of_nat i | None => 0 end)) as Hk;
    [|by apply Hk].
  intros k. revert k h Hl. clear Hfl. induction l as [|c l IH]; intros [|k] h Hl Hk; simpl in Hk; try lia; cbn [strstr_loop position].
  - simpl in Hl. rewrite Hl. cbn [Z.eqb]. rewrite bool_decide_eq_false_2; [done|]. intros ?%prefix_nil_inv. done.
  - pose proof Hl as (Hc & Hc0 & Hl'). rewrite Hc. destruct (Z.eqb_spec c 0) as [|_]; [done|].
    rewrite (prefix_here_ok fuel m h n (c :: l) nd Hl Hn Hf). cbn [mbind option_bind].
    case_bool_decide; [by rewrite Z.add_0_r|]. rewrite (IH k (h + 1) Hl') by lia.
    destruct (position nd l); [|done]. cbn [fmap option_fmap option_map]. f_equal. lia.
Qed.

Lemma position_bound nd l i : position nd l = Some i → (i + length nd ≤ length l)%nat.
Proof.
  revert i. induction l as [|c l IH]; intros i; cbn [position]; case_bool_decide as Hp.
  - intros [= <-]. by apply prefix_length in Hp.
  - done.
  - intros [= <-]. by apply prefix_length in Hp.
  - destruct (position nd l) as [j|]; [|done]. intros [= <-]. specialize (IH j eq_refl). simpl. lia.
Qed.

(** A value is no longer than the text it is found in. *)
Lemma tokens_length dl l cur t : t ∈ tokens_from dl l cur → (length t ≤ length l + length cur)%nat.
Proof.
  revert cur. induction l as [|c l IH]; intros cur; cbn [tokens_from].
  - destruct cur as [|x cur]; [by intros ?%not_elem_of_nil|]. intros ->%list_elem_of_singleton. rewrite length_reverse. simpl. lia.
  - case_decide.
    + destruct cur as [|x cur]; [intros Hin; apply IH in Hin; simpl in *; lia|].
      intros [->|Hin]%elem_of_cons; [rewrite length_reverse; simpl; lia|]. apply IH in Hin. simpl in *. lia.
    + intros Hin. apply IH in Hin. simpl in *. lia.
Qed.

Lemma config_value_length nd lines v : config_value nd lines = Some v → ∃ t, t ∈ lines ∧ (length v ≤ length t)%nat.
Proof.
  induction lines as [|t lines IH]; [done|]. cbn. destruct (after nd t) as [v'|] eqn:Ha.
  - intros [= <-]. exists t. split; [left|]. unfold after in Ha. destruct (position nd t) as [i|]; [|done]. injection Ha as <-. rewrite length_drop. lia.
  - intros (t' & Hin & Hl)%IH. exists t'. split; [by right|done].
Qed.

(** A block that the memory outside [q .. q + n] does not touch. *)
Definition clear_of (p : Z) (l : list Z) (q n : Z) : Prop := p + zlen l < q ∨ q + n < p.

Lemma cstr_clear m m' p l q n :
  cstr m p l → clear_of p l q n → (∀ a, a < q ∨ q + n < a → load8 m' a = load8 m a) → cstr m' p l.
Proof. intros Hl Hc Hm. apply (cstr_ext m); [|done]. intros a Ha. apply Hm. unfold clear_of in Hc. lia. Qed.

(** Looking for the key in the rest of the buffer, from a call of [strtok] on. *)
Lemma config_run rounds fuel m last0 str q nl dl needle nd key kl l :
  (if str =? 0 then last0 else str) = q → 0 < q → cstr m q l →
  cstr m nl dl → cstr m needle nd → cstr m key kl → nd = kl ++ [61] →
  clear_of nl dl q (zlen l) → clear_of needle nd q (zlen l) → clear_of key kl q (zlen l) →
  (length dl < fuel)%nat → (length nd < fuel)%nat → (length l < fuel)%nat → (length l < rounds)%nat →
  ∃ p m' last', (('(line, m, last) ← strtok fuel m last0 str nl; config_loop rounds fuel m last line nl needle key) : option _) = Some (p, m', last') ∧
    match config_value nd (tokens dl l) with
    | Some v => p ≠ 0 ∧ cstr m' p v
    | None => p = 0
    end ∧ ∀ a, a < q ∨ q + zlen l < a → load8 m' a = load8 m a.
Proof.
  intros Hq Hpos Hl Hd Hn Hk Hnd C1 C2 C3 F1 F2 F3 F4.
  revert m last0 str q l Hq Hpos Hl Hd Hn Hk C1 C2 C3 F3 F4. induction rounds as [|k IH]; intros m last0 str q l Hq Hpos Hl Hd Hn Hk C1 C2 C3 F3 F4; [lia|].
  destruct (split_prefix (λ c, c ∈ dl) l) as (pre & post & -> & Hpre & Hpost).
  destruct (split_prefix (λ c, c ∉ dl) post) as (tok & r & -> & Htok & Hr').
  destruct tok as [|t tok].
  { assert (r = []) as -> by (destruct r; [done|exfalso; simpl in *; tauto]). rewrite !app_nil_r in *.
    rewrite (strtok_none _ _ _ _ q _ dl pre) by (done || lia). exists 0, m, last0. split; [done|].
    by rewrite <- (app_nil_r pre), tokens_from_skip. }
  assert (match r with [] => True | c :: _ => c ∈ dl end) as Hrd by (destruct r; [done|by apply dec_stable]).
  rewrite !length_app in F3, F4. change (length (t :: tok)) with (S (length tok)) in F3, F4.
  destruct (strtok_token fuel m last0 str q nl dl pre (t :: tok) r) as (m1 & last1 & -> & Ht & Hlast & Hb1 & Hb2 & Hm); try done.
  { lia. } { rewrite length_app. simpl. lia. }
  rewrite tokens_cons by done. cbn [config_value]. set (w := t :: tok) in *.
  pose proof (zlen_nonneg pre). pose proof (zlen_nonneg w). pose proof (zlen_nonneg r). pose proof (zlen_nonneg (tail r)).
  rewrite !zlen_app in *.
  assert (∀ a, a < q ∨ q + (zlen pre + (zlen w + zlen r)) < a → load8 m1 a = load8 m a) as Hm1 by (intros a Ha; apply Hm; lia).
  pose proof (cstr_clear _ _ _ _ _ _ Hn C2 Hm1) as Hn1. pose proof (cstr_clear _ _ _ _ _ _ Hk C3 Hm1) as Hk1.
  pose proof (cstr_clear _ _ _ _ _ _ Hd C1 Hm1) as Hd1.
  cbn [mbind option_bind config_loop]. destruct (Z.eqb_spec (q + zlen pre) 0) as [|_]; [lia|].
  rewrite (strstr_ok fuel m1 _ needle w nd Ht Hn1) by (subst nd; (by destruct kl) || (unfold w; simpl in *; lia)).
  cbn [mbind option_bind]. unfold after. destruct (position nd w) as [i|] eqn:Hi; cbn [fmap option_fmap option_map].
  - destruct (Z.eqb_spec (q + zlen pre + Z.of_nat i) 0) as [|_]; [lia|]. cbn [negb].
    assert (length kl < fuel)%nat as F5 by (rewrite Hnd, length_app in F2; lia).
    rewrite (strlen_ok fuel m1 key kl Hk1 F5). cbn [mbind option_bind].
    eexists _, m1, last1. split; [reflexivity|]. split; [|done]. split; [pose proof (zlen_nonneg kl); lia|].
    pose proof (position_bound nd w i Hi) as Hib. rewrite Hnd, length_app in Hib. simpl in Hib.
    replace (q + zlen pre + Z.of_nat i + zlen kl + 1) with (q + zlen pre + zlen (take (i + length nd) w)).
    + apply cstr_app. by rewrite take_drop.
    + unfold zlen. rewrite length_take, Hnd, length_app. simpl. lia.
  - cbn [Z.eqb negb].
    assert (∀ p x, clear_of p x q (zlen pre + (zlen w + zlen r)) → clear_of p x last1 (zlen (tail r))) as Hclear
      by (unfold clear_of; intros; lia).
    assert (length (tail r) < k)%nat as F6 by (destruct r; simpl in *; lia).
    destruct (IH m1 last1 0 last1 (tail r) eq_refl ltac:(lia) Hlast Hd1 Hn1 Hk1 (Hclear _ _ C1) (Hclear _ _ C2) (Hclear _ _ C3))
      as (p & m' & last' & Hrun & Hv & Hm'); [destruct r; simpl in *; lia|exact F6|].
    exists p, m', last'. split; [exact Hrun|]. split; [exact Hv|]. intros a Ha. rewrite Hm' by lia. apply Hm1. lia.
Qed.

(** The value of a key in the configuration file.  In a buffer with the text
    [l], [GET_KERNEL_CONFIG_VALUE(buff, key)] ends and returns the text that
    follows the first [key=] of the first line that contains one, up to the end
    of that line, or NULL when no line contains [key=]; memory outside of the
    buffer is unchanged.  The key may start anywhere in the line: after the
    text of another key, or of a comment. *)
Theorem config_value_spec rounds fuel m last0 buff nl dl needle key kl l
    (Hpos : 0 < buff) (Hl : cstr m buff l)
    (Hnl : cstr m nl dl ∧ clear_of nl dl buff (zlen l))
    (Hneedle : cstr m needle (kl ++ [61]) ∧ clear_of needle (kl ++ [61]) buff (zlen l))
    (Hkey : cstr m key kl ∧ clear_of key kl buff (zlen l))
    (Hfuel : (length dl < fuel ∧ length kl + 1 < fuel ∧ length l < fuel ∧ length l < rounds)%nat) :
  ∃ p m' last', GET_KERNEL_CONFIG_VALUE rounds fuel m last0 buff nl needle key = Some (p, m', last') ∧
    match config_value (kl ++ [61]) (tokens dl l) with
    | Some v => p ≠ 0 ∧ cstr m' p v
    | None => p = 0
    end ∧ ∀ a, a < buff ∨ buff + zlen l < a → load8 m' a = load8 m a.
Proof.
  destruct Hnl, Hneedle, Hkey, Hfuel as (? & ? & ? & ?). unfold GET_KERNEL_CONFIG_VALUE.
  eapply (config_run rounds fuel m last0 buff buff nl dl needle (kl ++ [61]) key kl l); try done.
  - destruct (Z.eqb_spec buff 0); [lia|done].
  - rewrite length_app. simpl. lia.
Qed.

(** ** The file of the initial file system *)

Definition literals : mem := store_bytes (store_bytes (store_bytes ∅ 32 (str "init")) 16 (str "init=")) 9 [10].

Definition conf_text (a b : string) : list Z := str a ++ [10] ++ str b ++ [10].

Lemma config_value_spec_witness : ∃ p m' last',
  GET_KERNEL_CONFIG_VALUE 99 99 (store_bytes literals 100 (conf_text "quiet=1" "init=/bin/sh")) 0 100 9 16 32 = Some (p, m', last') ∧
  cstr m' p (str "/bin/sh").
Proof.
  destruct (config_value_spec 99 99 (store_bytes literals 100 (conf_text "quiet=1" "init=/bin/sh")) 0 100 9 [10] 16 32 (str "init")
    (conf_text "quiet=1" "init=/bin/sh")) as (p & m' & last' & Hrun & Hv & _).
  - lia.
  - vm_compute. repeat split; congruence.
  - split; [vm_compute; repeat split; congruence|left; vm_compute; reflexivity].
  - split; [vm_compute; repeat split; congruence|left; vm_compute; reflexivity].
  - split; [vm_compute; repeat split; congruence|left; vm_compute; reflexivity].
  - vm_compute. lia.
  - exists p, m', last'. split; [exact Hrun|]. exact (proj2 Hv).
Defined.

(** A key that ends in "init" is taken for it. *)
Lemma config_value_inside : config_value (str "init=") (tokens [10] (conf_text "noinit=/bin/rescue" "init=/bin/sh")) = Some (str "/bin/rescue").
Proof. vm_compute. reflexivity. Qed.
