(* ===== verification/VfsMacros.v ===== *)
(** * The file macros of [dev/vfs.h]

    [VFS_ROOT], [VFS_GET], [VFS_EXISTS], [FILENAME_FROM_PATH], [VFS_CREATE],
    [VFS_READ], [VFS_WRITE] and [VFS_PRINT_VNODE]: the way the rest of the
    kernel uses files by name.  They assert and print, so they run on the state
    of [Printf]: the files, and the memory the buffers are in.

    The theorems: what [FILENAME_FROM_PATH] takes for the name; [VFS_READ] gives
    the whole file as a string; a missing file halts the machine. *)

From stdpp Require Import base gmap list strings.
From Stdlib Require Import ZArith Lia.
From S2P Require Import Prelude Ram CString Format Rtc Vnode Vfs Ramfs Devfs Printf Log.
#[local] Open Scope Z_scope.

(** The index of the last slash: [strrchr(path, '/') - path]. *)
Fixpoint last_slash (l : list Z) : option nat :=
  match l with
  | [] => None
  | c :: l =>
      match last_slash l with
      | Some i => Some (S i)
      | None => if c =? SLASH then Some O else None
      end
  end.

(** [FILENAME_FROM_PATH(path)] *)
Definition FILENAME_FROM_PATH (path : list Z) : list Z :=
  match last_slash path with
  | None => path
  | Some i =>
      match drop (S i) path with
      | [] => match i with O => ROOT_NAME | S j => drop j path end
      | rest => rest
      end
  end.
Definition VFS_GET_LAST_IN_PATH : list Z → list Z := FILENAME_FROM_PATH.

Section macros.
Context {E T : Type} `{KernelEnv E}.
Context (ops_table : Z → option (vnode_ops E)).
Context (flanterm_write : Z → list Z → T → T) (putchar_code : Z → Z → T → T).
Context (printk_buff_start frame : Z) (fuel : nat).
Abbreviation P := (kernel (printer E T)).
Abbreviation assert := (assert ops_table flanterm_write putchar_code printk_buff_start frame).
Abbreviation printf := (printf ops_table frame).

(** [root_mount->root], and the mount it belongs to. *)
Definition VFS_ROOT : P Z :=
  on_fs (let* rm := kget root_mount in let* m := get_mount rm in kret (m_root m)).
Definition VFS_ROOT_mount : P Z :=
  let* root := VFS_ROOT in on_fs (let* v := get_vnode root in kret (v_mount v)).

Definition VFS_GET (path : list Z) : P Z :=
  on_fs (let* rm := kget root_mount in vfs_lazy_lookup fuel fuel rm (Some path)).
Definition VFS_EXISTS (path : list Z) : P bool :=
  let* p := VFS_GET path in kret (negb (p =? 0)).

Definition VFS_CREATE (file : list Z) (line : Z) (path : list Z) (type : Z) : P Z :=
  let* mount := VFS_ROOT_mount in
  let* par := on_fs (vfs_lazy_lookup_last fuel mount (Some path)) in
  assert (negb (par =? 0)) (str "parent") file line ;;;
  on_fs (vfs_create_vnode ops_table par (Some (VFS_GET_LAST_IN_PATH path)) type).

(** The result is the buffer; [buf[node->size] = 0] faults when there is none. *)
Definition VFS_READ (file : list Z) (line : Z) (path : list Z) : P Z :=
  let* node := VFS_GET path in
  assert (negb (node =? 0)) (str "node") file line ;;;
  let* v := on_fs (get_vnode node) in
  let* buf := on_fs (kmalloc (u64 (vsize v + 1))) in
  if buf =? 0 then kfault else
  kmod (λ s, set_pram (store8 (pram s) (buf + vsize v) 0) s) ;;;
  let* r := on_fs (vfs_read ops_table node buf (vsize v) 0) in
  kmod (λ s, set_pram (store_bytes (pram s) buf (snd r)) s) ;;;
  kret buf.

Definition VFS_WRITE (file : list Z) (line : Z) (path : list Z) (buf : option (list Z)) (size : Z) : P Z :=
  let* node := VFS_GET path in
  assert (negb (node =? 0)) (str "node") file line ;;;
  on_fs (vfs_write ops_table node buf size 0).

(** [perms], from the owner's read bit to the others' execute bit *)
Definition perm (mode bit c : Z) : Z := if has mode bit then c else 45.
Definition perms (mode : Z) : list Z :=
  [perm mode VNODE_MODE_RUSR 114; perm mode VNODE_MODE_WUSR 119; perm mode VNODE_MODE_XUSR 120;
   perm mode VNODE_MODE_RGRP 114; perm mode VNODE_MODE_WGRP 119; perm mode VNODE_MODE_XGRP 120;
   perm mode VNODE_MODE_ROTH 114; perm mode VNODE_MODE_WOTH 119; perm mode VNODE_MODE_XOTH 120].

(** The text without the NUL that ends it. *)
Definition timestamp_text (years : nat) (timestamp : Z) : P (list Z) :=
  let* b := kopt (TIMESTAMP_TO_STRING years timestamp 0) in kret (take 19 b).

Definition strptr_text (p : strptr) : P (list Z) := on_fs (get_str p).

Definition VFS_PRINT_VNODE (node : Z) : P unit :=
  let* v := on_fs (get_vnode node) in
  let* path := strptr_text (vfs_get_full_path node) in
  let* created := timestamp_text fuel (creation_time v) in
  printf (str "path=%-38s size=%-5llu type=%-4s flags=%s uid=%d gid=%d perms=%s created=%s" ++ NL)
    [VString path; VWord (vsize v); VString (vfs_type_to_str (vtype v));
     VString (if has (flags v) VNODE_FLAG_MOUNTPOINT then str "(M)" else str "(-)");
     VWord (uid v); VWord (gid v); VString (perms (mode v)); VString created] ;;;
  kret tt.
End macros.

(** ** Names *)

Lemma last_slash_none nm : SLASH ∉ nm → last_slash nm = None.
Proof.
  induction nm as [|c nm IH]; [done|]. intros [Hc Hn]%not_elem_of_cons. cbn [last_slash]. rewrite IH by done.
  by rewrite (proj2 (Z.eqb_neq c SLASH)).
Qed.

Lemma last_slash_app dir nm : SLASH ∉ nm → last_slash (dir ++ SLASH :: nm) = Some (length dir).
Proof.
  intros Hn. induction dir as [|c dir IH]; cbn [app last_slash length]; [by rewrite last_slash_none, Z.eqb_refl|by rewrite IH].
Qed.

(** The name in a path.  [FILENAME_FROM_PATH] of a path with a slash returns
    what follows the last one, if anything does; of the path "/" the slash; and
    of any other path that ends in a slash the character before the slash with
    the slash, not the last component.  A path without a slash is its own
    name. *)
Theorem filename_spec dir nm (Hn : SLASH ∉ nm) :
  FILENAME_FROM_PATH nm = nm ∧
  FILENAME_FROM_PATH (dir ++ SLASH :: nm) =
    match nm, last dir with
    | [], None => [SLASH]
    | [], Some c => [c; SLASH]
    | _, _ => nm
    end.
Proof.
  unfold FILENAME_FROM_PATH. rewrite last_slash_none, last_slash_app by done. split; [done|].
  replace (drop (S (length dir)) (dir ++ SLASH :: nm)) with nm.
  2:{ replace (S (length dir)) with (length dir + 1)%nat by lia. by rewrite <- drop_drop, drop_app_length. }
  destruct nm as [|c nm]; [|by destruct (last dir)].
  destruct dir as [|c dir _] using rev_ind; [done|]. rewrite last_snoc, length_app. replace (length dir + length [c])%nat with (S (length dir)) by (simpl; lia).
  by rewrite <- app_assoc, drop_app_length.
Qed.

Lemma filename_spec_witness : FILENAME_FROM_PATH (str "/bin/init") = str "init" ∧ FILENAME_FROM_PATH (str "/var/log/") = str "g/".
Proof.
  split.
  - destruct (filename_spec (str "/bin") (str "init")) as [_ Hf]; [vm_compute; intros Hin; repeat (apply elem_of_cons in Hin as [? | Hin]; [discriminate|]); by apply elem_of_nil in Hin|exact Hf].
  - destruct (filename_spec (str "/var/log") []) as [_ Hf]; [exact (not_elem_of_nil _)|exact Hf].
Defined.

(** ** Reading a file by name *)

Section reading.
Context {E T : Type} `{KernelEnvLaws E} (junk : Z) (fuel : nat).
Context (flanterm_write : Z → list Z → T → T) (putchar_code : Z → Z → T → T) (printk_buff_start frame : Z).
Implicit Types s : printer E T.
Abbreviation VFS_READ := (VFS_READ (kernel_ops junk fuel) flanterm_write putchar_code printk_buff_start frame fuel).

(** The mounted trees, with budget for their directories and for the path. *)
Record mounted (f : fs E) (t : view) (roots : list Z) : Prop := {
  mt_tree : tree_ok (heap f) t;
  mt_mounts : mounts_from (heap f) (root_mount f) roots;
  mt_roots : Forall (λ r, r ∈ dom t) roots;
  mt_fuel : (length roots ≤ fuel)%nat;
  mt_dirs : ∀ p ty l, t !! p = Some (ty, l) → (length l ≤ fuel)%nat;
}.

Lemma set_pfs_id s : set_pfs (pfs s) s = s.
Proof. by destruct s. Qed.

(** A routine that only looks. *)
Lemma on_fs_same {A} (c : kernel (fs E) A) s a : c (pfs s) = Ret a (pfs s) → on_fs c s = Ret a s.
Proof. intros Hc. by rewrite (on_fs_run _ _ _ _ Hc), set_pfs_id. Qed.

Lemma VFS_GET_run s t roots names :
  mounted (pfs s) t roots → Forall component names → (length names ≤ fuel)%nat →
  VFS_GET fuel (path_of names) s = Ret (resolve_mounts t roots names) s.
Proof.
  intros [] Hc Hl. apply on_fs_same. rewrite (kbind_run (kget _) _ _ _ _ eq_refl).
  by apply lazy_lookup_run.
Qed.

(** [VFS_READ] of a file: an allocation, and the bytes in it. *)
Lemma read_string_run file line s t roots names p bytes
    (Hmounted : mounted (pfs s) t roots) (Hnames : Forall component names ∧ (length names ≤ fuel)%nat)
    (Hpath : resolve_mounts t roots names = p) (Hfile : free_file (pfs s) p bytes)
    (Hok : heap_ok (pfs s)) (Hroom : room (zlen bytes + 1) 1 (env (pfs s)))
    (Hbytes : Forall (λ c, 0 < c < 256) bytes) (Hlen : zlen bytes < 2 ^ 31 - 1) :
  ∃ buf e' m, VFS_READ file line (path_of names) s = Ret buf (set_pram m (set_pfs (set_env e' (pfs s)) s)) ∧
    env_malloc (env (pfs s)) (zlen bytes + 1) = (buf, e') ∧ buf ≠ 0 ∧ (buf ∉ env_live (env (pfs s))) ∧ cstr m buf bytes ∧
    ∀ a, a < buf ∨ buf + zlen bytes < a → load8 m a = load8 (pram s) a.
Proof.
  destruct Hnames as [Hn Hl]. unfold VFS_READ. rewrite (kbind_run _ _ _ _ _ (VFS_GET_run s t roots names Hmounted Hn Hl)), Hpath.
  destruct (free_file_size _ _ _ Hfile) as (v & Hv & Hsz). pose proof Hfile as [(Hp0 & _) _].
  unfold assert. rewrite (proj2 (Z.eqb_neq p 0)) by done. cbn [negb]. rewrite kbind_ret.
  rewrite (kbind_run _ _ _ _ _ (on_fs_same _ s _ (get_vnode_run _ _ _ Hv))).
  assert (vsize v = zlen bytes) as Hsz' by exact Hsz. pose proof (zlen_nonneg bytes). rewrite Hsz', u64_small by lia.
  destruct (kmalloc_run (pfs s) (zlen bytes + 1) (zlen bytes + 1) 0 Hok Hroom) as (buf & e' & Hm & Hb0 & Hbn & _ & _ & _ & Hfr); [lia|lia|].
  rewrite (kbind_run _ _ _ _ _ (on_fs_run _ s _ _ Hm)), (proj2 (Z.eqb_neq buf 0)) by done.
  rewrite (kbind_run (kmod _) _ _ tt _ eq_refl).
  assert (free_file (set_env e' (pfs s)) p bytes) as Hfile' by exact Hfile.
  pose proof (vfs_read_run junk (kernel_ops junk fuel) fuel eq_refl (set_env e' (pfs s)) p bytes buf (zlen bytes) Hfile' Hb0 ltac:(lia) ltac:(unfold zlen in *; lia)) as Hr.
  cbv zeta in Hr. unfold zlen in Hr at 2 3. rewrite Nat2Z.id, firstn_all in Hr.
  match goal with |- context [kbind (on_fs (vfs_read ?o ?q ?b ?n ?off)) _ ?x] => set (s1 := x) end.
  rewrite (kbind_run _ _ s1 _ _ (on_fs_run _ s1 _ _ Hr)), (kbind_run (kmod _) _ _ tt _ eq_refl).
  eexists buf, e', _. split; [reflexivity|]. split; [exact (kmalloc_env _ _ _ _ Hm)|]. split; [done|]. split; [done|].
  assert (∀ a, load8 (store_bytes (store8 (pram s) (buf + zlen bytes) 0) buf bytes) a =
    if decide (buf ≤ a < buf + zlen bytes) then default 0 (bytes !! Z.to_nat (a - buf)) mod 256
    else if decide (a = buf + zlen bytes) then 0 else load8 (pram s) a) as Hmem.
  { intros a. rewrite load8_store_bytes. unfold zlen. destruct (decide (_ ≤ a < _)); [done|].
    destruct (decide (a = _)) as [->|]; [apply load8_store8_eq|by apply load8_store8_ne]. }
  split.
  - unfold s1. cbn [pram set_pram set_pfs snd]. apply cstr_intro.
    + eapply Forall_impl; [exact Hbytes|]. cbn. lia.
    + intros i c Hi. rewrite Hmem. pose proof (lookup_lt_Some _ _ _ Hi). rewrite decide_True by (unfold zlen; lia).
      replace (Z.to_nat (buf + Z.of_nat i - buf)) with i by lia. rewrite Hi. cbn.
      apply (Forall_lookup_1 _ _ _ _ Hbytes) in Hi. apply Z.mod_small. lia.
    + rewrite Hmem, decide_False by lia. by rewrite decide_True.
  - intros a Ha. unfold s1. cbn [pram set_pram set_pfs snd]. rewrite Hmem, !decide_False by lia. done.
Qed.

(** Reading a file by name.  Where a path leads to a file of the RAM file
    system without NUL bytes, with memory for its bytes and one more,
    [VFS_READ(path)] returns a new buffer that holds the whole file as a
    string; the file, the tree and the rest of memory are unchanged. *)
Theorem vfs_read_string file line s t roots names p bytes
    (Hmounted : mounted (pfs s) t roots) (Hnames : Forall component names ∧ (length names ≤ fuel)%nat)
    (Hpath : resolve_mounts t roots names = p) (Hfile : free_file (pfs s) p bytes)
    (Hok : heap_ok (pfs s)) (Hroom : room (zlen bytes + 1) 1 (env (pfs s)))
    (Hbytes : Forall (λ c, 0 < c < 256) bytes) (Hlen : zlen bytes < 2 ^ 31 - 1) :
  ∃ buf s', VFS_READ file line (path_of names) s = Ret buf s' ∧ buf ≠ 0 ∧ cstr (pram s') buf bytes ∧
    heap (pfs s') = heap (pfs s) ∧ (buf ∉ env_live (env (pfs s))) ∧
    ∀ a, a < buf ∨ buf + zlen bytes < a → load8 (pram s') a = load8 (pram s) a.
Proof.
  destruct (read_string_run file line s t roots names p bytes Hmounted Hnames Hpath Hfile Hok Hroom Hbytes Hlen)
    as (buf & e' & m & Hrun & _ & Hb & Hfr & Hstr & Hm).
  by exists buf, (set_pram m (set_pfs (set_env e' (pfs s)) s)).
Qed.

(** The assertion on the way. *)
Lemma read_missing_run (m0 : mem) file line s log t roots names
    (Hframe : 0 < frame) (Hoff : off_ring printk_buff_start frame 1024)
    (Hmounted : mounted (pfs s) t roots) (Hnames : Forall component names ∧ (length names ≤ fuel)%nat)
    (Hpath : resolve_mounts t roots names = 0) (Hline : zlen file ≤ 65536)
    (Hcalm : calm printk_buff_start frame m0 s log) :
  ∃ out s', npf_vpprintf ASSERT_FORMAT [VString (str "node"); VString file; VWord line] = Some out ∧
    VFS_READ file line (path_of names) s = Halt s' ∧
    serial s' = serial s ++ line_head 91 "ERROR" ++ fitting out ++ NL.
Proof.
  destruct Hnames as [Hn Hl]. unfold VFS_READ. rewrite (kbind_run _ _ _ _ _ (VFS_GET_run s t roots names Hmounted Hn Hl)), Hpath.
  destruct (assert_fails junk fuel flanterm_write putchar_code printk_buff_start frame m0 Hframe Hoff (str "node") file line s log)
    as (out & s' & Hout & Hrun & Hsaid); [vm_compute; congruence|done|done|].
  exists out, s'. split; [done|]. split; [|exact (sd_serial _ _ _ _ _ _ _ _ _ _ Hsaid)].
  change (negb (0 =? 0)) with false. unfold kbind at 1. by rewrite Hrun.
Qed.

(** A missing file.  Where a path leads nowhere, [VFS_READ(path)] does not
    return NULL: its assertion prints the file and the line and halts the
    machine. *)
Theorem vfs_read_missing (m0 : mem) file line s log t roots names
    (Hframe : 0 < frame) (Hoff : off_ring printk_buff_start frame 1024)
    (Hmounted : mounted (pfs s) t roots) (Hnames : Forall component names ∧ (length names ≤ fuel)%nat)
    (Hpath : resolve_mounts t roots names = 0) (Hline : zlen file ≤ 65536)
    (Hcalm : calm printk_buff_start frame m0 s log) :
  ∃ out s', npf_vpprintf ASSERT_FORMAT [VString (str "node"); VString file; VWord line] = Some out ∧
    VFS_READ file line (path_of names) s = Halt s' ∧
    serial s' = serial s ++ line_head 91 "ERROR" ++ fitting out ++ NL.
Proof. by eapply read_missing_run. Qed.
End reading.

(** *** The file [/a], and no [/b] *)

Definition one_file_printer : printer demo_env (list Z) := Printer one_file ∅ 0 false [] [] 0 0.

Lemma one_file_mounted : mounted 5 one_file one_file_view [2].
Proof.
  split; [exact one_file_tree| | | |].
  - split; [discriminate|]. split; [discriminate|]. eexists. split; [reflexivity|]. by split.
  - repeat constructor.
  - simpl. lia.
  - intros p ty l Hp. unfold one_file_view in Hp. view_cases Hp; simpl; lia.
Qed.

Lemma one_component c : c ≠ SLASH → c ≠ 0 → Forall component [[c]] ∧ (length [[c]] ≤ 5)%nat.
Proof. intros. split; [|simpl; lia]. repeat constructor; simpl; auto; lia. Qed.

Lemma vfs_read_string_witness :
  ∃ buf s', VFS_READ (kernel_ops 77 5) demo_screen demo_putchar 0x100000 0x2000 5 (str "post.c") 56 (str "/a") one_file_printer = Ret buf s' ∧
    cstr (pram s') buf [10; 20; 30].
Proof.
  destruct (vfs_read_string 77 5 demo_screen demo_putchar 0x100000 0x2000 (str "post.c") 56 one_file_printer one_file_view [2] [[97]] 3 [10; 20; 30])
    as (buf & s' & Hrun & _ & Hstr & _).
  - exact one_file_mounted.
  - apply one_component; discriminate.
  - reflexivity.
  - split; [exact one_file_holds|]. eexists. split; [reflexivity|]. split; reflexivity.
  - exact one_file_ok.
  - apply demo_room. simpl. lia.
  - repeat constructor.
  - vm_compute. reflexivity.
  - exists buf, s'. exact (conj Hrun Hstr).
Defined.

Lemma vfs_read_missing_witness :
  ∃ s', VFS_READ (kernel_ops 77 5) demo_screen demo_putchar 0x100000 0x2000 5 (str "post.c") 56 (str "/b") one_file_printer = Halt s'.
Proof.
  destruct (vfs_read_missing 77 5 demo_screen demo_putchar 0x100000 0x2000 ∅ (str "post.c") 56 one_file_printer [] one_file_view [2] [[98]])
    as (out & s' & _ & Hrun & _).
  - lia.
  - left. vm_compute. congruence.
  - exact one_file_mounted.
  - apply one_component; discriminate.
  - reflexivity.
  - vm_compute. congruence.
  - split; [reflexivity|split; [reflexivity|intros i c Hi; discriminate]|reflexivity|by left].
  - exists s'. exact Hrun.
Defined.
