(* ===== verification/Keyboard.v ===== *)
(** * The PS/2 controller and the keyboard

    [dev/input/ps2.c] and [dev/input/keyboard.c], on the machine of
    [Interrupts].  The controller is a device: [Ps2Laws] says what its manual
    says, that a write may be made while the input buffer is empty, that the
    replies come in order, and that after a bounded number of readings the
    status shows them.

    [startup_lines] joins this with the other two files: once the machine has
    started, an interrupt line that is open has a handler. *)

From stdpp Require Import base gmap list.
From Stdlib Require Import ZArith Lia.
From S2P Require Import Prelude PortIO Interrupts Vnode Devfs.
#[local] Open Scope Z_scope.

Definition PS2_IO_DATA : Z := 0x60.
Definition PS2_IO_STATUS : Z := 0x64.
Definition PS2_IO_COMMAND : Z := PS2_IO_STATUS.
Definition PS2_STATUS_OUTPUT_FULL : Z := Z.shiftl 1 0.
Definition PS2_STATUS_INPUT_FULL : Z := Z.shiftl 1 1.
Definition PS2_CMD_READ_CONFIG : Z := 0x20.
Definition PS2_CMD_WRITE_CONFIG : Z := 0x60.
Definition PS2_CMD_DISABLE_SECOND_PORT : Z := 0xA7.
Definition PS2_CMD_ENABLE_SECOND_PORT : Z := 0xA8.
Definition PS2_CMD_TEST_CONTROLLER : Z := 0xAA.
Definition PS2_CMD_DISABLE_FIRST_PORT : Z := 0xAD.
Definition PS2_CMD_ENABLE_FIRST_PORT : Z := 0xAE.
Definition PS2_CONFIG_FIRST_PORT_INT : Z := Z.shiftl 1 0.
Definition PS2_CONFIG_SECOND_PORT_INT : Z := Z.shiftl 1 1.
Definition PS2_CONFIG_FIRST_PORT_CLK : Z := Z.shiftl 1 4.
Definition PS2_CONFIG_SECOND_PORT_CLK : Z := Z.shiftl 1 5.
Definition KBD_CMD_ENABLE_SCANNING : Z := 0xF4.
Definition KBD_CMD_RESET : Z := 0xFF.
Definition KBD_ACK : Z := 0xFA.

Section keyboard.
Context {D : Type} `{PortIO D}.
Abbreviation K := (kernel (machine D)).

(** [while (inb(PS2_IO_STATUS) & PS2_STATUS_INPUT_FULL);] *)
Fixpoint wait_for_write (fuel : nat) : K unit :=
  let* v := io (kinb PS2_IO_STATUS) in
  if Z.land v PS2_STATUS_INPUT_FULL =? 0 then kret tt else
  match fuel with O => knofuel | S f => wait_for_write f end.

(** [while (!(inb(PS2_IO_STATUS) & PS2_STATUS_OUTPUT_FULL));] *)
Fixpoint wait_for_read (fuel : nat) : K unit :=
  let* v := io (kinb PS2_IO_STATUS) in
  if negb (Z.land v PS2_STATUS_OUTPUT_FULL =? 0) then kret tt else
  match fuel with O => knofuel | S f => wait_for_read f end.

(** [while (inb(PS2_IO_STATUS) & PS2_STATUS_OUTPUT_FULL) inb(PS2_IO_DATA);] *)
Fixpoint flush_output (fuel : nat) : K unit :=
  let* v := io (kinb PS2_IO_STATUS) in
  if Z.land v PS2_STATUS_OUTPUT_FULL =? 0 then kret tt else
  io (kinb PS2_IO_DATA) ;;;
  match fuel with O => knofuel | S f => flush_output f end.

(** [wait_for_write(); outb(port, v);] *)
Definition send (fuel : nat) (port v : Z) : K unit :=
  wait_for_write fuel ;;; io (koutb port v).
(** [wait_for_read(); inb(PS2_IO_DATA)] *)
Definition receive (fuel : nat) : K Z :=
  wait_for_read fuel ;;; io (kinb PS2_IO_DATA).

Definition ps2_init (fuel : nat) : K unit :=
  send fuel PS2_IO_COMMAND PS2_CMD_DISABLE_FIRST_PORT ;;;
  send fuel PS2_IO_COMMAND PS2_CMD_DISABLE_SECOND_PORT ;;;
  flush_output fuel ;;;
  send fuel PS2_IO_COMMAND PS2_CMD_TEST_CONTROLLER ;;;
  let* test_result := receive fuel in
  if negb (test_result =? 0x55) then kret tt else
  send fuel PS2_IO_COMMAND PS2_CMD_ENABLE_SECOND_PORT ;;;
  send fuel PS2_IO_COMMAND PS2_CMD_READ_CONFIG ;;;
  let* conf := receive fuel in
  let has_second_port := Z.land conf PS2_CONFIG_SECOND_PORT_CLK =? 0 in
  (if negb has_second_port then send fuel PS2_IO_COMMAND PS2_CMD_DISABLE_SECOND_PORT else kret tt) ;;;
  let conf := u8 (Z.land conf (Z.lnot (Z.lor PS2_CONFIG_FIRST_PORT_CLK PS2_CONFIG_SECOND_PORT_CLK))) in
  let conf := Z.lor conf PS2_CONFIG_FIRST_PORT_INT in
  let conf := if has_second_port then Z.lor conf PS2_CONFIG_SECOND_PORT_INT else conf in
  send fuel PS2_IO_COMMAND PS2_CMD_WRITE_CONFIG ;;;
  send fuel PS2_IO_DATA conf ;;;
  send fuel PS2_IO_COMMAND PS2_CMD_ENABLE_FIRST_PORT ;;;
  if has_second_port then send fuel PS2_IO_COMMAND PS2_CMD_ENABLE_SECOND_PORT else kret tt.

Definition kbd_send_command (fuel : nat) (command : Z) : K unit := send fuel PS2_IO_DATA command.
Definition kbd_read_scancode (fuel : nat) : K Z := receive fuel.

(** [kbd_handler], the code behind the handler of that name. *)
Definition kbd_handler_code (fuel : nat) : K unit :=
  let* scancode := kbd_read_scancode fuel in
  (if scancode =? KBD_ACK then kmod (set_scancode 0 0) else kmod (set_scancode scancode 1)) ;;;
  pic_eoi 1.

Definition kbd_init (fuel : nat) : K unit :=
  send fuel PS2_IO_COMMAND PS2_CMD_ENABLE_FIRST_PORT ;;;
  kbd_send_command fuel KBD_CMD_RESET ;;;
  let* response := kbd_read_scancode fuel in
  kbd_send_command fuel KBD_CMD_ENABLE_SCANNING ;;;
  idt_register_handler (IDT_IRQ_BASE + 1) kbd_handler ;;;
  pic_unmask 1.

(** The result, and the bytes stored at [out]. *)
Definition kbd_read (size : Z) : K (Z * list Z) :=
  let* has := kget has_scancode in
  if negb (has =? 0) then
    if 1 <=? size then
      let* last := kget last_scancode in
      kmod (set_scancode last 0) ;;;
      kret (1, [last])
    else kret (1, [])
  else kret (-1, []).

Definition kbd_write : K Z := kret (-1).
End keyboard.

(** The addresses of [kbd_read] and [kbd_write]. *)
Definition KBD_READ : Z := 18.
Definition KBD_WRITE : Z := 19.

Definition kbd_register_fs {E} `{KernelEnv E} (ops_table : Z → option (vnode_ops E)) (fuel : nat) (name : option (list Z)) :
    kernel (fs E) unit :=
  devfs_add_dev ops_table fuel name KBD_READ KBD_WRITE ;;; kret tt.

(** ** The controller *)

(** The replies still to be read, the configuration byte, whether there is a
    second port, the result of the self-test, and whether the next byte written
    to the data port is a configuration. *)
Record ps2 := Ps2 { replies : list Z; config : Z; second : bool; selftest : Z; expects : bool }.

Definition ps2_command (v : Z) (x : ps2) : ps2 :=
  if v =? PS2_CMD_DISABLE_FIRST_PORT then Ps2 (replies x) (Z.lor (config x) 0x10) (second x) (selftest x) (expects x) else
  if v =? PS2_CMD_ENABLE_FIRST_PORT then Ps2 (replies x) (Z.land (config x) (Z.lnot 0x10)) (second x) (selftest x) (expects x) else
  if v =? PS2_CMD_DISABLE_SECOND_PORT then Ps2 (replies x) (Z.lor (config x) 0x20) (second x) (selftest x) (expects x) else
  if v =? PS2_CMD_ENABLE_SECOND_PORT then
    Ps2 (replies x) (if second x then Z.land (config x) (Z.lnot 0x20) else config x) (second x) (selftest x) (expects x) else
  if v =? PS2_CMD_TEST_CONTROLLER then Ps2 (replies x ++ [selftest x]) (config x) (second x) (selftest x) (expects x) else
  if v =? PS2_CMD_READ_CONFIG then Ps2 (replies x ++ [config x]) (config x) (second x) (selftest x) (expects x) else
  if v =? PS2_CMD_WRITE_CONFIG then Ps2 (replies x) (config x) (second x) (selftest x) true else x.

(** A keyboard answers a reset with an acknowledgement and, once it has tested
    itself, 0xAA; the command to send scan codes with an acknowledgement. *)
Definition ps2_byte (v : Z) (x : ps2) : ps2 :=
  if expects x then Ps2 (replies x) v (second x) (selftest x) false else
  if v =? KBD_CMD_RESET then Ps2 (replies x ++ [KBD_ACK; 0xAA]) (config x) (second x) (selftest x) false else
  if v =? KBD_CMD_ENABLE_SCANNING then Ps2 (replies x ++ [KBD_ACK]) (config x) (second x) (selftest x) false else x.

Class Ps2Laws (D : Type) `{PortIO D} := {
  ps2_of : D → ps2;
  (** what the last reading of the status showed *)
  ps2_free : D → bool;
  ps2_ready : D → bool;
  (** readings until the status is settled, and their bound *)
  ps2_lag : D → nat;
  ps2_bound : nat;
  ps2_lag_bound d : (ps2_lag d ≤ ps2_bound)%nat;
  ps2_status d : ∃ v d', inb d PS2_IO_STATUS = (v, d') ∧ ps2_of d' = ps2_of d ∧ ps2_lag d' = Nat.pred (ps2_lag d) ∧
    ps2_free d' = (Z.land v PS2_STATUS_INPUT_FULL =? 0) ∧ ps2_ready d' = negb (Z.land v PS2_STATUS_OUTPUT_FULL =? 0) ∧
    (ps2_lag d = 0%nat → ps2_free d' = true ∧ (replies (ps2_of d) ≠ [] → ps2_ready d' = true)) ∧
    (replies (ps2_of d) = [] → ps2_ready d' = false);
  ps2_data d b l : ps2_ready d = true → replies (ps2_of d) = b :: l →
    ∃ d', inb d PS2_IO_DATA = (b, d') ∧
      ps2_of d' = Ps2 l (config (ps2_of d)) (second (ps2_of d)) (selftest (ps2_of d)) (expects (ps2_of d));
  ps2_out_command d v : ps2_free d = true → ps2_of (outb d PS2_IO_COMMAND v) = ps2_command v (ps2_of d);
  ps2_out_data d v : ps2_free d = true → ps2_of (outb d PS2_IO_DATA v) = ps2_byte v (ps2_of d);
  ps2_out_other d port v : port ≠ PS2_IO_DATA → port ≠ PS2_IO_COMMAND → ps2_of (outb d port v) = ps2_of d;
}.

Section laws.
Context {D : Type} `{PortIO D} `{!PicLaws D} `{!Ps2Laws D}.
Implicit Types m : machine D.

(** The devices changed from [d] to [d'], but not the interrupt controllers. *)
Definition same_chips (d d' : D) : Prop := ∀ c, chip d' c = chip d c.

Lemma same_chips_out d port v : port ≠ 0x20 → port ≠ 0x21 → port ≠ 0xA0 → port ≠ 0xA1 → same_chips d (outb d port v).
Proof. intros ???? [|]; by apply chip_out. Qed.

Lemma same_chips_in d port v d' :
  inb d port = (v, d') → port ≠ 0x20 → port ≠ 0x21 → port ≠ 0xA0 → port ≠ 0xA1 → same_chips d d'.
Proof. intros E ????. replace d' with (inb d port).2 by (by rewrite E). intros [|]; by apply chip_in. Qed.

Lemma same_chips_trans d1 d2 d3 : same_chips d1 d2 → same_chips d2 d3 → same_chips d1 d3.
Proof. intros H1 H2 c. by rewrite H2, H1. Qed.

Lemma same_chips_ok m d : pic_ok m → same_chips (ports m) d → pic_ok (set_ports d m).
Proof. intros [H1 H2 H3] Hs. split; cbn [g_curmask ports set_ports]; rewrite ?Hs; done. Qed.

Lemma io_in_run port v d m : inb (ports m) port = (v, d) → io (kinb port) m = Ret v (set_ports d m).
Proof. intros E. unfold io, zoom, kinb. by rewrite E. Qed.

Lemma wait_for_write_run (fuel : nat) m : (ps2_lag (ports m) ≤ fuel)%nat →
  ∃ d, wait_for_write fuel m = Ret tt (set_ports d m) ∧ ps2_of d = ps2_of (ports m) ∧ ps2_free d = true ∧ same_chips (ports m) d.
Proof.
  revert m. induction fuel as [|fuel IH]; intros m Hlag; cbn [wait_for_write];
    destruct (ps2_status (ports m)) as (v & d & Hin & Hps & Hlag' & Hfr & _ & Hset & _);
    rewrite (kbind_run _ _ _ _ _ (io_in_run _ _ _ _ Hin)), <- Hfr;
    pose proof (same_chips_in _ _ _ _ Hin ltac:(done) ltac:(done) ltac:(done) ltac:(done)) as Hs.
  - destruct (Hset ltac:(lia)) as [Hf _]. rewrite Hf. by exists d.
  - destruct (ps2_free d) eqn:E; [by exists d|].
    destruct (IH (set_ports d m)) as (d2 & Hrun & Hps2 & Hf & Hs2); [simpl; lia|]. simpl in Hps2, Hs2.
    exists d2. rewrite Hrun. split_and!; [done|congruence|done|by eapply same_chips_trans].
Qed.

Lemma wait_for_read_run (fuel : nat) m : (ps2_lag (ports m) ≤ fuel)%nat → replies (ps2_of (ports m)) ≠ [] →
  ∃ d, wait_for_read fuel m = Ret tt (set_ports d m) ∧ ps2_of d = ps2_of (ports m) ∧ ps2_ready d = true ∧ same_chips (ports m) d.
Proof.
  revert m. induction fuel as [|fuel IH]; intros m Hlag Hne; cbn [wait_for_read];
    destruct (ps2_status (ports m)) as (v & d & Hin & Hps & Hlag' & _ & Hrd & Hset & _);
    rewrite (kbind_run _ _ _ _ _ (io_in_run _ _ _ _ Hin)), <- Hrd;
    pose proof (same_chips_in _ _ _ _ Hin ltac:(done) ltac:(done) ltac:(done) ltac:(done)) as Hs.
  - destruct (Hset ltac:(lia)) as [_ Hf]. rewrite (Hf Hne). exists d. by rewrite (Hf Hne).
  - destruct (ps2_ready d) eqn:E; [by exists d|].
    destruct (IH (set_ports d m)) as (d2 & Hrun & Hps2 & Hf & Hs2); [simpl; lia|simpl; by rewrite Hps|]. simpl in Hps2, Hs2.
    exists d2. rewrite Hrun. split_and!; [done|congruence|done|by eapply same_chips_trans].
Qed.

Lemma send_command_run (fuel : nat) v m : (ps2_bound ≤ fuel)%nat →
  ∃ d, send fuel PS2_IO_COMMAND v m = Ret tt (set_ports d m) ∧ ps2_of d = ps2_command v (ps2_of (ports m)) ∧ same_chips (ports m) d.
Proof.
  intros Hf. pose proof (ps2_lag_bound (ports m)). destruct (wait_for_write_run fuel m) as (d & Hrun & Hps & Hfr & Hs); [lia|].
  unfold send. rewrite (kbind_run _ _ _ _ _ Hrun). eexists. split; [reflexivity|]. cbn [ports set_ports].
  rewrite ps2_out_command by done. rewrite Hps. split; [done|]. eapply same_chips_trans; [done|by apply same_chips_out].
Qed.

Lemma send_data_run (fuel : nat) v m : (ps2_bound ≤ fuel)%nat →
  ∃ d, send fuel PS2_IO_DATA v m = Ret tt (set_ports d m) ∧ ps2_of d = ps2_byte v (ps2_of (ports m)) ∧ same_chips (ports m) d.
Proof.
  intros Hf. pose proof (ps2_lag_bound (ports m)). destruct (wait_for_write_run fuel m) as (d & Hrun & Hps & Hfr & Hs); [lia|].
  unfold send. rewrite (kbind_run _ _ _ _ _ Hrun). eexists. split; [reflexivity|]. cbn [ports set_ports].
  rewrite ps2_out_data by done. rewrite Hps. split; [done|]. eapply same_chips_trans; [done|by apply same_chips_out].
Qed.

Lemma receive_run (fuel : nat) m b l : (ps2_bound ≤ fuel)%nat → replies (ps2_of (ports m)) = b :: l →
  ∃ d, receive fuel m = Ret b (set_ports d m) ∧
    ps2_of d = (let x := ps2_of (ports m) in Ps2 l (config x) (second x) (selftest x) (expects x)) ∧ same_chips (ports m) d.
Proof.
  intros Hf Hr. pose proof (ps2_lag_bound (ports m)).
  destruct (wait_for_read_run fuel m) as (d & Hrun & Hps & Hrd & Hs); [lia|by rewrite Hr|].
  unfold receive. rewrite (kbind_run _ _ _ _ _ Hrun). destruct (ps2_data d b l Hrd) as (d2 & Hin & Hps2); [by rewrite Hps|].
  rewrite (io_in_run PS2_IO_DATA b d2 (set_ports d m) Hin). exists d2. rewrite Hps in Hps2. split_and!; [done|done|].
  eapply same_chips_trans; [done|by eapply same_chips_in].
Qed.

Lemma flush_run (fuel : nat) m : replies (ps2_of (ports m)) = [] →
  ∃ d, flush_output fuel m = Ret tt (set_ports d m) ∧ ps2_of d = ps2_of (ports m) ∧ same_chips (ports m) d.
Proof.
  intros Hr. destruct (ps2_status (ports m)) as (v & d & Hin & Hps & _ & _ & Hrd & _ & Hno).
  rewrite (Hno Hr) in Hrd. destruct fuel; cbn [flush_output]; rewrite (kbind_run _ _ _ _ _ (io_in_run _ _ _ _ Hin));
    (destruct (_ =? 0); [|done]); exists d; (split_and!; [done|done|by eapply same_chips_in]).
Qed.

Lemma set_ports_twice d d' m : set_ports d' (set_ports d m) = set_ports d' m.
Proof. done. Qed.

(** The bits of a configuration byte. *)
Ltac bits :=
  unfold u8; repeat first [rewrite Z.land_spec | rewrite Z.lor_spec | rewrite Z.lnot_spec by lia | rewrite Z.mod_pow2_bits_low by lia];
  rewrite ?andb_true_r, ?andb_false_r, ?orb_true_r, ?orb_false_r; cbn; rewrite ?andb_true_r, ?andb_false_r, ?orb_true_r, ?orb_false_r; try done.
Ltac bits_in E :=
  repeat first [rewrite Z.land_spec in E | rewrite Z.lor_spec in E];
  cbn in E; rewrite ?orb_true_r in E.

(** The chips are the same along a chain of steps. *)
Ltac chips := solve [repeat first [eassumption | eapply same_chips_trans; [eassumption|]]].

(** One exchange with the controller: [Hf] bounds the waiting. *)
Ltac exchange Hf :=
  match goal with
  | |- context [kbind (send ?f PS2_IO_COMMAND ?v) ?k ?m] =>
      let d := fresh "d" in let Hps := fresh "Hps" in let Hs := fresh "Hs" in let Hrun := fresh "Hrun" in
      destruct (send_command_run f v m Hf) as (d & Hrun & Hps & Hs);
      rewrite (kbind_run (send f PS2_IO_COMMAND v) k m tt _ Hrun), ?set_ports_twice; cbn [ports set_ports] in Hps, Hs
  | |- context [kbind (send ?f PS2_IO_DATA ?v) ?k ?m] =>
      let d := fresh "d" in let Hps := fresh "Hps" in let Hs := fresh "Hs" in let Hrun := fresh "Hrun" in
      destruct (send_data_run f v m Hf) as (d & Hrun & Hps & Hs);
      rewrite (kbind_run (send f PS2_IO_DATA v) k m tt _ Hrun), ?set_ports_twice; cbn [ports set_ports] in Hps, Hs
  end.

(** The self-test: both ports are off, nothing is waiting to be read. *)
Lemma ps2_test_run (fuel : nat) m x (k : Z → kernel (machine D) unit) :
  (ps2_bound ≤ fuel)%nat → ps2_of (ports m) = x → replies x = [] →
  ∃ d, (send fuel PS2_IO_COMMAND PS2_CMD_DISABLE_FIRST_PORT ;;;
        send fuel PS2_IO_COMMAND PS2_CMD_DISABLE_SECOND_PORT ;;;
        flush_output fuel ;;;
        send fuel PS2_IO_COMMAND PS2_CMD_TEST_CONTROLLER ;;;
        let* test_result := receive fuel in k test_result) m = k (selftest x) (set_ports d m) ∧
    ps2_of d = Ps2 [] (Z.lor (Z.lor (config x) 0x10) 0x20) (second x) (selftest x) (expects x) ∧ same_chips (ports m) d.
Proof.
  intros Hf <- Hr. exchange Hf. exchange Hf. rewrite Hps in Hps0.
  destruct (flush_run fuel (set_ports d0 m)) as (d1 & Hrun1 & Hps1 & Hs1); [cbn [ports set_ports]; by rewrite Hps0|].
  rewrite (kbind_run _ _ _ _ _ Hrun1), set_ports_twice. cbn [ports set_ports] in Hps1. rewrite Hps0 in Hps1. exchange Hf.
  rewrite Hps1 in Hps2. cbn in Hps2. rewrite Hr in Hps2. cbn in Hps2.
  destruct (receive_run fuel (set_ports d2 m) (selftest (ps2_of (ports m))) [] Hf) as (d3 & Hrun3 & Hps3 & Hs3);
    [cbn [ports set_ports]; by rewrite Hps2|].
  rewrite (kbind_run _ _ _ _ _ Hrun3), set_ports_twice. cbn [ports set_ports] in *. rewrite Hps2 in Hps3. exists d3.
  split_and!; [done|done|]. chips.
Qed.

Lemma ps2_init_run (fuel : nat) m :
  (ps2_bound ≤ fuel)%nat → replies (ps2_of (ports m)) = [] → expects (ps2_of (ports m)) = false →
  ∃ d, ps2_init fuel m = Ret tt (set_ports d m) ∧ replies (ps2_of d) = [] ∧ expects (ps2_of d) = false ∧
    same_chips (ports m) d ∧
    if selftest (ps2_of (ports m)) =? 0x55
    then Z.testbit (config (ps2_of d)) 0 = true ∧ Z.testbit (config (ps2_of d)) 4 = false ∧
         (second (ps2_of (ports m)) = true → Z.testbit (config (ps2_of d)) 1 = true ∧ Z.testbit (config (ps2_of d)) 5 = false)
    else Z.testbit (config (ps2_of d)) 4 = true ∧ Z.testbit (config (ps2_of d)) 5 = true.
Proof.
  intros Hfuel Hr Hx. unfold ps2_init.
  edestruct (ps2_test_run fuel m (ps2_of (ports m))) as (d & -> & Hps & Hch); [done|done|done|].
  set (x := ps2_of (ports m)) in *. destruct (Z.eqb_spec (selftest x) 0x55) as [E|E]; cbn [negb].
  2: { exists d. rewrite Hps. split_and!; [done|done|done|done|..]; cbn [config]; rewrite !Z.lor_spec; [by rewrite orb_true_r|by rewrite !orb_true_r]. }
  exchange Hfuel. exchange Hfuel. rewrite Hps in Hps0. cbn in Hps0. rewrite Hps0 in Hps1. cbn in Hps1.
  destruct (receive_run fuel (set_ports d1 m) (config (ps2_of d1)) [] Hfuel) as (d2 & Hrun2 & Hps2 & Hs2);
    [cbn [ports set_ports]; by rewrite Hps1|].
  rewrite (kbind_run _ _ _ _ _ Hrun2), set_ports_twice. cbn [ports set_ports] in Hps2, Hs2. rewrite Hps1 in Hps2 |- *. cbn [config] in *.
  set (c := Z.lor (Z.lor (config x) 16) 32) in *. destruct (second x) eqn:Esec.
  - replace (Z.land (Z.land c (Z.lnot 32)) PS2_CONFIG_SECOND_PORT_CLK) with 0 by (by rewrite <- Z.land_assoc, Z.land_0_r).
    cbn [Z.eqb negb]. rewrite kbind_ret. cbv zeta. set (c' := Z.lor (Z.lor _ _) _).
    exchange Hfuel. exchange Hfuel. exchange Hfuel. rewrite Hps2 in Hps3. cbn in Hps3. rewrite Hps3 in Hps4. cbn in Hps4.
    rewrite Hps4 in Hps5. cbn in Hps5.
    destruct (send_command_run fuel PS2_CMD_ENABLE_SECOND_PORT (set_ports d5 m) Hfuel) as (d6 & Hrun6 & Hps6 & Hs6).
    rewrite Hrun6. exists d6. cbn [ports set_ports] in Hps6, Hs6. rewrite Hps5 in Hps6. cbn in Hps6. rewrite Hps6.
    split_and!; [done|done|done|chips|..]; cbn [config replies]; unfold c'; [by bits..|intros _; split; by bits].
  - assert (Z.land c PS2_CONFIG_SECOND_PORT_CLK =? 0 = false) as ->.
    { apply Z.eqb_neq. intros E0. apply (f_equal (λ z, Z.testbit z 5)) in E0. unfold c in E0. by bits_in E0. }
    cbn [negb]. exchange Hfuel. cbv zeta. set (c' := Z.lor _ _).
    exchange Hfuel. exchange Hfuel. rewrite Hps2 in Hps3. cbn in Hps3. rewrite Hps3 in Hps4. cbn in Hps4.
    rewrite Hps4 in Hps5. cbn in Hps5. exchange Hfuel. rewrite Hps5 in Hps6. cbn in Hps6.
    exists d6. split; [done|]. rewrite Hps6. split_and!; [done|done|chips|..]; cbn [config replies]; unfold c'; [by bits..|done].
Qed.

(** C36: [ps2_init] on a controller with nothing to read ends.  When the self-test
    passes, the first port is on and interrupts, and so is the second where there
    is one; when it fails both ports are left off.  No reply is left unread. *)
Theorem ps2_init_spec (fuel : nat) m (Hfuel : (ps2_bound ≤ fuel)%nat)
    (Hidle : replies (ps2_of (ports m)) = [] ∧ expects (ps2_of (ports m)) = false) :
  ∃ d, ps2_init fuel m = Ret tt (set_ports d m) ∧ replies (ps2_of d) = [] ∧
    if selftest (ps2_of (ports m)) =? 0x55
    then Z.testbit (config (ps2_of d)) 0 = true ∧ Z.testbit (config (ps2_of d)) 4 = false ∧
         (second (ps2_of (ports m)) = true → Z.testbit (config (ps2_of d)) 1 = true ∧ Z.testbit (config (ps2_of d)) 5 = false)
    else Z.testbit (config (ps2_of d)) 4 = true ∧ Z.testbit (config (ps2_of d)) 5 = true.
Proof.
  destruct Hidle as [Hr Hx]. destruct (ps2_init_run fuel m Hfuel Hr Hx) as (d & H1 & H2 & _ & _ & H3). by exists d.
Qed.

(** ** The keyboard *)

Lemma kbd_init_run (fuel : nat) m :
  (ps2_bound ≤ fuel)%nat → replies (ps2_of (ports m)) = [] → expects (ps2_of (ports m)) = false →
  pic_ok m → length (real_handlers m) = 256%nat → real_handlers m !! 33%nat ≠ Some (Some idt_default_interrupt_handler) →
  ∃ m', kbd_init fuel m = Ret tt m' ∧ pic_ok m' ∧ real_handlers m' = <[33%nat := Some kbd_handler]> (real_handlers m) ∧
    (∀ j, 0 ≤ j < 16 → Z.testbit (g_curmask m') j = Z.testbit (g_curmask m) j && negb (j =? 1)) ∧
    replies (ps2_of (ports m')) = [0xAA; KBD_ACK].
Proof.
  intros Hf Hr Hx Hok Hlen Hne. unfold kbd_init, kbd_send_command, kbd_read_scancode. exchange Hf. exchange Hf.
  rewrite Hps in Hps0. cbn in Hps0. unfold ps2_byte in Hps0. cbn in Hps0. rewrite Hx, Hr in Hps0. cbn in Hps0.
  destruct (receive_run fuel (set_ports d0 m) KBD_ACK [0xAA] Hf) as (d1 & Hrun1 & Hps1 & Hs1); [cbn [ports set_ports]; by rewrite Hps0|].
  rewrite (kbind_run _ _ _ _ _ Hrun1), set_ports_twice. cbn [ports set_ports] in Hps1, Hs1. rewrite Hps0 in Hps1. cbn in Hps1.
  exchange Hf. rewrite Hps1 in Hps2. cbn in Hps2.
  assert (pic_ok (set_ports d2 m)) as Hok2 by (apply same_chips_ok; [done|chips]).
  unfold IDT_IRQ_BASE. rewrite (kbind_run _ _ _ _ _ (register_run (set_ports d2 m) (0x20 + 1) kbd_handler ltac:(simpl; lia) ltac:(done))).
  match goal with |- context [pic_unmask 1 ?x] => set (m2 := x) end.
  destruct (pic_unmask_run m2 1 (pic_ok_handlers _ _ Hok2) ltac:(lia)) as (m' & Hrun' & Hok' & Hh & Hb & v & Hp).
  exists m'. split_and!; try done. rewrite Hp, !ps2_out_other by done. cbn. by rewrite Hps2.
Qed.

(** A keyboard interrupt when the byte [b] is waiting. *)
Lemma kbd_handler_run (fuel : nat) m b l :
  (ps2_bound ≤ fuel)%nat → replies (ps2_of (ports m)) = b :: l →
  ∃ d, kbd_handler_code fuel m = Ret tt (set_ports d (if b =? KBD_ACK then set_scancode 0 0 m else set_scancode b 1 m)) ∧
    replies (ps2_of d) = l.
Proof.
  intros Hf Hr. unfold kbd_handler_code, kbd_read_scancode.
  destruct (receive_run fuel m b l Hf Hr) as (d & Hrun & Hps & _). rewrite (kbind_run _ _ _ _ _ Hrun).
  destruct (b =? KBD_ACK); rewrite (kbind_run (kmod _) _ _ tt _ eq_refl); (eexists; split; [reflexivity|]);
    cbn [ports set_ports set_scancode]; rewrite ps2_out_other by done; by rewrite Hps.
Qed.

(** A key, from the interrupt to the device file.  After an interrupt with the
    scan code [b] the next [read] of at least a byte returns [b], once; an
    interrupt with an acknowledgement leaves nothing to read.  There is one
    slot: a key that is not read before the next interrupt is lost. *)
Theorem kbd_read_spec (fuel : nat) m b l size (Hfuel : (ps2_bound ≤ fuel)%nat)
    (Hb : replies (ps2_of (ports m)) = b :: l) (Hsize : 1 ≤ size) :
  ∃ m1, kbd_handler_code fuel m = Ret tt m1 ∧
    if b =? KBD_ACK then kbd_read size m1 = Ret (-1, []) m1
    else ∃ m2, kbd_read size m1 = Ret (1, [b]) m2 ∧ kbd_read size m2 = Ret (-1, []) m2.
Proof.
  destruct (kbd_handler_run fuel m b l Hfuel Hb) as (d & Hrun & _). eexists. split; [exact Hrun|].
  destruct (b =? KBD_ACK); [done|]. eexists. unfold kbd_read, kbind, kget. cbn [has_scancode set_ports set_scancode Z.eqb negb].
  rewrite (proj2 (Z.leb_le 1 size)) by done. done.
Qed.

(** The first key that is never pressed.  [kbd_init] reads one of the two bytes
    a keyboard answers to a reset, so the first keyboard interrupt hands the
    result of the keyboard's self-test, 0xAA, to the first reader as a scan
    code. *)
Theorem kbd_first_scancode (fuel : nat) m size (Hfuel : (ps2_bound ≤ fuel)%nat)
    (Hidle : replies (ps2_of (ports m)) = [] ∧ expects (ps2_of (ports m)) = false) (Hok : pic_ok m)
    (Hh : length (real_handlers m) = 256%nat ∧ real_handlers m !! 33%nat ≠ Some (Some idt_default_interrupt_handler))
    (Hsize : 1 ≤ size) :
  ∃ m1 m2 m3, kbd_init fuel m = Ret tt m1 ∧ kbd_handler_code fuel m1 = Ret tt m2 ∧
    kbd_read size m2 = Ret (1, [0xAA]) m3.
Proof.
  destruct Hidle as [Hr Hx], Hh as [Hlen Hne].
  destruct (kbd_init_run fuel m Hfuel Hr Hx Hok Hlen Hne) as (m1 & Hrun1 & _ & _ & _ & Hr1).
  destruct (kbd_handler_run fuel m1 _ _ Hfuel Hr1) as (d & Hrun2 & _). exists m1. eexists _, _. split_and!; [done|exact Hrun2|].
  unfold kbd_read, kbind, kget. cbn [has_scancode set_ports set_scancode Z.eqb negb KBD_ACK Pos.eqb].
  rewrite (proj2 (Z.leb_le 1 size)) by done. reflexivity.
Qed.

(** ** Start-up *)

(** The parts of [kmain] and [post_main] that set up interrupts, in their order. *)
Definition startup_interrupts (stubs : list Z) (fuel : nat) : kernel (machine D) unit :=
  idt_init stubs ;;;
  pic_init ;;;
  ps2_init fuel ;;;
  kbd_init fuel ;;;
  pit_init.

Lemma outs_ps2 l d : Forall (λ w, w.1 ≠ PS2_IO_DATA ∧ w.1 ≠ PS2_IO_COMMAND) l → ps2_of (outs d l) = ps2_of d.
Proof.
  revert d. induction l as [|[port v] l IH]; intros d Hl; [done|]. apply Forall_cons in Hl as [[H1 H2] Hl].
  cbn [outs]. rewrite IH by done. by apply ps2_out_other.
Qed.

(** C22: Once the machine has started, the lines of the timer and of the keyboard
    are open and no other, and an interrupt on an open line finds the handler of
    its device; exceptions find the default handler and [int $0x80] the one for
    system calls; every other vector of the tables has no handler. *)
Theorem startup_lines stubs (fuel : nat) m (Hfuel : (ps2_bound ≤ fuel)%nat)
    (Hstubs : length stubs = 256%nat ∧ Forall (λ b, 0 ≤ b < 2 ^ 64) stubs)
    (Hm : length (idt_descriptor m) = 256%nat ∧ real_handlers m = replicate 256 None)
    (Hidle : replies (ps2_of (ports m)) = [] ∧ expects (ps2_of (ports m)) = false) :
  ∃ m', startup_interrupts stubs fuel m = Ret tt m' ∧
    (∀ irq, 0 ≤ irq < 16 → line_open m' irq = (irq <? 2) ∧ line_vector m' irq = 0x20 + irq) ∧
    ∀ i, (i < 256)%nat → real_handlers m' !! i = Some
      (if decide (i < 32)%nat then Some idt_default_interrupt_handler else
       if decide (i = 0x20%nat) then Some pit_handler else
       if decide (i = 0x21%nat) then Some kbd_handler else
       if decide (i = 0x80%nat) then Some syscall_handler else None).
Proof.
  destruct Hstubs as [Hs1 Hs2], Hm as [L1 L2], Hidle as [Hr Hx]. unfold startup_interrupts.
  destruct (idt_init_run stubs m Hs1 Hs2 L1) as (m1 & Hrun1 & Hp1 & _ & Hl1 & Hh1); [by rewrite L2|].
  rewrite (kbind_run _ _ _ _ _ Hrun1). destruct (pic_init_run m1) as [Hrun2 Hok2].
  rewrite (kbind_run _ _ _ _ _ Hrun2). match type of Hrun2 with _ = Ret tt ?x => set (m2 := x) in * end.
  assert (ps2_of (ports m2) = ps2_of (ports m)) as E2.
  { transitivity (ps2_of (ports m1)); [apply outs_ps2; repeat constructor; done|by rewrite Hp1]. }
  destruct (ps2_init_run fuel m2 Hfuel ltac:(by rewrite E2) ltac:(by rewrite E2)) as (d3 & Hrun3 & Hr3 & Hx3 & Hs3 & _).
  rewrite (kbind_run _ _ _ _ _ Hrun3). set (m3 := set_ports d3 m2) in *.
  assert (pic_ok m3) as Hok3 by (by apply same_chips_ok).
  assert (∀ i, (i < 256)%nat → real_handlers m3 !! i = Some (if decide (i = 0x80%nat) then Some syscall_handler else
    if decide (i < 32)%nat then Some idt_default_interrupt_handler else None)) as H3.
  { intros i Hi. destruct (lookup_lt_is_Some_2 stubs i) as [b Hb]; [lia|]. destruct (Hh1 i b Hb) as [_ Hhi].
    change (real_handlers m3 !! i) with (real_handlers m1 !! i). rewrite Hhi, L2.
    repeat case_decide; try done. by apply lookup_replicate_2. }
  destruct (kbd_init_run fuel m3 Hfuel Hr3 Hx3 Hok3 Hl1) as (m4 & Hrun4 & Hok4 & Hh4 & Hb4 & _); [by rewrite H3 by lia|].
  rewrite (kbind_run _ _ _ _ _ Hrun4).
  destruct (pit_init_run m4 Hok4) as (m5 & Hrun5 & Hok5 & Hh5 & Hb5); [by rewrite Hh4, length_insert|by rewrite Hh4, list_lookup_insert_ne, H3 by lia|].
  assert (length (real_handlers m3) = 256%nat) as Hl3 by exact Hl1. exists m5. split; [exact Hrun5|]. split.
  - intros irq Hi. rewrite ok_line_open, ok_line_vector by done. split; [|done]. rewrite !Hb5, !Hb4 by lia.
    assert (∀ j, 0 ≤ j < 16 → Z.testbit (g_curmask m3) j = true) as Hfull
      by (intros j Hj; change (g_curmask m3) with (Z.ones 16); by rewrite Z.ones_spec_low by lia).
    rewrite !Hfull by lia. destruct (decide (irq < 2)); zcases; simpl; try done; lia.
  - intros i Hi. rewrite Hh5, Hh4. destruct (decide (i = 32%nat)) as [->|H32].
    { rewrite list_lookup_insert_eq by (rewrite length_insert; lia). done. }
    rewrite list_lookup_insert_ne by done. destruct (decide (i = 33%nat)) as [->|H33]; [rewrite list_lookup_insert_eq by lia; done|].
    rewrite list_lookup_insert_ne, H3 by done. repeat case_decide; (done || lia).
Qed.
End laws.

(** *** Witnesses: a board with two interrupt controllers and a PS/2 controller
    that takes one reading of the status to settle *)

Record board := Board { b_master : pic_chip; b_slave : pic_chip; b_ps2 : ps2; b_free : bool; b_ready : bool; b_lag : bool }.

Definition chip_command (v : Z) (x : pic_chip) : pic_chip :=
  if v =? 0x11 then PicChip (imr x) (vector_base x) (cascade x) 1 (isr x)
  else PicChip (imr x) (vector_base x) (cascade x) (icw x) (Z.land (isr x) (isr x - 1)).
Definition chip_data (v : Z) (x : pic_chip) : pic_chip :=
  match icw x with
  | 0%nat => PicChip v (vector_base x) (cascade x) 0 (isr x)
  | 1%nat => PicChip (imr x) v (cascade x) 2 (isr x)
  | 2%nat => PicChip (imr x) (vector_base x) v 3 (isr x)
  | _ => PicChip (imr x) (vector_base x) (cascade x) 0 (isr x)
  end.

#[export] Instance board_io : PortIO board := {
  inb d port :=
    if port =? PS2_IO_STATUS then
      let full := negb (b_lag d) && negb (bool_decide (replies (b_ps2 d) = [])) in
      ((if b_lag d then 2 else 0) + (if full then 1 else 0),
       Board (b_master d) (b_slave d) (b_ps2 d) (negb (b_lag d)) full false)
    else if port =? PS2_IO_DATA then
      (default 0 (head (replies (b_ps2 d))),
       Board (b_master d) (b_slave d)
         (Ps2 (tail (replies (b_ps2 d))) (config (b_ps2 d)) (second (b_ps2 d)) (selftest (b_ps2 d)) (expects (b_ps2 d)))
         (b_free d) false true)
    else (0, d);
  outb d port v :=
    if port =? 0x20 then Board (chip_command v (b_master d)) (b_slave d) (b_ps2 d) (b_free d) (b_ready d) (b_lag d) else
    if port =? 0x21 then Board (chip_data v (b_master d)) (b_slave d) (b_ps2 d) (b_free d) (b_ready d) (b_lag d) else
    if port =? 0xA0 then Board (b_master d) (chip_command v (b_slave d)) (b_ps2 d) (b_free d) (b_ready d) (b_lag d) else
    if port =? 0xA1 then Board (b_master d) (chip_data v (b_slave d)) (b_ps2 d) (b_free d) (b_ready d) (b_lag d) else
    if port =? PS2_IO_COMMAND then Board (b_master d) (b_slave d) (ps2_command v (b_ps2 d)) false false true else
    if port =? PS2_IO_DATA then Board (b_master d) (b_slave d) (ps2_byte v (b_ps2 d)) false false true else d;
}.

#[export, program] Instance board_pic : PicLaws board := { chip d c := if c then b_slave d else b_master d }.
Next Obligation. by intros d [|]. Qed.
Next Obligation. intros d [|] v Hi _; simpl in *; unfold chip_data; by rewrite Hi. Qed.
Next Obligation. intros d [|] v Hi; simpl in *; unfold chip_data; by rewrite Hi. Qed.
Next Obligation. intros d [|] Hi; simpl in *; unfold chip_data; by rewrite Hi. Qed.
Next Obligation. intros d [|] v Hi; simpl in *; unfold chip_data; by rewrite Hi. Qed.
Next Obligation. intros d [|] Hi; simpl in *; unfold chip_command; simpl; by rewrite Hi. Qed.
Next Obligation.
  intros d [|] port v H1 H2; unfold pic_command, pic_data, PIC_SLAVE_COMMAND, PIC_SLAVE_DATA, PIC_MASTER_COMMAND, PIC_MASTER_DATA in *;
    cbn; zcases; try done; lia.
Qed.
Next Obligation. intros d [|] port _ _; unfold inb, board_io; by destruct (port =? PS2_IO_STATUS), (port =? PS2_IO_DATA). Qed.

#[export, program] Instance board_ps2 : Ps2Laws board :=
  { ps2_of := b_ps2; ps2_free := b_free; ps2_ready := b_ready; ps2_lag d := if b_lag d then 1%nat else 0%nat; ps2_bound := 1 }.
Next Obligation. intros d. cbn. destruct (b_lag d); lia. Qed.
Next Obligation.
  intros d. eexists _, _. split; [reflexivity|]. cbn. destruct (b_lag d); cbn; [done|].
  destruct (replies (b_ps2 d)) eqn:E; cbn; by rewrite ?E.
Qed.
Next Obligation. intros d b l _ Hr. eexists. split; [unfold inb, board_io; simpl; rewrite Hr; reflexivity|]. done. Qed.
Next Obligation. done. Qed.
Next Obligation. done. Qed.
Next Obligation.
  intros d port v H1 H2. unfold PS2_IO_COMMAND, PS2_IO_STATUS, PS2_IO_DATA in *. unfold outb, board_io. zcases; try done; lia.
Qed.

Definition board_start (selftest : Z) : machine board :=
  Machine (Board (PicChip 0 0 0 0 0) (PicChip 0 0 0 0 0) (Ps2 [] 0x65 true selftest false) false false true)
    (replicate 256 (IdtEntry 0 0 0 0 0 0 0)) (replicate 256 None) 0xFFFF 0 0.
Definition board_stubs : list Z := (λ i, 0xffffffff80001000 + 16 * i) <$> seqZ 0 256.

Lemma board_stubs_range : Forall (λ b, 0 ≤ b < 2 ^ 64) board_stubs.
Proof. apply Forall_fmap, Forall_seqZ. intros i Hi. simpl. lia. Qed.

Lemma startup_lines_witness : ∃ m', startup_interrupts board_stubs 1 (board_start 0x55) = Ret tt m' ∧ line_open m' 1 = true ∧
  real_handlers m' !! 33%nat = Some (Some kbd_handler).
Proof.
  destruct (startup_lines board_stubs 1 (board_start 0x55)) as (m' & H1 & H2 & H3).
  - exact (le_n 1).
  - exact (conj eq_refl board_stubs_range).
  - exact (conj eq_refl eq_refl).
  - exact (conj eq_refl eq_refl).
  - exists m'. split; [exact H1|]. split; [exact (proj1 (H2 1 ltac:(lia)))|exact (H3 33%nat ltac:(lia))].
Defined.

Lemma ps2_init_spec_witness : ∃ d, ps2_init 1 (board_start 0x55) = Ret tt (set_ports d (board_start 0x55)) ∧
  Z.testbit (config (ps2_of d)) 0 = true.
Proof.
  destruct (ps2_init_spec 1 (board_start 0x55)) as (d & H1 & _ & H2 & _); [exact (le_n 1)|exact (conj eq_refl eq_refl)|].
  exists d. exact (conj H1 H2).
Defined.

Definition board_key (b : Z) : machine board :=
  Machine (Board (PicChip 0 0 0 0 0) (PicChip 0 0 0 0 0) (Ps2 [b] 0x45 true 0x55 false) false false true) [] [] 0 0 0.

Lemma kbd_read_spec_witness : ∃ m1 m2, kbd_handler_code 1 (board_key 0x1E) = Ret tt m1 ∧ kbd_read 1 m1 = Ret (1, [0x1E]) m2.
Proof.
  destruct (kbd_read_spec 1 (board_key 0x1E) 0x1E [] 1) as (m1 & H1 & m2 & H2 & _); [exact (le_n 1)|reflexivity|lia|].
  exists m1, m2. exact (conj H1 H2).
Defined.

(** The board after [pic_init]. *)
Definition board_masked : machine board :=
  match pic_init (board_start 0x55) with Ret _ m => m | _ => board_start 0 end.

Lemma board_masked_ok : pic_ok board_masked.
Proof. exact (proj2 (pic_init_run (board_start 0x55))). Qed.

Lemma kbd_first_scancode_witness : ∃ m1 m2 m3, kbd_init 1 board_masked = Ret tt m1 ∧
  kbd_handler_code 1 m1 = Ret tt m2 ∧ kbd_read 1 m2 = Ret (1, [0xAA]) m3.
Proof.
  apply (kbd_first_scancode 1 board_masked 1).
  - exact (le_n 1).
  - exact (conj eq_refl eq_refl).
  - exact board_masked_ok.
  - split; [reflexivity|]. vm_compute. discriminate.
  - lia.
Defined.

Lemma idt_init_spec_witness : ∃ m' e, idt_init board_stubs (board_start 0x55) = Ret tt m' ∧
  idt_descriptor m' !! 128%nat = Some e ∧ gate_dpl e = 3.
Proof.
  destruct (idt_init_spec board_stubs (board_start 0x55)) as (m' & H1 & _ & _ & H2);
    [exact (conj eq_refl board_stubs_range)|exact (conj eq_refl eq_refl)|].
  destruct (H2 128%nat (0xffffffff80001000 + 16 * 128)) as [(e & He & _ & _ & Hd) _]; [reflexivity|].
  exists m', e. exact (conj H1 (conj He Hd)).
Defined.

Lemma pic_lines_witness : ∃ m', pic_unmask 1 board_masked = Ret tt m' ∧ Z.testbit (imr (line_chip m' 1)) (1 mod 8) = false.
Proof.
  destruct (pic_lines board_masked 1 board_masked_ok ltac:(lia)) as [(m' & H1 & _ & H2) _].
  exists m'. split; [exact H1|]. rewrite (H2 1 ltac:(lia)). apply andb_false_r.
Defined.

Lemma pic_unmask_slave_witness : ∃ m', pic_unmask 12 board_masked = Ret tt m' ∧ line_open m' 12 = false.
Proof.
  destruct (pic_unmask_slave board_masked 12 board_masked_ok ltac:(lia) ltac:(reflexivity)) as (m' & H1 & H2).
  exists m'. split; [exact H1|]. rewrite (H2 12 ltac:(lia)). reflexivity.
Defined.

(** A line in service on each chip. *)
Definition board_serving : machine board :=
  Machine (Board (PicChip 0xF8 0x20 4 0 4) (PicChip 0xEF 0x28 2 0 16) (Ps2 [] 0x45 true 0x55 false) false false true) [] [] 0xEFF8 0 0.

Lemma board_serving_ok : pic_ok board_serving.
Proof. split; [cbn; lia|by vm_compute|by vm_compute]. Qed.

Lemma pic_eoi_spec_witness : ∃ m', pic_eoi 12 board_serving = Ret tt m' ∧ isr (chip (ports m') true) = 0.
Proof.
  destruct (pic_eoi_spec board_serving 12 board_serving_ok ltac:(lia) (conj eq_refl eq_refl)) as (m' & H1 & _ & _ & H2).
  exists m'. exact (conj H1 (H2 true)).
Defined.

Lemma idt_register_spec_witness : idt_register_handler 33 kbd_handler (board_start 0x55) =
  Ret 0 (set_real_handlers (<[33%nat := Some kbd_handler]> (replicate 256 None)) (board_start 0x55)).
Proof. rewrite (idt_register_spec (board_start 0x55) 33 kbd_handler eq_refl ltac:(lia)). reflexivity. Defined.
