(* ===== verification/Scheduler.v ===== *)
(** * Processes and the scheduler

    [proc/scheduler.c]: the process table, spawning, the timer tick that
    switches contexts, exit, and the descriptor table of a process.  The state
    adds to the file systems the process blocks (in the same kernel heap), the
    memory of the running process, and the address-space operations of [mm/],
    which [ProcMem] names. *)

From stdpp Require Import base gmap list.
From Stdlib Require Import ZArith Lia.
From S2P Require Import Prelude Ram Vnode Vfs.
#[local] Open Scope Z_scope.

Definition PROC_DEFAULT_TIME : Z := 1.
Definition PROC_MAX_PROCS : Z := 2048.
Definition PROC_MAX_FDS : Z := 1024.
Definition PCB_SIZEOF : Z := 8496.

(** [sys/intr.h] *)
Record register_ctx := RegisterCtx {
  es : Z;
  ds : Z;
  cr4 : Z;
  cr3 : Z;
  cr2 : Z;
  cr0 : Z;
  r15 : Z;
  r14 : Z;
  r13 : Z;
  r12 : Z;
  r11 : Z;
  r10 : Z;
  r9 : Z;
  r8 : Z;
  rsi : Z;
  rdi : Z;
  rbp : Z;
  rdx : Z;
  rcx : Z;
  rbx : Z;
  rax : Z;
  vector : Z;
  err : Z;
  rip : Z;
  cs : Z;
  rflags : Z;
  rsp : Z;
  ss : Z;
}.
Definition set_rax (x : Z) (r : register_ctx) : register_ctx :=
  RegisterCtx (es r) (ds r) (cr4 r) (cr3 r) (cr2 r) (cr0 r) (r15 r) (r14 r) (r13 r) (r12 r) (r11 r) (r10 r) (r9 r) (r8 r) (rsi r) (rdi r) (rbp r) (rdx r) (rcx r) (rbx r) x (vector r) (err r) (rip r) (cs r) (rflags r) (rsp r) (ss r).
Definition set_rip (x : Z) (r : register_ctx) : register_ctx :=
  RegisterCtx (es r) (ds r) (cr4 r) (cr3 r) (cr2 r) (cr0 r) (r15 r) (r14 r) (r13 r) (r12 r) (r11 r) (r10 r) (r9 r) (r8 r) (rsi r) (rdi r) (rbp r) (rdx r) (rcx r) (rbx r) (rax r) (vector r) (err r) x (cs r) (rflags r) (rsp r) (ss r).
Definition set_cs (x : Z) (r : register_ctx) : register_ctx :=
  RegisterCtx (es r) (ds r) (cr4 r) (cr3 r) (cr2 r) (cr0 r) (r15 r) (r14 r) (r13 r) (r12 r) (r11 r) (r10 r) (r9 r) (r8 r) (rsi r) (rdi r) (rbp r) (rdx r) (rcx r) (rbx r) (rax r) (vector r) (err r) (rip r) x (rflags r) (rsp r) (ss r).
Definition set_rflags (x : Z) (r : register_ctx) : register_ctx :=
  RegisterCtx (es r) (ds r) (cr4 r) (cr3 r) (cr2 r) (cr0 r) (r15 r) (r14 r) (r13 r) (r12 r) (r11 r) (r10 r) (r9 r) (r8 r) (rsi r) (rdi r) (rbp r) (rdx r) (rcx r) (rbx r) (rax r) (vector r) (err r) (rip r) (cs r) x (rsp r) (ss r).
Definition set_rsp (x : Z) (r : register_ctx) : register_ctx :=
  RegisterCtx (es r) (ds r) (cr4 r) (cr3 r) (cr2 r) (cr0 r) (r15 r) (r14 r) (r13 r) (r12 r) (r11 r) (r10 r) (r9 r) (r8 r) (rsi r) (rdi r) (rbp r) (rdx r) (rcx r) (rbx r) (rax r) (vector r) (err r) (rip r) (cs r) (rflags r) x (ss r).
Definition set_ss (x : Z) (r : register_ctx) : register_ctx :=
  RegisterCtx (es r) (ds r) (cr4 r) (cr3 r) (cr2 r) (cr0 r) (r15 r) (r14 r) (r13 r) (r12 r) (r11 r) (r10 r) (r9 r) (r8 r) (rsi r) (rdi r) (rbp r) (rdx r) (rcx r) (rbx r) (rax r) (vector r) (err r) (rip r) (cs r) (rflags r) (rsp r) x.

Inductive process_state := PROCESS_READY | PROCESS_RUNNING | PROCESS_WAITING | PROCESS_TERMINATED.

#[export] Instance process_state_eq_dec : EqDecision process_state.
Proof. solve_decision. Defined.

Record pcb := Pcb {
  ctx : register_ctx;
  pid : Z;
  pstate : process_state;
  timeslice : Z;
  pagemap : Z;
  fd_table : list Z;
  fd_count : Z;
  errno : Z;
  whoami_uid : Z;
  whoami_gid : Z;
  vma_ctx : Z;
  in_syscall : bool;
}.

Definition pset_ctx (x : register_ctx) (r : pcb) : pcb :=
  Pcb x (pid r) (pstate r) (timeslice r) (pagemap r) (fd_table r) (fd_count r) (errno r) (whoami_uid r) (whoami_gid r) (vma_ctx r) (in_syscall r).
Definition pset_pstate (x : process_state) (r : pcb) : pcb :=
  Pcb (ctx r) (pid r) x (timeslice r) (pagemap r) (fd_table r) (fd_count r) (errno r) (whoami_uid r) (whoami_gid r) (vma_ctx r) (in_syscall r).
Definition pset_timeslice (x : Z) (r : pcb) : pcb :=
  Pcb (ctx r) (pid r) (pstate r) x (pagemap r) (fd_table r) (fd_count r) (errno r) (whoami_uid r) (whoami_gid r) (vma_ctx r) (in_syscall r).
Definition pset_fd_table (x : list Z) (r : pcb) : pcb :=
  Pcb (ctx r) (pid r) (pstate r) (timeslice r) (pagemap r) x (fd_count r) (errno r) (whoami_uid r) (whoami_gid r) (vma_ctx r) (in_syscall r).
Definition pset_fd_count (x : Z) (r : pcb) : pcb :=
  Pcb (ctx r) (pid r) (pstate r) (timeslice r) (pagemap r) (fd_table r) x (errno r) (whoami_uid r) (whoami_gid r) (vma_ctx r) (in_syscall r).
Definition pset_errno (x : Z) (r : pcb) : pcb :=
  Pcb (ctx r) (pid r) (pstate r) (timeslice r) (pagemap r) (fd_table r) (fd_count r) x (whoami_uid r) (whoami_gid r) (vma_ctx r) (in_syscall r).
Definition pset_whoami_uid (x : Z) (r : pcb) : pcb :=
  Pcb (ctx r) (pid r) (pstate r) (timeslice r) (pagemap r) (fd_table r) (fd_count r) (errno r) x (whoami_gid r) (vma_ctx r) (in_syscall r).
Definition pset_whoami_gid (x : Z) (r : pcb) : pcb :=
  Pcb (ctx r) (pid r) (pstate r) (timeslice r) (pagemap r) (fd_table r) (fd_count r) (errno r) (whoami_uid r) x (vma_ctx r) (in_syscall r).
Definition pset_in_syscall (x : bool) (r : pcb) : pcb :=
  Pcb (ctx r) (pid r) (pstate r) (timeslice r) (pagemap r) (fd_table r) (fd_count r) (errno r) (whoami_uid r) (whoami_gid r) (vma_ctx r) x.

(** What the scheduler uses of [mm/vmm.c] and [mm/vma.c]. *)
Class ProcMem (M : Type) := {
  pm_create_context : Z → kernel M Z;
  pm_vma_alloc : Z → Z → Z → kernel M Z;
  pm_map : M → Z → Z → Z → Z → M;
  pm_virt_to_phys : M → Z → Z → Z;
  pm_destroy : M → Z → M;
  pm_switch : M → Z → M;
  pm_kernel_pagemap : M → Z;
}.

(** The kernel's state: the file systems, the address spaces, the memory a
    process passes buffers in, and the scheduler's globals. [procs] is [None]
    before [scheduler_init]; a slot is 0 when it is NULL. *)
Record kst (E M : Type) := Kst {
  kfs : fs E;
  kmem : M;
  umem : mem;
  procs : option (list Z);
  pcbs : gmap Z pcb;
  count : Z;
  current_pid : Z;
  slock : bool;
  die_func : Z;
}.
Arguments Kst {E M} _ _ _ _ _ _ _ _ _.
Arguments kfs {E M} _.
Arguments kmem {E M} _.
Arguments umem {E M} _.
Arguments procs {E M} _.
Arguments pcbs {E M} _.
Arguments count {E M} _.
Arguments current_pid {E M} _.
Arguments slock {E M} _.
Arguments die_func {E M} _.

Section sched.
Context {E M : Type} `{KernelEnv E} `{ProcMem M}.
Definition kset_kfs (x : fs E) (r : kst E M) : kst E M :=
  Kst x (kmem r) (umem r) (procs r) (pcbs r) (count r) (current_pid r) (slock r) (die_func r).
Definition kset_kmem (x : M) (r : kst E M) : kst E M :=
  Kst (kfs r) x (umem r) (procs r) (pcbs r) (count r) (current_pid r) (slock r) (die_func r).
Definition kset_umem (x : mem) (r : kst E M) : kst E M :=
  Kst (kfs r) (kmem r) x (procs r) (pcbs r) (count r) (current_pid r) (slock r) (die_func r).
Definition kset_procs (x : option (list Z)) (r : kst E M) : kst E M :=
  Kst (kfs r) (kmem r) (umem r) x (pcbs r) (count r) (current_pid r) (slock r) (die_func r).
Definition kset_pcbs (x : gmap Z pcb) (r : kst E M) : kst E M :=
  Kst (kfs r) (kmem r) (umem r) (procs r) x (count r) (current_pid r) (slock r) (die_func r).
Definition kset_count (x : Z) (r : kst E M) : kst E M :=
  Kst (kfs r) (kmem r) (umem r) (procs r) (pcbs r) x (current_pid r) (slock r) (die_func r).
Definition kset_current_pid (x : Z) (r : kst E M) : kst E M :=
  Kst (kfs r) (kmem r) (umem r) (procs r) (pcbs r) (count r) x (slock r) (die_func r).
Definition kset_slock (x : bool) (r : kst E M) : kst E M :=
  Kst (kfs r) (kmem r) (umem r) (procs r) (pcbs r) (count r) (current_pid r) x (die_func r).
Definition kset_die_func (x : Z) (r : kst E M) : kst E M :=
  Kst (kfs r) (kmem r) (umem r) (procs r) (pcbs r) (count r) (current_pid r) (slock r) x.

(** A file-system routine in the kernel's state. *)
Definition in_kfs {A} (c : kernel (fs E) A) : kernel (kst E M) A :=
  zoom kfs kset_kfs c.

(** A routine of [mm/] in the kernel's state. *)
Definition in_kmem {A} (c : kernel M A) : kernel (kst E M) A :=
  zoom kmem kset_kmem c.

Definition get_pcb (p : Z) : kernel (kst E M) pcb :=
  λ k, match pcbs k !! p with Some b => Ret b k | None => Fault end.
Definition put_pcb (p : Z) (b : pcb) : kernel (kst E M) unit :=
  kmod (λ k, kset_pcbs (<[p := b]> (pcbs k)) k).
Definition upd_pcb (p : Z) (f : pcb → pcb) : kernel (kst E M) unit :=
  let* b := get_pcb p in put_pcb p (f b).

(** [procs[i]] and [procs[i] = p] *)
Definition get_proc (i : Z) : kernel (kst E M) Z :=
  λ k, match procs k with
       | Some l => if 0 <=? i then match l !! Z.to_nat i with Some p => Ret p k | None => Fault end else Fault
       | None => Fault
       end.
Definition set_proc (i p : Z) : kernel (kst E M) unit :=
  λ k, match procs k with
       | Some l => if (0 <=? i) && (i <? Z.of_nat (length l))
                   then Ret tt (kset_procs (Some (<[Z.to_nat i := p]> l)) k) else Fault
       | None => Fault
       end.

(** The spinlock of the scheduler. *)
Definition sched_acquire : kernel (kst E M) unit :=
  λ k, if slock k then Spin else Ret tt (kset_slock true k).
Definition sched_release : kernel (kst E M) unit := kmod (kset_slock false).

(** [for (offset = 0; offset < size; offset += PAGE_SIZE)] *)
Fixpoint map_range_loop (fuel : nat) (m : M) (dest src start offset size flags : Z) : option M :=
  if size <=? offset then Some m else
  match fuel with
  | O => None
  | S f =>
      let phys := pm_virt_to_phys m src (u64 (start + offset)) in
      let m := if phys =? 0 then m else pm_map m dest (u64 (start + offset)) phys flags in
      map_range_loop f m dest src start (u64 (offset + PAGE_SIZE)) size flags
  end.

Definition map_range_to_pagemap (dest src start size flags : Z) : kernel (kst E M) unit :=
  λ k, match map_range_loop (Z.to_nat (size / PAGE_SIZE + 1)) (kmem k) dest src start 0 size flags with
       | Some m => Ret tt (kset_kmem m k)
       | None => NoFuel
       end.

(** [kcalloc] of the table; the address of the table does not matter. *)
Definition scheduler_init : kernel (kst E M) unit :=
  let* p := in_kfs (kmalloc (8 * PROC_MAX_PROCS)) in
  if p =? 0 then kmod (kset_procs None) else
  kmod (kset_procs (Some (replicate (Z.to_nat PROC_MAX_PROCS) 0))).

Definition scheduler_get_current : kernel (kst E M) Z :=
  λ k, match procs k with None => Ret 0 k | Some _ => get_proc (current_pid k) k end.

Definition scheduler_proc_add_vnode (pid node : Z) : kernel (kst E M) Z :=
  let* n := kget count in
  if n <=? pid then kret (-1) else
  let* proc := get_proc pid in
  if proc =? 0 then kret (-1) else
  kassert (negb (node =? 0)) ;;;
  let* b := get_pcb proc in
  if fd_count b <? PROC_MAX_FDS then
    put_pcb proc (pset_fd_count (fd_count b + 1)
                    (pset_fd_table (<[Z.to_nat (fd_count b) := node]> (fd_table b)) b)) ;;;
    kret (s32 (fd_count b))
  else kret (-1).

(** [for (i = fd; i < fd_count - 1; i++) fd_table[i] = fd_table[i + 1];], [n] rounds;
    with more than 1024 entries counted the loop leaves the table. *)
Fixpoint shift_fds (n : nat) (i : nat) (l : list Z) : list Z :=
  match n with
  | O => l
  | S n => shift_fds n (S i) (<[i := default 0 (l !! S i)]> l)
  end.

Definition scheduler_proc_remove_vnode (pid fd : Z) : kernel (kst E M) Z :=
  let* n := kget count in
  if n <=? pid then kret (-2) else
  let* proc := get_proc pid in
  if proc =? 0 then kret (-2) else
  let* b := get_pcb proc in
  if (fd <? 0) || (PROC_MAX_FDS <=? fd) || (default 0 (fd_table b !! Z.to_nat fd) =? 0) then kret (-1) else
  let c := u64 (fd_count b - 1) in
  if PROC_MAX_FDS <=? c then kfault else
  let l := shift_fds (Z.to_nat (c - fd)) (Z.to_nat fd) (fd_table b) in
  put_pcb proc (pset_fd_count c (pset_fd_table (<[Z.to_nat c := 0]> l) b)) ;;;
  kret 0.

Definition scheduler_proc_change_whoami (pid uid gid : Z) : kernel (kst E M) Z :=
  let* n := kget count in
  if n <=? pid then kret (-2) else
  let* proc := get_proc pid in
  if proc =? 0 then kret (-2) else
  upd_pcb proc (λ b, pset_whoami_gid gid (pset_whoami_uid uid b)) ;;;
  kret 0.

Definition scheduler_set_final (f : Z) : kernel (kst E M) unit := kmod (kset_die_func f).

(** [VMM_PRESENT | VMM_WRITE], and [VMM_USER] for a process of ring 3. *)
Definition map_flags (user : bool) : Z :=
  Z.lor (Z.lor (Z.shiftl 1 0) (Z.shiftl 1 1)) (if user then Z.shiftl 1 2 else 0).

(** [fresh] is what the registers of a fresh block hold; [procs_addr] the
    address of the process table, which the new address space maps. *)
Definition scheduler_spawn (fresh : register_ctx) (procs_addr : Z) (user : bool) (entry pm : Z) :
    kernel (kst E M) Z :=
  let* proc := in_kfs (kmalloc PCB_SIZEOF) in
  if proc =? 0 then kret (u64 (-1)) else
  let* pid := kget count in
  kmod (kset_count (u64 (pid + 1))) ;;;
  let* vctx := in_kmem (pm_create_context pm) in
  let flags := map_flags user in
  let* stack := in_kmem (pm_vma_alloc vctx 4 flags) in
  let regs := set_rflags 0x202 (set_rsp (u64 (stack + (PAGE_SIZE * 4 - 1)))
              (set_ss (if user then 0x23 else 0x10) (set_cs (if user then 0x1B else 0x08)
              (set_rip entry fresh)))) in
  kmod (λ k, kset_kmem (pm_map (kmem k) pm proc proc flags) k) ;;;
  let* kpm := kget (λ k, pm_kernel_pagemap (kmem k)) in
  map_range_to_pagemap pm kpm procs_addr (8 * PROC_MAX_PROCS) flags ;;;
  map_range_to_pagemap pm kpm 0x1000 0x10000 flags ;;;
  put_pcb proc (Pcb regs pid PROCESS_READY PROC_DEFAULT_TIME pm (replicate (Z.to_nat PROC_MAX_FDS) 0)
                    0 0 0 0 vctx false) ;;;
  set_proc pid proc ;;;
  let* out := kget (λ k, stdout (kfs k)) in
  scheduler_proc_add_vnode pid out ;;;
  kret pid.

(** The first half of the tick: the running process keeps its registers and,
    when its time is over, hands on. *)
Definition tick_current (regs : register_ctx) : kernel (kst E M) unit :=
  let* c := kget current_pid in
  let* proc := get_proc c in
  if proc =? 0 then kret tt else
  let* b := get_pcb proc in
  if bool_decide (pstate b = PROCESS_RUNNING) && negb (in_syscall b) then
    let t := u64 (timeslice b - 1) in
    if t =? 0 then
      put_pcb proc (pset_timeslice PROC_DEFAULT_TIME (pset_pstate PROCESS_READY (pset_ctx regs b))) ;;;
      let* n := kget count in
      kmod (kset_current_pid (u64 (c + 1) mod n))
    else put_pcb proc (pset_timeslice t (pset_ctx regs b))
  else kret tt.

(** [scheduler_tick(ctx)]: the result is what [ *ctx ] holds afterwards. *)
Definition scheduler_tick (regs : register_ctx) : kernel (kst E M) register_ctx :=
  sched_acquire ;;;
  let* n := kget count in
  if n =? 0 then sched_release ;;; kret regs else
  tick_current regs ;;;
  let* c := kget current_pid in
  let* next := get_proc c in
  kassert (negb (next =? 0)) ;;;
  let* b := get_pcb next in
  match pstate b with
  | PROCESS_READY =>
      put_pcb next (pset_pstate PROCESS_RUNNING b) ;;;
      kassert (negb (pagemap b =? 0)) ;;;
      kmod (λ k, kset_kmem (pm_switch (kmem k) (pagemap b)) k) ;;;
      sched_release ;;;
      kret (ctx b)
  | PROCESS_TERMINATED =>
      set_proc (pid b) 0 ;;;
      let* n := kget count in
      kmod (kset_count (u64 (n - 1))) ;;;
      (if u64 (n - 1) =? 0 then sched_release else kret tt) ;;;
      kret regs
  | _ => sched_release ;;; kret regs
  end.

(** [scheduler_exit]; [stale] is what reading the pid of the block that was
    just freed returns.  With no process left the kernel runs [die_func] and
    halts. *)
Definition scheduler_exit (stale : pcb → Z) : kernel (kst E M) unit :=
  let* c := kget current_pid in
  let* proc := get_proc c in
  if proc =? 0 then kret tt else
  let* b := get_pcb proc in
  if PROC_MAX_FDS <? fd_count b then kfault else
  let n := Z.to_nat (fd_count b) in
  let b := pset_fd_table (replicate n 0 ++ drop n (fd_table b)) (pset_ctx (set_rip 0 (ctx b)) b) in
  put_pcb proc b ;;;
  kmod (λ k, kset_kmem (pm_destroy (kmem k) (pagemap b)) k) ;;;
  kmod (λ k, kset_pcbs (delete proc (pcbs k)) (kset_kfs (set_env (env_free (env (kfs k)) proc) (kfs k)) k)) ;;;
  set_proc (stale b) 0 ;;;
  let* n := kget count in
  let n := u64 (n - 1) in
  kmod (kset_count n) ;;;
  kmod (kset_current_pid (if n =? 0 then 0 else u64 (c + 1) mod n)) ;;;
  if n =? 0 then khalt else kret tt.
End sched.

(** ** Round robin *)

Section facts.
Context {E M : Type} `{KernelEnv E} `{ProcMem M}.
Implicit Types k : kst E M.

Lemma get_proc_run k l i p :
  procs k = Some l → 0 ≤ i → l !! Z.to_nat i = Some p → get_proc i k = Ret p k.
Proof. intros Hl Hi Hp. unfold get_proc. by rewrite Hl, (proj2 (Z.leb_le 0 i)), Hp. Qed.

Lemma get_proc_same k k' i p : procs k' = procs k → get_proc i k = Ret p k → get_proc i k' = Ret p k'.
Proof.
  unfold get_proc. intros ->. destruct (procs k) as [l|], (0 <=? i); try done.
  destruct (l !! Z.to_nat i); naive_solver.
Qed.

Lemma in_kmem_run {A} (c : kernel M A) k a m : c (kmem k) = Ret a m → in_kmem c k = Ret a (kset_kmem m k).
Proof. apply zoom_run. Qed.

Lemma get_pcb_run k p b : pcbs k !! p = Some b → get_pcb p k = Ret b k.
Proof. intros Hp. unfold get_pcb. by rewrite Hp. Qed.

(** The process in slot [i]. *)
Definition slot k (ps : list Z) (i : Z) (b : pcb) : Prop :=
  ∃ p, ps !! Z.to_nat i = Some p ∧ pcbs k !! p = Some b.

(** The scheduler between two ticks with the processes [ps] in the first slots
    of the table: one of them runs, the others wait for their turn. *)
Record sched_ok k (ps : list Z) : Prop := {
  so_table : ∃ l, procs k = Some l ∧ ps `prefix_of` l;
  so_nodup : NoDup ps;
  so_count : count k = Z.of_nat (length ps);
  so_bound : Z.of_nat (length ps) < 2 ^ 63;
  so_current : 0 ≤ current_pid k < Z.of_nat (length ps);
  so_lock : slock k = false;
  so_proc i p : ps !! i = Some p → p ≠ 0 ∧ ∃ b, pcbs k !! p = Some b ∧
    pid b = Z.of_nat i ∧ timeslice b = PROC_DEFAULT_TIME ∧ in_syscall b = false ∧ pagemap b ≠ 0 ∧
    pstate b = (if decide (Z.of_nat i = current_pid k) then PROCESS_RUNNING else PROCESS_READY);
}.

Lemma sched_slot k ps i :
  sched_ok k ps → 0 ≤ i < Z.of_nat (length ps) →
  ∃ p b, ps !! Z.to_nat i = Some p ∧ p ≠ 0 ∧ pcbs k !! p = Some b ∧ get_proc i k = Ret p k ∧
    timeslice b = PROC_DEFAULT_TIME ∧ in_syscall b = false ∧ pagemap b ≠ 0 ∧ pid b = i ∧
    pstate b = (if decide (i = current_pid k) then PROCESS_RUNNING else PROCESS_READY).
Proof.
  intros Hok Hi. assert (is_Some (ps !! Z.to_nat i)) as [p Hp] by (apply lookup_lt_is_Some; lia).
  destruct (so_proc _ _ Hok _ _ Hp) as (Hp0 & b & Hb & Hpid & Ht & Hs & Hm & Hst).
  rewrite Z2Nat.id in Hpid, Hst by lia.
  exists p, b. split_and!; try done. destruct (so_table _ _ Hok) as (l & Hl & Hpre).
  apply (get_proc_run k l); [done|lia|by eapply prefix_lookup_Some].
Qed.

Lemma slot_inj k ps i j p :
  sched_ok k ps → 0 ≤ i → 0 ≤ j → ps !! Z.to_nat i = Some p → ps !! Z.to_nat j = Some p → i = j.
Proof.
  intros Hok Hi Hj H1 H2. pose proof (NoDup_lookup _ _ _ _ (so_nodup _ _ Hok) H1 H2). lia.
Qed.

(** The state after a tick: the running process is ready again with the
    registers of the interrupt, the next one runs. *)
Definition after_tick k (p q : Z) (b b' : pcb) (regs : register_ctx) (c' : Z) : kst E M :=
  let pcbs1 := <[p := pset_timeslice PROC_DEFAULT_TIME (pset_pstate PROCESS_READY (pset_ctx regs b))]> (pcbs k) in
  kset_slock false (kset_kmem (pm_switch (kmem k) (pagemap b'))
    (kset_pcbs (<[q := pset_pstate PROCESS_RUNNING b']> pcbs1) (kset_current_pid c' k))).

Lemma tick_run k ps regs :
  sched_ok k ps →
  let c := current_pid k in
  let c' := (c + 1) mod Z.of_nat (length ps) in
  ∃ p q b b', ps !! Z.to_nat c = Some p ∧ ps !! Z.to_nat c' = Some q ∧ pcbs k !! p = Some b ∧
    (if decide (c' = c) then b' = pset_timeslice PROC_DEFAULT_TIME (pset_pstate PROCESS_READY (pset_ctx regs b))
     else pcbs k !! q = Some b') ∧
    scheduler_tick regs k = Ret (ctx b') (after_tick k p q b b' regs c').
Proof.
  intros Hok c c'. pose proof (so_current _ _ Hok) as Hc. fold c in Hc. pose proof (so_bound _ _ Hok).
  assert (0 ≤ c' < Z.of_nat (length ps)) as Hc' by (apply Z.mod_pos_bound; lia).
  destruct (sched_slot k ps c Hok Hc) as (p & b & Hp & Hp0 & Hb & Hget & Ht & Hsys & Hpm & _ & Hst).
  destruct (sched_slot k ps c' Hok Hc') as (q & b1 & Hq & Hq0 & Hb1 & Hget' & _ & _ & Hpm' & _ & Hst').
  rewrite decide_True in Hst by done. fold c in Hst'.
  set (pb := pset_timeslice PROC_DEFAULT_TIME (pset_pstate PROCESS_READY (pset_ctx regs b))).
  exists p, q, b, (if decide (c' = c) then pb else b1). split_and!; try done; [by destruct (decide (c' = c))|].
  set (k1 := kset_slock true k).
  assert (tick_current regs k1 = Ret tt (kset_current_pid c' (kset_pcbs (<[p := pb]> (pcbs k)) k1))) as Htick.
  { unfold tick_current. rewrite (kbind_run (kget current_pid) _ k1 c k1) by done.
    rewrite (kbind_run (get_proc c) _ k1 p k1) by (by apply (get_proc_same k)).
    rewrite (proj2 (Z.eqb_neq p 0)), (kbind_run _ _ _ _ _ (get_pcb_run k1 p b Hb)) by done.
    rewrite Hst, Hsys, Ht, bool_decide_eq_true_2 by done. change (u64 (PROC_DEFAULT_TIME - 1)) with 0. cbn.
    unfold kbind, kmod, kget, put_pcb, k1. cbn. rewrite (so_count _ _ Hok), u64_small by lia. done. }
  unfold scheduler_tick. rewrite (kbind_run sched_acquire _ k tt k1) by (unfold sched_acquire; by rewrite (so_lock _ _ Hok)).
  rewrite (kbind_run (kget count) _ k1 (Z.of_nat (length ps)) k1) by (unfold kget; cbn; by rewrite (so_count _ _ Hok)).
  rewrite (proj2 (Z.eqb_neq (Z.of_nat (length ps)) 0)) by lia.
  rewrite (kbind_run _ _ _ _ _ Htick). set (k2 := kset_current_pid c' _).
  rewrite (kbind_run (kget current_pid) _ k2 c' k2) by done.
  rewrite (kbind_run (get_proc c') _ k2 q k2)
    by (by apply (get_proc_same k)).
  rewrite (proj2 (Z.eqb_neq q 0)) by done. cbn [negb]. unfold kassert at 1. rewrite kbind_ret.
  assert (pcbs k2 !! q = Some (if decide (c' = c) then pb else b1)) as Hk2.
  { unfold k2. cbn. destruct (decide (c' = c)) as [Hcc|Hcc].
    - assert (Some q = Some p) as [= ->] by (rewrite <- Hq, <- Hp; by rewrite Hcc). apply lookup_insert_eq.
    - rewrite lookup_insert_ne; [done|]. intros ->. apply Hcc. by eapply slot_inj; [..|exact Hq|exact Hp]; try lia. }
  rewrite (kbind_run _ _ _ _ _ (get_pcb_run k2 q _ Hk2)).
  assert (pstate (if decide (c' = c) then pb else b1) = PROCESS_READY ∧
          pagemap (if decide (c' = c) then pb else b1) ≠ 0) as [-> Hpm2].
  { by destruct (decide (c' = c)). }
  rewrite (kbind_run (put_pcb q _) _ k2 tt _ eq_refl), (proj2 (Z.eqb_neq (pagemap _) 0)) by done.
  cbn [negb]. unfold kassert. rewrite kbind_ret. done.
Qed.

(** The registers a process will be resumed with. *)
Definition saved k (ps : list Z) (i : Z) : option register_ctx :=
  p ← ps !! Z.to_nat i; ctx <$> pcbs k !! p.

Lemma tick_ok k ps regs :
  sched_ok k ps →
  let c := current_pid k in
  let c' := (c + 1) mod Z.of_nat (length ps) in
  ∃ out k', scheduler_tick regs k = Ret out k' ∧ sched_ok k' ps ∧ current_pid k' = c' ∧
    saved k' ps c' = Some out ∧ saved k' ps c = Some regs ∧
    (∀ i, 0 ≤ i → i ≠ c → saved k' ps i = saved k ps i).
Proof.
  intros Hok c c'. pose proof (so_current _ _ Hok) as Hc. fold c in Hc.
  assert (0 ≤ c' < Z.of_nat (length ps)) as Hc' by (apply Z.mod_pos_bound; lia).
  destruct (tick_run k ps regs Hok) as (p & q & b & b' & Hp & Hq & Hb & Hb' & Hrun).
  fold c in Hp, Hq, Hb', Hrun. fold c' in Hq, Hb', Hrun.
  assert (p = q ↔ c = c') as Hpq.
  { split; [intros ->; exact (slot_inj k ps c c' q Hok ltac:(lia) ltac:(lia) Hp Hq)|].
    intros Hcc. assert (Some p = Some q) as [= ->] by (rewrite <- Hp, <- Hq; by rewrite Hcc). done. }
  exists (ctx b'), (after_tick k p q b b' regs c'). split_and!; [done| |done| | |].
  - destruct Hok as [Tab Nd Cnt Bnd Cur Lck Pr]. constructor; try done.
    intros i r Hr. destruct (Pr i r Hr) as (Hr0 & br & Hbr & Hpid & Ht & Hs & Hm & Hst).
    split; [done|]. cbn -[decide].
    assert (i = Z.to_nat c ↔ r = p) as Hrp.
    { split; [intros ->; congruence|intros ->]. exact (NoDup_lookup _ _ _ _ Nd Hr Hp). }
    assert (i = Z.to_nat c' ↔ r = q) as Hrq.
    { split; [intros ->; congruence|intros ->]. exact (NoDup_lookup _ _ _ _ Nd Hr Hq). }
    destruct (decide (r = q)) as [->|Hnq].
    + exists (pset_pstate PROCESS_RUNNING b'). rewrite lookup_insert_eq.
      assert (i = Z.to_nat c') as -> by (by apply Hrq). rewrite decide_True by lia.
      destruct (decide (c' = c)) as [Hcc|Hcc].
      * subst b'. assert (p = q) as -> by (apply Hpq; congruence). assert (br = b) as -> by congruence. by split_and!.
      * assert (br = b') as -> by congruence. by split_and!.
    + rewrite lookup_insert_ne by done. rewrite decide_False by (intros Hi; apply Hnq, Hrq; lia).
      destruct (decide (r = p)) as [->|Hnp].
      * rewrite lookup_insert_eq. eexists. split; [done|]. assert (br = b) as -> by congruence. by split_and!.
      * rewrite lookup_insert_ne by done. exists br. split_and!; try done.
        rewrite Hst, decide_False; [done|]. intros Hi. apply Hnp, Hrp. fold c in Hi. lia.
  - unfold saved. rewrite Hq. cbn. by rewrite lookup_insert_eq.
  - unfold saved. rewrite Hp. cbn. destruct (decide (c' = c)) as [Hcc|Hcc].
    + assert (p = q) as -> by (apply Hpq; congruence). rewrite lookup_insert_eq. by subst b'.
    + rewrite lookup_insert_ne by (intros ->; apply Hcc; symmetry; by apply Hpq). by rewrite lookup_insert_eq.
  - intros i Hi Hic. unfold saved. destruct (ps !! Z.to_nat i) as [r|] eqn:Hr; [|done]. cbn.
    assert (r ≠ p) as Hrp.
    { intros ->. apply Hic. exact (slot_inj k ps i c p Hok ltac:(lia) ltac:(lia) Hr Hp). }
    destruct (decide (r = q)) as [->|Hrq].
    + rewrite lookup_insert_eq. rewrite decide_False in Hb'; [by rewrite Hb'|].
      intros Hcc. apply Hrp. symmetry. apply Hpq. congruence.
    + by rewrite !lookup_insert_ne.
Qed.

(** Ticks one after the other; [frames] are the registers at each interrupt,
    the result those each tick resumes with. *)
Fixpoint run_ticks (frames : list register_ctx) : kernel (kst E M) (list register_ctx) :=
  match frames with
  | [] => kret []
  | r :: frames =>
      let* out := scheduler_tick r in
      let* outs := run_ticks frames in
      kret (out :: outs)
  end.

Lemma mod_step c j n : 0 < n → ((c + j) mod n + 1) mod n = (c + (j + 1)) mod n.
Proof. intros. rewrite Zplus_mod_idemp_l. f_equal. lia. Qed.

Lemma mod_distinct c i j n : 0 ≤ i < n → 0 ≤ j < n → (c + i) mod n = (c + j) mod n → i = j.
Proof.
  intros Hi Hj Heq. assert ((i - j) mod n = 0) as Hz.
  { replace (i - j) with ((c + i) - (c + j)) by lia. rewrite Zminus_mod, Heq, Z.sub_diag. apply Z.mod_0_l. lia. }
  apply Z.mod_divide in Hz as [q Hq]; [|lia].
  destruct (Z.lt_trichotomy q 0) as [Hq0|[->|Hq0]]; [|lia|]; exfalso; clear -Hq Hq0 Hi Hj; nia.
Qed.

Lemma run_ticks_snoc frames r k outs k1 out k2 :
  run_ticks frames k = Ret outs k1 → scheduler_tick r k1 = Ret out k2 →
  run_ticks (frames ++ [r]) k = Ret (outs ++ [out]) k2.
Proof.
  revert k outs. induction frames as [|f frames IH]; intros k outs; cbn [run_ticks app].
  - intros [= <- <-] Ht. rewrite (kbind_run _ _ _ _ _ Ht). done.
  - intros Hr Ht. apply kbind_inv in Hr as (o & k' & Ho & Hr). rewrite (kbind_run _ _ _ _ _ Ho).
    apply kbind_inv in Hr as (os & k'' & Hos & [= <- <-]).
    rewrite (kbind_run _ _ _ _ _ (IH _ _ Hos Ht)). done.
Qed.

(** Part of a round: the ticks from process [c] on, each process once. *)
Lemma run_ticks_prefix k ps frames :
  sched_ok k ps → (length frames ≤ length ps)%nat →
  let c := current_pid k in
  let n := Z.of_nat (length ps) in
  ∃ outs k', run_ticks frames k = Ret outs k' ∧ sched_ok k' ps ∧
    current_pid k' = (c + Z.of_nat (length frames)) mod n ∧
    (frames ≠ [] → saved k' ps (current_pid k') = last outs) ∧
    (∀ j r, frames !! j = Some r → saved k' ps ((c + Z.of_nat j) mod n) = Some r) ∧
    (∀ j, (length frames ≤ j < length ps)%nat →
       saved k' ps ((c + Z.of_nat j) mod n) = saved k ps ((c + Z.of_nat j) mod n)) ∧
    length outs = length frames ∧
    (∀ j, (j < length frames)%nat → (S j < length ps)%nat → outs !! j = saved k ps ((c + Z.of_nat (S j)) mod n)).
Proof.
  induction frames as [|r frames IH] using rev_ind; intros Hok Hlen c n.
  { exists [], k. split_and!; try done; [rewrite Z.add_0_r; symmetry; apply Z.mod_small, Hok|simpl; lia]. }
  rewrite length_app in *. simpl in Hlen.
  destruct (IH Hok ltac:(lia)) as (outs & k1 & Hrun & Ok1 & Cur1 & _ & Sav1 & Rest1 & Len1 & Out1). clear IH.
  fold c n in Cur1, Sav1, Rest1, Out1.
  destruct (tick_ok k1 ps r Ok1) as (out & k2 & Ht & Ok2 & Cur2 & Sout & Sc & Sother).
  fold n in Cur2, Sout. rewrite Cur1, mod_step in Cur2, Sout by (unfold n; lia). rewrite Cur1 in Sc, Sother.
  exists (outs ++ [out]), k2. split_and!.
  - by eapply run_ticks_snoc.
  - done.
  - rewrite Cur2. simpl. f_equal. lia.
  - intros _. by rewrite Cur2, Sout, last_snoc.
  - intros j r' Hj. destruct (decide (j = length frames)) as [->|Hne].
    + rewrite lookup_app_r, Nat.sub_diag in Hj by lia. injection Hj as <-. exact Sc.
    + assert (j < length frames)%nat as Hlt.
      { apply lookup_lt_Some in Hj. rewrite length_app in Hj. simpl in Hj. lia. }
      rewrite lookup_app_l in Hj by done. rewrite Sother; [by apply Sav1|apply Z.mod_pos_bound; lia|].
      intros Heq. apply mod_distinct in Heq; unfold n; lia.
  - intros j Hj. simpl in Hj. rewrite Sother; [by apply Rest1; lia|apply Z.mod_pos_bound; unfold n; lia|].
    intros Heq. apply mod_distinct in Heq; unfold n; lia.
  - rewrite length_app, Len1. simpl. lia.
  - intros j Hj Hjn. simpl in Hj. destruct (decide (j = length frames)) as [->|Hne].
    + rewrite lookup_app_r, Len1, Nat.sub_diag by lia. cbn [lookup list_lookup].
      rewrite <- (Rest1 (S (length frames))) by lia.
      replace (Z.of_nat (S (length frames))) with (Z.of_nat (length frames) + 1) by lia. rewrite <- Sout. apply Sother.
      { apply Z.mod_pos_bound. unfold n. lia. }
      intros Heq. apply mod_distinct in Heq; unfold n; lia.
    + rewrite lookup_app_l by lia. apply Out1; lia.
Qed.

(** Round robin.  With [n] processes in the table and none in a system call,
    [n] timer ticks let every process run once and come back to the first: at
    each tick the interrupted process keeps the registers of the interrupt, and
    the last tick resumes the first process with exactly the registers it was
    interrupted with; the scheduler is then in the same kind of state, its lock
    free. *)
Theorem round_robin k ps frames
  (Hok : sched_ok k ps) (Hround : length frames = length ps) :
  let c := current_pid k in
  let n := Z.of_nat (length ps) in
  ∃ outs k', run_ticks frames k = Ret outs k' ∧ sched_ok k' ps ∧ current_pid k' = c ∧
    last outs = head frames ∧
    (∀ j r, frames !! j = Some r → saved k' ps ((c + Z.of_nat j) mod n) = Some r).
Proof.
  pose proof (so_current _ _ Hok) as Hc. intros c n. fold c in Hc.
  destruct (run_ticks_prefix k ps frames Hok ltac:(lia)) as (outs & k' & Hrun & Ok' & Cur & Last & Sav & _ & _ & _).
  fold c n in Cur, Sav. rewrite Hround in Cur. fold n in Cur.
  rewrite <- (Z.mul_1_l n) in Cur at 1. rewrite Z_mod_plus_full, Z.mod_small in Cur by done.
  exists outs, k'. split_and!; try done. rewrite <- Last by (destruct frames; simpl in *; [lia|done]).
  rewrite Cur. destruct frames as [|r frames]; [simpl in *; lia|].
  change (head (r :: frames)) with (Some r). rewrite <- (Sav 0%nat r eq_refl). by rewrite Z.add_0_r, Z.mod_small.
Qed.

(** ** Descriptors *)

(** The descriptor table of a process: the open files first, then NULL. *)
Definition fds (b : pcb) (l : list Z) : Prop :=
  fd_table b = l ++ replicate (1024 - length l) 0 ∧ (length l ≤ 1024)%nat ∧
  fd_count b = Z.of_nat (length l) ∧ Forall (λ p, p ≠ 0) l.

(** The process a pid names. *)
Definition names k (pid proc : Z) (b : pcb) : Prop :=
  0 ≤ pid < count k ∧ get_proc pid k = Ret proc k ∧ proc ≠ 0 ∧ pcbs k !! proc = Some b.

Lemma shift_fds_length n i l : length (shift_fds n i l) = length l.
Proof. revert i l. induction n as [|n IH]; intros i l; cbn; [done|]. by rewrite IH, length_insert. Qed.

Lemma shift_fds_lookup n i l j :
  (i + n < length l)%nat →
  shift_fds n i l !! j = if decide (i ≤ j < i + n)%nat then l !! S j else l !! j.
Proof.
  revert i l. induction n as [|n IH]; intros i l Hl; cbn [shift_fds].
  - rewrite decide_False by lia. done.
  - assert (is_Some (l !! S i)) as [x Hx] by (apply lookup_lt_is_Some; lia). rewrite Hx. cbn [default].
    rewrite IH by (rewrite length_insert; lia).
    destruct (decide (j = i)) as [->|Hne].
    + rewrite decide_False, decide_True by lia. by rewrite list_lookup_insert_eq by lia.
    + destruct (decide (S i ≤ j < S i + n)%nat).
      * rewrite decide_True by lia. by rewrite list_lookup_insert_ne by lia.
      * rewrite decide_False by lia. by rewrite list_lookup_insert_ne by lia.
Qed.

(** Shifting down and clearing the last entry deletes one from the sequence. *)
Lemma shift_fds_delete f l :
  (f < length l)%nat → (length l ≤ 1024)%nat →
  <[(length l - 1)%nat := 0]> (shift_fds (length l - 1 - f) f (l ++ replicate (1024 - length l) 0)) =
  delete f l ++ replicate (1024 - (length l - 1)) 0.
Proof.
  intros Hf Hl. assert (length (delete f l) = length l - 1)%nat as Hd.
  { apply length_delete. by apply lookup_lt_is_Some. }
  apply list_eq. intros j. destruct (decide (j = length l - 1)%nat) as [->|Hj].
  - rewrite list_lookup_insert_eq by (rewrite shift_fds_length, length_app, length_replicate; lia).
    rewrite lookup_app_r, Hd, Nat.sub_diag by lia. by rewrite lookup_replicate_2 by lia.
  - rewrite list_lookup_insert_ne by lia. rewrite shift_fds_lookup by (rewrite length_app, length_replicate; lia).
    destruct (decide (j < length l - 1)%nat).
    + rewrite (lookup_app_l (delete f l)) by lia. destruct (decide (j < f)%nat).
      * rewrite decide_False, lookup_app_l by lia. by rewrite list_lookup_delete_lt.
      * rewrite decide_True, lookup_app_l by lia. by rewrite list_lookup_delete_ge by lia.
    + rewrite decide_False by lia. rewrite !lookup_app_r by lia.
      destruct (decide (j < 1024)%nat); [by rewrite !lookup_replicate_2 by lia|].
      rewrite !lookup_ge_None_2; [done|rewrite length_replicate; lia..].
Qed.

(** A process with one more open file. *)
Definition fd_add (node : Z) (b : pcb) : pcb :=
  pset_fd_count (fd_count b + 1) (pset_fd_table (<[Z.to_nat (fd_count b) := node]> (fd_table b)) b).

Lemma fds_add b l node : fds b l → node ≠ 0 → (length l < 1024)%nat → fds (fd_add node b) (l ++ [node]).
Proof.
  intros (Htab & Hlen & Hcnt & Hnz) Hnode Hlt. unfold fds, fd_add. cbn. rewrite length_app. cbn.
  split_and!; [|lia|lia|by apply Forall_app_2; [|apply Forall_singleton]].
  rewrite Hcnt, Nat2Z.id, Htab. rewrite <- (Nat.add_0_r (length l)) at 1. rewrite insert_app_r.
  replace (1024 - length l)%nat with (S (1024 - (length l + 1))) by lia. cbn. by rewrite <- app_assoc.
Qed.

Lemma add_vnode_run k pid proc b l node :
  names k pid proc b → fds b l → node ≠ 0 → (length l < 1024)%nat →
  scheduler_proc_add_vnode pid node k =
    Ret (Z.of_nat (length l)) (kset_pcbs (<[proc := fd_add node b]> (pcbs k)) k).
Proof.
  intros (Hpid & Hget & Hp0 & Hb) (Htab & Hlen & Hcnt & Hnz) Hnode Hlt. unfold scheduler_proc_add_vnode.
  rewrite (kbind_run (kget count) _ k (count k) k), (proj2 (Z.leb_gt _ _)), (kbind_run _ _ _ _ _ Hget) by (done || lia).
  rewrite (proj2 (Z.eqb_neq proc 0)), (proj2 (Z.eqb_neq node 0)) by done. cbn [negb]. unfold kassert. rewrite kbind_ret.
  rewrite (kbind_run _ _ _ _ _ (get_pcb_run k proc b Hb)). unfold PROC_MAX_FDS.
  rewrite (proj2 (Z.ltb_lt _ _)) by lia. unfold kbind, put_pcb, kmod, kret. unfold fd_add.
  rewrite Hcnt, s32_small by lia. done.
Qed.

(** Descriptors.  Opening appends: [scheduler_proc_add_vnode] returns the
    lowest unused number, or -1 with the table unchanged when all 1024 are in
    use.  Closing removes: [scheduler_proc_remove_vnode] takes the descriptor
    out of the sequence, so that every descriptor above it is renumbered one
    down. *)
Theorem descriptors_spec k pid proc b l node fd
  (Hproc : names k pid proc b) (Hfds : fds b l) (Hnode : node ≠ 0) (Hfd : 0 ≤ fd < Z.of_nat (length l)) :
  (∃ k', scheduler_proc_add_vnode pid node k = Ret (if (length l <? 1024)%nat then Z.of_nat (length l) else -1) k' ∧
     ∃ b', pcbs k' !! proc = Some b' ∧ fds b' (if (length l <? 1024)%nat then l ++ [node] else l)) ∧
  (∃ k', scheduler_proc_remove_vnode pid fd k = Ret 0 k' ∧
     ∃ b', pcbs k' !! proc = Some b' ∧ fds b' (delete (Z.to_nat fd) l) ∧
       ∀ j, (Z.to_nat fd ≤ j)%nat → delete (Z.to_nat fd) l !! j = l !! S j).
Proof.
  destruct Hproc as (Hpid & Hget & Hp0 & Hb). destruct Hfds as (Htab & Hlen & Hcnt & Hnz).
  split.
  - destruct (Nat.ltb_spec (length l) 1024) as [Hlt|Hge].
    + eexists. split; [by apply add_vnode_run|]. eexists. split; [apply lookup_insert_eq|].
      by apply fds_add.
    + unfold scheduler_proc_add_vnode.
      rewrite (kbind_run (kget count) _ k (count k) k), (proj2 (Z.leb_gt _ _)), (kbind_run _ _ _ _ _ Hget) by (done || lia).
      rewrite (proj2 (Z.eqb_neq proc 0)), (proj2 (Z.eqb_neq node 0)) by done. cbn [negb]. unfold kassert. rewrite kbind_ret.
      rewrite (kbind_run _ _ _ _ _ (get_pcb_run k proc b Hb)), Hcnt. unfold PROC_MAX_FDS.
      rewrite (proj2 (Z.ltb_ge _ _)) by lia. exists k. split; [done|]. exists b. by split_and!.
  - unfold scheduler_proc_remove_vnode.
    rewrite (kbind_run (kget count) _ k (count k) k), (proj2 (Z.leb_gt _ _)), (kbind_run _ _ _ _ _ Hget) by (done || lia).
    rewrite (proj2 (Z.eqb_neq proc 0)), (kbind_run _ _ _ _ _ (get_pcb_run k proc b Hb)) by done.
    assert (is_Some (l !! Z.to_nat fd)) as [x Hx] by (apply lookup_lt_is_Some; lia).
    assert (x ≠ 0) as Hx0 by (by eapply Forall_lookup_1 in Hnz; [|exact Hx]).
    rewrite (proj2 (Z.ltb_ge fd 0)), (proj2 (Z.leb_gt PROC_MAX_FDS fd)) by (unfold PROC_MAX_FDS; lia).
    rewrite Htab, lookup_app_l, Hx by (by eapply lookup_lt_Some).
    change (default 0 (Some x)) with x. rewrite (proj2 (Z.eqb_neq x 0)) by done. cbn [orb]. cbv zeta.
    rewrite Hcnt, u64_small by lia. rewrite (proj2 (Z.leb_gt PROC_MAX_FDS _)) by (unfold PROC_MAX_FDS; lia).
    eexists. split; [reflexivity|].
    eexists. split; [cbn; apply lookup_insert_eq|]. cbn.
    assert (length (delete (Z.to_nat fd) l) = length l - 1)%nat as Hdl by (by rewrite length_delete).
    split; [|intros j Hj; by apply list_lookup_delete_ge].
    unfold fds. cbn. rewrite Hdl. split_and!; [|lia|lia|].
    + rewrite <- shift_fds_delete by lia. do 2 f_equal; lia.
    + by apply Forall_delete.
Qed.

(** ** Spawning *)

(** The budget of [map_range_to_pagemap]: one round per page. *)
Lemma map_range_enough fuel (m : M) dest src start offset size flags :
  0 ≤ offset → 0 ≤ size < 2 ^ 63 → offset < size + PAGE_SIZE →
  (size - offset + PAGE_SIZE - 1) / PAGE_SIZE ≤ Z.of_nat fuel →
  ∃ m', map_range_loop fuel m dest src start offset size flags = Some m'.
Proof.
  revert m offset. induction fuel as [|fuel IH]; intros m offset Ho Hs Hb Hf; cbn [map_range_loop];
    unfold PAGE_SIZE in *; destruct (Z.leb_spec size offset) as [Hle|Hgt]; eauto.
  - pose proof (Z.div_le_lower_bound (size - offset + 4096 - 1) 4096 1). lia.
  - cbv zeta. rewrite (u64_small (offset + 4096)) by lia. apply IH; try lia.
    replace (size - offset + 4096 - 1) with (size - (offset + 4096) + 4096 - 1 + 1 * 4096) in Hf by lia.
    rewrite Z.div_add in Hf by lia. lia.
Qed.

(** What [map_range_to_pagemap] makes of the memory. *)
Definition ranged (dest src start size flags : Z) (m m' : M) : Prop :=
  map_range_loop (Z.to_nat (size / PAGE_SIZE + 1)) m dest src start 0 size flags = Some m'.

Lemma map_range_run k dest src start size flags :
  0 ≤ size < 2 ^ 63 →
  ∃ m', ranged dest src start size flags (kmem k) m' ∧
    map_range_to_pagemap dest src start size flags k = Ret tt (kset_kmem m' k).
Proof.
  intros Hs. unfold map_range_to_pagemap, ranged.
  destruct (map_range_enough (Z.to_nat (size / PAGE_SIZE + 1)) (kmem k) dest src start 0 size flags) as [m' ->];
    [lia|lia|unfold PAGE_SIZE; lia| |by exists m'].
  pose proof (Z.div_pos size PAGE_SIZE). rewrite Z2Nat.id by (unfold PAGE_SIZE in *; lia).
  replace (size - 0 + PAGE_SIZE - 1) with (size + PAGE_SIZE - 1) by lia.
  transitivity ((size + 1 * PAGE_SIZE) / PAGE_SIZE); [apply Z.div_le_mono; unfold PAGE_SIZE; lia|].
  rewrite Z.div_add by done. lia.
Qed.
End facts.

Section spawning.
Context {E M : Type} `{KernelEnvLaws E} `{ProcMem M}.
Implicit Types k : kst E M.

(** The processes' blocks are allocated, and the table has its full length. *)
Definition table_ok k : Prop :=
  env_inv (env (kfs k)) ∧ dom (pcbs k) ⊆ env_live (env (kfs k)) ∧ ∃ l, procs k = Some l ∧ Z.of_nat (length l) = PROC_MAX_PROCS.

Lemma table_len k l : table_ok k → procs k = Some l → Z.of_nat (length l) < 2 ^ 63.
Proof. intros (_ & _ & l' & Hl' & Hlen) Hl. assert (l' = l) as -> by congruence. unfold PROC_MAX_PROCS in Hlen. lia. Qed.

(** The block [scheduler_spawn] builds, before its first descriptor. *)
Definition spawned (fresh : register_ctx) (user : bool) (entry pm pid vctx stack : Z) : pcb :=
  Pcb (set_rflags 0x202 (set_rsp (u64 (stack + (PAGE_SIZE * 4 - 1)))
        (set_ss (if user then 0x23 else 0x10) (set_cs (if user then 0x1B else 0x08) (set_rip entry fresh)))))
      pid PROCESS_READY PROC_DEFAULT_TIME pm (replicate (Z.to_nat PROC_MAX_FDS) 0) 0 0 0 0 vctx false.

Lemma spawned_fds fresh user entry pm pid vctx stack : fds (spawned fresh user entry pm pid vctx stack) [].
Proof. unfold fds, spawned. cbn -[replicate]. by split_and!; [..|lia| |]. Qed.

Lemma spawn_run k l fresh procs_addr user entry pm vctx stack m1 m2 :
  table_ok k → procs k = Some l → 0 ≤ count k < PROC_MAX_PROCS →
  room PCB_SIZEOF 1 (env (kfs k)) → stdout (kfs k) ≠ 0 →
  pm_create_context pm (kmem k) = Ret vctx m1 → pm_vma_alloc vctx 4 (map_flags user) m1 = Ret stack m2 →
  ∃ proc e m3 m, proc ≠ 0 ∧ pcbs k !! proc = None ∧ env_malloc (env (kfs k)) PCB_SIZEOF = (proc, e) ∧
    let fl := map_flags user in
    let kpm := pm_kernel_pagemap (pm_map m2 pm proc proc fl) in
    ranged pm kpm procs_addr (8 * PROC_MAX_PROCS) fl (pm_map m2 pm proc proc fl) m3 ∧
    ranged pm kpm 0x1000 0x10000 fl m3 m ∧
    let b := fd_add (stdout (kfs k)) (spawned fresh user entry pm (count k) vctx stack) in
    scheduler_spawn fresh procs_addr user entry pm k =
      Ret (count k) (Kst (set_env e (kfs k)) m (umem k) (Some (<[Z.to_nat (count k) := proc]> l))
                         (<[proc := b]> (pcbs k)) (count k + 1) (current_pid k) (slock k) (die_func k)).
Proof.
  intros (Hinv & Hdom & l' & Hl' & Hlen) Hl Hcnt Hroom Hout Ec Ea. assert (l' = l) as -> by congruence.
  destruct (env_malloc (env (kfs k)) PCB_SIZEOF) as [proc e] eqn:Em.
  destruct (Hroom PCB_SIZEOF proc e ltac:(done) Em) as [Hp _].
  destruct (env_malloc_fresh _ PCB_SIZEOF _ _ Hinv ltac:(done) Em) as [_ [[? _]|(_ & Hf & _)]]; [done|].
  assert (pcbs k !! proc = None) as Hnone by (apply not_elem_of_dom; set_solver).
  unfold scheduler_spawn.
  rewrite (kbind_run _ _ k proc (kset_kfs (set_env e (kfs k)) k))
    by (apply zoom_run; unfold kmalloc; by rewrite Em).
  rewrite (proj2 (Z.eqb_neq proc 0)) by done.
  rewrite (kbind_run (kget count) _ _ _ _ eq_refl), (kbind_run (kmod _) _ _ tt _ eq_refl).
  change (count (kset_kfs _ k)) with (count k).
  rewrite u64_small by (unfold PROC_MAX_PROCS in *; lia).
  set (k1 := kset_count _ _). rewrite (kbind_run _ _ k1 vctx (kset_kmem m1 k1)) by (by apply in_kmem_run). cbv zeta.
  set (fl := map_flags user). set (k2 := kset_kmem m1 k1).
  rewrite (kbind_run _ _ k2 stack (kset_kmem m2 k2)) by (by apply in_kmem_run).
  rewrite (kbind_run (kmod _) _ _ tt _ eq_refl). set (k3 := kset_kmem _ (kset_kmem m2 k2)).
  rewrite (kbind_run (kget _) _ _ _ _ eq_refl).
  destruct (map_range_run k3 pm (pm_kernel_pagemap (kmem k3)) procs_addr (8 * PROC_MAX_PROCS) fl ltac:(done)) as (m4 & R4 & H4).
  rewrite (kbind_run _ _ _ _ _ H4). set (k4 := kset_kmem m4 k3).
  destruct (map_range_run k4 pm (pm_kernel_pagemap (kmem k3)) 0x1000 0x10000 fl ltac:(done)) as (m5 & R5 & H5).
  rewrite (kbind_run _ _ _ _ _ H5), (kbind_run (put_pcb _ _) _ _ tt _ eq_refl).
  set (b0 := Pcb _ _ _ _ _ _ _ _ _ _ _ _). set (k6 := kset_pcbs _ _).
  set (k7 := kset_procs (Some (<[Z.to_nat (count k) := proc]> l)) k6).
  rewrite (kbind_run (set_proc (count k) proc) _ k6 tt k7).
  2: { unfold set_proc. change (procs k6) with (procs k).
       rewrite Hl, Hlen, (proj2 (Z.leb_le _ _)), (proj2 (Z.ltb_lt _ _)) by lia. done. }
  rewrite (kbind_run (kget _) _ _ _ _ eq_refl).
  change (stdout (kfs k7)) with (stdout (kfs k)).
  assert (names k7 (count k) proc b0) as Hn.
  { split_and!; [lia|cbn; lia| |done|cbn; apply lookup_insert_eq].
    eapply get_proc_run; [done|lia|]. apply list_lookup_insert_eq. lia. }
  rewrite (kbind_run _ _ _ _ _ (add_vnode_run k7 (count k) proc b0 [] _ Hn
    (spawned_fds fresh user entry pm (count k) vctx stack) Hout ltac:(simpl; lia))).
  exists proc, e, m4, m5. split; [done|]. split; [done|]. split; [done|]. cbv zeta. split; [exact R4|]. split; [exact R5|]. unfold kret. f_equal.
  unfold k7, k6. unfold kset_pcbs, kset_procs. cbn [kfs kmem umem procs pcbs count current_pid slock die_func].
  rewrite insert_insert_eq. done.
Qed.

(** Spawning.  With the scheduler running [ps] and a slot and a block free,
    [scheduler_spawn] returns the next pid and leaves the scheduler in the same
    kind of state with the new process last: ready to run from [entry] on its
    own stack, at the privilege asked for, interrupts on, as root, with
    [stdout] as its only descriptor.  No other process changes. *)
Theorem scheduler_spawn_spec k ps fresh procs_addr user entry pm vctx stack m1 m2
  (Hok : sched_ok k ps) (Htab : table_ok k) (Hfree : Z.of_nat (length ps) < PROC_MAX_PROCS)
  (Hroom : room PCB_SIZEOF 1 (env (kfs k))) (Hpm : pm ≠ 0) (Hout : stdout (kfs k) ≠ 0)
  (Hctx : pm_create_context pm (kmem k) = Ret vctx m1)
  (Hstack : pm_vma_alloc vctx 4 (map_flags user) m1 = Ret stack m2) :
  ∃ proc b k', scheduler_spawn fresh procs_addr user entry pm k = Ret (Z.of_nat (length ps)) k' ∧
    sched_ok k' (ps ++ [proc]) ∧ current_pid k' = current_pid k ∧
    pcbs k' !! proc = Some b ∧ pagemap b = pm ∧ fds b [stdout (kfs k)] ∧
    whoami_uid b = 0 ∧ whoami_gid b = 0 ∧
    rip (ctx b) = entry ∧ rsp (ctx b) = u64 (stack + 4 * PAGE_SIZE - 1) ∧ rflags (ctx b) = 0x202 ∧ vma_ctx b = vctx ∧
    (cs (ctx b), ss (ctx b)) = (if user then (0x1B, 0x23) else (0x08, 0x10)) ∧
    (∀ p, p ∈ ps → pcbs k' !! p = pcbs k !! p).
Proof.
  pose proof (so_count _ _ Hok) as Hcnt. destruct (so_table _ _ Hok) as (l & Hl & Hpre).
  destruct (spawn_run k l fresh procs_addr user entry pm vctx stack m1 m2 Htab Hl ltac:(lia) Hroom Hout Hctx Hstack)
    as (proc & e & m3 & m & Hp0 & Hnone & _ & _ & _ & Hrun).
  cbv zeta in Hrun. set (b := fd_add _ _) in Hrun. set (k' := Kst _ _ _ _ _ _ _ _ _) in Hrun.
  assert (∀ p, p ∈ ps → pcbs k' !! p = pcbs k !! p) as Hsame.
  { intros p Hp. unfold k'. cbn. apply lookup_insert_ne. intros ->.
    apply list_elem_of_lookup in Hp as [i Hi]. destruct (so_proc _ _ Hok _ _ Hi) as (_ & ? & ? & _). congruence. }
  exists proc, b, k'. split; [by rewrite Hrun, Hcnt|].
  assert (b = fd_add (stdout (kfs k)) (spawned fresh user entry pm (count k) vctx stack)) as Hb by done.
  split_and!; try (by rewrite Hb; destruct user); [|done|by apply lookup_insert_eq| | |done].
  - destruct Htab as (_ & _ & l' & Hl' & Hlen). assert (l' = l) as -> by congruence.
    constructor; rewrite ?length_app; simpl length.
    + eexists. split; [done|]. destruct Hpre as [rest ->]. rewrite Hcnt, Nat2Z.id.
      rewrite <- (Nat.add_0_r (length ps)) at 1. rewrite insert_app_r. rewrite length_app in Hlen.
      destruct rest as [|x rest]; [simpl in Hlen; lia|]. simpl. exists rest. by rewrite <- app_assoc.
    + apply NoDup_app. split_and!; [apply Hok| |apply NoDup_singleton]. intros p Hp ->%list_elem_of_singleton.
      pose proof (Hsame _ Hp) as Heq. unfold k' in Heq. cbn in Heq. rewrite lookup_insert_eq in Heq. congruence.
    + unfold k'. cbn. lia.
    + unfold PROC_MAX_PROCS in *. lia.
    + unfold k'. cbn. pose proof (so_current _ _ Hok). lia.
    + apply Hok.
    + intros i p Hi. change (current_pid k') with (current_pid k). destruct (decide (i = length ps)) as [->|Hne].
      * rewrite lookup_app_r, Nat.sub_diag in Hi by lia. injection Hi as <-. split; [done|]. exists b.
        pose proof (so_current _ _ Hok). rewrite decide_False by lia.
        split_and!; try done. by apply lookup_insert_eq.
      * assert (ps !! i = Some p) as Hi'.
        { rewrite lookup_app_l in Hi; [done|]. apply lookup_lt_Some in Hi. rewrite length_app in Hi. simpl in Hi. lia. }
        destruct (so_proc _ _ Hok _ _ Hi') as (? & b1 & ? & ?). split; [done|]. exists b1.
        rewrite Hsame by (by eapply list_elem_of_lookup_2). done.
  - rewrite Hb. apply (fds_add _ [] _ (spawned_fds _ _ _ _ _ _ _) Hout). simpl. lia.
  - rewrite Hb. cbn. f_equal. unfold PAGE_SIZE. lia.
Qed.

(** ** Exit *)

(** The state after the current process has exited. *)
Definition after_exit k (l : list Z) (proc : Z) (b : pcb) : kst E M :=
  let n := count k - 1 in
  Kst (set_env (env_free (env (kfs k)) proc) (kfs k)) (pm_destroy (kmem k) (pagemap b)) (umem k)
      (Some (<[Z.to_nat (current_pid k) := 0]> l)) (delete proc (pcbs k)) n
      (if n =? 0 then 0 else (current_pid k + 1) mod n) (slock k) (die_func k).

Lemma exit_step k l proc b :
  procs k = Some l → 0 ≤ current_pid k < count k → count k ≤ Z.of_nat (length l) < 2 ^ 63 →
  l !! Z.to_nat (current_pid k) = Some proc → proc ≠ 0 → pcbs k !! proc = Some b →
  pid b = current_pid k → fd_count b ≤ PROC_MAX_FDS →
  scheduler_exit pid k =
    if count k =? 1 then Halt (after_exit k l proc b) else Ret tt (after_exit k l proc b).
Proof.
  intros Hl Hc Hcnt Hproc Hp0 Hb Hpid Hfd. set (c := current_pid k) in *.
  unfold scheduler_exit. rewrite (kbind_run (kget current_pid) _ _ _ _ eq_refl). fold c.
  rewrite (kbind_run (get_proc c) _ k proc k) by (eapply get_proc_run; [done|lia|done]).
  rewrite (proj2 (Z.eqb_neq proc 0)), (kbind_run _ _ _ _ _ (get_pcb_run k proc b Hb)) by done.
  rewrite (proj2 (Z.ltb_ge _ _)) by done. cbv zeta.
  rewrite (kbind_run (put_pcb _ _) _ _ tt _ eq_refl), !(kbind_run (kmod _) _ _ tt _ eq_refl).
  set (k1 := kset_pcbs _ _).
  rewrite (kbind_run (set_proc _ 0) _ k1 tt (kset_procs (Some (<[Z.to_nat c := 0]> l)) k1)).
  2: { unfold set_proc. change (procs k1) with (procs k). cbn [pid pset_fd_table pset_ctx]. rewrite Hl, Hpid.
       rewrite (proj2 (Z.leb_le _ _)), (proj2 (Z.ltb_lt _ _)) by lia. done. }
  rewrite (kbind_run (kget count) _ _ _ _ eq_refl), !(kbind_run (kmod _) _ _ tt _ eq_refl).
  change (count (kset_procs _ k1)) with (count k). rewrite (u64_small (count k - 1)), (u64_small (c + 1)) by lia.
  assert ((count k - 1 =? 0) = (count k =? 1)) as Heq.
  { destruct (Z.eqb_spec (count k - 1) 0), (Z.eqb_spec (count k) 1); lia || done. }
  unfold after_exit. rewrite Heq.
  destruct (count k =? 1); unfold khalt, kret, k1, kset_pcbs, put_pcb; cbn; by rewrite delete_insert_eq.
Qed.

Lemma exit_run k l ps proc b :
  sched_ok k ps → procs k = Some l → Z.of_nat (length l) < 2 ^ 63 →
  ps !! Z.to_nat (current_pid k) = Some proc → pcbs k !! proc = Some b → fd_count b ≤ PROC_MAX_FDS →
  scheduler_exit pid k =
    if (length ps =? 1)%nat then Halt (after_exit k l proc b) else Ret tt (after_exit k l proc b).
Proof.
  intros Hok Hl Hlen Hproc Hb Hfd. pose proof (so_current _ _ Hok) as Hc. pose proof (so_count _ _ Hok) as Hcnt.
  destruct (so_table _ _ Hok) as (l' & Hl' & Hpre). assert (l' = l) as -> by congruence.
  destruct (so_proc _ _ Hok _ _ Hproc) as (Hp0 & b' & Hb' & Hpid & _). assert (b' = b) as -> by congruence.
  rewrite (exit_step k l proc b); try done.
  - destruct (Z.eqb_spec (count k) 1), (Nat.eqb_spec (length ps) 1); lia || done.
  - lia.
  - apply prefix_length in Hpre. lia.
  - by eapply prefix_lookup_Some.
  - lia.
Qed.

(** Exit.  When the running process exits, its slot is NULL, its block is
    freed, its address space is destroyed, one process fewer is counted and no
    other process changes; if it was the only one the machine halts. *)
Theorem scheduler_exit_spec k ps proc b
  (Hok : sched_ok k ps) (Htab : table_ok k) (Hcur : ps !! Z.to_nat (current_pid k) = Some proc)
  (Hb : pcbs k !! proc = Some b) (Hfd : fd_count b ≤ PROC_MAX_FDS) :
  ∃ k' l', procs k' = Some l' ∧ l' !! Z.to_nat (current_pid k) = Some 0 ∧
    (∀ i, i ≠ Z.to_nat (current_pid k) → (i < length ps)%nat → l' !! i = ps !! i) ∧
    pcbs k' = delete proc (pcbs k) ∧ count k' = Z.of_nat (length ps) - 1 ∧
    kmem k' = pm_destroy (kmem k) (pagemap b) ∧
    env (kfs k') = env_free (env (kfs k)) proc ∧
    scheduler_exit pid k = if (length ps =? 1)%nat then Halt k' else Ret tt k'.
Proof.
  destruct (so_table _ _ Hok) as (l & Hl & Hpre). pose proof (so_current _ _ Hok).
  exists (after_exit k l proc b), (<[Z.to_nat (current_pid k) := 0]> l).
  split_and!; try done; [| |by cbn; rewrite (so_count _ _ Hok)|by eapply exit_run; [..|exact (table_len k l Htab Hl)| | |]].
  - apply list_lookup_insert_eq. apply prefix_length in Hpre. lia.
  - intros i Hi Hlt. rewrite list_lookup_insert_ne by done.
    destruct (lookup_lt_is_Some_2 ps i Hlt) as [x Hx]. rewrite Hx. by eapply prefix_lookup_Some.
Qed.

(** The hole an exit leaves.  [scheduler_exit] lowers the number of
    processes but does not move the ones above the freed slot down, and both
    the tick and the descriptor calls take the number for the end of the table.
    With two processes, the exit of the first one is enough: the next tick finds
    the empty slot and halts the machine, although the second process is ready,
    and that process can no longer open a file. *)
Theorem exit_then_tick_halts k p q b0 bq node
  (Hok : sched_ok k [p; q]) (Htab : table_ok k) (Hcur : current_pid k = 0)
  (Hb : pcbs k !! p = Some b0) (Hq : pcbs k !! q = Some bq) (Hfd : fd_count b0 ≤ PROC_MAX_FDS) :
  ∃ k', scheduler_exit pid k = Ret tt k' ∧
    get_proc 1 k' = Ret q k' ∧ pcbs k' !! q = Some bq ∧ pstate bq = PROCESS_READY ∧
    (∀ regs, scheduler_tick regs k' = Halt (kset_slock true k')) ∧
    scheduler_proc_add_vnode 1 node k' = Ret (-1) k'.
Proof.
  destruct (so_table _ _ Hok) as (l & Hl & rest & ->). pose proof (so_count _ _ Hok) as Hcnt.
  destruct (so_proc _ _ Hok 1 q eq_refl) as (_ & bq' & Hbq' & _ & _ & _ & _ & Hst).
  assert (bq' = bq) as -> by congruence. rewrite decide_False in Hst by (rewrite Hcur; done).
  assert (p ≠ q) as Hpq. { pose proof (so_nodup _ _ Hok) as Hnd. by inversion Hnd as [|?? Hp]; set_solver. }
  exists (after_exit k ([p; q] ++ rest) p b0).
  split; [by rewrite (exit_run k ([p; q] ++ rest) [p; q] p b0 Hok Hl (table_len k _ Htab Hl) ltac:(by rewrite Hcur) Hb Hfd)|].
  unfold after_exit. rewrite Hcur, Hcnt, (so_lock _ _ Hok). cbn -[set_env].
  split_and!; try done. by rewrite lookup_delete_ne.
Qed.
End spawning.

(** *** Witnesses *)

(** Address spaces for the witnesses: the mappings made, the active one, and
    the next free address. *)
Record demo_mem := DemoMem { dm_maps : gmap (Z * Z) Z; dm_active : Z; dm_next : Z }.

#[export] Instance demo_proc_mem : ProcMem demo_mem := {
  pm_create_context pm := λ m, Ret (dm_next m) (DemoMem (dm_maps m) (dm_active m) (dm_next m + PAGE_SIZE));
  pm_vma_alloc c n fl := λ m, Ret (dm_next m) (DemoMem (dm_maps m) (dm_active m) (dm_next m + n * PAGE_SIZE));
  pm_map m pm v p fl := DemoMem (<[(pm, v) := p]> (dm_maps m)) (dm_active m) (dm_next m);
  pm_virt_to_phys m pm v := default 0 (dm_maps m !! (pm, v));
  pm_destroy m pm := m;
  pm_switch m pm := DemoMem (dm_maps m) pm (dm_next m);
  pm_kernel_pagemap m := PAGE_SIZE;
}.

Definition zero_regs : register_ctx :=
  RegisterCtx 0 0 0 0 0 0 0 0 0 0 0 0 0 0 0 0 0 0 0 0 0 0 0 0 0 0 0 0.

Definition demo_pcb (id : Z) (st : process_state) : pcb :=
  Pcb (set_rip (0x400000 + id) zero_regs) id st PROC_DEFAULT_TIME 0x8000
      ([0x500] ++ replicate (Z.to_nat PROC_MAX_FDS - 1) 0) 1 0 0 0 0x9000 false.

(** Two processes at 0x100 and 0x200, the first one running. *)
Definition demo_kst : kst demo_env demo_mem :=
  Kst (Fs ∅ (DemoEnv 9 {[0x100; 0x200]} 0) 0 0 0x500 []) (DemoMem ∅ 0x8000 0x10000) ∅
      (Some ([0x100; 0x200] ++ replicate (Z.to_nat PROC_MAX_PROCS - 2) 0))
      (<[0x100 := demo_pcb 0 PROCESS_RUNNING]> (<[0x200 := demo_pcb 1 PROCESS_READY]> ∅)) 2 0 false 0.

Lemma demo_sched_ok : sched_ok demo_kst [0x100; 0x200].
Proof.
  constructor; try done.
  - eexists. split; [reflexivity|]. by eexists.
  - by apply NoDup_cons; split; [set_solver|apply NoDup_singleton].
  - intros i p Hi. destruct i as [|[|i]]; simplify_eq/=; (split; [done|]); eexists; by split_and!.
Qed.

Lemma demo_table_ok : table_ok demo_kst.
Proof.
  split; [done|]. split; [|eexists; split; [reflexivity|by vm_compute]]. unfold demo_kst. cbn -[demo_pcb]. set_solver.
Qed.

Lemma demo_fds i st : fds (demo_pcb i st) [0x500].
Proof. unfold fds, demo_pcb. cbn -[replicate]. split_and!; [done|lia|done|by apply Forall_singleton]. Qed.

Lemma demo_names : names demo_kst 0 0x100 (demo_pcb 0 PROCESS_RUNNING).
Proof. by split_and!. Qed.

Lemma round_robin_witness :
  ∃ outs k', run_ticks [zero_regs; set_rax 5 zero_regs] demo_kst = Ret outs k' ∧ current_pid k' = 0.
Proof.
  destruct (round_robin demo_kst [0x100; 0x200] [zero_regs; set_rax 5 zero_regs] demo_sched_ok eq_refl)
    as (outs & k' & Hrun & _ & Hcur & _).
  exists outs, k'. exact (conj Hrun Hcur).
Defined.

Lemma descriptors_spec_witness : ∃ k', scheduler_proc_remove_vnode 0 0 demo_kst = Ret 0 k'.
Proof.
  destruct (descriptors_spec demo_kst 0 0x100 (demo_pcb 0 PROCESS_RUNNING) [0x500] 0x500 0 demo_names (demo_fds _ _)
    ltac:(lia) ltac:(simpl; lia)) as [_ (k' & Hk' & _)].
  exists k'. exact Hk'.
Defined.

Lemma scheduler_spawn_spec_witness :
  ∃ proc k', scheduler_spawn zero_regs 0x3000 true 0x400000 0x8000 demo_kst = Ret 2 k' ∧
    sched_ok k' [0x100; 0x200; proc].
Proof.
  destruct (scheduler_spawn_spec demo_kst [0x100; 0x200] zero_regs 0x3000 true 0x400000 0x8000 _ _ _ _ demo_sched_ok
    demo_table_ok ltac:(reflexivity) ltac:(apply demo_room; simpl; lia) ltac:(lia) ltac:(discriminate) eq_refl eq_refl)
    as (proc & b & k' & Hrun & Hok & _).
  exists proc, k'. exact (conj Hrun Hok).
Defined.

Lemma scheduler_exit_spec_witness : ∃ k', scheduler_exit pid demo_kst = Ret tt k' ∧ count k' = 1.
Proof.
  destruct (scheduler_exit_spec demo_kst [0x100; 0x200] 0x100 (demo_pcb 0 PROCESS_RUNNING) demo_sched_ok
    demo_table_ok eq_refl eq_refl ltac:(discriminate)) as (k' & l' & _ & _ & _ & _ & Hc & _ & _ & Hrun).
  exists k'. exact (conj Hrun Hc).
Defined.

Lemma exit_then_tick_halts_witness :
  ∃ k', scheduler_exit pid demo_kst = Ret tt k' ∧ scheduler_tick zero_regs k' = Halt (kset_slock true k').
Proof.
  destruct (exit_then_tick_halts demo_kst 0x100 0x200 _ _ 0x500 demo_sched_ok demo_table_ok eq_refl eq_refl eq_refl
    ltac:(discriminate)) as (k' & Hrun & _ & _ & _ & Ht & _).
  exists k'. exact (conj Hrun (Ht zero_regs)).
Defined.
