(* ===== verification/ProcSpace.v ===== *)
(** * The address space of a process

    The interface [ProcMem] of [Scheduler], implemented by the page tables
    ([Vmm]) and the regions ([Vma]); what [map_range_to_pagemap] and
    [scheduler_spawn] of [proc/scheduler.c] do to a pagemap. *)

From stdpp Require Import base gmap list.
From Stdlib Require Import ZArith Lia.
From S2P Require Import Prelude Ram PageAlloc Vnode Vfs Scheduler Pmm Vmm Vma.
#[local] Open Scope Z_scope.

Section instance.
Context (hhdm_offset : Z) (fuel : nat) {S : Type} `{PageAlloc S}.

(** A routine of [mm/vma.c] among the globals of [mm/vmm.c]. *)
Definition on_alloc {A} (c : kernel S A) : kernel (@vmm S) A :=
  zoom alloc (λ s g, set_alloc g s) c.

(** [fuel] bounds the search of [vma_alloc]; a new context needs one step. *)
Definition vmm_proc_mem : ProcMem (@vmm S) := {|
  pm_create_context pm := on_alloc (vma_create_context hhdm_offset pm);
  pm_vma_alloc c n fl := on_alloc (vma_alloc hhdm_offset fuel c n fl);
  pm_map g pm v p fl := set_alloc g (vmm_map hhdm_offset (alloc g) pm v p fl);
  pm_virt_to_phys g pm v := virt_to_phys hhdm_offset (alloc g) pm v;
  pm_destroy g pm := set_alloc g (vmm_destroy_pagemap hhdm_offset (alloc g) pm);
  pm_switch g pm := vmm_switch_pagemap hhdm_offset g pm;
  pm_kernel_pagemap g := kernel_pagemap g;
|}.
End instance.

Section facts.
Context (hhdm_offset : Z) (fuel : nat) {S : Type} `{LAWS : PageAllocLaws hhdm_offset S}.
Implicit Types s : S.

Abbreviation HH f := (hhdm_offset + f).
Abbreviation V2P := (virt_to_phys hhdm_offset).
#[local] Existing Instance vmm_proc_mem.
#[local] Instance PM : ProcMem (@vmm S) := vmm_proc_mem hhdm_offset fuel.

(** ** Growing a tree beside others *)

(** The tree at [root] has grown by at most [n] pages; the frames in use that are
    not its tables keep their bytes. *)
Record extended (owner : gmap Z (list Z)) s (root : Z) (n : nat) (owner' : gmap Z (list Z)) s' : Prop := {
  ex_wf : pt_wf hhdm_offset owner' s' root;
  ex_free : (length (pa_free s) ≤ length (pa_free s') + n)%nat;
  ex_kept : ∀ f, kept hhdm_offset owner s f → kept hhdm_offset owner' s' f ∧
    ∀ a, page_byte hhdm_offset f a → load8 (pa_ram s') a = load8 (pa_ram s) a;
}.

Lemma extended_refl owner s root : pt_wf hhdm_offset owner s root → extended owner s root 0 owner s.
Proof. intros. split; [done|lia|done]. Qed.

Lemma extended_trans o1 s1 root n1 o2 s2 n2 o3 s3 :
  extended o1 s1 root n1 o2 s2 → extended o2 s2 root n2 o3 s3 → extended o1 s1 root (n1 + n2) o3 s3.
Proof.
  intros [_ F1 K1] [W2 F2 K2]. split; [done|lia|]. intros f Hf. destruct (K1 f Hf) as [Hf2 B1].
  destruct (K2 f Hf2) as [Hf3 B2]. split; [done|]. intros a Ha. by rewrite B2, B1.
Qed.

Lemma vmm_map_extended owner s root virt phys fl :
  pt_wf hhdm_offset owner s root → (3 ≤ length (pa_free s))%nat → 0 ≤ Z.lor phys fl < 2 ^ 64 →
  let s' := vmm_map hhdm_offset s (HH root) virt phys fl in
  ∃ owner', extended owner s root 3 owner' s' ∧
    ∀ v, page_entry hhdm_offset s' root v =
      if decide (same_page v virt) then Z.lor phys fl else page_entry hhdm_offset s root v.
Proof.
  intros Hwf Hfree Hr. destruct (vmm_map_grown hhdm_offset owner s root virt phys fl Hwf Hfree Hr)
    as (o & W & O & (u & Hu & Hl) & Pl & P & B & N).
  cbv zeta. exists o. split; [|exact P]. split; [done|rewrite Hu, length_app; lia|].
  intros f Hf. pose proof Hf as [Hp Hnf Ho]. assert (o !! f = None) as Ho'.
  { apply not_elem_of_dom. intros [Hd|Hd]%N; [by apply not_elem_of_dom in Ho|done]. }
  split.
  - constructor; [by apply Pl| |done]. intros Hin. apply Hnf. rewrite Hu. apply elem_of_app. by right.
  - intros a Ha. apply B. intros h Hh. apply elem_of_dom in Hh as [π Hh].
    eapply frames_apart; [exact Hwf|exact Hf|by eapply wf_page_ok| |exact Ha]. intros ->. congruence.
Qed.

(** ** A second tree *)

(** The tables on the way to [v] in one tree are not tables of the other. *)
Definition apart (ownerk owner : gmap Z (list Z)) (v : Z) : Prop :=
  ∀ f π, ownerk !! f = Some π → π `prefix_of` path_of v → owner !! f = None.

Lemma virt_to_phys_ext ownerk s kroot s' v :
  pt_wf hhdm_offset ownerk s kroot →
  (∀ f π a, ownerk !! f = Some π → π `prefix_of` path_of v → page_byte hhdm_offset f a →
     load8 (pa_ram s') a = load8 (pa_ram s) a) →
  V2P s' (HH kroot) v = V2P s (HH kroot) v.
Proof.
  intros Hwf Hb. unfold virt_to_phys. rewrite !entry_tbl.
  assert (∀ f π i, ownerk !! f = Some π → π `prefix_of` path_of v → 0 ≤ i < 512 →
    tbl hhdm_offset (pa_ram s') f i = tbl hhdm_offset (pa_ram s) f i) as Ht.
  { intros f π i Hf Hp Hi. apply tbl_ext; [done|]. intros a. by apply (Hb f π). }
  rewrite (Ht kroot []) by (apply Hwf || (by apply prefix_nil) || by apply pml_idx_range).
  destruct (walk_cases hhdm_offset ownerk s kroot v Hwf) as [(H4 & _)|(H4 & O3 & H32)]; rewrite H4; cbn [negb]; [done|].
  rewrite (next_table_frame hhdm_offset ownerk s kroot kroot []) by (done || apply Hwf || (simpl; lia) || by apply pml_idx_range).
  rewrite !entry_tbl, (Ht _ _ (pml3_idx v) O3) by ((by exists [pml3_idx v; pml2_idx v]) || by apply pml_idx_range).
  destruct H32 as [(H3 & _)|(H3 & O2 & H21)]; rewrite H3; cbn [negb]; [done|].
  rewrite (next_table_frame hhdm_offset ownerk s kroot _ [pml4_idx v]) by (done || (simpl; lia) || by apply pml_idx_range).
  rewrite !entry_tbl, (Ht _ _ (pml2_idx v) O2) by ((by exists [pml2_idx v]) || by apply pml_idx_range).
  destruct H21 as [(H2 & _)|(H2 & O1 & _)]; rewrite H2; cbn [negb]; [done|].
  rewrite (next_table_frame hhdm_offset ownerk s kroot _ [pml4_idx v; pml3_idx v]) by (done || (simpl; lia) || by apply pml_idx_range).
  by rewrite !entry_tbl, (Ht _ _ (pml1_idx v) O1) by (done || by apply pml_idx_range).
Qed.

(** Growing one tree does not change what another one says of [v]. *)
Lemma extended_source ownerk kroot owner s root n owner' s' v :
  pt_wf hhdm_offset ownerk s kroot → apart ownerk owner v → extended owner s root n owner' s' →
  V2P s' (HH kroot) v = V2P s (HH kroot) v.
Proof.
  intros Hk Ha Hx. apply (virt_to_phys_ext ownerk); [done|]. intros f π a Hf Hp.
  apply (ex_kept _ _ _ _ _ _ Hx f). destruct (wf_frame _ _ _ _ Hk f π Hf) as (? & ? & _). constructor; [done..|]. by eapply Ha.
Qed.

Lemma virt_to_phys_page s pm v v' : same_page v v' → V2P s pm v = V2P s pm v'.
Proof. intros [[= H4 H3 H2] H1]. unfold virt_to_phys. by rewrite H4, H3, H2, H1. Qed.

Lemma page_entry_page s root v v' : same_page v v' → page_entry hhdm_offset s root v = page_entry hhdm_offset s root v'.
Proof. intros [E1 E2]. unfold page_entry. by rewrite E1, E2. Qed.

Lemma virt_to_phys_frame s pm v : 0 ≤ V2P s pm v < 2 ^ 52 ∧ V2P s pm v mod 4096 = 0.
Proof.
  assert (∀ x, 0 ≤ Z.land x ADDR_MASK < 2 ^ 52 ∧ Z.land x ADDR_MASK mod 4096 = 0) as Hm.
  { intros x. split.
    - change ADDR_MASK with (Z.land ADDR_MASK (Z.ones 52)). rewrite Z.land_assoc, Z.land_ones by lia. apply Z.mod_pos_bound. lia.
    - change 4096 with (2 ^ 12). rewrite <- Z.land_ones, <- Z.land_assoc by lia. apply Z.land_0_r. }
  unfold virt_to_phys. destruct (negb _); [done|]. destruct (negb _); [done|]. destruct (negb _); [done|]. apply Hm.
Qed.

(** ** Sharing a range *)

(** [v] is one of the [n] pages from [start] on. *)
Definition in_pages (start n v : Z) : Prop := Exists (λ i, same_page v (start + i * PAGE_SIZE)) (seqZ 0 n).

#[export] Instance in_pages_dec start n v : Decision (in_pages start n v).
Proof. unfold in_pages. apply _. Defined.

Lemma in_pages_iff start n v : in_pages start n v ↔ ∃ i, 0 ≤ i < n ∧ same_page v (start + i * PAGE_SIZE).
Proof.
  unfold in_pages. rewrite Exists_exists. split; intros (i & Hi & Hs); exists i; (split; [|done]); [by apply elem_of_seqZ in Hi|by apply elem_of_seqZ].
Qed.

(** The entries of a pagemap, given as a function, after the pages of a range
    that are mapped in [src] have been mapped to the same frames. *)
Definition share (src : Z → Z) (start n fl : Z) (e : Z → Z) (v : Z) : Z :=
  if decide (in_pages start n v ∧ src v ≠ 0) then Z.lor (src v) fl else e v.

Lemma share_snoc src start n fl e v :
  0 ≤ n →
  (∀ v', same_page v v' → src v' = src v) →
  share src start (n + 1) fl e v =
  if decide (same_page v (start + n * PAGE_SIZE) ∧ src v ≠ 0) then Z.lor (src v) fl else share src start n fl e v.
Proof.
  intros Hn Hsrc. unfold share.
  destruct (decide (same_page v (start + n * PAGE_SIZE) ∧ src v ≠ 0)) as [[Hs H0]|Hno].
  - rewrite decide_True; [done|]. split; [|done]. apply in_pages_iff. exists n. split; [lia|done].
  - apply decide_ext. rewrite !in_pages_iff. split; intros [(i & Hi & Hs) H0]; (split; [|done]); exists i; (split; [|done]); [|lia].
    destruct (decide (i = n)) as [->|]; [|lia]. by destruct Hno.
Qed.

(** However the tree at [root] grows, the kernel's pagemap at [kpm] says of the [n]
    pages from [start] on what it said in the state [sB]. *)
Definition stable (owner : gmap Z (list Z)) s (root kpm : Z) sB (start n : Z) : Prop :=
  ∀ m owner' s' i, extended owner s root m owner' s' → 0 ≤ i < n →
    V2P s' kpm (start + i * PAGE_SIZE) = V2P sB kpm (start + i * PAGE_SIZE).

Lemma stable_source ownerk kroot ownerB sB root nB owner s start n :
  pt_wf hhdm_offset ownerk sB kroot → extended ownerB sB root nB owner s →
  (∀ i, 0 ≤ i < n → apart ownerk ownerB (start + i * PAGE_SIZE)) →
  stable owner s root (HH kroot) sB start n.
Proof.
  intros Hk Hx Hap m o' s' i Hx' Hi. eapply (extended_source ownerk); [done|by apply Hap|by eapply extended_trans].
Qed.

(** The loop, from round [i] on. *)
Lemma map_range_rounds kpm sB owner g0 root start fl (n i : nat) :
  0 ≤ fl < 2 ^ 64 → 0 ≤ start → start + Z.of_nat (i + n) * PAGE_SIZE < 2 ^ 64 →
  stable owner (alloc g0) root kpm sB start (Z.of_nat (i + n)) →
  ∀ owner1 g, extended owner (alloc g0) root (3 * i) owner1 (alloc g) → (3 * n ≤ length (pa_free (alloc g)))%nat →
  (∀ v, page_entry hhdm_offset (alloc g) root v =
     share (V2P sB kpm) start (Z.of_nat i) fl (page_entry hhdm_offset (alloc g0) root) v) →
  ∃ owner' s', map_range_loop (Datatypes.S n) g (HH root) kpm start (Z.of_nat i * PAGE_SIZE) (Z.of_nat (i + n) * PAGE_SIZE) fl =
      Some (set_alloc g s') ∧ extended owner (alloc g0) root (3 * (i + n)) owner' s' ∧
    ∀ v, page_entry hhdm_offset s' root v =
      share (V2P sB kpm) start (Z.of_nat (i + n)) fl (page_entry hhdm_offset (alloc g0) root) v.
Proof.
  intros Hfl Hst. revert i. induction n as [|n IH]; intros i Hend Hsrc owner1 g Hx Hfree He.
  - cbn [map_range_loop]. rewrite Nat.add_0_r, Z.leb_refl. exists owner1, (alloc g). split; [by destruct g|done].
  - cbn [map_range_loop]. unfold PAGE_SIZE in *. rewrite (proj2 (Z.leb_gt _ _)) by lia.
    set (v := start + Z.of_nat i * 4096) in *. rewrite (u64_small v), (u64_small (_ + 4096)) by (unfold v; lia).
    cbn [pm_virt_to_phys PM vmm_proc_mem].
    rewrite (Hsrc _ _ _ (Z.of_nat i) Hx ltac:(lia) : V2P (alloc g) kpm v = V2P sB kpm v).
    assert (∀ x, same_page x v → V2P sB kpm x = V2P sB kpm v) as Hsame by (intros; by apply virt_to_phys_page).
    assert (∀ x x', same_page x x' → V2P sB kpm x' = V2P sB kpm x) as Hpage by (intros; symmetry; by apply virt_to_phys_page).
    assert (∀ x, share (V2P sB kpm) start (Z.of_nat (Datatypes.S i)) fl (page_entry hhdm_offset (alloc g0) root) x =
      if decide (same_page x v ∧ V2P sB kpm x ≠ 0) then Z.lor (V2P sB kpm x) fl else page_entry hhdm_offset (alloc g) root x) as Hsnoc.
    { intros x. rewrite (Nat2Z.inj_succ i : Z.of_nat (Datatypes.S i) = Z.of_nat i + 1), share_snoc, He by (lia || apply Hpage). done. }
    replace (Z.of_nat i * 4096 + 4096) with (Z.of_nat (Datatypes.S i) * 4096) by lia.
    replace (i + Datatypes.S n)%nat with (Datatypes.S i + n)%nat in * by lia.
    destruct (Z.eqb_spec (V2P sB kpm v) 0) as [E0|E0].
    + apply (IH (Datatypes.S i) Hend Hsrc owner1); [|lia|].
      * destruct Hx as [W F K]. split; [done|lia|done].
      * intros x. rewrite Hsnoc, decide_False; [done|]. intros [Hs H0]. apply H0. by rewrite (Hsame x).
    + cbn [pm_map PM vmm_proc_mem]. destruct (virt_to_phys_frame sB kpm v) as [Hp _].
      destruct (vmm_map_extended owner1 (alloc g) root v (V2P sB kpm v) fl) as (o2 & X2 & P2);
        [apply Hx|lia|apply (lor_range _ _ 64); lia|].
      set (s2 := vmm_map _ _ _ _ _ _) in *.
      destruct (IH (Datatypes.S i) Hend Hsrc o2 (set_alloc g s2)) as (o' & s' & Hrun & X' & P').
      * replace (3 * Datatypes.S i)%nat with (3 * i + 3)%nat by lia. by eapply extended_trans.
      * pose proof (ex_free _ _ _ _ _ _ X2). cbn [alloc set_alloc]. lia.
      * intros x. cbn [alloc set_alloc]. rewrite P2, Hsnoc. destruct (decide (same_page x v)) as [Hs|Hs].
        -- rewrite decide_True by (split; [done|]; by rewrite (Hsame x)). by rewrite (Hsame x).
        -- rewrite decide_False by naive_solver. done.
      * exists o', s'. split; [exact Hrun|done].
Qed.

(** [map_range_to_pagemap] of [n] pages. *)
Lemma ranged_share kpm sB owner g root start (n : nat) fl g' :
  pt_wf hhdm_offset owner (alloc g) root → stable owner (alloc g) root kpm sB start (Z.of_nat n) →
  0 ≤ fl < 2 ^ 64 → 0 ≤ start → start + Z.of_nat n * PAGE_SIZE < 2 ^ 64 → (3 * n ≤ length (pa_free (alloc g)))%nat →
  ranged (HH root) kpm start (Z.of_nat n * PAGE_SIZE) fl g g' →
  ∃ owner' s', g' = set_alloc g s' ∧ extended owner (alloc g) root (3 * n) owner' s' ∧
    ∀ v, page_entry hhdm_offset s' root v =
      share (V2P sB kpm) start (Z.of_nat n) fl (page_entry hhdm_offset (alloc g) root) v.
Proof.
  intros Hwf Hsrc Hfl Hst Hend Hfree Hr.
  destruct (map_range_rounds kpm sB owner g root start fl n 0 Hfl Hst Hend Hsrc owner g) as (o' & s' & Hrun & X & P);
    [by apply extended_refl|done| |].
  { intros v. unfold share. rewrite decide_False; [done|]. intros [(i & Hi & _)%in_pages_iff _]. simpl in Hi. lia. }
  exists o', s'. split; [|done]. unfold ranged in Hr. rewrite Z.div_mul in Hr by done.
  replace (Z.to_nat (Z.of_nat n + 1)) with (Datatypes.S n) in Hr by lia.
  change (Z.of_nat 0 * PAGE_SIZE) with 0 in Hrun. change (0 + n)%nat with n in Hrun. rewrite Hrun in Hr. congruence.
Qed.

(** ** The stack *)

(** The context and the stack of a new process: the tree has grown, and the four
    pages from [VMA_START] on are mapped to fresh frames. *)
Lemma stack_run owner (g : @vmm S) root fl :
  pt_wf hhdm_offset owner (alloc g) root → (0 < fuel)%nat → (19 ≤ length (pa_free (alloc g)))%nat →
  0 ≤ fl < 2 ^ 64 ∧ Z.land fl ADDR_MASK = 0 →
  ∃ vctx g1 s2 owner2 pages, pm_create_context (HH root) g = Ret vctx g1 ∧
    pm_vma_alloc vctx 4 fl g1 = Ret VMA_START (set_alloc g s2) ∧
    extended owner (alloc g) root 19 owner2 s2 ∧ length pages = 4%nat ∧ NoDup pages ∧
    (∀ p, p ∈ pages → p ∈ pa_free (alloc g)) ∧
    ∀ v, page_entry hhdm_offset s2 root v =
      match list_find (λ i, same_page v (VMA_START + i * PAGE_SIZE)) (seqZ 0 4) with
      | Some (i, _) => Z.lor (default 0 (pages !! i)) fl
      | None => page_entry hhdm_offset (alloc g) root v
      end.
Proof.
  intros Hwf Hfuel Hfree Hfl. destruct (pa_free (alloc g)) as [|c [|r ps]] eqn:Ef; simpl in Hfree; [lia..|].
  destruct (create_context_run hhdm_offset owner (alloc g) root c r ps Hwf Ef) as (s1 & Hrun1 & Hc & Hf1 & He1 & K1).
  destruct (first_alloc hhdm_offset fuel owner s1 root c r 4 fl Hc Hfuel ltac:(lia) Hfl) as
    (q & pages & o2 & s2 & Hrun2 & Hl & Hnd & Hpg & Hin & _ & _ & Hu & Hins); [rewrite Hf1; lia|].
  exists (HH c), (set_alloc g s1), s2, o2, pages.
  split; [cbn [pm_create_context PM vmm_proc_mem]; unfold on_alloc; by rewrite (zoom_run alloc _ _ g _ _ Hrun1)|].
  split; [cbn [pm_vma_alloc PM vmm_proc_mem]; unfold on_alloc; by rewrite (zoom_run alloc _ _ (set_alloc g s1) _ _ Hrun2)|].
  split; [|split; [done|split; [done|split]]].
  - split; [apply Hins|rewrite Hf1 in Hu; rewrite Ef; simpl; lia|]. intros f Hf. destruct (K1 f Hf) as (Hfr & Hf' & B1).
    split; [by apply (in_kept _ _ _ _ _ _ _ _ _ _ _ _ _ Hins)|]. intros a Ha.
    by rewrite (in_bytes _ _ _ _ _ _ _ _ _ _ _ _ _ Hins f a Hf' Hfr Ha), B1.
  - intros p Hp. destruct (Hpg p Hp) as [Hp1 _]. rewrite Hf1 in Hp1. by do 2 right.
  - intros v. destruct (list_find _ _) as [[i x]|] eqn:El.
    + apply list_find_Some in El as (Hi & Hs & _). apply lookup_seqZ in Hi as [-> Hi]. rewrite Z.add_0_l in Hs.
      destruct (lookup_lt_is_Some_2 pages i ltac:(lia)) as [p Hp]. rewrite Hp, (page_entry_page s2 root _ _ Hs). by apply Hin.
    + rewrite (in_rest _ _ _ _ _ _ _ _ _ _ _ _ _ Hins); [apply He1|]. intros k Hk Hs.
      apply list_find_None in El. rewrite Forall_forall in El. apply (El (Z.of_nat k)); [|done]. apply elem_of_seqZ. lia.
Qed.

(** ** Spawning *)

Context {E : Type} `{KernelEnvLaws E}.
Implicit Types k : kst E (@vmm S).

(** The entries of the process's pagemap after [scheduler_spawn], from the entries
    [e] it had and the kernel's mapping [src]: first the stack, then the page of
    the process block, then the process table, then the pages from 0x1000 on. *)
Definition spawn_entries (src : Z → Z) (procs_addr proc fl : Z) (pages : list Z) (e : Z → Z) : Z → Z :=
  share src 0x1000 16 fl (share src procs_addr 4 fl (λ v,
    if decide (same_page v proc) then Z.lor proc fl else
    match list_find (λ i, same_page v (VMA_START + i * PAGE_SIZE)) (seqZ 0 4) with
    | Some (i, _) => Z.lor (default 0 (pages !! i)) fl
    | None => e v
    end)).

Lemma map_flags_ok user : 0 ≤ map_flags user < 2 ^ 64 ∧ Z.land (map_flags user) ADDR_MASK = 0.
Proof. destruct user; vm_compute; done. Qed.

(** C8: The address space of a new process, page by page.  [scheduler_spawn] gives
    it a stack of four fresh frames at [VMA_START]; then maps the page of the
    process block, one to one; then shares with it the kernel's pages of the
    process table; and last the kernel's pages from 0x1000 to 0x11000, which are
    the kernel heap.  Each step replaces what the ones before mapped, all with
    the rights of the process; every other page is as before.  So the pages of
    the stack are frames of the kernel heap where the kernel has mapped them. *)
Theorem spawn_address_space k l fresh procs_addr user entry owner ownerk root kroot proc e
    (Hwf : pt_wf hhdm_offset owner (alloc (kmem k)) root) (Hk : pt_wf hhdm_offset ownerk (alloc (kmem k)) kroot)
    (Hkpm : kernel_pagemap (kmem k) = HH kroot)
    (Hap : ∀ i, 0 ≤ i < 16 → apart ownerk owner (0x1000 + i * PAGE_SIZE))
    (Hap' : ∀ i, 0 ≤ i < 4 → apart ownerk owner (procs_addr + i * PAGE_SIZE))
    (Hfree : (82 ≤ length (pa_free (alloc (kmem k))))%nat) (Hfuel : (0 < fuel)%nat)
    (Htab : table_ok k) (Hl : procs k = Some l) (Hcnt : 0 ≤ count k < PROC_MAX_PROCS)
    (Hout : stdout (kfs k) ≠ 0) (Hpa : 0 ≤ procs_addr < 2 ^ 63)
    (Hm : env_malloc (env (kfs k)) PCB_SIZEOF = (proc, e)) (Hproc : 0 < proc < 2 ^ 64)
    (Hroom : room PCB_SIZEOF 1 (env (kfs k))) :
  ∃ k' owner' pages, scheduler_spawn fresh procs_addr user entry (HH root) k = Ret (count k) k' ∧
    pt_wf hhdm_offset owner' (alloc (kmem k')) root ∧
    length pages = 4%nat ∧ NoDup pages ∧ (∀ p, p ∈ pages → p ∈ pa_free (alloc (kmem k))) ∧
    (∀ v, page_entry hhdm_offset (alloc (kmem k')) root v =
      spawn_entries (V2P (alloc (kmem k)) (HH kroot)) procs_addr proc (map_flags user) pages
        (page_entry hhdm_offset (alloc (kmem k)) root) v) ∧
    ∀ i, 0 ≤ i < 16 → let v := 0x1000 + i * PAGE_SIZE in
      V2P (alloc (kmem k)) (HH kroot) v ≠ 0 →
      V2P (alloc (kmem k')) (HH root) v = V2P (alloc (kmem k)) (HH kroot) v.
Proof.
  set (g := kmem k) in *. pose proof (map_flags_ok user) as Hfl. set (fl := map_flags user) in *.
  destruct (stack_run owner g root fl Hwf Hfuel ltac:(lia) Hfl) as
    (vctx & g1 & s2 & o2 & pages & Hrun1 & Hrun2 & X2 & Hpl & Hnd & Hpg & P2).
  destruct (spawn_run k l fresh procs_addr user entry (HH root) vctx VMA_START g1 (set_alloc g s2) Htab Hl Hcnt Hroom Hout Hrun1 Hrun2)
    as (proc' & e' & g4 & g5 & Hp0 & _ & Hm' & R4 & R5 & Hrun).
  rewrite Hm in Hm'. injection Hm' as <- <-. fold fl in R4, R5.
  pose proof (ex_free _ _ _ _ _ _ X2) as F2.
  destruct (vmm_map_extended o2 s2 root proc proc fl) as (o3 & X3 & P3); [apply X2|lia|apply (lor_range _ _ 64); lia|].
  cbn [pm_map pm_kernel_pagemap PM vmm_proc_mem alloc set_alloc kernel_pagemap] in R4, R5. rewrite Hkpm in R4, R5.
  set (s3 := vmm_map _ _ _ _ _ _) in *. pose proof (ex_free _ _ _ _ _ _ X3) as F3.
  pose proof (extended_trans _ _ _ _ _ _ _ _ _ X2 X3) as X03.
  destruct (ranged_share (HH kroot) (alloc g) o3 (set_alloc (set_alloc g s2) s3) root procs_addr 4 fl g4) as (o4 & s4 & -> & X4 & P4);
    [apply X3|by eapply (stable_source ownerk)|lia|lia|unfold PAGE_SIZE; lia|cbn [alloc set_alloc]; lia|exact R4|].
  cbn [alloc set_alloc] in X4, P4. pose proof (ex_free _ _ _ _ _ _ X4) as F4.
  pose proof (extended_trans _ _ _ _ _ _ _ _ _ X03 X4) as X04.
  destruct (ranged_share (HH kroot) (alloc g) o4 (set_alloc (set_alloc (set_alloc g s2) s3) s4) root 0x1000 16 fl g5)
    as (o5 & s5 & -> & X5 & P5);
    [apply X4|by eapply (stable_source ownerk)|lia|lia|unfold PAGE_SIZE; lia|cbn [alloc set_alloc]; lia|exact R5|].
  cbn [alloc set_alloc] in X5, P5. eexists _, o5, pages. split; [exact Hrun|]. cbn [kmem alloc set_alloc].
  split; [apply X5|]. split; [done|]. split; [done|]. split; [done|].
  split.
  - intros v. unfold spawn_entries. rewrite P5. unfold share at 1 2. destruct (decide _); [done|].
    rewrite P4. unfold share. destruct (decide _); [done|]. rewrite P3. destruct (decide _); [done|]. apply P2.
  - intros i Hi. cbv zeta. set (v := 0x1000 + i * PAGE_SIZE). intros Hv. rewrite (virt_to_phys_entry _ _ _ _ _ (ex_wf _ _ _ _ _ _ X5)), P5. unfold share at 1.
    rewrite decide_True by (split; [apply in_pages_iff; exists i; split; [exact Hi|split; reflexivity]|exact Hv]).
    destruct (virt_to_phys_frame (alloc g) (HH kroot) v) as [Hf1 Hf2]. exact (land_ADDR_MASK_lor _ _ Hf2 Hf1 (proj2 Hfl)).
Qed.
End facts.

(** *** A machine with 127 pages after [pmm_init]: the kernel has mapped its first
    heap page, the process has a new pagemap *)

Definition big_memmap : list memmap_entry := [MemmapEntry 0x1000 0x80000 LIMINE_MEMMAP_USABLE].

#[local] Instance big_alloc : PageAlloc pmm := pmm_alloc demo_hhdm demo_beyond.
#[local] Instance big_laws : PageAllocLaws demo_hhdm pmm := pmm_alloc_laws demo_hhdm demo_beyond ltac:(done).

Lemma big_pool : ∃ s : pmm, pa_inv s ∧ length (pa_free s) = 127%nat.
Proof.
  destruct (pmm_init_spec_aux demo_hhdm ∅ big_memmap) as (s & _ & H2 & _ & _ & H5);
    [by vm_compute| |by vm_compute|].
  { split_and!; [|apply (bool_decide_unpack _); by vm_compute|by vm_compute].
    repeat constructor; intros; try discriminate; by vm_compute. }
  exists s. split; [exact H2|]. change (pa_free s) with (reverse (free_stack s)). rewrite length_reverse.
  replace (Z.of_nat (length (usable_pages big_memmap))) with 128 in H5 by (by vm_compute).
  replace (stack_array_size big_memmap / PAGE_SIZE) with 1 in H5 by (by vm_compute). lia.
Qed.

Lemma big_spaces : ∃ (g : @vmm pmm) owner ownerk root kroot frame,
  pt_wf demo_hhdm owner (alloc g) root ∧ pt_wf demo_hhdm ownerk (alloc g) kroot ∧
  kernel_pagemap g = demo_hhdm + kroot ∧ (∀ v, pml4_idx v < 256 → apart ownerk owner v) ∧
  (82 ≤ length (pa_free (alloc g)))%nat ∧ frame ≠ 0 ∧ virt_to_phys demo_hhdm (alloc g) (demo_hhdm + kroot) 0x1000 = frame.
Proof.
  destruct big_pool as (s & Hinv & Hlen). destruct (pa_free s) as [|kroot [|frame ps]] eqn:Ef; [done|done|].
  destruct (fresh_root demo_hhdm s _ _ Hinv Ef) as (s1 & _ & W1 & F1 & _).
  destruct (request_wf demo_hhdm _ s1 kroot frame ps W1 F1) as (s2 & _ & W2 & F2 & _ & (Hm & H0 & Hr & _) & _).
  simpl in Hlen. unfold PAGE_SIZE in *.
  destruct (vmm_map_grown demo_hhdm _ s2 kroot 0x1000 frame 3 W2 ltac:(rewrite F2; lia) ltac:(apply (lor_range _ _ 64); lia))
    as (ok & W3 & _ & (u & Hu & Hul) & _ & P3 & _). set (s3 := vmm_map _ _ _ _ _ _) in *.
  destruct (pa_free s3) as [|p qs] eqn:E3; [apply (f_equal length) in Hu; rewrite F2, ?E3, app_nil_r in Hu; lia|].
  destruct (new_pagemap_forked demo_hhdm ok (Vmm s3 (demo_hhdm + kroot) 0 0) kroot p qs W3 eq_refl E3) as (g & _ & F & Hf & Hkp & _).
  pose proof (forked_wf _ _ _ _ _ _ F) as Wp. pose proof (fk_wf _ _ _ _ _ _ F) as Wk.
  exists g, (<[p := []]> (shared ok)), ok, p, kroot, frame. split; [exact Wp|]. split; [exact Wk|]. split; [exact Hkp|]. split; [|split; [|split]].
  - intros v Hv f π Hfo Hp. rewrite lookup_insert_ne by (intros <-; rewrite (fk_new _ _ _ _ _ _ F) in Hfo; discriminate).
    apply eq_None_not_Some. intros [π' [Ho Hh]%shared_lookup]. rewrite Hfo in Ho. injection Ho as <-.
    destruct π as [|i π]; [simpl in Hh; lia|]. destruct Hp as [x Hx]. injection Hx as <- _. simpl in Hh. lia.
  - rewrite Hf. apply (f_equal length) in Hu. rewrite F2, ?E3, length_app in Hu. simpl in Hu. lia.
  - lia.
  - rewrite (virt_to_phys_entry _ _ _ _ _ Wk). destruct (forked_entry demo_hhdm ok s3 kroot p (alloc g) 0x1000 W3 F) as [-> _].
    rewrite P3, decide_True by done. apply land_ADDR_MASK_lor; [done|lia|done].
Qed.

(** One running process before the new one, on that machine. *)
Definition big_kst (g : @vmm pmm) : kst demo_env (@vmm pmm) :=
  Kst (kfs demo_kst) g ∅ (procs demo_kst) (pcbs demo_kst) 2 0 false 0.

Lemma spawn_address_space_witness : ∃ (k k' : kst demo_env (@vmm pmm)) root kroot frame,
  frame ≠ 0 ∧ virt_to_phys demo_hhdm (alloc (kmem k)) (demo_hhdm + kroot) VMA_START = frame ∧
  virt_to_phys demo_hhdm (alloc (kmem k')) (demo_hhdm + root) VMA_START = frame.
Proof.
  destruct big_spaces as (g & owner & ownerk & root & kroot & frame & W & Wk & Hk & Hap & Hf & Hn & Hv).
  assert (∀ v, 0 ≤ v < 2 ^ 39 → apart ownerk owner v) as Ha.
  { intros v Hr. apply Hap. rewrite pml_idx_div by lia. rewrite Z.div_small by lia. done. }
  destruct (spawn_address_space demo_hhdm 1 (big_kst g) _ zero_regs 0x20000 true 0x400000 owner ownerk root kroot _ _
    W Wk Hk ltac:(intros; apply Ha; unfold PAGE_SIZE; lia) ltac:(intros; apply Ha; unfold PAGE_SIZE; lia) Hf ltac:(lia)
    demo_table_ok eq_refl ltac:(done) ltac:(discriminate) ltac:(lia) (surjective_pairing _)
    ltac:(split; vm_compute; reflexivity) ltac:(apply demo_room; simpl; lia))
    as (k' & o' & pages & _ & _ & _ & _ & _ & _ & H).
  exists (big_kst g), k', root, kroot, frame. split; [exact Hn|]. split; [exact Hv|].
  specialize (H 0 ltac:(lia)). cbn -[virt_to_phys] in H. unfold VMA_START, PAGE_SIZE. rewrite <- Hv in Hn |- *. exact (H Hn).
Defined.
