(* ===== verification/Syscall.v ===== *)
(** * System calls

    [sys/syscall.c] and [syscall_handler] of [sys/intr.c]: the calls a process
    makes with [int $0x80], from the registers of the interrupt to the file
    systems and back.  The buffers and paths a process passes are in [umem];
    arguments are converted from the 64-bit registers to the C types of the
    call. *)

From stdpp Require Import base gmap list.
From Stdlib Require Import ZArith Lia.
From S2P Require Import Prelude Ram CString Vnode Vfs Ramfs Devfs VfsMacros Scheduler.
#[local] Open Scope Z_scope.

(** [util/errno.h] *)
Definition EOK : Z := 0.
Definition ENOENT : Z := 1.
Definition EBADF : Z := 2.
Definition EFAULT : Z := 3.
Definition EINVAL : Z := 4.
Definition EBADPID : Z := 5.
Definition ENOTIMPL : Z := 6.
Definition EACCES : Z := 7.
Definition ENOTTY : Z := 8.
Definition ESRCH : Z := 9.
Definition ENOMEM : Z := 10.

Definition O_CREATE : Z := BIT 0.

Definition SYS_exit : Z := 0.
Definition SYS_open : Z := 1.
Definition SYS_close : Z := 2.
Definition SYS_write : Z := 3.
Definition SYS_read : Z := 4.
Definition SYS_stat : Z := 5.
Definition SYS_setuid : Z := 6.
Definition SYS_setgid : Z := 7.
Definition SYS_ioctl : Z := 8.
Definition SYS_getpid : Z := 9.
Definition SYS_uname : Z := 10.
Definition SYSCALL_TABLE_SIZE : Z := 11.

Definition store32 : mem → Z → Z → mem := store_le 4.

Section syscalls.
Context {E M : Type} `{KernelEnv E} `{ProcMem M}.
Context (ops_table : Z → option (vnode_ops E)) (stale : pcb → Z) (fuel : nat).

(** The string a process passes; NULL is [None]. *)
Definition user_string (p : Z) : kernel (kst E M) (option (list Z)) :=
  λ k, if p =? 0 then Ret None k else
       match read_cstr fuel (umem k) p with Some l => Ret (Some l) k | None => NoFuel end.

(** [VFS_ROOT()->mount] *)
Definition root_vnode_mount : kernel (fs E) Z :=
  let* rm := kget root_mount in
  let* m := get_mount rm in
  let* v := get_vnode (m_root m) in
  kret (v_mount v).

(** [scheduler_get_current()->fd_table[fd]]: the table has 1024 entries. *)
Definition fd_entry (b : pcb) (fd : Z) : kernel (kst E M) Z :=
  if (0 <=? fd) && (fd <? PROC_MAX_FDS) then kopt (fd_table b !! Z.to_nat fd) else kfault.

Definition sys_exit (code : Z) : kernel (kst E M) Z :=
  let* cur := scheduler_get_current in
  if cur =? 0 then kret (- ESRCH) else
  scheduler_exit stale ;;;
  kret 0.

Definition sys_open (path flags kind : Z) : kernel (kst E M) Z :=
  let* cur := scheduler_get_current in
  if cur =? 0 then kret (- ESRCH) else
  let* l := user_string path in
  let* mnt := in_kfs root_vnode_mount in
  let* node := in_kfs (vfs_lazy_lookup fuel fuel mnt l) in
  let* node :=
    (if negb (Z.land flags O_CREATE =? 0) && (node =? 0) then
       let* l' := kopt l in
       let* mnt := in_kfs root_vnode_mount in
       let* par := in_kfs (vfs_lazy_lookup_last fuel mnt l) in
       in_kfs (vfs_create_vnode ops_table par (Some (FILENAME_FROM_PATH l')) kind)
     else kret node) in
  if node =? 0 then kret (- ENOENT) else
  in_kfs (let* t := now in upd_vnode node (set_access_time t)) ;;;
  let* cur := scheduler_get_current in
  let* b := get_pcb cur in
  scheduler_proc_add_vnode (pid b) node.

Definition sys_close (fd : Z) : kernel (kst E M) Z :=
  let* cur := scheduler_get_current in
  if cur =? 0 then kret (- ESRCH) else
  let* b := get_pcb cur in
  let* s := scheduler_proc_remove_vnode (pid b) fd in
  if s =? -1 then kret (- EBADF) else
  if s =? -2 then kret (- EBADPID) else kret 0.

Definition sys_write (fd buff size : Z) : kernel (kst E M) Z :=
  let* cur := scheduler_get_current in
  if cur =? 0 then kret (- ESRCH) else
  let* b := get_pcb cur in
  let* node := fd_entry b fd in
  if node =? 0 then kret (- EBADF) else
  let* ok := in_kfs (vfs_am_i_allowed node (whoami_uid b) (whoami_gid b) 2) in
  if negb ok then kret (- EACCES) else
  kassert (negb (buff =? 0)) ;;;
  kassert (negb (size =? 0)) ;;;
  let* bytes := kget (λ k, bytes_at (umem k) buff (Z.to_nat size)) in
  let* ret := in_kfs (vfs_write ops_table node (Some bytes) size 0) in
  kret (if ret =? -1 then - ENOTIMPL else ret).

Definition sys_read (fd buff size : Z) : kernel (kst E M) Z :=
  let* cur := scheduler_get_current in
  if cur =? 0 then kret (- ESRCH) else
  let* b := get_pcb cur in
  let* node := fd_entry b fd in
  if node =? 0 then kret (- EBADF) else
  let* ok := in_kfs (vfs_am_i_allowed node (whoami_uid b) (whoami_gid b) 1) in
  if negb ok then kret (- EACCES) else
  kassert (negb (buff =? 0)) ;;;
  kassert (negb (size =? 0)) ;;;
  let* (ret, bytes) := in_kfs (vfs_read ops_table node buff size 0) in
  kmod (λ k, kset_umem (store_bytes (umem k) buff bytes) k) ;;;
  kret (if ret =? -1 then - ENOTIMPL else ret).

(** [stat_t]: size, flags, type, uid, gid, mode. *)
Definition store_stat (m : mem) (p : Z) (v : vnode) : mem :=
  let m := store32 m (p + 8) (flags v) in
  let m := store64 m p (vsize v) in
  let m := store32 m (p + 12) (vtype v) in
  let m := store32 m (p + 16) (uid v) in
  let m := store32 m (p + 20) (gid v) in
  store32 m (p + 24) (mode v).

Definition sys_stat (fd stat : Z) : kernel (kst E M) Z :=
  let* cur := scheduler_get_current in
  if cur =? 0 then kret (- ESRCH) else
  if stat =? 0 then kret (- EFAULT) else
  let* b := get_pcb cur in
  let* node := fd_entry b fd in
  if node =? 0 then kret (- EBADF) else
  let* v := in_kfs (get_vnode node) in
  kmod (λ k, kset_umem (store_stat (umem k) stat v) k) ;;;
  kret 0.

Definition sys_setuid (u : Z) : kernel (kst E M) Z :=
  let* cur := scheduler_get_current in
  if cur =? 0 then kret (- ESRCH) else
  upd_pcb cur (pset_whoami_uid u) ;;; kret 0.

Definition sys_setgid (g : Z) : kernel (kst E M) Z :=
  let* cur := scheduler_get_current in
  if cur =? 0 then kret (- ESRCH) else
  upd_pcb cur (pset_whoami_gid g) ;;; kret 0.

Definition sys_ioctl (fd cmd arg : Z) : kernel (kst E M) Z :=
  let* cur := scheduler_get_current in
  if cur =? 0 then kret (- ESRCH) else
  let* b := get_pcb cur in
  let* node := fd_entry b fd in
  if node =? 0 then kret (- EBADF) else
  let* v := in_kfs (get_vnode node) in
  if ops v =? 0 then kfault else
  let* o := kopt (ops_table (ops v)) in
  match op_ioctl o with
  | None => kret (- ENOTTY)
  | Some f => in_kfs (f node cmd arg)
  end.

Definition sys_getpid : kernel (kst E M) Z :=
  let* cur := scheduler_get_current in
  if cur =? 0 then kret (- ESRCH) else
  let* b := get_pcb cur in kret (s32 (pid b)).

(** The first statement returns. *)
Definition sys_uname (buf : Z) : kernel (kst E M) Z := kret (- ENOTIMPL).

(** [syscall_table], each call with the registers its parameters come from. *)
Definition syscall_table (n a1 a2 a3 : Z) : kernel (kst E M) Z :=
  if n =? SYS_exit then sys_exit (s32 a1) else
  if n =? SYS_open then sys_open a1 a2 (u8 a3) else
  if n =? SYS_close then sys_close (s32 a1) else
  if n =? SYS_write then sys_write (s32 a1) a2 a3 else
  if n =? SYS_read then sys_read (s32 a1) a2 a3 else
  if n =? SYS_stat then sys_stat (s32 a1) a2 else
  if n =? SYS_setuid then sys_setuid (u32 a1) else
  if n =? SYS_setgid then sys_setgid (u32 a1) else
  if n =? SYS_ioctl then sys_ioctl (s32 a1) (u32 a2) (u32 a3) else
  if n =? SYS_getpid then sys_getpid else sys_uname a1.

(** The end of the handler: [proc->errno], and [proc->in_syscall = false]. The
    warning about ENOTTY reads the descriptor table at the whole register. *)
Definition syscall_finish (proc rdi status : Z) : kernel (kst E M) unit :=
  (if status <? 0 then
     upd_pcb proc (pset_errno (u32 (- status))) ;;;
     let* b := get_pcb proc in
     if errno b =? ENOTTY then fd_entry b rdi ;;; kret tt else kret tt
   else kret tt) ;;;
  upd_pcb proc (pset_in_syscall false).

(** [syscall_handler(ctx)]: the result is what [ *ctx ] holds afterwards. *)
Definition syscall_handler (regs : register_ctx) : kernel (kst E M) register_ctx :=
  let* proc := scheduler_get_current in
  (if proc =? 0 then kret tt else upd_pcb proc (pset_in_syscall true)) ;;;
  let* status :=
    (if rax regs <? SYSCALL_TABLE_SIZE then syscall_table (rax regs) (rdi regs) (rsi regs) (rdx regs)
     else kret (- EINVAL)) in
  (if proc =? 0 then kret tt else syscall_finish proc (rdi regs) status) ;;;
  kret (set_rax (u64 status) regs).
End syscalls.

(** ** Running the handler *)

Section facts.
Context {E M : Type} `{KernelEnvLaws E} `{ProcMem M}.
Context (ops_table : Z → option (vnode_ops E)) (stale : pcb → Z) (fuel : nat).
Implicit Types k : kst E M.

(** The process that makes the call, and its block. *)
Definition caller k (cur : Z) (b : pcb) : Prop :=
  scheduler_get_current k = Ret cur k ∧ cur ≠ 0 ∧ pcbs k !! cur = Some b.

(** The state with another block for the caller. *)
Definition with_pcb k (cur : Z) (b : pcb) : kst E M := kset_pcbs (<[cur := b]> (pcbs k)) k.

Lemma caller_with k cur b b' : caller k cur b → caller (with_pcb k cur b') cur b'.
Proof.
  intros (Hc & H0' & _). split_and!; [|done|apply lookup_insert_eq].
  unfold scheduler_get_current in *. cbn. destruct (procs k) as [l|] eqn:El; [|by injection Hc as <-].
  by apply (get_proc_same k).
Qed.

Lemma upd_pcb_run k p b f : pcbs k !! p = Some b → upd_pcb p f k = Ret tt (with_pcb k p (f b)).
Proof. intros Hp. unfold upd_pcb. by rewrite (kbind_run _ _ _ _ _ (get_pcb_run k p b Hp)). Qed.

Lemma fd_entry_run k b fd p :
  0 ≤ fd < PROC_MAX_FDS → fd_table b !! Z.to_nat fd = Some p → fd_entry b fd k = Ret p k.
Proof.
  intros Hfd Hp. unfold fd_entry. by rewrite (proj2 (Z.leb_le 0 fd)), (proj2 (Z.ltb_lt fd PROC_MAX_FDS)), Hp by lia.
Qed.

Lemma in_kfs_run {A} (c : kernel (fs E) A) k a s :
  c (kfs k) = Ret a s → in_kfs c k = Ret a (kset_kfs s k).
Proof. apply zoom_run. Qed.

(** The caller's block during the call and after it. *)
Definition entered (b : pcb) : pcb := pset_in_syscall true b.
Definition left_with (status : Z) (b : pcb) : pcb :=
  pset_in_syscall false (if status <? 0 then pset_errno (u32 (- status)) b else b).

Lemma finish_run k cur b rdi status :
  pcbs k !! cur = Some b → (status < 0 → u32 (- status) ≠ ENOTTY) →
  syscall_finish cur rdi status k = Ret tt (with_pcb k cur (left_with status b)).
Proof.
  intros Hb Hst. unfold syscall_finish, left_with. destruct (Z.ltb_spec status 0) as [Hlt|Hge].
  - rewrite kbind_assoc, (kbind_run _ _ _ _ _ (upd_pcb_run k cur b _ Hb)). set (k1 := with_pcb k cur _).
    assert (pcbs k1 !! cur = Some (pset_errno (u32 (- status)) b)) as Hb1 by apply lookup_insert_eq.
    rewrite kbind_assoc, (kbind_run _ _ _ _ _ (get_pcb_run k1 cur _ Hb1)). cbn [errno pset_errno].
    rewrite (proj2 (Z.eqb_neq _ _)) by auto. rewrite kbind_ret, (upd_pcb_run k1 cur _ _ Hb1).
    unfold with_pcb, k1, kset_pcbs. cbn. by rewrite insert_insert_eq.
  - rewrite kbind_ret. by apply upd_pcb_run.
Qed.

Lemma handler_run k cur b regs status k1 b1 :
  caller k cur b →
  (if rax regs <? SYSCALL_TABLE_SIZE
   then syscall_table ops_table stale fuel (rax regs) (rdi regs) (rsi regs) (rdx regs)
   else kret (- EINVAL)) (with_pcb k cur (entered b)) = Ret status k1 →
  pcbs k1 !! cur = Some b1 → (status < 0 → u32 (- status) ≠ ENOTTY) →
  syscall_handler ops_table stale fuel regs k =
    Ret (set_rax (u64 status) regs) (with_pcb k1 cur (left_with status b1)).
Proof.
  intros (Hc & Hc0 & Hb) Hbody Hb1 Hst. unfold syscall_handler.
  rewrite (kbind_run _ _ _ _ _ Hc), (proj2 (Z.eqb_neq cur 0)) by done.
  rewrite (kbind_run _ _ _ _ _ (upd_pcb_run k cur b _ Hb)). fold (entered b).
  rewrite (kbind_run _ _ _ _ _ Hbody), (kbind_run _ _ _ _ _ (finish_run k1 cur b1 (rdi regs) status Hb1 Hst)). done.
Qed.

Lemma kset_kfs_id k : kset_kfs (kfs k) k = k.
Proof. by destruct k. Qed.

Lemma allowed_run k p v u g action :
  p ≠ 0 → heap (kfs k) !! p = Some (OVnode v) →
  in_kfs (vfs_am_i_allowed p u g action) k = Ret (allowed v u g action) k.
Proof.
  intros Hp0 Hp. rewrite (in_kfs_run _ k (allowed v u g action) (kfs k)); [by rewrite kset_kfs_id|].
  unfold vfs_am_i_allowed. rewrite (proj2 (Z.eqb_neq p 0)) by done.
  by rewrite (kbind_run _ _ _ _ _ (get_vnode_run (kfs k) p v Hp)).
Qed.

(** The prologue shared by the calls on an open file: the caller, its block
    and the vnode of the descriptor. *)
Lemma on_descriptor {A} k cur b fd p (f : Z → pcb → Z → kernel (kst E M) A) (none : kernel (kst E M) A) :
  caller k cur b → 0 ≤ fd < PROC_MAX_FDS → fd_table b !! Z.to_nat fd = Some p →
  (let* cur := scheduler_get_current in
   if cur =? 0 then none else
   let* b := get_pcb cur in
   let* node := fd_entry b fd in f cur b node) k = f cur b p k.
Proof.
  intros (Hc & Hc0 & Hb) Hfd Hp. rewrite (kbind_run _ _ _ _ _ Hc), (proj2 (Z.eqb_neq cur 0)) by done.
  by rewrite (kbind_run _ _ _ _ _ (get_pcb_run k cur b Hb)), (kbind_run _ _ _ _ _ (fd_entry_run k b fd p Hfd Hp)).
Qed.

(** ** Calls that are refused *)

(** The calls that fail, and with which error number. *)
Inductive refuses k (cur : Z) (b : pcb) (regs : register_ctx) : Z → Prop :=
| unknown_call : SYSCALL_TABLE_SIZE ≤ rax regs → refuses k cur b regs EINVAL
| no_uname : rax regs = SYS_uname → refuses k cur b regs ENOTIMPL
| stat_null : rax regs = SYS_stat → rsi regs = 0 → refuses k cur b regs EFAULT
| not_open :
    rax regs ∈ [SYS_write; SYS_read; SYS_ioctl] ∨ (rax regs = SYS_stat ∧ rsi regs ≠ 0) →
    0 ≤ s32 (rdi regs) < PROC_MAX_FDS → fd_table b !! Z.to_nat (s32 (rdi regs)) = Some 0 →
    refuses k cur b regs EBADF
| close_not_open :
    rax regs = SYS_close → names k (pid b) cur b →
    (s32 (rdi regs) < 0 ∨ PROC_MAX_FDS ≤ s32 (rdi regs) ∨ fd_table b !! Z.to_nat (s32 (rdi regs)) = Some 0) →
    refuses k cur b regs EBADF
| no_permission action p v :
    (rax regs = SYS_write ∧ action = 2) ∨ (rax regs = SYS_read ∧ action = 1) →
    0 ≤ s32 (rdi regs) < PROC_MAX_FDS → fd_table b !! Z.to_nat (s32 (rdi regs)) = Some p → p ≠ 0 →
    heap (kfs k) !! p = Some (OVnode v) → allowed v (whoami_uid b) (whoami_gid b) action = false →
    refuses k cur b regs EACCES.

Lemma refuses_body k cur b regs e :
  caller k cur b → refuses k cur b regs e →
  (if rax regs <? SYSCALL_TABLE_SIZE
   then syscall_table ops_table stale fuel (rax regs) (rdi regs) (rsi regs) (rdx regs)
   else kret (- EINVAL)) k = Ret (- e) k.
Proof.
  intros Hc Hr. pose proof Hc as (Hcur & Hc0 & Hb).
  destruct Hr as [Hn|Hn|Hn Hs|Hn Hfd Hp|Hn Hnm Hp|action p v Hn Hfd Hp Hp0 Hv Ha].
  - by rewrite (proj2 (Z.ltb_ge _ _)).
  - by rewrite Hn.
  - rewrite Hn. cbn. unfold sys_stat. by rewrite (kbind_run _ _ _ _ _ Hcur), (proj2 (Z.eqb_neq cur 0)), Hs.
  - destruct Hn as [Hn|[Hn Hs]].
    + repeat (apply elem_of_cons in Hn as [->|Hn];
        [cbn; unfold sys_write, sys_read, sys_ioctl; by rewrite (on_descriptor k cur b _ 0)|]).
      by apply not_elem_of_nil in Hn.
    + rewrite Hn. cbn. unfold sys_stat.
      rewrite (kbind_run _ _ _ _ _ Hcur), (proj2 (Z.eqb_neq cur 0)), (proj2 (Z.eqb_neq (rsi regs) 0)) by done.
      by rewrite (kbind_run _ _ _ _ _ (get_pcb_run k cur b Hb)), (kbind_run _ _ _ _ _ (fd_entry_run k b _ 0 Hfd Hp)).
  - rewrite Hn. cbn. unfold sys_close.
    rewrite (kbind_run _ _ _ _ _ Hcur), (proj2 (Z.eqb_neq cur 0)), (kbind_run _ _ _ _ _ (get_pcb_run k cur b Hb)) by done.
    destruct Hnm as (Hpid & Hget & _ & _). unfold scheduler_proc_remove_vnode. rewrite kbind_assoc.
    rewrite (kbind_run (kget count) _ k (count k) k), (proj2 (Z.leb_gt _ _)), kbind_assoc by (done || lia).
    rewrite (kbind_run _ _ _ _ _ Hget), (proj2 (Z.eqb_neq cur 0)), kbind_assoc by done.
    rewrite (kbind_run _ _ _ _ _ (get_pcb_run k cur b Hb)).
    assert ((s32 (rdi regs) <? 0) || (PROC_MAX_FDS <=? s32 (rdi regs)) ||
            (default 0 (fd_table b !! Z.to_nat (s32 (rdi regs))) =? 0) = true) as ->; [|done].
    destruct Hp as [Hp|[Hp|Hp]]; [by rewrite (proj2 (Z.ltb_lt _ _))| |rewrite Hp; apply orb_true_r].
    by rewrite (proj2 (Z.leb_le PROC_MAX_FDS _)), orb_true_r.
  - destruct Hn as [[Hn ->]|[Hn ->]]; rewrite Hn; cbn.
    + unfold sys_write. rewrite (on_descriptor k cur b _ p), (proj2 (Z.eqb_neq p 0)) by done.
      by rewrite (kbind_run _ _ _ _ _ (allowed_run k p v _ _ _ Hp0 Hv)), Ha.
    + unfold sys_read. rewrite (on_descriptor k cur b _ p), (proj2 (Z.eqb_neq p 0)) by done.
      by rewrite (kbind_run _ _ _ _ _ (allowed_run k p v _ _ _ Hp0 Hv)), Ha.
Qed.

Lemma refuses_entered k cur b regs e :
  caller k cur b → refuses k cur b regs e → refuses (with_pcb k cur (entered b)) cur (entered b) regs e.
Proof.
  intros Hc [| | | |Hn (? & Hg & ? & ?) Hp|]; try (by econstructor).
  apply close_not_open; [done| |done].
  split_and!; [cbn; lia|cbn; lia| |done|apply lookup_insert_eq]. by apply (get_proc_same k).
Qed.

Lemma refuses_errno k cur b regs e : refuses k cur b regs e → 0 < e < 8.
Proof. intros []; done. Qed.

End facts.

(** ** Reading and writing *)

Section files.
Context {E M : Type} `{KernelEnvLaws E} `{ProcMem M}.
Context (stale : pcb → Z) (junk : Z) (fuel : nat).
Implicit Types k : kst E M.

(** An open file the caller has permission for. *)
Record open_file k (b : pcb) (fd action p : Z) (v : vnode) : Prop := {
  of_range : 0 ≤ fd < PROC_MAX_FDS;
  of_entry : fd_table b !! Z.to_nat fd = Some p;
  of_vnode : heap (kfs k) !! p = Some (OVnode v);
  of_nonnull : p ≠ 0;
  of_unlocked : locked v = false;
  of_allowed : allowed v (whoami_uid b) (whoami_gid b) action = true;
}.

Lemma sys_write_run k cur b fd buff size p v ret s' :
  caller k cur b → open_file k b fd 2 p v → buff ≠ 0 → size ≠ 0 →
  vfs_write (kernel_ops junk fuel) p (Some (bytes_at (umem k) buff (Z.to_nat size))) size 0 (kfs k) = Ret ret s' →
  sys_write (kernel_ops junk fuel) fd buff size k = Ret (if ret =? -1 then - ENOTIMPL else ret) (kset_kfs s' k).
Proof.
  intros Hc [Hr He Hv Hp0 _ Ha] Hbuf Hsize Hw. unfold sys_write.
  rewrite (on_descriptor k cur b fd p), (proj2 (Z.eqb_neq p 0)) by done.
  rewrite (kbind_run _ _ _ _ _ (allowed_run k p v _ _ _ Hp0 Hv)), Ha. cbn [negb].
  rewrite (proj2 (Z.eqb_neq buff 0)), (proj2 (Z.eqb_neq size 0)) by done. cbn [negb]. unfold kassert. rewrite !kbind_ret.
  by rewrite (kbind_run (kget _) _ _ _ _ eq_refl), (kbind_run _ _ _ _ _ (in_kfs_run _ k ret s' Hw)).
Qed.

(** C9: Output of a process, from the interrupt to the serial port.  [write] on
    a descriptor of standard output with a non-empty buffer sends exactly the
    bytes of the process's buffer to the console, in order, returns their
    number in [rax], stamps the device with the time, frees its lock, and
    leaves the process outside the call. *)
Theorem syscall_write_stdout k cur b regs p v dev time e'
  (Hcaller : caller k cur b) (Hcall : rax regs = SYS_write) (Hfile : open_file k b (s32 (rdi regs)) 2 p v)
  (Hty : vtype v = VNODE_DEV) (Hops : ops v = DEVFS_OPS) (Hdata : data v = dev)
  (Hdev : heap (kfs k) !! dev = Some (ODev STDOUT_READ STDOUT_WRITE))
  (Hbuf : rsi regs ≠ 0) (Hsize : 0 < rdx regs < 2 ^ 31) (Htime : env_time (env (kfs k)) = (time, e')) :
  let s := kfs k in
  syscall_handler (kernel_ops junk fuel) stale fuel regs k =
    Ret (set_rax (rdx regs) regs)
        (with_pcb (kset_kfs (Fs (<[p := OVnode (set_modify_time time (set_locked false v))]> (heap s)) e'
                      (root_mount s) (devfs_root s) (stdout s)
                      (console s ++ bytes_at (umem k) (rsi regs) (Z.to_nat (rdx regs)))) k)
                  cur (pset_in_syscall false b)).
Proof.
  intros s. set (k1 := with_pcb k cur (entered b)).
  set (bytes := bytes_at (umem k) (rsi regs) (Z.to_nat (rdx regs))).
  assert (Z.of_nat (length bytes) = rdx regs) as Hlen by (unfold bytes; rewrite bytes_at_length; lia).
  assert (caller k1 cur (entered b)) as Hc1 by (by eapply caller_with).
  assert (open_file k1 (entered b) (s32 (rdi regs)) 2 p v) as Hf1 by (by destruct Hfile; constructor).
  destruct Hfile as [_ _ Hv _ Hl _].
  pose proof (stdout_write_run junk fuel (kfs k) p v dev bytes 0 time e' Hv Hty Hl Hops Hdata Hdev ltac:(lia) Htime) as Hw.
  rewrite Hlen in Hw.
  assert (rdx regs ≠ 0) as Hs0 by lia.
  pose proof (sys_write_run k1 cur (entered b) _ _ _ p v _ _ Hc1 Hf1 Hbuf Hs0 Hw) as Hbody.
  rewrite (proj2 (Z.eqb_neq (rdx regs) (-1))) in Hbody by lia.
  rewrite (handler_run _ _ _ k cur b regs _ _ (entered b) Hcaller (ltac:(rewrite Hcall; exact Hbody))).
  - unfold left_with. rewrite (proj2 (Z.ltb_ge _ _)), u64_small by lia.
    f_equal. unfold with_pcb, kset_pcbs, kset_kfs. cbn. by rewrite insert_insert_eq.
  - cbn. apply lookup_insert_eq.
  - lia.
Qed.

(** C10: Reading a file of the RAM file system, from the interrupt to the
    process's buffer.  [read] on a descriptor the caller may read returns the
    number of bytes read, the smaller of the size asked for and the size of the
    file; the buffer holds the first bytes of the file, the memory around it and
    every file are unchanged. *)
Theorem syscall_read_file k cur b regs p v bytes
  (Hcaller : caller k cur b) (Hcall : rax regs = SYS_read) (Hfile : open_file k b (s32 (rdi regs)) 1 p v)
  (Hops : ops v = RAMFS_OPS) (Hholds : file_holds (kfs k) p bytes) (Hbytes : Forall (λ c, 0 ≤ c < 256) bytes)
  (Hlen : Z.of_nat (length bytes) < 2 ^ 63) (Hbuf : rsi regs ≠ 0) (Hsize : 0 < rdx regs < 2 ^ 31) :
  let n := Z.min (rdx regs) (Z.of_nat (length bytes)) in
  ∃ m', syscall_handler (kernel_ops junk fuel) stale fuel regs k =
          Ret (set_rax n regs) (with_pcb (kset_umem m' k) cur (pset_in_syscall false b)) ∧
    bytes_at m' (rsi regs) (Z.to_nat n) = take (Z.to_nat n) bytes ∧
    (∀ a, ¬ (rsi regs ≤ a < rsi regs + n) → load8 m' a = load8 (umem k) a).
Proof.
  intros n. set (k1 := with_pcb k cur (entered b)). set (got := take (Z.to_nat (rdx regs)) bytes).
  assert (Z.of_nat (length got) = n) as Hn by (unfold got, n; rewrite length_take; lia).
  assert (caller k1 cur (entered b)) as Hc1 by (by eapply caller_with).
  destruct Hfile as [Hrange Hent Hv Hp0 Hl Ha].
  pose proof (vfs_read_run junk (kernel_ops junk fuel) fuel eq_refl (kfs k) p bytes (rsi regs) (rdx regs)
    (conj Hholds (ex_intro _ v (conj Hv (conj Hl Hops)))) Hbuf ltac:(lia) ltac:(lia)) as Hread.
  cbv zeta in Hread. fold got in Hread. rewrite Hn in Hread.
  assert (sys_read (kernel_ops junk fuel) (s32 (rdi regs)) (rsi regs) (rdx regs) k1 =
          Ret n (kset_umem (store_bytes (umem k) (rsi regs) got) k1)) as Hbody.
  { unfold sys_read. rewrite (on_descriptor k1 cur (entered b) _ p), (proj2 (Z.eqb_neq p 0)) by done.
    rewrite (kbind_run _ _ _ _ _ (allowed_run k1 p v _ _ _ Hp0 Hv)). change (whoami_uid (entered b)) with (whoami_uid b).
    change (whoami_gid (entered b)) with (whoami_gid b). rewrite Ha. cbn [negb].
    rewrite (proj2 (Z.eqb_neq (rsi regs) 0)), (proj2 (Z.eqb_neq (rdx regs) 0)) by (done || lia). cbn [negb].
    unfold kassert. rewrite !kbind_ret.
    rewrite (kbind_run _ _ _ _ _ (in_kfs_run _ k1 (n, got) (kfs k) Hread)).
    rewrite (kbind_run (kmod _) _ _ tt _ eq_refl). unfold kret.
    rewrite (proj2 (Z.eqb_neq n (-1))) by (unfold n; lia). done. }
  exists (store_bytes (umem k) (rsi regs) got). split_and!.
  - rewrite (handler_run _ _ _ k cur b regs _ _ (entered b) Hcaller (ltac:(rewrite Hcall; exact Hbody))).
    + unfold left_with. rewrite (proj2 (Z.ltb_ge n 0)), u64_small by (unfold n; lia).
      f_equal. unfold with_pcb, kset_pcbs, kset_umem. cbn. by rewrite insert_insert_eq.
    + cbn. apply lookup_insert_eq.
    + unfold n. lia.
  - assert (got = take (Z.to_nat n) bytes) as <-.
    { unfold got, n. destruct (Z.min_spec (rdx regs) (Z.of_nat (length bytes))) as [[_ ->]|[Hle ->]]; [done|].
      rewrite !firstn_all2 by lia. done. }
    replace (Z.to_nat n) with (length got) by lia. apply bytes_at_stored. by apply Forall_take.
  - intros a Hout. rewrite load8_store_bytes, decide_False by lia. done.
Qed.

(** ** Opening *)

(** [VFS_ROOT()->mount] is [mnt]. *)
Definition root_is (s : fs E) (mnt : Z) : Prop :=
  ∃ m v, heap s !! root_mount s = Some (OMount m) ∧ heap s !! m_root m = Some (OVnode v) ∧ v_mount v = mnt.

Lemma root_vnode_mount_run s mnt : root_is s mnt → root_vnode_mount s = Ret mnt s.
Proof.
  intros (m & v & Hm & Hv & <-). unfold root_vnode_mount. rewrite (kbind_run (kget _) _ _ _ _ eq_refl).
  by rewrite (kbind_run _ _ _ _ _ (get_mount_run s _ m Hm)), (kbind_run _ _ _ _ _ (get_vnode_run s _ v Hv)).
Qed.

Lemma user_string_run k p l :
  p ≠ 0 → cstr (umem k) p l → (length l < fuel)%nat → user_string fuel p k = Ret (Some l) k.
Proof.
  intros Hp Hl Hf. unfold user_string. by rewrite (proj2 (Z.eqb_neq p 0)), (read_cstr_ok fuel _ p l Hl Hf).
Qed.

Lemma sys_open_run ops_table k cur b path flags kind mnt names node v time e' l :
  caller k cur b → Scheduler.names k (pid b) cur b → fds b l → (length l < 1024)%nat →
  path ≠ 0 → cstr (umem k) path (path_of names) → (length (path_of names) < fuel)%nat →
  root_is (kfs k) mnt → vfs_lazy_lookup fuel fuel mnt (Some (path_of names)) (kfs k) = Ret node (kfs k) →
  node ≠ 0 → heap (kfs k) !! node = Some (OVnode v) → env_time (env (kfs k)) = (time, e') →
  sys_open ops_table fuel path flags kind k =
    Ret (Z.of_nat (length l))
        (with_pcb (kset_kfs (set_heap (<[node := OVnode (set_access_time time v)]> (heap (kfs k))) (set_env e' (kfs k))) k)
                  cur (fd_add node b)).
Proof.
  intros Hc Hn Hl Hlen Hp0 Hstr Hf Hroot Hlook Hnode Hv Ht. pose proof Hc as (Hcur & Hc0 & Hb).
  unfold sys_open. rewrite (kbind_run _ _ _ _ _ Hcur), (proj2 (Z.eqb_neq cur 0)) by done.
  rewrite (kbind_run _ _ _ _ _ (user_string_run k path _ Hp0 Hstr Hf)).
  rewrite (kbind_run _ _ _ _ _ (in_kfs_run _ k mnt (kfs k) (root_vnode_mount_run _ _ Hroot))), kset_kfs_id.
  rewrite (kbind_run _ _ _ _ _ (in_kfs_run _ k node (kfs k) Hlook)), kset_kfs_id.
  rewrite (proj2 (Z.eqb_neq node 0)), andb_false_r, kbind_ret, (proj2 (Z.eqb_neq node 0)) by done.
  set (s1 := set_heap (<[node := OVnode (set_access_time time v)]> (heap (kfs k))) (set_env e' (kfs k))).
  assert ((let* t := now in upd_vnode node (set_access_time t)) (kfs k) = Ret tt s1) as Hstamp.
  { rewrite (kbind_run now _ _ time (set_env e' (kfs k))) by (unfold now; by rewrite Ht).
    by apply (upd_vnode_run (set_env e' (kfs k)) node v). }
  rewrite (kbind_run _ _ _ _ _ (in_kfs_run _ k tt s1 Hstamp)). set (k1 := kset_kfs s1 k).
  assert (scheduler_get_current k1 = Ret cur k1) as Hcur1.
  { unfold scheduler_get_current in *. change (procs k1) with (procs k). change (current_pid k1) with (current_pid k).
    destruct (procs k) eqn:El; [by apply (get_proc_same k)|by injection Hcur as <-]. }
  rewrite (kbind_run _ _ _ _ _ Hcur1), (kbind_run _ _ _ _ _ (get_pcb_run k1 cur b Hb)).
  apply (add_vnode_run k1 (pid b) cur b l node); try done.
  destruct Hn as (? & Hg & ? & ?). split_and!; [lia|cbn; lia| |done|done]. by apply (get_proc_same k).
Qed.

(** C27: Opening an existing file.  When the components of the path the process
    passes lead to a vnode, [open] returns the lowest unused descriptor, the
    process's table maps it to that vnode, and the vnode's access time is set;
    nothing else of the file systems changes. *)
Theorem syscall_open_existing ops_table k cur b regs mnt roots t names v time e' l
  (Hcaller : caller k cur b) (Hpid : Scheduler.names k (pid b) cur b) (Hfds : fds b l) (Hfree : (length l < 1024)%nat)
  (Hcall : rax regs = SYS_open) (Hptr : rdi regs ≠ 0) (Hpath : cstr (umem k) (rdi regs) (path_of names))
  (Hroot : root_is (kfs k) mnt) (Htree : tree_ok (heap (kfs k)) t)
  (Hmounts : mounts_from (heap (kfs k)) mnt roots) (Hroots : Forall (λ r, r ∈ dom t) roots)
  (Hnames : Forall component names)
  (Hfuel : (length (path_of names) < fuel)%nat ∧ (length roots ≤ fuel)%nat ∧ (length names ≤ fuel)%nat)
  (Hdirs : ∀ p ty c, t !! p = Some (ty, c) → (length c ≤ fuel)%nat)
  (Hnode : heap (kfs k) !! resolve_mounts t roots names = Some (OVnode v)) (Hsome : resolve_mounts t roots names ≠ 0)
  (Htime : env_time (env (kfs k)) = (time, e')) :
  let node := resolve_mounts t roots names in
  let b' := pset_in_syscall false (fd_add node b) in
  syscall_handler ops_table stale fuel regs k =
    Ret (set_rax (Z.of_nat (length l)) regs)
        (with_pcb (kset_kfs (set_heap (<[node := OVnode (set_access_time time v)]> (heap (kfs k))) (set_env e' (kfs k))) k)
                  cur b') ∧ fds b' (l ++ [node]).
Proof.
  intros node b'. destruct Hfuel as (F1 & F2 & F3). split; [|by apply (fds_add b l node)].
  set (k1 := with_pcb k cur (entered b)).
  pose proof (lazy_lookup_run fuel fuel (kfs k) t mnt roots names Htree Hmounts Hroots F2 Hnames F3 Hdirs) as Hlook.
  assert (Scheduler.names k1 (pid (entered b)) cur (entered b)) as Hn1.
  { destruct Hpid as (? & Hg & ? & ?). split_and!; [cbn; lia|cbn; lia| |done|apply lookup_insert_eq].
    by apply (get_proc_same k). }
  pose proof (sys_open_run ops_table k1 cur (entered b) (rdi regs) (rsi regs) (u8 (rdx regs)) mnt names node v time e' l
    (caller_with k cur b _ Hcaller) Hn1 Hfds Hfree Hptr Hpath F1 Hroot Hlook Hsome Hnode Htime) as Hbody.
  rewrite (handler_run _ _ _ k cur b regs _ _ (fd_add node (entered b)) Hcaller (ltac:(rewrite Hcall; exact Hbody))).
  - unfold left_with. rewrite (proj2 (Z.ltb_ge _ _)), u64_small by lia.
    f_equal. unfold with_pcb, kset_pcbs, kset_kfs. cbn. by rewrite !insert_insert_eq.
  - cbn. apply lookup_insert_eq.
  - lia.
Qed.

(** ** Arguments nobody checks *)

(** What a process can do to the kernel with its arguments.  [read],
    [write], [stat] and [ioctl] index the descriptor table with any [int]:
    outside 0 to 1023 the access leaves the table.  A NULL buffer, or a size of
    zero, on a file the process may read or write fails an assertion and halts
    the machine. *)
Theorem syscall_unchecked k cur b fd
  (Hcaller : caller k cur b) (Hout : fd < 0 ∨ PROC_MAX_FDS ≤ fd) :
  (∀ ops_table buff size, sys_write ops_table fd buff size k = Fault ∧ sys_read ops_table fd buff size k = Fault ∧
     sys_ioctl ops_table fd buff size k = Fault ∧ (buff ≠ 0 → sys_stat fd buff k = Fault)) ∧
  (∀ ops_table fd' p v buff size, buff = 0 ∨ size = 0 →
     (open_file k b fd' 2 p v → sys_write ops_table fd' buff size k = Halt k) ∧
     (open_file k b fd' 1 p v → sys_read ops_table fd' buff size k = Halt k)).
Proof.
  pose proof Hcaller as (Hcur & Hc0 & Hb). split.
  - intros ops_table buff size.
    assert (fd_entry b fd k = Fault) as Hf.
    { unfold fd_entry. destruct (Z.leb_spec 0 fd), (Z.ltb_spec fd PROC_MAX_FDS); done || lia. }
    unfold sys_write, sys_read, sys_ioctl, sys_stat.
    rewrite !(kbind_run _ _ _ _ _ Hcur), (proj2 (Z.eqb_neq cur 0)), !(kbind_run _ _ _ _ _ (get_pcb_run k cur b Hb)) by done.
    unfold kbind. rewrite Hf. split_and!; try done. intros Hbuf. rewrite (proj2 (Z.eqb_neq buff 0)) by done.
    by rewrite (get_pcb_run k cur b Hb), Hf.
  - intros ops_table fd' p v buff size Hz.
    split; intros [Hr He Hv Hp0 _ Ha]; [unfold sys_write|unfold sys_read];
      rewrite (on_descriptor k cur b fd' p), (proj2 (Z.eqb_neq p 0)),
        (kbind_run _ _ _ _ _ (allowed_run k p v _ _ _ Hp0 Hv)), Ha by done; cbn [negb];
      (destruct (Z.eqb_spec buff 0) as [|Hb0]; [done|destruct Hz as [?|Hz]; [done|by rewrite Hz]]).
Qed.

(** The exit of a process.  When another process is left, [exit] comes back
    to the handler, which then marks the process as being outside the call:
    a write to the block that [scheduler_exit] has just freed. *)
Theorem syscall_exit_writes_freed ops_table k cur b regs l
  (Hcaller : caller k cur b) (Hcall : rax regs = SYS_exit)
  (Htab : procs k = Some l) (Hcur : 0 ≤ current_pid k < count k) (Hcount : count k ≤ Z.of_nat (length l) < 2 ^ 63)
  (Hpid : pid b = current_pid k) (Hfds : fd_count b ≤ PROC_MAX_FDS) (Hother : 1 < count k) :
  let k1 := with_pcb k cur (entered b) in
  (∃ k2, sys_exit pid (s32 (rdi regs)) k1 = Ret 0 k2 ∧ pcbs k2 !! cur = None) ∧
  syscall_handler ops_table pid fuel regs k = Fault.
Proof.
  intros k1. pose proof Hcaller as (Hc & Hc0 & Hb). pose proof (caller_with k cur b (entered b) Hcaller) as (Hc1 & _ & Hb1).
  assert (l !! Z.to_nat (current_pid k) = Some cur) as Hlk.
  { unfold scheduler_get_current, get_proc in Hc. rewrite Htab, (proj2 (Z.leb_le _ _)) in Hc by lia.
    destruct (l !! Z.to_nat (current_pid k)); [by injection Hc as ->|done]. }
  assert (sys_exit pid (s32 (rdi regs)) k1 = Ret 0 (after_exit k1 l cur (entered b))) as Hexit.
  { unfold sys_exit. rewrite (kbind_run _ _ _ _ _ Hc1), (proj2 (Z.eqb_neq cur 0)) by done.
    rewrite (kbind_run _ _ k1 tt (after_exit k1 l cur (entered b))); [done|].
    rewrite (exit_step k1 l cur (entered b)); try done. by rewrite (proj2 (Z.eqb_neq _ _)) by (cbn; lia). }
  assert (pcbs (after_exit k1 l cur (entered b)) !! cur = None) as Hgone by (cbn; apply lookup_delete_eq).
  split; [eauto|]. unfold syscall_handler. rewrite (kbind_run _ _ _ _ _ Hc), (proj2 (Z.eqb_neq cur 0)) by done.
  rewrite (kbind_run _ _ _ _ _ (upd_pcb_run k cur b _ Hb)), Hcall.
  rewrite (kbind_run _ _ _ _ _ Hexit). unfold syscall_finish. change (0 <? 0) with false.
  unfold kbind, kret, upd_pcb, kbind, get_pcb. cbv beta iota. by rewrite Hgone.
Qed.
End files.

(** *** Witnesses: the file [/a] and the device [/o], both open in a process,
    and the path of the file in the process's memory *)

Definition sys_file : vnode := Vnode 2 4 0 1 VNODE_FILE (SLit [97]) 3 6 0 0 0x1a4 0 0 0 RAMFS_OPS 0 false.
Definition sys_dev : vnode := Vnode 2 0 0 1 VNODE_DEV (SLit [111]) 0 5 0 0 0x1a0 0 0 0 DEVFS_OPS 0 false.

Definition sys_fs : fs demo_env :=
  Fs (<[1 := OMount (Mount 2 0 0 (SLit []) (SLit ROOTFS) 0)]>
     (<[2 := OVnode (demo_vnode 2 0 3 VNODE_DIR ROOT_NAME)]>
     (<[3 := OVnode sys_file]>
     (<[4 := OVnode sys_dev]>
     (<[5 := ODev STDOUT_READ STDOUT_WRITE]> (<[6 := OData (RamfsData 7 3)]> (<[7 := OBuf [10; 20; 30]]> ∅)))))))
     (DemoEnv 10 {[1; 2; 3; 4; 5; 6; 7; 0x100; 0x200]} 1000) 1 0 4 [].

Definition sys_view : view :=
  <[2 := (VNODE_DIR, [(3, [97]); (4, [111])])]> (<[3 := (VNODE_FILE, [])]> (<[4 := (VNODE_DEV, [])]> ∅)).

Definition sys_pcb (id : Z) : pcb :=
  Pcb zero_regs id PROCESS_RUNNING PROC_DEFAULT_TIME 0x8000
      ([4; 3] ++ replicate (Z.to_nat PROC_MAX_FDS - 2) 0) 2 0 0 0 0x9000 false.

Definition sys_kst : kst demo_env demo_mem :=
  Kst sys_fs (DemoMem ∅ 0x8000 0x10000) (<[0x1000 := 47]> (<[0x1001 := 97]> ∅))
      (Some [0x100; 0x200]) (<[0x100 := sys_pcb 0]> (<[0x200 := sys_pcb 1]> ∅)) 2 0 false 0.

Definition call_regs (n a1 a2 a3 : Z) : register_ctx :=
  RegisterCtx 0 0 0 0 0 0 0 0 0 0 0 0 0 0 a2 a1 0 a3 0 0 n 0 0 0 0 0 0 0.

Lemma sys_caller : caller sys_kst 0x100 (sys_pcb 0).
Proof. by split_and!. Qed.

Lemma sys_names : Scheduler.names sys_kst 0 0x100 (sys_pcb 0).
Proof. by split_and!. Qed.

Lemma sys_fds i : fds (sys_pcb i) [4; 3].
Proof. unfold fds, sys_pcb. cbn -[replicate]. split_and!; [done|lia|done|]. by repeat constructor. Qed.

Lemma sys_tree_ok : tree_ok (heap sys_fs) sys_view.
Proof.
  intros p ty l Hp. unfold sys_view in Hp. view_cases Hp; (split; [done|]); eexists;
    (constructor; [reflexivity|reflexivity| |apply (bool_decide_unpack _); by vm_compute
                  |apply (bool_decide_unpack _); by vm_compute|]).
  1: split_and!; [done..|]; eexists; (split_and!; [reflexivity|done|]); split_and!; [done..|]; eexists; by split_and!.
  2,4: done.
  2,3: by intros a ?%not_elem_of_nil.
  intros a Ha. repeat (apply elem_of_cons in Ha as [->|Ha]; [split; [by vm_compute|by eexists]|]).
  by apply not_elem_of_nil in Ha.
Qed.


Lemma syscall_write_stdout_witness :
  ∃ k', syscall_handler (kernel_ops 77 9) pid 9 (call_regs SYS_write 0 0x1000 2) sys_kst =
    Ret (call_regs 2 0 0x1000 2) k' ∧ console (kfs k') = [47; 97].
Proof.
  eexists. split; [refine (syscall_write_stdout pid 77 9 sys_kst 0x100 (sys_pcb 0) (call_regs SYS_write 0 0x1000 2)
    4 sys_dev 5 1000 _ sys_caller eq_refl _ eq_refl eq_refl eq_refl eq_refl _ _ eq_refl)|reflexivity].
  - by constructor.
  - discriminate.
  - cbn. lia.
Defined.

Lemma syscall_read_file_witness :
  ∃ m', syscall_handler (kernel_ops 77 9) pid 9 (call_regs SYS_read 1 0x2000 8) sys_kst =
    Ret (call_regs 3 1 0x2000 8) (with_pcb (kset_umem m' sys_kst) 0x100 (pset_in_syscall false (sys_pcb 0))) ∧
    bytes_at m' 0x2000 3 = [10; 20; 30].
Proof.
  destruct (syscall_read_file pid 77 9 sys_kst 0x100 (sys_pcb 0) (call_regs SYS_read 1 0x2000 8) 3 sys_file [10; 20; 30]
    sys_caller eq_refl ltac:(by constructor) eq_refl
    ltac:(split; [done|]; eexists _, _; split_and!; try reflexivity; [done|right; by split])
    ltac:(repeat constructor; lia) ltac:(done) ltac:(discriminate) ltac:(cbn; lia)) as (m' & Hrun & Hbytes & _).
  exists m'. exact (conj Hrun Hbytes).
Defined.

Lemma syscall_open_existing_witness :
  ∃ k', syscall_handler (kernel_ops 77 9) pid 9 (call_regs SYS_open 0x1000 0 0) sys_kst =
    Ret (call_regs 2 0x1000 0 0) k'.
Proof.
  eexists. refine (proj1 (syscall_open_existing pid 9 (kernel_ops 77 9) sys_kst 0x100 (sys_pcb 0)
    (call_regs SYS_open 0x1000 0 0) 1 [2] sys_view [[97]] sys_file 1000 _ [4; 3] sys_caller sys_names (sys_fds 0) _ eq_refl
    _ _ _ sys_tree_ok _ _ _ _ _ eq_refl _ eq_refl)).
  - by apply Nat.ltb_lt.
  - discriminate.
  - cbn. split_and!; by vm_compute.
  - eexists _, _. by split_and!.
  - split_and!; [done..|]. eexists. by split_and!.
  - apply Forall_singleton. by vm_compute.
  - apply Forall_singleton. split_and!; [done|simpl; lia|by apply Forall_singleton].
  - simpl. lia.
  - intros p ty l Hp. unfold sys_view in Hp. view_cases Hp; simpl; lia.
  - by vm_compute.
Defined.

Lemma syscall_unchecked_witness :
  sys_read (kernel_ops 77 9) (-1) 0x2000 8 sys_kst = Fault ∧
  sys_write (kernel_ops 77 9) 1 0 8 sys_kst = Halt sys_kst.
Proof.
  destruct (syscall_unchecked sys_kst 0x100 (sys_pcb 0) (-1) sys_caller (or_introl eq_refl)) as [H1 H2].
  split; [exact (proj1 (proj2 (H1 (kernel_ops 77 9) 0x2000 8)))|].
  apply (proj1 (H2 (kernel_ops 77 9) 1 3 sys_file 0 8 (or_introl eq_refl))). by constructor.
Defined.

Lemma syscall_exit_writes_freed_witness :
  syscall_handler (kernel_ops 77 9) pid 9 (call_regs SYS_exit 0 0 0) sys_kst = Fault.
Proof.
  refine (proj2 (syscall_exit_writes_freed 9 (kernel_ops 77 9) sys_kst 0x100 (sys_pcb 0) (call_regs SYS_exit 0 0 0)
    [0x100; 0x200] sys_caller eq_refl eq_refl _ _ eq_refl _ _)); cbn; lia || done.
Defined.
