(* ===== verification/System.v ===== *)
(** * The whole machine

    The state of the running kernel: the file systems, address spaces and
    processes ([kst]), what printing keeps beside the files ([terminal]), the
    devices and interrupt tables ([machine]) and the segments.  A routine of a
    component runs on its part through a view ([zoom]). *)

From stdpp Require Import base gmap list strings.
From Stdlib Require Import ZArith Lia.
From S2P Require Import Prelude Ram CString PortIO Interrupts Gdt Vnode Vfs Printf Log Scheduler.
#[local] Open Scope Z_scope.

(** The globals of [lib/printf.c] and [main.c] that printing uses, kernel memory,
    and the screen of flanterm. *)
Record terminal (T : Type) := Terminal {
  t_ram : mem;
  t_printk_index : Z;
  t_put_lock : bool;
  t_serial : list Z;
  t_screen : T;
  t_ft_ctx : Z;
  t_putchar_impl : Z;
}.
Arguments Terminal {T} _ _ _ _ _ _ _.
Arguments t_ram {T} _.
Arguments t_printk_index {T} _.
Arguments t_put_lock {T} _.
Arguments t_serial {T} _.
Arguments t_screen {T} _.
Arguments t_ft_ctx {T} _.
Arguments t_putchar_impl {T} _.

Record system (E M D T : Type) := System {
  knl : kst E M;
  trm : terminal T;
  mch : machine D;
  seg : segments;
}.
Arguments System {E M D T} _ _ _ _.
Arguments knl {E M D T} _.
Arguments trm {E M D T} _.
Arguments mch {E M D T} _.
Arguments seg {E M D T} _.

Section views.
Context {E M D T : Type}.
Abbreviation SYS := (system E M D T).
Implicit Types s : SYS.

Definition set_knl (k : kst E M) s : SYS := System k (trm s) (mch s) (seg s).
Definition set_mch (m : machine D) s : SYS := System (knl s) (trm s) m (seg s).
Definition set_seg (g : segments) s : SYS := System (knl s) (trm s) (mch s) g.

(** Printing works on the files and the terminal. *)
Definition printer_of s : printer E T :=
  let t := trm s in
  Printer (kfs (knl s)) (t_ram t) (t_printk_index t) (t_put_lock t) (t_serial t) (t_screen t) (t_ft_ctx t) (t_putchar_impl t).
Definition set_printer (p : printer E T) s : SYS :=
  System (kset_kfs (pfs p) (knl s))
    (Terminal (pram p) (printk_index p) (put_lock p) (serial p) (screen p) (ft_ctx p) (putchar_impl p)) (mch s) (seg s).

Definition in_knl {A} (c : kernel (kst E M) A) : kernel SYS A := zoom knl set_knl c.
Definition in_mch {A} (c : kernel (machine D) A) : kernel SYS A := zoom mch set_mch c.
Definition in_seg {A} (c : kernel segments A) : kernel SYS A := zoom seg set_seg c.
Definition in_printer {A} (c : kernel (printer E T) A) : kernel SYS A := zoom printer_of set_printer c.
Definition in_files {A} (c : kernel (fs E) A) : kernel SYS A := in_knl (in_kfs c).

(** The views are lenses. *)
Lemma printer_view p s : printer_of (set_printer p s) = p.
Proof. by destruct p. Qed.

Lemma printer_id s : set_printer (printer_of s) s = s.
Proof. by destruct s as [[] [] ? ?]. Qed.

Lemma printer_last p q s : set_printer q (set_printer p s) = set_printer q s.
Proof. by destruct p, q, s as [[] [] ? ?]. Qed.

(** Looking changes nothing. *)
Lemma in_printer_same {A} (c : kernel (printer E T) A) s a : c (printer_of s) = Ret a (printer_of s) → in_printer c s = Ret a s.
Proof. intros Hc. unfold in_printer, zoom. by rewrite Hc, printer_id. Qed.

Lemma in_printer_bind {A B} (c : kernel (printer E T) A) (f : A → kernel (printer E T) B) s :
  in_printer (kbind c f) s = kbind (in_printer c) (λ a, in_printer (f a)) s.
Proof.
  unfold in_printer, zoom, kbind. destruct (c (printer_of s)) as [a p|p| | |]; try done.
  rewrite printer_view. destruct (f a p); rewrite ?printer_last; done.
Qed.
End views.

(** Printing is a change of the printer's part. *)
Lemma in_printer_prints {E M D T A} `{KernelEnv E} flanterm_write putchar_code printk_buff_start frame m0
    (c : kernel (printer E T) A) k con (s : system E M D T) log :
  prints flanterm_write putchar_code printk_buff_start frame m0 c k con → calm printk_buff_start frame m0 (printer_of s) log →
  ∃ a p, in_printer c s = Ret a (set_printer p s) ∧
    said flanterm_write putchar_code printk_buff_start frame m0 (printer_of s) log k con p.
Proof.
  intros Hc Hs. destruct (Hc (printer_of s) log Hs) as (a & p & Hrun & S). exists a, p. split; [|done]. by apply zoom_run.
Qed.

(** ** The text of errors *)

(** [ERRNO_TO_STR] of [util/errno.h] *)
Definition ERRNO_TO_STR (errno : Z) : list Z :=
  match errno with
  | 0 => str "No error"
  | 1 => str "No such file or directory"
  | 2 => str "Bad file descriptor"
  | 3 => str "Bad address"
  | 4 => str "Invalid argument"
  | 5 => str "Bad pid"
  | 6 => str "Function not implemented"
  | 7 => str "Permission denied"
  | 8 => str "Inappropriate ioctl for device"
  | 9 => str "No such process"
  | 10 => str "No memory"
  | _ => str "Unknown error"
  end.

Lemma errno_text_length errno : zlen (ERRNO_TO_STR errno) ≤ 30.
Proof.
  unfold ERRNO_TO_STR. do 11 (try (destruct errno as [|errno|]; try (vm_compute; congruence))).
  all: repeat (destruct errno as [errno|errno|]; try (vm_compute; congruence)).
Qed.
