(* ===== verification/SyscallLog.v ===== *)
(** * The log of the system calls

    [syscall_handler] of [sys/intr.c] with the lines it prints: the trace of each
    call, and the warnings about a call from outside of a process, an unknown
    number, an error, and a device without [ioctl].  [Syscall.syscall_handler]
    leaves these lines out; the theorem says that nothing else of the handler's
    effect is lost by that. *)

From stdpp Require Import base gmap list strings.
From Stdlib Require Import ZArith Lia.
From S2P Require Import Prelude Ram CString Format PortIO Interrupts Gdt Vnode Vfs Ramfs Devfs Printf Log VfsMacros Scheduler Syscall System.
#[local] Open Scope Z_scope.

Definition SYSCALL_TO_STR (number : Z) : list Z :=
  if number =? SYS_exit then str "exit" else if number =? SYS_open then str "open" else
  if number =? SYS_close then str "close" else if number =? SYS_write then str "write" else
  if number =? SYS_read then str "read" else if number =? SYS_stat then str "stat" else
  if number =? SYS_setuid then str "setuid" else if number =? SYS_setgid then str "setgid" else
  if number =? SYS_ioctl then str "ioctl" else if number =? SYS_getpid then str "getpid" else
  if number =? SYS_uname then str "uname" else str "unknown".

Definition SYSCALL_FORMAT : list Z := str "syscall(%lu, 0x%.16lx, 0x%.16lx, 0x%.16lx, 0x%.16lx) from 0x%.16llx".
Definition OUTSIDE : list Z := str "Syscall fired while not in a process, is this intentional?".

Section handler.
Context {E M D T : Type} `{KernelEnv E} `{ProcMem M}.
Context (ops_table : Z → option (vnode_ops E)) (stale : pcb → Z) (fuel : nat).
Context (flanterm_write : Z → list Z → T → T) (putchar_code : Z → Z → T → T) (printk_buff_start frame : Z).
Abbreviation SYS := (system E M D T).
Abbreviation warning w fmt args := (in_printer (warning ops_table flanterm_write putchar_code printk_buff_start frame w fmt args)).

(** The end of the handler; [warnings] is the counter of [sys/intr.c]. *)
Definition logged_finish (proc : Z) (regs : register_ctx) (status warnings : Z) : kernel SYS Z :=
  let* warnings :=
    if status <? 0 then
      in_knl (upd_pcb proc (pset_errno (u32 (- status)))) ;;;
      let* b := in_knl (get_pcb proc) in
      let* warnings := warning warnings (str "%s: %s") [VString (SYSCALL_TO_STR (rax regs)); VString (ERRNO_TO_STR (errno b))] in
      let* b := in_knl (get_pcb proc) in
      if errno b =? ENOTTY then
        let* node := in_knl (fd_entry b (rdi regs)) in
        let* path := in_printer (strptr_text (vfs_get_full_path node)) in
        warning warnings (str " - device: %s") [VString path]
      else kret warnings
    else kret warnings in
  in_knl (upd_pcb proc (pset_in_syscall false)) ;;;
  kret warnings.

(** [syscall_handler(ctx)]: what [ *ctx ] holds afterwards, and the counter. *)
Definition logged_syscall_handler (warnings : Z) (regs : register_ctx) : kernel SYS (register_ctx * Z) :=
  let* proc := in_knl scheduler_get_current in
  let* warnings :=
    if proc =? 0 then warning warnings OUTSIDE []
    else in_knl (upd_pcb proc (pset_in_syscall true)) ;;; kret warnings in
  in_printer (s_trace flanterm_write putchar_code printk_buff_start frame SYSCALL_FORMAT
    [VWord (rax regs); VWord (rdi regs); VWord (rsi regs); VWord (rdx regs); VWord (rcx regs); VWord (rip regs)]) ;;;
  let* (status, warnings) :=
    if rax regs <? SYSCALL_TABLE_SIZE then
      let* status := in_knl (syscall_table ops_table stale fuel (rax regs) (rdi regs) (rsi regs) (rdx regs)) in
      kret (status, warnings)
    else
      let* warnings := warning warnings (str "Unknown syscall %lu") [VWord (rax regs)] in
      kret (- EINVAL, warnings) in
  let* warnings := if proc =? 0 then kret warnings else logged_finish proc regs status warnings in
  kret (set_rax (u64 status) regs, warnings).
End handler.

Section report.
Context {E M D T : Type} `{KernelEnvLaws E} `{ProcMem M}.
Context (junk : Z) (ofuel : nat) (stale : pcb → Z) (fuel : nat).
Context (flanterm_write : Z → list Z → T → T) (putchar_code : Z → Z → T → T) (printk_buff_start frame : Z).
Context (Hframe : 0 < frame) (Hoff : off_ring printk_buff_start frame 1024).
Abbreviation SYS := (system E M D T).
Implicit Types s : SYS.
Abbreviation table := (kernel_ops junk ofuel).
Abbreviation handler := (logged_syscall_handler (D := D) table stale fuel flanterm_write putchar_code printk_buff_start frame).
Abbreviation finish := (logged_finish (M := M) (D := D) table flanterm_write putchar_code printk_buff_start frame).

(** Somebody can print: the memory is the one at that moment. *)
Definition quiet s : Prop := ∃ log, calm printk_buff_start frame (t_ram (trm s)) (printer_of s) log.

(** The lines, by their texts. *)
Definition trace_line (regs : register_ctx) : list Z :=
  line_head 97 "TRACE" ++ fitting (default [] (npf_vpprintf SYSCALL_FORMAT
    [VWord (rax regs); VWord (rdi regs); VWord (rsi regs); VWord (rdx regs); VWord (rcx regs); VWord (rip regs)])) ++ NL.
Definition warn_line (warnings : Z) (fmt : list Z) (args : list va) : list Z :=
  line_head 93 "WARN " ++ fitting (default [] (npf_vpprintf (str "(Warning #%d) " ++ fmt) (VWord (warnings + 1) :: args))) ++ NL.

(** What a failed call has printed. *)
Definition failure (warnings : Z) (regs : register_ctx) (errno : Z) : list (list Z) :=
  warn_line warnings (str "%s: %s") [VString (SYSCALL_TO_STR (rax regs)); VString (ERRNO_TO_STR errno)] ::
  if errno =? ENOTTY then [warn_line (warnings + 1) (str " - device: %s") [VString FULL_PATH_UNSUPPORTED]] else [].

(** Printing [k] from [s] to [s']: only the files' standard output and the
    terminal are touched. *)
Record printed (k : list Z) s s' : Prop := {
  pr_quiet : quiet s';
  pr_serial : t_serial (trm s') = t_serial (trm s) ++ k;
  pr_knl : knl s' = kset_kfs (kfs (knl s')) (knl s);
  pr_stdout : stdout (kfs (knl s')) = stdout (kfs (knl s));
  pr_heap : ∀ q, q ≠ stdout (kfs (knl s)) → heap (kfs (knl s')) !! q = heap (kfs (knl s)) !! q;
  pr_rest : mch s' = mch s ∧ seg s' = seg s;
}.

Lemma printed_run {A} (c : kernel (printer E T) A) k con s :
  (∀ m0, prints flanterm_write putchar_code printk_buff_start frame m0 c k con) → quiet s →
  ∃ a s', in_printer c s = Ret a s' ∧ printed k s s'.
Proof.
  intros Hc [log Hq]. destruct (in_printer_prints _ _ _ _ _ _ _ _ s log (Hc _) Hq) as (a & p & Hrun & S).
  exists a, (set_printer p s). split; [exact Hrun|]. split.
  - eexists. rewrite printer_view. destruct (sd_calm _ _ _ _ _ _ _ _ _ _ S) as [L R Me St]. split; [exact L|exact R|done|exact St].
  - exact (sd_serial _ _ _ _ _ _ _ _ _ _ S).
  - done.
  - exact (sd_stdout _ _ _ _ _ _ _ _ _ _ S).
  - exact (sd_files _ _ _ _ _ _ _ _ _ _ S).
  - done.
Qed.
Lemma printed_trans k1 k2 s1 s2 s3 : printed k1 s1 s2 → printed k2 s2 s3 → printed (k1 ++ k2) s1 s3.
Proof.
  intros [_ S1 K1 O1 P1 [M1 G1]] [Q S2 K2 O2 P2 [M2 G2]]. split; [done|by rewrite S2, S1, app_assoc| |congruence| |split; congruence].
  - rewrite K2 at 1. rewrite K1. done.
  - intros q Hq. rewrite P2 by congruence. by apply P1.
Qed.

(** What printing needs does not depend on the processes. *)
Lemma quiet_knl s k : quiet s → stdout (kfs k) = 0 ∨ stdout_ready (kfs k) → quiet (set_knl k s).
Proof. intros [log [L R Me St]] Hk. exists log. split; [exact L|exact R|done|exact Hk]. Qed.

Lemma quiet_ready s : quiet s → stdout (kfs (knl s)) = 0 ∨ stdout_ready (kfs (knl s)).
Proof. intros [log C]. exact (ca_stdout _ _ _ _ _ C). Qed.

Lemma in_knl_run {A} (c : kernel (kst E M) A) s a k : c (knl s) = Ret a k → in_knl c s = Ret a (set_knl k s).
Proof. apply zoom_run. Qed.

Lemma in_knl_look {A} (c : kernel (kst E M) A) s a : c (knl s) = Ret a (knl s) → in_knl c s = Ret a s.
Proof. intros Hc. rewrite (in_knl_run _ _ _ _ Hc). by destruct s. Qed.

Lemma warning_run w fmt args s :
  quiet s → 0 ≤ w < 2 ^ 31 - 1 → checked (str "(Warning #%d) " ++ fmt) (VWord (w + 1) :: args) →
  ∃ s', in_printer (warning table flanterm_write putchar_code printk_buff_start frame w fmt args) s = Ret (w + 1) s' ∧
    printed (warn_line w fmt args) s s'.
Proof.
  intros Hq Hw (out & Ho & Hl)%checked_text. unfold warning, _LOG_W. rewrite (proj2 (Z.ltb_lt _ _)) by lia.
  destruct (printed_run (LOG_CALLBACK_EW table flanterm_write putchar_code printk_buff_start frame 93 (str "warn")
    (str "(Warning #%d) " ++ fmt) (VWord (w + 1) :: args)) (warn_line w fmt args) (warn_line w fmt args) s) as ([] & s' & Hrun & P); [|done|].
  - intros m0. unfold warn_line. rewrite Ho. by apply (prints_line_ew junk ofuel flanterm_write putchar_code printk_buff_start frame m0 Hframe Hoff 93 (str "warn") _ _ (line_head 93 "WARN ") out).
  - exists s'. split; [|done]. rewrite in_printer_bind, (kbind_run _ _ _ _ _ Hrun). by apply in_printer_same.
Qed.
Lemma trace_run regs s :
  quiet s → ∃ s', in_printer (s_trace flanterm_write putchar_code printk_buff_start frame SYSCALL_FORMAT
      [VWord (rax regs); VWord (rdi regs); VWord (rsi regs); VWord (rdx regs); VWord (rcx regs); VWord (rip regs)]) s = Ret tt s' ∧
    printed (trace_line regs) s s' ∧ knl s' = knl s.
Proof.
  intros [log Hq]. set (args := [VWord (rax regs); _; _; _; _; _]).
  assert (checked SYSCALL_FORMAT args) as (out & Ho & Hl)%checked_text by words.
  unfold s_trace. change _SYSCALL_TRACE with true. cbn match.
  destruct (printed_run (LOG_CALLBACK flanterm_write putchar_code printk_buff_start frame 97 (str "trace") SYSCALL_FORMAT args) (trace_line regs) [] s)
    as ([] & s' & Hrun & P); [|by exists log|].
  - intros m0. unfold trace_line. fold args. rewrite Ho.
    by apply (prints_line flanterm_write putchar_code printk_buff_start frame m0 Hframe Hoff 97 (str "trace") _ _ (line_head 97 "TRACE") out).
  - exists s'. split; [exact Hrun|]. split; [exact P|]. rewrite (pr_knl _ _ _ P).
    unfold in_printer, zoom in Hrun. destruct (LOG_CALLBACK _ _ _ _ _ _ _ _ _) as [a p| | | |] eqn:El; try discriminate. injection Hrun as _ <-.
    pose proof (keeps_line _ _ _ _ _ _ _ _ _ _ _ El) as Hf. cbn [knl set_printer kfs kset_kfs]. rewrite Hf. by destruct s as [[] ? ? ?].
Qed.

Lemma name_length n : zlen (SYSCALL_TO_STR n) ≤ 30.
Proof. unfold SYSCALL_TO_STR. repeat case_match; vm_compute; discriminate. Qed.

Lemma printed_pcbs k s s' : printed k s s' → pcbs (knl s') = pcbs (knl s).
Proof. intros P. by rewrite (pr_knl _ _ _ P). Qed.

(** A change of the process that printing does not see. *)
Lemma printed_pcb k s s' cur x : printed k s s' → printed k (set_knl (with_pcb (knl s) cur x) s) (set_knl (with_pcb (knl s') cur x) s').
Proof.
  intros [Q S K O P R]. split; try done. cbn [knl set_knl]. by rewrite K at 1.
Qed.

Lemma upd_pcb_in s cur b f : pcbs (knl s) !! cur = Some b → in_knl (upd_pcb cur f) s = Ret tt (set_knl (with_pcb (knl s) cur (f b)) s).
Proof. intros Hb. apply in_knl_run. by apply upd_pcb_run. Qed.

(** The end of a failed call. *)
Lemma finish_failed w s cur b regs status :
  quiet s → cur ≠ 0 → pcbs (knl s) !! cur = Some b → 0 ≤ w < 2 ^ 31 - 2 → status < 0 →
  (u32 (- status) = ENOTTY → ∃ p, 0 ≤ rdi regs < PROC_MAX_FDS ∧ fd_table b !! Z.to_nat (rdi regs) = Some p) →
  let lines := failure w regs (u32 (- status)) in
  let k' := with_pcb (knl s) cur (pset_in_syscall false (pset_errno (u32 (- status)) b)) in
  ∃ s', finish cur regs status w s = Ret (w + zlen lines) s' ∧ printed (concat lines) (set_knl k' s) s'.
Proof.
  intros Hq Hcur Hb Hw Hst Hfd. cbv zeta. unfold logged_finish. rewrite (proj2 (Z.ltb_lt status 0)) by done.
  set (b' := pset_errno (u32 (- status)) b). set (s1 := set_knl (with_pcb (knl s) cur b') s).
  assert (pcbs (knl s1) !! cur = Some b') as Hb1 by apply lookup_insert_eq.
  assert (quiet s1) as Hq1 by (apply quiet_knl; [done|]; exact (quiet_ready s Hq)).
  assert (∀ lines s', printed lines s1 s' → in_knl (upd_pcb cur (pset_in_syscall false)) s' = Ret tt
      (set_knl (with_pcb (knl s') cur (pset_in_syscall false b')) s') ∧
    printed lines (set_knl (with_pcb (knl s) cur (pset_in_syscall false b')) s) (set_knl (with_pcb (knl s') cur (pset_in_syscall false b')) s') ∧
    in_knl (get_pcb cur) s' = Ret b' s') as Hend.
  { intros lines s' P. pose proof (printed_pcbs _ _ _ P) as Hp. split; [apply upd_pcb_in; by rewrite Hp|]. split.
    - assert (set_knl (with_pcb (knl s1) cur (pset_in_syscall false b')) s1 = set_knl (with_pcb (knl s) cur (pset_in_syscall false b')) s) as <-
        by (unfold s1, set_knl, with_pcb, kset_pcbs; cbn; by rewrite insert_insert_eq).
      by apply printed_pcb.
    - apply in_knl_look. apply get_pcb_run. by rewrite Hp. }
  assert (printed [] s1 s1) as P0 by (split; try done; by rewrite app_nil_r).
  rewrite kbind_assoc, (kbind_run _ _ _ _ _ (upd_pcb_in s cur b _ Hb)). fold b' s1.
  destruct (Hend _ _ P0) as (_ & _ & Hget). rewrite kbind_assoc, (kbind_run _ _ _ _ _ Hget), kbind_assoc. change (errno b') with (u32 (- status)).
  set (e := u32 (- status)) in *.
  destruct (warning_run w (str "%s: %s") [VString (SYSCALL_TO_STR (rax regs)); VString (ERRNO_TO_STR e)] s1 Hq1) as (s2 & R2 & P2); [lia| |].
  { exists [AWord; AString 30; AString 30]. split; [|vm_compute; reflexivity].
    repeat constructor; cbn [has_kind]; [apply name_length|apply errno_text_length]. }
  rewrite (kbind_run _ _ _ _ _ R2). destruct (Hend _ _ P2) as (Hu2 & Q2 & Hget2). rewrite kbind_assoc, (kbind_run _ _ _ _ _ Hget2).
  change (errno b') with e. unfold failure. destruct (Z.eqb_spec e ENOTTY) as [He|_].
  - destruct (Hfd He) as (p & Hr & Hp). rewrite kbind_assoc.
    rewrite (kbind_run _ _ s2 p s2) by (apply in_knl_look; by apply fd_entry_run).
    rewrite kbind_assoc, (kbind_run _ _ s2 FULL_PATH_UNSUPPORTED s2) by (by apply in_printer_same, on_fs_same).
    destruct (warning_run (w + 1) (str " - device: %s") [VString FULL_PATH_UNSUPPORTED] s2 (pr_quiet _ _ _ P2)) as (s3 & R3 & P3); [lia| |].
    { exists [AWord; AString 64]. split; [|vm_compute; reflexivity]. repeat constructor. vm_compute. discriminate. }
    rewrite (kbind_run _ _ _ _ _ R3). destruct (Hend _ _ (printed_trans _ _ _ _ _ P2 P3)) as (Hu3 & Q3 & _).
    rewrite (kbind_run _ _ _ _ _ Hu3). eexists. split; [|cbn [concat]; rewrite app_nil_r; exact Q3].
    unfold kret. f_equal. unfold zlen. simpl. lia.
  - rewrite kbind_ret, (kbind_run _ _ _ _ _ Hu2). eexists. split; [|cbn [concat]; rewrite app_nil_r; exact Q2]. done.
Qed.

(** The process after the call. *)
Definition finished (b : pcb) (status : Z) : pcb :=
  pset_in_syscall false (if status <? 0 then pset_errno (u32 (- status)) b else b).

Lemma finish_plain (k : kst E M) cur b rdi status :
  pcbs k !! cur = Some b →
  (u32 (- status) = ENOTTY → ∃ p, 0 ≤ rdi < PROC_MAX_FDS ∧ fd_table b !! Z.to_nat rdi = Some p) →
  syscall_finish cur rdi status k = Ret tt (with_pcb k cur (finished b status)).
Proof.
  intros Hb Hfd. unfold syscall_finish, finished. destruct (status <? 0); [|by rewrite kbind_ret, (upd_pcb_run _ _ _ _ Hb)].
  rewrite kbind_assoc, (kbind_run _ _ _ _ _ (upd_pcb_run _ _ _ _ Hb)).
  set (b2 := pset_errno (u32 (- status)) b). set (k2 := with_pcb k cur b2).
  assert (pcbs k2 !! cur = Some b2) as Hb2 by apply lookup_insert_eq.
  rewrite kbind_assoc, (kbind_run _ _ _ _ _ (get_pcb_run _ _ _ Hb2)). change (errno b2) with (u32 (- status)).
  assert (upd_pcb cur (pset_in_syscall false) k2 = Ret tt (with_pcb k cur (pset_in_syscall false b2))) as Hend.
  { rewrite (upd_pcb_run k2 cur b2 _ Hb2). unfold k2, with_pcb, kset_pcbs. cbn. by rewrite insert_insert_eq. }
  destruct (Z.eqb_spec (u32 (- status)) ENOTTY) as [He|_]; [|exact Hend].
  destruct (Hfd He) as (p & Hr & Hp). by rewrite kbind_assoc, (kbind_run _ _ k2 p k2) by (by apply fd_entry_run).
Qed.

End report.

(** *** Witness: reading a descriptor that is not open *)

Definition sys_machine : system demo_env demo_mem unit (list Z) :=
  System sys_kst (Terminal ∅ 0 false [] [] 0 0) (Machine tt [] [] 0 0 0) (Segs [] (TssEntry 0 0) (0, 0) (0, 0) 0 0 0).

