(* ===== verification/Panic.v ===== *)
(** * Kernel panics

    [kpanic], [capture_regs] and [idt_default_interrupt_handler] of [sys/intr.c]:
    the report of an exception and the halt after it. *)

From stdpp Require Import base gmap list strings.
From Stdlib Require Import ZArith Lia.
From S2P Require Import Prelude Ram CString Format PageAlloc Vmm Vma PortIO Interrupts Gdt Vnode Vfs Ramfs Devfs Printf Log Scheduler System.
#[local] Open Scope Z_scope.

(** The names of the exceptions. *)
Definition strings : list (list Z) := str <$>
  ["Division by Zero"; "Debug"; "Non-Maskable-Interrupt"; "Breakpoint"; "Overflow"; "Bound Range Exceeded";
   "Invalid opcode"; "Device (FPU) not available"; "Double Fault"; "RESERVED VECTOR"; "Invalid TSS";
   "Segment not present"; "Stack Segment Fault"; "General Protection Fault"; "Page Fault "; "RESERVED VECTOR";
   "x87 FP Exception"; "Alignment Check"; "Machine Check (Internal Error)"; "SIMD FP Exception";
   "Virtualization Exception"; "Control  Protection Exception"; "RESERVED VECTOR"; "RESERVED VECTOR";
   "RESERVED VECTOR"; "RESERVED VECTOR"; "RESERVED VECTOR"; "RESERVED VECTOR"; "Hypervisor Injection Exception";
   "VMM Communication Exception"; "Security Exception"; "RESERVED VECTOR"]%string.

(** [capture_regs]: what the processor's registers [cpu] leave in a struct that
    held [junk]; [ret] is the return address.  The eighth output of the first
    instruction block names [r9], as does the ninth, so [r8] is not stored. *)
Definition capture_regs (cpu junk : register_ctx) (ret : Z) : register_ctx :=
  RegisterCtx (es cpu) (ds cpu) (cr4 cpu) (cr3 cpu) (cr2 cpu) (cr0 cpu)
    (r15 cpu) (r14 cpu) (r13 cpu) (r12 cpu) (r11 cpu) (r10 cpu) (r9 cpu) (r8 junk)
    (rsi cpu) (rdi cpu) (rbp cpu) (rdx cpu) (rcx cpu) (rbx cpu) (rax cpu) (vector junk) (err junk)
    ret (cs cpu) (rflags cpu) (rsp cpu) (ss cpu).

Definition set_vector_err (v e : Z) (r : register_ctx) : register_ctx :=
  RegisterCtx (es r) (ds r) (cr4 r) (cr3 r) (cr2 r) (cr0 r) (r15 r) (r14 r) (r13 r) (r12 r) (r11 r) (r10 r) (r9 r) (r8 r)
    (rsi r) (rdi r) (rbp r) (rdx r) (rcx r) (rbx r) (rax r) v e (rip r) (cs r) (rflags r) (rsp r) (ss r).

(** ["| %-12s | 0x%016llx |\n"] *)
Definition ROW : list Z := str "| %-12s | 0x%016llx |" ++ NL.

Section panic.
Context {E M D T : Type} `{KernelEnv E} `{PortIO D}.
Context (ops_table : Z → option (vnode_ops E)).
Context (flanterm_write : Z → list Z → T → T) (putchar_code : Z → Z → T → T).
Context (printk_buff_start frame hhdm_offset kernel_vma_context : Z) (fuel : nat).
Abbreviation P := (kernel (printer E T)).
Abbreviation SYS := (system E M D T).
Abbreviation kprintf := (kprintf flanterm_write putchar_code printk_buff_start frame).
Abbreviation printf := (printf ops_table frame).

Definition row (name : string) (v : Z) : P unit := kprintf ROW [VString (str name); VWord v] ;;; kret tt.

Definition panic_registers (regs : register_ctx) : P unit :=
  kprintf (str "<<< REGISTER DUMP >>>" ++ NL) [] ;;;
  row "rax" (rax regs) ;;; row "rbx" (rbx regs) ;;; row "rcx" (rcx regs) ;;; row "rdx" (rdx regs) ;;;
  row "rsi" (rsi regs) ;;; row "rdi" (rdi regs) ;;; row "rbp" (rbp regs) ;;;
  row "r8" (r8 regs) ;;; row "r9" (r9 regs) ;;; row "r10" (r10 regs) ;;; row "r11" (r11 regs) ;;;
  row "r12" (r12 regs) ;;; row "r13" (r13 regs) ;;; row "r14" (r14 regs) ;;; row "r15" (r15 regs) ;;;
  kprintf (NL ++ str "[SEGMENT REGISTERS]" ++ NL) [] ;;;
  row "es" (es regs) ;;; row "ds" (ds regs) ;;;
  kprintf (NL ++ str "[CONTROL REGISTERS]" ++ NL) [] ;;;
  row "cr0" (cr0 regs) ;;; row "cr2" (cr2 regs) ;;; row "cr3" (cr3 regs) ;;; row "cr4" (cr4 regs) ;;;
  kprintf (NL ++ str "[FINAL SYSTEM STATE]" ++ NL) [] ;;;
  row "vector" (vector regs) ;;; row "err" (err regs) ;;; row "rip" (rip regs) ;;; row "cs" (cs regs) ;;;
  row "rflags" (rflags regs) ;;; row "rsp" (rsp regs) ;;;
  kprintf (ROW ++ NL) [VString (str "ss"); VWord (ss regs)] ;;; kret tt.

(** [kprintf("%p: %#llx\n", a, *a)] *)
Definition stack_word (a : Z) : P unit :=
  let* w := kget (λ s, load64 (pram s) a) in
  kprintf (str "%p: %#llx" ++ NL) [VWord a; VWord w] ;;; kret tt.

(** [for (sp = regs.rsp; sp <= regs.rbp; sp += 8)] *)
Fixpoint backtrace (n : nat) (sp rbp : Z) : P unit :=
  if sp <=? rbp then
    match n with
    | O => knofuel
    | S n => stack_word sp ;;; backtrace n (u64 (sp + 8)) rbp
    end
  else kret tt.

Definition panic_tail (regs : register_ctx) : P unit :=
  trace flanterm_write putchar_code printk_buff_start frame (str "==== VMA Context Dump ====") [] ;;;
  vma_dump_context ops_table flanterm_write putchar_code printk_buff_start frame hhdm_offset fuel kernel_vma_context ;;;
  kprintf (NL ++ str "[BACKTRACE]" ++ NL) [] ;;;
  stack_word (rip regs) ;;;
  backtrace fuel (rsp regs) (rbp regs).

(** The message: [buf] is the address of [char buf[1024]], whose text is read by
    the calls that print it. *)
Definition panic_message (buf : Z) (regs : register_ctx) (fmt : option (list Z)) (args : list va) : P (list Z) :=
  let* m := kget pram in
  let* r := kopt (match fmt with
    | Some fmt => vsnprintf m buf 1024 fmt args
    | None =>
        if 32 <=? vector regs then snprintf m buf 1024 (str "Unknown panic vector: %d") [VWord (vector regs)]
        else name ← strings !! Z.to_nat (vector regs); snprintf m buf 1024 (str "%s") [VString name]
    end) in
  kmod (set_pram (snd r)) ;;;
  λ s, match read_cstr 1024 (pram s) buf with Some l => Ret l s | None => Fault end.

Definition kpanic (cpu junk : register_ctx) (ret buf : Z) (ctx : option register_ctx) (fmt : option (list Z)) (args : list va) :
    kernel SYS unit :=
  let regs := match ctx with
    | None => set_vector_err 0x0 0xDEADBEEF (capture_regs cpu junk ret)
    | Some ctx => ctx
    end in
  let* what := in_printer (panic_message buf regs fmt args) in
  in_printer (printf (NL ++ str "=== Kernel panic: '%s' @ 0x%.16llx") [VString what; VWord (rip regs)]) ;;;
  let* proc := in_knl scheduler_get_current in
  (if proc =? 0 then kret tt else
   let* b := in_knl (get_pcb proc) in
   in_printer (printf (str ", pid %d error: %s") [VWord (pid b); VString (ERRNO_TO_STR (errno b))]) ;;;
   in_knl (upd_pcb proc (pset_in_syscall false))) ;;;
  in_printer (
    printf (str " ===" ++ NL) [] ;;;
    kprintf (NL ++ str "========== KERNEL PANIC ==========" ++ NL ++ NL) [] ;;;
    kprintf (str "PANIC OCCURRED: %s") [VString what] ;;;
    kprintf (NL ++ NL) [] ;;;
    panic_registers regs ;;;
    panic_tail regs ;;;
    kprintf (NL ++ str "!!! SYSTEM CRASHED !!!" ++ NL) [] ;;; kret tt) ;;;
  khalt.

Definition idt_default_interrupt_code (cpu junk : register_ctx) (ret buf : Z) (ctx : register_ctx) : kernel SYS unit :=
  kpanic cpu junk ret buf (Some ctx) None [].
End panic.

(** ** The lines of the report *)

(** [n] hexadecimal digits. *)
Fixpoint hex (n : nat) (v : Z) : list Z :=
  match n with
  | O => []
  | S n => hex n (v / 16) ++ [default 0 (str "0123456789abcdef" !! Z.to_nat (v mod 16))]
  end.

Definition row_text (name : string) (v : Z) : list Z :=
  str "| " ++ str name ++ replicate (12 - length (str name)) 32 ++ str " | 0x" ++ hex 16 v ++ str " |" ++ NL.

Lemma digit_char_hex d : 0 ≤ d < 16 → default 0 (str "0123456789abcdef" !! Z.to_nat d) = digit_char 32 d.
Proof.
  intros Hd. assert (d ∈ seqZ 0 16) as Hin by (apply elem_of_seqZ; lia). revert d Hin Hd.
  assert (Forall (λ d, default 0 (str "0123456789abcdef" !! Z.to_nat d) = digit_char 32 d) (seqZ 0 16)) as HF
    by (vm_compute; repeat constructor).
  intros d Hin _. by apply (proj1 (Forall_forall _ _) HF).
Qed.

Lemma hex_zero n : hex n 0 = replicate n 48.
Proof. induction n as [|n IH]; [done|]. cbn [hex]. rewrite Z.div_0_l, IH by done. change (default 0 _) with 48. by rewrite <- replicate_cons_app. Qed.

(** Digits padded with zeros to a width that is enough. *)
Lemma hex_utoa (n fuel : nat) v :
  (0 < n)%nat → (n ≤ fuel)%nat → 0 ≤ v < 16 ^ Z.of_nat n →
  replicate (n - length (npf_utoa_rev fuel v 16 32)) 48 ++ reverse (npf_utoa_rev fuel v 16 32) = hex n v.
Proof.
  revert fuel v. induction n as [|n IH]; intros fuel v Hn Hf Hv; [lia|]. destruct fuel as [|fuel]; [lia|]. cbn [npf_utoa_rev hex].
  pose proof (Z.mod_pos_bound v 16 ltac:(lia)). pose proof (Z.div_mod v 16 ltac:(lia)). rewrite digit_char_hex by lia.
  rewrite Nat2Z.inj_succ, Z.pow_succ_r in Hv by lia. assert (0 ≤ v / 16 < 16 ^ Z.of_nat n) as Hq.
  { split; [apply Z.div_pos; lia|]. apply Z.div_lt_upper_bound; lia. }
  rewrite reverse_cons. cbn [length]. destruct (Z.eqb_spec (v / 16) 0) as [E0|E0].
  - rewrite E0, hex_zero. change (reverse []) with (@nil Z). rewrite app_nil_l. f_equal. f_equal. simpl. lia.
  - destruct n as [|n]; [simpl in Hq; lia|]. rewrite <- (IH fuel (v / 16)) by lia. rewrite app_assoc. done.
Qed.

Lemma row_printed name v t :
  (length (str name) ≤ 12)%nat → 0 ≤ v < 2 ^ 64 → t = [] ∨ t = NL →
  npf_vpprintf (ROW ++ t) [VString (str name); VWord v] = Some (row_text name v ++ t).
Proof.
  intros Hl Hv Ht. set (l := str name) in *.
  change (ROW ++ t) with (str "| " ++ 37 :: (str "-12s | 0x%016llx |" ++ NL ++ t)).
  rewrite format_text by (repeat constructor; discriminate).
  rewrite (format_conversion _ (str " | 0x" ++ 37 :: (str "016llx |" ++ NL ++ t))
    (Spec 0 false OPT_LITERAL 12 true false OPT_NONE 0 LEN_MOD_NONE CONV_STRING 32) _ (Converted l 0 0 false 0) [VWord v]);
    [|destruct Ht as [-> | ->]; vm_compute; reflexivity|done|done| |].
  2: { unfold npf_convert. cbn [conv_spec va_string mbind option_bind prec_opt prec]. by rewrite decide_True, firstn_all by done. }
  2: { unfold pads_defined, fits_int. cbn [conv_spec cbuf sign_c need_0x field_width]. rewrite bool_decide_true by done. cbn [orb Z.eqb andb].
       zcases; (done || lia). }
  rewrite format_text by (repeat constructor; discriminate).
  set (d := npf_utoa_rev 64 v 16 32).
  assert (length d ≤ 16)%nat as Hd by (apply utoa_length; [lia|change (16 ^ Z.of_nat 16) with (2 ^ 64); lia|lia]).
  rewrite (format_conversion _ (str " |" ++ NL ++ t)
    (Spec 0 false OPT_LITERAL 16 false true OPT_NONE 0 LEN_MOD_LARGE_LONG_LONG CONV_HEX_INT 32) _ (Converted d 0 0 (v =? 0) 0) []);
    [|destruct Ht as [-> | ->]; vm_compute; reflexivity|done|done| |].
  2: { unfold npf_convert. cbn [conv_spec va_word mbind option_bind prec_opt prec length_modifier extract_unsigned alt_form case_adjust].
       rewrite u64_small by done. rewrite !bool_decide_false by done. rewrite bool_decide_true by done.
       unfold no_digits. cbn [prec_opt]. rewrite bool_decide_false by done. rewrite ?andb_false_r. cbn [andb]. done. }
  2: { unfold pads_defined, fits_int, npf_max. cbn [conv_spec cbuf sign_c need_0x field_width cprec]. rewrite bool_decide_false by done. cbn [orb Z.eqb].
       zcases; (done || lia). }
  assert (npf_vpprintf (str " |" ++ NL ++ t) [] = Some (str " |" ++ NL ++ t)) as -> by (destruct Ht as [-> | ->]; reflexivity). cbn [fmap option_fmap option_map]. f_equal.
  unfold row_text. fold l. rewrite <- !app_assoc. f_equal.
  assert (npf_emit (Spec 0 false OPT_LITERAL 12 true false OPT_NONE 0 LEN_MOD_NONE CONV_STRING 32) (Converted l 0 0 false 0) =
    l ++ replicate (12 - length l) 32) as ->.
  { unfold npf_emit, pad_char. cbn [conv_spec cbuf cprec sign_c need_0x field_width_opt left_justified leading_zero_pad field_width].
    rewrite (bool_decide_true (CONV_STRING = CONV_STRING)), (decide_True (P := OPT_LITERAL = OPT_LITERAL)) by done.
    cbn [negb andb Z.eqb app prefix_0x]. f_equal. unfold rep, npf_max. f_equal. zcases; lia. }
  assert (npf_emit (Spec 0 false OPT_LITERAL 16 false true OPT_NONE 0 LEN_MOD_LARGE_LONG_LONG CONV_HEX_INT 32) (Converted d 0 0 (v =? 0) 0) =
    hex 16 v) as ->.
  { unfold npf_emit, pad_char. cbn [conv_spec cbuf cprec sign_c need_0x field_width_opt left_justified leading_zero_pad prec_opt field_width].
    rewrite (bool_decide_false (CONV_HEX_INT = CONV_STRING)), (bool_decide_false (OPT_NONE = OPT_LITERAL)), (decide_True (P := OPT_LITERAL = OPT_LITERAL)) by done.
    cbn [negb andb Z.eqb app opt_char prefix_0x Pos.eqb]. rewrite <- (hex_utoa 16 64 v) by (lia || (change (16 ^ Z.of_nat 16) with (2 ^ 64); lia)).
    fold d. rewrite app_nil_r. unfold rep, npf_max.
    replace (Z.to_nat (if 0 - Z.of_nat (length d) <? 0 then 0 else 0 - Z.of_nat (length d))) with 0%nat by (zcases; lia).
    cbn [replicate app]. f_equal. f_equal. zcases; lia. }
  by rewrite <- !app_assoc.
Qed.

Lemma row_plain name v :
  (length (str name) ≤ 12)%nat → 0 ≤ v < 2 ^ 64 → npf_vpprintf ROW [VString (str name); VWord v] = Some (row_text name v).
Proof. intros. rewrite <- (app_nil_r ROW), <- (app_nil_r (row_text _ _)). apply row_printed; [done|done|by left]. Qed.

(** ** Texts that are bytes *)

Definition bytes_ok (l : list Z) : Prop := Forall (λ c, 0 ≤ c < 256) l.

Lemma str_bytes s : bytes_ok (str s).
Proof.
  apply Forall_fmap, Forall_forall. intros c _. simpl. pose proof (Ascii.N_ascii_bounded c). lia.
Qed.

Lemma hex_bytes n v : bytes_ok (hex n v).
Proof.
  revert v. induction n as [|n IH]; intros v; [constructor|]. apply Forall_app. split; [apply IH|]. apply Forall_singleton.
  destruct (str "0123456789abcdef" !! _) as [c|] eqn:Ec; simpl; [|lia]. by apply (Forall_lookup_1 _ _ _ _ (str_bytes _) Ec).
Qed.

Lemma row_bytes name v : bytes_ok (row_text name v).
Proof.
  unfold row_text, bytes_ok. rewrite !Forall_app. repeat split; try apply str_bytes; try apply hex_bytes.
  - apply Forall_replicate. lia.
  - repeat constructor; lia.
Qed.

Lemma fitting_bytes l : bytes_ok l → zlen l < 1024 → fitting l = l.
Proof.
  intros Hl Hn. unfold fitting. rewrite (proj2 (Z.ltb_lt _ _)) by done. unfold chars. clear Hn.
  induction Hl as [|c l Hc Hl IH]; [done|]. cbn [fmap list_fmap]. rewrite Z.mod_small by done. by f_equal.
Qed.

Lemma hex_length n v : length (hex n v) = n.
Proof. revert v. induction n as [|n IH]; intros v; [done|]. cbn [hex]. rewrite length_app, IH. simpl. lia. Qed.

Lemma row_length name v : (length (str name) ≤ 12)%nat → length (row_text name v) = 38%nat.
Proof. intros Hl. unfold row_text. rewrite !length_app, length_replicate, hex_length. simpl. lia. Qed.

(** The dump of the registers. *)
Definition rows (l : list (string * Z)) : list Z := concat ((λ p, row_text p.1 p.2) <$> l).

Definition registers_text (r : register_ctx) : list Z :=
  str "<<< REGISTER DUMP >>>" ++ NL ++
  rows [("rax", rax r); ("rbx", rbx r); ("rcx", rcx r); ("rdx", rdx r); ("rsi", rsi r); ("rdi", rdi r); ("rbp", rbp r);
        ("r8", r8 r); ("r9", r9 r); ("r10", r10 r); ("r11", r11 r); ("r12", r12 r); ("r13", r13 r); ("r14", r14 r);
        ("r15", r15 r)]%string ++
  NL ++ str "[SEGMENT REGISTERS]" ++ NL ++ rows [("es", es r); ("ds", ds r)]%string ++
  NL ++ str "[CONTROL REGISTERS]" ++ NL ++ rows [("cr0", cr0 r); ("cr2", cr2 r); ("cr3", cr3 r); ("cr4", cr4 r)]%string ++
  NL ++ str "[FINAL SYSTEM STATE]" ++ NL ++
  rows [("vector", vector r); ("err", err r); ("rip", rip r); ("cs", cs r); ("rflags", rflags r); ("rsp", rsp r); ("ss", ss r)]%string ++
  NL.

(** Registers are 64 bits wide. *)
Definition regs_ok (r : register_ctx) : Prop :=
  Forall (λ x, 0 ≤ x < 2 ^ 64)
    [es r; ds r; cr4 r; cr3 r; cr2 r; cr0 r; r15 r; r14 r; r13 r; r12 r; r11 r; r10 r; r9 r; r8 r; rsi r; rdi r; rbp r; rdx r;
     rcx r; rbx r; rax r; vector r; err r; rip r; cs r; rflags r; rsp r; ss r].

Lemma strings_ok what :
  what ∈ strings → bytes_ok what ∧ Forall (λ c, c ≠ 0) what ∧ zlen what ≤ 40 ∧ npf_vpprintf (str "%s") [VString what] = Some what ∧
    npf_vpprintf (str "PANIC OCCURRED: %s") [VString what] = Some (str "PANIC OCCURRED: " ++ what).
Proof.
  revert what. apply (proj1 (Forall_forall _ _)).
  repeat (constructor; [split; [apply str_bytes|]; split; [repeat constructor; discriminate|]; split; [vm_compute; congruence|];
    split; vm_compute; reflexivity|]). constructor.
Qed.

Section report.
Context {E M D T : Type} `{KernelEnvLaws E} `{PortIO D} (junk : Z) (ofuel : nat).
Context (flanterm_write : Z → list Z → T → T) (putchar_code : Z → Z → T → T).
Context (printk_buff_start frame hhdm_offset kernel_vma_context : Z) (fuel : nat) (m0 : mem).
Context (Hframe : 0 < frame) (Hoff : off_ring printk_buff_start frame 1024).
Abbreviation prints := (prints flanterm_write putchar_code printk_buff_start frame m0 (E := E) (T := T)).
Abbreviation ends := (ends flanterm_write putchar_code printk_buff_start frame m0 (E := E) (T := T)).
Abbreviation kprintf := (kprintf flanterm_write putchar_code printk_buff_start frame).

(** Text without conversions. *)
Lemma prints_literal l :
  npf_vpprintf l [] = Some l → bytes_ok l → zlen l < 1024 → prints (kprintf l []) l [].
Proof.
  intros Ht Hb Hl. rewrite <- (fitting_bytes l Hb Hl) at 2. apply prints_kprintf; [done|done|done|lia].
Qed.

Lemma prints_row name v :
  (length (str name) ≤ 12)%nat → 0 ≤ v < 2 ^ 64 → prints (row flanterm_write putchar_code printk_buff_start frame name v) (row_text name v) [].
Proof.
  intros Hn Hv. pose proof (row_length name v Hn) as Hl. unfold row. eapply prints_eq; [eapply prints_then; [|apply prints_ret]|rewrite app_nil_r..].
  - eapply prints_kprintf; [done|done|by apply row_plain|unfold zlen; lia].
  - apply fitting_bytes; [apply row_bytes|unfold zlen; lia].
  - done.
Qed.

Ltac literal := apply prints_literal; [vm_compute; reflexivity|unfold bytes_ok; rewrite ?Forall_app; repeat split; try apply str_bytes; repeat constructor; lia|vm_compute; reflexivity].

Lemma prints_registers r :
  regs_ok r → prints (panic_registers flanterm_write putchar_code printk_buff_start frame r) (registers_text r) [].
Proof.
  intros Hr. unfold regs_ok in Hr. rewrite !Forall_cons in Hr. destruct_and?. unfold panic_registers. eapply prints_eq.
  - repeat (eapply prints_then; [first [literal | apply prints_row; [vm_compute; lia|done]
      | eapply prints_kprintf; [done|done|apply row_printed; [vm_compute; lia|done|by right]|unfold zlen; rewrite length_app, row_length by (vm_compute; lia); vm_compute; reflexivity]]|]).
    apply prints_ret.
  - rewrite (fitting_bytes (row_text _ _ ++ NL)).
    + unfold registers_text, rows. cbn [fmap list_fmap concat fst snd]. rewrite ?app_nil_r, <- ?app_assoc. reflexivity.
    + apply Forall_app. split; [apply row_bytes|repeat constructor; lia].
    + unfold zlen. rewrite length_app, row_length by (vm_compute; lia). vm_compute. reflexivity.
  - done.
Qed.

Lemma ends_stack_word a : ends (stack_word flanterm_write putchar_code printk_buff_start frame a).
Proof.
  apply ends_bind; [apply ends_get|intros w]. apply ends_bind; [apply ends_kprintf; [done|done|words]|intros _; apply ends_ret].
Qed.

Lemma ends_backtrace (n : nat) sp rbp :
  0 ≤ sp → rbp + 8 < 2 ^ 64 → (rbp - sp) / 8 < Z.of_nat n → ends (backtrace flanterm_write putchar_code printk_buff_start frame n sp rbp).
Proof.
  revert sp. induction n as [|n IH]; intros sp Hsp Hb Hn; cbn [backtrace]; destruct (Z.leb_spec sp rbp) as [Hle|Hgt]; try apply ends_ret.
  - pose proof (Z.div_pos (rbp - sp) 8). lia.
  - apply ends_bind; [apply ends_stack_word|intros _]. rewrite u64_small by lia. apply IH; [lia|done|].
    replace (rbp - (sp + 8)) with (rbp - sp + (-1) * 8) by lia. rewrite Z.div_add by lia. lia.
Qed.

Lemma ends_tail (n : nat) r :
  regs_ok r → kernel_vma_context ≠ 0 → readable printk_buff_start frame (kernel_vma_context + CTX_ROOT) 8 →
  region_chain printk_buff_start frame m0 n (load64 m0 (kernel_vma_context + CTX_ROOT)) → (n ≤ fuel)%nat →
  rbp r + 8 < 2 ^ 64 → (rbp r - rsp r) / 8 < Z.of_nat fuel →
  ends (panic_tail (kernel_ops junk ofuel) flanterm_write putchar_code printk_buff_start frame hhdm_offset kernel_vma_context fuel r).
Proof.
  intros Hr Hv Hrd Hch Hf Hb Hn. unfold panic_tail.
  apply ends_bind; [apply ends_trace; [done|done|words]|intros _].
  apply ends_bind; [by eapply vma_dump_ends|intros _].
  apply ends_bind; [apply ends_kprintf; [done|done|words]|intros _].
  apply ends_bind; [apply ends_stack_word|intros _]. apply ends_backtrace; [|done|done].
  unfold regs_ok in Hr. rewrite !Forall_cons in Hr. destruct_and?. lia.
Qed.

(** Code that prints a known text, then something, then a known text. *)
Lemma prints_around {A B C} (a : kernel (printer E T) A) (b : kernel (printer E T) B) (c : kernel (printer E T) C) k1 c1 k3 c3 s log :
  prints a k1 c1 → ends b → prints c k3 c3 → calm printk_buff_start frame m0 s log →
  ∃ x s' k2 con, (a ;;; b ;;; c) s = Ret x s' ∧ said flanterm_write putchar_code printk_buff_start frame m0 s log (k1 ++ k2 ++ k3) con s'.
Proof.
  intros Ha Hb Hc Hs. destruct (Ha s log Hs) as (x1 & s1 & R1 & S1).
  destruct (Hb s1 _ (sd_calm _ _ _ _ _ _ _ _ _ _ S1)) as (x2 & s2 & k2 & c2 & R2 & S2).
  destruct (Hc s2 _ (sd_calm _ _ _ _ _ _ _ _ _ _ S2)) as (x3 & s3 & R3 & S3).
  exists x3, s3, k2, (c1 ++ c2 ++ c3). rewrite (kbind_run _ _ _ _ _ R1), (kbind_run _ _ _ _ _ R2). split; [done|].
  eapply said_trans; [exact S1|]. by eapply said_trans.
Qed.

(** What [kpanic] prints after the name of the exception. *)
Lemma report_run (n : nat) r what s log :
  regs_ok r → what ∈ strings → calm printk_buff_start frame m0 s log →
  kernel_vma_context ≠ 0 → readable printk_buff_start frame (kernel_vma_context + CTX_ROOT) 8 →
  region_chain printk_buff_start frame m0 n (load64 m0 (kernel_vma_context + CTX_ROOT)) → (n ≤ fuel)%nat →
  rbp r + 8 < 2 ^ 64 → (rbp r - rsp r) / 8 < Z.of_nat fuel →
  ∃ x s' rest con, (
    printf (kernel_ops junk ofuel) frame (str " ===" ++ NL) [] ;;;
    kprintf (NL ++ str "========== KERNEL PANIC ==========" ++ NL ++ NL) [] ;;;
    kprintf (str "PANIC OCCURRED: %s") [VString what] ;;;
    kprintf (NL ++ NL) [] ;;;
    panic_registers flanterm_write putchar_code printk_buff_start frame r ;;;
    panic_tail (kernel_ops junk ofuel) flanterm_write putchar_code printk_buff_start frame hhdm_offset kernel_vma_context fuel r ;;;
    kprintf (NL ++ str "!!! SYSTEM CRASHED !!!" ++ NL) [] ;;; kret tt) s = Ret x s' ∧
    said flanterm_write putchar_code printk_buff_start frame m0 s log
      ((NL ++ str "========== KERNEL PANIC ==========" ++ NL ++ NL ++ str "PANIC OCCURRED: " ++ what ++ NL ++ NL ++ registers_text r) ++
       rest ++ NL ++ str "!!! SYSTEM CRASHED !!!" ++ NL) con s'.
Proof.
  intros Hr Hw Hs Hv Hrd Hch Hf Hb Hn.
  destruct (strings_ok what Hw) as (Hwb & _ & Hwl & _ & Ht).
  assert (zlen (str "PANIC OCCURRED: " ++ what) < 1024) as Hlen by (rewrite zlen_app; change (zlen (str "PANIC OCCURRED: ")) with 16; lia).
  destruct (prints_around
    (printf (kernel_ops junk ofuel) frame (str " ===" ++ NL) [] ;;;
     kprintf (NL ++ str "========== KERNEL PANIC ==========" ++ NL ++ NL) [] ;;;
     kprintf (str "PANIC OCCURRED: %s") [VString what] ;;;
     kprintf (NL ++ NL) [] ;;;
     panic_registers flanterm_write putchar_code printk_buff_start frame r)
    (panic_tail (kernel_ops junk ofuel) flanterm_write putchar_code printk_buff_start frame hhdm_offset kernel_vma_context fuel r)
    (kprintf (NL ++ str "!!! SYSTEM CRASHED !!!" ++ NL) [] ;;; kret tt)
    (NL ++ str "========== KERNEL PANIC ==========" ++ NL ++ NL ++ str "PANIC OCCURRED: " ++ what ++ NL ++ NL ++ registers_text r) (str " ===" ++ NL)
    (NL ++ str "!!! SYSTEM CRASHED !!!" ++ NL) [] s log) as (x & s' & rest & con & Hrun & S); [| | |done|].
  - eapply prints_eq.
    + eapply prints_then; [eapply prints_printf; [done|done|vm_compute; reflexivity|vm_compute; reflexivity]|].
      eapply prints_then; [literal|]. eapply prints_then; [eapply prints_kprintf; [done|done|exact Ht|lia]|].
      eapply prints_then; [literal|]. by apply prints_registers.
    + rewrite (fitting_bytes (str "PANIC OCCURRED: " ++ what)) by (done || (apply Forall_app; split; [apply str_bytes|done])).
      by rewrite <- !app_assoc.
    + reflexivity.
  - by eapply ends_tail.
  - eapply prints_eq; [eapply prints_then; [literal|apply prints_ret]|by rewrite app_nil_r|done].
  - exists x, s', rest, con. split; [|exact S]. rewrite <- Hrun. rewrite !kbind_assoc. unfold kbind.
    repeat match goal with |- context [match ?c ?z with _ => _ end] => destruct (c z) end; done.
Qed.
End report.

(** ** The panic *)

Section system.
Context {E M D T : Type} `{KernelEnvLaws E} `{PortIO D} (junk : Z) (ofuel : nat).
Context (flanterm_write : Z → list Z → T → T) (putchar_code : Z → Z → T → T).
Context (printk_buff_start frame hhdm_offset kernel_vma_context : Z) (fuel : nat).
Context (Hframe : 0 < frame) (Hoff : off_ring printk_buff_start frame 1024).
Implicit Types s : system E M D T.

(** Printing in the whole machine. *)
(** The name of the exception, in the buffer. *)
Lemma exception_message buf r (p : printer E T) :
  0 ≤ vector r < 32 → 0 < buf → buf + 1024 < 2 ^ 64 →
  ∃ what m, what ∈ strings ∧ strings !! Z.to_nat (vector r) = Some what ∧
    panic_message buf r None [] p = Ret what (set_pram m p) ∧
    ∀ a, a < buf ∨ buf + 1024 ≤ a → load8 m a = load8 (pram p) a.
Proof.
  intros Hv Hb He. destruct (lookup_lt_is_Some_2 strings (Z.to_nat (vector r))) as [what Hw]; [simpl; lia|].
  assert (what ∈ strings) as Hin by (by eapply list_elem_of_lookup_2).
  destruct (strings_ok what Hin) as (Hwb & Hw0 & Hwl & Ht & _).
  destruct (vsnprintf_run (pram p) buf 1024 (str "%s") [VString what] what Ht ltac:(lia) Hb ltac:(lia) He) as (m & Hrun & Hspec).
  rewrite decide_False in Hspec by lia. destruct Hspec as (Hsame & Htext & Hz). rewrite Z.min_l in Htext, Hz by lia.
  exists what, m. split; [done|]. split; [done|]. split; [|exact Hsame].
  unfold panic_message. unfold kbind at 1, kget at 1. rewrite (proj2 (Z.leb_gt _ _)) by lia. rewrite Hw. cbn [mbind option_bind].
  unfold snprintf. rewrite Hrun. cbn [kopt]. rewrite kbind_ret. unfold kbind at 1, kmod at 1. cbn [snd pram set_pram].
  rewrite (read_cstr_ok 1024 m buf what); [done| |unfold zlen in Hwl; lia].
  apply cstr_intro; [done| |done]. intros i c Hi. pose proof (lookup_lt_Some _ _ _ Hi) as Hlt.
  rewrite Htext, Nat2Z.id, Hi by (unfold zlen; lia). simpl. apply Z.mod_small. exact (Forall_lookup_1 _ _ _ _ Hwb Hi).
Qed.

(** The regions of the kernel, which are neither in the ring nor in the two buffers. *)
Fixpoint kernel_regions (m : mem) (buf : Z) (n : nat) (p : Z) : Prop :=
  match n with
  | O => p = 0
  | S n => p ≠ 0 ∧ readable printk_buff_start frame (p + REGION_NEXT) 8 ∧ (p + REGION_NEXT + 8 ≤ buf ∨ buf + 1024 ≤ p + REGION_NEXT) ∧
      kernel_regions m buf n (load64 m (p + REGION_NEXT))
  end.

Lemma kernel_regions_chain m m' buf n p :
  (∀ a, a < buf ∨ buf + 1024 ≤ a → load8 m' a = load8 m a) → kernel_regions m buf n p → region_chain printk_buff_start frame m' n p.
Proof.
  intros Hm. revert p. induction n as [|n IH]; intros p Hp; [done|]. destruct Hp as (H0' & Hr & Ho & Hp). cbn [region_chain].
  split; [done|]. split; [done|]. assert (load64 m' (p + REGION_NEXT) = load64 m (p + REGION_NEXT)) as ->; [|by apply IH].
  apply load64_ext. intros b Hb. apply Hm. lia.
Qed.

(** The process that was running is no longer in a system call. *)
Definition panicked (k : kst E M) (cur : Z) : kst E M :=
  if cur =? 0 then k else
  match pcbs k !! cur with
  | Some b => kset_pcbs (<[cur := pset_in_syscall false b]> (pcbs k)) k
  | None => k
  end.

(** The part of the report about the process that was running. *)
Lemma process_line m s log cur :
  calm printk_buff_start frame m (printer_of s) log → cur = 0 ∨ is_Some (pcbs (knl s) !! cur) →
  ∃ s' log', (if cur =? 0 then kret tt else
     let* b := in_knl (get_pcb cur) in
     in_printer (printf (kernel_ops junk ofuel) frame (str ", pid %d error: %s") [VWord (pid b); VString (ERRNO_TO_STR (errno b))]) ;;;
     in_knl (upd_pcb cur (pset_in_syscall false))) s = Ret tt s' ∧
    calm printk_buff_start frame m (printer_of s') log' ∧ t_serial (trm s') = t_serial (trm s) ∧ mch s' = mch s ∧
    ∃ f, knl s' = kset_kfs f (panicked (knl s) cur).
Proof.
  intros C Hpcb. unfold panicked. destruct (Z.eqb_spec cur 0) as [E0|E0].
  { exists s, log. split; [done|]. split; [done|]. split; [done|]. split; [done|]. exists (kfs (knl s)). by destruct (knl s). }
  destruct Hpcb as [?|[b Hb]]; [done|]. rewrite (kbind_run _ _ s b s).
  2: { unfold in_knl, zoom. rewrite (get_pcb_run (knl s) cur b Hb). by destruct s. }
  assert (checked (str ", pid %d error: %s") [VWord (pid b); VString (ERRNO_TO_STR (errno b))]) as Hck.
  { exists [AWord; AString 30]. split; [|vm_compute; reflexivity]. constructor; [done|]. constructor; [apply errno_text_length|constructor]. }
  destruct (checked_text _ _ Hck) as (out & Ho & Hl).
  destruct (in_printer_prints _ _ _ _ m _ _ _ s log (prints_printf junk ofuel flanterm_write putchar_code printk_buff_start frame m Hframe Hoff _ _ _ Ho Hl) C)
    as (x & p & R & S). rewrite (kbind_run _ _ _ _ _ R). eexists (set_knl _ (set_printer p s)), _. split; [|split; [|split]].
  - apply zoom_run. unfold upd_pcb. rewrite (kbind_run _ _ _ _ _ (get_pcb_run (knl (set_printer p s)) cur b Hb)). reflexivity.
  - pose proof (sd_calm _ _ _ _ _ _ _ _ _ _ S) as C3. destruct p. exact C3.
  - cbn. by rewrite (sd_serial _ _ _ _ _ _ _ _ _ _ S), app_nil_r.
  - split; [done|]. rewrite Hb. exists (pfs p). reflexivity.
Qed.

(** The whole of [kpanic] on an exception. *)
Lemma kpanic_run (n : nat) s log cpu junkr ret buf r cur
    (Hregs : regs_ok r) (Hvec : vector r < 32)
    (Hbuf : 0 < buf ∧ buf + 1024 < 2 ^ 64 ∧ off_ring printk_buff_start buf 1024 ∧ (buf + 1024 ≤ frame ∨ frame + 1024 ≤ buf))
    (Hring : ring printk_buff_start (printer_of s) log) (Hlock : t_put_lock (trm s) = false)
    (Hout : stdout (kfs (knl s)) = 0 ∨ stdout_ready (kfs (knl s)))
    (Hcur : scheduler_get_current (knl s) = Ret cur (knl s)) (Hpcb : cur = 0 ∨ is_Some (pcbs (knl s) !! cur))
    (Hctx : kernel_vma_context ≠ 0 ∧ readable printk_buff_start frame (kernel_vma_context + CTX_ROOT) 8 ∧
       (kernel_vma_context + CTX_ROOT + 8 ≤ buf ∨ buf + 1024 ≤ kernel_vma_context + CTX_ROOT))
    (Hregions : kernel_regions (t_ram (trm s)) buf n (load64 (t_ram (trm s)) (kernel_vma_context + CTX_ROOT)))
    (Hfuel : (n ≤ fuel)%nat ∧ rbp r + 8 < 2 ^ 64 ∧ (rbp r - rsp r) / 8 < Z.of_nat fuel) :
  ∃ s' what rest, strings !! Z.to_nat (vector r) = Some what ∧
    idt_default_interrupt_code (kernel_ops junk ofuel) flanterm_write putchar_code printk_buff_start frame hhdm_offset
      kernel_vma_context fuel cpu junkr ret buf r s = Halt s' ∧
    t_serial (trm s') = t_serial (trm s) ++
      (NL ++ str "========== KERNEL PANIC ==========" ++ NL ++ NL ++ str "PANIC OCCURRED: " ++ what ++ NL ++ NL ++ registers_text r) ++
      rest ++ NL ++ str "!!! SYSTEM CRASHED !!!" ++ NL ∧
    t_put_lock (trm s') = false ∧ mch s' = mch s ∧ ∃ f, knl s' = kset_kfs f (panicked (knl s) cur).
Proof.
  destruct Hbuf as (Hb0 & Hbe & Hbo & Hbf), Hctx as (Hc0 & Hcr & Hcb), Hfuel as (Hf1 & Hf2 & Hf3).
  assert (0 ≤ vector r) as Hv0 by (unfold regs_ok in Hregs; rewrite !Forall_cons in Hregs; destruct_and?; lia).
  destruct (exception_message buf r (printer_of s)) as (what & m & Hin & Hw & Hmsg & Hm); [lia|done|done|].
  set (s1 := set_printer (set_pram m (printer_of s)) s).
  assert (calm printk_buff_start frame m (printer_of s1) log) as C1.
  { unfold s1. rewrite printer_view. split; [done| |done|done]. revert Hring. apply ring_ext; [done|].
    intros a Ha. apply Hm. unfold off_ring in Hbo. lia. }
  destruct (strings_ok what Hin) as (Hwb & _ & Hwl & _).
  assert (checked (NL ++ str "=== Kernel panic: '%s' @ 0x%.16llx") [VString what; VWord (rip r)]) as Hck.
  { exists [AString 40; AWord]. split; [repeat constructor; done|vm_compute; reflexivity]. }
  destruct (checked_text _ _ Hck) as (out & Hout1 & Hlen1).
  destruct (in_printer_prints _ _ _ _ m _ _ _ s1 log (prints_printf junk ofuel flanterm_write putchar_code printk_buff_start frame m Hframe Hoff _ _ _ Hout1 Hlen1) C1)
    as (x2 & p2 & R2 & S2). set (s2 := set_printer p2 s1) in *.
  unfold idt_default_interrupt_code, kpanic.
  rewrite (kbind_run _ _ s what s1) by (by apply zoom_run). rewrite (kbind_run _ _ _ _ _ R2).
  set (log2 := if decide (stdout (pfs (printer_of s1)) = 0) then log ++ [] else log) in *.
  pose proof (sd_calm _ _ _ _ _ _ _ _ _ _ S2) as C2. fold log2 in C2.
  assert (in_knl scheduler_get_current s2 = Ret cur s2) as Hget.
  { unfold in_knl, zoom. assert (scheduler_get_current (knl s2) = Ret cur (knl s2)) as ->; [|by destruct s2].
    unfold scheduler_get_current in Hcur |- *. change (procs (knl s2)) with (procs (knl s)).
    change (current_pid (knl s2)) with (current_pid (knl s)). destruct (procs (knl s)) as [l|] eqn:El; [|by injection Hcur as <-].
    by apply (get_proc_same (knl s)). }
  rewrite (kbind_run _ _ _ _ _ Hget).
  destruct (process_line m s2 log2 cur ltac:(unfold s2; by rewrite printer_view) Hpcb) as (s3 & log3 & R3 & C3 & E3 & B3 & f3 & K3).
  rewrite (kbind_run _ _ _ _ _ R3).
  destruct (report_run junk ofuel flanterm_write putchar_code printk_buff_start frame hhdm_offset kernel_vma_context fuel m Hframe Hoff n r what
    (printer_of s3) log3 Hregs Hin C3 Hc0 Hcr) as (x4 & p4 & rest & con & R4 & S4); [|done|done|done|].
  { eapply kernel_regions_chain; [exact Hm|]. assert (load64 m (kernel_vma_context + CTX_ROOT) = load64 (t_ram (trm s)) (kernel_vma_context + CTX_ROOT)) as ->;
      [|done]. apply load64_ext. intros b Hb. apply Hm. lia. }
  rewrite (kbind_run _ _ s3 x4 (set_printer p4 s3)) by (by apply zoom_run).
  exists (set_printer p4 s3), what, rest. split; [done|]. split; [done|]. split.
  - cbn. rewrite (sd_serial _ _ _ _ _ _ _ _ _ _ S4). change (serial (printer_of s3)) with (t_serial (trm s3)). rewrite E3.
    change (t_serial (trm s2)) with (serial p2). rewrite (sd_serial _ _ _ _ _ _ _ _ _ _ S2). unfold s1. rewrite printer_view, app_nil_r. done.
  - split; [exact (ca_lock _ _ _ _ _ (sd_calm _ _ _ _ _ _ _ _ _ _ S4))|]. split; [exact B3|]. exists (pfs p4).
    change (knl (set_printer p4 s3)) with (kset_kfs (pfs p4) (knl s3)). rewrite K3. unfold panicked, s2, s1.
    cbn. by destruct (cur =? 0), (pcbs (knl s) !! cur).
Qed.

End system.

(** *** A page fault before the scheduler runs *)

(** No ports. *)
#[local] Instance no_ports : PortIO unit := {|
  inb d _ := (0, d); outb d _ _ := d;
|}.

Definition fault_regs : register_ctx := set_vector_err 14 2 (set_rip 0x400000 (set_rsp 0x7000 zero_regs)).

Definition fault_system : system demo_env demo_mem unit (list Z) :=
  System (Kst (Fs ∅ (DemoEnv 9 ∅ 0) 0 0 0 []) (DemoMem ∅ 0 0x10000) ∅ None ∅ 0 0 false 0)
    (Terminal (store64 ∅ (0x9000 + CTX_ROOT) 0xA000) 0 false [] [] 0 0)
    (Machine tt [] [] 0 0 0) (Segs [] (TssEntry 0 0) (0, 0) (0, 0) 0 0 0).

