(* ===== verification/Entry.v ===== *)
(** * Interrupt entry and exit

    The path of an interrupt from the processor to a handler and back: what the
    processor pushes, the stubs [_isrXX] and [isr_handler_stub] of [sys/intr.S],
    the call through [real_handlers], and the timer handler of
    [dev/timer/pit.c].  The stubs are lists of instructions that an interpreter
    runs on the registers and the words of the kernel stack.

    The theorems: whatever a handler does to its frame, the interrupted code is
    resumed with the registers of the frame, and the frame the handler gets
    holds the interrupted registers; a round of timer interrupts gives every
    process the processor once and is invisible to it. *)

From stdpp Require Import base gmap list strings.
From Stdlib Require Import ZArith Lia.
From S2P Require Import Prelude Ram CString PortIO Interrupts Gdt Vnode HeapEnv Vfs Ramfs Devfs Printf Vma Log Keyboard Scheduler Syscall System Panic.
#[local] Open Scope Z_scope.

(** ** The processor *)

Inductive reg := RAX | RBX | RCX | RDX | RBP | RDI | RSI | R8 | R9 | R10 | R11 | R12 | R13 | R14 | R15.
Inductive special := CR0 | CR2 | CR3 | CR4 | DS | ES.

#[export] Instance reg_eq_dec : EqDecision reg.
Proof. solve_decision. Defined.

(** The registers the code can see.  [stack] holds the words from the stack
    pointer up while the processor is in the kernel; [u_rip] and so on are the
    registers of the code that an interrupt suspends. *)
Record cpu := Cpu {
  gpr : reg → Z;
  special_of : special → Z;
  u_rip : Z;
  u_cs : Z;
  u_rflags : Z;
  u_rsp : Z;
  u_ss : Z;
  stack : list Z;
}.

Definition set_gpr (g : reg → Z) (c : cpu) : cpu :=
  Cpu g (special_of c) (u_rip c) (u_cs c) (u_rflags c) (u_rsp c) (u_ss c) (stack c).
Definition set_stack (l : list Z) (c : cpu) : cpu :=
  Cpu (gpr c) (special_of c) (u_rip c) (u_cs c) (u_rflags c) (u_rsp c) (u_ss c) l.
Definition set_reg (r : reg) (v : Z) (c : cpu) : cpu :=
  set_gpr (λ r', if decide (r' = r) then v else gpr c r') c.

(** The exceptions for which the processor pushes an error code (AMD64
    architecture manual, volume 2, section 8.2). *)
Definition pushes_error (v : Z) : bool := bool_decide (v ∈ [8; 10; 11; 12; 13; 14; 17; 21; 29; 30]).

(** What the processor does before the first instruction of the stub. *)
Definition deliver (v e : Z) (c : cpu) : cpu :=
  set_stack ((if pushes_error v then [e] else []) ++ [u_rip c; u_cs c; u_rflags c; u_rsp c; u_ss c] ++ stack c) c.

(** ** The stubs of [sys/intr.S] *)

Inductive insn :=
  | pushq (r : reg)
  | pushq_imm (n : Z)
  | movq_rax (x : special)
  | cld
  | addq_rsp (n : Z)
  | popq (r : reg)
  | iretq.

Definition exec (i : insn) (c : cpu) : option cpu :=
  match i with
  | pushq r => Some (set_stack (gpr c r :: stack c) c)
  | pushq_imm n => Some (set_stack (n :: stack c) c)
  | movq_rax x => Some (set_reg RAX (special_of c x) c)
  | cld => Some c
  | addq_rsp n =>
      if (Z.to_nat (n / 8) <=? length (stack c))%nat then Some (set_stack (drop (Z.to_nat (n / 8)) (stack c)) c) else None
  | popq r => match stack c with v :: l => Some (set_stack l (set_reg r v c)) | [] => None end
  | iretq =>
      match stack c with
      | ip :: sel :: fl :: sp :: sseg :: l => Some (Cpu (gpr c) (special_of c) ip sel fl sp sseg l)
      | _ => None
      end
  end.

Fixpoint exec_all (l : list insn) (c : cpu) : option cpu :=
  match l with
  | [] => Some c
  | i :: l => match exec i c with Some c => exec_all l c | None => None end
  end.

(** The macro [ISR]: a zero in the place of the error code where none is
    expected, and the vector. *)
Definition expects_error (v : Z) : bool := bool_decide (v ∈ [8; 10; 11; 12; 13; 14; 17; 30]).
Definition ISR (v : Z) : list insn := (if expects_error v then [] else [pushq_imm 0]) ++ [pushq_imm v].

(** [isr_handler_stub] up to the call, and after it. *)
Definition isr_enter : list insn :=
  [pushq RAX; pushq RBX; pushq RCX; pushq RDX; pushq RBP; pushq RDI; pushq RSI;
   pushq R8; pushq R9; pushq R10; pushq R11; pushq R12; pushq R13; pushq R14; pushq R15;
   movq_rax CR0; pushq RAX; movq_rax CR2; pushq RAX; movq_rax CR3; pushq RAX; movq_rax CR4; pushq RAX;
   movq_rax DS; pushq RAX; movq_rax ES; pushq RAX; cld].

Definition isr_leave : list insn :=
  [addq_rsp 48; popq R15; popq R14; popq R13; popq R12; popq R11; popq R10; popq R9; popq R8;
   popq RSI; popq RDI; popq RBP; popq RDX; popq RCX; popq RBX; popq RAX; addq_rsp 16; iretq].

(** ** The frame on the stack *)

(** [struct register_ctx] in memory order. *)
Definition words_of (r : register_ctx) : list Z :=
  [es r; ds r; cr4 r; cr3 r; cr2 r; cr0 r; r15 r; r14 r; r13 r; r12 r; r11 r; r10 r; r9 r; r8 r; rsi r; rdi r; rbp r;
   rdx r; rcx r; rbx r; rax r; vector r; err r; rip r; cs r; rflags r; rsp r; ss r].

Definition ctx_of (l : list Z) : option register_ctx :=
  match l with
  | a0 :: a1 :: a2 :: a3 :: a4 :: a5 :: a6 :: a7 :: a8 :: a9 :: a10 :: a11 :: a12 :: a13 :: a14 :: a15 :: a16 :: a17 :: a18 ::
    a19 :: a20 :: a21 :: a22 :: a23 :: a24 :: a25 :: a26 :: a27 :: _ =>
      Some (RegisterCtx a0 a1 a2 a3 a4 a5 a6 a7 a8 a9 a10 a11 a12 a13 a14 a15 a16 a17 a18 a19 a20 a21 a22 a23 a24 a25 a26 a27)
  | _ => None
  end.

(** ** An interrupt on the whole machine *)

Section interrupt.
Context {E M D T : Type} `{KernelEnv E} `{ProcMem M} `{PortIO D}.
Context (ops_table : Z → option (vnode_ops E)) (stale : pcb → Z) (fuel : nat).
(** [idt_default_interrupt_code] at its parameters, and what compiled C code
    leaves in the registers. *)
Context (panic : register_ctx → kernel (system E M D T) unit) (clobber : cpu → reg → Z).
Abbreviation SYS := (system E M D T).

(** [pit_handler] of [dev/timer/pit.c] *)
Definition pit_handler_code (frame : register_ctx) : kernel SYS register_ctx :=
  let* frame := in_knl (scheduler_tick frame) in
  in_mch (pic_eoi 0) ;;;
  kret frame.

(** The functions behind the pointers of [real_handlers]. *)
Definition run_handler (h : handler) (frame : register_ctx) : kernel SYS register_ctx :=
  match h with
  | idt_default_interrupt_handler => panic frame ;;; kret frame
  | Interrupts.syscall_handler => in_knl (Syscall.syscall_handler ops_table stale fuel frame)
  | pit_handler => pit_handler_code frame
  | kbd_handler => in_mch (kbd_handler_code fuel) ;;; kret frame
  end.

(** [movq 168(%rsp), %rbx] and the call through [real_handlers]; calling a null
    pointer is a fault. *)
Definition call_handler (c : cpu) : kernel SYS cpu :=
  let* v := kopt (stack c !! Z.to_nat (168 / 8)) in
  let* frame := kopt (ctx_of (stack c)) in
  let* o := kget (λ s, real_handlers (mch s) !! Z.to_nat v) in
  match o with
  | Some (Some h) =>
      let* frame := run_handler h frame in
      kret (set_gpr (clobber c) (set_stack (words_of frame ++ drop 28 (stack c)) c))
  | _ => kfault
  end.

(** An interrupt with vector [v] and error code [e] while [c] is running. *)
Definition interrupt (v e : Z) (c : cpu) : kernel SYS cpu :=
  let* c := kopt (exec_all (ISR v ++ isr_enter) (deliver v e c)) in
  let* c := call_handler c in
  kopt (exec_all isr_leave c).
End interrupt.

(** ** What a handler sees and what it returns to *)

Definition field (x : reg) (r : register_ctx) : Z :=
  match x with
  | RAX => rax r | RBX => rbx r | RCX => rcx r | RDX => rdx r | RBP => rbp r | RDI => rdi r | RSI => rsi r
  | R8 => r8 r | R9 => r9 r | R10 => r10 r | R11 => r11 r | R12 => r12 r | R13 => r13 r | R14 => r14 r | R15 => r15 r
  end.

(** The registers of [c] as a frame, and the processor back from a frame. *)
Definition frame_of (v e : Z) (c : cpu) : register_ctx :=
  let g := gpr c in let x := special_of c in
  RegisterCtx (x ES) (x DS) (x CR4) (x CR3) (x CR2) (x CR0) (g R15) (g R14) (g R13) (g R12) (g R11) (g R10) (g R9) (g R8)
    (g RSI) (g RDI) (g RBP) (g RDX) (g RCX) (g RBX) (g RAX) v e (u_rip c) (u_cs c) (u_rflags c) (u_rsp c) (u_ss c).

Record resumed (r : register_ctx) (c c' : cpu) : Prop := {
  rs_gpr : ∀ x, gpr c' x = field x r;
  rs_rip : u_rip c' = rip r;
  rs_cs : u_cs c' = cs r;
  rs_rflags : u_rflags c' = rflags r;
  rs_rsp : u_rsp c' = rsp r;
  rs_ss : u_ss c' = ss r;
  rs_stack : stack c' = stack c;
  rs_special : special_of c' = special_of c;
}.

(** The code that was interrupted cannot tell [c] from [c']. *)
Definition same_user (c c' : cpu) : Prop :=
  (∀ x, gpr c' x = gpr c x) ∧ u_rip c' = u_rip c ∧ u_cs c' = u_cs c ∧ u_rflags c' = u_rflags c ∧ u_rsp c' = u_rsp c ∧ u_ss c' = u_ss c.

Lemma resumed_frame v e c c0 c' : resumed (frame_of v e c) c0 c' → same_user c c'.
Proof. intros []. split_and!; try done. intros x. rewrite rs_gpr0. by destruct x. Qed.

Lemma ctx_of_words r l : ctx_of (words_of r ++ l) = Some r.
Proof. by destruct r. Qed.

(** The stub builds the frame on top of the words the vector's stub left. *)
Lemma isr_enter_run c v e ip sel fl sp sseg l :
  stack c = v :: e :: ip :: sel :: fl :: sp :: sseg :: l →
  ∃ c', exec_all isr_enter c = Some c' ∧ special_of c' = special_of c ∧
    stack c' = words_of (frame_of v e (Cpu (gpr c) (special_of c) ip sel fl sp sseg l)) ++ l.
Proof. intros Hs. destruct c as [g x ? ? ? ? ? st]. cbn in Hs. subst st. eexists. split; [vm_compute; reflexivity|]. by split. Qed.

Lemma isr_leave_run r c l : stack c = words_of r ++ l →
  ∃ c', exec_all isr_leave c = Some c' ∧ ∀ c0, stack c0 = l → special_of c0 = special_of c → resumed r c0 c'.
Proof.
  intros Hs. destruct c as [g x ? ? ? ? ? st]. cbn in Hs. subst st. destruct r. eexists. split; [vm_compute; reflexivity|].
  intros c0 <- Hx. split; try done. by intros [].
Qed.

Lemma exec_all_app l1 l2 c c1 : exec_all l1 c = Some c1 → exec_all (l1 ++ l2) c = exec_all l2 c1.
Proof.
  revert c. induction l1 as [|i l1 IH]; intros c; cbn [exec_all app]; [by intros [= ->]|].
  destruct (exec i c); [apply IH|done].
Qed.

(** The vectors whose stub agrees with the processor about the error code. *)
Lemma error_agrees v : pushes_error v = expects_error v ↔ v ≠ 21 ∧ v ≠ 29.
Proof.
  unfold pushes_error, expects_error.
  destruct (decide (v = 21)) as [->|]; [split; [done|lia]|]. destruct (decide (v = 29)) as [->|]; [split; [done|lia]|].
  split; [done|]. intros _. apply bool_decide_ext. rewrite !elem_of_cons, elem_of_nil. naive_solver.
Qed.

Lemma isr_run v e c : v ≠ 21 → v ≠ 29 →
  exec_all (ISR v) (deliver v e c) =
  Some (set_stack (v :: (if pushes_error v then e else 0) :: u_rip c :: u_cs c :: u_rflags c :: u_rsp c :: u_ss c :: stack c) c).
Proof.
  intros Ha Hb. unfold ISR, deliver. rewrite <- (proj2 (error_agrees v) (conj Ha Hb)). by destruct (pushes_error v).
Qed.

Section interrupt_facts.
Context {E M D T : Type} `{KernelEnv E} `{ProcMem M} `{PortIO D}.
Context (ops_table : Z → option (vnode_ops E)) (stale : pcb → Z) (fuel : nat).
Context (panic : register_ctx → kernel (system E M D T) unit) (clobber : cpu → reg → Z).
Implicit Types s : system E M D T.
Abbreviation handle := (run_handler ops_table stale fuel panic).
Abbreviation interrupt := (interrupt ops_table stale fuel panic clobber).

(** From the first instruction of the stub on: [w] are the words above the
    vector's zero, if any. *)
Lemma interrupt_run v w c e ip sel fl sp sseg l h s :
  exec_all (ISR v) (deliver v w c) = Some (set_stack (v :: e :: ip :: sel :: fl :: sp :: sseg :: l) c) →
  0 ≤ v → real_handlers (mch s) !! Z.to_nat v = Some (Some h) →
  let fr := frame_of v e (Cpu (gpr c) (special_of c) ip sel fl sp sseg l) in
  (∀ r s', handle h fr s = Ret r s' →
     ∃ c', interrupt v w c s = Ret c' s' ∧ resumed r (set_stack l c) c') ∧
  (∀ s', handle h fr s = Halt s' → interrupt v w c s = Halt s').
Proof.
  intros Hisr Hv Hh fr.
  destruct (isr_enter_run (set_stack (v :: e :: ip :: sel :: fl :: sp :: sseg :: l) c) v e ip sel fl sp sseg l eq_refl)
    as (c1 & He & Hx & Hst). change (frame_of v e _) with fr in Hst.
  assert (∀ s, interrupt v w c s = (let* r := handle h fr in
    kopt (exec_all isr_leave (set_gpr (clobber c1) (set_stack (words_of r ++ l) c1)))) s ∨ real_handlers (mch s) !! Z.to_nat v ≠ Some (Some h)) as Hrun.
  { intros s0. destruct (decide (real_handlers (mch s0) !! Z.to_nat v = Some (Some h))) as [Hh0|]; [left|by right].
    unfold interrupt. rewrite (exec_all_app _ _ _ _ Hisr), He. unfold call_handler.
    rewrite (kbind_run (kopt (Some c1)) _ s0 c1 s0 eq_refl).
    rewrite kbind_assoc, Hst. change ((words_of fr ++ l) !! Z.to_nat (168 / 8)) with (Some v).
    rewrite (kbind_run (kopt (Some v)) _ s0 v s0 eq_refl), kbind_assoc, ctx_of_words.
    rewrite (kbind_run (kopt (Some fr)) _ s0 fr s0 eq_refl), kbind_assoc.
    rewrite (kbind_run (kget _) _ s0 _ s0 eq_refl). cbv beta. rewrite Hh0, kbind_assoc. reflexivity. }
  destruct (Hrun s) as [Hr|Hno]; [|case (Hno Hh)]. rewrite Hr. split.
  - intros r s' Hk. rewrite (kbind_run _ _ _ _ _ Hk).
    destruct (isr_leave_run r (set_gpr (clobber c1) (set_stack (words_of r ++ l) c1)) l eq_refl) as (c' & -> & Hres).
    exists c'. split; [done|]. apply Hres; [done|]. cbn. by rewrite Hx.
  - intros s' Hk. unfold kbind. by rewrite Hk.
Qed.


(** For the vectors 21 and 29 the processor pushes an error code the stub does
    not expect, and the frame is off by one word: the handler finds the error
    code in the place of [rip]. *)
Lemma interrupt_shifted v e c h s (Hv : v = 21 ∨ v = 29) (Hh : real_handlers (mch s) !! Z.to_nat v = Some (Some h)) :
  ∃ c', u_rip c' = e ∧ u_cs c' = u_rip c ∧ u_rflags c' = u_cs c ∧
    ∀ s', handle h (frame_of v 0 c') s = Halt s' → interrupt v e c s = Halt s'.
Proof.
  exists (Cpu (gpr c) (special_of c) e (u_rip c) (u_cs c) (u_rflags c) (u_rsp c) (u_ss c :: stack c)).
  split_and!; try done. eapply interrupt_run; [|lia|done]. by destruct Hv as [-> | ->].
Qed.
End interrupt_facts.

(** ** Rounds of the timer *)

Section timer.
Context {E M D T : Type} `{KernelEnv E} `{ProcMem M} `{PicLaws D}.
Context (ops_table : Z → option (vnode_ops E)) (stale : pcb → Z) (fuel : nat).
Context (panic : register_ctx → kernel (system E M D T) unit) (clobber : cpu → reg → Z).
Implicit Types s : system E M D T.
Abbreviation interrupt := (interrupt ops_table stale fuel panic clobber).

(** The interrupts of the timer: each finds another processor state and the
    devices in another state. *)
Fixpoint timer_interrupts (l : list (cpu * D)) : kernel (system E M D T) (list cpu) :=
  match l with
  | [] => kret []
  | (c, d) :: l =>
      kmod (λ s, set_mch (set_ports d (mch s)) s) ;;;
      let* c := interrupt (IDT_IRQ_BASE + 0) 0 c in
      let* cs := timer_interrupts l in
      kret (c :: cs)
  end.

(** The interrupt controller with the line of the timer, and no other, in service. *)
Definition serving (m : machine D) : Prop :=
  pic_ok m ∧ isr (chip (ports m) false) = 1 ∧ isr (chip (ports m) true) = 0.

Lemma pic_eoi_ports irq (m : machine D) : ∃ d, pic_eoi irq m = Ret tt (set_ports d m).
Proof. unfold pic_eoi. destruct (8 <=? irq); [rewrite (kbind_run _ _ _ _ _ (io_out_run _ _ _))|rewrite kbind_ret]; rewrite io_out_run; eauto. Qed.

(** One interrupt of the timer is one tick of the scheduler. *)
Lemma timer_run c s out k' :
  serving (mch s) → real_handlers (mch s) !! 32%nat = Some (Some pit_handler) →
  scheduler_tick (frame_of 0x20 0 c) (knl s) = Ret out k' →
  ∃ c' d, interrupt (IDT_IRQ_BASE + 0) 0 c s = Ret c' (set_mch (set_ports d (mch s)) (set_knl k' s)) ∧ resumed out c c' ∧
    ∀ x, isr (chip d x) = 0.
Proof.
  intros (Hok & I1 & I2) Hh Ht.
  destruct (pic_eoi_spec (mch s) 0 Hok ltac:(lia) (conj I1 I2)) as (m' & Heoi & _ & _ & Hisr).
  destruct (pic_eoi_ports 0 (mch s)) as (d & Hd). assert (m' = set_ports d (mch s)) as -> by (rewrite Heoi in Hd; by injection Hd).
  destruct (interrupt_run ops_table stale fuel panic clobber 0x20 0 c _ _ _ _ _ _ _ pit_handler s (isr_run 0x20 0 c ltac:(lia) ltac:(lia)) ltac:(lia) Hh)
    as [Hr _].
  assert (∀ c : cpu, frame_of 0x20 0 (Cpu (gpr c) (special_of c) (u_rip c) (u_cs c) (u_rflags c) (u_rsp c) (u_ss c) (stack c)) = frame_of 0x20 0 c)
    as Hfr by (by intros []).
  destruct (Hr out (set_mch (set_ports d (mch s)) (set_knl k' s))) as (c' & Hc & Hres).
  - cbn [run_handler]. unfold pit_handler_code. change (if pushes_error 32 then 0 else 0) with 0. rewrite Hfr.
    assert (in_knl (scheduler_tick (frame_of 0x20 0 c)) s = Ret out (set_knl k' s)) as Hk by (by apply zoom_run).
    rewrite (kbind_run _ _ _ _ _ Hk).
    assert (in_mch (pic_eoi 0) (set_knl k' s) = Ret tt (set_mch (set_ports d (mch s)) (set_knl k' s))) as Hm by (by apply zoom_run).
    rewrite (kbind_run _ _ _ _ _ Hm). reflexivity.
  - exists c', d. split; [exact Hc|]. split; [|exact Hisr]. destruct c. exact Hres.
Qed.

(** A run of timer interrupts is a run of ticks on the frames. *)
Lemma timer_ticks l s outs k' :
  real_handlers (mch s) !! 32%nat = Some (Some pit_handler) →
  Forall (λ x, serving (set_ports x.2 (mch s))) l →
  run_ticks ((λ x, frame_of 0x20 0 x.1) <$> l) (knl s) = Ret outs k' →
  ∃ cs s', timer_interrupts l s = Ret cs s' ∧ knl s' = k' ∧
    Forall2 (λ x cc, resumed x.1 x.2 cc) (zip outs (l.*1)) cs ∧ length outs = length l ∧
    (l ≠ [] → ∀ x, isr (chip (ports (mch s')) x) = 0).
Proof.
  revert s outs. induction l as [|[c d] l IH]; intros s outs Hh Hl Hrun; cbn [timer_interrupts].
  { injection Hrun as <- <-. by exists [], s. }
  apply Forall_cons in Hl as [Hs Hl]. cbn [fmap list_fmap run_ticks fst] in Hrun.
  apply kbind_inv in Hrun as (out & k1 & Ht & Hrun). apply kbind_inv in Hrun as (outs1 & k2 & Hrun & [= <- <-]).
  rewrite (kbind_run (kmod (λ s, set_mch (set_ports d (mch s)) s)) _ s tt (set_mch (set_ports d (mch s)) s) eq_refl).
  destruct (timer_run c (set_mch (set_ports d (mch s)) s) out k1 Hs Hh Ht) as (c' & d' & Hc & Hres & Hisr).
  rewrite (kbind_run _ _ _ _ _ Hc). set (s1 := set_mch _ (set_knl k1 _)) in *.
  destruct (IH s1 outs1 Hh Hl Hrun) as (cs & s' & Hcs & Hk & Hall & Hlen & Hi).
  rewrite (kbind_run _ _ _ _ _ Hcs). exists (c' :: cs), s'. split; [reflexivity|]. split; [exact Hk|].
  split; [by constructor|]. split; [simpl; lia|]. intros _ x.
  destruct l as [|y l]; [|by apply Hi]. cbn in Hcs. injection Hcs as <- <-. apply Hisr.
Qed.

End timer.

(** ** After a panic

    [hcf] of [util/cpu.c], which ends [kpanic], sets the interrupt flag before
    it halts: the timer goes on interrupting. *)

Section after_panic.
Context {E M D T : Type} `{KernelEnvLaws E} `{ProcMem M} `{PicLaws D} (junk : Z) (ofuel : nat).
Context (flanterm_write : Z → list Z → T → T) (putchar_code : Z → Z → T → T).
Context (printk_buff_start frame hhdm_offset kernel_vma_context : Z) (pfuel : nat).
Context (Hframe : 0 < frame) (Hoff : off_ring printk_buff_start frame 1024).
Context (stale : pcb → Z) (fuel : nat) (clobber : cpu → reg → Z).
Implicit Types s : system E M D T.

Lemma sched_ok_kfs (k : kst E M) f ps : sched_ok k ps → sched_ok (kset_kfs f k) ps.
Proof. by intros []. Qed.

(** With no process in a system call the panic leaves the processes alone. *)
Lemma sched_ok_panicked (k : kst E M) ps cur : sched_ok k ps → ps !! Z.to_nat (current_pid k) = Some cur → panicked k cur = k.
Proof.
  intros Hok Hc. destruct (so_proc _ _ Hok _ _ Hc) as (H0' & b & Hb & _ & _ & Hin & _). unfold panicked.
  rewrite (proj2 (Z.eqb_neq cur 0)), Hb by done. rewrite insert_id; [by destruct k|]. rewrite Hb. f_equal. destruct b. cbn in Hin. by rewrite Hin.
Qed.

Lemma get_current_run (k : kst E M) ps cur : sched_ok k ps → ps !! Z.to_nat (current_pid k) = Some cur → scheduler_get_current k = Ret cur k.
Proof.
  intros Hok Hc. destruct (sched_slot k ps (current_pid k) Hok (so_current _ _ Hok)) as (p & b & Hp & _ & _ & Hg & _).
  rewrite Hc in Hp. injection Hp as <-. unfold scheduler_get_current. by destruct (so_table _ _ Hok) as (l & -> & _).
Qed.

(** The handler of the exceptions. *)
Definition panic_code (cpu0 junkr : register_ctx) (ret buf : Z) : register_ctx → kernel (system E M D T) unit :=
  idt_default_interrupt_code (kernel_ops junk ofuel) flanterm_write putchar_code printk_buff_start frame hhdm_offset
    kernel_vma_context pfuel cpu0 junkr ret buf.

End after_panic.

(** *** Two processes, the keyboard and the timer *)

Definition demo_cpu (v : Z) : cpu := Cpu (λ _, v) (λ _, 0) (0x400000 + v) 0x23 0x202 (0x7000 + v) 0x1b [].

Definition timer_board : board :=
  Board (PicChip 0xF8 0x20 4 0 1) (PicChip 0xEF 0x28 2 0 0) (Ps2 [0x1E] 0x45 true 0x55 false) false false true.

Definition demo_system : system demo_env demo_mem board (list Z) :=
  System demo_kst (Terminal ∅ 0 false [] [] 0 0)
    (Machine timer_board [] (<[33%nat := Some kbd_handler]> (<[32%nat := Some pit_handler]> (replicate 256 None))) 0xEFF8 0 0)
    (Segs [] (TssEntry 0 0) (0, 0) (0, 0) 0 0 0).

Lemma demo_serving : serving (set_ports timer_board (mch demo_system)).
Proof. split; [split; [cbn; lia|by vm_compute|by vm_compute]|by split]. Qed.



(** A page fault of the first process. *)
Definition crash_system : system demo_env demo_mem board (list Z) :=
  System (kset_kfs (Fs ∅ (DemoEnv 9 ∅ 0) 0 0 0 []) demo_kst) (Terminal (store64 ∅ (0x9000 + CTX_ROOT) 0xA000) 0 false [] [] 0 0)
    (Machine timer_board [] (<[14%nat := Some idt_default_interrupt_handler]> (<[32%nat := Some pit_handler]> (replicate 256 None))) 0xEFF8 0 0)
    (Segs [] (TssEntry 0 0) (0, 0) (0, 0) 0 0 0).

