(* ===== verification/Boot.v ===== *)
(** * Start-up

    [kmain] of [main.c] and [post_main] of [post.c]: the order in which the
    components are set up, from the boot loader's answers to the first process,
    with every check that halts on the way.

    The theorems: without a usable answer of the boot loader the kernel prints
    why and halts with nothing set up; the log of the start is saved to its
    file, byte for byte; a missing [/etc/user.conf] halts the machine, although
    the code after it means to fall back to a default. *)

From stdpp Require Import base gmap list strings.
From Stdlib Require Import ZArith Lia.
From S2P Require Import Prelude Ram CString Format PageAlloc Pmm PortIO Rtc Interrupts Gdt Pci Vnode Vfs Ramfs Devfs Printf Log Config VfsMacros Keyboard Scheduler.
From S2P Require Import Vmm Vma Elf ProcSpace System.
#[local] Open Scope Z_scope.

Definition DEFAULT_INIT_PROC_PATH : list Z := str "/bin/init".
Definition DEFAULT_COM_PORT : Z := 0x3F8.

(** [main.c]: the answers of the boot loader, [None] where the pointer is NULL. *)
Record limine_module := LimineModule { mod_address : Z; mod_size : Z }.
Record responses (F : Type) := Responses {
  base_revision_supported : bool;
  framebuffers : option (list F);
  memmap_response : option (list memmap_entry);
  hhdm_response : option Z;
  kernel_address : option (Z * Z);
  modules : option (list limine_module);
}.
Arguments Responses {F} _ _ _ _ _ _.
Arguments base_revision_supported {F} _.
Arguments framebuffers {F} _.
Arguments memmap_response {F} _.
Arguments hhdm_response {F} _.
Arguments kernel_address {F} _.
Arguments modules {F} _.

(** Where the linker and the compiler put things: the sections, the globals, the
    literals and the buffers of the functions. *)
Record placement := Placement {
  pl_layout : Z → Z → layout;
  pl_gdt : Z; pl_tss : Z; pl_stubs : list Z; pl_procs : Z; pl_final : Z;
  pl_slash : Z; pl_newline : Z; pl_init_eq : Z; pl_init : Z; pl_cpuinfo : Z;
}.

(** The machine, and the globals only start-up uses: [strtok]'s static variable,
    [ft_ctx_priv], [kernel_vma_context], and whether the interrupt table is
    loaded and interrupts are on. *)
Record booting (E D T : Type) := Booting {
  bt_sys : system E (@vmm pmm) D T;
  strtok_last : Z;
  ft_ctx_priv : Z;
  kernel_vma_context : Z;
  idt_loaded : bool;
  interrupts_on : bool;
}.
Arguments Booting {E D T} _ _ _ _ _ _.
Arguments bt_sys {E D T} _.
Arguments strtok_last {E D T} _.
Arguments ft_ctx_priv {E D T} _.
Arguments kernel_vma_context {E D T} _.
Arguments idt_loaded {E D T} _.
Arguments interrupts_on {E D T} _.

Section boot.
Context {E D T F : Type} `{KernelEnv E} `{PortIO D} `{PortIO32 D}.
(** The terminal library: what [flanterm_fb_init] returns, refreshing, clearing
    and writing. *)
Context (flanterm_fb_init : F → T → Z * T) (flanterm_refresh flanterm_clear : Z → T → T).
Context (flanterm_write : Z → list Z → T → T) (putchar_code : Z → Z → T → T).
Context (beyond : Z → page_cache_entry) (junk : Z) (fresh : register_ctx) (place : placement).
Context (printk_buff_start frame : Z) (fuel : nat).
Abbreviation SYS := (system E (@vmm pmm) D T).
Abbreviation B := (booting E D T).
Abbreviation P := (kernel (printer E T)).
Abbreviation table := (kernel_ops junk fuel).
Abbreviation kprintf := (kprintf flanterm_write putchar_code printk_buff_start frame).
Abbreviation printf := (printf table frame).
Abbreviation info := (info flanterm_write putchar_code printk_buff_start frame).
Abbreviation trace := (trace flanterm_write putchar_code printk_buff_start frame).
Abbreviation warning := (warning table flanterm_write putchar_code printk_buff_start frame).
Abbreviation error := (error table flanterm_write putchar_code printk_buff_start frame).
Abbreviation assert := (assert table flanterm_write putchar_code printk_buff_start frame).
Abbreviation msg_assert := (msg_assert table flanterm_write putchar_code printk_buff_start frame).
Abbreviation VFS_READ := (VFS_READ table flanterm_write putchar_code printk_buff_start frame fuel).
Abbreviation MAIN := (str "src/main.c").
Abbreviation POST := (str "src/post.c").

Definition in_vmm {A} (c : kernel (@vmm pmm) A) : kernel SYS A := in_knl (in_kmem c).
Definition in_pmm {A} (c : kernel pmm A) : kernel SYS A := in_vmm (zoom alloc (λ s g, set_alloc g s) c).

(** ** [post.c] *)

(** What [scheduler_exit] calls when the last process is gone. *)
Definition final : kernel SYS unit :=
  in_printer (printf NL [] ;;; printf ([27] ++ str "[90m") [] ;;;
    printf (replicate 60 45 ++ NL) []) ;;;
  let* free := in_pmm (kget pmm_get_free_memory) in
  let* total := in_pmm (kget pmm_get_total_memory) in
  in_printer (
    printf (str "Free memory:" ++ [9] ++ str "%llu MB" ++ NL ++ str "Total memory:" ++ [9] ++ str "%llu MB" ++ NL)
      [VWord (BYTES_TO_MB free); VWord (BYTES_TO_MB total)] ;;;
    printf (replicate 60 45 ++ NL) [] ;;; printf NL [] ;;; printf ([27] ++ str "[0m") []) ;;;
  kret tt.

(** [init_path]: from the file, or the default. *)
Definition init_path (conf last : Z) : P (list Z) :=
  let* m := kget pram in
  match GET_KERNEL_CONFIG_VALUE fuel fuel m last conf (pl_newline place) (pl_init_eq place) (pl_init place) with
  | None => knofuel
  | Some (value, m, _) =>
      kmod (set_pram m) ;;;
      if value =? 0 then
        warning 0 (str "Failed to find a " ++ [34] ++ str "init" ++ [34] ++
          str " field in the /etc/user.conf file, is this intentional? Will use default init path") [] ;;;
        kret DEFAULT_INIT_PROC_PATH
      else λ s, match read_cstr fuel (pram s) value with Some l => Ret l s | None => NoFuel end
  end.

(** The configuration, if there is one. *)
Definition init_program (last : Z) : P (list Z) :=
  let* conf := VFS_READ POST 56 (str "/etc/user.conf") in
  if conf =? 0 then
    warning 0 (str "Failed to find " ++ [34] ++ str "/etc/user.conf" ++ [34] ++
      str ", is this intentional? Will use default config.") [] ;;; kret DEFAULT_INIT_PROC_PATH
  else init_path conf last.

(** [hhdm] is the offset of the direct map; the file's bytes go where the loader
    reads them. *)
Definition post_main (hhdm last : Z) : kernel SYS unit :=
  let _ : PageAlloc pmm := pmm_alloc hhdm beyond in
  let _ : ProcMem (@vmm pmm) := vmm_proc_mem hhdm fuel in
  let* t := in_files now in
  let* at_ := in_printer (timestamp_text fuel t) in
  in_printer (info (str "shadowOS Kernel v1.0 successfully initialized at %s") [VString at_]) ;;;
  let* root := in_printer VFS_ROOT in
  in_printer (assert (negb (root =? 0)) (str "VFS_ROOT()") POST 48) ;;;
  let* v := in_files (get_vnode root) in
  in_printer (assert (negb (child v =? 0)) (str "VFS_ROOT()->child") POST 49) ;;;
  in_mch (io (koutb DEFAULT_COM_PORT 27 ;;; koutb DEFAULT_COM_PORT 99)) ;;;
  let* path := in_printer (init_program last) in
  let* stack := in_vmm (kget kernel_stack_top) in
  in_seg (tss_init (pl_tss place) stack) ;;;
  in_knl scheduler_init ;;;
  in_printer (info (str "Launching %s as init proc") [VString path]) ;;;
  let* mount := in_printer VFS_ROOT_mount in
  let* init := in_files (vfs_lazy_lookup fuel fuel mount (Some path)) in
  if init =? 0 then
    in_printer (error ([34] ++ str "%s" ++ [34] ++ str " missing. Did you bootstrap correctly or is your /etc/user.conf wrong? Check your initramfs. (Halting System)")
      [VString path]) ;;; khalt
  else
  let* v := in_files (get_vnode init) in
  let* buf := in_files (kmalloc (vsize v)) in
  in_printer (assert (negb (buf =? 0)) (str "buf") POST 91) ;;;
  let* r := in_files (vfs_read table init buf (vsize v) 0) in
  in_pmm (kmod (λ s, Pmm.set_ram s (store_bytes (ram s) buf (snd r)))) ;;;
  let* pm := in_vmm (λ g, let '(pm, g) := vmm_new_pagemap hhdm g in Ret pm g) in
  in_printer (trace (str "Loaded new pagemap at 0x%.16llx") [VWord pm]) ;;;
  let* entry := in_pmm (elf_load_binary hhdm fuel buf pm) in
  in_printer (assert (negb (entry =? 0)) (str "entry != 0") POST 96) ;;;
  let* pid := in_knl (scheduler_spawn fresh (pl_procs place) true entry pm) in
  in_printer (trace (str "Spawned %s with pid %d") [VString path; VWord pid]) ;;;
  in_knl (scheduler_set_final (pl_final place)) ;;;
  in_mch pit_init ;;;
  khalt.

(** ** [main.c] *)

Definition BOOT_LOG : list Z := str "/var/log/boot.log".

(** The boot log goes to its file and the ring is cleared. *)
Definition save_boot_log : P unit :=
  let* mount := VFS_ROOT_mount in
  let* log := on_fs (vfs_lazy_lookup fuel fuel mount (Some BOOT_LOG)) in
  assert (negb (log =? 0)) (str "log") MAIN 204 ;;;
  let* n := kget printk_index in
  fwrite table log printk_buff_start n ;;;
  let* v := on_fs (get_vnode log) in
  on_fs (vfs_write table log (Some [0]) 1 (vsize v)) ;;;
  kmod (λ s, set_printk_index 0 (set_pram (memset (pram s) printk_buff_start 0 (printk_index s)) s)).

(** [vfs_create_vnode(vfs_lazy_lookup(VFS_ROOT()->mount, dir), name, type)] *)
Definition create_in (dir name : list Z) (type : Z) : P Z :=
  let* mount := VFS_ROOT_mount in
  let* par := on_fs (vfs_lazy_lookup fuel fuel mount (Some dir)) in
  on_fs (vfs_create_vnode table par (Some name) type).

(** [char vendor[13]] from the registers of [cpuid], up to its NUL. *)
Fixpoint until_nul (l : list Z) : list Z :=
  match l with
  | [] => []
  | c :: l => if c =? 0 then [] else c :: until_nul l
  end.
Definition vendor (ebx ecx edx : Z) : list Z := until_nul (le_bytes 4 ebx ++ le_bytes 4 edx ++ le_bytes 4 ecx).

(** [/proc] with [uptime] and [cpuinfo] *)
Definition make_proc (cpuid : Z * Z * Z) : P unit :=
  let* d := create_in (str "/") (str "proc") VNODE_DIR in
  assert (negb (d =? 0)) (str "vfs_create_vnode(vfs_lazy_lookup(VFS_ROOT()->mount, " ++ [34] ++ str "/" ++ [34] ++ str "), " ++ [34] ++ str "proc" ++ [34] ++ str ", VNODE_DIR)") MAIN 167 ;;;
  let* uptime_node := create_in (str "/proc") (str "uptime") VNODE_FILE in
  assert (negb (uptime_node =? 0)) (str "uptime_node") MAIN 171 ;;;
  fprintf table frame uptime_node (str "0.00 0.00") [] ;;;
  let* cpuinfo_node := create_in (str "/proc") (str "cpuinfo") VNODE_FILE in
  assert (negb (cpuinfo_node =? 0)) (str "cpuinfo_node") MAIN 176 ;;;
  let '(ebx, ecx, edx) := cpuid in
  let* m := kget pram in
  let* r := kopt (snprintf m (pl_cpuinfo place) 512 (str "vendor_id: %s" ++ NL) [VString (vendor ebx ecx edx)]) in
  kmod (set_pram (snd r)) ;;;
  assert (u64 (fst r) <? 512) (str "(uint64_t)len < sizeof(cpuinfo)") MAIN 189 ;;;
  fwrite table cpuinfo_node (pl_cpuinfo place) (u64 (fst r)) ;;;
  kret tt.

(** [/var/log/boot.log] *)
Definition make_boot_log : P unit :=
  create_in (str "/") (str "var") VNODE_DIR ;;;
  create_in (str "/var") (str "log") VNODE_DIR ;;;
  create_in (str "/var/log") (str "boot.log") VNODE_FILE ;;;
  info (str "Reached end of boot log") [] ;;;
  save_boot_log.

(** The first serial port, and its loopback test. *)
Definition serial_setup : list (Z * Z) :=
  [(1, 0x00); (3, 0x80); (0, 0x03); (1, 0x00); (3, 0x03); (2, 0xC7); (4, 0x0B); (4, 0x1E); (0, 0xAE)].
Definition serial_init : kernel SYS unit :=
  in_mch (io (foldr (λ w c, koutb (DEFAULT_COM_PORT + w.1) w.2 ;;; c) (kret tt) serial_setup)) ;;;
  let* v := in_mch (io (kinb (DEFAULT_COM_PORT + 0))) in
  (if v =? 0xAE then kret tt else
   in_printer (warning 0 (str "It looks like port: 0x%x (some COM port), is faulty. But yolo") [VWord DEFAULT_COM_PORT]) ;;; kret tt) ;;;
  in_mch (io (koutb (DEFAULT_COM_PORT + 4) 0x0F)).

(** The devices, up to the permissions of standard output. *)
Definition setup_devices : kernel SYS unit :=
  in_files (stdout_init table fuel) ;;;
  let* out := in_files (kget stdout) in
  in_printer (assert (negb (out =? 0)) (str "stdout") MAIN 239) ;;;
  in_mch (ps2_init fuel) ;;;
  in_mch (kbd_init fuel) ;;;
  in_files (kbd_register_fs table fuel (Some (str "ps2kb1"))) ;;;
  let* out := in_files (kget stdout) in
  in_files (vfs_chmod out (Z.lor (Z.lor VNODE_MODE_WUSR VNODE_MODE_WGRP) VNODE_MODE_WOTH)) ;;;
  kret tt.

Definition set_sys (s : SYS) (b : B) : B :=
  Booting s (strtok_last b) (ft_ctx_priv b) (kernel_vma_context b) (idt_loaded b) (interrupts_on b).
Definition in_sys {A} (c : kernel SYS A) : kernel B A := zoom bt_sys set_sys c.
(** The archive is in kernel memory. *)
Definition in_ustar {A} (c : kernel (ustar E) A) : kernel B A :=
  zoom (λ b, Ustar (kfs (knl (bt_sys b))) (t_ram (trm (bt_sys b))) (strtok_last b))
    (λ u b, let s := bt_sys b in let t := trm s in
       Booting (System (kset_kfs (u_fs u) (knl s))
                  (Terminal (u_mem u) (t_printk_index t) (t_put_lock t) (t_serial t) (t_screen t) (t_ft_ctx t) (t_putchar_impl t))
                  (mch s) (seg s))
         (u_last u) (ft_ctx_priv b) (kernel_vma_context b) (idt_loaded b) (interrupts_on b)) c.

Definition set_ft_ctx (x : Z) (s : printer E T) : printer E T :=
  Printer (pfs s) (pram s) (printk_index s) (put_lock s) (serial s) (screen s) x (putchar_impl s).
Definition say {A} (c : P A) : kernel B A := in_sys (in_printer c).

(** [util/cpu.c]: [hcf] enables interrupts before it halts, [hlt] does not. *)
Definition hcf : kernel B unit :=
  kmod (λ b, Booting (bt_sys b) (strtok_last b) (ft_ctx_priv b) (kernel_vma_context b) (idt_loaded b) true) ;;; khalt.
Definition hlt : kernel B unit := khalt.
Definition die (text : string) : kernel B unit := say (error (str text) []) ;;; hcf.

Definition BANNER : list Z := str "shadowOS Kernel v1.0 (c) Copyright 2025 Kevin Alavik <kevin@alavik.se>" ++ NL.

(** The terminal; the 72 bytes of the banner include its NUL. *)
Definition setup_terminal (fb : F) : kernel B unit :=
  say (kprintf BANNER []) ;;;
  let* t := in_sys (in_printer (kget screen)) in
  let '(ctx, t) := flanterm_fb_init fb t in
  kmod (λ b, Booting (bt_sys b) (strtok_last b) ctx (kernel_vma_context b) (idt_loaded b) (interrupts_on b)) ;;;
  say (kmod (set_screen t)) ;;;
  say (assert (negb (ctx =? 0)) (str "ft_ctx_priv != NULL") MAIN 106) ;;;
  say (kmod (λ s, set_screen (flanterm_refresh ctx (screen s)) s)) ;;;
  say (kmod (set_ft_ctx 0)) ;;;
  say (kmod (λ s, set_screen (flanterm_write ctx (BANNER ++ [0]) (screen s)) s)).

(** The clock, the segments and the interrupts. *)
Definition setup_cpu : kernel B unit :=
  in_sys (in_mch (io rtc_init)) ;;;
  in_sys (in_seg (gdt_init (pl_gdt place))) ;;;
  in_sys (in_mch (idt_init (pl_stubs place))) ;;;
  kmod (λ b, Booting (bt_sys b) (strtok_last b) (ft_ctx_priv b) (kernel_vma_context b) true false) ;;;
  in_sys (in_mch pic_init) ;;;
  kmod (λ b, Booting (bt_sys b) (strtok_last b) (ft_ctx_priv b) (kernel_vma_context b) (idt_loaded b) true).

(** The page tables and the kernel's own context. *)
Definition setup_memory (hhdm phys virt : Z) : kernel B unit :=
  let _ : PageAlloc pmm := pmm_alloc hhdm beyond in
  in_sys (in_vmm (vmm_init hhdm fuel (pl_layout place phys virt))) ;;;
  let* kpm := in_sys (in_vmm (kget kernel_pagemap)) in
  let* ctx := in_sys (in_pmm (vma_create_context hhdm kpm)) in
  kmod (λ b, Booting (bt_sys b) (strtok_last b) (ft_ctx_priv b) ctx (idt_loaded b) (interrupts_on b)) ;;;
  let* root := in_sys (in_pmm (kget (λ s, load64 (pa_ram s) (ctx + CTX_ROOT)))) in
  if (ctx =? 0) || (root =? 0) then die "Failed to create kernel VMA context, halting" else kret tt.

(** The root file system, from the first module of the boot loader. *)
Definition setup_files (r : responses F) : kernel B unit :=
  in_sys (in_files (vfs_init junk)) ;;;
  say (msg_assert (bool_decide (is_Some (modules r))) (str "module_request.response")
         (str "No modules passed to the kernel, expected at least one") MAIN 151) ;;;
  match modules r with
  | Some (m :: _) =>
      let* rm := in_sys (in_files (kget root_mount)) in
      in_sys (in_files (let* ty := kstrdup RAMFS in upd_mount rm (set_mtype ty))) ;;;
      say (assert (negb (rm =? 0)) (str "root_mount") MAIN 159) ;;;
      in_ustar (ramfs_init table junk fuel (pl_slash place) rm RAMFS_TYPE_USTAR (mod_address m) (mod_size m)) ;;;
      let* root := say VFS_ROOT in
      say (assert (negb (root =? 0)) (str "VFS_ROOT()") MAIN 161)
  | _ => kfault
  end.

Definition kmain (r : responses F) (rsp : Z) (cpuid : Z * Z * Z) : kernel B unit :=
  in_sys (in_vmm (kmod (λ g, Vmm (alloc g) (kernel_pagemap g) (Vmm.cr3 g) rsp))) ;;;
  if negb (base_revision_supported r) then die "Unsupported LIMINE base revision, halting" else
  match framebuffers r with
  | None | Some [] => die "No framebuffer available, halting"
  | Some (fb :: _) =>
  setup_terminal fb ;;;
  setup_cpu ;;;
  match hhdm_response r with
  | None => die "No HHDM available, halting"
  | Some hhdm =>
  in_sys (in_pmm (pmm_init hhdm (memmap_response r))) ;;;
  match kernel_address r with
  | None => die "No kernel address available, halting"
  | Some (phys, virt) =>
  setup_memory hhdm phys virt ;;;
  setup_files r ;;;
  in_sys (in_mch (io pci_debug_log)) ;;;
  say (make_proc cpuid) ;;;
  say make_boot_log ;;;
  in_sys (in_files (devfs_init table junk fuel)) ;;;
  let* ctx := kget ft_ctx_priv in
  say (kmod (λ s, set_ft_ctx 0 (set_screen (flanterm_clear ctx (screen s)) s))) ;;;
  in_sys serial_init ;;;
  in_sys setup_devices ;;;
  let* last := kget strtok_last in
  in_sys (post_main hhdm last) ;;;
  hlt
  end end end.
End boot.

(** ** The log of the start *)

Section log.
Context {E T : Type} `{KernelEnvLaws E} (junk : Z) (fuel : nat).
Context (flanterm_write : Z → list Z → T → T) (putchar_code : Z → Z → T → T) (printk_buff_start frame : Z).
Implicit Types s : printer E T.
Abbreviation table := (kernel_ops junk fuel).

(** While it is shorter than the ring, the log lies at the start of it. *)
Lemma ring_bytes s log : ring printk_buff_start s log → zlen log < PRINTK_BUFF_SIZE →
  printk_index s = zlen log ∧ bytes_at (pram s) printk_buff_start (length log) = log.
Proof.
  intros [Hi Hb] Hlen. pose proof (zlen_nonneg log). split; [rewrite Hi; by apply Z.mod_small|].
  apply list_eq. intros i. destruct (decide (i < length log)%nat) as [Hlt|Hge].
  - destruct (lookup_lt_is_Some_2 log i Hlt) as [c Hc]. rewrite bytes_at_lookup, Hc by done. f_equal.
    rewrite <- (Hb i c Hc ltac:(unfold zlen in *; lia)). f_equal. rewrite Z.mod_small; [done|unfold zlen in *; lia].
  - rewrite !lookup_ge_None_2; [done|lia|rewrite bytes_at_length; lia].
Qed.

(** [fwrite] to an empty file. *)
Lemma fwrite_file s p l buffer :
  free_file (pfs s) p [] → heap_ok (pfs s) → room (zlen l) 1 (env (pfs s)) → zlen l < 2 ^ 31 → buffer ≠ 0 → l ≠ [] →
  bytes_at (pram s) buffer (length l) = l →
  ∃ f, fwrite table p buffer (zlen l) s = Ret (zlen l) (set_pfs f s) ∧ heap_ok f ∧ free_file f p l.
Proof.
  intros Hf Hok Hroom Hlen Hbuf Hne Hbytes. unfold fwrite. assert (0 < zlen l) as Hpos by (destruct l; [done|rewrite zlen_cons; pose proof (zlen_nonneg l); lia]).
  destruct (Z.to_nat (zlen l)) as [|n] eqn:En; [lia|]. cbn [fwrite_loop]. rewrite (proj2 (Z.ltb_lt 0 _)) by lia.
  rewrite (kbind_run (kget _) _ _ _ _ eq_refl), Z.add_0_r, Z.sub_0_r. unfold pointed. rewrite (proj2 (Z.eqb_neq buffer 0)) by done.
  replace (Z.to_nat (zlen l)) with (length l) by (unfold zlen; lia). rewrite Hbytes.
  destruct (vfs_write_run junk table fuel eq_refl (pfs s) p [] l 0 Hf Hok) as (f & Hw & Ok' & Hf'); [done|lia|cbn [length]; unfold zlen in *; lia|left; cbn [length]; lia|].
  rewrite (kbind_run _ _ _ _ _ (on_fs_run _ s _ _ Hw)). fold (zlen l). rewrite (proj2 (Z.leb_gt (zlen l) 0)), Z.add_0_l by lia.
  exists f. assert (write_at junk [] l 0 = l) as Hwa; [|rewrite Hwa in Hf'; split; [|done]].
  - unfold write_at. rewrite take_0, app_nil_l, drop_ge; [by rewrite app_nil_r|]. unfold grown_by. cbn [length]. change (Z.of_nat 0 <=? 0) with true. cbn match. rewrite app_nil_l, length_replicate. lia.
  - destruct n; cbn [fwrite_loop]; rewrite Z.ltb_irrefl; unfold kret, s32; f_equal; rewrite Z.mod_small; lia.
Qed.

(** [/var/log/boot.log] as a path. *)
Lemma boot_log_path : BOOT_LOG = Vfs.path_of [str "var"; str "log"; str "boot.log"] ∧ Forall component [str "var"; str "log"; str "boot.log"].
Proof.
  split; [reflexivity|]. repeat constructor; try (vm_compute; lia || congruence).
Qed.

End log.

(** ** Starting, or not *)

Section start.
Context {E D T F : Type} `{KernelEnvLaws E} `{PortIO D} `{PortIO32 D}.
Context (flanterm_fb_init : F → T → Z * T) (flanterm_refresh flanterm_clear : Z → T → T).
Context (flanterm_write : Z → list Z → T → T) (putchar_code : Z → Z → T → T).
Context (beyond : Z → page_cache_entry) (junk : Z) (fresh : register_ctx) (place : placement).
Context (printk_buff_start frame : Z) (fuel : nat) (m0 : mem).
Context (Hframe : 0 < frame) (Hoff : off_ring printk_buff_start frame 1024).
Implicit Types b : booting E D T.
Implicit Types s : system E (@vmm pmm) D T.
Abbreviation CALM s := (calm printk_buff_start frame m0 (printer_of s)).
Abbreviation die := (die flanterm_write putchar_code junk printk_buff_start frame fuel).

(** Nothing but the log and the interrupt flag has changed. *)
Record untouched b b' : Prop := {
  un_mch : mch (bt_sys b') = mch (bt_sys b);
  un_seg : seg (bt_sys b') = seg (bt_sys b);
  un_knl : ∃ f, knl (bt_sys b') = kset_kfs f (knl (bt_sys b));
  un_globals : strtok_last b' = strtok_last b ∧ ft_ctx_priv b' = ft_ctx_priv b ∧ kernel_vma_context b' = kernel_vma_context b ∧
    idt_loaded b' = idt_loaded b;
}.

Lemma die_run text b log :
  CALM (bt_sys b) log → npf_vpprintf (str text) [] = Some (str text) → zlen (str text) < 2 ^ 31 →
  ∃ b', die text b = Halt b' ∧ untouched b b' ∧ interrupts_on b' = true ∧
    t_serial (trm (bt_sys b')) = t_serial (trm (bt_sys b)) ++ line_head 91 "ERROR" ++ fitting (str text) ++ NL.
Proof.
  intros Hc Ht Hl.
  assert (prints flanterm_write putchar_code printk_buff_start frame m0
    (error (kernel_ops junk fuel) flanterm_write putchar_code printk_buff_start frame (str text) [])
    (line_head 91 "ERROR" ++ fitting (str text) ++ NL) (line_head 91 "ERROR" ++ fitting (str text) ++ NL)) as Hp
    by (by apply (prints_line_ew junk fuel flanterm_write putchar_code printk_buff_start frame m0 Hframe Hoff 91 (str "error") _ _ (line_head 91 "ERROR") (str text))).
  destruct (in_printer_prints _ _ _ _ m0 _ _ _ (bt_sys b) log Hp Hc) as (a & p & Hrun & Hsaid).
  assert (∀ c : kernel (system E (@vmm pmm) D T) unit, c (bt_sys b) = Ret a (set_printer p (bt_sys b)) → in_sys c b = Ret a (set_sys (set_printer p (bt_sys b)) b))
    as Hin by (intros c Hc'; by apply zoom_run).
  eexists. unfold Boot.die, say. rewrite (kbind_run _ _ _ _ _ (Hin _ Hrun)). split; [reflexivity|].
  split; [|split; [reflexivity|exact (sd_serial _ _ _ _ _ _ _ _ _ _ Hsaid)]]. split; [done|done|by exists (pfs p)|done].
Qed.

(** The boot loader's answers.  When the boot loader does not support the
    revision of the protocol, or there is no framebuffer, [kmain] prints which
    of the two it is as an error and halts: no device has been touched and no
    table or memory manager set up.  Interrupts are enabled all the same, with no
    interrupt table loaded. *)
Theorem kmain_refuses r rsp cpuid b log
    (Hbad : base_revision_supported r = false ∨ framebuffers r = None ∨ framebuffers r = Some [])
    (Hcalm : CALM (bt_sys b) log) :
  let text := (if base_revision_supported r then "No framebuffer available, halting" else "Unsupported LIMINE base revision, halting")%string in
  ∃ b', kmain flanterm_fb_init flanterm_refresh flanterm_clear flanterm_write putchar_code beyond junk fresh place
      printk_buff_start frame fuel r rsp cpuid b = Halt b' ∧
    mch (bt_sys b') = mch (bt_sys b) ∧ seg (bt_sys b') = seg (bt_sys b) ∧ procs (knl (bt_sys b')) = procs (knl (bt_sys b)) ∧
    alloc (kmem (knl (bt_sys b'))) = alloc (kmem (knl (bt_sys b))) ∧
    kernel_pagemap (kmem (knl (bt_sys b'))) = kernel_pagemap (kmem (knl (bt_sys b))) ∧
    interrupts_on b' = true ∧ idt_loaded b' = idt_loaded b ∧
    t_serial (trm (bt_sys b')) = t_serial (trm (bt_sys b)) ++ line_head 91 "ERROR" ++ str text ++ NL.
Proof.
  intros text. unfold kmain.
  match goal with |- context [in_sys ?c] => assert (∃ b1, in_sys c b = Ret tt b1 ∧ CALM (bt_sys b1) log ∧ mch (bt_sys b1) = mch (bt_sys b) ∧
    seg (bt_sys b1) = seg (bt_sys b) ∧ procs (knl (bt_sys b1)) = procs (knl (bt_sys b)) ∧ idt_loaded b1 = idt_loaded b ∧
    alloc (kmem (knl (bt_sys b1))) = alloc (kmem (knl (bt_sys b))) ∧ kernel_pagemap (kmem (knl (bt_sys b1))) = kernel_pagemap (kmem (knl (bt_sys b))) ∧
    t_serial (trm (bt_sys b1)) = t_serial (trm (bt_sys b))) as (b1 & R1 & C1 & M1 & S1 & P1 & I1 & A1 & K1 & T1) end.
  { eexists. split; [reflexivity|]. split; [exact Hcalm|]. repeat (split; [reflexivity|]). reflexivity. }
  rewrite (kbind_run _ _ _ _ _ R1).
  assert (∀ t b', die t b1 = Halt b' → untouched b1 b' → interrupts_on b' = true →
    t_serial (trm (bt_sys b')) = t_serial (trm (bt_sys b1)) ++ line_head 91 "ERROR" ++ fitting (str t) ++ NL → fitting (str t) = str t →
    ∃ b', die t b1 = Halt b' ∧ mch (bt_sys b') = mch (bt_sys b) ∧ seg (bt_sys b') = seg (bt_sys b) ∧ procs (knl (bt_sys b')) = procs (knl (bt_sys b)) ∧
    alloc (kmem (knl (bt_sys b'))) = alloc (kmem (knl (bt_sys b))) ∧
    kernel_pagemap (kmem (knl (bt_sys b'))) = kernel_pagemap (kmem (knl (bt_sys b))) ∧
    interrupts_on b' = true ∧ idt_loaded b' = idt_loaded b ∧
    t_serial (trm (bt_sys b')) = t_serial (trm (bt_sys b)) ++ line_head 91 "ERROR" ++ str t ++ NL) as Hdie.
  { intros t b' Hd [Um Us [f Uk] (_ & _ & _ & Ui)] Hon Hs Hft. exists b'. rewrite Hs, Hft, Um, Us, Uk, Ui, Hon. cbn [procs kmem kset_kfs].
    rewrite M1, S1, I1, T1, P1, A1, K1. repeat (split; [first [exact Hd | reflexivity]|]). reflexivity. }
  unfold text. destruct (base_revision_supported r); cbn [negb].
  - destruct Hbad as [|Hfb]; [done|].
    destruct (die_run "No framebuffer available, halting" b1 log C1) as (b' & Hd & Hu & Hon & Hs); [vm_compute; reflexivity|vm_compute; reflexivity|].
    destruct Hfb as [-> | ->]; exact (Hdie _ b' Hd Hu Hon Hs eq_refl).
  - destruct (die_run "Unsupported LIMINE base revision, halting" b1 log C1) as (b' & Hd & Hu & Hon & Hs); [vm_compute; reflexivity|vm_compute; reflexivity|].
    exact (Hdie _ b' Hd Hu Hon Hs eq_refl).
Qed.

(** Looking at the files changes nothing. *)
Lemma in_files_same {A} (c : kernel (fs E) A) s a : c (kfs (knl s)) = Ret a (kfs (knl s)) → in_files c s = Ret a s.
Proof. intros Hc. unfold in_files, in_knl, in_kfs, zoom. rewrite Hc. by destruct s as [[] ? ? ?]. Qed.

(** The first line of [post_main]. *)
Lemma greeting_run s log stamp :
  CALM s log →
  ∃ p k, in_printer (info flanterm_write putchar_code printk_buff_start frame (str "shadowOS Kernel v1.0 successfully initialized at %s")
      [VString (take 19 stamp)]) s = Ret tt (set_printer p s) ∧ pfs p = kfs (knl s) ∧
    serial p = t_serial (trm s) ++ k ∧ ∃ log', CALM (set_printer p s) log'.
Proof.
  intros Hc. set (args := [VString (take 19 stamp)]).
  assert (checked (str "shadowOS Kernel v1.0 successfully initialized at %s") args) as (out & Ho & Hl)%checked_text.
  { exists [AString 19]. split; [|vm_compute; reflexivity]. repeat constructor. cbn [has_kind]. unfold zlen. rewrite length_take. lia. }
  assert (prints (E := E) flanterm_write putchar_code printk_buff_start frame m0
    (info flanterm_write putchar_code printk_buff_start frame (str "shadowOS Kernel v1.0 successfully initialized at %s") args)
    (line_head 92 "INFO " ++ fitting out ++ NL) []) as Hp
    by (by apply (prints_line flanterm_write putchar_code printk_buff_start frame m0 Hframe Hoff 92 (str "info") _ _ (line_head 92 "INFO ") out)).
  destruct (Hp (printer_of s) log Hc) as ([] & p & Hrun & Hsaid). exists p, (line_head 92 "INFO " ++ fitting out ++ NL).
  split; [by apply zoom_run|]. split; [exact (keeps_line _ _ _ _ _ _ _ _ _ _ _ Hrun)|].
  split; [exact (sd_serial _ _ _ _ _ _ _ _ _ _ Hsaid)|]. eexists. rewrite printer_view. exact (sd_calm _ _ _ _ _ _ _ _ _ _ Hsaid).
Qed.

Lemma conf_path : str "/etc/user.conf" = Vfs.path_of [str "etc"; str "user.conf"] ∧ Forall component [str "etc"; str "user.conf"].
Proof. split; [reflexivity|]. repeat constructor; try (vm_compute; lia || congruence). Qed.

(** C31: No default configuration.  When [/etc/user.conf] is missing, [post_main]
    does not go on with the default [/bin/init], as the warning after the read
    announces: the assertion of [VFS_READ] prints its line and halts the
    machine.  No process table has been made and no task segment loaded. *)
Theorem post_main_needs_conf hhdm last s log t roots m rv tm e' stamp
    (Hcalm : CALM s log) (Hmounted : mounted fuel (kfs (knl s)) t roots) (Hfuel : (2 ≤ fuel)%nat)
    (Hm : heap (kfs (knl s)) !! root_mount (kfs (knl s)) = Some (OMount m))
    (Hrv : m_root m ≠ 0 ∧ heap (kfs (knl s)) !! m_root m = Some (OVnode rv) ∧ child rv ≠ 0)
    (Htime : env_time (env (kfs (knl s))) = (tm, e')) (Hstamp : TIMESTAMP_TO_STRING fuel tm 0 = Some stamp)
    (Hconf : resolve_mounts t roots [str "etc"; str "user.conf"] = 0) :
  ∃ s' k out, npf_vpprintf ASSERT_FORMAT [VString (str "node"); VString (str "src/post.c"); VWord 56] = Some out ∧
    post_main flanterm_write putchar_code beyond junk fresh place printk_buff_start frame fuel hhdm last s = Halt s' ∧
    t_serial (trm s') = t_serial (trm s) ++ k ++ line_head 91 "ERROR" ++ fitting out ++ NL ∧
    procs (knl s') = procs (knl s) ∧ seg s' = seg s.
Proof.
  destruct Hrv as (Hr0 & Hrv & Hch). unfold post_main. cbv zeta.
  set (s1 := set_knl (kset_kfs (set_env e' (kfs (knl s))) (knl s)) s).
  assert (in_files now s = Ret tm s1) as H1'.
  { unfold in_files, in_knl, in_kfs, zoom, now. by rewrite Htime. }
  rewrite (kbind_run _ _ _ _ _ H1'). unfold timestamp_text. rewrite Hstamp.
  rewrite (kbind_run _ _ s1 (take 19 stamp) s1) by (by apply in_printer_same).
  destruct (greeting_run s1 log stamp) as (p & k & H2' & Hpfs & Hser & log2 & C2).
  { destruct Hcalm as [L R M S]. split; [exact L|exact R|exact M|exact S]. }
  rewrite (kbind_run _ _ _ _ _ H2'). set (s2 := set_printer p s1) in *.
  assert (kfs (knl s2) = set_env e' (kfs (knl s))) as Hkfs by exact Hpfs.
  assert (mounted fuel (kfs (knl s2)) t roots) as Hmt by (rewrite Hkfs; by destruct Hmounted).
  rewrite (kbind_run _ _ s2 (m_root m) s2).
  2: { apply in_printer_same, on_fs_same. change (pfs (printer_of s2)) with (kfs (knl s2)). rewrite Hkfs.
       rewrite (kbind_run (kget _) _ _ _ _ eq_refl). unfold kbind, get_mount. cbn [heap root_mount set_env]. by rewrite Hm. }
  rewrite (proj2 (Z.eqb_neq (m_root m) 0)) by done. unfold assert. cbn [negb].
  rewrite (kbind_run _ _ s2 tt s2) by (by apply in_printer_same).
  rewrite (kbind_run _ _ s2 rv s2) by (apply in_files_same, get_vnode_run; rewrite Hkfs; exact Hrv).
  rewrite (proj2 (Z.eqb_neq (child rv) 0)) by done. cbn [negb].
  rewrite (kbind_run _ _ s2 tt s2) by (by apply in_printer_same).
  match goal with |- context [in_mch ?c] => assert (∃ x, in_mch c s2 = Ret tt (set_mch x s2)) as (x & H3) by (by eexists) end.
  rewrite (kbind_run _ _ _ _ _ H3). unfold init_program. destruct conf_path as [-> Hcomp].
  destruct (read_missing_run junk fuel flanterm_write putchar_code printk_buff_start frame m0 (str "src/post.c") 56 (printer_of (set_mch x s2)) log2
    t roots [str "etc"; str "user.conf"] Hframe Hoff Hmt) as (out & q & Hout & Hhalt & Hq); [by split|done|vm_compute; congruence|exact C2|].
  exists (set_printer q (set_mch x s2)), k, out. split; [exact Hout|]. split; [|split; [|done]].
  - unfold kbind, in_printer, zoom. by rewrite Hhalt.
  - change (serial q = t_serial (trm s) ++ k ++ line_head 91 "ERROR" ++ fitting out ++ NL). rewrite Hq.
    change (serial (printer_of (set_mch x s2))) with (serial p). rewrite Hser. by rewrite <- app_assoc.
Qed.
End start.

(** *** A machine before the boot loader's answers are read, one without a
    configuration, and a file system with an empty boot log *)

#[local] Instance no_ports : PortIO unit := {| inb d _ := (0, d); outb d _ _ := d |}.
#[local] Instance no_ports32 : PortIO32 unit := {| inl d _ := (0, d); outl d _ _ := d |}.

Definition demo_place : placement := Placement (λ phys virt, Layout 0 0 0 0 0 0 0 0 0 0 phys virt) 0 0 [] 0 0 0 0 0 0 0.
Definition no_cache (i : Z) : page_cache_entry := CacheEntry 0 false 0.

Definition demo_machine (f : fs demo_env) : system demo_env (@vmm pmm) unit (list Z) :=
  System (Kst f (Vmm (pmm_boot ∅) 0 0 0) ∅ None ∅ 0 0 false 0) (Terminal ∅ 0 false [] [] 0 0)
    (Machine tt [] [] 0 0 0) (Segs [] (TssEntry 0 0) (0, 0) (0, 0) 0 0 0).

Definition demo_booting : booting demo_env unit (list Z) :=
  Booting (demo_machine (Fs ∅ (DemoEnv 9 ∅ 0) 0 0 0 [])) 0 0 0 false false.

Lemma demo_machine_calm f : stdout f = 0 → calm 0x100000 0x2000 ∅ (printer_of (demo_machine f)) [].
Proof. intros Hf. split; [reflexivity|split; [reflexivity|intros i c Hi; discriminate]|reflexivity|by left]. Qed.

Lemma kmain_refuses_witness :
  ∃ b', kmain (F := unit) (λ _ t, (1, t)) (λ _ t, t) (λ _ t, t) demo_screen demo_putchar no_cache 77 zero_regs demo_place 0x100000 0x2000 5
      (Responses true (Some []) None None None None) 0x7000 (0, 0, 0) demo_booting = Halt b' ∧
    t_serial (trm (bt_sys b')) = line_head 91 "ERROR" ++ str "No framebuffer available, halting" ++ NL.
Proof.
  destruct (kmain_refuses (F := unit) (λ _ t, (1, t)) (λ _ t, t) (λ _ t, t) demo_screen demo_putchar no_cache 77 zero_regs demo_place 0x100000 0x2000 5 ∅
    ltac:(lia) ltac:(left; vm_compute; congruence) (Responses true (Some []) None None None None) 0x7000 (0, 0, 0) demo_booting [])
    as (b' & Hrun & _ & _ & _ & _ & _ & _ & _ & Hs).
  - right. right. reflexivity.
  - apply demo_machine_calm. reflexivity.
  - exists b'. exact (conj Hrun Hs).
Defined.

Lemma post_main_needs_conf_witness :
  ∃ s', post_main demo_screen demo_putchar no_cache 77 zero_regs demo_place 0x100000 0x2000 5 0 0 (demo_machine one_file) = Halt s' ∧
    procs (knl s') = None.
Proof.
  destruct (post_main_needs_conf demo_screen demo_putchar no_cache 77 zero_regs demo_place 0x100000 0x2000 5 ∅
    ltac:(lia) ltac:(left; vm_compute; congruence) 0 0 (demo_machine one_file) [] one_file_view [2]
    (Mount 2 0 0 (SLit []) (SLit RAMFS) 0) (Vnode 2 0 3 1 VNODE_DIR (SLit ROOT_NAME) 0 0 0 0 0x1ed 0 0 0 RAMFS_OPS 0 false)
    0 (DemoEnv 10 {[1; 2; 3; 4; 5; 6]} 1) (date_buffer 1970 1 1 0 0 0)) as (s' & k & out & _ & Hrun & _ & Hp & _).
  - apply demo_machine_calm. reflexivity.
  - exact one_file_mounted.
  - lia.
  - reflexivity.
  - split; [discriminate|]. split; [reflexivity|discriminate].
  - reflexivity.
  - vm_compute. reflexivity.
  - vm_compute. reflexivity.
  - exists s'. exact (conj Hrun Hp).
Defined.

Definition dir_node (par ch : Z) (nm : string) : obj := OVnode (Vnode par 0 ch 1 VNODE_DIR (SLit (str nm)) 0 0 0 0 0x1ed 0 0 0 RAMFS_OPS 0 false).
Definition log_fs : fs demo_env :=
  Fs (<[1 := OMount (Mount 2 0 0 (SLit []) (SLit RAMFS) 0)]>
     (<[2 := dir_node 2 3 "/"]> (<[3 := dir_node 2 4 "var"]> (<[4 := dir_node 3 5 "log"]>
     (<[5 := OVnode (Vnode 4 0 0 1 VNODE_FILE (SLit (str "boot.log")) 0 6 0 0 0x1a4 0 0 0 RAMFS_OPS 0 false)]>
     (<[6 := OData (RamfsData 0 0)]> ∅))))))
     (DemoEnv 10 {[1; 2; 3; 4; 5; 6]} 0) 1 0 0 [].

Definition log_view : Vfs.view :=
  <[2 := (VNODE_DIR, [(3, str "var")])]> (<[3 := (VNODE_DIR, [(4, str "log")])]>
  (<[4 := (VNODE_DIR, [(5, str "boot.log")])]> (<[5 := (VNODE_FILE, [])]> ∅))).

Lemma log_mounted : mounted 5 log_fs log_view [2].
Proof.
  split.
  - intros p ty l Hp. unfold log_view in Hp. view_cases Hp; (split; [discriminate|]); eexists;
      (constructor; [reflexivity|reflexivity| |apply (bool_decide_unpack _); by vm_compute|apply (bool_decide_unpack _); by vm_compute|]).
    1,3,5: split; [reflexivity|]; split; [discriminate|]; eexists; split; [reflexivity|split; [reflexivity|reflexivity]].
    4: reflexivity.
    1,2,3: intros a Ha; apply list_elem_of_singleton in Ha as ->; split; [by vm_compute|by eexists].
    by intros a ?%not_elem_of_nil.
  - split; [discriminate|]. split; [discriminate|]. eexists. split; [reflexivity|]. by split.
  - repeat constructor.
  - simpl. lia.
  - intros p ty l Hp. unfold log_view in Hp. view_cases Hp; simpl; lia.
Qed.

Definition log_printer : printer demo_env (list Z) := Printer log_fs (store_bytes ∅ 0x100000 (str "hi")) 2 false [] [] 0 0.

