(* ===== verification/Stdout.v ===== *)
(** * The screen

    The screen side of [dev/stdout.c], with [putchar] of [main.c]; and
    [vfs_debug_print] of [dev/vfs.c], which lists a tree on standard output.

    The theorems: a write to standard output gives each byte of its buffer,
    once and in order, to the screen and to the serial port, which is what
    [Devfs.stdout_write] says of the port; listing a tree stops at its first
    vnode, where a string literal is freed. *)

From stdpp Require Import base gmap list strings.
From Stdlib Require Import ZArith Lia.
From S2P Require Import Prelude Ram CString Format Vnode Vfs Ramfs Devfs Printf Log VfsMacros Scheduler Gdt Interrupts PortIO System Pmm Vmm Boot.
#[local] Open Scope Z_scope.

Section screen.
Context {E D T : Type} `{KernelEnv E}.
Context (flanterm_write : Z → list Z → T → T).
Abbreviation B := (booting E D T).

(** [putchar(c)] of [main.c] *)
Definition putchar (c : Z) : kernel B unit :=
  let* ctx := kget ft_ctx_priv in
  in_sys (in_printer (kmod (λ s, set_screen (flanterm_write ctx [c] (screen s)) s))).

(** [outb(DEFAULT_COM_PORT, c)]: the bytes the port was given are [console]. *)
Definition out_com (c : Z) : kernel B unit :=
  in_sys (in_files (kmod (λ s, set_console (console s ++ [c]) s))).

(** [for (size_t i = 0; i < size; i++)] over the bytes of the buffer. *)
Fixpoint each (body : Z → kernel B unit) (bytes : list Z) : kernel B unit :=
  match bytes with
  | [] => kret tt
  | c :: bytes => body c ;;; each body bytes
  end.

(** [write] of [dev/stdout.c], with [_GRAPHICAL_STDOUT] *)
Definition write (buf : option (list Z)) (size offset : Z) : kernel B Z :=
  match buf with
  | None => khalt
  | Some bytes =>
      each (λ c, putchar c ;;; out_com c) (take (Z.to_nat size) bytes) ;;;
      kret (s32 size)
  end.

Definition read_vnode (vnode buf size offset : Z) : kernel B Z := kret 0.
Definition write_vnode (vnode : Z) (buf : option (list Z)) (size offset : Z) : kernel B Z :=
  match buf with
  | None => khalt
  | Some bytes => each putchar (take (Z.to_nat size) bytes) ;;; kret (s32 size)
  end.

(** What a run of bytes draws. *)
Definition drawn_on (ctx : Z) (bytes : list Z) (t : T) : T := foldl (λ t c, flanterm_write ctx [c] t) t bytes.

Definition set_drawn (bytes : list Z) (b : B) : B :=
  set_sys (set_printer (set_screen (drawn_on (ft_ctx_priv b) bytes (screen (printer_of (bt_sys b)))) (printer_of (bt_sys b))) (bt_sys b)) b.

Lemma putchar_run c b : putchar c b = Ret tt (set_drawn [c] b).
Proof. reflexivity. Qed.

Lemma set_drawn_app k l b : set_drawn l (set_drawn k b) = set_drawn (k ++ l) b.
Proof. unfold set_drawn, drawn_on, set_sys. cbn. by rewrite foldl_app. Qed.

Lemma set_drawn_nil b : set_drawn [] b = b.
Proof. by destruct b as [[[] [] ? ?] ? ? ? ? ?]. Qed.

(** The files after bytes went to the port. *)
Definition sent (bytes : list Z) (b : B) : B :=
  let f := kfs (knl (bt_sys b)) in
  set_sys (set_knl (kset_kfs (set_console (console f ++ bytes) f) (knl (bt_sys b))) (bt_sys b)) b.

Lemma both_run c b : (putchar c ;;; out_com c) b = Ret tt (sent [c] (set_drawn [c] b)).
Proof. by destruct b as [[[] [] ? ?] ? ? ? ? ?]. Qed.

Lemma sent_drawn k l k' l' b : sent l (set_drawn l' (sent k (set_drawn k' b))) = sent (k ++ l) (set_drawn (k' ++ l') b).
Proof.
  unfold sent, set_drawn, drawn_on, set_sys. destruct b as [[[] [] ? ?] ? ? ? ? ?]. cbn. unfold set_console. cbn.
  by rewrite foldl_app, app_assoc.
Qed.

Lemma each_both bytes b : each (λ c, putchar c ;;; out_com c) bytes b = Ret tt (sent bytes (set_drawn bytes b)).
Proof.
  revert b. induction bytes as [|c bytes IH]; intros b; cbn [each].
  - rewrite set_drawn_nil. destruct b as [[[[]] [] ? ?] ? ? ? ? ?]. unfold sent, set_console. cbn. by rewrite app_nil_r.
  - rewrite (kbind_run _ _ _ _ _ (both_run c b)), IH, sent_drawn. done.
Qed.

Lemma each_putchar bytes b : each putchar bytes b = Ret tt (set_drawn bytes b).
Proof.
  revert b. induction bytes as [|c bytes IH]; intros b; cbn [each]; [by rewrite set_drawn_nil|].
  by rewrite (kbind_run _ _ _ _ _ (putchar_run c b)), IH, set_drawn_app.
Qed.

End screen.

(** ** Listing a tree *)

Section listing.
Context {E T : Type} `{KernelEnv E}.
Context (ops_table : Z → option (vnode_ops E)).
Context (flanterm_write : Z → list Z → T → T) (putchar_code : Z → Z → T → T) (printk_buff_start frame : Z).
Abbreviation P := (kernel (printer E T)).
Abbreviation printf := (printf ops_table frame).

(** [flag_str]: the text that [snprintf] leaves in it. *)
Definition flag_str (v : vnode) : list Z := if has (flags v) VNODE_FLAG_MOUNTPOINT then str " (M)" else [].

Definition LISTING : list Z := str "%-*s%s%s (%s): %lu bytes" ++ NL.
Definition CHILD_LISTING : list Z := str "%-*s|-- %s%s (%s): %lu bytes" ++ NL.

Definition debug_line (fmt : list Z) (depth : Z) (v : vnode) : P Z :=
  let* nm := strptr_text (name v) in
  printf fmt [VWord (depth * 4); VString []; VString nm; VString (flag_str v); VString (vfs_type_to_str (vtype v)); VWord (vsize v)].

Fixpoint debug_children (rounds : nat) (depth child_vnode : Z) : P unit :=
  if child_vnode =? 0 then kret tt else
  let* v := on_fs (get_vnode child_vnode) in
  debug_line CHILD_LISTING (depth + 1) v ;;;
  match rounds with
  | O => knofuel
  | S rounds => debug_children rounds depth (next v)
  end.

(** [full_path] is not NULL, so the assertion holds and the return is not taken. *)
Fixpoint debug_vnodes (rounds fuel : nat) (current_vnode : Z) : P unit :=
  if current_vnode =? 0 then kret tt else
  let full_path := vfs_get_full_path current_vnode in
  let* v := on_fs (get_vnode current_vnode) in
  debug_line LISTING 0 v ;;;
  on_fs (kfree_str full_path) ;;;
  (if vtype v =? VNODE_DIR then debug_children fuel 0 (child v) else kret tt) ;;;
  match rounds with
  | O => knofuel
  | S rounds => debug_vnodes rounds fuel (next v)
  end.

Definition vfs_debug_print (fuel : nat) (mount : Z) : P unit :=
  if mount =? 0 then error ops_table flanterm_write putchar_code printk_buff_start frame (str "Invalid mount") [] else
  let* m := on_fs (get_mount mount) in
  let* type := strptr_text (mtype m) in
  let* point := strptr_text (mountpoint m) in
  printf (str "Mount: %s at %s" ++ NL) [VString type; VString point] ;;;
  debug_vnodes fuel fuel (m_root m).
End listing.

Section listed.
Context {E T : Type} `{KernelEnvLaws E} (junk : Z) (ofuel fuel : nat).
Context (flanterm_write : Z → list Z → T → T) (putchar_code : Z → Z → T → T) (printk_buff_start frame : Z) (m0 : mem).
Context (Hframe : 0 < frame) (Hoff : off_ring printk_buff_start frame 1024).
Implicit Types s : printer E T.

Lemma strptr_run s p l : has_name (heap (pfs s)) p l → strptr_text p s = Ret l s.
Proof. intros Hp. apply on_fs_same. by apply get_str_run. Qed.

(** Listing a tree does not end.  [vfs_debug_print] prints the line of the mount
    and the line of its root, and then frees what [vfs_get_full_path] returned,
    which is a string literal: the rest of the tree is never listed.  Without a
    mount it prints an error and returns. *)
Theorem debug_print_frees_literal s log mount m v type point nm out
    (Hcalm : calm printk_buff_start frame m0 s log)
    (Hm : heap (pfs s) !! mount = Some (OMount m)) (Hmount : mount ≠ 0)
    (Hv : m_root m ≠ 0 ∧ m_root m ≠ stdout (pfs s) ∧ heap (pfs s) !! m_root m = Some (OVnode v))
    (Htype : has_name (heap (pfs s)) (mtype m) type ∧ zlen type < 2 ^ 16)
    (Hpoint : has_name (heap (pfs s)) (mountpoint m) point ∧ zlen point < 2 ^ 16)
    (Hname : name v = SLit nm)
    (Hline : npf_vpprintf LISTING [VWord 0; VString []; VString nm; VString (flag_str v); VString (vfs_type_to_str (vtype v)); VWord (vsize v)] = Some out ∧
       zlen out < 2 ^ 31) :
  let print := vfs_debug_print (kernel_ops junk ofuel) flanterm_write putchar_code printk_buff_start frame fuel in
  print mount s = Fault ∧ ∃ s', print 0 s = Ret tt s'.
Proof.
  intros print. destruct Hv as (Hr0 & Hro & Hv). split.
  - unfold print, vfs_debug_print. rewrite (proj2 (Z.eqb_neq mount 0)) by done.
    rewrite (kbind_run _ _ s m s) by (apply on_fs_same; by apply get_mount_run).
    rewrite (kbind_run _ _ _ _ _ (strptr_run s _ _ (proj1 Htype))), (kbind_run _ _ _ _ _ (strptr_run s _ _ (proj1 Hpoint))).
    assert (checked (str "Mount: %s at %s" ++ NL) [VString type; VString point]) as (o & Ho & Hl)%checked_text.
    { exists [AString (2 ^ 16); AString (2 ^ 16)]. split; [|vm_compute; reflexivity].
      constructor; [cbn [has_kind]; lia|]. constructor; [cbn [has_kind]; lia|constructor]. }
    destruct (prints_printf junk ofuel flanterm_write putchar_code printk_buff_start frame m0 Hframe Hoff _ _ _ Ho Hl s log Hcalm) as (a & s1 & Hrun & S1).
    rewrite (kbind_run _ _ _ _ _ Hrun).
    assert (heap (pfs s1) !! m_root m = Some (OVnode v)) as Hv1 by (by rewrite (sd_files _ _ _ _ _ _ _ _ _ _ S1)).
    assert (∀ k, debug_vnodes (kernel_ops junk ofuel) frame k fuel (m_root m) s1 = Fault) as Hd; [|apply Hd].
    intros k. destruct (prints_printf junk ofuel flanterm_write putchar_code printk_buff_start frame m0 Hframe Hoff _ _ _ (proj1 Hline) (proj2 Hline)
      s1 _ (sd_calm _ _ _ _ _ _ _ _ _ _ S1)) as (a2 & s2 & Hrun2 & _).
    assert (debug_line (kernel_ops junk ofuel) frame LISTING 0 v s1 = Ret a2 s2) as Hdl.
    { unfold debug_line. rewrite (kbind_run _ _ _ _ _ (strptr_run s1 (name v) nm ltac:(by rewrite Hname))). exact Hrun2. }
    destruct k; cbn [debug_vnodes]; rewrite (proj2 (Z.eqb_neq (m_root m) 0)) by done;
      (rewrite (kbind_run _ _ s1 v s1) by (apply on_fs_same; by apply get_vnode_run)); by rewrite (kbind_run _ _ _ _ _ Hdl).
  - destruct (ends_error junk ofuel flanterm_write putchar_code printk_buff_start frame m0 Hframe Hoff (str "Invalid mount") []) with s log
      as ([] & s' & k & c & Hrun & _); [by words|done|]. by exists s'.
Qed.
End listed.

(** *** The tree with one file *)

Lemma one_file_calm : calm 0x100000 0x2000 ∅ one_file_printer [].
Proof. split; [reflexivity|split; [reflexivity|intros i c Hi; discriminate]|reflexivity|by left]. Qed.

Lemma debug_print_frees_literal_witness :
  vfs_debug_print (kernel_ops 77 5) demo_screen demo_putchar 0x100000 0x2000 5 1 one_file_printer = Fault.
Proof.
  destruct (debug_print_frees_literal (T := list Z) 77 5 5 demo_screen demo_putchar 0x100000 0x2000 ∅ ltac:(lia) ltac:(left; vm_compute; congruence)
    one_file_printer [] 1 (Mount 2 0 0 (SLit []) (SLit RAMFS) 0)
    (Vnode 2 0 3 1 VNODE_DIR (SLit ROOT_NAME) 0 0 0 0 0x1ed 0 0 0 RAMFS_OPS 0 false) RAMFS [] ROOT_NAME (str "/ (DIR): 0 bytes" ++ NL)) as [Hf _].
  - exact one_file_calm.
  - reflexivity.
  - discriminate.
  - split; [discriminate|]. split; [discriminate|reflexivity].
  - split; [reflexivity|vm_compute; reflexivity].
  - split; [reflexivity|vm_compute; reflexivity].
  - reflexivity.
  - split; vm_compute; reflexivity.
  - exact Hf.
Defined.
