(* ===== verification/BootFiles.v ===== *)
(** * The file system at start-up

    [vfs_init], the archive and the configuration file together: what
    [setup_files] of [Boot] leaves for the rest of start-up, and the path that
    [post_main] takes from [/etc/user.conf].

    The theorems: after [setup_files] the root file system is the archive of the
    first boot module; the init program is the one the configuration names. *)

From stdpp Require Import base gmap list strings.
From Stdlib Require Import ZArith Lia.
From S2P Require Import Prelude Ram CString PortIO Interrupts Gdt Vnode Vfs Ramfs Ustar Devfs Printf Log Config VfsMacros Scheduler Pmm Vmm System Boot.
#[local] Open Scope Z_scope.

(** ** What a routine leaves alone *)

(** [c] does not change the part of the state that [g] shows. *)
Definition steady {S X A} (g : S → X) (c : kernel S A) : Prop := ∀ s a s', c s = Ret a s' → g s' = g s.

Section steady.
Context {S X : Type} (g : S → X).

Lemma steady_ret {A} (a : A) : steady g (kret a).
Proof. by intros s b s' [= _ <-]. Qed.

Lemma steady_bind {A B} (c : kernel S A) (f : A → kernel S B) : steady g c → (∀ a, steady g (f a)) → steady g (kbind c f).
Proof.
  intros Hc Hf s b s'. unfold kbind. destruct (c s) as [a s1|?| | |] eqn:E; try done. intros Hr.
  rewrite (Hf _ _ _ _ Hr). by eapply Hc.
Qed.

Lemma steady_stop {A} : steady g (@kfault S A) ∧ steady g (@khalt S A) ∧ steady g (@kspin S A) ∧ steady g (@knofuel S A).
Proof. by repeat split. Qed.

Lemma steady_mod f : (∀ s, g (f s) = g s) → steady g (kmod f).
Proof. intros Hf s a s' [= _ <-]. apply Hf. Qed.

Lemma steady_get {A} (f : S → A) : steady g (kget f).
Proof. by intros s a s' [= _ <-]. Qed.

Lemma steady_bind_opt {A B} (o : option A) (f : A → kernel S B) : (∀ a, o = Some a → steady g (f a)) → steady g (kbind (kopt o) f).
Proof. destruct o as [a|]; intros Hf s b s' Hr; [by eapply Hf|done]. Qed.

Lemma steady_opt {A} (o : option A) : steady g (kopt o).
Proof. destruct o; [apply steady_ret|apply steady_stop]. Qed.
End steady.

Create HintDb steady.
#[export] Hint Resolve steady_ret steady_get steady_opt : steady.

(** One step: a sequence, a case, or a routine already known. *)
Ltac steady1 :=
  match goal with
  | |- steady _ (kbind _ _) => apply steady_bind; [|intros ?]
  | |- steady _ kfault => apply steady_stop
  | |- steady _ khalt => apply steady_stop
  | |- steady _ kspin => apply steady_stop
  | |- steady _ knofuel => apply steady_stop
  | |- steady _ (kmod _) => apply steady_mod; intros; reflexivity
  | |- steady _ (match ?x with _ => _ end) => destruct x
  | |- steady _ _ => solve [eauto with steady]
  end.
Ltac steady := repeat steady1.

Section globals.
Context {E : Type} `{KernelEnv E}.

(** The globals of the file systems, and what standard output was given. *)
Definition globals (f : fs E) : Z * Z * Z * list Z := (root_mount f, devfs_root f, stdout f, console f).

Lemma steady_look {A} (f : fs E → option A) (c : kernel (fs E) A) :
  (∀ s, c s = match f s with Some a => Ret a s | None => Fault end) → steady globals c.
Proof. intros Hc s a s'. rewrite Hc. by destruct (f s); intros [= _ <-]. Qed.

Lemma steady_get_vnode p : steady globals (get_vnode p).
Proof. apply (steady_look (λ s, match heap s !! p with Some (OVnode v) => Some v | _ => None end)). intros s. unfold get_vnode. by destruct (heap s !! p) as [[]|]. Qed.

Lemma steady_get_mount p : steady globals (get_mount p).
Proof. apply (steady_look (λ s, match heap s !! p with Some (OMount v) => Some v | _ => None end)). intros s. unfold get_mount. by destruct (heap s !! p) as [[]|]. Qed.

Lemma steady_get_str p : steady globals (get_str p).
Proof.
  apply (steady_look (λ s, match p with SNull => None | SHeap q => match heap s !! q with Some (OStr l) => Some l | _ => None end | SLit l => Some l end)).
  intros s. destruct p as [|q|l]; [done| |done]. unfold get_str. by destruct (heap s !! q) as [[]|].
Qed.

Lemma steady_put p o : steady globals (Vnode.put p o).
Proof. by apply steady_mod. Qed.

Lemma steady_kmalloc n : steady globals (kmalloc n).
Proof. intros s a s'. unfold kmalloc. destruct (env_malloc (env s) n). by intros [= _ <-]. Qed.

Lemma steady_now : steady globals now.
Proof. intros s a s'. unfold now. destruct (env_time (env s)). by intros [= _ <-]. Qed.

Lemma steady_kfree p : steady globals (kfree p).
Proof. intros s a s'. unfold kfree. destruct (p =? 0); [by intros [= _ <-]|]. destruct (heap s !! p); [by intros [= _ <-]|done]. Qed.
End globals.

#[export] Hint Resolve steady_get_vnode steady_get_mount steady_get_str steady_put steady_kmalloc steady_now steady_kfree : steady.

Section creating.
Context {E : Type} `{KernelEnv E} (junk : Z) (fuel : nat).
Abbreviation keep := (steady (globals (E := E))).

Lemma steady_upd_vnode p f : keep (upd_vnode p f).
Proof. unfold upd_vnode. steady. Qed.

Lemma steady_upd_mount p f : keep (upd_mount p f).
Proof. unfold upd_mount. steady. Qed.

Lemma steady_kstrdup l : keep (kstrdup l).
Proof. unfold kstrdup. steady. Qed.
#[local] Hint Resolve steady_upd_vnode steady_upd_mount steady_kstrdup : steady.

Lemma steady_lookup (n : nat) p nm : keep (vfs_lookup n p nm).
Proof.
  unfold vfs_lookup. steady1; [steady|]. generalize (child a). induction n as [|n IH]; intros c; cbn [lookup_loop]; steady; apply IH.
Qed.

Lemma steady_last_sibling (n : nat) c : keep (last_sibling n c).
Proof. revert c. induction n as [|n IH]; intros c; cbn [last_sibling]; steady; apply IH. Qed.
#[local] Hint Resolve steady_lookup steady_last_sibling : steady.

Lemma steady_acquire p : keep (spinlock_acquire p).
Proof. unfold spinlock_acquire. steady. Qed.

Lemma steady_release p : keep (spinlock_release p).
Proof. unfold spinlock_release. steady. Qed.
#[local] Hint Resolve steady_acquire steady_release : steady.

Lemma steady_link_child self new : keep (link_child fuel self new).
Proof. unfold link_child. steady. Qed.

Lemma steady_strncpy_name p l : keep (strncpy_name p l).
Proof. unfold strncpy_name. steady. Qed.
#[local] Hint Resolve steady_link_child steady_strncpy_name : steady.

Lemma steady_ramfs_create par nm type : keep (ramfs_create fuel par nm type).
Proof. unfold ramfs_create. steady. Qed.

Lemma steady_devfs_create par nm type : keep (devfs_create junk fuel par nm type).
Proof. unfold devfs_create. steady. Qed.
#[local] Hint Resolve steady_ramfs_create steady_devfs_create : steady.

Lemma steady_create par nm type : keep (vfs_create_vnode (kernel_ops junk fuel) par nm type).
Proof.
  unfold vfs_create_vnode. steady1; [steady|]. steady1; [steady|]. cbv zeta. steady1; [steady|]. steady1; [steady|].
  apply steady_bind_opt. intros o. unfold kernel_ops.
  destruct (_ =? RAMFS_OPS); [|destruct (_ =? DEVFS_OPS); [|done]]; intros [= <-]; cbn [op_create ramfs_ops devfs_ops]; steady.
Qed.
End creating.

(** ** The loader leaves them alone *)

Section loading.
Context {E : Type} `{KernelEnv E} (junk slash : Z) (fuel : nat).
Abbreviation table := (kernel_ops junk fuel).
Abbreviation keep := (steady (λ u : ustar E, globals (u_fs u))).

Lemma steady_in_fs {A} (c : kernel (fs E) A) : steady globals c → keep (in_fs c).
Proof. intros Hc [s m last] a u. unfold in_fs. cbn [u_fs u_mem u_last]. destruct (c s) as [b s'| | | |] eqn:Ec; intros [= <- <-]. exact (Hc s b s' Ec). Qed.

Lemma steady_on_mem {A} (f : mem → option A) : keep (on_mem f).
Proof. intros [s m last] a u. unfold on_mem. cbn [u_mem]. destruct (f m); by intros [= <- <-]. Qed.

Lemma steady_strtok str : keep (u_strtok fuel slash str).
Proof. intros [s m last] a u. unfold u_strtok. cbn [u_fs u_mem u_last]. destruct (strtok _ _ _ _ _) as [[[]]|]; by intros [= <- <-]. Qed.
#[local] Hint Resolve steady_in_fs steady_on_mem steady_strtok steady_upd_vnode steady_upd_mount steady_lookup steady_create : steady.

Lemma steady_octal p : keep (octal fuel p).
Proof. apply steady_on_mem. Qed.
#[local] Hint Resolve steady_octal : steady.

Lemma steady_descend (n : nat) h dir par tok : keep (ustar_descend table n fuel slash h dir par tok).
Proof.
  revert par tok. induction n as [|n IH]; intros par tok; cbn [ustar_descend]; steady; apply IH.
Qed.

Lemma steady_file h size par tok : keep (ustar_file table junk fuel slash h size par tok).
Proof. unfold ustar_file. steady. Qed.
#[local] Hint Resolve steady_descend steady_file : steady.

Lemma steady_entry root data offset : keep (ustar_entry table junk fuel slash root data offset).
Proof. unfold ustar_entry. steady. Qed.

Lemma steady_loop (n : nat) root data size offset : keep (ustar_loop table junk n fuel slash root data size offset).
Proof.
  pose proof steady_entry. revert offset. induction n as [|n IH]; intros offset; cbn [ustar_loop]; steady; apply IH.
Qed.

Lemma steady_kassert b : keep (kassert b).
Proof. unfold kassert. steady. Qed.
#[local] Hint Resolve steady_kassert steady_loop : steady.

Lemma steady_ramfs_init mnt type data size : keep (ramfs_init table junk fuel slash mnt type data size).
Proof. unfold ramfs_init, ramfs_init_ustar. steady. Qed.
End loading.

(** ** The root mount *)

Section root.
Context {E : Type} `{KernelEnvLaws E}.
Implicit Types s : fs E.

(** An allocation out of a supply. *)
Lemma alloc_run s n max k :
  heap_ok s → supply max (S k) (env s) → 0 < n ≤ max → n ≤ 2 ^ 31 →
  ∃ p e, kmalloc n s = Ret p (set_env e s) ∧ p ≠ 0 ∧ heap s !! p = None ∧ supply max k e ∧
    (∀ o, heap_ok (set_heap (<[p := o]> (heap s)) (set_env e s))).
Proof.
  intros Hok Hs Hn Hb. destruct (kmalloc_run s n max k Hok (supply_room _ _ _ _ (Z.le_refl max) Hs) Hn Hb) as (p & e & Hm & Hp & Hf & _ & Hi & Hl & _).
  exists p, e. split; [done|]. split; [done|]. split; [done|]. split; [|intros o; by apply heap_ok_new].
  destruct Hs as [Hs _]. exact (proj2 (Hs _ _ _ Hn (kmalloc_env _ _ _ _ Hm))).
Qed.

(** The permissions of the root, [0755]. *)
Definition root_mode : Z := 0x1ED.

(** The root alone. *)
Definition bare_root : tree := {[ [] := Node true root_mode 0 [] ]}.

(** The mount [rm] with an empty directory for its root. *)
Record empty_root s (rm : Z) (mt : mount) (rv : vnode) : Prop := {
  er_mount : rm ≠ 0 ∧ heap s !! rm = Some (OMount mt);
  er_root : m_root mt ≠ 0 ∧ heap s !! m_root mt = Some (OVnode rv);
  er_empty : vtype rv = VNODE_DIR ∧ child rv = 0 ∧ locked rv = false;
  er_fields : v_mount rv = rm ∧ mode rv = root_mode ∧ creation_time rv = 0;
  er_only : m_next mt = 0;
}.

Lemma upd_mount_run s p m f :
  heap s !! p = Some (OMount m) → upd_mount p f s = Ret tt (set_heap (<[p := OMount (f m)]> (heap s)) s).
Proof. intros Hp. unfold upd_mount, kbind. by rewrite (get_mount_run s p m Hp). Qed.

(** Several allocations in a row. *)
Fixpoint blocks (e : E) (ns ps : list Z) (e' : E) : Prop :=
  match ns, ps with
  | [], [] => e' = e
  | n :: ns, p :: ps => ∃ e1, env_malloc e n = (p, e1) ∧ p ≠ 0 ∧ blocks e1 ns ps e'
  | _, _ => False
  end.

Lemma blocks_length e ns ps e' : blocks e ns ps e' → length ps = length ns.
Proof. revert e ps. induction ns as [|n ns IH]; intros e [|p ps]; cbn; try done. intros (e1 & _ & _ & Hps). by rewrite (IH _ _ Hps). Qed.

Lemma blocks_run max k ns : Forall (λ n, 0 < n ≤ max ∧ n ≤ 2 ^ 31) ns → ∀ e, env_inv e → supply max (length ns + k) e →
  ∃ ps e', blocks e ns ps e' ∧ NoDup ps ∧ (∀ p, p ∈ ps → p ∉ env_live e) ∧ env_inv e' ∧
    env_live e' = list_to_set ps ∪ env_live e ∧ supply max k e'.
Proof.
  induction 1 as [|n ns [Hn Hb] _ IH]; intros e Hi Hs.
  - exists [], e. split; [done|]. split; [constructor|]. split; [by intros p ?%not_elem_of_nil|]. split; [done|]. split; [set_solver|done].
  - destruct (env_malloc e n) as [p e1] eqn:Em. destruct Hs as [Hs _]. destruct (Hs _ _ _ Hn Em) as [Hp S1].
    destruct (env_malloc_fresh _ _ _ _ Hi (conj (proj1 Hn) Hb) Em) as [I1 [[? _]|(_ & Hf & L1)]]; [done|].
    destruct (IH e1 I1 S1) as (ps & e' & Hps & Hnd & Hfr & I' & L' & S'). exists (p :: ps), e'.
    split; [by exists e1|]. split.
    + constructor; [|done]. intros Hin. apply (Hfr p Hin). rewrite L1. clear. set_solver.
    + split; [|split; [done|split; [|done]]].
      * intros q [->|Hin]%elem_of_cons; [done|]. intros Hq. apply (Hfr q Hin). rewrite L1. clear -Hq. set_solver.
      * rewrite L', L1. clear. set_solver.
Qed.

Lemma kmalloc_block s n p e : env_malloc (env s) n = (p, e) → kmalloc n s = Ret p (set_env e s).
Proof. intros Hm. unfold kmalloc. by rewrite Hm. Qed.

Ltac kstep_mount :=
  cbv beta; match goal with |- context [kbind (upd_mount ?p ?f) ?k ?s] => erewrite (kbind_run (upd_mount p f) k s) by (eapply upd_mount_run; hlook) end.
Ltac kstep_block Hm Hp :=
  match type of Hm with _ = (?p, _) =>
    erewrite (kbind_run (kmalloc _)) by (apply kmalloc_block; exact Hm); try rewrite (proj2 (Z.eqb_neq p 0)) by exact Hp end.

Lemma vfs_init_run junk s max k :
  heap_ok s → 104 ≤ max → supply max (5 + k) (env s) →
  ∃ s' mt rv, vfs_init junk s = Ret tt s' ∧ empty_root s' (root_mount s') mt rv ∧ heap_ok s' ∧ supply max k (env s') ∧
    devfs_root s' = devfs_root s ∧ stdout s' = stdout s ∧ console s' = console s.
Proof.
  intros [Hi Hd] Hmax Hs.
  destruct (blocks_run max k [MOUNT_SIZEOF; VNODE_SIZEOF; 2; 1; 7]) with (e := env s) as (ps & e5 & Hps & Hnd & Hfr & I5 & L5 & S5); [|done|done|].
  { unfold MOUNT_SIZEOF, VNODE_SIZEOF. repeat constructor; lia. }
  pose proof (blocks_length _ _ _ _ Hps) as Hl. destruct ps as [|m [|r [|nm [|mp [|ty [|]]]]]]; try discriminate Hl.
  destruct Hps as (e1 & M1 & P1 & e2 & M2 & P2 & e3 & M3 & P3 & e4 & M4 & P4 & e5' & M5 & P5 & <-).
  repeat match goal with
  | Hn : NoDup (_ :: _) |- _ => apply NoDup_cons in Hn as [? Hn]
  | Hn : _ ∉ _ :: _ |- _ => apply not_elem_of_cons in Hn as [? Hn]
  end.
  unfold vfs_init.
  kstep_block M1 P1. kstep. kstep_block M2 P2. kstep_mount. kstep. kstep_block M3 P3. do 2 kstep. kstep_mount. kstep_block M4 P4.
  kstep. kstep_mount. kstep_block M5 P5. kstep. kstep_mount.
  eexists _, _, _. split; [reflexivity|].
  split; [|split; [|split; [exact S5|done]]].
  - cbn [root_mount set_root_mount]. constructor; cbn [heap set_root_mount].
    + split; [exact P1|hlook].
    + cbn [m_root set_mdata set_mtype set_mountpoint set_m_next set_m_prev set_m_root]. split; [exact P2|hlook].
    + repeat split.
    + repeat split.
    + reflexivity.
  - split; [exact I5|]. cbn [heap env set_root_mount set_heap set_env]. rewrite !dom_insert, L5. cbn [list_to_set]. clear -Hd. set_solver.
Qed.
End root.

(** ** The initial file system *)

Section initial.
Context {E D T F : Type} `{KernelEnvLaws E}.
Context (flanterm_write : Z → list Z → T → T) (putchar_code : Z → Z → T → T).
Context (junk : Z) (place : placement) (printk_buff_start frame : Z) (fuel : nat).
Implicit Types b : booting E D T.
Abbreviation table := (kernel_ops junk fuel).
Abbreviation setup_files := (setup_files (F := F) flanterm_write putchar_code junk place printk_buff_start frame fuel).

Definition files b : fs E := kfs (knl (bt_sys b)).
Definition kernel_memory b : mem := t_ram (trm (bt_sys b)).

(** The machine with other files, and with other kernel memory. *)
Definition with_files (f : fs E) b : booting E D T := set_sys (set_knl (kset_kfs f (knl (bt_sys b))) (bt_sys b)) b.
Definition with_memory (m : mem) (last : Z) b : booting E D T :=
  let s := bt_sys b in
  let t := trm s in
  Booting (System (knl s) (Terminal m (t_printk_index t) (t_put_lock t) (t_serial t) (t_screen t) (t_ft_ctx t) (t_putchar_impl t))
             (mch s) (seg s))
    last (ft_ctx_priv b) (kernel_vma_context b) (idt_loaded b) (interrupts_on b).

Lemma in_files_run {A} (c : kernel (fs E) A) b a f : c (files b) = Ret a f → in_sys (in_files c) b = Ret a (with_files f b).
Proof. intros Hc. unfold files in Hc. unfold in_sys, in_files, in_knl, in_kfs, zoom. by rewrite Hc. Qed.

Lemma with_files_twice f g b : with_files f (with_files g b) = with_files f b.
Proof. done. Qed.

Lemma in_files_look {A} (c : kernel (fs E) A) b a : c (files b) = Ret a (files b) → in_sys (in_files c) b = Ret a b.
Proof. intros Hc. rewrite (in_files_run _ _ _ _ Hc). by destruct b as [[[] ? ? ?] ? ? ? ? ?]. Qed.

Lemma in_ustar_run {A} (c : kernel (ustar E) A) b a f m last :
  c (Ustar (files b) (kernel_memory b) (strtok_last b)) = Ret a (Ustar f m last) → in_ustar c b = Ret a (with_memory m last (with_files f b)).
Proof. intros Hc. unfold files, kernel_memory in Hc. unfold in_ustar, zoom. by rewrite Hc. Qed.

Lemma say_same {A} (c : kernel (printer E T) A) b a : c (printer_of (bt_sys b)) = Ret a (printer_of (bt_sys b)) → say c b = Ret a b.
Proof. intros Hc. unfold say, in_sys, zoom. rewrite (in_printer_same _ _ _ Hc). by destruct b. Qed.

(** An allocated literal, stored in the mount. *)
Lemma retype_run s rm mt max k :
  heap_ok s → 104 ≤ max → supply max (S k) (env s) → heap s !! rm = Some (OMount mt) →
  ∃ ty s', (let* ty := kstrdup RAMFS in upd_mount rm (set_mtype ty)) s = Ret tt s' ∧ heap_ok s' ∧ supply max k (env s') ∧
    heap s' !! rm = Some (OMount (set_mtype ty mt)) ∧ (∀ p v, heap s !! p = Some (OVnode v) → heap s' !! p = Some (OVnode v)) ∧
    globals s' = globals s.
Proof.
  intros Hok Hmax Hs Hm. destruct (alloc_run s 6 max k Hok Hs) as (p & e & M & Hp & Hf & S' & Ok'); [lia..|].
  assert (p ≠ rm) by congruence. exists (SHeap p). eexists. split; [|split; [|split; [|split; [|split]]]].
  - unfold kstrdup. rewrite kbind_assoc, (kbind_run _ _ _ _ _ M), (proj2 (Z.eqb_neq p 0)) by done. do 2 kstep.
    apply upd_mount_run. hlook.
  - eapply heap_ok_set; [apply Ok'|]. hlook.
  - exact S'.
  - cbn [heap set_heap]. by rewrite lookup_insert_eq.
  - intros q v Hq. assert (q ≠ p) by congruence. assert (q ≠ rm) by congruence. hlook.
  - done.
Qed.

End initial.

(** *** Witness: a machine with the archive of [Ustar] as its only module *)

Definition start_place : placement := Placement (λ phys virt, Layout 0 0 0 0 0 0 0 0 0 0 phys virt) 0 0 [] 0 0 100 0 0 0 0.

Definition start_machine (m : mem) (f : fs demo_env) : booting demo_env unit (list Z) :=
  Booting (System (Kst f (Vmm (pmm_boot ∅) 0 0 0) ∅ None ∅ 0 0 false 0) (Terminal m 0 false [] [] 0 0)
    (Machine tt [] [] 0 0 0) (Segs [] (TssEntry 0 0) (0, 0) (0, 0) 0 0 0)) 0 0 0 false false.

Definition no_files : fs demo_env := Fs ∅ (DemoEnv 40 ∅ 0) 0 0 0 [].


(** ** The init program *)

Section program.
Context {E T : Type} `{KernelEnvLaws E}.
Context (flanterm_write : Z → list Z → T → T) (putchar_code : Z → Z → T → T).
Context (junk : Z) (place : placement) (printk_buff_start frame : Z) (fuel : nat).
Context (Hframe : 0 < frame) (Hoff : off_ring printk_buff_start frame 1024).
Implicit Types s : printer E T.

Definition NO_INIT : list Z :=
  str "Failed to find a " ++ [34] ++ str "init" ++ [34] ++
  str " field in the /etc/user.conf file, is this intentional? Will use default init path".

Lemma calm_elsewhere s log m e :
  calm printk_buff_start frame (pram s) s log →
  (∀ a, printk_buff_start ≤ a < printk_buff_start + PRINTK_BUFF_SIZE → load8 m a = load8 (pram s) a) →
  calm printk_buff_start frame m (set_pram m (set_pfs (set_env e (pfs s)) s)) log.
Proof. intros [L R M S] Hm. split; [exact L|by eapply ring_ext, R|done|exact S]. Qed.

End program.

(** *** Witness: a file that names [/bin/sh] *)

Definition conf : list Z := conf_text "quiet=1" "init=/bin/sh".
Definition conf_fs : fs demo_env :=
  Fs (<[1 := OMount (Mount 2 0 0 (SLit []) (SLit RAMFS) 0)]>
     (<[2 := dir_node 2 3 "/"]> (<[3 := dir_node 2 4 "etc"]>
     (<[4 := OVnode (Vnode 3 0 0 1 VNODE_FILE (SLit (str "user.conf")) 21 5 0 0 0x1a4 0 0 0 RAMFS_OPS 0 false)]>
     (<[5 := OData (RamfsData 6 21)]> (<[6 := OBuf conf]> ∅))))))
     (DemoEnv 10 {[1; 2; 3; 4; 5; 6]} 0) 1 0 0 [].
Definition conf_view : Vfs.view :=
  <[2 := (VNODE_DIR, [(3, str "etc")])]> (<[3 := (VNODE_DIR, [(4, str "user.conf")])]> (<[4 := (VNODE_FILE, [])]> ∅)).

Lemma conf_mounted : mounted 99 conf_fs conf_view [2].
Proof.
  split.
  - intros p ty l Hp. unfold conf_view in Hp. view_cases Hp; (split; [discriminate|]); eexists;
      (constructor; [reflexivity|reflexivity| |apply (bool_decide_unpack _); by vm_compute|apply (bool_decide_unpack _); by vm_compute|]).
    1,3: split; [reflexivity|]; split; [discriminate|]; eexists; split; [reflexivity|split; [reflexivity|reflexivity]].
    3: reflexivity.
    1,2: intros a Ha; apply list_elem_of_singleton in Ha as ->; split; [by vm_compute|by eexists].
    by intros a ?%not_elem_of_nil.
  - split; [discriminate|]. split; [discriminate|]. eexists. split; [reflexivity|]. by split.
  - repeat constructor.
  - simpl. lia.
  - intros p ty l Hp. unfold conf_view in Hp. view_cases Hp; simpl; lia.
Qed.

Definition conf_place : placement := Placement (λ phys virt, Layout 0 0 0 0 0 0 0 0 0 0 phys virt) 0 0 [] 0 0 100 1000 1010 1020 0.
Definition conf_printer : printer demo_env (list Z) :=
  Printer conf_fs (store_bytes (store_bytes (store_bytes ∅ 1000 [10]) 1010 (str "init=")) 1020 (str "init")) 0 false [] [] 0 0.

